(* ===== verification/_CoqProject ===== *)
-Q . S2P
Prelude.v
Counter.v
GoStrings.v
GoEncoding.v
Events.v
Monitor.v
GoNet.v
GoNetText.v
GoJson.v
JsonStruct.v
WGTypes.v
DeviceParser.v
WireguardConfig.v
ConfigFile.v
CtrlService.v
WireguardClient.v
ClientSystem.v
ClientRuns.v
StatusTexts.v
CtrlClient.v
VpnClient.v
WireguardWindows.v
VpnService.v
PortMapper.v
PortLeases.v
ApiClient.v
AuthSession.v
TestNode.v
MeshMessages.v
Daemon.v
DaemonStop.v
MonitorJson.v
MonitorSystem.v
MonitorHistory.v
MonitorExamples.v
DaemonStatus.v
Publishing.v
VpnTraffic.v
