(* ===== verification/Prelude.v ===== *)
(** * Verification of mycloudspace-common

    The repository is a Go library that the MyCloudSpace client and node share.
    Its parts, under src/:

    - monitors: counters that callers move, and a service that collects their
      values on a timer and posts them to the cloud from goroutines;
    - events: turning cloud events into compressed payloads for publishing, and
      pairing the publisher's results with the events again;
    - network: a UPnP port mapper that keeps mappings alive with a timer;
    - mycsnode: the client that keeps an authenticated and encrypted session with
      a space node, and the messages about keys of the mesh;
    - vpn: where a VPN configuration comes from, the WireGuard configuration file,
      the control service and client of a WireGuard interface, and the WireGuard
      client that brings the tunnel up and down and feeds the monitors with its
      traffic;
    - tailscale: a daemon around the tailscale libraries, and the parser of the
      state of its WireGuard device.

    The VPN client calls the monitors (it registers two counters with a monitor
    service), the monitor service calls a sender that answers with the errors of
    the events package, and everything else meets at the libraries.

    ** Files

    Foundations.
    - [Prelude]: 64-bit integers with wrap-around and the congruence [=64], the
      [result] type of fallible code (a value, an error, or a panic) and its monad,
      the error values, sums over lists, the tactics and the hint database [go].
    - [GoStrings], [GoEncoding], [GoNet], [GoJson], [JsonStruct]: the parts of Go's
      standard library that the code uses, as executable functions with their
      round trips: strings, strconv, bufio.Scanner; hex and base64; net and
      net/netip; encoding/json as text and on structs.
    - [GoNetText]: the text of addresses and networks: what net.ParseCIDR returns is well
      typed, and printed IPv4 and IPv6 networks read back.
    - [WGTypes]: the WireGuard types of the wgctrl package and the interface
      [WGKeys] to its keys, with an instance.

    Components.
    - [Counter]: monitors/counter.go.
    - [Events]: events/events.go, over the interface [CloudEvents] to the SDK.
    - [Monitor]: monitors/monitor.go, over the interface [PayloadCodec] to the JSON
      of its payloads; [MonitorJson] discharges that interface from the struct
      tags; [MonitorSystem] is the service as a transition system (timer, callers,
      goroutines waiting and posting, the sender's answers), [MonitorHistory] pins its
      amounts to the calls that moved the counters, and [MonitorExamples] is a run.
    - [DeviceParser]: tailscale/wireguard_device.go.
    - [WireguardConfig]: vpn/wireguard_config.go and wireguard_config_data.go;
      [ConfigFile]: what a configuration file means, whoever wrote it.
    - [CtrlService]: the control service of vpn/wireguard_ctrl.go, with
      wireguard_ctrl_unix.go and wireguard_ctrl_windows.go.
    - [WireguardClient]: vpn/wireguard_client.go, wireguard_client_unix.go and what
      the control client of wireguard_ctrl.go computes, an operation at a time.
    - [ClientSystem]: vpn/wireguard_client_unix.go and the control service as a system
      of goroutines, a call at a time; [ClientRuns] relates it to [WireguardClient]
      and holds runs over two connections.
    - [StatusTexts]: the status texts of vpn/wireguard_ctrl.go and of
      tailscale/wireguard_device.go beside each other.
    - [CtrlClient]: the control client of vpn/wireguard_ctrl.go, over the interface
      [WGCtrl] to wgctrl, and the way of a configuration into a device.
    - [VpnClient]: the interfaces [Config] and [Client] of vpn/service.go and their
      implementations, with [Save] and the OpenVPN stubs.
    - [WireguardWindows]: vpn/wireguard_client_windows.go, also as such a client.
    - [VpnService]: vpn/service.go, static_config_data.go and openvpn_config.go.
    - [VpnTraffic]: [WireguardClient] and [MonitorSystem] together.
    - [PortMapper]: network/port_mapper.go, and its interface; [PortLeases]: the mapper
      beside a router whose mappings expire, over the interface [Router].
    - [ApiClient]: mycsnode/api_client.go and auth.go, with the node of
      test/mocks/node.go as its counterpart; [AuthSession]: the two of them in time,
      over the interface [Ciphers]; [TestNode]: the rest of test/mocks/node.go.
    - [MeshMessages]: mycsnode/headscale.go.
    - [Daemon]: tailscale/tailscale_daemon.go; [DaemonStop]: its [Stop] beside the server
      and other holders of the lock; [DaemonStatus]: the status of the daemon's device,
      with [DeviceParser].
    - [Publishing]: the monitor service with a sender built of the events package, and the
      consumer of what it publishes.

    ** How code is represented

    A method is a function on the record of its receiver, with the source's names
    and guards.  A method that holds its lock for its whole body is one step; where
    the code starts goroutines, the steps interleave ([MonitorSystem], [CtrlService],
    [ClientSystem], [PortLeases], [AuthSession], [DaemonStop]) or the goroutine's state is part of
    the world ([WireguardClient]).  A send on an unbuffered channel and its receive are one
    joint step, and fields that goroutines share are references.  Errors are values
    of [error]; a run-time panic is [Panic].  A slice is a list; maps that are
    shared by reference live in a store.  Libraries outside the repository are
    classes or arguments, clocks and random draws are arguments, and what is assumed
    of a library is a class of laws with an instance that satisfies it.

    ** What the theorems show

    - Monitors: a counter refines a running total modulo 2^64 and its snapshots
      conserve it; in every reachable state of the service the amounts that were
      counted, for names whose counters are all cumulative, are those still in the
      counters, queued, in flight and accepted; [Stop] delivers them; refused payloads are
      queued again in order; posts happen every collectCount rounds; deleting a registered counter removes just it.
    - Events: payloads decode to the event; failures are reported for the events
      they belong to when no event was dropped; from the cumulative counters of a
      monitor service to the consumer of its payloads nothing is lost, but an event that
      cannot be prepared is.
    - Node client: an honest node and the client agree on secret and session; a
      success is bound to the request's nonce and the client's name; the session
      state is that of the last event of any history; the timer renews in time, so
      that beside a node that answers the session never lapses; the client and the
      handler of a mock service can talk to each other.
    - VPN: configuration files round-trip, from the service's JSON to the device's
      configuration, but for the keepalive interval, which the reader takes to be in
      nanoseconds; any file in the format is read as what it says, with that exception,
      and a tunnel that was connected with it shows its keys, endpoints and networks;
      reading never
      panics; the number of peers and the default route are those of the file;
      connecting and disconnecting are inverse, on Windows after any calls, and a failed
      connection leaves nothing but the control listener when the control client
      cannot be made; traffic is reported once; credentials match the role; a saved
      file reads as the same configuration.
    - VPN as goroutines: the first [Connect] of a client settles and [Disconnect] of that
      connection completes in every interleaving in which the device does not end by
      itself, with bounds on their schedules; one call of [Stop] of the control
      service returns after a [Start]; what the device transfers arrives at the sender, through the
      client's counters and the monitor service.
    - Daemon: the engine is that of the first tunnel name that works, and failed
      attempts release what they opened; after any start, [Stop] returns in every
      interleaving with the server and with others that take the lock; which node
      checks end; the status of a started daemon is that of the device of that engine
      once it is published.
    - Device parser: total, first error wins, inverse to the protocol's text, but for
      handshakes on a whole second; the daemon and the control client print the same
      status.
    - Port mapper: mappings kept alive are those accepted, leases outlive the
      refresh interval, one router only; a mapping that was granted once is there at
      every moment until [Close], and gone some time after it.
    - Deviations: theorems that exhibit where the code does not do what it means to
      (a section pattern that is not anchored, a keepalive in nanoseconds, networks
      refused for a space after the comma, results
      shifted by a dropped event, a wait that ends at once, a [Disconnect] that blocks
      when nothing is connected, a watcher that closes the next connection, and
      others).

    ** Bounds and fuel

    Decimal printing recurses on the number of bits plus one, which is at least the
    number of digits.  The JSON parser has fuel twice the length of the text plus
    one, and [GoJson.parse_print] shows it is enough for printed values.  The IPv6
    parser has one unit of fuel per group.  The loop of pings of [Daemon] need not
    end, and the theorem on it says when it does and how much fuel is enough.
    A schedule of [ClientSystem] is a list, and [ClientSystem.measure] bounds its
    length while no new operation begins; [DaemonStop.shutdown_m] does so in
    [DaemonStop] but for new locks.  [PortLeases] and
    [AuthSession] have bounds on delays as variables: how late a timer, how long a
    round or an exchange may be.  Their theorems ask that the delays of the mapper add
    up to less than 59 seconds of the minute that a lease outlasts its round, and that
    the timer of the client is less than the 50 milliseconds late by which it is set
    early.  Everything else is structural.  The
    scanner's limit of 64 KiB per line is part of the model.

    ** Not modelled

    - What the test library does behind the services of the test node: serving HTTPS,
      making certificates and targets.
    - The operating system and the libraries behind the environments of outcomes:
      sockets, the TUN device, wireguard-go, wireguard.exe, the network manager, UPnP,
      the tailscale libraries, the drawing of a QR code.
    - Logging, but for the verbosity of the daemon's; time zones in printed times, the texts of decoding errors.
    - Data races outside the locks, other than the one of [Daemon.run] and those of
      the fields of the client in [ClientSystem]; a step of the latter reads or writes
      a field atomically. *)

From Stdlib Require Export ZArith Lia.
From stdpp Require Export base list strings numbers sets gmap.
From Stdlib Require Ascii.
Export Stdlib.Strings.Ascii (ascii(..), ascii_of_nat, nat_of_ascii, ascii_of_N, N_of_ascii).
Export (notations) Stdlib.Strings.Ascii.

(** Appending to a literal computes. *)
#[global] Arguments String.append : simpl nomatch.

(** ** Machine integers

    Go's [int64] (and [int], which is 64 bits wide on every platform the
    repository builds for) is a [Z] in [-2^63, 2^63); each arithmetic result is
    brought back into that interval by [wrap64]. *)

Definition two63 : Z := 9223372036854775808.
Definition two64 : Z := 18446744073709551616.
Definition two32 : Z := 4294967296.
Definition two16 : Z := 65536.

(** [time.Duration] counts nanoseconds. *)
Definition Millisecond : Z := 1000000.
Definition Second : Z := 1000000000.
Definition Minute : Z := 60 * Second.

Definition wrap64 (x : Z) : Z := ((x + two63) mod two64 - two63)%Z.

Definition int64_range (x : Z) : Prop := (- two63 <= x < two63)%Z.

(** Conversion to an unsigned 32-bit integer, [uint32(x)]. *)
Definition uint32_of (x : Z) : Z := (x mod two32)%Z.

(** Congruence modulo 2^64: what two machine computations have in common before
    their results are brought back into range. *)
Definition eqm64 (x y : Z) : Prop := (x mod two64 = y mod two64)%Z.

Declare Scope go_scope.
Delimit Scope go_scope with go.
Infix "=64" := eqm64 (at level 70) : go_scope.
Notation "x +64 y" := (wrap64 (Z.add x y)) (at level 50, left associativity) : go_scope.
Notation "x -64 y" := (wrap64 (Z.sub x y)) (at level 50, left associativity) : go_scope.
Notation "x *64 y" := (wrap64 (Z.mul x y)) (at level 40, left associativity) : go_scope.
Open Scope go_scope.

Create HintDb go discriminated.
Create Rewrite HintDb go.

Section Int64.
Local Open Scope Z_scope.

#[global] Instance eqm64_equiv : Equivalence eqm64.
Proof. unfold eqm64. split; [done | by intros ?? -> | by intros ??? -> ->]. Qed.

#[global] Instance eqm64_add : Proper (eqm64 ==> eqm64 ==> eqm64) Z.add.
Proof.
  unfold eqm64. intros x x' Hx y y' Hy.
  by rewrite (Z.add_mod x y), (Z.add_mod x' y'), Hx, Hy by done.
Qed.

#[global] Instance eqm64_opp : Proper (eqm64 ==> eqm64) Z.opp.
Proof.
  intros x y Hxy.
  unfold eqm64 in *. rewrite <- !Z.sub_0_l.
  by rewrite (Zminus_mod 0 x), (Zminus_mod 0 y), Hxy.
Qed.

#[global] Instance eqm64_sub : Proper (eqm64 ==> eqm64 ==> eqm64) Z.sub.
Proof. intros x x' Hx y y' Hy. unfold Z.sub. by rewrite Hx, Hy. Qed.

#[global] Instance eqm64_mul : Proper (eqm64 ==> eqm64 ==> eqm64) Z.mul.
Proof.
  unfold eqm64. intros x x' Hx y y' Hy.
  by rewrite (Z.mul_mod x y), (Z.mul_mod x' y'), Hx, Hy by done.
Qed.

Lemma wrap64_eqm x : wrap64 x =64 x.
Proof.
  unfold eqm64, wrap64.
  rewrite Zminus_mod_idemp_l. f_equal. lia.
Qed.

#[global] Instance wrap64_proper : Proper (eqm64 ==> eq) wrap64.
Proof.
  intros x y Hxy. unfold wrap64, eqm64 in *.
  by rewrite (Z.add_mod x), (Z.add_mod y), Hxy by done.
Qed.

Lemma wrap64_range x : int64_range (wrap64 x).
Proof.
  unfold int64_range, wrap64.
  pose proof (Z.mod_pos_bound (x + two63) two64 eq_refl) as Hb.
  unfold two63, two64 in *. lia.
Qed.

Lemma wrap64_id x : int64_range x -> wrap64 x = x.
Proof.
  unfold int64_range, wrap64, two63, two64. intros Hx.
  rewrite Z.mod_small; lia.
Qed.

(** Two in-range values that agree modulo 2^64 are equal. *)
Lemma eqm64_inj x y : int64_range x -> int64_range y -> x =64 y -> x = y.
Proof. intros Hx Hy Hxy. rewrite <- (wrap64_id x), <- (wrap64_id y) by done. by rewrite Hxy. Qed.

Lemma uint32_of_id x : 0 <= x < two32 -> uint32_of x = x.
Proof. apply Z.mod_small. Qed.

End Int64.

#[export] Hint Resolve wrap64_range wrap64_id : go.

(** [eqm_ring] proves a congruence whose two sides are equal by ring arithmetic;
    [eqm] first drops the inner [wrap64]s. *)
Ltac eqm_ring := match goal with |- eqm64 ?x ?y => replace x with y by ring; reflexivity end.

Ltac eqm :=
  repeat match goal with
  | |- wrap64 _ = wrap64 _ => apply wrap64_proper
  | |- context [wrap64 ?x] => setoid_rewrite (wrap64_eqm x)
  end;
  eqm_ring.

(** [lia] that knows the equations of [/] and [mod]. *)
Ltac dlia := Z.div_mod_to_equations; lia.

(** ** Results of fallible code

    A Go function that returns [(T, error)] is a function to [result T].
    [Err e] is a non-nil error; [Panic] is a run-time panic (index out of range,
    write to a nil map, ...), which unwinds the goroutine.

    An error made by [fmt.Errorf] or [errors.New] is kept as its format and its
    arguments, unrendered; the structured errors of the standard library keep
    their fields.  Errors made by packages outside the repository are values the
    parameters of the model return. *)

Inductive error :=
| Errorf (format : string) (args : list string)
| NumError (func num why : string)
| InvalidByteError (b : ascii)
| ErrLength
| NetParseError (type_ text : string)
| SyscallError (call : string) (e : error)
| Wrapf (format : string) (args : list string) (e : error)
| ErrTooLong
| DeadlineExceeded
| Canceled.

#[global] Instance error_eq_dec : EqDecision error.
Proof. solve_decision. Defined.

(** A double quote, and a string between two of them. *)
Definition dquote : string := String (ascii_of_nat 34) EmptyString.
Definition quoted (s : string) : string := dquote +:+ s +:+ dquote.

Inductive result (A : Type) : Type :=
| Ok (a : A)
| Err (e : error)
| Panic (why : string).
Arguments Ok {A} a.
Arguments Err {A} e.
Arguments Panic {A} why.

#[global] Instance result_ret : MRet result := fun A a => Ok a.
#[global] Instance result_bind : MBind result := fun A B f r =>
  match r with Ok a => f a | Err e => Err e | Panic w => Panic w end.
#[global] Instance result_fmap : FMap result := fun A B f r =>
  match r with Ok a => Ok (f a) | Err e => Err e | Panic w => Panic w end.

#[global] Instance result_eq_dec {A} `{EqDecision A} : EqDecision (result A).
Proof. solve_decision. Defined.

Definition is_ok {A} (r : result A) : bool := match r with Ok _ => true | _ => false end.
Definition is_panic {A} (r : result A) : bool := match r with Panic _ => true | _ => false end.

Lemma result_bind_ok {A B} (f : A -> result B) (r : result A) b :
  r ≫= f = Ok b -> exists a, r = Ok a /\ f a = Ok b.
Proof. destruct r; naive_solver. Qed.

(** [bind_inv] opens every hypothesis [m ≫= f = Ok _]. *)
Ltac bind_inv :=
  repeat match goal with
  | H : _ ≫= _ = Ok _ |- _ =>
      let a := fresh "a" in let Ha := fresh "Ha" in
      apply result_bind_ok in H as (a & Ha & H); cbn beta in H
  | H : mret _ = Ok _ |- _ => injection H as H
  | H : Ok _ = Ok _ |- _ => injection H as H
  end.

(** [case_go] splits on the scrutinee of a [match] or [if] of the goal. *)
Ltac case_go :=
  match goal with
  | |- context [match ?x with _ => _ end] => let E := fresh "E" in destruct x eqn:E
  end.

(** ** Lists *)

Section Lists.
Context {A : Type}.
Implicit Types (l : list A).

(** Sum of an integer measure over a list. *)
Definition sum_by (f : A -> Z) (l : list A) : Z := foldr (fun x acc => (f x + acc)%Z) 0%Z l.

Lemma sum_by_nil f : sum_by f [] = 0%Z.
Proof. done. Qed.

Lemma sum_by_cons f x l : sum_by f (x :: l) = (f x + sum_by f l)%Z.
Proof. done. Qed.

Lemma sum_by_app f l1 l2 : sum_by f (l1 ++ l2) = (sum_by f l1 + sum_by f l2)%Z.
Proof. induction l1 as [|x l1 IH]; simpl; [done | rewrite IH; lia]. Qed.

Lemma sum_by_perm f l1 l2 : l1 ≡ₚ l2 -> sum_by f l1 = sum_by f l2.
Proof. induction 1; simpl; try lia; congruence. Qed.

Lemma sum_by_ext f g l : (forall x, x ∈ l -> f x = g x) -> sum_by f l = sum_by g l.
Proof.
  induction l as [|x l IH]; intros Hfg; [done|]. simpl.
  rewrite Hfg, IH by set_solver. done.
Qed.

Lemma sum_by_zero f l : (forall x, x ∈ l -> f x = 0%Z) -> sum_by f l = 0%Z.
Proof. induction l as [|x l IH]; intros H; [done|]. simpl. rewrite H, IH; set_solver. Qed.

End Lists.

#[export] Hint Rewrite @sum_by_nil @sum_by_cons @sum_by_app : go.

Lemma sum_by_fmap {A B} (f : B -> Z) (g : A -> B) l :
  sum_by f (g <$> l) = sum_by (fun x => f (g x)) l.
Proof. induction l as [|x l IH]; csimpl; [done | by rewrite <- IH]. Qed.
