(* ===== verification/Counter.v ===== *)
(** * monitors/counter.go

    A [Counter] holds a pending value and, when it is cumulative, the amount
    that earlier snapshots have already reported.  Every method takes the
    counter's lock for its whole body, so one call is one atomic step and is a
    function on the record.  The attribute map of a counter is a Go map, that is
    a reference: counters and snapshots that were given the same map share it,
    so maps live in a store [attrib_store] and are known by their address. *)

From S2P Require Import Prelude.

Definition attrib_ref := positive.
Definition attrib_store := gmap attrib_ref (gmap string string).

(** ** The data *)

Record Counter := mkCounter {
  c_name : string;
  c_attribs : option attrib_ref;
  c_cumalative : bool;
  c_ignoreZeroSnapshots : bool;
  c_incBy : Z;
  c_value : Z;
  c_cumalativeValue : Z;
}.

(** A snapshot points to the name of its counter, which is never reassigned, and
    to the field that holds its map.  [cs_Attribs] is [None] for a nil pointer
    and [Some None] for a pointer to a nil map. *)
Record counterSnapshot := mkCounterSnapshot {
  cs_Name : option string;
  cs_Timestamp : Z;
  cs_Value : Z;
  cs_Attribs : option (option attrib_ref);
}.

#[global] Instance Counter_eq_dec : EqDecision Counter.
Proof. solve_decision. Defined.
#[global] Instance counterSnapshot_eq_dec : EqDecision counterSnapshot.
Proof. solve_decision. Defined.

(** ** The operations *)

Definition NewCounter (name : string) (cumalative ignoreZeroSnapshots : bool) : Counter :=
  {| c_name := name; c_attribs := None;
     c_cumalative := cumalative; c_ignoreZeroSnapshots := ignoreZeroSnapshots;
     c_incBy := 1; c_value := 0; c_cumalativeValue := 0 |}.

Definition NewCounterWithAttribs (name : string) (cumalative ignoreZeroSnapshots : bool)
    (attribs : option attrib_ref) : Counter :=
  {| c_name := name; c_attribs := attribs;
     c_cumalative := cumalative; c_ignoreZeroSnapshots := ignoreZeroSnapshots;
     c_incBy := 1; c_value := 0; c_cumalativeValue := 0 |}.

(** [c.attribs[name] = value]: a write to a nil map panics. *)
Definition AddAttribute (c : Counter) (name value : string) (h : attrib_store)
    : result attrib_store :=
  match c_attribs c with
  | None => Panic "assignment to entry in nil map"
  | Some r => Ok (<[r := <[name := value]> (default ∅ (h !! r))]> h)
  end.

Definition set_value (c : Counter) (v : Z) : Counter :=
  {| c_name := c_name c; c_attribs := c_attribs c;
     c_cumalative := c_cumalative c; c_ignoreZeroSnapshots := c_ignoreZeroSnapshots c;
     c_incBy := c_incBy c; c_value := v; c_cumalativeValue := c_cumalativeValue c |}.

Definition set_cumalativeValue (c : Counter) (v : Z) : Counter :=
  {| c_name := c_name c; c_attribs := c_attribs c;
     c_cumalative := c_cumalative c; c_ignoreZeroSnapshots := c_ignoreZeroSnapshots c;
     c_incBy := c_incBy c; c_value := c_value c; c_cumalativeValue := v |}.

(** [time.Now().UnixNano() / int64(time.Millisecond)], for the clock reading [now]. *)
Definition to_millis (now : Z) : Z := Z.quot now 1000000.

Definition collect_counter (now : Z) (c : Counter) : option counterSnapshot * Counter :=
  if negb (c_ignoreZeroSnapshots c) || negb (c_value c =? 0)%Z then
    let cs := {| cs_Name := Some (c_name c); cs_Attribs := Some (c_attribs c);
                 cs_Timestamp := to_millis now; cs_Value := c_value c |} in
    if c_cumalative c
    then (Some cs, set_value (set_cumalativeValue c (c_cumalativeValue c +64 c_value c)) 0)
    else (Some cs, c)
  else (None, c).

Definition counter_Name (c : Counter) : string := c_name c.

Definition Get (c : Counter) : Z := c_value c +64 c_cumalativeValue c.

Definition SetInc (incValue : Z) (c : Counter) : Counter :=
  {| c_name := c_name c; c_attribs := c_attribs c;
     c_cumalative := c_cumalative c; c_ignoreZeroSnapshots := c_ignoreZeroSnapshots c;
     c_incBy := incValue; c_value := c_value c; c_cumalativeValue := c_cumalativeValue c |}.

Definition Set_ (value : Z) (c : Counter) : Counter :=
  if c_cumalative c
  then set_value c (value -64 c_cumalativeValue c)
  else set_value c value.

Definition Inc (c : Counter) : Counter := set_value c (c_value c +64 c_incBy c).

Definition Add (value : Z) (c : Counter) : Counter := set_value c (c_value c +64 value).

(** ** Well-formed counters *)

Record counter_ok (c : Counter) : Prop := {
  ok_incBy : int64_range (c_incBy c);
  ok_value : int64_range (c_value c);
  ok_cumalativeValue : int64_range (c_cumalativeValue c);
  ok_gauge : c_cumalative c = false -> c_cumalativeValue c = 0%Z;
}.

Lemma int64_range_0 : int64_range 0.
Proof. done. Qed.
#[export] Hint Resolve int64_range_0 : go.

Lemma NewCounterWithAttribs_ok n cu iz at_ : counter_ok (NewCounterWithAttribs n cu iz at_).
Proof. by split. Qed.

Lemma set_value_ok c v : int64_range v -> counter_ok c -> counter_ok (set_value c v).
Proof. intros Hv []. by split. Qed.

Lemma SetInc_ok v c : int64_range v -> counter_ok c -> counter_ok (SetInc v c).
Proof. intros Hv []. by split. Qed.

Lemma Set_ok v c : int64_range v -> counter_ok c -> counter_ok (Set_ v c).
Proof. intros Hv Hc. unfold Set_. case_match; apply set_value_ok; auto with go. Qed.

Lemma Inc_ok c : counter_ok c -> counter_ok (Inc c).
Proof. apply set_value_ok; auto with go. Qed.

Lemma Add_ok v c : counter_ok c -> counter_ok (Add v c).
Proof. apply set_value_ok; auto with go. Qed.

Lemma collect_counter_ok now c : counter_ok c -> counter_ok (collect_counter now c).2.
Proof.
  intros Hok. unfold collect_counter.
  destruct (_ || _); [|done]. destruct (c_cumalative c) eqn:E; [|done].
  destruct Hok. split; simpl; auto with go; congruence.
Qed.

#[export] Hint Resolve NewCounterWithAttribs_ok SetInc_ok Set_ok Inc_ok Add_ok
  collect_counter_ok : go.

(** ** Histories

    What callers do to a counter, in the order the lock lets them in. *)

Inductive counter_op :=
| OpInc
| OpAdd (v : Z)
| OpSet (v : Z)
| OpSetInc (v : Z)
| OpCollect (now : Z).

Definition op_ok (o : counter_op) : Prop :=
  match o with
  | OpAdd v | OpSet v | OpSetInc v => int64_range v
  | OpInc | OpCollect _ => True
  end.

Definition counter_step (c : Counter) (o : counter_op) : option counterSnapshot * Counter :=
  match o with
  | OpInc => (None, Inc c)
  | OpAdd v => (None, Add v c)
  | OpSet v => (None, Set_ v c)
  | OpSetInc v => (None, SetInc v c)
  | OpCollect now => collect_counter now c
  end.

(** The snapshots a history emits, oldest first, and the counter it leaves. *)
Fixpoint run_counter (c : Counter) (os : list counter_op) : list counterSnapshot * Counter :=
  match os with
  | [] => ([], c)
  | o :: os =>
      let (s, c1) := counter_step c o in
      let (ss, c2) := run_counter c1 os in
      (option_list s ++ ss, c2)
  end.

(** ** The abstract counter

    What a caller may rely on: one running total modulo 2^64.  [Set] replaces
    it, [Inc] and [Add] move it, and collecting never changes it.  A cumulative
    counter remembers the total it last reported. *)

Record total_spec := mkTotal { t_total : Z; t_reported : Z; t_inc : Z }.

Definition spec_step (cumulative : bool) (t : total_spec) (o : counter_op) : total_spec :=
  match o with
  | OpInc => mkTotal (wrap64 (t_total t + t_inc t)) (t_reported t) (t_inc t)
  | OpAdd v => mkTotal (wrap64 (t_total t + v)) (t_reported t) (t_inc t)
  | OpSet v => mkTotal v (t_reported t) (t_inc t)
  | OpSetInc v => mkTotal (t_total t) (t_reported t) v
  | OpCollect _ =>
      mkTotal (t_total t) (if cumulative then t_total t else t_reported t) (t_inc t)
  end.

Definition abs (c : Counter) : total_spec :=
  mkTotal (Get c) (c_cumalativeValue c) (c_incBy c).

(** ** Theorems *)

Lemma counter_step_ok c o : op_ok o -> counter_ok c -> counter_ok (counter_step c o).2.
Proof. destruct o; simpl; auto with go. Qed.

Lemma Get_set_value c v : Get (set_value c v) = v +64 c_cumalativeValue c.
Proof. done. Qed.

Lemma Get_Set v c : int64_range v -> counter_ok c -> Get (Set_ v c) = v.
Proof.
  intros Hv Hc. unfold Set_. destruct (c_cumalative c) eqn:E; rewrite Get_set_value; simpl.
  - rewrite <- (wrap64_id v Hv) at 2. eqm.
  - rewrite (ok_gauge c Hc E), Z.add_0_r. by apply wrap64_id.
Qed.

Lemma Get_collect now c : Get (collect_counter now c).2 = Get c.
Proof.
  unfold collect_counter. destruct (_ || _); [|done]. destruct (c_cumalative c); [|done].
  unfold Get; simpl. eqm.
Qed.

Lemma counter_step_cumalative c o : c_cumalative (counter_step c o).2 = c_cumalative c.
Proof.
  destruct o; simpl; try done.
  - unfold Set_. by case_match.
  - unfold collect_counter. destruct (_ || _); [|done]. by destruct (c_cumalative c) eqn:E; simpl; rewrite ?E.
Qed.

Lemma run_counter_ok c os :
  Forall op_ok os -> counter_ok c -> counter_ok (run_counter c os).2.
Proof.
  revert c. induction os as [|o os IH]; intros c Hos Hc; [done|]. simpl.
  apply Forall_cons in Hos as [Ho Hos].
  pose proof (counter_step_ok c o Ho Hc) as H1.
  destruct (counter_step c o) as [s c1]; simpl in *.
  specialize (IH c1 Hos H1). by destruct (run_counter c1 os).
Qed.

(** One step of a counter is one step of the running total. *)
Lemma counter_step_abs c o :
  op_ok o -> counter_ok c ->
  abs (counter_step c o).2 = spec_step (c_cumalative c) (abs c) o.
Proof.
  intros Ho Hc. destruct o; unfold abs, spec_step; simpl.
  - f_equal. unfold Get; simpl. eqm.
  - f_equal. unfold Get; simpl. eqm.
  - f_equal; [by apply Get_Set | | ]; unfold Set_; by destruct (c_cumalative c).
  - done.
  - rewrite Get_collect. unfold collect_counter. destruct (_ || _) eqn:Ez.
    + destruct (c_cumalative c); [|done]. simpl. f_equal. unfold Get. eqm.
    + simpl. f_equal. destruct (c_cumalative c); [|done].
      apply orb_false_iff in Ez as [_ Ez]. apply negb_false_iff, Z.eqb_eq in Ez.
      unfold Get. rewrite Ez, Z.add_0_l. symmetry. apply wrap64_id, Hc.
Qed.

Lemma counter_step_balance c o :
  c_cumalative c = true ->
  c_cumalativeValue (counter_step c o).2
    =64 (c_cumalativeValue c + sum_by cs_Value (option_list (counter_step c o).1))%Z.
Proof.
  intros Hcu. destruct o; simpl; rewrite ?Z.add_0_r; try done.
  - unfold Set_. by rewrite Hcu.
  - unfold collect_counter. rewrite Hcu. destruct (_ || _); simpl; rewrite ?Z.add_0_r; [|done].
    apply wrap64_eqm.
Qed.

(** What the snapshots of a history add up to is what the counter has moved
    from its pending value to its reported total. *)
Lemma run_counter_balance c os :
  c_cumalative c = true ->
  c_cumalativeValue (run_counter c os).2
    =64 (c_cumalativeValue c + sum_by cs_Value (run_counter c os).1)%Z.
Proof.
  revert c. induction os as [|o os IH]; intros c Hcu; simpl.
  - by rewrite Z.add_0_r.
  - pose proof (counter_step_balance c o Hcu) as H1.
    pose proof (counter_step_cumalative c o) as Hcu1.
    destruct (counter_step c o) as [s c1]; simpl in *.
    specialize (IH c1 ltac:(congruence)).
    destruct (run_counter c1 os) as [ss c2]; simpl in *.
    rewrite IH, H1, sum_by_app. by rewrite Z.add_assoc.
Qed.

(** *** What the calls add up to *)

(** The total and the increment that the calls of a history leave, for a counter that
    starts at zero with an increment of one. *)
Definition tally_step (t : Z * Z) (o : counter_op) : Z * Z :=
  match o with
  | OpInc => (wrap64 (t.1 + t.2), t.2)
  | OpAdd v => (wrap64 (t.1 + v), t.2)
  | OpSet v => (v, t.2)
  | OpSetInc v => (t.1, v)
  | OpCollect _ => t
  end.
Definition tally (os : list counter_op) : Z := (foldl tally_step (0, 1)%Z os).1.

Lemma counter_step_tally c o t :
  op_ok o -> counter_ok c -> (Get c, c_incBy c) = t ->
  (Get (counter_step c o).2, c_incBy (counter_step c o).2) = tally_step t o.
Proof.
  intros Ho Hc <-. pose proof (counter_step_abs c o Ho Hc) as H.
  pose proof (f_equal t_total H) as H1. pose proof (f_equal t_inc H) as H2.
  cbn [abs t_total t_inc] in H1, H2. rewrite H1, H2. by destruct o.
Qed.

Lemma run_counter_tally c os t :
  Forall op_ok os -> counter_ok c -> (Get c, c_incBy c) = t ->
  (Get (run_counter c os).2, c_incBy (run_counter c os).2) = foldl tally_step t os.
Proof.
  revert c t. induction os as [|o os IH]; intros c t Hos Hc Ht; [done|].
  apply Forall_cons in Hos as [Ho Hos]. cbn [run_counter foldl].
  pose proof (counter_step_tally c o t Ho Hc Ht) as H1.
  pose proof (counter_step_ok c o Ho Hc) as Hc1.
  destruct (counter_step c o) as [s c1]. cbn [snd] in *.
  specialize (IH c1 _ Hos Hc1 H1). by destruct (run_counter c1 os).
Qed.

Lemma run_counter_cumalative c os : c_cumalative (run_counter c os).2 = c_cumalative c.
Proof.
  revert c. induction os as [|o os IH]; intros c; [done|]. cbn [run_counter].
  pose proof (counter_step_cumalative c o) as H. destruct (counter_step c o) as [s c1]. cbn in H.
  rewrite <- H, <- (IH c1). by destruct (run_counter c1 os).
Qed.

Lemma run_counter_app c os os' :
  run_counter c (os ++ os')
    = ((run_counter c os).1 ++ (run_counter (run_counter c os).2 os').1,
       (run_counter (run_counter c os).2 os').2).
Proof.
  revert c. induction os as [|o os IH]; intros c; cbn [run_counter app].
  { cbn [fst snd app]. apply surjective_pairing. }
  destruct (counter_step c o) as [s c1]. rewrite IH.
  destruct (run_counter c1 os) as [ss c2]. cbn [fst snd]. by rewrite (assoc (++)).
Qed.

(** A collection empties a cumulative counter. *)
Lemma collect_counter_zero now c :
  c_cumalative c = true -> c_value (collect_counter now c).2 = 0%Z.
Proof.
  intros Hcu. unfold collect_counter. rewrite Hcu.
  destruct (_ || _) eqn:E; [done|]. simpl.
  apply orb_false_iff in E as [_ E]. by apply negb_false_iff, Z.eqb_eq in E.
Qed.

Lemma run_counter_sum name iz at_ os :
  Forall op_ok os ->
  let r := run_counter (NewCounterWithAttribs name true iz at_) os in
  Get r.2 = tally os /\ (sum_by cs_Value r.1 + c_value r.2 =64 tally os)%Z.
Proof.
  intros Hos r.
  assert (Get r.2 = tally os) as Hg.
  { pose proof (run_counter_tally (NewCounterWithAttribs name true iz at_) os (0, 1)%Z Hos
      (NewCounterWithAttribs_ok _ _ _ _) eq_refl) as H. unfold tally. by rewrite <- H. }
  split; [done|]. rewrite <- Hg. unfold Get.
  pose proof (run_counter_balance (NewCounterWithAttribs name true iz at_) os eq_refl) as H.
  fold r in H. cbn [c_cumalativeValue NewCounterWithAttribs] in H. rewrite wrap64_eqm, H. eqm_ring.
Qed.

(** ** Properties *)

(** C16. For every history of calls, a counter refines the running total: the
    value [Get] returns, the amount already reported and the increment are those
    the abstract counter computes, overflow included.  [Set] fixes the total,
    [Inc] and [Add] move it, and collecting leaves it unchanged. *)
Theorem counter_refines_total c os :
  Forall op_ok os -> counter_ok c ->
  abs (run_counter c os).2 = foldl (spec_step (c_cumalative c)) (abs c) os.
Proof.
  revert c. induction os as [|o os IH]; intros c Hos Hc; [done|].
  apply Forall_cons in Hos as [Ho Hos]. simpl.
  pose proof (counter_step_ok c o Ho Hc) as H1.
  pose proof (counter_step_abs c o Ho Hc) as Ha.
  pose proof (counter_step_cumalative c o) as Hcu.
  destruct (counter_step c o) as [s c1]; simpl in *.
  specialize (IH c1 Hos H1). rewrite Ha, Hcu in IH.
  by destruct (run_counter c1 os).
Qed.

Definition history1 : list counter_op :=
  [OpAdd 5; OpCollect 2000000; OpSet 12; OpInc; OpCollect 9000000; OpAdd (-1)]%Z.

Lemma counter_refines_total_witness :
  Forall op_ok history1 /\
  abs (run_counter (NewCounter "sent" true true) history1).2 = mkTotal 12 13 1.
Proof.
  assert (Forall op_ok history1) as H by (repeat constructor; vm_compute; congruence).
  split; [exact H|].
  rewrite (counter_refines_total (NewCounter "sent" true true) history1);
    [reflexivity | exact H | apply NewCounterWithAttribs_ok].
Defined.

(** C17. No measurement is lost or counted twice by a cumulative counter.  After any
    history of calls on a new one, with arguments of 64 bits, [Get] returns what the
    calls add up to; the values of the snapshots taken so far and the value still
    pending add up to the same, modulo 2^64; and once the counter is collected again,
    the snapshots alone do. *)
Theorem counter_conserves name iz at_ os now :
  Forall op_ok os ->
  let new := NewCounterWithAttribs name true iz at_ in
  let '(ss, c) := run_counter new os in
  Get c = tally os /\
  (sum_by cs_Value ss + c_value c =64 tally os)%Z /\
  sum_by cs_Value (run_counter new (os ++ [OpCollect now])).1 =64 tally os.
Proof.
  intros Hos new. pose proof (run_counter_sum name iz at_ os Hos) as (H1 & H2).
  pose proof (run_counter_sum name iz at_ (os ++ [OpCollect now])) as H3. fold new in H1, H2, H3.
  rewrite run_counter_app in H3 |- *. destruct (run_counter new os) as [ss c] eqn:E. cbn [fst snd] in *.
  split_and!; [done..|].
  assert (c_cumalative c = true) as Hcu.
  { pose proof (run_counter_cumalative new os) as H. by rewrite E in H. }
  pose proof (collect_counter_zero now c Hcu) as Hz.
  destruct H3 as (_ & H3); [apply Forall_app; split; [done|by repeat constructor]|]. cbn [run_counter counter_step] in *.
  destruct (collect_counter now c) as [s c']. cbn [fst snd] in *.
  rewrite Hz, Z.add_0_r in H3. unfold tally in *. rewrite foldl_app in H3. exact H3.
Qed.

Lemma counter_conserves_witness :
  Forall op_ok history1 /\
  let '(ss, c) := run_counter (NewCounterWithAttribs "sent" true true None) history1 in
  Get c = 12%Z /\ (sum_by cs_Value ss + c_value c =64 12)%Z.
Proof.
  assert (Forall op_ok history1) as H by (repeat constructor; vm_compute; congruence).
  split; [exact H|].
  destruct (counter_conserves "sent" true None history1 0 H) as (H1 & H2 & _).
  split; [exact H1|exact H2].
Defined.

(** A counter that is not cumulative is not reset by a collection, so that its value
    is reported again by the next one: one call of [Inc] makes two snapshots of 1. *)
Theorem gauge_reported_again :
  (cs_Value <$> (run_counter (NewCounter "testCounter" false false)
     [OpInc; OpCollect 1000000; OpCollect 2000000]).1) = [1; 1]%Z.
Proof. reflexivity. Qed.
