(* ===== verification/GoStrings.v ===== *)
(** * The parts of Go's strings, bytes, bufio, strconv and fmt that the code uses

    Byte strings are [string]s.  The functions below are the standard library's
    on the arguments the repository passes: one-byte separators for
    [strings.Split] and [bytes.Split], base 10 for [strconv], [bufio.ScanLines]
    with the default buffer for [bufio.Scanner]. *)

From S2P Require Import Prelude.

(** ** Characters *)

Definition is_digit (c : ascii) : bool := bool_decide (48 <= nat_of_ascii c <= 57)%nat.
Definition is_upper (c : ascii) : bool := bool_decide (65 <= nat_of_ascii c <= 90)%nat.
Definition is_lower (c : ascii) : bool := bool_decide (97 <= nat_of_ascii c <= 122)%nat.

(** Newline and carriage return. *)
Definition nl : ascii := ascii_of_nat 10.
Definition cr : ascii := ascii_of_nat 13.
Definition NL : string := String nl EmptyString.

Fixpoint s_forall (p : ascii -> bool) (s : string) : bool :=
  match s with
  | EmptyString => true
  | String c s => p c && s_forall p s
  end.

(** [s_free c s]: the byte [c] does not occur in [s]. *)
Definition s_free (c : ascii) (s : string) : bool := s_forall (fun d => bool_decide (d <> c)) s.

(** ** strings *)

(** [strings.Split(s, sep)] for a one-byte separator: n separators, n+1 pieces. *)
Fixpoint Split (sep : ascii) (s : string) : list string :=
  match s with
  | EmptyString => [EmptyString]
  | String c s =>
      if decide (c = sep) then EmptyString :: Split sep s
      else match Split sep s with
           | [] => [String c EmptyString]
           | p :: ps => String c p :: ps
           end
  end.

(** [strings.Join(l, sep)]. *)
Fixpoint Join (sep : string) (l : list string) : string :=
  match l with
  | [] => EmptyString
  | [s] => s
  | s :: l => s +:+ sep +:+ Join sep l
  end.

Fixpoint HasPrefix (s p : string) : bool :=
  match p, s with
  | EmptyString, _ => true
  | String c p, String d s => bool_decide (c = d) && HasPrefix s p
  | String _ _, EmptyString => false
  end.

(** [s[:i]]. *)
Fixpoint s_take (n : nat) (s : string) : string :=
  match n, s with
  | S n, String c s => String c (s_take n s)
  | _, _ => EmptyString
  end.

Fixpoint s_drop (n : nat) (s : string) : string :=
  match n, s with
  | S n, String _ s => s_drop n s
  | _, s => s
  end.

(** [strings.LastIndex(s, c)] for a one-byte [c]; [None] is -1. *)
Fixpoint LastIndex (c : ascii) (s : string) : option nat :=
  match s with
  | EmptyString => None
  | String d s =>
      match LastIndex c s with
      | Some i => Some (S i)
      | None => if decide (d = c) then Some 0%nat else None
      end
  end.

(** [strings.Index(s, c)] for a one-byte [c]; [None] is -1. *)
Fixpoint Index (c : ascii) (s : string) : option nat :=
  match s with
  | EmptyString => None
  | String d s => if decide (d = c) then Some 0%nat else S <$> Index c s
  end.

(** ** strconv and fmt's %d *)

Definition digit (n : Z) : ascii := ascii_of_nat (48 + Z.to_nat n).
Definition digit_val (c : ascii) : Z := Z.of_nat (nat_of_ascii c) - 48.

#[global] Arguments is_digit : simpl never.
#[global] Arguments digit : simpl never.
#[global] Arguments digit_val : simpl never.

Fixpoint format_go (fuel : nat) (n : Z) (acc : string) : string :=
  match fuel with
  | O => acc
  | S fuel =>
      let acc := String (digit (n mod 10)) acc in
      if (n <? 10)%Z then acc else format_go fuel (n / 10) acc
  end.

(** The decimal digits of [n >= 0]; a number has at most as many digits as bits. *)
Definition format_uint (n : Z) : string := format_go (S (Z.to_nat (Z.log2 n))) n EmptyString.

(** What [%d] prints. *)
Definition format_int (n : Z) : string :=
  if (n <? 0)%Z then String "-" (format_uint (- n)) else format_uint n.

Definition max_uint64 : Z := two64 - 1.

Fixpoint parse_uint_go (s : string) (acc : Z) : Z + string :=
  match s with
  | EmptyString => inl acc
  | String c s =>
      if is_digit c then
        let acc := (acc * 10 + digit_val c)%Z in
        if (max_uint64 <? acc)%Z then inr "value out of range"
        else parse_uint_go s acc
      else inr "invalid syntax"
  end.

(** [strconv.ParseUint(s, 10, 64)], with the reason of a failure. *)
Definition parse_uint (s : string) : Z + string :=
  match s with
  | EmptyString => inr "invalid syntax"
  | _ => parse_uint_go s 0
  end.

(** [strconv.ParseInt(s, 10, 64)] on behalf of [fn]; [strconv.Atoi] differs only
    in the name it puts in its errors. *)
Definition parse_int (fn : string) (s : string) : result Z :=
  let (neg, digits) :=
    match s with
    | String "+" r => (false, r)
    | String "-" r => (true, r)
    | _ => (false, s)
    end in
  match parse_uint digits with
  | inr why => Err (NumError fn s why)
  | inl un =>
      if negb neg && (two63 <=? un)%Z then Err (NumError fn s "value out of range")
      else if neg && (two63 <? un)%Z then Err (NumError fn s "value out of range")
      else Ok (if neg then - un else un)%Z
  end.

Definition ParseInt (s : string) : result Z := parse_int "ParseInt" s.
Definition Atoi (s : string) : result Z := parse_int "Atoi" s.

(** ** bufio.Scanner with ScanLines *)

(** The pieces of [s] that newlines end, and the last unterminated piece unless
    it is empty. *)
Fixpoint raw_lines (s : string) : list string :=
  match s with
  | EmptyString => []
  | String c s' =>
      if decide (c = nl) then EmptyString :: raw_lines s'
      else match raw_lines s' with
           | l :: ls => String c l :: ls
           | [] => [String c EmptyString]
           end
  end.

Fixpoint dropCR (s : string) : string :=
  match s with
  | EmptyString => EmptyString
  | String c EmptyString => if decide (c = cr) then EmptyString else s
  | String c s => String c (dropCR s)
  end.

(** A scanner's buffer holds 64 KiB: a line that fills it without a newline ends
    the scan with [bufio.ErrTooLong]. *)
Definition MaxScanTokenSize : Z := 65536.

Fixpoint scan_tokens (ls : list string) : list string * option error :=
  match ls with
  | [] => ([], None)
  | l :: ls =>
      if (MaxScanTokenSize <=? Z.of_nat (String.length l))%Z then ([], Some ErrTooLong)
      else let (ts, e) := scan_tokens ls in (dropCR l :: ts, e)
  end.

(** The tokens [Scan] delivers and what [Err] returns once it is false. *)
Definition scan_lines (s : string) : list string * option error := scan_tokens (raw_lines s).

(** ** Lemmas *)

Lemma s_forall_app p s t : s_forall p (s +:+ t) = s_forall p s && s_forall p t.
Proof. induction s as [|c s IH]; [done|]. simpl. by rewrite IH, andb_assoc. Qed.

Lemma s_free_app c s t : s_free c (s +:+ t) = s_free c s && s_free c t.
Proof. apply s_forall_app. Qed.

Lemma s_forall_impl (p q : ascii -> bool) s :
  (forall c, p c = true -> q c = true) -> s_forall p s = true -> s_forall q s = true.
Proof.
  intros Hpq. induction s as [|c s IH]; [done|]. simpl.
  rewrite !andb_true_iff. intros [Hc Hs]. auto.
Qed.

Lemma s_free_cons c d s : s_free c (String d s) = true <-> d <> c /\ s_free c s = true.
Proof. unfold s_free. simpl. by rewrite andb_true_iff, bool_decide_eq_true. Qed.

Lemma s_app_nil_r s : s +:+ EmptyString = s.
Proof. induction s as [|c s IH]; [done|]. simpl. by rewrite IH. Qed.

Lemma s_app_assoc s t u : (s +:+ t) +:+ u = s +:+ (t +:+ u).
Proof. induction s as [|c s IH]; [done|]. simpl. by rewrite IH. Qed.

Lemma s_length_app s t : String.length (s +:+ t) = (String.length s + String.length t)%nat.
Proof. induction s as [|c s IH]; [done|]. simpl. by rewrite IH. Qed.

#[export] Hint Rewrite s_free_app s_forall_app s_app_assoc s_app_nil_r s_length_app : go.

Lemma LastIndex_free c s : s_free c s = true -> LastIndex c s = None.
Proof.
  induction s as [|d s IH]; [done|]. rewrite s_free_cons. intros [Hd Hs].
  cbn. by rewrite IH, decide_False.
Qed.

Lemma LastIndex_app c s t :
  s_free c t = true -> LastIndex c (s +:+ String c t) = Some (String.length s).
Proof.
  intros Ht. induction s as [|d s IH]; cbn.
  - by rewrite LastIndex_free, decide_True.
  - by rewrite IH.
Qed.

Lemma Index_free c s : s_free c s = true -> Index c s = None.
Proof.
  induction s as [|d s IH]; [done|]. rewrite s_free_cons. intros [Hd Hs].
  cbn. by rewrite IH, decide_False.
Qed.

Lemma Split_free sep s : s_free sep s = true -> Split sep s = [s].
Proof.
  induction s as [|c s IH]; [done|]. rewrite s_free_cons. intros [Hc Hs]. simpl.
  rewrite decide_False, IH by done. done.
Qed.

Lemma Split_app sep s t :
  s_free sep s = true -> Split sep (s +:+ String sep t) = s :: Split sep t.
Proof.
  induction s as [|c s IH]; simpl.
  - by rewrite decide_True.
  - rewrite s_free_cons. intros [Hc Hs]. rewrite decide_False, IH by done. done.
Qed.

(** Splitting undoes joining when no piece contains the separator. *)
Lemma Split_Join sep l :
  l <> [] -> Forall (fun s => s_free sep s = true) l ->
  Split sep (Join (String sep EmptyString) l) = l.
Proof.
  intros Hne Hl. induction Hl as [|s l Hs Hl IH]; [done|].
  destruct l as [|t l]; [by apply Split_free|].
  change (Join _ (s :: t :: l)) with (s +:+ String sep (Join (String sep EmptyString) (t :: l))).
  rewrite Split_app, IH by done. done.
Qed.

Lemma s_forall_Join p sep l :
  s_forall p sep = true -> Forall (fun s => s_forall p s = true) l ->
  s_forall p (Join sep l) = true.
Proof.
  intros Hsep Hl. induction Hl as [|s l Hs Hl IH]; [done|].
  destruct l; [done|]. change (Join sep (s :: s0 :: l)) with (s +:+ sep +:+ Join sep (s0 :: l)).
  by rewrite !s_forall_app, Hs, Hsep, IH.
Qed.

(** *** Numbers *)

Lemma digit_spec n : (0 <= n < 10)%Z -> is_digit (digit n) = true /\ digit_val (digit n) = n.
Proof.
  intros Hn. unfold is_digit, digit, digit_val.
  rewrite Ascii.nat_ascii_embedding by lia.
  split; [apply bool_decide_eq_true; lia | lia].
Qed.

Lemma format_go_digits fuel n acc :
  (0 <= n)%Z -> s_forall is_digit acc = true -> s_forall is_digit (format_go fuel n acc) = true.
Proof.
  revert n acc. induction fuel as [|fuel IH]; intros n acc Hn Hacc; [done|]. cbn [format_go].
  assert (s_forall is_digit (String (digit (n mod 10)) acc) = true) as Hd.
  { cbn [s_forall]. rewrite (proj1 (digit_spec (n mod 10) ltac:(dlia))). done. }
  case_match; [done|]. apply IH; [dlia | done].
Qed.

Lemma format_go_parse fuel n acc :
  (0 <= n <= max_uint64)%Z -> (n < 2 ^ Z.of_nat fuel)%Z -> (0 < fuel)%nat ->
  parse_uint_go (format_go fuel n acc) 0 = parse_uint_go acc n.
Proof.
  revert n acc. induction fuel as [|fuel IH]; intros n acc Hn Hf Hpos; [dlia|].
  cbn [format_go].
  pose proof (digit_spec (n mod 10) ltac:(dlia)) as [Hd Hv].
  destruct (Z.ltb_spec n 10) as [Hlt|Hge].
  - cbn [parse_uint_go]. rewrite Hd, Hv, (Z.mod_small n 10) by dlia.
    by rewrite (proj2 (Z.ltb_ge _ _)) by (unfold max_uint64, two64; dlia).
  - assert (2 ^ Z.of_nat (S fuel) = 2 * 2 ^ Z.of_nat fuel)%Z as E.
    { rewrite Nat2Z.inj_succ. by apply Z.pow_succ_r; dlia. }
    assert (fuel <> 0)%nat by (intros ->; simpl in *; dlia).
    rewrite IH by dlia. cbn [parse_uint_go]. rewrite Hd, Hv.
    replace (n / 10 * 10 + n mod 10)%Z with n by dlia.
    by rewrite (proj2 (Z.ltb_ge _ _)) by dlia.
Qed.

Lemma format_uint_cons n : exists c s, format_uint n = String c s.
Proof.
  unfold format_uint. generalize (Z.to_nat (Z.log2 n)) as f. intros f.
  assert (forall k m acc, exists c s, format_go k m (String acc.1 acc.2) = String c s) as H.
  { induction k as [|k IH]; intros m [d t]; simpl; [by eauto|].
    case_match; [by eauto|]. apply (IH _ (_, _)). }
  simpl. case_match; [by eauto|]. apply (H f (n / 10)%Z (digit (n mod 10), EmptyString)).
Qed.

Lemma format_uint_digits n : (0 <= n)%Z -> s_forall is_digit (format_uint n) = true.
Proof. intros Hn. by apply format_go_digits. Qed.

Lemma parse_format_uint n : (0 <= n <= max_uint64)%Z -> parse_uint (format_uint n) = inl n.
Proof.
  intros Hn. pose proof (format_uint_cons n) as (c & s & E).
  unfold parse_uint. rewrite E, <- E. unfold format_uint.
  rewrite format_go_parse; [done | done | | lia].
  rewrite Nat2Z.inj_succ, Z2Nat.id by apply Z.log2_nonneg.
  destruct (decide (n = 0%Z)) as [->|]; [done|]. apply Z.log2_spec. lia.
Qed.

Lemma format_go_head fuel n acc :
  (1 <= n < 2 ^ Z.of_nat fuel)%Z ->
  exists c s, format_go fuel n acc = String c s /\ c <> "0"%char.
Proof.
  revert n acc. induction fuel as [|fuel IH]; intros n acc Hn; [simpl in Hn; lia|].
  cbn [format_go]. destruct (Z.ltb_spec n 10) as [Hlt|Hge].
  - eexists _, _. split; [done|]. rewrite Z.mod_small by lia. intros E.
    pose proof (digit_spec n ltac:(lia)) as [_ Hv]. rewrite E in Hv.
    assert (digit_val "0" = 0%Z) as H0 by reflexivity. lia.
  - rewrite Nat2Z.inj_succ, Z.pow_succ_r in Hn by lia. apply IH. dlia.
Qed.

Lemma format_uint_head n :
  (0 <= n)%Z ->
  format_uint n = "0" \/ exists c s, format_uint n = String c s /\ c <> "0"%char.
Proof.
  intros Hn. destruct (decide (n = 0%Z)) as [->|Hne]; [by left|]. right.
  apply format_go_head. rewrite Nat2Z.inj_succ, Z2Nat.id by apply Z.log2_nonneg.
  pose proof (Z.log2_spec n ltac:(lia)). lia.
Qed.

Lemma not_digit_sign c : is_digit c = true -> c <> "+"%char /\ c <> "-"%char.
Proof. by split; intros ->. Qed.

(** [%d] then [strconv] is the identity on [int64]. *)
Lemma parse_format_int fn n : int64_range n -> parse_int fn (format_int n) = Ok n.
Proof.
  unfold int64_range, format_int, parse_int. intros Hn.
  destruct (Z.ltb_spec n 0) as [Hneg|Hpos].
  - rewrite parse_format_uint by (unfold max_uint64, two63, two64 in *; lia). simpl.
    rewrite (proj2 (Z.ltb_ge _ _)) by lia. f_equal. lia.
  - destruct (format_uint_cons n) as (c & s & E).
    pose proof (format_uint_digits n Hpos) as Hd. rewrite E in Hd.
    cbn [s_forall] in Hd. apply andb_true_iff in Hd as [Hd _].
    apply not_digit_sign in Hd as [Hp Hm].
    assert (match format_uint n with
            | String "+" r => (false, r) | String "-" r => (true, r)
            | _ => (false, format_uint n) end = (false, format_uint n)) as ->.
    { rewrite E. destruct c as [[] [] [] [] [] [] [] []]; done. }
    rewrite parse_format_uint by (unfold max_uint64, two63, two64 in *; lia).
    simpl. rewrite (proj2 (Z.leb_gt _ _)) by lia. done.
Qed.

Lemma is_digit_not c d : is_digit c = true -> is_digit d = false -> c <> d.
Proof. congruence. Qed.

(** A number prints without any byte but digits and the sign. *)
Lemma format_int_free c n :
  is_digit c = false -> c <> "-"%char -> s_free c (format_int n) = true.
Proof.
  intros Hc Hm. assert (forall m, (0 <= m)%Z -> s_free c (format_uint m) = true) as H.
  { intros m Hpos. eapply s_forall_impl; [|by apply format_uint_digits].
    intros d Hd. apply bool_decide_eq_true. congruence. }
  unfold format_int. destruct (Z.ltb_spec n 0); [|by apply H].
  apply s_free_cons. split; [done | apply H; lia].
Qed.

Lemma format_go_length fuel n acc :
  (String.length (format_go fuel n acc) <= fuel + String.length acc)%nat.
Proof.
  revert n acc. induction fuel as [|fuel IH]; intros n acc; [done|].
  cbn [format_go]. case_match; [cbn; lia|]. etransitivity; [apply IH|]. cbn. lia.
Qed.

(** A 64-bit number prints in at most 65 bytes. *)
Lemma format_int_length n : int64_range n -> (String.length (format_int n) <= 65)%nat.
Proof.
  unfold int64_range. intros Hn.
  assert (forall m, (0 <= m <= two63)%Z -> (String.length (format_uint m) <= 64)%nat) as H.
  { intros m Hm. unfold format_uint. etransitivity; [apply format_go_length|].
    cbn [String.length]. pose proof (Z.log2_le_mono m two63 (proj2 Hm)) as Hl.
    change (Z.log2 two63) with 63%Z in Hl. lia. }
  unfold format_int. destruct (Z.ltb_spec n 0).
  - cbn [String.length]. specialize (H (- n)%Z). lia.
  - specialize (H n). lia.
Qed.

Lemma parse_int_no_panic fn s : is_panic (parse_int fn s) = false.
Proof. unfold parse_int. by repeat case_match. Qed.

(** *** Lines *)

Lemma raw_lines_app l s :
  s_free nl l = true -> raw_lines (l +:+ String nl s) = l :: raw_lines s.
Proof.
  induction l as [|c l IH]; simpl.
  - done.
  - rewrite s_free_cons. intros [Hc Hl]. rewrite decide_False, IH by done. done.
Qed.

Lemma dropCR_free s : s_free cr s = true -> dropCR s = s.
Proof.
  induction s as [|c s IH]; [done|]. rewrite s_free_cons. intros [Hc Hs].
  specialize (IH Hs). destruct s; simpl in *; [by rewrite decide_False | by rewrite IH].
Qed.

(** Lines that a scanner returns as they were written. *)
Definition line_ok (l : string) : bool :=
  s_free nl l && s_free cr l && (Z.of_nat (String.length l) <? MaxScanTokenSize)%Z.

Fixpoint unlines (ls : list string) : string :=
  match ls with
  | [] => EmptyString
  | l :: ls => l +:+ String nl (unlines ls)
  end.

Lemma unlines_app l1 l2 : unlines (l1 ++ l2) = unlines l1 +:+ unlines l2.
Proof. induction l1 as [|l l1 IH]; [done|]. simpl. by rewrite IH, s_app_assoc. Qed.

(** Scanning what was written line by line gives the lines back. *)
Lemma scan_unlines ls :
  Forall (fun l => line_ok l = true) ls -> scan_lines (unlines ls) = (ls, None).
Proof.
  unfold scan_lines. induction 1 as [|l ls Hl Hls IH]; [done|]. simpl.
  unfold line_ok in Hl. rewrite !andb_true_iff in Hl. destruct Hl as [[Hn Hc] Hlen].
  rewrite raw_lines_app by done. simpl.
  rewrite (proj2 (Z.leb_gt _ _)) by (by apply Z.ltb_lt).
  by rewrite IH, dropCR_free.
Qed.
