(* ===== verification/GoEncoding.v ===== *)
(** * encoding/hex and encoding/base64

    [hex.DecodeString], which the device parser uses, and
    [base64.StdEncoding.EncodeToString], which event publishing uses, each with
    its inverse and the round trip between the two. *)

From S2P Require Import Prelude GoStrings.

(** ** Bytes as numbers *)

Definition byte_val (c : ascii) : Z := Z.of_nat (nat_of_ascii c).
Definition byte_of (n : Z) : ascii := ascii_of_nat (Z.to_nat n).

#[global] Arguments byte_val : simpl never.
#[global] Arguments byte_of : simpl never.

Lemma byte_val_range c : (0 <= byte_val c < 256)%Z.
Proof. unfold byte_val. pose proof (Ascii.nat_ascii_bounded c). lia. Qed.

Lemma byte_of_val c : byte_of (byte_val c) = c.
Proof. unfold byte_of, byte_val. rewrite Nat2Z.id. apply Ascii.ascii_nat_embedding. Qed.

Lemma byte_val_of n : (0 <= n < 256)%Z -> byte_val (byte_of n) = n.
Proof.
  intros Hn. unfold byte_of, byte_val. rewrite Ascii.nat_ascii_embedding by lia. lia.
Qed.

(** Every number below [k] is checked by evaluation. *)
Lemma range_check (k : nat) (P : Z -> Prop) `{forall n, Decision (P n)} :
  forallb (fun i => bool_decide (P (Z.of_nat i))) (seq 0 k) = true ->
  forall n, (0 <= n < Z.of_nat k)%Z -> P n.
Proof.
  rewrite forallb_forall. intros Hk n Hn.
  specialize (Hk (Z.to_nat n)). rewrite bool_decide_eq_true, Z2Nat.id in Hk by lia.
  apply Hk, in_seq. lia.
Qed.

(** ** hex *)

(** [reverseHexTable]: the value of a hexadecimal digit, either case. *)
Definition hex_val (c : ascii) : option Z :=
  let n := byte_val c in
  if (48 <=? n)%Z && (n <=? 57)%Z then Some (n - 48)%Z
  else if (97 <=? n)%Z && (n <=? 102)%Z then Some (n - 87)%Z
  else if (65 <=? n)%Z && (n <=? 70)%Z then Some (n - 55)%Z
  else None.

(** [hex.DecodeString]: pairs of digits; an odd last digit is reported as a bad
    byte when it is one, and as a bad length otherwise. *)
Fixpoint hex_DecodeString (s : string) : result string :=
  match s with
  | EmptyString => Ok EmptyString
  | String p EmptyString =>
      match hex_val p with None => Err (InvalidByteError p) | Some _ => Err ErrLength end
  | String p (String q s) =>
      match hex_val p, hex_val q with
      | None, _ => Err (InvalidByteError p)
      | Some _, None => Err (InvalidByteError q)
      | Some a, Some b => String (byte_of (a * 16 + b)) <$> hex_DecodeString s
      end
  end.

(** A lower-case hexadecimal digit, and the encoding of a byte string. *)
Definition hex_digit (n : Z) : ascii := byte_of (if (n <? 10)%Z then 48 + n else 87 + n)%Z.

Fixpoint hex_EncodeToString (s : string) : string :=
  match s with
  | EmptyString => EmptyString
  | String c s =>
      String (hex_digit (byte_val c / 16)) (String (hex_digit (byte_val c mod 16))
        (hex_EncodeToString s))
  end.

Lemma hex_val_digit n : (0 <= n < 16)%Z -> hex_val (hex_digit n) = Some n.
Proof. revert n. by apply (range_check 16 (fun n => hex_val (hex_digit n) = Some n)). Qed.

Lemma hex_decode_encode s : hex_DecodeString (hex_EncodeToString s) = Ok s.
Proof.
  induction s as [|c s IH]; [done|]. cbn [hex_EncodeToString hex_DecodeString].
  pose proof (byte_val_range c). rewrite !hex_val_digit by dlia.
  rewrite IH. simpl. do 2 f_equal. rewrite <- (byte_of_val c) at 3. f_equal. dlia.
Qed.

(** ** base64 *)

Definition b64_char (n : Z) : ascii :=
  byte_of (if n <? 26 then 65 + n else if n <? 52 then 71 + n
           else if n <? 62 then n - 4 else if n =? 62 then 43 else 47)%Z.

Definition b64_val (c : ascii) : option Z :=
  let n := byte_val c in
  if (65 <=? n)%Z && (n <=? 90)%Z then Some (n - 65)%Z
  else if (97 <=? n)%Z && (n <=? 122)%Z then Some (n - 71)%Z
  else if (48 <=? n)%Z && (n <=? 57)%Z then Some (n + 4)%Z
  else if (n =? 43)%Z then Some 62%Z
  else if (n =? 47)%Z then Some 63%Z
  else None.

(** [base64.StdEncoding.EncodeToString]: three bytes to four characters, the
    last group padded with [=]. *)
Fixpoint b64_EncodeToString (s : string) : string :=
  match s with
  | EmptyString => EmptyString
  | String a EmptyString =>
      let n := (byte_val a * 16)%Z in
      String (b64_char (n / 64)) (String (b64_char (n mod 64)) "==")
  | String a (String b EmptyString) =>
      let n := ((byte_val a * 256 + byte_val b) * 4)%Z in
      String (b64_char (n / 4096)) (String (b64_char (n / 64 mod 64))
        (String (b64_char (n mod 64)) "="))
  | String a (String b (String c s)) =>
      let n := (byte_val a * 65536 + byte_val b * 256 + byte_val c)%Z in
      String (b64_char (n / 262144)) (String (b64_char (n / 4096 mod 64))
        (String (b64_char (n / 64 mod 64)) (String (b64_char (n mod 64))
          (b64_EncodeToString s))))
  end.

(** What a reader of the encoding does. *)
Fixpoint b64_DecodeString (s : string) : option string :=
  match s with
  | EmptyString => Some EmptyString
  | String w (String x (String y (String z s))) =>
      w ← b64_val w; x ← b64_val x;
      if decide (y = "="%char) then
        if decide (z = "="%char /\ s = EmptyString)
        then Some (String (byte_of ((w * 64 + x) / 16)) EmptyString) else None
      else
        y ← b64_val y;
        if decide (z = "="%char) then
          if decide (s = EmptyString) then
            let n := ((w * 4096 + x * 64 + y) / 4)%Z in
            Some (String (byte_of (n / 256)) (String (byte_of (n mod 256)) EmptyString))
          else None
        else
          z ← b64_val z; r ← b64_DecodeString s;
          let n := (w * 262144 + x * 4096 + y * 64 + z)%Z in
          Some (String (byte_of (n / 65536)) (String (byte_of (n / 256 mod 256))
            (String (byte_of (n mod 256)) r)))
  | _ => None
  end.

Lemma b64_char_spec n :
  (0 <= n < 64)%Z -> b64_val (b64_char n) = Some n /\ b64_char n <> "="%char.
Proof.
  revert n. by apply (range_check 64
    (fun n => b64_val (b64_char n) = Some n /\ b64_char n <> "="%char)).
 Qed.

Lemma b64_val_char n : (0 <= n < 64)%Z -> b64_val (b64_char n) = Some n.
Proof. apply b64_char_spec. Qed.

Lemma b64_char_pad n : (0 <= n < 64)%Z -> b64_char n <> "="%char.
Proof. apply b64_char_spec. Qed.

(** Induction three bytes at a time. *)
Lemma string_ind3 (P : string -> Prop) :
  P EmptyString -> (forall a, P (String a EmptyString)) ->
  (forall a b, P (String a (String b EmptyString))) ->
  (forall a b c s, P s -> P (String a (String b (String c s)))) ->
  forall s, P s.
Proof.
  intros H0 H1 H2 H3. fix IH 1.
  intros [|a [|b [|c s]]]; [done | apply H1 | apply H2 | apply H3, IH].
Qed.

Lemma byte_of_eq n c : n = byte_val c -> byte_of n = c.
Proof. intros ->. apply byte_of_val. Qed.

(** Decoding undoes encoding. *)
Lemma b64_decode_encode s : b64_DecodeString (b64_EncodeToString s) = Some s.
Proof.
  induction s as [|a|a b|a b c s IH] using string_ind3; [done| | |];
    pose proof (byte_val_range a); try pose proof (byte_val_range b);
    try pose proof (byte_val_range c);
    cbn [b64_EncodeToString b64_DecodeString];
    rewrite !b64_val_char by dlia; cbn [mbind option_bind].
  - rewrite decide_True by done. rewrite decide_True by done.
    do 2 f_equal. apply byte_of_eq. dlia.
  - rewrite decide_False by (apply b64_char_pad; dlia).
    rewrite decide_True by done. rewrite decide_True by done.
    do 2 f_equal; [|f_equal]; apply byte_of_eq; dlia.
  - rewrite !decide_False by (apply b64_char_pad; dlia). rewrite IH. simpl.
    do 2 f_equal; [|f_equal; [|f_equal]]; apply byte_of_eq; dlia.
Qed.

(** The encoding has no other byte than its alphabet and the padding. *)
Lemma b64_encode_free c s :
  b64_val c = None -> c <> "="%char -> s_free c (b64_EncodeToString s) = true.
Proof.
  intros Hc Hp. assert (forall n, (0 <= n < 64)%Z -> b64_char n <> c) as H.
  { intros n Hn <-. by rewrite b64_val_char in Hc. }
  induction s as [|a|a b|a b d s IH] using string_ind3; cbn [b64_EncodeToString];
    rewrite ?s_free_cons; try done;
    pose proof (byte_val_range a); try pose proof (byte_val_range b);
    try pose proof (byte_val_range d);
    split_and!; try done; apply H; dlia.
Qed.

Lemma b64_encode_length s : (String.length (b64_EncodeToString s) <= 4 * String.length s)%nat.
Proof.
  induction s as [|a|a b|a b d s IH] using string_ind3;
    cbn [b64_EncodeToString String.length]; lia.
Qed.
