(* ===== verification/Events.v ===== *)
(** * events/events.go

    Preparing cloud events for publication and pairing the results of a
    publication with the events they are about.  The CloudEvents SDK and the
    zlib compressor are not part of the repository: the SDK is the interface
    [CloudEvents], and compression is a parameter. *)

From S2P Require Import Prelude GoStrings GoEncoding.

(** ** The CloudEvents SDK

    An event is known by its setters and getters.  [SetJSON] is
    [SetData(ApplicationJSON, x)] once [x] has been marshalled. *)

Class CloudEvents := {
  Event : Type;
  NewEvent : Event;
  SetID : string -> Event -> Event;
  SetType : string -> Event -> Event;
  SetSource : string -> Event -> Event;
  SetSubject : string -> Event -> Event;
  SetDataContentType : string -> Event -> Event;
  SetTime : Z -> Event -> Event;
  SetJSON : string -> Event -> Event;
  GetID : Event -> string;
  Data : Event -> string;
  MarshalJSON : Event -> result string;
}.

(** What the SDK documents of the data an event carries. *)
Class CloudEventsLaws (sdk : CloudEvents) : Prop := {
  Data_SetJSON t e : Data (SetJSON t e) = t;
  Data_SetSource s e : Data (SetSource s e) = Data e;
}.

(** ** Data *)

Record PublishDataInput := mkPublishDataInput {
  pd_Type : string;
  pd_Compressed : bool;
  pd_Payload : string;
}.

Record PublishEventResult := mkPublishEventResult {
  pr_Success : bool;
  pr_Error : string;
}.

Record CloudEventError `{CloudEvents} := mkCloudEventError {
  ce_Event : Event;
  ce_Error : string;
}.

#[global] Instance PublishDataInput_eq_dec : EqDecision PublishDataInput.
Proof. solve_decision. Defined.

Section Publish.
Context `{sdk : CloudEvents}.
(** What [zlib.Writer] leaves in its buffer after [Write] and [Close]. *)
Variable zlib_write : string -> result string.

Definition NewPublishDataInput (event : Event) : result PublishDataInput :=
  eventPayload ← MarshalJSON event;
  compressedPayload ← zlib_write eventPayload;
  mret {| pd_Type := "event"; pd_Compressed := true;
          pd_Payload := b64_EncodeToString compressedPayload |}.

(** An event that cannot be prepared is left out. *)
Fixpoint MapCloudEventsToPublishDataInputs (cloudEvents : list Event)
    : result (list PublishDataInput) :=
  match cloudEvents with
  | [] => Ok []
  | event :: cloudEvents =>
      match NewPublishDataInput event with
      | Panic w => Panic w
      | Err _ => MapCloudEventsToPublishDataInputs cloudEvents
      | Ok dataPayload => cons dataPayload <$> MapCloudEventsToPublishDataInputs cloudEvents
      end
  end.

(** The events are updated in place: the second component is what the caller's
    events look like afterwards. *)
Fixpoint CreatePublishEventList (eventSource : string) (cloudEvents : list Event)
    : result (list PublishDataInput) * list Event :=
  match cloudEvents with
  | [] => (Ok [], [])
  | event :: cloudEvents =>
      let event := SetSource eventSource event in
      match NewPublishDataInput event with
      | Panic w => (Panic w, event :: cloudEvents)
      | Err _ =>
          let (r, es) := CreatePublishEventList eventSource cloudEvents in (r, event :: es)
      | Ok dataPayload =>
          let (r, es) := CreatePublishEventList eventSource cloudEvents in
          (cons dataPayload <$> r, event :: es)
      end
  end.

End Publish.

Section Results.
Context `{sdk : CloudEvents}.

(** [cloudEvents[i]] *)
Definition event_at (cloudEvents : list Event) (i : nat) : result Event :=
  match cloudEvents !! i with
  | Some e => Ok e
  | None => Panic "index out of range"
  end.

Fixpoint error_list_from (i : nat) (results : list PublishEventResult)
    (cloudEvents : list Event) : result (list CloudEventError) :=
  match results with
  | [] => Ok []
  | r :: results =>
      if negb (pr_Success r) then
        e ← event_at cloudEvents i;
        cons {| ce_Event := e; ce_Error := pr_Error r |} <$>
          error_list_from (S i) results cloudEvents
      else error_list_from (S i) results cloudEvents
  end.

Definition CreateCloudEventErrorList (publishEventErrorList : list PublishEventResult)
    (cloudEvents : list Event) : result (list CloudEventError) :=
  error_list_from 0 publishEventErrorList cloudEvents.

(** Every index is read here, the ones of successes too. *)
Fixpoint filter_errors_from (i : nat) (results : list PublishEventResult)
    (cloudEvents : list Event) : result (list Event) :=
  match results with
  | [] => Ok []
  | r :: results =>
      cloudEvent ← event_at cloudEvents i;
      if negb (pr_Success r)
      then cons cloudEvent <$> filter_errors_from (S i) results cloudEvents
      else filter_errors_from (S i) results cloudEvents
  end.

Definition FilterCloudEventsWithErrors (publishEventResults : list PublishEventResult)
    (cloudEvents : list Event) : result (list Event) :=
  filter_errors_from 0 publishEventResults cloudEvents.

(** What the two functions are for: the events whose result is a failure. *)
Definition failed (results : list PublishEventResult) (cloudEvents : list Event)
    : list CloudEventError :=
  omap (fun '(r, e) => if pr_Success r then None else Some (mkCloudEventError sdk e (pr_Error r)))
       (zip results cloudEvents).

Lemma event_at_drop cloudEvents i e es :
  drop i cloudEvents = e :: es -> event_at cloudEvents i = Ok e /\ drop (S i) cloudEvents = es.
Proof.
  intros H. unfold event_at.
  assert (cloudEvents !! i = Some e) as Hi.
  { by rewrite <- (Nat.add_0_r i), <- lookup_drop, H. }
  split; [by rewrite Hi|].
  by rewrite (drop_S _ _ _ Hi) in H; simplify_eq.
Qed.

Lemma drop_short {A} (l : list A) i n :
  (S n + i <= length l)%nat -> exists x xs, drop i l = x :: xs.
Proof.
  intros H. destruct (drop i l) eqn:E; [|by eauto].
  apply (f_equal length) in E. rewrite length_drop in E. simpl in E. lia.
Qed.

Lemma error_list_from_spec i results cloudEvents :
  (length results + i <= length cloudEvents)%nat ->
  error_list_from i results cloudEvents = Ok (failed results (drop i cloudEvents)).
Proof.
  revert i. induction results as [|r results IH]; intros i Hi; [done|]. simpl in Hi.
  destruct (drop_short cloudEvents i (length results)) as (e & es & E); [lia|].
  rewrite E. apply event_at_drop in E as [Ee <-]. simpl.
  rewrite (IH (S i)) by lia. unfold failed. simpl.
  destruct (pr_Success r); simpl; [done|]. by rewrite Ee.
Qed.

Lemma filter_errors_from_spec i results cloudEvents :
  (length results + i <= length cloudEvents)%nat ->
  filter_errors_from i results cloudEvents
    = Ok (@ce_Event sdk <$> failed results (drop i cloudEvents)).
Proof.
  revert i. induction results as [|r results IH]; intros i Hi; [done|]. simpl in Hi.
  destruct (drop_short cloudEvents i (length results)) as (e & es & E); [lia|].
  rewrite E. apply event_at_drop in E as [Ee <-]. simpl.
  rewrite Ee. simpl. rewrite (IH (S i)) by lia. unfold failed. simpl.
  by destruct (pr_Success r).
Qed.

End Results.

(** ** Properties *)

Section Properties.
Context `{sdk : CloudEvents}.
Variable zlib_write : string -> result string.

(** The payload prepared for an event, if there is one. *)
Definition prepared (e : Event) : option PublishDataInput :=
  match NewPublishDataInput zlib_write e with Ok d => Some d | _ => None end.

Definition no_panic : Prop :=
  forall e, is_panic (NewPublishDataInput zlib_write e) = false.

Lemma map_events_prepared evs :
  no_panic -> MapCloudEventsToPublishDataInputs zlib_write evs = Ok (omap prepared evs).
Proof.
  intros Hp. induction evs as [|e evs IH]; [done|]. simpl. unfold prepared at 1.
  specialize (Hp e). destruct (NewPublishDataInput zlib_write e); by rewrite ?IH.
Qed.

Lemma create_list_prepared source evs :
  no_panic ->
  CreatePublishEventList zlib_write source evs
    = (Ok (omap prepared (SetSource source <$> evs)), SetSource source <$> evs).
Proof.
  intros Hp. induction evs as [|e evs IH]; [done|]. csimpl. unfold prepared at 1.
  pose proof (Hp (SetSource source e)) as He.
  destruct (NewPublishDataInput zlib_write (SetSource source e)); by rewrite ?IH.
Qed.

Lemma omap_prepared_full evs :
  length (omap prepared evs) = length evs ->
  Forall (fun e => is_Some (prepared e)) evs.
Proof.
  intros H. assert (forall l, (length (omap prepared l) <= length l)%nat) as Hle.
  { induction l as [|e l IH]; [done|]. csimpl. destruct (prepared e); csimpl; lia. }
  induction evs as [|e evs IH]; [done|]. csimpl in H.
  pose proof (Hle evs). destruct (prepared e) eqn:E; csimpl in H; [|lia].
  constructor; [by rewrite E; eauto | apply IH; lia].
Qed.

Lemma failed_prepared (judge : PublishDataInput -> PublishEventResult) evs :
  Forall (fun e => is_Some (prepared e)) evs ->
  failed (judge <$> omap prepared evs) evs
    = omap (fun e => d ← prepared e;
                     if pr_Success (judge d) then None
                     else Some (mkCloudEventError sdk e (pr_Error (judge d)))) evs.
Proof.
  induction 1 as [|e evs [d Hd] Hevs IH]; [done|].
  unfold failed in *. csimpl. rewrite Hd. csimpl. rewrite IH. done.
Qed.

End Properties.

(** C20. What is published for an event is its JSON form, compressed and then
    base64-encoded: a consumer that decodes and decompresses the payload gets
    back exactly the text the SDK marshalled. *)
Theorem publish_payload_roundtrip `{sdk : CloudEvents} zlib_write zlib_read e d :
  (forall p z, zlib_write p = Ok z -> zlib_read z = Some p) ->
  NewPublishDataInput zlib_write e = Ok d ->
  exists json,
    MarshalJSON e = Ok json /\
    pd_Type d = "event" /\ pd_Compressed d = true /\
    b64_DecodeString (pd_Payload d) ≫= zlib_read = Some json.
Proof.
  intros Hz Hd. unfold NewPublishDataInput in Hd. bind_inv. subst d.
  eexists; split_and!; [done..|]. simpl. rewrite b64_decode_encode. simpl. eauto.
Qed.

(** When there are no more results than events, both functions that pair
    results with events return without panicking, and both report exactly the
    events whose result is a failure, in order. *)
Theorem failed_events_reported `{sdk : CloudEvents} results evs :
  (length results <= length evs)%nat ->
  CreateCloudEventErrorList results evs = Ok (failed results evs) /\
  FilterCloudEventsWithErrors results evs = Ok (@ce_Event sdk <$> failed results evs).
Proof.
  intros H. unfold CreateCloudEventErrorList, FilterCloudEventsWithErrors.
  by rewrite error_list_from_spec, filter_errors_from_spec by lia.
Qed.

(** C19. When every event can be prepared and the service answers payload by
    payload, the errors returned for a publication name precisely the events
    whose own payload was refused, with the reason given for it, and the events
    filtered by the results are the same. *)
Theorem publish_feedback `{sdk : CloudEvents} zlib_write source evs payloads evs'
    (judge : PublishDataInput -> PublishEventResult) :
  no_panic zlib_write ->
  CreatePublishEventList zlib_write source evs = (Ok payloads, evs') ->
  length payloads = length evs ->
  let refused := omap (fun e => d ← prepared zlib_write e;
                         if pr_Success (judge d) then None
                         else Some (mkCloudEventError sdk e (pr_Error (judge d)))) evs' in
  evs' = SetSource source <$> evs /\
  CreateCloudEventErrorList (judge <$> payloads) evs' = Ok refused /\
  FilterCloudEventsWithErrors (judge <$> payloads) evs' = Ok (@ce_Event sdk <$> refused).
Proof.
  intros Hp Hc Hlen. rewrite create_list_prepared in Hc by done. simplify_eq.
  assert (length (omap (prepared zlib_write) (SetSource source <$> evs))
          = length (SetSource source <$> evs)) as H by (by rewrite length_fmap).
  split; [done|]. unfold CreateCloudEventErrorList, FilterCloudEventsWithErrors.
  rewrite error_list_from_spec, filter_errors_from_spec by (rewrite length_fmap, H; lia).
  rewrite drop_0. by rewrite failed_prepared by (by apply omap_prepared_full).
Qed.

(** ** A concrete SDK, for evaluation *)

Record plain_event := mkPlainEvent {
  pe_ID : string; pe_Type : string; pe_Source : string; pe_Subject : string;
  pe_DataContentType : string; pe_Time : Z; pe_Data : string;
}.

Definition plain_sdk : CloudEvents := {|
  Event := plain_event;
  NewEvent := mkPlainEvent EmptyString EmptyString EmptyString EmptyString EmptyString 0 EmptyString;
  SetID x e := mkPlainEvent x (pe_Type e) (pe_Source e) (pe_Subject e) (pe_DataContentType e) (pe_Time e) (pe_Data e);
  SetType x e := mkPlainEvent (pe_ID e) x (pe_Source e) (pe_Subject e) (pe_DataContentType e) (pe_Time e) (pe_Data e);
  SetSource x e := mkPlainEvent (pe_ID e) (pe_Type e) x (pe_Subject e) (pe_DataContentType e) (pe_Time e) (pe_Data e);
  SetSubject x e := mkPlainEvent (pe_ID e) (pe_Type e) (pe_Source e) x (pe_DataContentType e) (pe_Time e) (pe_Data e);
  SetDataContentType x e := mkPlainEvent (pe_ID e) (pe_Type e) (pe_Source e) (pe_Subject e) x (pe_Time e) (pe_Data e);
  SetTime x e := mkPlainEvent (pe_ID e) (pe_Type e) (pe_Source e) (pe_Subject e) (pe_DataContentType e) x (pe_Data e);
  SetJSON x e := mkPlainEvent (pe_ID e) (pe_Type e) (pe_Source e) (pe_Subject e) (pe_DataContentType e) (pe_Time e) x;
  GetID := pe_ID;
  Data := pe_Data;
  MarshalJSON e := if decide (pe_ID e = EmptyString) then Err (Errorf "id: MUST be a non-empty string" [])
                   else Ok (pe_ID e +:+ "|" +:+ pe_Source e +:+ "|" +:+ pe_Data e);
|}.

#[global] Instance plain_sdk_laws : CloudEventsLaws plain_sdk.
Proof. by split. Qed.

Definition plain_ev (id data : string) : @Event plain_sdk :=
  mkPlainEvent id "metric" "urn:mycs" "Snapshot" "application/json" 0 data.

Lemma publish_payload_roundtrip_witness :
  exists json, @MarshalJSON plain_sdk (plain_ev "e1" "{}") = Ok json /\ json = "e1|urn:mycs|{}".
Proof.
  destruct (publish_payload_roundtrip (sdk := plain_sdk) Ok Some (plain_ev "e1" "{}")
    {| pd_Type := "event"; pd_Compressed := true; pd_Payload := "ZTF8dXJuOm15Y3N8e30=" |})
    as (json & Hj & _ & _ & Hr).
  - intros p z Hz. injection Hz as ->. reflexivity.
  - vm_compute. reflexivity.
  - exists json. split; [exact Hj|]. vm_compute in Hj. injection Hj as <-. reflexivity.
Defined.

Definition results1 : list PublishEventResult :=
  [mkPublishEventResult true EmptyString; mkPublishEventResult false "throttled"].
Definition events1 : list (@Event plain_sdk) := [plain_ev "e1" "1"; plain_ev "e2" "2"; plain_ev "e3" "3"].

Lemma failed_events_reported_witness :
  FilterCloudEventsWithErrors (sdk := plain_sdk) results1 events1 = Ok [plain_ev "e2" "2"].
Proof.
  destruct (failed_events_reported (sdk := plain_sdk) results1 events1) as [_ H];
    [vm_compute; lia | exact H].
Defined.

Definition judge1 (d : PublishDataInput) : PublishEventResult :=
  mkPublishEventResult (bool_decide (d = mkPublishDataInput "event" true "ZTN8c3JjfDM=")) "denied".

Lemma publish_feedback_witness :
  exists payloads evs',
    CreatePublishEventList (sdk := plain_sdk) Ok "src" events1 = (Ok payloads, evs') /\
    length <$> CreateCloudEventErrorList (sdk := plain_sdk) (judge1 <$> payloads) evs' = Ok 2%nat.
Proof.
  eexists _, _. split; [vm_compute; reflexivity|].
  destruct (publish_feedback (sdk := plain_sdk) Ok "src" events1
    [mkPublishDataInput "event" true "ZTF8c3JjfDE="; mkPublishDataInput "event" true "ZTJ8c3JjfDI=";
     mkPublishDataInput "event" true "ZTN8c3JjfDM="]
    (SetSource (CloudEvents := plain_sdk) "src" <$> events1) judge1) as (_ & H & _).
  - intros e. unfold NewPublishDataInput. simpl. case_decide; reflexivity.
  - vm_compute. reflexivity.
  - reflexivity.
  - exact (f_equal (fun r : result (list (@CloudEventError plain_sdk)) => @length _ <$> r) H).
Defined.

(** When an event cannot be prepared it is dropped from the list that is
    published, so the results come back shifted against the caller's events: the
    failure of a later event is reported for the one that was dropped. *)
Theorem dropped_event_shifts_results :
  exists (evs : list (@Event plain_sdk)) payloads evs' bad refused,
    CreatePublishEventList Ok "src" evs = (Ok payloads, evs') /\
    evs' = [bad; refused] /\ bad <> refused /\
    payloads = [mkPublishDataInput "event" true "ZTJ8c3JjfDI="] /\
    NewPublishDataInput Ok refused = Ok (mkPublishDataInput "event" true "ZTJ8c3JjfDI=") /\
    CreateCloudEventErrorList [mkPublishEventResult false "refused"] evs'
      = Ok [mkCloudEventError plain_sdk bad "refused"].
Proof.
  exists [plain_ev EmptyString "1"; plain_ev "e2" "2"].
  eexists _, _, _, _. split_and!; try reflexivity. done.
Qed.
