(* ===== verification/Monitor.v ===== *)
(** * monitors/monitor.go

    The monitor service: counters are collected on a timer into payloads, the
    payloads are queued, and every [collectCount] collections the queue is handed
    to a goroutine that posts it.  What the sender refuses is put back in front of
    the queue.

    Counters, and the attribute maps they point to, are shared: they live in a
    memory and are known by their address.  The functions below are the bodies of
    the methods; each runs under the service's lock, so the service is the
    transition system [step] whose transitions are whole calls, the start of a
    posting goroutine, its call of the sender, and the return of that call. *)

From S2P Require Import Prelude Counter Events.

Definition counter_ref := positive.

(** ** Data *)

Record Monitor := mkMonitor {
  m_name : string;
  m_counters : list counter_ref;
}.

Record monitorSnapshot := mkMonitorSnapshot {
  ms_Name : string;
  ms_Counters : list counterSnapshot;
}.

Record eventPayload := mkEventPayload {
  ep_Monitors : list monitorSnapshot;
}.

#[global] Instance monitorSnapshot_eq_dec : EqDecision monitorSnapshot.
Proof. solve_decision. Defined.
#[global] Instance eventPayload_eq_dec : EqDecision eventPayload.
Proof. solve_decision. Defined.
#[global] Instance Counter_inhabited : Inhabited Counter :=
  populate (NewCounter EmptyString false false).

(** The fields of [MonitorService] its methods use.  A [*Monitor] is known by its
    position in [s_monitors], which only ever grows. *)
Record MonitorService := mkMonitorService {
  s_collectInterval : Z;
  s_collectCount : Z;
  s_sendCountdown : Z;
  s_monitors : list Monitor;
  s_eventPayloads : list eventPayload;
}.

(** What the methods share: the counters, their attribute maps, and how often the
    clock has been read. *)
Record memory := mkMemory {
  mem_counters : gmap counter_ref Counter;
  mem_attribs : attrib_store;
  mem_clock : nat;
}.

Definition set_eventPayloads (ms : MonitorService) (q : list eventPayload) : MonitorService :=
  {| s_collectInterval := s_collectInterval ms; s_collectCount := s_collectCount ms;
     s_sendCountdown := s_sendCountdown ms; s_monitors := s_monitors ms;
     s_eventPayloads := q |}.

Definition set_sendCountdown (ms : MonitorService) (n : Z) : MonitorService :=
  {| s_collectInterval := s_collectInterval ms; s_collectCount := s_collectCount ms;
     s_sendCountdown := n; s_monitors := s_monitors ms;
     s_eventPayloads := s_eventPayloads ms |}.

Definition set_monitors (ms : MonitorService) (l : list Monitor) : MonitorService :=
  {| s_collectInterval := s_collectInterval ms; s_collectCount := s_collectCount ms;
     s_sendCountdown := s_sendCountdown ms; s_monitors := l;
     s_eventPayloads := s_eventPayloads ms |}.

(** ** Construction and registration *)

(** [make([]*eventPayload, 0, collectCount)] panics on a negative capacity. *)
Definition NewMonitorService (collectCount collectInterval : Z) : result MonitorService :=
  if (collectCount <? 0)%Z then Panic "makeslice: cap out of range"
  else Ok {| s_collectInterval := collectInterval;
             s_collectCount := collectCount -64 1;
             s_sendCountdown := collectCount -64 1;
             s_monitors := []; s_eventPayloads := [] |}.

Definition NewMonitor (name : string) (ms : MonitorService) : MonitorService :=
  set_monitors ms (s_monitors ms ++ [{| m_name := name; m_counters := [] |}]).

Definition AddCounter (counter : counter_ref) (m : Monitor) : Monitor :=
  {| m_name := m_name m; m_counters := m_counters m ++ [counter] |}.

(** [copy(l[i:], l[i+1:])]: the tail moves down by one, the last element stays. *)
Definition copy_down (i : nat) (l : list counter_ref) : list counter_ref :=
  take i l ++ drop (S i) l ++ drop (length l - 1) l.

(** The loop of [DeleteCounter], from index [i - 1] down to 0. *)
Fixpoint find_down (i : nat) (counter : counter_ref) (l : list counter_ref) : option nat :=
  match i with
  | O => None
  | S i => if decide (l !! i = Some counter) then Some i else find_down i counter l
  end.

Definition DeleteCounter (counter : counter_ref) (m : Monitor) : result Monitor :=
  let l := m_counters m in
  let l' := match find_down (length l) counter l with
            | Some i => copy_down i l
            | None => l
            end in
  match length l with
  | O => Panic "slice bounds out of range [:-1]"
  | S j => Ok {| m_name := m_name m; m_counters := take j l' |}
  end.

(** ** Collection *)

Section Collect.
(** The n-th reading of the clock, in nanoseconds. *)
Variable time_now : nat -> Z.

Definition collect_ref (r : counter_ref) (mem : memory) : option counterSnapshot * memory :=
  let (cs, c) := collect_counter (time_now (mem_clock mem)) (mem_counters mem !!! r) in
  (cs, {| mem_counters := <[r := c]> (mem_counters mem); mem_attribs := mem_attribs mem;
          mem_clock := match cs with Some _ => S (mem_clock mem) | None => mem_clock mem end |}).

Fixpoint collect_counters (rs : list counter_ref) (mem : memory)
    : list counterSnapshot * memory :=
  match rs with
  | [] => ([], mem)
  | r :: rs =>
      let (cs, mem) := collect_ref r mem in
      let (css, mem) := collect_counters rs mem in
      (option_list cs ++ css, mem)
  end.

(** The payload's monitors, whether any counter gave a snapshot, and the memory. *)
Fixpoint collect_monitors (mons : list Monitor) (mem : memory)
    : list monitorSnapshot * bool * memory :=
  match mons with
  | [] => ([], false, mem)
  | m :: mons =>
      match m_counters m with
      | [] => collect_monitors mons mem
      | rs =>
          let (css, mem) := collect_counters rs mem in
          let '(mss, added, mem) := collect_monitors mons mem in
          ({| ms_Name := m_name m; ms_Counters := css |} :: mss,
           negb (bool_decide (css = [])) || added, mem)
      end
  end.

Definition collectEvents (ms : MonitorService) (mem : memory) : MonitorService * memory :=
  let '(mss, addPayload, mem) := collect_monitors (s_monitors ms) mem in
  if addPayload
  then (set_eventPayloads ms (s_eventPayloads ms ++ [{| ep_Monitors := mss |}]), mem)
  else (ms, mem).

(** The first half of [postEvents]: the queue becomes the batch of a new
    goroutine. *)
Definition postEvents (ms : MonitorService) : list eventPayload * MonitorService :=
  (s_eventPayloads ms, set_eventPayloads ms []).

(** The timer's callback: the batch of the goroutine it starts, if any. *)
Definition collect (ms : MonitorService) (mem : memory)
    : option (list eventPayload) * MonitorService * memory :=
  let (ms, mem) := collectEvents ms mem in
  if (s_sendCountdown ms =? 0)%Z then
    let (batch, ms) := postEvents ms in
    (Some batch, set_sendCountdown ms (s_collectCount ms), mem)
  else (None, set_sendCountdown ms (s_sendCountdown ms -64 1), mem).

End Collect.

(** ** Payloads by value

    Marshalling follows the pointers of a payload; unmarshalling builds a payload
    with maps of its own. *)

Record flatSnapshot := mkFlatSnapshot {
  f_Name : option string;
  f_Timestamp : Z;
  f_Value : Z;
  f_Attribs : option (option (gmap string string));
}.

Record flatMonitor := mkFlatMonitor {
  fm_Name : string;
  fm_Counters : list flatSnapshot;
}.

Record flatPayload := mkFlatPayload {
  fp_Monitors : list flatMonitor;
}.

Definition flat_snapshot (h : attrib_store) (cs : counterSnapshot) : flatSnapshot :=
  {| f_Name := cs_Name cs; f_Timestamp := cs_Timestamp cs; f_Value := cs_Value cs;
     f_Attribs := fmap (M := option) (fmap (M := option) (fun r => default ∅ (h !! r)))
                       (cs_Attribs cs) |}.

Definition flat_payload (h : attrib_store) (p : eventPayload) : flatPayload :=
  mkFlatPayload
    ((fun m => mkFlatMonitor (ms_Name m) (flat_snapshot h <$> ms_Counters m)) <$> ep_Monitors p).

(** A map read from JSON is a new one. *)
Definition load_snapshot (f : flatSnapshot) (h : attrib_store)
    : counterSnapshot * attrib_store :=
  match f_Attribs f with
  | Some (Some m) =>
      let r := fresh (dom h) in
      (mkCounterSnapshot (f_Name f) (f_Timestamp f) (f_Value f) (Some (Some r)), <[r := m]> h)
  | Some None => (mkCounterSnapshot (f_Name f) (f_Timestamp f) (f_Value f) (Some None), h)
  | None => (mkCounterSnapshot (f_Name f) (f_Timestamp f) (f_Value f) None, h)
  end.

Fixpoint load_list {A B} (load : A -> attrib_store -> B * attrib_store) (l : list A)
    (h : attrib_store) : list B * attrib_store :=
  match l with
  | [] => ([], h)
  | x :: l =>
      let (y, h) := load x h in
      let (ys, h) := load_list load l h in
      (y :: ys, h)
  end.

Definition load_monitor (f : flatMonitor) (h : attrib_store) : monitorSnapshot * attrib_store :=
  let (css, h) := load_list load_snapshot (fm_Counters f) h in
  (mkMonitorSnapshot (fm_Name f) css, h).

Definition load_payload (f : flatPayload) (h : attrib_store) : eventPayload * attrib_store :=
  let (mss, h) := load_list load_monitor (fp_Monitors f) h in (mkEventPayload mss, h).

(** A pointer to a nil map is written as null and read back as a nil pointer. *)
Definition normal_snapshot (f : flatSnapshot) : flatSnapshot :=
  {| f_Name := f_Name f; f_Timestamp := f_Timestamp f; f_Value := f_Value f;
     f_Attribs := match f_Attribs f with Some None => None | a => a end |}.

Definition normal_payload (p : flatPayload) : flatPayload :=
  mkFlatPayload
    ((fun m => mkFlatMonitor (fm_Name m) (normal_snapshot <$> fm_Counters m)) <$> fp_Monitors p).

(** ** The JSON form of a payload

    [None] is an error, which the service only logs.  What the service relies on:
    a payload whose texts are representable is marshalled without error, and
    unmarshalling gives it back up to [normal_payload]. *)

Class PayloadCodec := {
  payload_Marshal : flatPayload -> option string;
  payload_Unmarshal : string -> option flatPayload;
  text_ok : string -> bool;
}.

Definition snapshot_ok `{PayloadCodec} (f : flatSnapshot) : Prop :=
  int64_range (f_Timestamp f) /\ int64_range (f_Value f) /\
  match f_Name f with Some n => text_ok n = true | None => True end /\
  match f_Attribs f with
  | Some (Some m) => map_Forall (fun k v => text_ok k = true /\ text_ok v = true) m
  | _ => True
  end.

Definition payload_ok `{PayloadCodec} (p : flatPayload) : Prop :=
  Forall (fun m => text_ok (fm_Name m) = true /\ Forall snapshot_ok (fm_Counters m))
         (fp_Monitors p).

Class PayloadCodecLaws `(codec : PayloadCodec) : Prop := {
  payload_roundtrip p :
    payload_ok p ->
    exists t, payload_Marshal p = Some t /\ payload_Unmarshal t = Some (normal_payload p);
}.

(** ** Posting *)

Section Post.
Context `{sdk : CloudEvents} `{codec : PayloadCodec}.
Variable time_now : nat -> Z.
(** The n-th identifier [uuid.NewString] returns. *)
Variable uuid : nat -> string.

Definition networkMetricEventType : string := "io.appbricks.mycs.network.metric".

(** The event of one payload; when its data cannot be set the event is posted
    without any. *)
Definition new_event (n : nat) (data : option string) : Event :=
  let event := SetTime (time_now n)
    (SetDataContentType "application/json"
      (SetSubject "Application Monitor Snapshot"
        (SetSource "urn:mycs" (SetType networkMetricEventType (SetID (uuid n) NewEvent))))) in
  match data with
  | Some t => SetJSON t event
  | None => event
  end.

(** The events of a batch, in order.  Maps are read when the goroutine runs. *)
Fixpoint new_events (n : nat) (h : attrib_store) (batch : list eventPayload) : list Event :=
  match batch with
  | [] => []
  | data :: batch =>
      new_event n (payload_Marshal (flat_payload h data)) :: new_events (S n) h batch
  end.

(** The payloads to post again, from the errors the sender reports. *)
Fixpoint repost_list (errs : list CloudEventError) (h : attrib_store)
    : list eventPayload * attrib_store :=
  match errs with
  | [] => ([], h)
  | e :: errs =>
      match payload_Unmarshal (Data (ce_Event e)) with
      | None => repost_list errs h
      | Some f =>
          let (ep, h) := load_payload f h in
          let (eps, h) := repost_list errs h in
          (ep :: eps, h)
      end
  end.

(** What the goroutine does with the sender's answer to [batch]. *)
Definition post_response (batch : list eventPayload)
    (answer : list CloudEventError * option error) (ms : MonitorService) (mem : memory)
    : MonitorService * memory :=
  let (postEventErrors, err) := answer in
  match err with
  | Some _ => (set_eventPayloads ms (batch ++ s_eventPayloads ms), mem)
  | None =>
      match postEventErrors with
      | [] => (ms, mem)
      | errs =>
          let (eps, h) := repost_list errs (mem_attribs mem) in
          (set_eventPayloads ms (eps ++ s_eventPayloads ms),
           mkMemory (mem_counters mem) h (mem_clock mem))
      end
  end.

End Post.

(** ** Lemmas on the list of counters *)

Lemma find_down_Some i r l j :
  find_down i r l = Some j ->
  (j < i)%nat /\ l !! j = Some r /\ forall k, (j < k < i)%nat -> l !! k <> Some r.
Proof.
  induction i as [|i IH]; [done|]. simpl. case_decide as E.
  - intros [= ->]. split_and!; [lia | done | lia].
  - intros (Hj & Hr & Hk)%IH. split_and!; [lia | done |].
    intros k Hjk. destruct (decide (k = i)) as [->|]; [done | apply Hk; lia].
Qed.

Lemma find_down_None i r l : find_down i r l = None -> forall k, (k < i)%nat -> l !! k <> Some r.
Proof.
  induction i as [|i IH]; [lia|]. simpl. case_decide as E; [done|].
  intros H k Hk. destruct (decide (k = i)) as [->|]; [done | apply IH; [done | lia]].
Qed.

Lemma copy_down_take i l j :
  (i < length l)%nat -> length l = S j -> take j (copy_down i l) = take i l ++ drop (S i) l.
Proof.
  intros Hi Hj. unfold copy_down. rewrite app_assoc. apply take_app_length'.
  rewrite length_app, length_take, length_drop. lia.
Qed.

(** Deleting a registered counter removes its last registration and nothing
    else: the other counters keep their order. *)
Theorem DeleteCounter_registered m r :
  r ∈ m_counters m ->
  exists l1 l2,
    m_counters m = l1 ++ (r :: l2) /\ (r ∉ l2) /\
    DeleteCounter r m = Ok (mkMonitor (m_name m) (l1 ++ l2)).
Proof.
  intros Hr. unfold DeleteCounter.
  destruct (find_down (length (m_counters m)) r (m_counters m)) as [i|] eqn:E.
  - apply find_down_Some in E as (Hi & Hl & Hlast).
    exists (take i (m_counters m)), (drop (S i) (m_counters m)). split_and!.
    + symmetry. by apply take_drop_middle.
    + intros (k & Hk)%list_elem_of_lookup. rewrite lookup_drop in Hk.
      apply (Hlast (S i + k)%nat); [|done]. apply lookup_lt_Some in Hk. lia.
    + destruct (length (m_counters m)) as [|j] eqn:Ej; [lia|].
      rewrite copy_down_take by lia. done.
  - apply list_elem_of_lookup in Hr as (k & Hk).
    exfalso. eapply find_down_None; [done | | done]. by apply lookup_lt_Some in Hk.
Qed.

Lemma DeleteCounter_registered_witness :
  exists l1 l2,
    [1; 2; 1; 3]%positive = l1 ++ (1%positive :: l2) /\ (1%positive ∉ l2) /\
    DeleteCounter 1%positive (mkMonitor "m" [1; 2; 1; 3]%positive) = Ok (mkMonitor "m" (l1 ++ l2)).
Proof.
  apply (DeleteCounter_registered (mkMonitor "m" [1; 2; 1; 3]%positive) 1%positive).
  by apply (bool_decide_unpack _); vm_compute.
Defined.

(** Deleting a counter that is not registered removes a counter all the
    same, the one registered last; and on a monitor without counters the call
    panics. *)
Theorem DeleteCounter_unregistered m r :
  r ∉ m_counters m ->
  DeleteCounter r m =
    match m_counters m with
    | [] => Panic "slice bounds out of range [:-1]"
    | l => Ok (mkMonitor (m_name m) (take (length l - 1) l))
    end.
Proof.
  intros Hr. unfold DeleteCounter.
  destruct (find_down (length (m_counters m)) r (m_counters m)) as [i|] eqn:E.
  - apply find_down_Some in E as (_ & Hl & _). by apply list_elem_of_lookup_2 in Hl.
  - destruct (m_counters m) as [|x l]; [done|]. simpl. by rewrite Nat.sub_0_r.
Qed.

Lemma DeleteCounter_unregistered_witness :
  DeleteCounter 9%positive (mkMonitor "m" [1; 2]%positive) = Ok (mkMonitor "m" [1]%positive).
Proof.
  rewrite (DeleteCounter_unregistered (mkMonitor "m" [1; 2]%positive) 9%positive); [reflexivity|].
  by apply (bool_decide_unpack _); vm_compute.
Defined.
