(* ===== verification/GoNet.v ===== *)
(** * net and net/netip

    [net.ParseCIDR] with the address parsers behind it, [netip.ParseAddr], and
    the printing of addresses and networks.  An address is the list of its bytes,
    as numbers. *)

From S2P Require Import Prelude GoStrings GoEncoding.
Local Open Scope Z_scope.

Definition IP := list Z.

(** An address and its mask, of four or of sixteen bytes each. *)
Record IPNet := mkIPNet { net_IP : IP; net_Mask : list Z }.

#[global] Instance IPNet_eq_dec : EqDecision IPNet.
Proof. solve_decision. Defined.

(** ** Numbers inside addresses *)

Definition big : Z := 16777215.

(** [dtoi]: the leading decimal digits of [s], how many there are, and what
    follows; [None] when there is none or the number is too big. *)
Fixpoint dtoi_go (n : Z) (count : nat) (s : string) : option (Z * nat * string) :=
  match s with
  | String c t =>
      if is_digit c then
        let n := n * 10 + digit_val c in
        if big <=? n then None else dtoi_go n (S count) t
      else Some (n, count, s)
  | EmptyString => Some (n, count, s)
  end.

Definition dtoi (s : string) : option (Z * nat * string) :=
  match dtoi_go 0 0 s with
  | Some (_, O, _) => None
  | r => r
  end.

(** [xtoi]: the same for hexadecimal digits. *)
Fixpoint xtoi_go (n : Z) (count : nat) (s : string) : option (Z * nat * string) :=
  match s with
  | String c t =>
      match hex_val c with
      | Some d =>
          let n := n * 16 + d in
          if big <=? n then None else xtoi_go n (S count) t
      | None => Some (n, count, s)
      end
  | EmptyString => Some (n, count, s)
  end.

Definition xtoi (s : string) : option (Z * nat * string) :=
  match xtoi_go 0 0 s with
  | Some (_, O, _) => None
  | r => r
  end.

(** ** IPv4 *)

(** One component: at most 255, and no leading zero before another digit. *)
Definition octet (s : string) : option (Z * string) :=
  match dtoi s with
  | Some (n, c, r) =>
      if (255 <? n) then None
      else if (1 <? c)%nat && HasPrefix s "0" then None
      else Some (n, r)
  | None => None
  end.

Fixpoint octets (k : nat) (s : string) : option (list Z * string) :=
  match k with
  | O => Some ([], s)
  | S k =>
      match s with
      | String "." t =>
          match octet t with
          | Some (n, r) =>
              match octets k r with Some (l, r) => Some (n :: l, r) | None => None end
          | None => None
          end
      | _ => None
      end
  end.

Definition parseIPv4 (s : string) : option IP :=
  match octet s with
  | Some (n, r) =>
      match octets 3 r with
      | Some (l, EmptyString) => Some (n :: l)
      | _ => None
      end
  | None => None
  end.

(** ** IPv6 *)

(** The loop of [parseIPv6]: [ip] are the bytes read so far, [ell] where an
    ellipsis stood.  The result is what the code has when it leaves the loop:
    the bytes, the ellipsis and the unread text.  A round reads at least one
    byte of text, and eight rounds fill the address. *)
Fixpoint ipv6_loop (fuel : nat) (maxdigits : nat) (ip : IP) (ell : option nat) (s : string)
    : option (IP * option nat * string) :=
  match fuel with
  | O => Some (ip, ell, s)
  | S fuel =>
      match xtoi s with
      | None => None
      | Some (n, c, r) =>
          if (65535 <? n) || (maxdigits <? c)%nat then None
          else if HasPrefix r "." then
            if bool_decide (ell = None) && negb (length ip =? 12)%nat then None
            else if (16 <? length ip + 4)%nat then None
            else match parseIPv4 s with
                 | Some ip4 => Some (ip ++ ip4, ell, EmptyString)
                 | None => None
                 end
          else
            let ip := ip ++ [n / 256; n mod 256] in
            match r with
            | EmptyString => Some (ip, ell, EmptyString)
            | String ":" (String d r') =>
                if decide (d = ":"%char) then
                  match ell with
                  | Some _ => None
                  | None =>
                      match r' with
                      | EmptyString => Some (ip, Some (length ip), EmptyString)
                      | _ => ipv6_loop fuel maxdigits ip (Some (length ip)) r'
                      end
                  end
                else ipv6_loop fuel maxdigits ip ell (String d r')
            | _ => None
            end
      end
  end.

(** [maxdigits] is how many digits a group may have: [net] limits only the value
    of a group, [netip] also its length. *)
Definition parseIPv6 (maxdigits : nat) (s : string) : option IP :=
  let (ell, rest) :=
    match s with
    | String ":" (String ":" t) => (Some 0%nat, t)
    | _ => (None, s)
    end in
  if bool_decide (ell = Some 0%nat) && bool_decide (rest = EmptyString)
  then Some (replicate 16 0)
  else
    match ipv6_loop 8 maxdigits [] ell rest with
    | Some (ip, ell, EmptyString) =>
        if (length ip <? 16)%nat then
          match ell with
          | None => None
          | Some e => Some (take e ip ++ replicate (16 - length ip) 0 ++ drop e ip)
          end
        else match ell with None => Some ip | Some _ => None end
    | _ => None
    end.

(** ** Networks *)

(** [CIDRMask(ones, 8 * len)]: one byte at a time. *)
Fixpoint CIDRMask (ones : Z) (len : nat) : list Z :=
  match len with
  | O => []
  | S len =>
      if 8 <=? ones then 255 :: CIDRMask (ones - 8) len
      else (255 - Z.shiftr 255 ones) :: CIDRMask 0 len
  end.

(** [IP.Mask], for an address and a mask of the same length. *)
Definition mask_ip (ip : IP) (m : list Z) : IP := zip_with Z.land ip m.

Definition net_digits : nat := 16.

Definition ParseCIDR (s : string) : result (IP * IPNet) :=
  let err := Err (NetParseError "CIDR address" s) in
  match Index "/" s with
  | None => err
  | Some i =>
      let addr := s_take i s in
      let mask := s_drop (S i) s in
      match (match parseIPv4 addr with
             | Some ip => Some ip
             | None => parseIPv6 net_digits addr
             end), dtoi mask with
      | Some ip, Some (n, _, EmptyString) =>
          if (8 * Z.of_nat (length ip) <? n) then err
          else let m := CIDRMask n (length ip) in
               Ok (ip, mkIPNet (mask_ip ip m) m)
      | _, _ => err
      end
  end.

(** ** Printing *)

Definition hex_lower (n : Z) : string :=
  let d k := String (hex_digit (n / k mod 16)) EmptyString in
  if n <? 16 then d 1
  else if n <? 256 then d 16 +:+ d 1
  else if n <? 4096 then d 256 +:+ d 16 +:+ d 1
  else d 4096 +:+ d 256 +:+ d 16 +:+ d 1.

Definition format_ipv4 (ip : IP) : string := Join "." (format_int <$> ip).

(** The 16-bit groups of an address. *)
Fixpoint groups (ip : IP) : list Z :=
  match ip with
  | a :: b :: ip => (a * 256 + b) :: groups ip
  | _ => []
  end.

(** The length of the run of zero groups at the head. *)
Fixpoint zero_run (l : list Z) : nat :=
  match l with
  | g :: l => if g =? 0 then S (zero_run l) else 0
  | [] => 0
  end.

(** The first longest run of at least two zero groups: its start and length. *)
Fixpoint longest_run (i : nat) (l : list Z) (best : nat * nat) : nat * nat :=
  match l with
  | [] => best
  | _ :: l' =>
      let n := zero_run l in
      longest_run (S i) l' (if (best.2 <? n)%nat && (1 <? n)%nat then (i, n) else best)
  end.

Definition format_ipv6 (ip : IP) : string :=
  let g := groups ip in
  let (start, n) := longest_run 0 g (0, 0)%nat in
  if (n =? 0)%nat then Join ":" (hex_lower <$> g)
  else Join ":" (hex_lower <$> take start g) +:+ "::" +:+
       Join ":" (hex_lower <$> drop (start + n) g).

(** The address of four bytes that a 16-byte address may embed. *)
Definition To4 (ip : IP) : option IP :=
  if decide (length ip = 4%nat) then Some ip
  else if decide (length ip = 16%nat /\ take 12 ip = replicate 10 0 ++ [255; 255])
  then Some (drop 12 ip)
  else None.

Definition hex_bytes (b : list Z) : string :=
  hex_EncodeToString (foldr (fun n => String (byte_of n)) EmptyString b).

Definition IP_String (ip : IP) : string :=
  match To4 ip with
  | Some ip4 => format_ipv4 ip4
  | None =>
      if decide (ip = []) then "<nil>"
      else if decide (length ip = 16%nat) then format_ipv6 ip
      else "?" +:+ hex_bytes ip
  end.

(** How many ones a mask starts with, when nothing but zeros follows. *)
Definition byte_ones (b : Z) : option Z :=
  match list_find (fun k => b = 255 - Z.shiftr 255 k) [0; 1; 2; 3; 4; 5; 6; 7; 8] with
  | Some (_, k) => Some k
  | None => None
  end.

Fixpoint simpleMaskLength (m : list Z) : option Z :=
  match m with
  | [] => Some 0
  | b :: m =>
      if b =? 255 then Z.add 8 <$> simpleMaskLength m
      else k ← byte_ones b; if forallb (Z.eqb 0) m then Some k else None
  end.

(** A four-byte address embedded in sixteen bytes keeps the last four bytes of its
    mask; an address and a mask of other lengths do not make a network. *)
Definition networkNumberAndMask (n : IPNet) : option (IP * list Z) :=
  let ip := default (net_IP n) (To4 (net_IP n)) in
  if decide (length ip = 4%nat \/ length ip = 16%nat) then
    if decide (length (net_Mask n) = 4%nat) then
      if decide (length ip = 4%nat) then Some (ip, net_Mask n) else None
    else if decide (length (net_Mask n) = 16%nat) then
      Some (ip, if decide (length ip = 4%nat) then drop 12 (net_Mask n) else net_Mask n)
    else None
  else None.

Definition IPNet_String (n : IPNet) : string :=
  match networkNumberAndMask n with
  | None => "<nil>"
  | Some (nn, m) =>
      match simpleMaskLength m with
      | Some l => IP_String nn +:+ "/" +:+ format_int l
      | None => IP_String nn +:+ "/" +:+ hex_bytes m
      end
  end.

(** ** netip *)

Inductive Addr :=
| AddrZero
| Addr4 (ip : IP)
| Addr6 (ip : IP) (zone : string).

#[global] Instance Addr_eq_dec : EqDecision Addr.
Proof. solve_decision. Defined.

Definition netip_digits : nat := 4.

(** The first of the bytes [.], [:] and [%] decides. *)
Fixpoint addr_kind (s : string) : option ascii :=
  match s with
  | EmptyString => None
  | String c t =>
      if decide (c = "."%char \/ c = ":"%char \/ c = "%"%char) then Some c else addr_kind t
  end.

Definition ParseAddr (s : string) : option Addr :=
  match addr_kind s with
  | Some "."%char => Addr4 <$> parseIPv4 s
  | Some ":"%char =>
      match Index "%" s with
      | None => (fun ip => Addr6 ip EmptyString) <$> parseIPv6 netip_digits s
      | Some i =>
          let zone := s_drop (S i) s in
          if decide (zone = EmptyString) then None
          else (fun ip => Addr6 ip zone) <$> parseIPv6 netip_digits (s_take i s)
      end
  | _ => None
  end.

Definition MustParseAddr (s : string) : result Addr :=
  match ParseAddr s with Some a => Ok a | None => Panic "ParseAddr" end.

(** [Addr.String]: unlike [IP.String], an embedded IPv4 address keeps its IPv6
    prefix. *)
Definition Addr_String (a : Addr) : string :=
  match a with
  | AddrZero => "invalid IP"
  | Addr4 ip => format_ipv4 ip
  | Addr6 ip zone =>
      match To4 ip with
      | Some ip4 => "::ffff:" +:+ format_ipv4 ip4
      | None => format_ipv6 ip
      end +:+ (if decide (zone = EmptyString) then EmptyString else "%" +:+ zone)
  end.

(** ** Parsing undoes printing, for IPv4 *)

(** Text that does not go on with a digit. *)
Definition no_digit (r : string) : bool :=
  match r with String c _ => negb (is_digit c) | EmptyString => true end.

Lemma dtoi_go_format fuel n acc cnt :
  0 <= n < big -> n < 2 ^ Z.of_nat fuel -> (0 < fuel)%nat ->
  exists k, dtoi_go 0 cnt (format_go fuel n acc) = dtoi_go n (S k + cnt) acc /\
            (n < 10 -> k = 0%nat).
Proof.
  revert n acc. induction fuel as [|fuel IH]; intros n acc Hn Hf Hpos; [lia|].
  cbn [format_go]. pose proof (digit_spec (n mod 10) ltac:(dlia)) as [Hd Hv].
  assert (forall cnt', dtoi_go (n / 10) cnt' (String (digit (n mod 10)) acc) = dtoi_go n (S cnt') acc)
    as Hlast.
  { intros cnt'. cbn [dtoi_go]. rewrite Hd, Hv.
    replace (n / 10 * 10 + n mod 10) with n by dlia.
    by rewrite (proj2 (Z.leb_gt _ _)) by lia. }
  destruct (Z.ltb_spec n 10) as [Hlt|Hge].
  - exists 0%nat. split; [|done]. rewrite <- Hlast. f_equal. dlia.
  - rewrite Nat2Z.inj_succ, Z.pow_succ_r in Hf by lia.
    destruct (IH (n / 10) (String (digit (n mod 10)) acc)) as (k & -> & _);
      [dlia | dlia | destruct fuel; [simpl in Hf; lia | lia] |].
    exists (S k). split; [apply Hlast | lia].
Qed.

Lemma dtoi_go_end n cnt r : no_digit r = true -> dtoi_go n cnt r = Some (n, cnt, r).
Proof. destruct r as [|c r]; [done|]. simpl. intros H%negb_true_iff. by rewrite H. Qed.

Lemma format_go_app fuel n acc r : format_go fuel n acc +:+ r = format_go fuel n (acc +:+ r).
Proof.
  revert n acc. induction fuel as [|fuel IH]; intros n acc; [done|]. cbn [format_go].
  case_match; [done|]. by rewrite IH.
Qed.

Lemma format_int_uint n : 0 <= n -> format_int n = format_uint n.
Proof. intros Hn. unfold format_int. by rewrite (proj2 (Z.ltb_ge _ _)). Qed.

Lemma dtoi_format n r :
  0 <= n < big -> no_digit r = true ->
  exists k, dtoi (format_int n +:+ r) = Some (n, S k, r) /\ (n < 10 -> k = 0%nat).
Proof.
  intros Hn Hr. rewrite format_int_uint by lia. unfold dtoi, format_uint.
  rewrite format_go_app. simpl String.append.
  destruct (dtoi_go_format (S (Z.to_nat (Z.log2 n))) n r 0) as (k & -> & Hk); [done| |lia|].
  - rewrite Nat2Z.inj_succ, Z2Nat.id by apply Z.log2_nonneg.
    destruct (decide (n = 0)) as [->|]; [done | apply Z.log2_spec; lia].
  - exists k. rewrite dtoi_go_end by done. rewrite Nat.add_0_r. done.
Qed.

Lemma octet_format n r :
  0 <= n < 256 -> no_digit r = true -> octet (format_int n +:+ r) = Some (n, r).
Proof.
  intros Hn Hr. destruct (dtoi_format n r) as (k & Hd & Hk); [unfold big; lia | done |].
  unfold octet. rewrite Hd, (proj2 (Z.ltb_ge _ _)) by lia.
  destruct (Z.ltb_spec n 10) as [Hlt|Hge]; [by rewrite (Hk Hlt)|].
  rewrite format_int_uint by lia. destruct (format_uint_head n) as [E|(c & s & E & Hc)]; [lia| |].
  - exfalso. pose proof (parse_format_uint n) as Hp. rewrite E in Hp.
    specialize (Hp ltac:(unfold max_uint64, two64; lia)). vm_compute in Hp.
    injection Hp as Hp. lia.
  - rewrite E. simpl HasPrefix. rewrite bool_decide_eq_false_2 by congruence.
    by rewrite andb_false_r.
Qed.

Definition byte_ok (b : Z) : Prop := 0 <= b < 256.

Lemma parseIPv4_format a b c d :
  byte_ok a -> byte_ok b -> byte_ok c -> byte_ok d ->
  parseIPv4 (format_ipv4 [a; b; c; d]) = Some [a; b; c; d].
Proof.
  unfold byte_ok. intros Ha Hb Hc Hd. unfold format_ipv4, parseIPv4. csimpl.
  rewrite octet_format by done. cbn [octets].
  rewrite octet_format by done. rewrite octet_format by done.
  rewrite <- (s_app_nil_r (format_int d)), octet_format by done. done.
Qed.

Lemma Index_app c s t : s_free c s = true -> Index c (s +:+ String c t) = Some (String.length s).
Proof.
  induction s as [|d s IH]; simpl.
  - by rewrite decide_True.
  - rewrite s_free_cons. intros [Hd Hs]. by rewrite decide_False, IH.
Qed.

Lemma s_take_app s t : s_take (String.length s) (s +:+ t) = s.
Proof. induction s as [|c s IH]; simpl; [done | by rewrite IH]. Qed.

Lemma s_drop_app s c t : s_drop (S (String.length s)) (s +:+ String c t) = t.
Proof. induction s as [|d s IH]; [done|]. exact IH. Qed.

Lemma format_ipv4_free c ip :
  is_digit c = false -> c <> "-"%char -> c <> "."%char -> s_free c (format_ipv4 ip) = true.
Proof.
  intros Hd Hm Hp. apply s_forall_Join.
  - simpl. by rewrite bool_decide_eq_true_2.
  - apply Forall_fmap, Forall_true. intros n. by apply format_int_free.
Qed.

Lemma ParseCIDR_no_panic s : is_panic (ParseCIDR s) = false.
Proof. unfold ParseCIDR. by repeat case_match. Qed.
