(* ===== verification/GoNetText.v ===== *)
(** * Addresses and networks as text

    What [net.ParseCIDR] returns is well typed, and it inverts the printers of [net]:
    for IPv4 and IPv6 addresses, with the longest run of zero groups left out of the
    text and put back, and for networks with their masks. *)

From S2P Require Import Prelude GoStrings GoEncoding GoNet.
Local Open Scope Z_scope.

(** ** Well-typed networks *)

Definition ip_typed (ip : IP) : Prop :=
  (length ip = 4 \/ length ip = 16)%nat /\ Forall byte_ok ip.

Definition net_typed (n : IPNet) : Prop :=
  ip_typed (net_IP n) /\
  exists ones, 0 <= ones <= 8 * Z.of_nat (length (net_IP n)) /\
    net_Mask n = CIDRMask ones (length (net_IP n)) /\
    mask_ip (net_IP n) (net_Mask n) = net_IP n.

Lemma digit_val_range c : is_digit c = true -> 0 <= digit_val c < 10.
Proof. unfold is_digit, digit_val. intros H%bool_decide_eq_true. lia. Qed.

Lemma hex_val_range c d : hex_val c = Some d -> 0 <= d < 16.
Proof.
  unfold hex_val. intros H. repeat case_match; simplify_eq;
    repeat match goal with H : _ && _ = true |- _ => apply andb_true_iff in H as [] end; lia.
Qed.

Lemma dtoi_go_nonneg s n cnt m c r : dtoi_go n cnt s = Some (m, c, r) -> 0 <= n -> 0 <= m.
Proof.
  revert n cnt. induction s as [|a s IH]; intros n cnt; cbn [dtoi_go]; [by intros [= <- _ _]|].
  destruct (is_digit a) eqn:Ha; [|by intros [= <- _ _]].
  apply digit_val_range in Ha. case_match; [done|]. intros Hgo Hn. eapply IH; [done|lia].
Qed.

Lemma xtoi_go_nonneg s n cnt m c r : xtoi_go n cnt s = Some (m, c, r) -> 0 <= n -> 0 <= m.
Proof.
  revert n cnt. induction s as [|a s IH]; intros n cnt; cbn [xtoi_go]; [by intros [= <- _ _]|].
  destruct (hex_val a) eqn:Ha; [|by intros [= <- _ _]].
  apply hex_val_range in Ha. case_match; [done|]. intros Hgo Hn. eapply IH; [done|lia].
Qed.

Lemma dtoi_nonneg s m c r : dtoi s = Some (m, c, r) -> 0 <= m.
Proof.
  unfold dtoi. intros H. destruct (dtoi_go 0 0 s) as [[[n [|k]] t]|] eqn:E; simplify_eq.
  by eapply dtoi_go_nonneg.
Qed.

Lemma xtoi_nonneg s m c r : xtoi s = Some (m, c, r) -> 0 <= m.
Proof.
  unfold xtoi. intros H. destruct (xtoi_go 0 0 s) as [[[n [|k]] t]|] eqn:E; simplify_eq.
  by eapply xtoi_go_nonneg.
Qed.

Lemma octet_byte s n r : octet s = Some (n, r) -> byte_ok n.
Proof.
  unfold octet. destruct (dtoi s) as [[[m c] t]|] eqn:E; [|done]. apply dtoi_nonneg in E.
  destruct (255 <? m) eqn:Hm; [done|]. case_match; [done|]. intros [= <- _].
  unfold byte_ok. lia.
Qed.

Lemma octets_bytes k s l r : octets k s = Some (l, r) -> length l = k /\ Forall byte_ok l.
Proof.
  revert s l r. induction k as [|k IH]; intros s l r; cbn [octets]; [by intros [= <- _]|].
  intros H. repeat (case_match; simplify_eq/=).
  edestruct IH as [<- ?]; [done|]. split; [done|]. constructor; [by eapply octet_byte|done].
Qed.

Lemma parseIPv4_bytes s ip : parseIPv4 s = Some ip -> length ip = 4%nat /\ Forall byte_ok ip.
Proof.
  unfold parseIPv4. intros H. destruct (octet s) as [[n r]|] eqn:Ho; [|done].
  destruct (octets 3 r) as [[l [|]]|] eqn:E; simplify_eq.
  apply octets_bytes in E as [Hl ?]. cbn [length]. rewrite Hl. split; [done|].
  constructor; [by eapply octet_byte|done].
Qed.

Lemma group_byte_ok n : 0 <= n -> (65535 <? n) = false -> Forall byte_ok [n / 256; n mod 256].
Proof.
  intros. repeat constructor; unfold byte_ok;
    pose proof (Z.mod_pos_bound n 256); pose proof (Z.div_mod n 256);
    pose proof (Z.div_pos n 256); lia.
Qed.

Lemma ipv6_loop_bytes fuel m ip ell s ip' ell' r :
  ipv6_loop fuel m ip ell s = Some (ip', ell', r) ->
  (length ip + 2 * fuel <= 16)%nat -> Forall byte_ok ip ->
  (length ip' <= 16)%nat /\ Forall byte_ok ip'.
Proof.
  revert ip ell s. induction fuel as [|fuel IH]; intros ip ell s; cbn [ipv6_loop].
  { intros [= <- _ _] ??. split; [lia|done]. }
  destruct (xtoi s) as [[[n c] t]|] eqn:Hx; [|done]. apply xtoi_nonneg in Hx.
  destruct (65535 <? n) eqn:Hn; [done|]. intros H Hl Hb.
  assert (Forall byte_ok (ip ++ [n / 256; n mod 256])) as Hb2
    by (apply Forall_app; split; [done|by apply group_byte_ok]).
  assert (length (ip ++ [n / 256; n mod 256]%Z) = length ip + 2)%nat as Hl2 by apply length_app.
  destruct (m <? c)%nat; cbn [orb] in H; [done|].
  destruct (HasPrefix t "."); cbn [orb] in H.
  - repeat (case_match; simplify_eq/=).
    match goal with H : parseIPv4 _ = _ |- _ => apply parseIPv4_bytes in H as [H4 ?] end.
    rewrite length_app, H4. split; [|by apply Forall_app].
    match goal with H : (16 <? _)%nat = false |- _ => apply Nat.ltb_ge in H end. lia.
  - set (q := ip ++ [n / 256; n mod 256]) in *.
    repeat (case_match; simplify_eq/=);
      try (eapply IH; [eassumption|lia|done]); (split; [lia|done]).
Qed.

Lemma parseIPv6_bytes m s ip : parseIPv6 m s = Some ip -> length ip = 16%nat /\ Forall byte_ok ip.
Proof.
  unfold parseIPv6.
  set (start := match s with String ":" (String ":" t) => (Some 0%nat, t) | _ => (None, s) end).
  destruct start as [ell rest]. case_match.
  { intros [= <-]. split; [done|]. repeat constructor; unfold byte_ok; lia. }
  destruct (ipv6_loop 8 m [] ell rest) as [[[l e] [|]]|] eqn:E; [|done..].
  apply ipv6_loop_bytes in E as [Hl Hb]; [|cbn; lia|by constructor].
  destruct (length l <? 16)%nat eqn:Hlt; intros Hip; destruct e; simplify_eq.
  - apply Nat.ltb_lt in Hlt. split.
    + rewrite !length_app, length_replicate.
      rewrite <- (take_drop n l) in Hlt at 1. rewrite length_app in Hlt.
      rewrite <- (take_drop n l) at 2. rewrite length_app. lia.
    + rewrite !Forall_app. split_and!; [by apply Forall_take| |by apply Forall_drop].
      apply Forall_replicate. unfold byte_ok; lia.
  - apply Nat.ltb_ge in Hlt. split; [lia|done].
Qed.

Lemma length_CIDRMask ones len : length (CIDRMask ones len) = len.
Proof.
  revert ones. induction len as [|len IH]; intros ones; cbn [CIDRMask]; [done|].
  by case_match; cbn [length]; rewrite IH.
Qed.

Lemma land_byte a b : byte_ok a -> byte_ok (Z.land a b).
Proof.
  unfold byte_ok. intros Ha. rewrite <- (Z.mod_small a (2 ^ 8)), <- Z.land_ones by lia.
  rewrite <- Z.land_assoc, (Z.land_comm (Z.ones 8)), Z.land_assoc, Z.land_ones by lia.
  by apply Z.mod_pos_bound.
Qed.

Lemma mask_bytes ip m : Forall byte_ok ip -> Forall byte_ok (mask_ip ip m).
Proof.
  intros Hi. revert m. induction Hi; intros [|b m]; [constructor..|].
  cbn. constructor; [by apply land_byte|]. by apply IHHi.
Qed.

Lemma mask_mask ip m : mask_ip (mask_ip ip m) m = mask_ip ip m.
Proof.
  revert m. induction ip as [|a ip IH]; intros [|b m]; [done..|].
  unfold mask_ip in *. cbn. rewrite IH. f_equal. by rewrite <- Z.land_assoc, Z.land_diag.
Qed.

(** The networks [net.ParseCIDR] returns. *)
Lemma ParseCIDR_typed s ip n : ParseCIDR s = Ok (ip, n) -> ip_typed ip /\ net_typed n.
Proof.
  unfold ParseCIDR. destruct (Index "/" s) as [i|]; [|done].
  set (addr := match parseIPv4 (s_take i s) with Some ip => Some ip | None => _ end).
  assert (forall ip, addr = Some ip -> ip_typed ip) as Haddr.
  { subst addr. intros a. destruct (parseIPv4 (s_take i s)) as [b|] eqn:E.
    - intros [= <-]. apply parseIPv4_bytes in E as []. split; [by left|done].
    - intros H%parseIPv6_bytes. destruct H. split; [by right|done]. }
  destruct addr as [a|]; [|done]. specialize (Haddr a eq_refl).
  destruct (dtoi (s_drop (S i) s)) as [[[k c] [|]]|] eqn:E; [|done..]. apply dtoi_nonneg in E.
  case_match eqn:Hk; [done|]. apply Z.ltb_ge in Hk. intros [= <- <-]. split; [done|].
  assert (length (mask_ip a (CIDRMask k (length a))) = length a) as Hlen
    by (unfold mask_ip; rewrite length_zip_with, length_CIDRMask; apply Nat.min_id).
  destruct Haddr as [Hl Hb]. split.
  - split; cbn [net_IP]; [by rewrite Hlen|]. by apply mask_bytes.
  - exists k. cbn [net_IP net_Mask]. rewrite Hlen. split_and!; [done..|]. apply mask_mask.
Qed.

(** ** Hexadecimal groups *)

(** Text that does not go on with a hexadecimal digit. *)
Definition no_hex (r : string) : bool :=
  match r with
  | String c _ => match hex_val c with Some _ => false | None => true end
  | EmptyString => true
  end.

Definition group_ok (n : Z) : Prop := 0 <= n < 65536.

Lemma xtoi_go_digit d acc cnt s :
  0 <= d < 16 -> acc * 16 + d < big ->
  xtoi_go acc cnt (String (hex_digit d) s) = xtoi_go (acc * 16 + d) (S cnt) s.
Proof.
  intros Hd Hb. cbn [xtoi_go]. rewrite hex_val_digit by done.
  by rewrite (proj2 (Z.leb_gt _ _)).
Qed.

Lemma xtoi_go_end n cnt r : no_hex r = true -> xtoi_go n cnt r = Some (n, cnt, r).
Proof. destruct r as [|c r]; [done|]. cbn. by destruct (hex_val c). Qed.

Lemma hex_digits n :
  group_ok n ->
  exists d3 d2 d1 d0, n / 4096 mod 16 = d3 /\ n / 256 mod 16 = d2 /\ n / 16 mod 16 = d1 /\
    n / 1 mod 16 = d0 /\ 0 <= d3 < 16 /\ 0 <= d2 < 16 /\ 0 <= d1 < 16 /\ 0 <= d0 < 16 /\
    n = ((d3 * 16 + d2) * 16 + d1) * 16 + d0.
Proof.
  unfold group_ok. intros Hn. eexists _, _, _, _. split_and!; try reflexivity;
    try (by eapply Z.mod_pos_bound). rewrite Z.div_1_r.
  assert (n / 4096 mod 16 = n / 4096) as -> by (apply Z.mod_small; dlia).
  change 4096 with (256 * 16). rewrite <- Z.div_div by lia.
  change 256 with (16 * 16). rewrite <- (Z.div_div n 16 16) by lia.
  pose proof (Z.div_mod n 16 ltac:(lia)). pose proof (Z.div_mod (n / 16) 16 ltac:(lia)).
  pose proof (Z.div_mod (n / 16 / 16) 16 ltac:(lia)). lia.
Qed.

Lemma xtoi_hex n r :
  group_ok n -> no_hex r = true ->
  exists c, xtoi (hex_lower n +:+ r) = Some (n, S c, r) /\ (S c <= 4)%nat.
Proof.
  intros Hn Hr. destruct (hex_digits n Hn) as (d3 & d2 & d1 & d0 & E3 & E2 & E1 & E0 & Hd).
  unfold hex_lower, xtoi. cbv zeta. rewrite E3, E2, E1, E0. clear E3 E2 E1 E0.
  destruct (Z.ltb_spec n 16), (Z.ltb_spec n 256), (Z.ltb_spec n 4096); try lia;
    cbn [String.append]; rewrite !xtoi_go_digit, xtoi_go_end by (done || unfold big; lia);
    eexists; (split; [|by repeat constructor]); do 3 f_equal; lia.
Qed.

(** A printed group is not empty and holds only digits. *)
Lemma hex_lower_free c n :
  group_ok n -> hex_val c = None -> s_free c (hex_lower n) = true /\ hex_lower n <> EmptyString.
Proof.
  intros Hn Hc. destruct (hex_digits n Hn) as (d3 & d2 & d1 & d0 & E3 & E2 & E1 & E0 & Hd).
  assert (forall d, 0 <= d < 16 -> bool_decide (hex_digit d <> c) = true) as Hp.
  { intros d ?. apply bool_decide_eq_true. intros <-. by rewrite hex_val_digit in Hc. }
  unfold hex_lower. cbv zeta. rewrite E3, E2, E1, E0. clear E3 E2 E1 E0.
  unfold s_free. repeat case_match; cbn [String.append s_forall]; rewrite !Hp by lia; done.
Qed.

(** ** The loop of the IPv6 parser *)

Definition group_bytes (n : Z) : list Z := [n / 256; n mod 256].

Definition bytes_of (g : list Z) : IP := g ≫= group_bytes.

Definition groups_text (g : list Z) : string := Join ":" (hex_lower <$> g).

Lemma groups_text_cons n g :
  groups_text (n :: g) = hex_lower n +:+ (match g with [] => EmptyString | _ => String ":" (groups_text g) end).
Proof. unfold groups_text. destruct g; cbn [fmap list_fmap Join]; [by rewrite s_app_nil_r|done]. Qed.

Lemma groups_text_head g :
  g <> [] -> Forall group_ok g ->
  exists c s, groups_text g = String c s /\ c <> ":"%char.
Proof.
  intros Hne Hg. destruct Hg as [|n g Hn Hg]; [done|]. rewrite groups_text_cons.
  destruct (hex_lower_free ":" n Hn eq_refl) as [Hf Hh].
  destruct (hex_lower n) as [|c s]; [done|]. apply s_free_cons in Hf as [Hc _].
  cbn [String.append]. eauto.
Qed.

(** The text that may follow a group without being part of it. *)
Definition after_group (r : string) : bool := no_hex r && negb (HasPrefix r ".").

Lemma ipv6_loop_group fuel m ip ell n r :
  group_ok n -> after_group r = true -> (4 <= m)%nat ->
  ipv6_loop (S fuel) m ip ell (hex_lower n +:+ r) =
  let ip := ip ++ group_bytes n in
  match r with
  | EmptyString => Some (ip, ell, EmptyString)
  | String ":" (String d r') =>
      if decide (d = ":"%char) then
        match ell with
        | Some _ => None
        | None =>
            match r' with
            | EmptyString => Some (ip, Some (length ip), EmptyString)
            | _ => ipv6_loop fuel m ip (Some (length ip)) r'
            end
        end
      else ipv6_loop fuel m ip ell (String d r')
  | _ => None
  end.
Proof.
  intros Hn Hr Hm. apply andb_true_iff in Hr as [Hr Hp%negb_true_iff].
  destruct (xtoi_hex n r Hn Hr) as (c & Hx & Hc). cbn [ipv6_loop]. rewrite Hx, Hp.
  unfold group_ok in Hn. rewrite (proj2 (Z.ltb_ge _ _)), (proj2 (Nat.ltb_ge _ _)) by lia. done.
Qed.

(** The groups at the end of the text. *)
Lemma ipv6_loop_groups fuel m ip ell g :
  Forall group_ok g -> g <> [] -> (length g <= fuel)%nat -> (4 <= m)%nat ->
  ipv6_loop fuel m ip ell (groups_text g) = Some (ip ++ bytes_of g, ell, EmptyString).
Proof.
  intros Hg Hne. revert fuel ip. induction Hg as [|n g Hn Hg IH]; intros fuel ip Hl Hm; [done|].
  destruct fuel as [|fuel]; [cbn in Hl; lia|]. rewrite groups_text_cons.
  rewrite ipv6_loop_group by (done || by destruct g). destruct g as [|n' g]; cbv zeta.
  { unfold bytes_of. cbn [mbind list_bind]. by rewrite app_nil_r. }
  destruct (groups_text_head (n' :: g)) as (c & s & E & Hc); [done..|]. rewrite E.
  rewrite decide_False, <- E, IH by (done || cbn in Hl |- *; lia).
  unfold bytes_of. cbn [mbind list_bind]. by rewrite <- app_assoc.
Qed.

(** The groups before an ellipsis, and what the loop goes on with. *)
Lemma ipv6_loop_ellipsis fuel m ip g r :
  Forall group_ok g -> g <> [] -> (length g <= fuel)%nat -> (4 <= m)%nat ->
  ipv6_loop fuel m ip None (groups_text g +:+ "::" +:+ r) =
  let ip := ip ++ bytes_of g in
  match r with
  | EmptyString => Some (ip, Some (length ip), EmptyString)
  | _ => ipv6_loop (fuel - length g) m ip (Some (length ip)) r
  end.
Proof.
  intros Hg Hne. revert fuel ip. induction Hg as [|n g Hn Hg IH]; intros fuel ip Hl Hm; [done|].
  destruct fuel as [|fuel]; [cbn in Hl; lia|]. rewrite groups_text_cons, s_app_assoc.
  rewrite ipv6_loop_group by (done || by destruct g). destruct g as [|n' g]; cbv zeta.
  { unfold bytes_of. cbn [mbind list_bind String.append length]. rewrite decide_True, app_nil_r by done.
    by replace (S fuel - 1)%nat with fuel by lia. }
  destruct (groups_text_head (n' :: g)) as (c & s & E & Hc); [done..|]. rewrite E.
  cbn [String.append]. rewrite decide_False by done.
  change (String c (s +:+ ?t)) with (String c s +:+ t). rewrite <- E.
  change (String ":" (String ":" r)) with ("::" +:+ r).
  rewrite IH by (done || cbn in Hl |- *; lia). unfold bytes_of. cbn [mbind list_bind].
  by rewrite <- !app_assoc.
Qed.

(** ** Groups and bytes *)

Lemma two_step {A} (P : list A -> Prop) :
  P [] -> (forall a, P [a]) -> (forall a b l, P l -> P (a :: b :: l)) -> forall l, P l.
Proof. intros H0 H1 H2. fix IH 1. intros [|a [|b l]]; [done|done|]. apply H2, IH. Qed.

Lemma groups_bytes ip : Forall byte_ok ip -> Nat.Even (length ip) -> bytes_of (groups ip) = ip.
Proof.
  induction ip as [|a|a b ip IH] using two_step; intros Hb He; [done| |].
  { by apply Nat.even_spec in He. }
  inversion_clear Hb as [|?? Ha Hb']. inversion_clear Hb' as [|?? Hb Hr].
  unfold bytes_of. cbn [groups mbind list_bind group_bytes app]. unfold byte_ok in *.
  f_equal; [dlia|]. f_equal; [dlia|]. apply IH; [done|]. destruct He as [k He]; exists (pred k); cbn in He; lia.
Qed.

Lemma groups_ok ip : Forall byte_ok ip -> Forall group_ok (groups ip).
Proof.
  induction ip as [|a|a b ip IH] using two_step; intros Hb; [constructor|constructor|].
  inversion_clear Hb as [|?? Ha Hb']. inversion_clear Hb' as [|?? Hb Hr].
  cbn [groups]. constructor; [unfold byte_ok, group_ok in *; lia|by apply IH].
Qed.

Lemma length_groups ip : length (groups ip) = Nat.div2 (length ip).
Proof.
  induction ip as [|a|a b ip IH] using two_step; [done..|]. cbn [groups length Nat.div2]. by rewrite IH.
Qed.

Lemma bytes_of_app g h : bytes_of (g ++ h) = bytes_of g ++ bytes_of h.
Proof. apply bind_app. Qed.

Lemma length_bytes_of g : length (bytes_of g) = (2 * length g)%nat.
Proof.
  unfold bytes_of. induction g as [|n g IH]; [done|]. cbn [mbind list_bind]. rewrite length_app, IH.
  cbn. lia.
Qed.

Lemma bytes_of_zeros n : bytes_of (replicate n 0) = replicate (2 * n) 0.
Proof.
  induction n as [|n IH]; [done|]. replace (2 * S n)%nat with (S (S (2 * n))) by lia.
  unfold bytes_of in *. cbn [replicate mbind list_bind]. by rewrite IH.
Qed.

(** ** The run of zeros that is left out *)

Lemma zero_run_zeros l : exists r, l = replicate (zero_run l) 0 ++ r.
Proof.
  induction l as [|x l [r IH]]; [by exists []|]. cbn [zero_run]. destruct (Z.eqb_spec x 0) as [->|].
  - exists r. cbn. by f_equal.
  - by exists (x :: l).
Qed.

(** A run of zeros inside [g], or none. *)
Definition run_of (g : list Z) (b : nat * nat) : Prop :=
  b.2 = 0%nat \/ exists r, drop b.1 g = replicate b.2 0 ++ r.

Lemma longest_run_spec g i l best :
  l = drop i g -> run_of g best -> run_of g (longest_run i l best).
Proof.
  revert i best. induction l as [|x l IH]; intros i best Hl Hb; [done|]. cbn [longest_run].
  apply IH.
  - rewrite <- Nat.add_1_r, <- drop_drop, <- Hl. done.
  - destruct ((best.2 <? zero_run (x :: l))%nat && (1 <? zero_run (x :: l))%nat); [|done].
    right. cbn [fst snd]. rewrite <- Hl. apply zero_run_zeros.
Qed.

Lemma longest_run_of g : run_of g (longest_run 0 g (0, 0)%nat).
Proof. apply longest_run_spec; [done|by left]. Qed.

(** ** Parsing undoes printing, for IPv6 *)

Lemma parseIPv6_plain m c s :
  c <> ":"%char ->
  parseIPv6 m (String c s) =
  match ipv6_loop 8 m [] None (String c s) with
  | Some (ip, ell, EmptyString) =>
      if (length ip <? 16)%nat then
        match ell with
        | None => None
        | Some e => Some (take e ip ++ replicate (16 - length ip) 0 ++ drop e ip)
        end
      else match ell with None => Some ip | Some _ => None end
  | _ => None
  end.
Proof. intros Hc. destruct c as [[] [] [] [] [] [] [] []]; done. Qed.

(** The zeros are put back where the ellipsis stood. *)
Lemma fill_gap a n b :
  (length a + n + length b = 8)%nat -> (0 < n)%nat ->
  (length (bytes_of a ++ bytes_of b) <? 16)%nat = true /\
  take (length (bytes_of a)) (bytes_of a ++ bytes_of b)
    ++ replicate (16 - length (bytes_of a ++ bytes_of b)) 0
    ++ drop (length (bytes_of a)) (bytes_of a ++ bytes_of b)
  = bytes_of (a ++ replicate n 0 ++ b).
Proof.
  intros Hl Hn. rewrite take_app_length, drop_app_length, !bytes_of_app, bytes_of_zeros.
  rewrite length_app, !length_bytes_of. split; [apply Nat.ltb_lt; lia|].
  by replace (16 - (2 * length a + 2 * length b))%nat with (2 * n)%nat by lia.
Qed.

Lemma parseIPv6_gap m a n b :
  Forall group_ok a -> Forall group_ok b -> (length a + n + length b = 8)%nat -> (0 < n)%nat ->
  (4 <= m)%nat ->
  parseIPv6 m (groups_text a +:+ "::" +:+ groups_text b) = Some (bytes_of (a ++ replicate n 0 ++ b)).
Proof.
  intros Ha Hb Hl Hn Hm. destruct (fill_gap a n b Hl Hn) as [Hlt Hfill].
  destruct (decide (b = [])) as [->|Hbne].
  all: destruct (decide (a = [])) as [->|Hane].
  - cbn in Hl. by assert (n = 8%nat) as -> by lia.
  - destruct (groups_text_head a) as (c & s & E & Hc); [done..|].
    rewrite E. cbn [String.append]. rewrite parseIPv6_plain by done.
    change (String c (s +:+ ?t)) with (String c s +:+ t). rewrite <- E.
    change (String ":" (String ":" (groups_text []))) with ("::" +:+ EmptyString).
    rewrite (ipv6_loop_ellipsis 8 m [] a EmptyString) by (done || lia). cbn [app].
    rewrite app_nil_r in Hlt, Hfill. by rewrite Hlt, Hfill.
  - destruct (groups_text_head b) as (c & s & E & Hc); [done..|].
    change (groups_text [] +:+ "::" +:+ ?t) with (String ":" (String ":" t)).
    unfold parseIPv6. lazy beta iota zeta.
    rewrite E, (bool_decide_eq_false_2 (_ = EmptyString)), andb_false_r, <- E by done.
    rewrite ipv6_loop_groups by (done || cbn in Hl; lia). cbn [app].
    cbn [bytes_of mbind list_bind app length] in Hlt, Hfill. by rewrite Hlt, Hfill.
  - destruct (groups_text_head a) as (c & s & E & Hc); [done..|].
    rewrite E. cbn [String.append]. rewrite parseIPv6_plain by done.
    change (String c (s +:+ ?t)) with (String c s +:+ t). rewrite <- E.
    change (String ":" (String ":" ?t)) with ("::" +:+ t).
    rewrite (ipv6_loop_ellipsis 8 m [] a) by (done || lia). cbn [app].
    destruct (groups_text_head b) as (c' & s' & E' & Hc'); [done..|]. rewrite E'. rewrite <- E'.
    rewrite ipv6_loop_groups by (done || lia). by rewrite Hlt, Hfill.
Qed.

Lemma parseIPv6_groups m g :
  Forall group_ok g -> length g = 8%nat -> (4 <= m)%nat ->
  parseIPv6 m (groups_text g) = Some (bytes_of g).
Proof.
  intros Hg Hl Hm. assert (g <> []) as Hne by (by destruct g).
  destruct (groups_text_head g) as (c & s & E & Hc); [done..|].
  rewrite E, parseIPv6_plain, <- E by done. rewrite ipv6_loop_groups by (done || lia). cbn [app].
  by rewrite (proj2 (Nat.ltb_ge _ _)) by (rewrite length_bytes_of; lia).
Qed.

Lemma parseIPv6_format m ip :
  length ip = 16%nat -> Forall byte_ok ip -> (4 <= m)%nat ->
  parseIPv6 m (format_ipv6 ip) = Some ip.
Proof.
  intros Hl Hb Hm. assert (bytes_of (groups ip) = ip) as Hg.
  { apply groups_bytes; [done|]. rewrite Hl. by exists 8%nat. }
  pose proof (groups_ok ip Hb) as Hok. pose proof (length_groups ip) as Hlen. rewrite Hl in Hlen.
  cbn in Hlen. unfold format_ipv6. pose proof (longest_run_of (groups ip)) as Hrun.
  generalize dependent (groups ip). intros g <- Hok Hlen Hrun.
  destruct (longest_run 0 g (0, 0)%nat) as [st n]. unfold run_of in Hrun. cbn [fst snd] in Hrun.
  fold (groups_text g) (groups_text (take st g)) (groups_text (drop (st + n) g)).
  destruct (Nat.eqb_spec n 0) as [|Hn]; [by apply parseIPv6_groups|].
  destruct Hrun as [?|[r Hr]]; [done|].
  assert (drop (st + n) g = r) as Hd.
  { rewrite <- drop_drop, Hr. by rewrite drop_app_length' by (by rewrite length_replicate). }
  assert (length (drop st g) = n + length r)%nat as Hld
    by (by rewrite Hr, length_app, length_replicate).
  rewrite length_drop in Hld.
  rewrite Hd, (parseIPv6_gap m (take st g) n r); try done || lia.
  - by rewrite <- Hr, take_drop.
  - by apply Forall_take.
  - rewrite <- Hd. by apply Forall_drop.
  - rewrite length_take. lia.
Qed.

(** ** Addresses *)

Lemma groups_text_free c g :
  Forall group_ok g -> hex_val c = None -> c <> ":"%char -> s_free c (groups_text g) = true.
Proof.
  intros Hg Hc Hp. apply s_forall_Join.
  - cbn. by rewrite bool_decide_eq_true_2.
  - apply Forall_fmap. eapply Forall_impl; [exact Hg|]. intros n Hn. by apply hex_lower_free.
Qed.

Lemma format_ipv6_free c ip :
  Forall byte_ok ip -> hex_val c = None -> c <> ":"%char -> s_free c (format_ipv6 ip) = true.
Proof.
  intros Hb Hc Hp. pose proof (groups_ok ip Hb) as Hg. unfold format_ipv6.
  destruct (longest_run 0 (groups ip) _) as [st n].
  fold (groups_text (groups ip)) (groups_text (take st (groups ip)))
    (groups_text (drop (st + n) (groups ip))).
  assert (s_free c "::" = true) as Hs by (unfold s_free; cbn; by rewrite bool_decide_eq_true_2).
  case_match; [by apply groups_text_free|].
  rewrite !s_free_app, !groups_text_free, Hs by (done || by apply Forall_take || by apply Forall_drop).
  done.
Qed.

(** An IPv4 address has a dot. *)
Lemma dtoi_go_free c n cnt s m k r :
  dtoi_go n cnt s = Some (m, k, r) -> s_free c s = true -> s_free c r = true.
Proof.
  revert n cnt. induction s as [|a s IH]; intros n cnt; cbn [dtoi_go]; [by intros [= _ _ <-]|].
  destruct (is_digit a); [|by intros [= _ _ <-]]. case_match; [done|].
  intros Hgo [_ Hs]%s_free_cons. by eapply IH.
Qed.

Lemma octet_free c s n r : octet s = Some (n, r) -> s_free c s = true -> s_free c r = true.
Proof.
  unfold octet, dtoi. intros H Hs. destruct (dtoi_go 0 0 s) as [[[m k] t]|] eqn:E; [|done].
  destruct k as [|k]; [done|]. repeat case_match; simplify_eq. by eapply dtoi_go_free.
Qed.

Lemma parseIPv4_dot s : s_free "." s = true -> parseIPv4 s = None.
Proof.
  intros Hs. unfold parseIPv4. destruct (octet s) as [[n r]|] eqn:E; [|done].
  apply (octet_free ".") in E; [|done]. cbn [octets]. destruct r as [|c r]; [done|].
  apply s_free_cons in E as [Hc _]. by destruct c as [[] [] [] [] [] [] [] []].
Qed.

Lemma no_hex_digit c : hex_val c = None -> is_digit c = false.
Proof. by destruct c as [[] [] [] [] [] [] [] []]. Qed.

(** Addresses that [net] prints with as many bytes as they have: not an IPv4 address in
    sixteen bytes, which is printed as one of four. *)
Definition ip_ok (ip : IP) : Prop := ip_typed ip /\ (length ip = 16%nat -> To4 ip = None).

Lemma IP_String_ok ip :
  ip_ok ip -> IP_String ip = if decide (length ip = 4%nat) then format_ipv4 ip else format_ipv6 ip.
Proof.
  intros [[[Hl|Hl] Hb] Ho]; unfold IP_String.
  - unfold To4. by rewrite !decide_True.
  - rewrite Ho, (decide_False (P := ip = [])), (decide_True (P := length ip = 16%nat)),
      decide_False; congruence || by intros ->.
Qed.

(** What [net.ParseCIDR] makes of the text of an address. *)
Definition parse_ip (addr : string) : option IP :=
  match parseIPv4 addr with
  | Some ip => Some ip
  | None => parseIPv6 net_digits addr
  end.

Lemma parse_ip_String ip : ip_ok ip -> parse_ip (IP_String ip) = Some ip.
Proof.
  intros Hip. rewrite IP_String_ok by done. destruct Hip as [[Hl Hb] _]. unfold parse_ip.
  case_decide as H4.
  - destruct ip as [|a [|b [|c [|d [|]]]]]; try done. rewrite !Forall_cons in Hb.
    rewrite parseIPv4_format; tauto.
  - destruct Hl as [|Hl]; [done|]. rewrite parseIPv4_dot by (by apply format_ipv6_free).
    apply parseIPv6_format; [done|done|unfold net_digits; lia].
Qed.

Lemma IP_String_free c ip :
  ip_ok ip -> hex_val c = None -> c <> ":"%char -> c <> "."%char -> c <> "-"%char ->
  s_free c (IP_String ip) = true.
Proof.
  intros Hip Hc H1 H2 H3. rewrite IP_String_ok by done. destruct Hip as [[_ Hb] _].
  case_decide; [|by apply format_ipv6_free]. apply format_ipv4_free; [|done..].
  by apply no_hex_digit.
Qed.

(** ** Networks *)

(** A network as an address and the number of ones of its mask. *)
Definition cidr_text (c : IP * Z) : string := IP_String c.1 +:+ "/" +:+ format_int c.2.

Definition cidr_ok (c : IP * Z) : Prop :=
  ip_ok c.1 /\ 0 <= c.2 <= 8 * Z.of_nat (length c.1).

Definition net_of (c : IP * Z) : IPNet :=
  mkIPNet (mask_ip c.1 (CIDRMask c.2 (length c.1))) (CIDRMask c.2 (length c.1)).

#[global] Instance cidr_ok_dec c : Decision (cidr_ok c).
Proof. unfold cidr_ok, ip_ok, ip_typed, byte_ok. apply _. Defined.

Lemma cidr_bits c : cidr_ok c -> 0 <= c.2 <= 128.
Proof. intros [[[Hl _] _] Hn]. lia. Qed.

Lemma ParseCIDR_text c : cidr_ok c -> ParseCIDR (cidr_text c) = Ok (c.1, net_of c).
Proof.
  intros Hc. pose proof (cidr_bits c Hc) as Hn. destruct c as [ip n], Hc as [Hip Hb]. cbn [fst snd] in *.
  unfold ParseCIDR, cidr_text. cbn [fst snd]. change ("/" +:+ ?t) with (String "/" t).
  rewrite Index_app, s_take_app, s_drop_app by (by apply IP_String_free).
  fold (parse_ip (IP_String ip)). rewrite parse_ip_String by done.
  destruct (dtoi_format n EmptyString) as (k & Hk & _); [unfold big; lia | done |].
  rewrite s_app_nil_r in Hk. rewrite Hk. by rewrite (proj2 (Z.ltb_ge _ _)) by lia.
Qed.

Lemma cidr_text_free c x :
  cidr_ok x -> hex_val c = None -> c <> ":"%char -> c <> "."%char -> c <> "-"%char ->
  c <> "/"%char -> s_free c (cidr_text x) = true.
Proof.
  intros [Hip _] Hc ????. unfold cidr_text.
  rewrite !s_free_app, IP_String_free, format_int_free by (done || by apply no_hex_digit).
  cbn [andb]. rewrite andb_true_r. by apply s_free_cons.
Qed.

Lemma Join_length c k l :
  Forall (fun s => String.length s <= k)%nat l ->
  (String.length (Join (String c EmptyString) l) <= S k * length l)%nat.
Proof.
  induction 1 as [|s l Hs Hl IH]; [cbn; lia|]. destruct l as [|s' l]; [cbn; lia|].
  change (Join (String c EmptyString) (s :: s' :: l))
    with (s +:+ String c (Join (String c EmptyString) (s' :: l))).
  rewrite s_length_app. cbn [String.length length] in *. lia.
Qed.

Lemma hex_lower_length n : (String.length (hex_lower n) <= 4)%nat.
Proof. unfold hex_lower. repeat case_match; cbn; lia. Qed.

Lemma groups_text_length g : (String.length (groups_text g) <= 5 * length g)%nat.
Proof.
  unfold groups_text. rewrite <- (length_fmap hex_lower g). apply Join_length.
  apply Forall_fmap, Forall_true. apply hex_lower_length.
Qed.

Lemma IP_String_length ip : ip_ok ip -> (String.length (IP_String ip) <= 300)%nat.
Proof.
  intros Hip. rewrite IP_String_ok by done. destruct Hip as [[Hl Hb] _]. case_decide as H4.
  - unfold format_ipv4. etrans; [apply (Join_length _ 65)|rewrite length_fmap, H4; lia].
    apply Forall_fmap. eapply Forall_impl; [exact Hb|]. intros b Hbb. apply format_int_length.
    unfold byte_ok, int64_range, two63 in *. lia.
  - destruct Hl as [|Hl]; [done|]. unfold format_ipv6.
    destruct (longest_run 0 (groups ip) _) as [st n].
    fold (groups_text (groups ip)) (groups_text (take st (groups ip)))
      (groups_text (drop (st + n) (groups ip))).
    assert (length (groups ip) = 8%nat) as Hg by (by rewrite length_groups, Hl).
    pose proof (groups_text_length (groups ip)).
    pose proof (groups_text_length (take st (groups ip))) as H1.
    pose proof (groups_text_length (drop (st + n) (groups ip))) as H2.
    rewrite length_take in H1. rewrite length_drop in H2.
    case_match; [lia|]. rewrite !s_length_app. cbn [String.length]. lia.
Qed.

Lemma cidr_text_length c : cidr_ok c -> (String.length (cidr_text c) <= 400)%nat.
Proof.
  intros Hc. pose proof (cidr_bits c Hc) as Hn. unfold cidr_text. rewrite !s_length_app.
  pose proof (IP_String_length c.1 (proj1 Hc)).
  pose proof (format_int_length c.2) as Hf. cbn [String.length].
  assert (int64_range c.2) as Hr by (unfold int64_range, two63; lia). specialize (Hf Hr). lia.
Qed.

(** ** Networks with their masks *)

Lemma byte_ones_mask k : 0 <= k < 8 -> byte_ones (255 - Z.shiftr 255 k) = Some k.
Proof.
  intros Hk. assert (k ∈ [0; 1; 2; 3; 4; 5; 6; 7]) as H by (rewrite !elem_of_cons; lia).
  repeat (apply elem_of_cons in H as [->|H]; [reflexivity|]). by apply elem_of_nil in H.
Qed.

Lemma CIDRMask_zero len : CIDRMask 0 len = replicate len 0.
Proof. induction len as [|len IH]; [done|]. cbn [CIDRMask replicate]. by rewrite IH. Qed.

Lemma simpleMaskLength_mask ones len :
  0 <= ones <= 8 * Z.of_nat len -> simpleMaskLength (CIDRMask ones len) = Some ones.
Proof.
  revert ones. induction len as [|len IH]; intros ones Ho.
  { cbn. f_equal. lia. }
  cbn [CIDRMask]. destruct (Z.leb_spec 8 ones) as [H8|H8]; cbn [simpleMaskLength].
  - rewrite Z.eqb_refl, IH by lia. cbn. f_equal. lia.
  - rewrite byte_ones_mask by lia. cbn [mbind option_bind].
    assert ((255 - Z.shiftr 255 ones =? 255) = false) as ->.
    { apply Z.eqb_neq. assert (0 < Z.shiftr 255 ones); [|lia].
      rewrite Z.shiftr_div_pow2 by lia. apply Z.div_str_pos.
      pose proof (Z.pow_le_mono_r 2 ones 7). lia. }
    rewrite CIDRMask_zero. by replace (forallb (Z.eqb 0) (replicate len 0)) with true by (clear; by induction len).
Qed.

(** Reading a printed network gives the network back. *)
Lemma ParseCIDR_String n :
  net_typed n -> ip_ok (net_IP n) -> ParseCIDR (IPNet_String n) = Ok (net_IP n, n).
Proof.
  intros [Ht (ones & Ho & Hm & Hi)] Hip. assert (cidr_ok (net_IP n, ones)) as Hc by done.
  pose proof (ParseCIDR_text _ Hc) as Hp. unfold net_of in Hp. cbn [fst snd] in Hp.
  rewrite <- Hm, Hi in Hp. replace (mkIPNet (net_IP n) (net_Mask n)) with n in Hp by (by destruct n).
  rewrite <- Hp. f_equal. unfold IPNet_String, networkNumberAndMask, cidr_text. cbn [fst snd].
  assert (default (net_IP n) (To4 (net_IP n)) = net_IP n) as ->.
  { destruct Ht as [[H4|H16] _]; [unfold To4; by rewrite decide_True|]. by rewrite (proj2 Hip). }
  assert (length (net_Mask n) = length (net_IP n)) as Hlm by (by rewrite Hm, length_CIDRMask).
  rewrite decide_True by apply Ht. rewrite Hlm. destruct Ht as [[H4|H16] _].
  - rewrite !decide_True by done. by rewrite Hm, simpleMaskLength_mask.
  - rewrite H16, !(decide_False (P := 16%nat = 4%nat)), decide_True by done.
    by rewrite Hm, simpleMaskLength_mask.
Qed.
