(* ===== verification/GoJson.v ===== *)
(** * encoding/json

    JSON values, the text [json.Marshal] writes for them, and the parser behind
    [json.Unmarshal].  Numbers keep their literal text, as the decoder does until
    it knows the type of the target.  Parsing text that was printed gives the
    value back, for values whose strings are ASCII and whose numbers are
    integers. *)

From S2P Require Import Prelude GoStrings GoEncoding.

Unset Elimination Schemes.
Inductive json :=
| JNull
| JBool (b : bool)
| JNum (lit : string)
| JStr (s : string)
| JArr (l : list json)
| JObj (l : list (string * json)).
Set Elimination Schemes.

(** ** Printing *)

Definition dq : ascii := ascii_of_nat 34.
Definition bs : ascii := ascii_of_nat 92.

(** The two-digit hexadecimal form of a byte, after \u00. *)
Definition u_escape (c : ascii) : string :=
  String bs (String "u" (String "0" (String "0"
    (String (hex_digit (byte_val c / 16)) (String (hex_digit (byte_val c mod 16)) EmptyString))))).

(** The bytes of a valid UTF-8 sequence at the head of [s], if there is one. *)
Definition cont (lo hi : Z) (c : ascii) : bool := (lo <=? byte_val c)%Z && (byte_val c <=? hi)%Z.

Definition rune_len (s : string) : option nat :=
  match s with
  | EmptyString => None
  | String c s =>
      let n := byte_val c in
      if (n <? 128)%Z then Some 1%nat
      else if cont 194 223 c then
        match s with
        | String d _ => if cont 128 191 d then Some 2%nat else None
        | _ => None
        end
      else if cont 224 239 c then
        match s with
        | String d (String e _) =>
            let lo := if (n =? 224)%Z then 160%Z else 128%Z in
            let hi := if (n =? 237)%Z then 159%Z else 191%Z in
            if cont lo hi d && cont 128 191 e then Some 3%nat else None
        | _ => None
        end
      else if cont 240 244 c then
        match s with
        | String d (String e (String f _)) =>
            let lo := if (n =? 240)%Z then 144%Z else 128%Z in
            let hi := if (n =? 244)%Z then 143%Z else 191%Z in
            if cont lo hi d && cont 128 191 e && cont 128 191 f then Some 4%nat else None
        | _ => None
        end
      else None
  end.

(** How [Marshal] writes an ASCII byte of a string: quotes, backslashes and
    control characters are escaped, and so are <, > and &. *)
Definition escape_ascii (c : ascii) : string :=
  let n := byte_val c in
  if (n =? 34)%Z || (n =? 92)%Z then String bs (String c EmptyString)
  else if (n =? 10)%Z then String bs "n"
  else if (n =? 13)%Z then String bs "r"
  else if (n =? 9)%Z then String bs "t"
  else if (n <? 32)%Z || (n =? 60)%Z || (n =? 62)%Z || (n =? 38)%Z then u_escape c
  else String c EmptyString.

(** A whole string: valid UTF-8 sequences are copied, except U+2028 and U+2029,
    which are escaped; a byte that starts none becomes the replacement
    character.  [skip] counts the bytes of the current sequence still to copy. *)
Fixpoint escape_go (skip : nat) (s : string) : string :=
  match s with
  | EmptyString => EmptyString
  | String c t =>
      match skip with
      | S skip => String c (escape_go skip t)
      | O =>
          if (byte_val c <? 128)%Z then escape_ascii c +:+ escape_go 0 t
          else match rune_len s with
               | Some k =>
                   if bool_decide (s_take 3 s = String (byte_of 226) (String (byte_of 128)
                                                 (String (byte_of 168) EmptyString)))
                   then match t with
                        | String _ (String _ t) => String bs "u2028" +:+ escape_go 0 t
                        | _ => EmptyString
                        end
                   else if bool_decide (s_take 3 s = String (byte_of 226) (String (byte_of 128)
                                                      (String (byte_of 169) EmptyString)))
                   then match t with
                        | String _ (String _ t) => String bs "u2029" +:+ escape_go 0 t
                        | _ => EmptyString
                        end
                   else String c (escape_go (k - 1) t)
               | None => String bs "ufffd" +:+ escape_go 0 t
               end
      end
  end.

Definition print_string (s : string) : string :=
  String dq (escape_go 0 s +:+ String dq EmptyString).

Fixpoint print_json (j : json) : string :=
  match j with
  | JNull => "null"
  | JBool b => if b then "true" else "false"
  | JNum lit => lit
  | JStr s => print_string s
  | JArr l => "[" +:+ Join "," (print_json <$> l) +:+ "]"
  | JObj l =>
      "{" +:+ Join "," ((fun kv => print_string kv.1 +:+ ":" +:+ print_json kv.2) <$> l) +:+ "}"
  end.

(** ** Parsing *)

Definition is_ws (c : ascii) : bool :=
  let n := byte_val c in (n =? 32)%Z || (n =? 9)%Z || (n =? 10)%Z || (n =? 13)%Z.

Fixpoint skip_ws (s : string) : string :=
  match s with
  | String c t => if is_ws c then skip_ws t else s
  | EmptyString => s
  end.

Fixpoint strip_prefix (p s : string) : option string :=
  match p, s with
  | EmptyString, _ => Some s
  | String c p, String d s => if decide (c = d) then strip_prefix p s else None
  | _, EmptyString => None
  end.

(** The UTF-8 form of a code point. *)
Definition utf8 (n : Z) : string :=
  if (n <? 128)%Z then String (byte_of n) EmptyString
  else if (n <? 2048)%Z then
    String (byte_of (192 + n / 64)) (String (byte_of (128 + n mod 64)) EmptyString)
  else if (n <? 65536)%Z then
    String (byte_of (224 + n / 4096)) (String (byte_of (128 + n / 64 mod 64))
      (String (byte_of (128 + n mod 64)) EmptyString))
  else
    String (byte_of (240 + n / 262144)) (String (byte_of (128 + n / 4096 mod 64))
      (String (byte_of (128 + n / 64 mod 64)) (String (byte_of (128 + n mod 64)) EmptyString))).

Definition hex4 (a b c d : ascii) : option Z :=
  a ← hex_val a; b ← hex_val b; c ← hex_val c; d ← hex_val d;
  Some (((a * 16 + b) * 16 + c) * 16 + d)%Z.

Definition replacement : string := utf8 65533.

(** The one-letter escapes. *)
Definition simple_escape (e : ascii) : option ascii :=
  let n := byte_val e in
  if (n =? 34)%Z || (n =? 92)%Z || (n =? 47)%Z then Some e
  else if (n =? 98)%Z then Some (byte_of 8)
  else if (n =? 102)%Z then Some (byte_of 12)
  else if (n =? 110)%Z then Some nl
  else if (n =? 114)%Z then Some cr
  else if (n =? 116)%Z then Some (byte_of 9)
  else None.

Definition prepend (p : string) (r : option (string * string)) : option (string * string) :=
  match r with Some (s, rest) => Some (p +:+ s, rest) | None => None end.

(** The rest of a string literal, after its opening quote.  A surrogate pair is
    one character; a surrogate on its own, and a byte that starts no UTF-8
    sequence, become the replacement character. *)
Fixpoint parse_chars (skip : nat) (s : string) : option (string * string) :=
  match s with
  | EmptyString => None
  | String c t =>
      match skip with
      | S skip => prepend (String c EmptyString) (parse_chars skip t)
      | O =>
          if decide (c = dq) then Some (EmptyString, t)
          else if decide (c = bs) then
            match t with
            | String e t =>
                if decide (e = "u"%char) then
                  match t with
                  | String h1 (String h2 (String h3 (String h4 t))) =>
                      match hex4 h1 h2 h3 h4 with
                      | None => None
                      | Some n =>
                          if (55296 <=? n)%Z && (n <? 56320)%Z then
                            match t with
                            | String b (String u (String g1 (String g2 (String g3 (String g4 t'))))) =>
                                match hex4 g1 g2 g3 g4 with
                                | Some m =>
                                    if decide (b = bs /\ u = "u"%char) then
                                      if (56320 <=? m)%Z && (m <? 57344)%Z
                                      then prepend (utf8 (65536 + (n - 55296) * 1024 + (m - 56320)))
                                             (parse_chars 0 t')
                                      else prepend replacement (parse_chars 0 t)
                                    else prepend replacement (parse_chars 0 t)
                                | None => prepend replacement (parse_chars 0 t)
                                end
                            | _ => prepend replacement (parse_chars 0 t)
                            end
                          else if (56320 <=? n)%Z && (n <? 57344)%Z
                          then prepend replacement (parse_chars 0 t)
                          else prepend (utf8 n) (parse_chars 0 t)
                      end
                  | _ => None
                  end
                else
                  match simple_escape e with
                  | Some d => prepend (String d EmptyString) (parse_chars 0 t)
                  | None => None
                  end
            | EmptyString => None
            end
          else if (byte_val c <? 32)%Z then None
          else match rune_len s with
               | Some k => prepend (String c EmptyString) (parse_chars (k - 1) t)
               | None => prepend replacement (parse_chars 0 t)
               end
      end
  end.

(** The longest run of digits. *)
Fixpoint digits (s : string) : string * string :=
  match s with
  | String c t => if is_digit c then let (d, r) := digits t in (String c d, r) else (EmptyString, s)
  | EmptyString => (EmptyString, s)
  end.

(** A number literal and what follows it: sign, integer part without leading
    zeros, fraction, exponent. *)
Definition parse_sign (s : string) : string * string :=
  match s with String "-" t => ("-", t) | _ => (EmptyString, s) end.

Definition parse_intpart (s : string) : string * string :=
  match s with String "0" t => ("0", t) | _ => digits s end.

Definition parse_frac (s : string) : option (string * string) :=
  match s with
  | String "." t =>
      let (d, r) := digits t in
      if decide (d = EmptyString) then None else Some (String "." d, r)
  | _ => Some (EmptyString, s)
  end.

Definition parse_exp (s : string) : option (string * string) :=
  match s with
  | String e t =>
      if decide (e = "e"%char \/ e = "E"%char) then
        let (sg, t) := match t with
                       | String "+" t => ("+", t)
                       | String "-" t => ("-", t)
                       | _ => (EmptyString, t)
                       end in
        let (d, r) := digits t in
        if decide (d = EmptyString) then None else Some (String e (sg +:+ d), r)
      else Some (EmptyString, s)
  | EmptyString => Some (EmptyString, s)
  end.

Definition parse_num (s : string) : option (string * string) :=
  let (sign, s) := parse_sign s in
  let (int, s) := parse_intpart s in
  if decide (int = EmptyString) then None else
  match parse_frac s with
  | None => None
  | Some (frac, s) =>
      match parse_exp s with
      | None => None
      | Some (exp, s) => Some (sign +:+ int +:+ frac +:+ exp, s)
      end
  end.

(** Values, the elements of an array after the first, and the members of an
    object; each recursive call consumes a byte, so the length of the text is
    enough fuel. *)
Fixpoint parse_value (fuel : nat) (s : string) : option (json * string) :=
  match fuel with
  | O => None
  | S fuel =>
      let s := skip_ws s in
      match s with
      | String c t =>
          if decide (c = dq) then
            match parse_chars 0 t with Some (x, r) => Some (JStr x, r) | None => None end
          else if decide (c = "["%char) then
            match skip_ws t with
            | String "]" r => Some (JArr [], r)
            | _ =>
                match parse_value fuel t with
                | Some (v, r) =>
                    match parse_elems fuel r with
                    | Some (vs, r) => Some (JArr (v :: vs), r)
                    | None => None
                    end
                | None => None
                end
            end
          else if decide (c = "{"%char) then
            match skip_ws t with
            | String "}" r => Some (JObj [], r)
            | _ =>
                match parse_member fuel t with
                | Some (kv, r) =>
                    match parse_members fuel r with
                    | Some (kvs, r) => Some (JObj (kv :: kvs), r)
                    | None => None
                    end
                | None => None
                end
            end
          else
            match strip_prefix "null" s, strip_prefix "true" s, strip_prefix "false" s with
            | Some r, _, _ => Some (JNull, r)
            | _, Some r, _ => Some (JBool true, r)
            | _, _, Some r => Some (JBool false, r)
            | _, _, _ =>
                match parse_num s with Some (lit, r) => Some (JNum lit, r) | None => None end
            end
      | EmptyString => None
      end
  end
with parse_elems (fuel : nat) (s : string) : option (list json * string) :=
  match fuel with
  | O => None
  | S fuel =>
      match skip_ws s with
      | String "]" r => Some ([], r)
      | String "," r =>
          match parse_value fuel r with
          | Some (v, r) =>
              match parse_elems fuel r with
              | Some (vs, r) => Some (v :: vs, r)
              | None => None
              end
          | None => None
          end
      | _ => None
      end
  end
with parse_member (fuel : nat) (s : string) : option ((string * json) * string) :=
  match fuel with
  | O => None
  | S fuel =>
      match skip_ws s with
      | String c t =>
          if decide (c = dq) then
            match parse_chars 0 t with
            | Some (k, r) =>
                match skip_ws r with
                | String ":" r =>
                    match parse_value fuel r with
                    | Some (v, r) => Some ((k, v), r)
                    | None => None
                    end
                | _ => None
                end
            | None => None
            end
          else None
      | EmptyString => None
      end
  end
with parse_members (fuel : nat) (s : string) : option (list (string * json) * string) :=
  match fuel with
  | O => None
  | S fuel =>
      match skip_ws s with
      | String "}" r => Some ([], r)
      | String "," r =>
          match parse_member fuel r with
          | Some (kv, r) =>
              match parse_members fuel r with
              | Some (kvs, r) => Some (kv :: kvs, r)
              | None => None
              end
          | None => None
          end
      | _ => None
      end
  end.

(** A whole document: one value, and nothing but white space after it. *)
Definition parse_json (s : string) : option json :=
  match parse_value (S (2 * String.length s)) s with
  | Some (v, r) => if decide (skip_ws r = EmptyString) then Some v else None
  | None => None
  end.

(** ** Parsing undoes printing *)

Section JsonInd.
Variable P : json -> Prop.
Hypothesis H_null : P JNull.
Hypothesis H_bool : forall b, P (JBool b).
Hypothesis H_num : forall l, P (JNum l).
Hypothesis H_str : forall s, P (JStr s).
Hypothesis H_arr : forall l, Forall P l -> P (JArr l).
Hypothesis H_obj : forall l, Forall (fun kv => P kv.2) l -> P (JObj l).

Fixpoint json_ind (j : json) : P j :=
  match j with
  | JNull => H_null
  | JBool b => H_bool b
  | JNum l => H_num l
  | JStr s => H_str s
  | JArr l =>
      H_arr l ((fix go l : Forall P l :=
                  match l with
                  | [] => List.Forall_nil _
                  | x :: l => @List.Forall_cons _ _ x l (json_ind x) (go l)
                  end) l)
  | JObj l =>
      H_obj l ((fix go l : Forall (fun kv => P kv.2) l :=
                  match l with
                  | [] => List.Forall_nil _
                  | x :: l => @List.Forall_cons _ _ x l (json_ind x.2) (go l)
                  end) l)
  end.
End JsonInd.

Definition ascii_only (s : string) : bool := s_forall (fun c => byte_val c <? 128)%Z s.

(** Values whose strings are ASCII and whose numbers are integers. *)
Unset Elimination Schemes.
Inductive json_ok : json -> Prop :=
| ok_null : json_ok JNull
| ok_bool b : json_ok (JBool b)
| ok_num z : json_ok (JNum (format_int z))
| ok_str s : ascii_only s = true -> json_ok (JStr s)
| ok_arr l : Forall json_ok l -> json_ok (JArr l)
| ok_obj l : Forall (fun kv => ascii_only kv.1 = true /\ json_ok kv.2) l -> json_ok (JObj l).
Set Elimination Schemes.

(** *** Strings *)

Lemma parse_escape_ascii c t :
  (byte_val c < 128)%Z ->
  parse_chars 0 (escape_ascii c +:+ t) = prepend (String c EmptyString) (parse_chars 0 t).
Proof.
  intros Hc. destruct c as [[] [] [] [] [] [] [] []];
    first [by exfalso; vm_compute in Hc | reflexivity].
Qed.

Lemma parse_escape s t :
  ascii_only s = true -> parse_chars 0 (escape_go 0 s +:+ String dq t) = Some (s, t).
Proof.
  induction s as [|c s IH]; intros Hs; [done|].
  unfold ascii_only in Hs. cbn [s_forall] in Hs. apply andb_true_iff in Hs as [Hc Hs].
  cbn [escape_go]. rewrite Hc, s_app_assoc, parse_escape_ascii by (by apply Z.ltb_lt).
  by rewrite (IH Hs).
Qed.

(** *** Numbers *)

(** What may follow a number without being taken for a part of it. *)
Definition num_end (s : string) : bool :=
  match s with
  | EmptyString => true
  | String c _ => negb (is_digit c) && bool_decide (c <> "."%char) &&
                  bool_decide (c <> "e"%char) && bool_decide (c <> "E"%char)
  end.

Lemma digits_app d r :
  s_forall is_digit d = true -> num_end r = true -> digits (d +:+ r) = (d, r).
Proof.
  intros Hd Hr. induction d as [|c d IH].
  - destruct r as [|c r]; [done|]. cbn [num_end] in Hr. rewrite !andb_true_iff, negb_true_iff in Hr.
    destruct Hr as [[[Hr _] _] _]. simpl. by rewrite Hr.
  - cbn [s_forall] in Hd. apply andb_true_iff in Hd as [Hc Hd]. simpl.
    by rewrite Hc, (IH Hd).
Qed.

Lemma parse_intpart_uint n r :
  (0 <= n)%Z -> num_end r = true -> parse_intpart (format_uint n +:+ r) = (format_uint n, r).
Proof.
  intros Hn Hr. destruct (format_uint_head n Hn) as [E|(c & s & E & Hc)]; [by rewrite E|].
  assert (digits (format_uint n +:+ r) = (format_uint n, r)) as Hd.
  { apply digits_app; [by apply format_uint_digits | done]. }
  unfold parse_intpart. rewrite Hd, E. simpl String.append.
  by destruct c as [[] [] [] [] [] [] [] []].
Qed.

Lemma format_uint_sign n r :
  (0 <= n)%Z -> parse_sign (format_uint n +:+ r) = (EmptyString, format_uint n +:+ r).
Proof.
  intros Hn. destruct (format_uint_cons n) as (c & s & E).
  pose proof (format_uint_digits n Hn) as Hd. rewrite E in *. cbn [s_forall] in Hd.
  apply andb_true_iff in Hd as [Hd _]. apply not_digit_sign in Hd as [_ Hm].
  simpl. by destruct c as [[] [] [] [] [] [] [] []].
Qed.

Lemma parse_frac_end r : num_end r = true -> parse_frac r = Some (EmptyString, r).
Proof.
  destruct r as [|c r]; [done|]. cbn [num_end]. rewrite !andb_true_iff, !bool_decide_eq_true.
  intros [[[_ Hc] _] _]. by destruct c as [[] [] [] [] [] [] [] []].
Qed.

Lemma parse_exp_end r : num_end r = true -> parse_exp r = Some (EmptyString, r).
Proof.
  destruct r as [|c r]; [done|]. cbn [num_end parse_exp].
  rewrite !andb_true_iff, !bool_decide_eq_true. intros [[_ He] HE].
  rewrite decide_False; [done|]. by intros [-> | ->].
Qed.

Lemma parse_num_int z r : num_end r = true -> parse_num (format_int z +:+ r) = Some (format_int z, r).
Proof.
  intros Hr. assert (forall n, format_uint n <> EmptyString) as Hne.
  { intros n. destruct (format_uint_cons n) as (c & s & ->). done. }
  unfold parse_num, format_int. destruct (Z.ltb_spec z 0) as [Hz|Hz].
  - simpl String.append. cbn [parse_sign].
    rewrite parse_intpart_uint, decide_False, parse_frac_end, parse_exp_end
      by (done || lia).
    by rewrite !s_app_nil_r.
  - rewrite format_uint_sign, parse_intpart_uint, decide_False, parse_frac_end, parse_exp_end
      by done.
    by rewrite !s_app_nil_r.
Qed.

(** *** Values *)

(** A number's text starts with a digit or the sign. *)
Lemma format_int_head z : exists c s, format_int z = String c s /\ (is_digit c = true \/ c = "-"%char).
Proof.
  unfold format_int. destruct (Z.ltb_spec z 0); [by eauto|].
  destruct (format_uint_cons z) as (c & s & E). exists c, s. split; [done|]. left.
  pose proof (format_uint_digits z ltac:(lia)) as Hd. rewrite E in Hd. cbn [s_forall] in Hd.
  by apply andb_true_iff in Hd as [Hd _].
Qed.

(** Bytes that start no printed value. *)
Definition starts_value (c : ascii) : bool :=
  negb (is_ws c) && bool_decide (c <> "]"%char) && bool_decide (c <> "}"%char).

Lemma digit_starts c : is_digit c = true \/ c = "-"%char -> starts_value c = true.
Proof.
  intros H. destruct c as [[] [] [] [] [] [] [] []];
    first [reflexivity | by destruct H as [H|H]; vm_compute in H].
Qed.

Lemma print_head j : json_ok j -> exists c s, print_json j = String c s /\ starts_value c = true.
Proof.
  destruct 1 as [|b|z|s|l|l].
  - by eexists _, _.
  - by destruct b; eexists _, _.
  - destruct (format_int_head z) as (c & s & E & Hc). exists c, s. split; [done|].
    by apply digit_starts.
  - by eexists _, _.
  - by eexists _, _.
  - by eexists _, _.
Qed.

Lemma skip_ws_starts c s : starts_value c = true -> skip_ws (String c s) = String c s.
Proof.
  unfold starts_value. rewrite !andb_true_iff, negb_true_iff. intros [[Hc _] _].
  simpl. by rewrite Hc.
Qed.

(** The fuel a value needs. *)
Fixpoint jsize (j : json) : nat :=
  match j with
  | JArr l => 2 + foldr (fun x n => 1 + jsize x + n)%nat 0%nat l
  | JObj l => 2 + foldr (fun kv n => 2 + jsize kv.2 + n)%nat 0%nat l
  | _ => 1
  end.

Definition sep_tail (l : list string) : string := foldr (fun x acc => "," +:+ x +:+ acc) EmptyString l.

Lemma sep_tail_cons x l r : sep_tail (x :: l) +:+ r = String "," (x +:+ (sep_tail l +:+ r)).
Proof. cbn [sep_tail foldr]. by rewrite !s_app_assoc. Qed.

Lemma Join_cons_tail x l : Join "," (x :: l) = x +:+ sep_tail l.
Proof.
  revert x. induction l as [|y l IH]; intros x; [by rewrite s_app_nil_r|].
  change (Join "," (x :: y :: l)) with (x +:+ "," +:+ Join "," (y :: l)). by rewrite IH.
Qed.

Definition print_member (kv : string * json) : string :=
  print_string kv.1 +:+ ":" +:+ print_json kv.2.
#[global] Arguments print_member : simpl never.

Lemma print_member_head kv : exists s, print_member kv = String dq s.
Proof. by eexists. Qed.

(** [parse_value] reads back the value [j]. *)
Definition reads_back (j : json) : Prop :=
  forall fuel rest, (jsize j <= fuel)%nat -> num_end rest = true ->
  parse_value fuel (print_json j +:+ rest) = Some (j, rest).

Lemma parse_elems_print l fuel rest :
  Forall reads_back l -> (1 + foldr (fun x n => 1 + jsize x + n) 0 l <= fuel)%nat ->
  parse_elems fuel (sep_tail (print_json <$> l) +:+ String "]" rest) = Some (l, rest).
Proof.
  intros Hl. revert fuel. induction Hl as [|x l Hx Hl IH]; intros [|fuel] Hf; try (simpl in Hf; lia).
  - done.
  - rewrite fmap_cons, sep_tail_cons. cbn [foldr] in Hf.
    change (parse_elems (S fuel) (String "," ?t)) with
      (match parse_value fuel t with
       | Some (v, r) => match parse_elems fuel r with
                        | Some (vs, r) => Some (v :: vs, r) | None => None end
       | None => None end).
    rewrite Hx; [|lia|]; [|by destruct l].
    rewrite IH by lia. done.
Qed.

Lemma parse_member_print kv fuel rest :
  ascii_only kv.1 = true -> reads_back kv.2 -> (1 + jsize kv.2 <= fuel)%nat ->
  num_end rest = true ->
  parse_member fuel (print_member kv +:+ rest) = Some (kv, rest).
Proof.
  intros Hk Hv Hf Hr. destruct fuel as [|fuel]; [lia|]. destruct kv as [k v]. simpl in *.
  unfold print_member, print_string. simpl. rewrite !s_app_assoc. simpl.
  rewrite parse_escape by done. simpl. rewrite Hv by (done || lia). done.
Qed.

Lemma parse_members_print l fuel rest :
  Forall (fun kv => ascii_only kv.1 = true /\ reads_back kv.2) l ->
  (1 + foldr (fun kv n => 2 + jsize kv.2 + n) 0 l <= fuel)%nat ->
  parse_members fuel (sep_tail (print_member <$> l) +:+ String "}" rest) = Some (l, rest).
Proof.
  intros Hl. revert fuel.
  induction Hl as [|kv l [Hk Hv] Hl IH]; intros [|fuel] Hf; try (simpl in Hf; lia).
  - done.
  - rewrite fmap_cons, sep_tail_cons. cbn [foldr] in Hf.
    change (parse_members (S fuel) (String "," ?t)) with
      (match parse_member fuel t with
       | Some (v, r) => match parse_members fuel r with
                        | Some (vs, r) => Some (v :: vs, r) | None => None end
       | None => None end).
    rewrite parse_member_print; [|done|done|lia|by destruct l].
    rewrite IH by lia. done.
Qed.

Lemma json_ok_arr l : json_ok (JArr l) -> Forall json_ok l.
Proof. by inversion 1. Qed.

Lemma json_ok_obj l :
  json_ok (JObj l) -> Forall (fun kv => ascii_only kv.1 = true /\ json_ok kv.2) l.
Proof. by inversion 1. Qed.

(** A value that starts neither a string, an array, an object nor a keyword is
    read as a number. *)
Lemma parse_value_num fuel c s :
  is_digit c = true \/ c = "-"%char ->
  parse_value (S fuel) (String c s) =
    match parse_num (String c s) with Some (lit, r) => Some (JNum lit, r) | None => None end.
Proof.
  intros H. destruct c as [[] [] [] [] [] [] [] []];
    first [reflexivity | by destruct H as [H|H]; vm_compute in H].
Qed.

Lemma parse_value_arr fuel c s :
  starts_value c = true ->
  parse_value (S fuel) (String "[" (String c s)) =
    match parse_value fuel (String c s) with
    | Some (v, r) => match parse_elems fuel r with
                     | Some (vs, r) => Some (JArr (v :: vs), r) | None => None end
    | None => None
    end.
Proof.
  intros H.
  transitivity (match skip_ws (String c s) with
    | String "]" r => Some (JArr [], r)
    | _ => match parse_value fuel (String c s) with
           | Some (v, r) => match parse_elems fuel r with
                            | Some (vs, r) => Some (JArr (v :: vs), r) | None => None end
           | None => None end
    end); [reflexivity|].
  rewrite skip_ws_starts by done.
  unfold starts_value in H. rewrite !andb_true_iff, !bool_decide_eq_true in H.
  destruct H as [[_ H] _]. by destruct c as [[] [] [] [] [] [] [] []].
Qed.

Lemma parse_value_obj fuel c s :
  starts_value c = true ->
  parse_value (S fuel) (String "{" (String c s)) =
    match parse_member fuel (String c s) with
    | Some (v, r) => match parse_members fuel r with
                     | Some (vs, r) => Some (JObj (v :: vs), r) | None => None end
    | None => None
    end.
Proof.
  intros H.
  transitivity (match skip_ws (String c s) with
    | String "}" r => Some (JObj [], r)
    | _ => match parse_member fuel (String c s) with
           | Some (v, r) => match parse_members fuel r with
                            | Some (vs, r) => Some (JObj (v :: vs), r) | None => None end
           | None => None end
    end); [reflexivity|].
  rewrite skip_ws_starts by done.
  unfold starts_value in H. rewrite !andb_true_iff, !bool_decide_eq_true in H.
  destruct H as [_ H]. by destruct c as [[] [] [] [] [] [] [] []].
Qed.

Lemma print_reads_back j : json_ok j -> reads_back j.
Proof.
  induction j as [|b|lit|s|l IH|l IH] using json_ind; intros Hj [|fuel] rest Hf Hr;
    try (simpl in Hf; lia).
  - done.
  - by destruct b.
  - inversion Hj as [| |z| | |]; subst.
    destruct (format_int_head z) as (c & s & E & Hc).
    pose proof (parse_num_int z rest Hr) as Hp. cbn [print_json]. rewrite E in *.
    simpl String.append in *. by rewrite parse_value_num, Hp.
  - inversion Hj as [| | |? Hs| |]; subst. cbn [print_json]. unfold print_string.
    simpl. rewrite s_app_assoc. simpl. by rewrite parse_escape.
  - apply json_ok_arr in Hj. destruct l as [|x l]; [done|].
    apply Forall_cons in Hj as [Hx Hl]. apply Forall_cons in IH as [IHx IHl].
    destruct (print_head x Hx) as (c & s & E & Hc).
    assert (Forall reads_back l) as Hrb.
    { rewrite Forall_forall in Hl, IHl |- *. auto. }
    change (print_json (JArr (x :: l))) with ("[" +:+ Join "," (print_json <$> x :: l) +:+ "]").
    rewrite fmap_cons, Join_cons_tail, !s_app_assoc.
    cbn [jsize foldr] in Hf.
    pose proof (IHx Hx fuel (sep_tail (print_json <$> l) +:+ String "]" rest) ltac:(lia)
      ltac:(by destruct l)) as Hpx.
    rewrite E in *. simpl String.append in *. rewrite parse_value_arr, Hpx by done.
    rewrite parse_elems_print; [done | done | lia].
  - apply json_ok_obj in Hj. destruct l as [|kv l]; [done|].
    apply Forall_cons in Hj as [[Hk Hv] Hl]. apply Forall_cons in IH as [IHv IHl].
    assert (Forall (fun kv => ascii_only kv.1 = true /\ reads_back kv.2) l) as Hrb.
    { rewrite Forall_forall in Hl, IHl |- *. intros kv' Hin. destruct (Hl kv' Hin). auto. }
    change (print_json (JObj (kv :: l))) with ("{" +:+ Join "," (print_member <$> kv :: l) +:+ "}").
    rewrite fmap_cons, Join_cons_tail, !s_app_assoc.
    cbn [jsize foldr] in Hf.
    pose proof (parse_member_print kv fuel (sep_tail (print_member <$> l) +:+ String "}" rest) Hk
      (IHv Hv) ltac:(lia) ltac:(by destruct l)) as Hpx.
    destruct (print_member_head kv) as (s & E). rewrite E in Hpx |- *.
    simpl String.append in Hpx |- *. rewrite parse_value_obj, Hpx by done.
    rewrite parse_members_print; [done | done | lia].
Qed.

(** *** Whole documents *)

Lemma sep_tail_length {A} (p : A -> string) (w : A -> nat) l :
  Forall (fun x => w x <= 2 * String.length (p x))%nat l ->
  (foldr (fun x n => 1 + w x + n) 0 l <= 2 * String.length (sep_tail (p <$> l)))%nat.
Proof.
  induction 1 as [|x l Hx Hl IH]; [done|]. rewrite fmap_cons, <- (s_app_nil_r (sep_tail _)).
  rewrite sep_tail_cons, s_app_nil_r. cbn [foldr String.length]. rewrite s_length_app. lia.
Qed.

Lemma jsize_print j : json_ok j -> (jsize j <= 2 * String.length (print_json j))%nat.
Proof.
  induction j as [|b|lit|s|l IH|l IH] using json_ind; intros Hj; try (simpl; lia).
  - destruct b; simpl; lia.
  - destruct (print_head _ Hj) as (c & s & E & _). rewrite E. simpl. lia.
  - apply json_ok_arr in Hj. destruct l as [|x l]; [simpl; lia|].
    apply Forall_cons in Hj as [Hx Hl]. apply Forall_cons in IH as [IHx IHl].
    change (print_json (JArr (x :: l))) with ("[" +:+ Join "," (print_json <$> x :: l) +:+ "]").
    rewrite fmap_cons, Join_cons_tail, !s_length_app.
    pose proof (sep_tail_length print_json jsize l) as H.
    assert (Forall (fun x => jsize x <= 2 * String.length (print_json x))%nat l) as Hl'.
    { rewrite Forall_forall in Hl, IHl |- *. auto. }
    specialize (H Hl'). specialize (IHx Hx). cbn [jsize foldr String.length]. lia.
  - apply json_ok_obj in Hj. destruct l as [|kv l]; [simpl; lia|].
    assert (forall kv, jsize kv.2 <= 2 * String.length (print_json kv.2) ->
      1 + jsize kv.2 <= 2 * String.length (print_member kv))%nat as Hm.
    { intros [k v] H. unfold print_member, print_string. cbn [fst snd] in *.
      rewrite !s_length_app. simpl. lia. }
    assert (Forall (fun kv => 1 + jsize kv.2 <= 2 * String.length (print_member kv))%nat (kv :: l))
      as Hl'.
    { rewrite Forall_forall in Hj, IH |- *. intros x Hx. apply Hm, IH; [done|]. by apply Hj. }
    apply Forall_cons in Hl' as [Hkv Hl'].
    change (print_json (JObj (kv :: l))) with ("{" +:+ Join "," (print_member <$> kv :: l) +:+ "}").
    rewrite fmap_cons, Join_cons_tail, !s_length_app.
    pose proof (sep_tail_length print_member (fun kv => 1 + jsize kv.2)%nat l Hl') as H.
    cbn [jsize foldr String.length].
    assert (foldr (fun kv n => 2 + jsize kv.2 + n) 0 l
            = foldr (fun x n => 1 + (1 + jsize x.2) + n) 0 l)%nat as -> by done. lia.
Qed.

Lemma parse_print j : json_ok j -> parse_json (print_json j) = Some j.
Proof.
  intros Hj. unfold parse_json. rewrite <- (s_app_nil_r (print_json j)) at 2.
  pose proof (jsize_print j Hj).
  by rewrite (print_reads_back j Hj _ EmptyString) by (lia || done).
Qed.
