(* ===== verification/JsonStruct.v ===== *)
(** * encoding/json on structs

    How [json.Unmarshal] fills a struct: members in the order of the text, names
    compared without regard to case, unknown names skipped, [null] leaving a field
    as it was.  Names are ASCII. *)

From S2P Require Import Prelude GoStrings GoEncoding GoJson.

Definition lower_char (c : ascii) : ascii := if is_upper c then byte_of (byte_val c + 32) else c.
Fixpoint lower (s : string) : string :=
  match s with EmptyString => EmptyString | String c s => String (lower_char c) (lower s) end.

Definition is_field (name key : string) : bool := bool_decide (lower key = name).

(** The members of an object, in order, each updating the value under
    construction. *)
Fixpoint dec_members {A} (set : A -> string -> json -> option A) (l : list (string * json))
    (acc : A) : option A :=
  match l with
  | [] => Some acc
  | (k, v) :: l => acc ← set acc k v; dec_members set l acc
  end.

Definition dec_int (old : Z) (v : json) : option Z :=
  match v with
  | JNull => Some old
  | JNum lit => match ParseInt lit with Ok z => Some z | _ => None end
  | _ => None
  end.

Definition dec_text (old : string) (v : json) : option string :=
  match v with JNull => Some old | JStr s => Some s | _ => None end.

(** A slice; null makes it nil. *)
Definition dec_slice {A} (dec : json -> option A) (v : json) : option (list A) :=
  match v with JNull => Some [] | JArr l => mapM dec l | _ => None end.

Lemma dec_format_int old z : int64_range z -> dec_int old (JNum (format_int z)) = Some z.
Proof. intros Hz. unfold dec_int, ParseInt. by rewrite parse_format_int. Qed.

Lemma dec_slice_enc {A} (enc : A -> json) (dec : json -> option A) xs :
  Forall (fun x => dec (enc x) = Some x) xs -> dec_slice dec (JArr (enc <$> xs)) = Some xs.
Proof.
  intros H. cbn [dec_slice]. apply mapM_Some_2, Forall2_fmap_l. by apply Forall_Forall2_diag.
Qed.

Lemma dec_texts_enc xs : dec_slice (dec_text EmptyString) (JArr (JStr <$> xs)) = Some xs.
Proof. apply dec_slice_enc, Forall_true. done. Qed.
