(* ===== verification/WGTypes.v ===== *)
(** * The WireGuard types shared by the tunnel and the daemon

    The structures of the wgctrl package that the repository fills in and reads,
    and the interface [WGKeys] to its keys, which are not part of the
    repository. *)

From S2P Require Import Prelude GoStrings GoEncoding GoNet.

(** [NewKey] takes the 32 bytes of a key, [ParseKey] its base64 text, which
    [Key_String] prints; [Key_bytes] are the bytes of the array. *)
Class WGKeys := {
  Key : Type;
  zeroKey : Key;
  Key_bytes : Key -> string;
  NewKey : string -> result Key;
  ParseKey : string -> result Key;
  Key_PublicKey : Key -> Key;
  Key_String : Key -> string;
}.

(** What the package documents: constructors invert the accessors, and return an
    error rather than panic; a key is an array of 32 bytes, its text is base64. *)
Class WGKeysLaws (keys : WGKeys) : Prop := {
  Key_bytes_length k : String.length (Key_bytes k) = 32%nat;
  NewKey_bytes k : NewKey (Key_bytes k) = Ok k;
  Key_String_base64 k : Key_String k = b64_EncodeToString (Key_bytes k);
  ParseKey_String k : ParseKey (Key_String k) = Ok k;
  NewKey_no_panic b : is_panic (NewKey b) = false;
  ParseKey_no_panic s : is_panic (ParseKey s) = false;
}.

Record UDPAddr := mkUDPAddr { udp_IP : IP; udp_Port : Z; udp_Zone : string }.

(** The zero [time.Time], or [time.Unix(sec, nsec)]. *)
Inductive gotime := TimeZero | TimeUnix (sec nsec : Z).

#[global] Instance UDPAddr_eq_dec : EqDecision UDPAddr.
Proof. solve_decision. Defined.
#[global] Instance gotime_eq_dec : EqDecision gotime.
Proof. solve_decision. Defined.

Section Types.
Context `{keys : WGKeys}.

Record Peer := mkPeer {
  p_PublicKey : Key;
  p_PresharedKey : Key;
  p_Endpoint : option UDPAddr;
  p_PersistentKeepaliveInterval : Z;
  p_LastHandshakeTime : gotime;
  p_ReceiveBytes : Z;
  p_TransmitBytes : Z;
  p_AllowedIPs : list IPNet;
  p_ProtocolVersion : Z;
}.

Record Device := mkDevice {
  d_Name : string;
  d_Type : Z;
  d_PrivateKey : Key;
  d_PublicKey : Key;
  d_ListenPort : Z;
  d_FirewallMark : Z;
  d_Peers : list Peer;
}.

(** [net.IP.String] and the port, in brackets when the address is IPv6; a nil
    pointer prints as such. *)
Definition UDPAddr_String (a : option UDPAddr) : string :=
  match a with
  | None => "<nil>"
  | Some a =>
      let ip := if decide (udp_IP a = []) then EmptyString else IP_String (udp_IP a) in
      let host := if decide (udp_Zone a = EmptyString) then ip else ip +:+ "%" +:+ udp_Zone a in
      (if s_free ":" host then host else "[" +:+ host +:+ "]")
        +:+ ":" +:+ format_int (udp_Port a)
  end.

End Types.

(** ** Keys as the package implements them, apart from the curve: the public key is
    the private one *)

Definition key_array : Type := dsig (fun s : string => String.length s = 32%nat).

Definition new_key (b : string) : result key_array :=
  match decide (String.length b = 32%nat) with
  | left H => Ok (dexist b H)
  | right _ => Err (Errorf "wgtypes: incorrect key size: %d" [format_int (Z.of_nat (String.length b))])
  end.

Definition parse_key (s : string) : result key_array :=
  match b64_DecodeString s with
  | Some b => new_key b
  | None => Err (Errorf "wgtypes: failed to parse base64-encoded key" [])
  end.

Definition zeros : string := "00000000000000000000000000000000".

#[global] Instance plain_keys : WGKeys := {
  Key := key_array;
  zeroKey := dexist zeros eq_refl;
  Key_bytes := proj1_sig;
  NewKey := new_key;
  ParseKey := parse_key;
  Key_PublicKey := id;
  Key_String := fun k => b64_EncodeToString (proj1_sig k);
}.

Lemma new_key_bytes (k : key_array) : new_key (proj1_sig k) = Ok k.
Proof.
  unfold new_key. case_decide as H.
  - f_equal. by apply dsig_eq.
  - exfalso. apply H. exact (proj2_dsig k).
Qed.

Lemma new_key_no_panic b : is_panic (new_key b) = false.
Proof. unfold new_key. by case_decide. Qed.

#[global] Instance plain_keys_laws : WGKeysLaws plain_keys.
Proof.
  split; cbn; intros.
  - exact (proj2_dsig k).
  - apply new_key_bytes.
  - done.
  - unfold parse_key. rewrite b64_decode_encode. apply new_key_bytes.
  - apply new_key_no_panic.
  - unfold parse_key. destruct (b64_DecodeString s); [apply new_key_no_panic|done].
Qed.

Definition key_of (c : ascii) : key_array :=
  match new_key (String c (s_drop 1 zeros)) with Ok k => k | _ => zeroKey end.
