(* ===== verification/DeviceParser.v ===== *)
(** * tailscale/wireguard_device.go

    Reading the state of the WireGuard device the daemon runs: the device writes
    its configuration as [key=value] lines, the parser accumulates a [Device] and
    its [Peer]s, and the first error it meets is kept until the end. *)

From S2P Require Import Prelude GoStrings GoEncoding GoNet GoNetText WGTypes.

Section Parser.
Context `{keys : WGKeys}.

(** ** The parser's state *)

(** [dp_peers] is an [int] that counts the elements of a slice. *)
Record deviceParser := mkDeviceParser {
  dp_d : Device;
  dp_err : option error;
  dp_parsePeers : bool;
  dp_peers : nat;
  dp_hsSec : Z;
  dp_hsNano : Z;
}.

Definition zeroDevice : Device := mkDevice EmptyString 0 zeroKey zeroKey 0 0 [].
Definition newDeviceParser : deviceParser := mkDeviceParser zeroDevice None false 0 0 0.

Definition set_d (dp : deviceParser) (d : Device) : deviceParser :=
  mkDeviceParser d (dp_err dp) (dp_parsePeers dp) (dp_peers dp) (dp_hsSec dp) (dp_hsNano dp).
Definition set_err (dp : deviceParser) (e : error) : deviceParser :=
  mkDeviceParser (dp_d dp) (Some e) (dp_parsePeers dp) (dp_peers dp) (dp_hsSec dp) (dp_hsNano dp).
Definition set_hsSec (dp : deviceParser) (n : Z) : deviceParser :=
  mkDeviceParser (dp_d dp) (dp_err dp) (dp_parsePeers dp) (dp_peers dp) n (dp_hsNano dp).
Definition set_hsNano (dp : deviceParser) (n : Z) : deviceParser :=
  mkDeviceParser (dp_d dp) (dp_err dp) (dp_parsePeers dp) (dp_peers dp) (dp_hsSec dp) n.

Definition set_Peers (d : Device) (ps : list Peer) : Device :=
  mkDevice (d_Name d) (d_Type d) (d_PrivateKey d) (d_PublicKey d) (d_ListenPort d)
           (d_FirewallMark d) ps.
Definition set_PrivateKey (d : Device) (k : Key) : Device :=
  mkDevice (d_Name d) (d_Type d) k (d_PublicKey d) (d_ListenPort d) (d_FirewallMark d) (d_Peers d).
Definition set_PublicKey (d : Device) (k : Key) : Device :=
  mkDevice (d_Name d) (d_Type d) (d_PrivateKey d) k (d_ListenPort d) (d_FirewallMark d) (d_Peers d).
Definition set_ListenPort (d : Device) (n : Z) : Device :=
  mkDevice (d_Name d) (d_Type d) (d_PrivateKey d) (d_PublicKey d) n (d_FirewallMark d) (d_Peers d).
Definition set_FirewallMark (d : Device) (n : Z) : Device :=
  mkDevice (d_Name d) (d_Type d) (d_PrivateKey d) (d_PublicKey d) (d_ListenPort d) n (d_Peers d).

(** ** The field parsers

    Each returns the zero value once an error is pending, and records the first
    error.  The result type carries the panics of the key library. *)

Definition parseKey (dp : deviceParser) (s : string) : result (deviceParser * Key) :=
  match dp_err dp with
  | Some _ => Ok (dp, zeroKey)
  | None =>
      match hex_DecodeString s with
      | Panic w => Panic w
      | Err e => Ok (set_err dp e, zeroKey)
      | Ok b =>
          match NewKey b with
          | Panic w => Panic w
          | Err e => Ok (set_err dp e, zeroKey)
          | Ok key => Ok (dp, key)
          end
      end
  end.

Definition parse_number (conv : string -> result Z) (dp : deviceParser) (s : string)
    : deviceParser * Z :=
  match dp_err dp with
  | Some _ => (dp, 0%Z)
  | None =>
      match conv s with
      | Ok v => (dp, v)
      | Err e => (set_err dp e, 0%Z)
      | Panic _ => (dp, 0%Z)
      end
  end.

Definition parseInt : deviceParser -> string -> deviceParser * Z := parse_number Atoi.
Definition parseInt64 : deviceParser -> string -> deviceParser * Z := parse_number ParseInt.

Definition parseCIDR (dp : deviceParser) (s : string) : deviceParser * option IPNet :=
  match dp_err dp with
  | Some _ => (dp, None)
  | None =>
      match ParseCIDR s with
      | Ok (_, cidr) => (dp, Some cidr)
      | Err e => (set_err dp e, None)
      | Panic _ => (dp, None)
      end
  end.

(** ** Peers *)

(** [&dp.d.Peers[dp.peers-1]]: reading it panics when there is no such peer. *)
Definition curPeer (dp : deviceParser) : result Peer :=
  match dp_peers dp with
  | O => Panic "index out of range [-1]"
  | S i => match d_Peers (dp_d dp) !! i with
           | Some p => Ok p
           | None => Panic "index out of range"
           end
  end.

(** A write through that pointer. *)
Definition set_curPeer (dp : deviceParser) (p : Peer) : deviceParser :=
  set_d dp (set_Peers (dp_d dp) (<[pred (dp_peers dp) := p]> (d_Peers (dp_d dp)))).

Definition with_PresharedKey (p : Peer) (k : Key) : Peer :=
  mkPeer (p_PublicKey p) k (p_Endpoint p) (p_PersistentKeepaliveInterval p)
    (p_LastHandshakeTime p) (p_ReceiveBytes p) (p_TransmitBytes p) (p_AllowedIPs p)
    (p_ProtocolVersion p).
Definition with_Keepalive (p : Peer) (n : Z) : Peer :=
  mkPeer (p_PublicKey p) (p_PresharedKey p) (p_Endpoint p) n
    (p_LastHandshakeTime p) (p_ReceiveBytes p) (p_TransmitBytes p) (p_AllowedIPs p)
    (p_ProtocolVersion p).
Definition with_Handshake (p : Peer) (t : gotime) : Peer :=
  mkPeer (p_PublicKey p) (p_PresharedKey p) (p_Endpoint p) (p_PersistentKeepaliveInterval p)
    t (p_ReceiveBytes p) (p_TransmitBytes p) (p_AllowedIPs p) (p_ProtocolVersion p).
Definition with_ReceiveBytes (p : Peer) (n : Z) : Peer :=
  mkPeer (p_PublicKey p) (p_PresharedKey p) (p_Endpoint p) (p_PersistentKeepaliveInterval p)
    (p_LastHandshakeTime p) n (p_TransmitBytes p) (p_AllowedIPs p) (p_ProtocolVersion p).
Definition with_TransmitBytes (p : Peer) (n : Z) : Peer :=
  mkPeer (p_PublicKey p) (p_PresharedKey p) (p_Endpoint p) (p_PersistentKeepaliveInterval p)
    (p_LastHandshakeTime p) (p_ReceiveBytes p) n (p_AllowedIPs p) (p_ProtocolVersion p).
Definition with_AllowedIPs (p : Peer) (l : list IPNet) : Peer :=
  mkPeer (p_PublicKey p) (p_PresharedKey p) (p_Endpoint p) (p_PersistentKeepaliveInterval p)
    (p_LastHandshakeTime p) (p_ReceiveBytes p) (p_TransmitBytes p) l (p_ProtocolVersion p).
Definition with_ProtocolVersion (p : Peer) (n : Z) : Peer :=
  mkPeer (p_PublicKey p) (p_PresharedKey p) (p_Endpoint p) (p_PersistentKeepaliveInterval p)
    (p_LastHandshakeTime p) (p_ReceiveBytes p) (p_TransmitBytes p) (p_AllowedIPs p) n.

Definition peerParse (dp : deviceParser) (key value : string) : result deviceParser :=
  p ← curPeer dp;
  if String.eqb key "preshared_key" then
    r ← parseKey dp value; let (dp, k) := r : deviceParser * Key in
    Ok (set_curPeer dp (with_PresharedKey p k))
  else if String.eqb key "endpoint" then Ok dp
  else if String.eqb key "last_handshake_time_sec" then
    let (dp, n) := parseInt dp value in Ok (set_hsSec dp n)
  else if String.eqb key "last_handshake_time_nsec" then
    let (dp, n) := parseInt dp value in
    let dp := set_hsNano dp n in
    if (0 <? dp_hsSec dp)%Z && (0 <? dp_hsNano dp)%Z
    then Ok (set_curPeer dp (with_Handshake p (TimeUnix (dp_hsSec dp) (dp_hsNano dp))))
    else Ok dp
  else if String.eqb key "tx_bytes" then
    let (dp, n) := parseInt64 dp value in Ok (set_curPeer dp (with_TransmitBytes p n))
  else if String.eqb key "rx_bytes" then
    let (dp, n) := parseInt64 dp value in Ok (set_curPeer dp (with_ReceiveBytes p n))
  else if String.eqb key "persistent_keepalive_interval" then
    let (dp, n) := parseInt dp value in
    Ok (set_curPeer dp (with_Keepalive p (n *64 Second)))
  else if String.eqb key "allowed_ip" then
    let (dp, cidr) := parseCIDR dp value in
    match cidr with
    | Some n => Ok (set_curPeer dp (with_AllowedIPs p (p_AllowedIPs p ++ [n])))
    | None => Ok dp
    end
  else if String.eqb key "protocol_version" then
    let (dp, n) := parseInt dp value in Ok (set_curPeer dp (with_ProtocolVersion p n))
  else Ok dp.

(** ** Lines *)

(** The part of [Parse] after the first switch. *)
Definition parse_field (dp : deviceParser) (key value : string) : result deviceParser :=
  if dp_parsePeers dp then peerParse dp key value
  else if String.eqb key "private_key" then
    r ← parseKey dp value; let (dp, k) := r : deviceParser * Key in
    Ok (set_d dp (set_PrivateKey (dp_d dp) k))
  else if String.eqb key "listen_port" then
    let (dp, n) := parseInt dp value in Ok (set_d dp (set_ListenPort (dp_d dp) n))
  else if String.eqb key "fwmark" then
    let (dp, n) := parseInt dp value in Ok (set_d dp (set_FirewallMark (dp_d dp) n))
  else Ok dp.

Definition errno_error (errno : Z) : error :=
  SyscallError "read" (Errorf "wguser: errno=%d" [format_int errno]).

Definition Parse (dp : deviceParser) (key value : string) : result deviceParser :=
  if String.eqb key "errno" then
    let (dp, errno) := parseInt dp value in
    if (errno =? 0)%Z then parse_field dp key value
    else Ok (set_err dp (errno_error errno))
  else if String.eqb key "public_key" then
    let dp := mkDeviceParser (dp_d dp) (dp_err dp) true (S (dp_peers dp)) (dp_hsSec dp)
                             (dp_hsNano dp) in
    r ← parseKey dp value; let (dp, k) := r : deviceParser * Key in
    Ok (set_d dp (set_Peers (dp_d dp)
      (d_Peers (dp_d dp) ++ [mkPeer k zeroKey None 0 TimeZero 0 0 [] 0])))
  else parse_field dp key value.

Definition finish (dp : deviceParser) : result Device :=
  match dp_err dp with
  | Some e => Err e
  | None => Ok (set_PublicKey (dp_d dp) (Key_PublicKey (d_PrivateKey (dp_d dp))))
  end.

Fixpoint parse_lines (ls : list string) (scan_err : option error) (dp : deviceParser)
    : result deviceParser :=
  match ls with
  | [] => match scan_err with Some e => Err e | None => Ok dp end
  | b :: ls =>
      if decide (b = EmptyString) then Ok dp
      else match Split "=" b with
           | [k; v] => dp ← Parse dp k v; parse_lines ls scan_err dp
           | _ => Err (Errorf "wguser: invalid key=value pair: %q" [b])
           end
  end.

(** [parseDevice], on all the text its reader delivers. *)
Definition parseDevice (text : string) : result Device :=
  let (ls, scan_err) := scan_lines text in
  dp ← parse_lines ls scan_err newDeviceParser; finish dp.

Definition ErrNoDevice : string := "wireguard not initialized".

(** [WireguardDevice]: what the device writes before [IpcGetOperation] returns is
    parsed; its error is only logged. *)
Definition WireguardDevice (wgDevice : option (string * option error)) : result Device :=
  match wgDevice with
  | None => Err (Errorf ErrNoDevice [])
  | Some (written, _) => parseDevice written
  end.

(** ** Printing *)

Section Print.
Variable DeviceType_String : Z -> string.
(** [time.Time.String] depends on the local time zone. *)
Variable Time_String : gotime -> string.

Definition ipsString (ipns : list IPNet) : string :=
  Join ", " (IPNet_String <$> ipns).

Definition printDevice (d : Device) : string :=
  "interface: " +:+ d_Name d +:+ " (" +:+ DeviceType_String (d_Type d) +:+ ")" +:+ NL +:+
  "  public key: " +:+ Key_String (d_PublicKey d) +:+ NL +:+
  "  private key: (hidden)" +:+ NL +:+
  "  listening port: " +:+ format_int (d_ListenPort d) +:+ NL +:+ NL.

Definition printPeer (p : Peer) : string :=
  "peer: " +:+ Key_String (p_PublicKey p) +:+ NL +:+
  "  endpoint: " +:+ UDPAddr_String (p_Endpoint p) +:+ NL +:+
  "  allowed ips: " +:+ ipsString (p_AllowedIPs p) +:+ NL +:+
  "  latest handshake: " +:+ Time_String (p_LastHandshakeTime p) +:+ NL +:+
  "  transfer: " +:+ format_int (p_ReceiveBytes p) +:+ " B received, " +:+
    format_int (p_TransmitBytes p) +:+ " B sent" +:+ NL +:+ NL.

Definition WireguardStatusText (wgDevice : option (string * option error)) : result string :=
  device ← WireguardDevice wgDevice;
  Ok (printDevice device +:+ foldr (fun p s => printPeer p +:+ s) EmptyString (d_Peers device)).

End Print.

(** ** The parser's invariant: the counter is the number of peers, and once peers
    are parsed there is one *)

Definition dp_ok (dp : deviceParser) : Prop :=
  dp_peers dp = length (d_Peers (dp_d dp)) /\
  dp_parsePeers dp = negb (dp_peers dp =? 0)%nat.

(** What a field parser may change: it can add an error, nothing else. *)
Definition same_but_err (dp dp' : deviceParser) : Prop :=
  dp' = dp \/ exists e, dp_err dp = None /\ dp' = set_err dp e.

Lemma parse_number_same conv dp s : same_but_err dp (parse_number conv dp s).1.
Proof.
  unfold parse_number. destruct (dp_err dp) eqn:E; [by left|].
  destruct (conv s); [by left|right; eauto|by left].
Qed.

Lemma parseCIDR_same dp s : same_but_err dp (parseCIDR dp s).1.
Proof.
  unfold parseCIDR. destruct (dp_err dp) eqn:E; [by left|].
  destruct (ParseCIDR s) as [[??]| |]; [by left|right; eauto|by left].
Qed.

Lemma hex_no_panic s : is_panic (hex_DecodeString s) = false.
Proof.
  revert s. fix IH 1. intros [|c [|d s]]; [done|cbn; by destruct (hex_val c)|].
  cbn [hex_DecodeString]. destruct (hex_val c); [|done]. destruct (hex_val d); [|done].
  specialize (IH s). by destruct (hex_DecodeString s).
Qed.

Section Laws.
Context {laws : WGKeysLaws keys}.

Lemma parseKey_same dp s :
  exists dp' k, parseKey dp s = Ok (dp', k) /\ same_but_err dp dp'.
Proof.
  unfold parseKey. destruct (dp_err dp) eqn:E; [by eexists _, _; split; [|left]|].
  pose proof (hex_no_panic s) as Hh. destruct (hex_DecodeString s) as [b| |]; [| |done].
  - pose proof (NewKey_no_panic b) as Hk. destruct (NewKey b); [| |done].
    + by eexists _, _; split; [|left].
    + eexists _, _; split; [done|right; eauto].
  - eexists _, _; split; [done|right; eauto].
Qed.

Lemma same_ok dp dp' : dp_ok dp -> same_but_err dp dp' -> dp_ok dp'.
Proof. intros H [->|(e & _ & ->)]; done. Qed.

Lemma same_err dp dp' e : dp_err dp = Some e -> same_but_err dp dp' -> dp_err dp' = Some e.
Proof. intros H [->|(e' & ? & ->)]; congruence. Qed.

(** A line keeps the invariant and a pending error. *)
Definition keeps (dp dp' : deviceParser) : Prop :=
  (dp_ok dp -> dp_ok dp') /\ (forall e, dp_err dp = Some e -> dp_err dp' = Some e).

Lemma same_keeps dp dp' : same_but_err dp dp' -> keeps dp dp'.
Proof. intros H. split; intros; eauto using same_ok, same_err. Qed.

Lemma keeps_refl dp : keeps dp dp.
Proof. by split. Qed.

Lemma keeps_trans dp1 dp2 dp3 : keeps dp1 dp2 -> keeps dp2 dp3 -> keeps dp1 dp3.
Proof. intros [] []. split; eauto. Qed.

Lemma keeps_set_curPeer dp p : keeps dp (set_curPeer dp p).
Proof.
  split; [|done]. intros [H1 H2]. split; [|done].
  cbn. by rewrite length_insert.
Qed.

Lemma curPeer_ok dp : dp_ok dp -> dp_parsePeers dp = true -> exists p, curPeer dp = Ok p.
Proof.
  intros [H1 H2] H. rewrite H in H2. unfold curPeer.
  destruct (dp_peers dp) as [|i]; [done|].
  destruct (lookup_lt_is_Some_2 (d_Peers (dp_d dp)) i) as [p ->]; [lia|eauto].
Qed.

(** The step every line of the parser takes: a field parser, then a write that
    keeps the invariant. *)
Lemma number_keeps conv dp s (f : deviceParser -> Z -> deviceParser) :
  (forall dp n, keeps dp (f dp n)) ->
  exists dp', (let (dp, n) := parse_number conv dp s in Ok (f dp n)) = Ok dp' /\ keeps dp dp'.
Proof.
  intros Hf. pose proof (parse_number_same conv dp s) as H.
  destruct (parse_number conv dp s) as [dp1 n]. eexists; split; [done|].
  eapply keeps_trans; [by apply same_keeps|apply Hf].
Qed.

Lemma key_keeps dp s (f : deviceParser -> Key -> deviceParser) :
  (forall dp k, keeps dp (f dp k)) ->
  exists dp', (r ← parseKey dp s; let (dp, k) := r : deviceParser * Key in Ok (f dp k)) = Ok dp'
              /\ keeps dp dp'.
Proof.
  intros Hf. destruct (parseKey_same dp s) as (dp1 & k & -> & H). eexists; split; [done|].
  eapply keeps_trans; [by apply same_keeps|apply Hf].
Qed.

Lemma peerParse_keeps dp k v :
  dp_ok dp -> dp_parsePeers dp = true -> exists dp', peerParse dp k v = Ok dp' /\ keeps dp dp'.
Proof.
  intros Hok Hp. destruct (curPeer_ok dp Hok Hp) as [p Hc].
  unfold peerParse. rewrite Hc. cbn [mbind result_bind].
  repeat match goal with
  | |- context [if String.eqb k ?c then _ else _] => destruct (String.eqb k c)
  end; try (apply number_keeps || apply key_keeps; intros; apply keeps_set_curPeer).
  - by eexists; split; [|apply keeps_refl].
  - apply number_keeps. by split.
  - pose proof (parse_number_same Atoi dp v) as H. unfold parseInt.
    destruct (parse_number Atoi dp v) as [dp1 n]; cbn [fst] in H. cbv zeta.
    case_match; (eexists; split; [done|]);
      repeat (eapply keeps_trans; [by apply same_keeps|]); [|by split].
    eapply keeps_trans; [|apply keeps_set_curPeer]. by split.
  - pose proof (parseCIDR_same dp v) as H. destruct (parseCIDR dp v) as [dp1 [c|]];
      (eexists; split; [done|]); [|by apply same_keeps].
    eapply keeps_trans; [by apply same_keeps|apply keeps_set_curPeer].
  - by eexists; split; [|apply keeps_refl].
Qed.

Lemma parse_field_keeps dp k v :
  dp_ok dp -> exists dp', parse_field dp k v = Ok dp' /\ keeps dp dp'.
Proof.
  intros Hok. unfold parse_field. destruct (dp_parsePeers dp) eqn:Hp.
  { by apply peerParse_keeps. }
  repeat match goal with
  | |- context [if String.eqb k ?c then _ else _] => destruct (String.eqb k c)
  end; try (apply number_keeps || apply key_keeps; by split).
  by eexists; split; [|apply keeps_refl].
Qed.

Lemma Parse_keeps dp k v : dp_ok dp -> exists dp', Parse dp k v = Ok dp' /\ keeps dp dp'.
Proof.
  intros Hok. unfold Parse. destruct (String.eqb k "errno").
  - pose proof (parse_number_same Atoi dp v) as H.
    assert (forall e, dp_err dp = Some e -> (parse_number Atoi dp v).2 = 0%Z) as Hz
      by (intros e He; unfold parse_number; by rewrite He).
    unfold parseInt. destruct (parse_number Atoi dp v) as [dp1 n]; cbn [fst snd] in *.
    destruct (n =? 0)%Z eqn:Hn.
    + destruct (parse_field_keeps dp1 k v) as (dp2 & -> & ?); [by eapply same_ok|].
      eexists; split; [done|]. eapply keeps_trans; [by apply same_keeps|done].
    + eexists; split; [done|]. split; [intros; by destruct (same_ok dp dp1)|].
      intros e He. rewrite (Hz e He) in Hn. done.
  - destruct (String.eqb k "public_key"); [|by apply parse_field_keeps].
    match goal with |- context [parseKey ?dp v] =>
      destruct (parseKey_same dp v) as (dp1 & key & -> & H) end.
    eexists; split; [done|]. destruct Hok as [H1 H2].
    destruct H as [->|(e & ? & ->)]; (split; [intros _; split|]); cbn in *; try done;
      rewrite ?length_app; cbn; try lia; congruence.
Qed.

(** C39. The parser never panics: for every text a device may write, also one that
    names fields before any peer, repeats keys or is cut short, the result is a
    device or an error. *)
Theorem parseDevice_total (text : string) : is_panic (parseDevice text) = false.
Proof.
  unfold parseDevice. destruct (scan_lines text) as [ls e].
  assert (dp_ok newDeviceParser) as Hok by done. revert Hok.
  generalize newDeviceParser as dp. induction ls as [|l ls IH]; intros dp Hok; cbn [parse_lines].
  - destruct e; [done|]. cbn. unfold finish. by destruct (dp_err dp).
  - case_decide. { cbn. unfold finish. by destruct (dp_err dp). }
    destruct (Split "=" l) as [|k [|v [|]]]; try done.
    destruct (Parse_keeps dp k v Hok) as (dp' & -> & [Hk _]). cbn. by apply IH, Hk.
Qed.

(** ** Running the parser over key/value pairs *)

Definition kv (x : string * string) : string := x.1 +:+ String "=" x.2.

Definition kv_ok (x : string * string) : bool :=
  s_free "=" x.1 && s_free "=" x.2 && line_ok (kv x).

Fixpoint parse_all (l : list (string * string)) (dp : deviceParser) : result deviceParser :=
  match l with
  | [] => Ok dp
  | x :: l => dp ← Parse dp x.1 x.2; parse_all l dp
  end.

Lemma parse_all_app l1 l2 dp :
  parse_all (l1 ++ l2) dp = (dp ← parse_all l1 dp; parse_all l2 dp).
Proof.
  revert dp. induction l1 as [|x l1 IH]; intros dp; [done|]. cbn.
  destruct (Parse dp x.1 x.2); cbn; [apply IH|done|done].
Qed.

Lemma kv_cons x : kv x <> EmptyString.
Proof. unfold kv. by destruct (x.1). Qed.

Lemma parse_lines_kv_app l ls dp :
  forallb kv_ok l = true ->
  parse_lines ((kv <$> l) ++ ls) None dp = (dp ← parse_all l dp; parse_lines ls None dp).
Proof.
  revert dp. induction l as [|x l IH]; intros dp H; [done|].
  cbn in H. apply andb_true_iff in H as [Hx H]. unfold kv_ok in Hx.
  apply andb_true_iff in Hx as [Hx _]. apply andb_true_iff in Hx as [H1 H2].
  csimpl. cbn [parse_lines]. rewrite decide_False by apply kv_cons.
  unfold kv at 1. rewrite Split_app, Split_free by done.
  cbn [parse_all]. destruct (Parse dp x.1 x.2); cbn; [by apply IH|done|done].
Qed.

Lemma parse_lines_kv l dp :
  forallb kv_ok l = true -> parse_lines (kv <$> l) None dp = parse_all l dp.
Proof.
  intros H. rewrite <- (app_nil_r (kv <$> l)), parse_lines_kv_app by done.
  by destruct (parse_all l dp).
Qed.

Lemma kv_lines l : forallb kv_ok l = true -> Forall (fun b => line_ok b = true) (kv <$> l).
Proof.
  induction l as [|x l IH]; intros H; [constructor|].
  cbn in H. apply andb_true_iff in H as [Hx H]. unfold kv_ok in Hx.
  apply andb_true_iff in Hx as [_ Hx]. csimpl. constructor; [done|by apply IH].
Qed.

Lemma scan_kv l :
  forallb kv_ok l = true -> scan_lines (unlines (kv <$> l)) = (kv <$> l, None).
Proof. intros H. by apply scan_unlines, kv_lines. Qed.

Lemma parseDevice_kv l :
  forallb kv_ok l = true ->
  parseDevice (unlines (kv <$> l)) = (dp ← parse_all l newDeviceParser; finish dp).
Proof. intros H. unfold parseDevice. by rewrite scan_kv, parse_lines_kv. Qed.

Lemma parse_all_keeps l dp :
  dp_ok dp -> exists dp', parse_all l dp = Ok dp' /\ keeps dp dp'.
Proof.
  revert dp. induction l as [|x l IH]; intros dp Hok; [by eexists; split; [|apply keeps_refl]|].
  destruct (Parse_keeps dp x.1 x.2 Hok) as (dp1 & H1 & Hk1). cbn. rewrite H1. cbn.
  destruct (IH dp1) as (dp2 & H2 & Hk2); [by apply Hk1|].
  exists dp2. split; [done|by eapply keeps_trans].
Qed.

(** The first of some lines, before an empty one, that is no key and value. *)
Fixpoint first_malformed (ls : list string) : option string :=
  match ls with
  | [] => None
  | b :: ls =>
      if decide (b = EmptyString) then None
      else if (length (Split "=" b) =? 2)%nat then first_malformed ls else Some b
  end.

Lemma parse_lines_failed ls dp e :
  dp_ok dp -> dp_err dp = Some e ->
  (dp ← parse_lines ls None dp; finish dp)
    = Err (match first_malformed ls with
           | Some b => Errorf "wguser: invalid key=value pair: %q" [b]
           | None => e
           end).
Proof.
  revert dp. induction ls as [|b ls IH]; intros dp Hok He; cbn [parse_lines first_malformed].
  { cbn. unfold finish. by rewrite He. }
  case_decide. { cbn. unfold finish. by rewrite He. }
  destruct (Split "=" b) as [|k [|v [|w l]]]; try done. cbn [length Nat.eqb].
  destruct (Parse_keeps dp k v Hok) as (dp' & -> & Hk). cbn [mbind result_bind].
  apply IH; [by apply Hk|]. by apply (proj2 Hk).
Qed.

(** C34. The first error wins.  Once one of some lines of the form key=value was rejected,
    whatever lines follow, no device is returned: the error is that of the rejected line,
    which no later line, also no later [errno], replaces, unless a line that follows is
    itself not of that form, which ends the parsing with an error that quotes it.  Lines
    are shorter than the scanner's limit. *)
Theorem first_error_wins (l : list (string * string)) (ls : list string) (dp : deviceParser)
  (e : error)
  (Hl : forallb kv_ok l = true) (Hls : Forall (fun b => line_ok b = true) ls)
  (Hdp : parse_all l newDeviceParser = Ok dp)
  (He : dp_err dp = Some e) :
  parseDevice (unlines ((kv <$> l) ++ ls))
    = Err (match first_malformed ls with
           | Some b => Errorf "wguser: invalid key=value pair: %q" [b]
           | None => e
           end).
Proof.
  unfold parseDevice. rewrite scan_unlines by (apply Forall_app; split; [by apply kv_lines|done]).
  rewrite parse_lines_kv_app, Hdp by done. cbn [mbind result_bind].
  apply parse_lines_failed; [|done].
  destruct (parse_all_keeps l newDeviceParser) as (dp0 & H0 & Hk0); [done|].
  replace dp0 with dp in * by congruence. by apply Hk0.
Qed.

(** ** The configuration protocol: what a device writes about itself *)

(** An allowed network is an address and a prefix length. *)
Record uapi_peer := mkUapiPeer {
  u_public_key : Key;
  u_preshared_key : Key;
  u_protocol_version : Z;
  u_endpoint : string;
  u_handshake_sec : Z;
  u_handshake_nsec : Z;
  u_tx_bytes : Z;
  u_rx_bytes : Z;
  u_keepalive : Z;
  u_allowed : list (IP * Z);
}.

Record uapi_device := mkUapiDevice {
  u_private_key : Key;
  u_listen_port : Z;
  u_fwmark : Z;
  u_peers : list uapi_peer;
}.

Definition key_hex (k : Key) : string := hex_EncodeToString (Key_bytes k).

Definition allowed_pair (c : IP * Z) : string * string := ("allowed_ip", cidr_text c).

(** A line that is left out when there is nothing to say. *)
Definition unless (absent : bool) (x : string * string) : list (string * string) :=
  if absent then [] else [x].

Definition peer_pairs (u : uapi_peer) : list (string * string) :=
  [("public_key", key_hex (u_public_key u));
   ("preshared_key", key_hex (u_preshared_key u));
   ("protocol_version", format_int (u_protocol_version u))]
  ++ unless (bool_decide (u_endpoint u = EmptyString)) ("endpoint", u_endpoint u)
  ++ [("last_handshake_time_sec", format_int (u_handshake_sec u));
      ("last_handshake_time_nsec", format_int (u_handshake_nsec u));
      ("tx_bytes", format_int (u_tx_bytes u));
      ("rx_bytes", format_int (u_rx_bytes u));
      ("persistent_keepalive_interval", format_int (u_keepalive u))]
  ++ (allowed_pair <$> u_allowed u).

Definition config_pairs (u : uapi_device) : list (string * string) :=
  (("private_key", key_hex (u_private_key u))
   :: unless (u_listen_port u =? 0)%Z ("listen_port", format_int (u_listen_port u))
   ++ unless (u_fwmark u =? 0)%Z ("fwmark", format_int (u_fwmark u)))
  ++ concat (peer_pairs <$> u_peers u).

(** The protocol ends a reply with a line for success, which the functions of a device
    may leave to their caller. *)
Definition device_pairs (status : bool) (u : uapi_device) : list (string * string) :=
  config_pairs u ++ unless (negb status) ("errno", "0").

Definition uapi_text (status : bool) (u : uapi_device) : string :=
  unlines (kv <$> device_pairs status u).

(** The values a device writes: 64-bit numbers, networks, and an endpoint
    without separators. *)
Definition clean (max : Z) (s : string) : bool :=
  s_free "=" s && s_free nl s && s_free cr s && (Z.of_nat (String.length s) <? max)%Z.

Definition uapi_peer_ok (u : uapi_peer) : Prop :=
  Forall int64_range [u_protocol_version u; u_handshake_sec u; u_handshake_nsec u;
                      u_tx_bytes u; u_rx_bytes u; u_keepalive u] /\
  clean 4096 (u_endpoint u) = true /\ Forall cidr_ok (u_allowed u).

Definition uapi_ok (u : uapi_device) : Prop :=
  int64_range (u_listen_port u) /\ int64_range (u_fwmark u) /\ Forall uapi_peer_ok (u_peers u).

(** ** What is read back *)

(** A peer, for the time of its handshake. *)
Definition peer_at (handshake : Z -> Z -> gotime) (u : uapi_peer) : Peer :=
  mkPeer (u_public_key u) (u_preshared_key u) None (u_keepalive u *64 Second)
    (handshake (u_handshake_sec u) (u_handshake_nsec u))
    (u_rx_bytes u) (u_tx_bytes u) (net_of <$> u_allowed u) (u_protocol_version u).

Definition device_at (handshake : Z -> Z -> gotime) (u : uapi_device) : Device :=
  mkDevice EmptyString 0 (u_private_key u) (Key_PublicKey (u_private_key u))
    (u_listen_port u) (u_fwmark u) (peer_at handshake <$> u_peers u).

(** As the comment of [peerParse] says: no handshake when both parts are zero. *)
Definition handshake_time (sec nsec : Z) : gotime :=
  if (sec =? 0)%Z && (nsec =? 0)%Z then TimeZero else TimeUnix sec nsec.

(** As [peerParse] computes it. *)
Definition handshake_read (sec nsec : Z) : gotime :=
  if (0 <? sec)%Z && (0 <? nsec)%Z then TimeUnix sec nsec else TimeZero.

(** The device that a text is about, without endpoints. *)
Definition device_of : uapi_device -> Device := device_at handshake_time.

(** A peer that has had no handshake, or one that was not on a whole second. *)
Definition handshake_ok (u : uapi_peer) : Prop :=
  (u_handshake_sec u = 0 /\ u_handshake_nsec u = 0 \/
   0 < u_handshake_sec u /\ 0 < u_handshake_nsec u)%Z.

Lemma device_of_read u :
  Forall handshake_ok (u_peers u) -> device_at handshake_read u = device_of u.
Proof.
  intros Hh. unfold device_of, device_at. f_equal. apply list_fmap_ext. intros i p Hp.
  unfold peer_at. f_equal. unfold handshake_read, handshake_time.
  destruct (Forall_lookup_1 _ _ _ _ Hh Hp) as [[-> ->]|[H1 H2]]; [done|].
  rewrite (proj2 (Z.ltb_lt _ _) H1), (proj2 (Z.ltb_lt _ _) H2).
  by rewrite (proj2 (Z.eqb_neq _ _)) by lia.
Qed.

(** *** The lines are lines *)

Lemma kv_ok_clean k v : clean 100 k = true -> clean 4096 v = true -> kv_ok (k, v) = true.
Proof.
  unfold clean, kv_ok, kv, line_ok. cbn [fst snd]. rewrite !andb_true_iff, !Z.ltb_lt.
  intros [[[-> Hkn] Hkc] Hkl] [[[-> Hvn] Hvc] Hvl].
  rewrite !s_free_app, Hkn, Hkc, s_length_app. cbn [String.length].
  rewrite !(proj2 (s_free_cons _ _ _)) by done. unfold MaxScanTokenSize. split_and!; done || lia.
Qed.

Lemma clean_int n : int64_range n -> clean 4096 (format_int n) = true.
Proof.
  intros Hn. unfold clean. rewrite !format_int_free by done.
  pose proof (format_int_length n Hn). cbn [andb]. apply Z.ltb_lt. lia.
Qed.

Lemma hex_digit_not n c :
  (0 <= n < 16)%Z -> hex_val c = None -> hex_digit n <> c.
Proof. intros Hn Hc <-. by rewrite hex_val_digit in Hc. Qed.

Lemma hex_encode_free c s : hex_val c = None -> s_free c (hex_EncodeToString s) = true.
Proof.
  intros Hc. induction s as [|d s IH]; [done|]. cbn [hex_EncodeToString].
  pose proof (byte_val_range d).
  apply s_free_cons. split; [apply hex_digit_not; [|done]; dlia|].
  apply s_free_cons. split; [apply hex_digit_not; [|done]; dlia|done].
Qed.

Lemma hex_encode_length s : String.length (hex_EncodeToString s) = (2 * String.length s)%nat.
Proof. induction s as [|d s IH]; [done|]. cbn [hex_EncodeToString String.length]. lia. Qed.

Lemma clean_key k : clean 4096 (key_hex k) = true.
Proof.
  unfold clean, key_hex. rewrite !hex_encode_free by done.
  by rewrite hex_encode_length, Key_bytes_length.
Qed.

Lemma clean_cidr c : cidr_ok c -> clean 4096 (cidr_text c) = true.
Proof.
  intros Hc. unfold clean. rewrite !cidr_text_free by done. cbn [andb].
  pose proof (cidr_text_length c Hc). apply Z.ltb_lt. lia.
Qed.

Lemma unless_ok b x : kv_ok x = true -> forallb kv_ok (unless b x) = true.
Proof. intros H. destruct b; cbn; by rewrite ?H. Qed.

Lemma peer_pairs_ok u : uapi_peer_ok u -> forallb kv_ok (peer_pairs u) = true.
Proof.
  intros (Hn & He & Ha). rewrite !Forall_cons in Hn. destruct Hn as (?&?&?&?&?&?&_).
  unfold peer_pairs. rewrite !forallb_app, !andb_true_iff. split_and!.
  - cbn [forallb]. by rewrite !kv_ok_clean by (done || apply clean_key || by apply clean_int).
  - apply unless_ok. by apply kv_ok_clean.
  - cbn [forallb]. by rewrite !kv_ok_clean by (done || apply clean_key || by apply clean_int).
  - induction Ha as [|c l Hc Hl IH]; [done|]. csimpl. rewrite IH, andb_true_r.
    apply kv_ok_clean; [done|by apply clean_cidr].
Qed.

Lemma config_pairs_ok u : uapi_ok u -> forallb kv_ok (config_pairs u) = true.
Proof.
  intros (? & ? & Hp). unfold config_pairs. rewrite forallb_app, andb_true_iff. split.
  - cbn [forallb]. rewrite forallb_app, !unless_ok by (apply kv_ok_clean; [done|by apply clean_int]).
    by rewrite kv_ok_clean by (done || apply clean_key).
  - induction Hp as [|p l Hp Hl IH]; [done|]. csimpl. rewrite forallb_app, IH, andb_true_r.
    by apply peer_pairs_ok.
Qed.

Lemma device_pairs_ok b u : uapi_ok u -> forallb kv_ok (device_pairs b u) = true.
Proof. intros Hu. unfold device_pairs. by rewrite forallb_app, config_pairs_ok, unless_ok. Qed.

(** *** The parser's states while it reads them *)

Definition base_state (d : Device) (ps : list Peer) (hs hn : Z) : deviceParser :=
  mkDeviceParser (set_Peers d ps) None (negb (length ps =? 0)%nat) (length ps) hs hn.

Lemma curPeer_base d ps p hs hn : curPeer (base_state d (ps ++ [p]) hs hn) = Ok p.
Proof.
  unfold curPeer. cbn. rewrite length_app, Nat.add_comm. cbn.
  by rewrite list_lookup_middle.
Qed.

Lemma set_curPeer_base d ps p p' hs hn :
  set_curPeer (base_state d (ps ++ [p]) hs hn) p' = base_state d (ps ++ [p']) hs hn.
Proof.
  unfold set_curPeer, set_d, base_state. cbn. rewrite !length_app, Nat.add_comm. cbn.
  rewrite insert_app_r_alt by lia. rewrite Nat.sub_diag. by rewrite Nat.add_comm.
Qed.

Lemma parseKey_hex dp k : dp_err dp = None -> parseKey dp (key_hex k) = Ok (dp, k).
Proof.
  intros H. unfold parseKey, key_hex. by rewrite H, hex_decode_encode, NewKey_bytes.
Qed.

Lemma parseInt_format dp n :
  dp_err dp = None -> int64_range n -> parseInt dp (format_int n) = (dp, n).
Proof.
  intros H Hn. unfold parseInt, parse_number, Atoi. by rewrite H, parse_format_int.
Qed.

Lemma parseInt64_format dp n :
  dp_err dp = None -> int64_range n -> parseInt64 dp (format_int n) = (dp, n).
Proof.
  intros H Hn. unfold parseInt64, parse_number, ParseInt. by rewrite H, parse_format_int.
Qed.

Lemma parseCIDR_text dp c :
  dp_err dp = None -> cidr_ok c -> parseCIDR dp (cidr_text c) = (dp, Some (net_of c)).
Proof. intros H Hc. unfold parseCIDR. by rewrite H, ParseCIDR_text. Qed.

(** In a peer, a line other than [errno] and [public_key] is the peer's. *)
Lemma Parse_peer d ps p hs hn k v :
  String.eqb k "errno" = false -> String.eqb k "public_key" = false ->
  Parse (base_state d (ps ++ [p]) hs hn) k v = peerParse (base_state d (ps ++ [p]) hs hn) k v.
Proof.
  intros H1 H2. unfold Parse, parse_field. rewrite H1, H2. cbn.
  by rewrite length_app, Nat.add_comm.
Qed.

Lemma Parse_public_key d ps hs hn k :
  Parse (base_state d ps hs hn) "public_key" (key_hex k)
    = Ok (base_state d (ps ++ [mkPeer k zeroKey None 0 TimeZero 0 0 [] 0]) hs hn).
Proof.
  unfold Parse. cbn [String.eqb Ascii.eqb Bool.eqb]. rewrite parseKey_hex by done. cbn.
  unfold base_state, set_d, set_Peers. cbn. by rewrite length_app, Nat.add_comm.
Qed.

Lemma parse_allowed d ps p hs hn l :
  Forall cidr_ok l ->
  parse_all (allowed_pair <$> l) (base_state d (ps ++ [p]) hs hn)
    = Ok (base_state d (ps ++ [with_AllowedIPs p (p_AllowedIPs p ++ (net_of <$> l))]) hs hn).
Proof.
  intros Hl. revert p. induction Hl as [|c l Hc Hl IH]; intros p.
  { cbn. rewrite app_nil_r. by destruct p. }
  csimpl. cbn [parse_all allowed_pair fst snd]. rewrite Parse_peer by done.
  unfold peerParse. rewrite curPeer_base. cbn [mbind result_bind String.eqb Ascii.eqb Bool.eqb].
  rewrite parseCIDR_text by done. rewrite set_curPeer_base. cbn [mbind result_bind].
  rewrite IH. cbn. by rewrite <- app_assoc.
Qed.

Lemma set_hsSec_base d ps hs hn n : set_hsSec (base_state d ps hs hn) n = base_state d ps n hn.
Proof. done. Qed.

Lemma set_hsNano_base d ps hs hn n : set_hsNano (base_state d ps hs hn) n = base_state d ps hs n.
Proof. done. Qed.

(** One line of a peer, executed. *)
Ltac peer_line :=
  rewrite Parse_peer by done; unfold peerParse; rewrite curPeer_base;
  cbn [mbind result_bind String.eqb Ascii.eqb Bool.eqb];
  rewrite ?parseKey_hex, ?parseInt_format, ?parseInt64_format by done;
  cbn [mbind result_bind];
  rewrite ?set_hsSec_base, ?set_hsNano_base, ?set_curPeer_base; cbn [mbind result_bind].

Lemma parse_handshake d ps p hs hn n :
  int64_range n ->
  Parse (base_state d (ps ++ [p]) hs hn) "last_handshake_time_nsec" (format_int n)
    = Ok (base_state d (ps ++ [if (0 <? hs)%Z && (0 <? n)%Z
                               then with_Handshake p (TimeUnix hs n) else p]) hs n).
Proof.
  intros Hn. peer_line. change (dp_hsSec (base_state d (ps ++ [p]) hs n)) with hs.
  change (dp_hsNano (base_state d (ps ++ [p]) hs n)) with n.
  by case_match.
Qed.

Lemma parse_endpoint d ps p hs hn b v :
  parse_all (unless b ("endpoint", v)) (base_state d (ps ++ [p]) hs hn)
    = Ok (base_state d (ps ++ [p]) hs hn).
Proof. destruct b; [done|]. cbn [unless parse_all fst snd]. by peer_line. Qed.

Lemma parse_peer d ps hs hn u :
  uapi_peer_ok u ->
  parse_all (peer_pairs u) (base_state d ps hs hn)
    = Ok (base_state d (ps ++ [peer_at handshake_read u]) (u_handshake_sec u) (u_handshake_nsec u)).
Proof.
  intros (Hn & _ & Ha). rewrite !Forall_cons in Hn. destruct Hn as (?&?&?&?&?&?&_).
  unfold peer_pairs. rewrite parse_all_app. cbn [parse_all fst snd].
  rewrite Parse_public_key. cbn [mbind result_bind].
  do 2 peer_line. rewrite parse_all_app, parse_endpoint.
  cbn [mbind result_bind]. rewrite parse_all_app. cbn [parse_all fst snd]. peer_line.
  rewrite parse_handshake by done. cbn [mbind result_bind].
  do 3 peer_line. rewrite parse_allowed by done.
  unfold peer_at, handshake_read. by case_match.
Qed.

Lemma parse_peers d ps hs hn l :
  Forall uapi_peer_ok l ->
  exists hs' hn', parse_all (concat (peer_pairs <$> l)) (base_state d ps hs hn)
    = Ok (base_state d (ps ++ (peer_at handshake_read <$> l)) hs' hn').
Proof.
  intros Hl. revert ps hs hn. induction Hl as [|u l Hu Hl IH]; intros ps hs hn.
  { csimpl. rewrite app_nil_r. by eexists _, _. }
  rewrite fmap_cons. cbn [concat]. rewrite parse_all_app, parse_peer by done. cbn [mbind result_bind].
  destruct (IH (ps ++ [peer_at handshake_read u]) (u_handshake_sec u) (u_handshake_nsec u)) as (hs' & hn' & ->).
  rewrite <- app_assoc. by eexists _, _.
Qed.

Lemma parse_errno0 dp : dp_ok dp -> dp_err dp = None -> Parse dp "errno" "0" = Ok dp.
Proof.
  intros Hok H. unfold Parse, parseInt, parse_number. cbn [String.eqb Ascii.eqb Bool.eqb].
  rewrite H. change (Atoi "0") with (Ok 0%Z). cbn [Z.eqb]. unfold parse_field.
  destruct (dp_parsePeers dp) eqn:Hp; [|done].
  destruct (curPeer_ok dp Hok Hp) as [p Hc]. unfold peerParse. by rewrite Hc.
Qed.

(** A number of the device, which is zero before it was read. *)
Lemma parse_device_number b k n d :
  (b = true -> n = 0%Z) -> int64_range n ->
  k = "listen_port" /\ d_ListenPort d = 0%Z \/ k = "fwmark" /\ d_FirewallMark d = 0%Z ->
  parse_all (unless b (k, format_int n)) (base_state d [] 0 0)
    = Ok (base_state (if String.eqb k "listen_port" then set_ListenPort d n
                      else set_FirewallMark d n) [] 0 0).
Proof.
  intros Hb Hn Hk. destruct b.
  - rewrite (Hb eq_refl). destruct d. destruct Hk as [[-> Hd]|[-> Hd]]; cbn in Hd; by subst.
  - destruct Hk as [[-> _]|[-> _]]; cbn [unless parse_all fst snd]; unfold Parse, parse_field;
      cbn [String.eqb Ascii.eqb Bool.eqb dp_parsePeers base_state length Nat.eqb negb];
      by rewrite parseInt_format.
Qed.

(** The lines before the peers. *)
Lemma parse_header k port mark :
  int64_range port -> int64_range mark ->
  parse_all (("private_key", key_hex k)
             :: unless (port =? 0)%Z ("listen_port", format_int port)
             ++ unless (mark =? 0)%Z ("fwmark", format_int mark)) newDeviceParser
    = Ok (base_state (mkDevice EmptyString 0 k zeroKey port mark []) [] 0 0).
Proof.
  intros Hp Hm. cbn [parse_all fst snd].
  assert (Parse newDeviceParser "private_key" (key_hex k)
    = Ok (base_state (mkDevice EmptyString 0 k zeroKey 0 0 []) [] 0 0)) as ->.
  { unfold Parse, parse_field. cbn [String.eqb Ascii.eqb Bool.eqb dp_parsePeers newDeviceParser].
    by rewrite parseKey_hex. }
  cbn [mbind result_bind]. rewrite parse_all_app, parse_device_number; [|by apply Z.eqb_eq|done|by left].
  cbn [mbind result_bind]. rewrite parse_device_number; [done|by apply Z.eqb_eq|done|by right].
Qed.

Lemma config_parse u :
  uapi_ok u -> exists hs hn, parse_all (config_pairs u) newDeviceParser
    = Ok (base_state (mkDevice EmptyString 0 (u_private_key u) zeroKey (u_listen_port u)
                               (u_fwmark u) []) (peer_at handshake_read <$> u_peers u) hs hn).
Proof.
  intros (Hl & Hf & Hp). unfold config_pairs.
  rewrite parse_all_app, parse_header by done. cbn [mbind result_bind].
  by apply (parse_peers _ [] 0 0).
Qed.

Lemma uapi_read b u : uapi_ok u -> parseDevice (uapi_text b u) = Ok (device_at handshake_read u).
Proof.
  intros Hu. unfold uapi_text. rewrite parseDevice_kv by (by apply device_pairs_ok).
  unfold device_pairs. rewrite parse_all_app.
  destruct (config_parse u Hu) as (hs & hn & ->). cbn [mbind result_bind].
  destruct b; cbn [negb unless parse_all fst snd]; [by rewrite parse_errno0|done].
Qed.

Lemma uapi_parse b u :
  uapi_ok u -> Forall handshake_ok (u_peers u) -> parseDevice (uapi_text b u) = Ok (device_of u).
Proof. intros Hu Hh. by rewrite uapi_read, device_of_read. Qed.

(** C12. Reading back what a device writes about itself in the text of the configuration
    protocol, with or without the line for success at its end, where no peer has had its
    last handshake on a whole second: keys, port, mark, counters, keepalive in seconds,
    protocol version, the time of the last handshake (none when both its parts are zero)
    and allowed networks are those of the device, peer by peer and in order, whatever the
    number of peers; the public key is derived from the private one.  Endpoints are not
    read. *)
Theorem parse_uapi_roundtrip (status : bool) (u : uapi_device)
  (Hu : uapi_ok u) (Hh : Forall handshake_ok (u_peers u)) :
  parseDevice (uapi_text status u) = Ok (device_of u).
Proof. by apply uapi_parse. Qed.

(** The comment of [peerParse] says that a peer has had no handshake when both
    parts of its time are zero.  A handshake on a whole second, with zero
    nanoseconds, is not reported either. *)
Theorem whole_second_handshake_lost (u : uapi_device) (i : nat) (p : uapi_peer)
  (Hu : uapi_ok u) (Hp : u_peers u !! i = Some p)
  (Hs : (0 < u_handshake_sec p)%Z) (Hn : u_handshake_nsec p = 0%Z) :
  exists d p', parseDevice (uapi_text true u) = Ok d /\ d_Peers d !! i = Some p' /\
    p_PublicKey p' = u_public_key p /\ p_LastHandshakeTime p' = TimeZero.
Proof.
  exists (device_at handshake_read u), (peer_at handshake_read p). split_and!.
  - by apply uapi_read.
  - cbn. by rewrite list_lookup_fmap, Hp.
  - done.
  - cbn. unfold handshake_read. by rewrite Hn, andb_false_r.
Qed.

(** The device with its first [n] peers. *)
Definition cut (n : nat) (u : uapi_device) : uapi_device :=
  mkUapiDevice (u_private_key u) (u_listen_port u) (u_fwmark u) (take n (u_peers u)).

(** A failure of the device while it writes is only logged: what was written
    before it is taken for the whole configuration.  A device that fails after its
    first [n] peers is returned, without an error, as a device with only those; one
    that fails at once, as a device without keys. *)
Theorem ipc_failure_unreported (u : uapi_device) (n : nat) (e : error) (Hu : uapi_ok u) :
  WireguardDevice (Some (unlines (kv <$> config_pairs (cut n u)), Some e))
    = Ok (device_at handshake_read (cut n u)) /\
  WireguardDevice (Some (EmptyString, Some e))
    = Ok (set_PublicKey zeroDevice (Key_PublicKey zeroKey)).
Proof.
  split; [|done]. assert (uapi_ok (cut n u)) as Hc.
  { destruct Hu as (? & ? & Hp). split_and!; [done..|]. by apply Forall_take. }
  unfold WireguardDevice. rewrite parseDevice_kv by (by apply config_pairs_ok).
  by destruct (config_parse _ Hc) as (hs & hn & ->).
Qed.

End Laws.
End Parser.

(** ** A device with two peers *)

Definition peer1 : uapi_peer :=
  mkUapiPeer (key_of "a") (key_of "b") 1 "192.168.4.1:51820" 1600000000 5 1000 2000 25
    [([10; 12; 16; 7], 24); ([0; 0; 0; 0], 0)]%Z.
Definition peer2 : uapi_peer :=
  mkUapiPeer (key_of "c") (key_of "d") 1 "[fd00::1]:51820" 1600000000 0 (-5) 7 0
    [(253 :: 0 :: 0 :: 1 :: replicate 12 0, 64)]%Z.
Definition peer3 : uapi_peer :=
  mkUapiPeer (key_of "f") (key_of "g") 1 EmptyString 0 0 0 0 0 [].
Definition device1 : uapi_device := mkUapiDevice (key_of "e") 51820 0 [peer1; peer2].

Definition device2 : uapi_device := mkUapiDevice (key_of "e") 51820 0 [peer1; peer3].

Ltac device_ok :=
  unfold uapi_ok, uapi_peer_ok, int64_range, two63; cbn [u_listen_port u_fwmark u_peers];
  split_and!; try lia;
  repeat apply Forall_cons_2; try apply Forall_nil_2; split_and!; cbn;
    try reflexivity; try lia; apply (bool_decide_unpack _); vm_compute; exact I.

Lemma device1_ok : uapi_ok device1.
Proof. unfold device1. device_ok. Qed.

Lemma device2_ok : uapi_ok device2.
Proof. unfold device2. device_ok. Qed.

Lemma device2_handshakes : Forall handshake_ok (u_peers device2).
Proof. apply Forall_cons_2; [by right|]. apply Forall_cons_2; [by left|apply Forall_nil_2]. Qed.

Lemma parse_uapi_roundtrip_witness :
  parseDevice (uapi_text false device2) = Ok (device_of device2).
Proof. exact (parse_uapi_roundtrip false device2 device2_ok device2_handshakes). Defined.

Lemma parseDevice_total_witness : is_panic (parseDevice "preshared_key") = false.
Proof. exact (parseDevice_total (keys := plain_keys) "preshared_key"). Defined.

Lemma first_error_wins_witness :
  parseDevice (keys := plain_keys)
    (unlines (["listen_port=1"; "errno=5"] ++ ["fwmark=x"; "errno=7"; EmptyString; "end"]))
    = Err (errno_error 5) /\
  parseDevice (keys := plain_keys) (unlines (["listen_port=x"] ++ ["foo"]))
    = Err (Errorf "wguser: invalid key=value pair: %q" ["foo"]).
Proof.
  split.
  - refine (first_error_wins [("listen_port", "1"); ("errno", "5")]
      ["fwmark=x"; "errno=7"; EmptyString; "end"] _ (errno_error 5) _ _ _ _);
      [reflexivity|repeat constructor|reflexivity..].
  - refine (first_error_wins [("listen_port", "x")] ["foo"] _ _ _ _ _ _);
      [reflexivity|repeat constructor|reflexivity..].
Defined.

Lemma whole_second_handshake_lost_witness :
  exists d p', parseDevice (uapi_text true device1) = Ok d /\ d_Peers d !! 1%nat = Some p' /\
    p_PublicKey p' = u_public_key peer2 /\ p_LastHandshakeTime p' = TimeZero.
Proof.
  apply (whole_second_handshake_lost device1 1 peer2); [exact device1_ok|reflexivity..].
Defined.

Lemma ipc_failure_unreported_witness :
  WireguardDevice (Some (unlines (kv <$> config_pairs (cut 1 device1)), Some Canceled))
    = Ok (device_at handshake_read (cut 1 device1)) /\
  WireguardDevice (Some (EmptyString, Some Canceled))
    = Ok (set_PublicKey zeroDevice (Key_PublicKey zeroKey)).
Proof. exact (ipc_failure_unreported device1 1 Canceled device1_ok). Defined.
