(* ===== verification/WireguardConfig.v ===== *)
(** * vpn/wireguard_config.go and vpn/wireguard_config_data.go

    The client's configuration file: [wireguardConfigData] prints what the service
    returned as a WireGuard configuration, and [newWireguardConfigFromTarget] reads
    such a file line by line into the configuration of the device, of the routes
    and of the name servers. *)

From S2P Require Import Prelude GoStrings GoEncoding GoNet GoNetText WGTypes.

(** ** The two regular expressions *)

(** [configSectionPattern]: anything in square brackets, anywhere in the line; the
    repetition is greedy, so the group is what is between the first opening bracket
    and the last closing bracket after it. *)
Definition match_section (line : string) : option string :=
  i ← Index "[" line;
  let rest := s_drop (S i) line in
  j ← LastIndex "]" rest;
  Some (s_take j rest).

Definition is_space (c : ascii) : bool :=
  bool_decide (nat_of_ascii c ∈ [9; 10; 12; 13; 32]%nat).

Definition is_key_char (c : ascii) : bool :=
  is_lower c || is_upper c || is_digit c || bool_decide (c = "-"%char \/ c = "_"%char).

Fixpoint span (p : ascii -> bool) (s : string) : string * string :=
  match s with
  | EmptyString => (EmptyString, EmptyString)
  | String c s' => if p c then let (a, b) := span p s' in (String c a, b) else (EmptyString, s)
  end.

(** [configAttribPattern]: a key from the start of the line, spaces, an equals sign,
    spaces, and the value up to the end of the line.  The classes of the key and of
    the spaces are disjoint, so no repetition ever gives a byte back. *)
Definition match_attrib (line : string) : option (string * string) :=
  let (key, s) := span is_key_char line in
  match (span is_space s).2 with
  | String c s => if decide (c = "="%char) then Some (key, (span is_space s).2) else None
  | EmptyString => None
  end.

Section Config.
Context `{keys : WGKeys}.

(** [net.ResolveUDPAddr("udp", value)] looks names up in the network. *)
Variable ResolveUDPAddr : string -> result UDPAddr.

(** ** Data *)

(** The fields of [wgtypes.PeerConfig] and [wgtypes.Config] that the code sets. *)
Record PeerConfig := mkPeerConfig {
  pc_PublicKey : Key;
  pc_Endpoint : option UDPAddr;
  pc_PersistentKeepaliveInterval : option Z;
  pc_AllowedIPs : list IPNet;
}.

Record wireguardConfig := mkWireguardConfig {
  configFileName : string;
  configData : string;
  tunAddress : string;
  tunDNS : string;
  peerAddresses : list string;
  isDefaultRoute : bool;
  config_PrivateKey : option Key;
  config_Peers : list PeerConfig;
}.

(** The local variables of the loop. *)
Record reader := mkReader {
  r_c : wireguardConfig;
  r_isInterface : bool;
  r_isPeer : bool;
  r_peerConfig : PeerConfig;
}.

Definition zeroPeerConfig : PeerConfig := mkPeerConfig zeroKey None None [].

Definition newConfig (name data : string) : wireguardConfig :=
  mkWireguardConfig (name +:+ ".conf") data EmptyString EmptyString [] false None [].

Definition set_c (r : reader) (c : wireguardConfig) : reader :=
  mkReader c (r_isInterface r) (r_isPeer r) (r_peerConfig r).
Definition set_peerConfig (r : reader) (p : PeerConfig) : reader :=
  mkReader (r_c r) (r_isInterface r) (r_isPeer r) p.

Definition set_PrivateKey (c : wireguardConfig) (k : Key) : wireguardConfig :=
  mkWireguardConfig (configFileName c) (configData c) (tunAddress c) (tunDNS c)
    (peerAddresses c) (isDefaultRoute c) (Some k) (config_Peers c).
Definition set_tunAddress (c : wireguardConfig) (a : string) : wireguardConfig :=
  mkWireguardConfig (configFileName c) (configData c) a (tunDNS c)
    (peerAddresses c) (isDefaultRoute c) (config_PrivateKey c) (config_Peers c).
Definition set_tunDNS (c : wireguardConfig) (a : string) : wireguardConfig :=
  mkWireguardConfig (configFileName c) (configData c) (tunAddress c) a
    (peerAddresses c) (isDefaultRoute c) (config_PrivateKey c) (config_Peers c).
Definition set_isDefaultRoute (c : wireguardConfig) : wireguardConfig :=
  mkWireguardConfig (configFileName c) (configData c) (tunAddress c) (tunDNS c)
    (peerAddresses c) true (config_PrivateKey c) (config_Peers c).
Definition add_peerAddress (c : wireguardConfig) (a : string) : wireguardConfig :=
  mkWireguardConfig (configFileName c) (configData c) (tunAddress c) (tunDNS c)
    (peerAddresses c ++ [a]) (isDefaultRoute c) (config_PrivateKey c) (config_Peers c).
Definition add_Peer (c : wireguardConfig) (p : PeerConfig) : wireguardConfig :=
  mkWireguardConfig (configFileName c) (configData c) (tunAddress c) (tunDNS c)
    (peerAddresses c) (isDefaultRoute c) (config_PrivateKey c) (config_Peers c ++ [p]).

(** ** Reading *)

(** A section line: the peer read so far is complete. *)
Definition end_peer (r : reader) : reader :=
  if r_isPeer r then
    mkReader (add_Peer (r_c r) (r_peerConfig r)) (r_isInterface r) (r_isPeer r) zeroPeerConfig
  else r.

Definition read_section (r : reader) (name : string) : reader :=
  let r := end_peer r in
  mkReader (r_c r) (String.eqb name "Interface") (String.eqb name "Peer") (r_peerConfig r).

Definition unsupported (topic key : string) : error :=
  Errorf ("wireguard client config key '%s' within the '" +:+ topic +:+
          "' topic is not supported") [key].

Definition read_interface (r : reader) (key value : string) : result reader :=
  if String.eqb key "PrivateKey" then
    k ← ParseKey value; Ok (set_c r (set_PrivateKey (r_c r) k))
  else if String.eqb key "Address" then Ok (set_c r (set_tunAddress (r_c r) value))
  else if String.eqb key "DNS" then Ok (set_c r (set_tunDNS (r_c r) value))
  else Err (unsupported "Interface" key).

Definition default_route : string := "0.0.0.0/0".

Fixpoint read_allowed (r : reader) (ips : list string) : result reader :=
  match ips with
  | [] => Ok r
  | ip :: ips =>
      let c := if negb (isDefaultRoute (r_c r)) && String.eqb ip default_route
               then set_isDefaultRoute (r_c r) else r_c r in
      n ← ParseCIDR ip;
      let p := r_peerConfig r in
      read_allowed
        (mkReader c (r_isInterface r) (r_isPeer r)
           (mkPeerConfig (pc_PublicKey p) (pc_Endpoint p) (pc_PersistentKeepaliveInterval p)
              (pc_AllowedIPs p ++ [n.2]))) ips
  end.

Definition read_peer (r : reader) (key value : string) : result reader :=
  let p := r_peerConfig r in
  if String.eqb key "PublicKey" then
    k ← ParseKey value;
    Ok (set_peerConfig r (mkPeerConfig k (pc_Endpoint p) (pc_PersistentKeepaliveInterval p)
                            (pc_AllowedIPs p)))
  else if String.eqb key "AllowedIPs" then read_allowed r (Split "," value)
  else if String.eqb key "Endpoint" then
    a ← ResolveUDPAddr value;
    Ok (mkReader (add_peerAddress (r_c r) (IP_String (udp_IP a))) (r_isInterface r) (r_isPeer r)
          (mkPeerConfig (pc_PublicKey p) (Some a) (pc_PersistentKeepaliveInterval p)
             (pc_AllowedIPs p)))
  else if String.eqb key "PersistentKeepalive" then
    v ← ParseInt value;
    Ok (set_peerConfig r (mkPeerConfig (pc_PublicKey p) (pc_Endpoint p) (Some v)
                            (pc_AllowedIPs p)))
  else Err (unsupported "Peer" key).

(** One line.  The variables [key] and [value] of the source are empty at the start
    of every line, because they are emptied whenever a key was read. *)
Definition read_line (r : reader) (line : string) : result reader :=
  match match_section line with
  | Some name => Ok (read_section r name)
  | None =>
      let (key, value) := default (EmptyString, EmptyString) (match_attrib line) in
      if decide (key = EmptyString) then Ok r
      else if r_isInterface r then read_interface r key value
      else if r_isPeer r then read_peer r key value
      else Ok r
  end.

Fixpoint read_lines (ls : list string) (r : reader) : result reader :=
  match ls with
  | [] => Ok r
  | l :: ls => r ← read_line r l; read_lines ls r
  end.

(** [newWireguardConfigFromTarget], for the name and the data of its argument; the
    scanner's error is not looked at. *)
Definition newWireguardConfigFromTarget (name data : string) : result wireguardConfig :=
  r ← read_lines (scan_lines data).1 (mkReader (newConfig name data) false false zeroPeerConfig);
  Ok (if r_isPeer r then add_Peer (r_c r) (r_peerConfig r) else r_c r).

Definition Config (c : wireguardConfig) : string := configData c.

(** A configuration, with the keepalive intervals of its peers left out. *)
Definition forget_keepalive (p : PeerConfig) : PeerConfig :=
  mkPeerConfig (pc_PublicKey p) (pc_Endpoint p) None (pc_AllowedIPs p).
Definition without_keepalive (c : wireguardConfig) : wireguardConfig :=
  mkWireguardConfig (configFileName c) (configData c) (tunAddress c) (tunDNS c)
    (peerAddresses c) (isDefaultRoute c) (config_PrivateKey c)
    (forget_keepalive <$> config_Peers c).

(** ** The printed configuration *)

Record wireguardConfigData := mkWireguardConfigData {
  name : string;
  privateKey : string;
  Address : string;
  DNS : string;
  PeerEndpoint : string;
  PeerPublicKey : string;
  AllowedSubnets : list string;
  KeepAlivePing : Z;
}.

Definition Data (c : wireguardConfigData) : string :=
  "[Interface]" +:+ NL +:+
  "PrivateKey = " +:+ privateKey c +:+ NL +:+
  "Address = " +:+ Address c +:+ "/32" +:+ NL +:+
  (if decide (DNS c = EmptyString) then EmptyString else "DNS = " +:+ DNS c +:+ NL) +:+
  NL +:+ "[Peer]" +:+ NL +:+
  "PublicKey = " +:+ PeerPublicKey c +:+ NL +:+
  "Endpoint = " +:+ PeerEndpoint c +:+ NL +:+
  "PersistentKeepalive = " +:+ format_int (KeepAlivePing c) +:+ NL +:+
  (if decide (AllowedSubnets c = []) then EmptyString
   else "AllowedIPs = " +:+ Join "," (AllowedSubnets c) +:+ NL).


(** ** Lines of the printed form *)

Definition attr (k v : string) : string := k +:+ " = " +:+ v.

Definition head_ok (v : string) : bool :=
  match v with String c _ => negb (is_space c) | EmptyString => true end.

(** A value that is read back as it was written: on one line, without an opening
    bracket and without a space at its start. *)
Definition value_ok (v : string) : bool :=
  s_free "[" v && s_free nl v && s_free cr v && head_ok v &&
  (Z.of_nat (String.length v) <? 65000)%Z.

Definition key_ok (k : string) : bool :=
  s_forall is_key_char k && (String.length k <? 100)%nat && negb (String.eqb k EmptyString).

Lemma span_app p k c s :
  s_forall p k = true -> p c = false -> span p (k +:+ String c s) = (k, String c s).
Proof.
  intros Hk Hc. induction k as [|d k IH]; cbn; [by rewrite Hc|].
  cbn in Hk. apply andb_true_iff in Hk as [-> Hk]. by rewrite IH.
Qed.

Lemma span_head v : head_ok v = true -> (span is_space v).2 = v.
Proof. destruct v as [|c v]; [done|]. cbn [head_ok span]. by destruct (is_space c). Qed.

Lemma span_space s : (span is_space (String " " s)).2 = (span is_space s).2.
Proof. cbn. by destruct (span is_space s). Qed.

Lemma match_attrib_attr k v :
  key_ok k = true -> head_ok v = true -> match_attrib (attr k v) = Some (k, v).
Proof.
  unfold key_ok. rewrite !andb_true_iff. intros [[Hk _] _] Hv. unfold match_attrib, attr.
  change (k +:+ " = " +:+ v) with (k +:+ String " " (String "=" (String " " v))).
  rewrite span_app by done. rewrite span_space.
  change (span is_space (String "=" (String " " v))) with (EmptyString, String "=" (String " " v)).
  cbn [snd]. by rewrite decide_True, span_space, span_head.
Qed.

Lemma key_ok_free c k : key_ok k = true -> is_key_char c = false -> s_free c k = true.
Proof.
  unfold key_ok. rewrite !andb_true_iff. intros [[Hk _] _] Hc.
  eapply s_forall_impl; [|exact Hk]. intros d Hd. apply bool_decide_eq_true. congruence.
Qed.

Lemma attr_free c k v :
  key_ok k = true -> is_key_char c = false -> s_free c " = " = true ->
  s_free c v = true -> s_free c (attr k v) = true.
Proof.
  intros Hk Hc He Hv. unfold attr. by rewrite !s_free_app, (key_ok_free c k), He, Hv.
Qed.

Lemma attr_line k v : key_ok k = true -> value_ok v = true -> line_ok (attr k v) = true.
Proof.
  intros Hk Hv. unfold value_ok in Hv. rewrite !andb_true_iff in Hv.
  destruct Hv as [[[[_ Hn] Hc] _] Hl]. unfold line_ok. rewrite !attr_free by done.
  unfold key_ok in Hk. rewrite !andb_true_iff, Nat.ltb_lt in Hk.
  unfold attr. rewrite !s_length_app. cbn [String.length].
  apply Z.ltb_lt in Hl. apply Z.ltb_lt. unfold MaxScanTokenSize. lia.
Qed.

(** An attribute line goes to the section it is in. *)
Lemma read_attr r k v :
  key_ok k = true -> value_ok v = true ->
  read_line r (attr k v) =
    if r_isInterface r then read_interface r k v
    else if r_isPeer r then read_peer r k v else Ok r.
Proof.
  intros Hk Hv. unfold value_ok in Hv. rewrite !andb_true_iff in Hv.
  destruct Hv as [[[[Hb _] _] Hh] _]. unfold read_line, match_section.
  rewrite Index_free by (by apply attr_free). cbn [mbind option_bind].
  rewrite match_attrib_attr by done. cbn [default from_option id].
  rewrite decide_False; [done|]. intros ->. done.
Qed.

Definition config_lines (c : wireguardConfigData) : list string :=
  ["[Interface]"; attr "PrivateKey" (privateKey c); attr "Address" (Address c +:+ "/32")]
  ++ (if decide (DNS c = EmptyString) then [] else [attr "DNS" (DNS c)])
  ++ [EmptyString; "[Peer]"; attr "PublicKey" (PeerPublicKey c);
      attr "Endpoint" (PeerEndpoint c);
      attr "PersistentKeepalive" (format_int (KeepAlivePing c))]
  ++ (if decide (AllowedSubnets c = []) then []
      else [attr "AllowedIPs" (Join "," (AllowedSubnets c))]).

Lemma attr_nl k v s : attr k v +:+ String nl s = k +:+ " = " +:+ v +:+ NL +:+ s.
Proof. unfold attr. by rewrite !s_app_assoc. Qed.

Lemma Data_lines c : Data c = unlines (config_lines c).
Proof.
  unfold config_lines, Data.
  destruct (decide (DNS c = EmptyString)), (decide (AllowedSubnets c = []));
    cbn [app unlines]; rewrite !attr_nl, ?s_app_assoc; done.
Qed.

(** ** Reading the printed form back *)

(** Data whose keys are keys and whose subnets are networks; the endpoint
    is not constrained. *)
Record data_ok (d : wireguardConfigData) (k pk : Key) (nets : list (IP * Z)) : Prop := {
  ok_privateKey : privateKey d = Key_String k;
  ok_publicKey : PeerPublicKey d = Key_String pk;
  ok_address : value_ok (Address d +:+ "/32") = true;
  ok_dns : value_ok (DNS d) = true;
  ok_keepalive : int64_range (KeepAlivePing d);
  ok_subnets : AllowedSubnets d = cidr_text <$> nets;
  ok_nets : Forall cidr_ok nets;
  ok_length : value_ok (Join "," (AllowedSubnets d)) = true;
}.

Definition read_config (d : wireguardConfigData) (k : Key) (addresses : list string)
    (route : bool) (p : PeerConfig) : wireguardConfig :=
  mkWireguardConfig (name d +:+ ".conf") (Data d) (Address d +:+ "/32") (DNS d)
    addresses route (Some k) [p].

Lemma read_lines_app l1 l2 r :
  read_lines (l1 ++ l2) r = (r ← read_lines l1 r; read_lines l2 r).
Proof.
  revert r. induction l1 as [|l l1 IH]; intros r; [done|]. cbn [app read_lines].
  destruct (read_line r l); cbn [mbind result_bind]; [apply IH|done|done].
Qed.

Lemma read_allowed_nets r nets :
  Forall cidr_ok nets ->
  read_allowed r (cidr_text <$> nets) =
    Ok (mkReader
          (if existsb (String.eqb default_route) (cidr_text <$> nets)
           then set_isDefaultRoute (r_c r) else r_c r)
          (r_isInterface r) (r_isPeer r)
          (mkPeerConfig (pc_PublicKey (r_peerConfig r)) (pc_Endpoint (r_peerConfig r))
             (pc_PersistentKeepaliveInterval (r_peerConfig r))
             (pc_AllowedIPs (r_peerConfig r) ++ (net_of <$> nets)))).
Proof.
  intros Hn. revert r. induction Hn as [|c nets Hc Hn IH]; intros r.
  { destruct r as [? ? ? []]. cbn. by rewrite app_nil_r. }
  rewrite !fmap_cons. cbn [read_allowed existsb]. rewrite ParseCIDR_text by done.
  cbn [mbind result_bind]. rewrite IH. cbn [r_c r_isInterface r_isPeer r_peerConfig
    pc_PublicKey pc_Endpoint pc_PersistentKeepaliveInterval pc_AllowedIPs snd].
  rewrite <- app_assoc. cbn [app]. f_equal. f_equal.
  rewrite (String.eqb_sym default_route (cidr_text c)).
  destruct (String.eqb (cidr_text c) default_route), (existsb _ _), r as [[? ? ? ? ? [] ? ?] ? ? ?];
    done.
Qed.

Lemma space_not_b64 c : is_space c = true -> b64_val c = None /\ c <> "="%char.
Proof. by destruct c as [[] [] [] [] [] [] [] []]. Qed.

Section Laws.
Context {laws : WGKeysLaws keys}.

Lemma key_value_ok k : value_ok (Key_String k) = true.
Proof.
  rewrite Key_String_base64. unfold value_ok. rewrite !b64_encode_free by done.
  pose proof (b64_encode_length (Key_bytes k)) as Hl. rewrite Key_bytes_length in Hl.
  cbn [andb]. apply andb_true_iff. split; [|apply Z.ltb_lt; lia].
  destruct (b64_EncodeToString (Key_bytes k)) as [|c t] eqn:E; [done|].
  cbn [head_ok]. destruct (is_space c) eqn:Hc; [|done].
  destruct (space_not_b64 c Hc) as [Hv Hp].
  pose proof (b64_encode_free c (Key_bytes k) Hv Hp) as Hf. rewrite E in Hf.
  apply s_free_cons in Hf as [? _]. done.
Qed.

(** An attribute line, executed. *)
Ltac attr_step :=
  cbn [read_lines]; rewrite read_attr by (done || apply key_value_ok);
  cbn [r_isInterface r_isPeer set_c set_peerConfig r_c r_peerConfig];
  unfold read_interface, read_peer;
  cbn [String.eqb Ascii.eqb Bool.eqb]; rewrite ?ParseKey_String; cbn [mbind result_bind].

Definition head_lines (d : wireguardConfigData) : list string :=
  ["[Interface]"; attr "PrivateKey" (privateKey d); attr "Address" (Address d +:+ "/32")]
  ++ (if decide (DNS d = EmptyString) then [] else [attr "DNS" (DNS d)])
  ++ [EmptyString; "[Peer]"; attr "PublicKey" (PeerPublicKey d)].

Definition tail_lines (d : wireguardConfigData) : list string :=
  attr "PersistentKeepalive" (format_int (KeepAlivePing d)) ::
  (if decide (AllowedSubnets d = []) then []
   else [attr "AllowedIPs" (Join "," (AllowedSubnets d))]).

Lemma config_lines_split d :
  config_lines d = head_lines d ++ attr "Endpoint" (PeerEndpoint d) :: tail_lines d.
Proof. unfold config_lines, head_lines, tail_lines. by rewrite <- !app_assoc. Qed.

Lemma format_int_value_head n : head_ok (format_int n) = true.
Proof.
  assert (forall m, (0 <= m)%Z -> head_ok (format_uint m) = true) as H.
  { intros m Hm. pose proof (format_uint_digits m Hm) as Hd.
    destruct (format_uint m) as [|c t]; [done|]. cbn [s_forall] in Hd.
    apply andb_true_iff in Hd as [Hd _]. cbn [head_ok]. clear -Hd.
    by destruct c as [[] [] [] [] [] [] [] []]. }
  unfold format_int. destruct (Z.ltb_spec n 0); [done|by apply H].
Qed.

Lemma int_value_ok n : int64_range n -> value_ok (format_int n) = true.
Proof.
  intros Hn. unfold value_ok. rewrite !format_int_free, format_int_value_head by done.
  pose proof (format_int_length n Hn). cbn [andb]. apply Z.ltb_lt. lia.
Qed.

Lemma Split_subnets d k pk nets :
  data_ok d k pk nets -> AllowedSubnets d <> [] ->
  Split "," (Join "," (AllowedSubnets d)) = AllowedSubnets d.
Proof.
  intros Hd Hne. change (Join "," (AllowedSubnets d))
    with (Join (String "," EmptyString) (AllowedSubnets d)).
  apply Split_Join; [done|]. rewrite (ok_subnets _ _ _ _ Hd).
  apply Forall_fmap. eapply Forall_impl; [exact (ok_nets _ _ _ _ Hd)|]. intros c Hc.
  by apply cidr_text_free.
Qed.

Lemma read_blank r : read_line r EmptyString = Ok r.
Proof. done. Qed.

Lemma read_section_peer r : read_line r "[Peer]" = Ok (read_section r "Peer").
Proof. done. Qed.

(** The lines before the endpoint, whatever comes after. *)
Lemma read_head d k pk nets c :
  data_ok d k pk nets -> config_Peers c = [] -> tunDNS c = EmptyString ->
  read_lines (head_lines d) (mkReader c false false zeroPeerConfig) =
    Ok (mkReader (mkWireguardConfig (configFileName c) (configData c) (Address d +:+ "/32") (DNS d)
                    (peerAddresses c) (isDefaultRoute c) (Some k) [])
          false true (mkPeerConfig pk None None [])).
Proof.
  intros [Hk Hpk Ha Hd _ _ _ _] Hp Hdns. unfold head_lines. rewrite Hk, Hpk.
  cbn [app read_lines].
  change (read_line (mkReader c false false zeroPeerConfig) "[Interface]")
    with (Ok (mkReader c true false zeroPeerConfig) : result reader).
  cbn [mbind result_bind]. do 2 attr_step.
  destruct (decide (DNS d = EmptyString)) as [He|He]; cbn [app]; [|attr_step];
    cbn [read_lines]; rewrite read_blank; cbn [mbind result_bind];
    rewrite read_section_peer; cbn [mbind result_bind read_section end_peer r_isPeer];
    attr_step; unfold set_tunDNS, set_tunAddress, set_PrivateKey;
    cbn; rewrite Hp, ?Hdns; first [done | by rewrite He].
Qed.

Lemma config_lines_ok d k pk nets :
  data_ok d k pk nets -> line_ok (attr "Endpoint" (PeerEndpoint d)) = true ->
  scan_lines (Data d) = (config_lines d, None).
Proof.
  intros Hd He. rewrite Data_lines. apply scan_unlines.
  destruct Hd as [Hk Hpk Ha Hd Hi _ _ Hl]. unfold config_lines. rewrite Hk, Hpk.
  repeat (apply Forall_app; split); repeat apply Forall_cons_2; try apply Forall_nil_2; try done;
    try (by apply attr_line; [|apply key_value_ok || apply int_value_ok]);
    try (by apply attr_line).
  - case_decide; [done|]. apply Forall_cons_2; [by apply attr_line|done].
  - case_decide; [done|]. apply Forall_cons_2; [by apply attr_line|done].
Qed.

Lemma config_roundtrip d k pk nets ep :
  data_ok d k pk nets -> value_ok (PeerEndpoint d) = true ->
  ResolveUDPAddr (PeerEndpoint d) = Ok ep ->
  newWireguardConfigFromTarget (name d) (Data d)
    = Ok (read_config d k [IP_String (udp_IP ep)]
            (existsb (String.eqb default_route) (AllowedSubnets d))
            (mkPeerConfig pk (Some ep) (Some (KeepAlivePing d)) (net_of <$> nets))).
Proof.
  intros Hd Hv He.
  unfold newWireguardConfigFromTarget. rewrite (config_lines_ok d k pk nets) by (done || by apply attr_line).
  cbn [fst]. rewrite config_lines_split, read_lines_app.
  rewrite (read_head d k pk nets) by done. cbn [mbind result_bind].
  attr_step. rewrite He. cbn [mbind result_bind]. unfold tail_lines.
  pose proof (ok_keepalive _ _ _ _ Hd) as Hi.
  cbn [read_lines]. rewrite read_attr by (done || by apply int_value_ok).
  cbn [r_isInterface r_isPeer]. unfold read_peer. cbn [String.eqb Ascii.eqb Bool.eqb].
  unfold ParseInt. rewrite parse_format_int by done. cbn [mbind result_bind].
  destruct (decide (AllowedSubnets d = [])) as [Hs|Hs].
  - rewrite Hs. rewrite (ok_subnets _ _ _ _ Hd) in Hs. apply fmap_nil_inv in Hs as ->. done.
  - cbn [read_lines]. rewrite read_attr by (done || apply (ok_length _ _ _ _ Hd)).
    cbn [r_isInterface r_isPeer set_peerConfig]. unfold read_peer.
    cbn [String.eqb Ascii.eqb Bool.eqb].
    rewrite (Split_subnets d k pk nets) by done.
    rewrite (ok_subnets _ _ _ _ Hd), read_allowed_nets by apply (ok_nets _ _ _ _ Hd).
    cbn [mbind result_bind]. by destruct (existsb _ _).
Qed.

(** C13. What [Data] prints is read back, but for the keepalive interval.  Let the keys
    of a configuration be printed keys, its allowed networks printed IPv4 or IPv6
    networks, its address, name server and endpoint texts on one line without an
    opening bracket and without a space in front, each line shorter than the scanner's
    limit, and let the endpoint resolve.  Then reading the printed text gives the
    private key, the address, the name server, the peer's public key and endpoint, the
    endpoint's address for the route around the tunnel, every allowed network in order,
    and the default route flag exactly when ["0.0.0.0/0"] is among them. *)
Theorem wireguard_config_roundtrip (d : wireguardConfigData) (k pk : Key)
  (nets : list (IP * Z)) (ep : UDPAddr)
  (Hd : data_ok d k pk nets)
  (Hv : value_ok (PeerEndpoint d) = true)
  (He : ResolveUDPAddr (PeerEndpoint d) = Ok ep) :
  without_keepalive <$> newWireguardConfigFromTarget (name d) (Data d)
    = Ok (read_config d k [IP_String (udp_IP ep)]
            (existsb (String.eqb default_route) (AllowedSubnets d))
            (mkPeerConfig pk (Some ep) None (net_of <$> nets))).
Proof. by rewrite (config_roundtrip d k pk nets ep). Qed.

(** The keepalive interval of the service is in seconds, as in a WireGuard file
    and as [wireguard_device.go] reads it; the number is used as a duration, which
    counts nanoseconds, so any interval below thirty years is configured as less than
    a second. *)
Theorem keepalive_below_second (d : wireguardConfigData) (k pk : Key)
  (nets : list (IP * Z)) (ep : UDPAddr)
  (Hd : data_ok d k pk nets)
  (Hv : value_ok (PeerEndpoint d) = true)
  (He : ResolveUDPAddr (PeerEndpoint d) = Ok ep)
  (Hk : (0 < KeepAlivePing d < Second)%Z) :
  exists c p ns, newWireguardConfigFromTarget (name d) (Data d) = Ok c /\
    config_Peers c = [p] /\ pc_PersistentKeepaliveInterval p = Some ns /\
    (0 < ns < Second)%Z /\ ns <> (KeepAlivePing d * Second)%Z.
Proof.
  eexists _, _, _. split; [by apply config_roundtrip|]. split; [done|]. split; [done|].
  unfold Second in *. lia.
Qed.

(** The pattern of a section header is not anchored. *)
Lemma match_section_brackets pre h rest :
  s_free "[" pre = true -> s_free "]" rest = true ->
  match_section (pre +:+ String "[" (h +:+ String "]" rest)) = Some h.
Proof.
  intros Hp Hr. unfold match_section. rewrite Index_app by done. cbn [mbind option_bind].
  rewrite s_drop_app, LastIndex_app by done. cbn [mbind option_bind]. by rewrite s_take_app.
Qed.

Lemma read_outside ls r :
  r_isInterface r = false -> r_isPeer r = false ->
  Forall (fun l => match_section l = None) ls -> read_lines ls r = Ok r.
Proof.
  intros Hi Hp. induction 1 as [|l ls Hl _ IH]; [done|]. cbn [read_lines]. unfold read_line.
  rewrite Hl, Hi, Hp. destruct (default _ _) as [k v]. by case_decide.
Qed.

Lemma match_section_attr k v :
  key_ok k = true -> value_ok v = true -> match_section (attr k v) = None.
Proof.
  intros Hk Hv. unfold value_ok in Hv. rewrite !andb_true_iff in Hv.
  destruct Hv as [[[[Hb _] _] _] _]. unfold match_section.
  by rewrite Index_free by (by apply attr_free).
Qed.

(** An endpoint with a bracketed host, the way IPv6 endpoints are written, is
    taken for a section header: the peer is closed there, without endpoint, keepalive
    or allowed networks, no route is set up, and no error is reported. *)
Theorem bracketed_endpoint_ends_peer (d : wireguardConfigData) (k pk : Key)
  (nets : list (IP * Z)) (host port : string)
  (Hd : data_ok d k pk nets)
  (He : PeerEndpoint d = "[" +:+ host +:+ "]" +:+ port)
  (Hh : host <> "Interface" /\ host <> "Peer")
  (Hp : s_free "]" port = true)
  (Hl : line_ok (attr "Endpoint" (PeerEndpoint d)) = true) :
  newWireguardConfigFromTarget (name d) (Data d)
    = Ok (read_config d k [] false (mkPeerConfig pk None None [])).
Proof.
  unfold newWireguardConfigFromTarget. rewrite (config_lines_ok d k pk nets) by done.
  cbn [fst]. rewrite config_lines_split, read_lines_app.
  rewrite (read_head d k pk nets) by done. cbn [mbind result_bind read_lines].
  rewrite He. unfold read_line at 1, attr at 1.
  change ("Endpoint" +:+ " = " +:+ "[" +:+ host +:+ "]" +:+ port)
    with ("Endpoint = " +:+ String "[" (host +:+ String "]" port)).
  rewrite match_section_brackets by done. cbn [mbind result_bind]. unfold read_section.
  rewrite !(proj2 (String.eqb_neq _ _)) by apply Hh.
  rewrite read_outside; [done|done|done|]. destruct Hd as [_ _ _ _ Hi _ _ Hv].
  unfold tail_lines. apply Forall_cons_2; [by apply match_section_attr; [|apply int_value_ok]|].
  case_decide; [done|]. apply Forall_cons_2; [by apply match_section_attr|done].
Qed.

End Laws.

(** ** What every configuration read satisfies *)

Definition peer_sections (ls : list string) : nat :=
  length (filter (fun l => match_section l = Some "Peer") ls).

(** The peers read so far, with the one being read. *)
Definition reader_peers (r : reader) : list PeerConfig :=
  config_Peers (r_c r) ++ (if r_isPeer r then [r_peerConfig r] else []).

Definition net0 : IPNet := mkIPNet [0; 0; 0; 0]%Z [0; 0; 0; 0]%Z.

Definition reader_inv (ls : list string) (r : reader) : Prop :=
  length (reader_peers r) = peer_sections ls /\
  (isDefaultRoute (r_c r) = true -> exists p, p ∈ reader_peers r /\ net0 ∈ pc_AllowedIPs p).

Lemma reader_peers_section r n :
  length (reader_peers (read_section r n))
    = (length (reader_peers r) + if String.eqb n "Peer" then 1 else 0)%nat.
Proof.
  unfold reader_peers, read_section, end_peer. destruct (r_isPeer r); cbn;
    destruct (String.eqb n "Peer"); rewrite ?length_app; cbn; lia.
Qed.

Lemma reader_peers_keep r n p : p ∈ reader_peers r -> p ∈ reader_peers (read_section r n).
Proof.
  unfold reader_peers, read_section, end_peer. destruct (r_isPeer r); cbn; rewrite !elem_of_app;
    [tauto|intros [?|H%elem_of_nil]; tauto].
Qed.

(** An attribute changes the current peer only by adding to its networks, and sets
    the default route only together with a network for it. *)
Definition attr_keeps (r r' : reader) : Prop :=
  config_Peers (r_c r') = config_Peers (r_c r) /\ r_isPeer r' = r_isPeer r /\
  pc_AllowedIPs (r_peerConfig r) ⊆ pc_AllowedIPs (r_peerConfig r') /\
  (isDefaultRoute (r_c r') = true -> isDefaultRoute (r_c r) = true \/
     (r_isPeer r = true /\ net0 ∈ pc_AllowedIPs (r_peerConfig r'))).

Lemma ParseCIDR_default : ParseCIDR default_route = Ok ([0; 0; 0; 0]%Z, net0).
Proof. done. Qed.

Lemma read_allowed_keeps ips r r' :
  r_isPeer r = true -> read_allowed r ips = Ok r' -> attr_keeps r r'.
Proof.
  revert r. induction ips as [|ip ips IH]; intros r Hp H; cbn [read_allowed] in H.
  { injection H as <-. unfold attr_keeps. auto. }
  destruct (ParseCIDR ip) as [[i n]| |] eqn:Ei; try done. cbn [mbind result_bind] in H.
  destruct (String.eqb_spec ip default_route) as [->|Hne].
  - apply IH in H as (H1 & H2 & H3 & H4); [|done]. cbn in *.
    rewrite ParseCIDR_default in Ei. injection Ei as <- <-. unfold attr_keeps.
    split_and!; [by rewrite H1; case_match|done|set_solver|]. intros _. right. set_solver.
  - apply IH in H as (H1 & H2 & H3 & H4); [|done]. cbn in *. rewrite andb_false_r in *.
    unfold attr_keeps. split_and!; [done|done|set_solver|done].
Qed.

Lemma read_attr_keeps r k v r' :
  (if r_isInterface r then read_interface r k v
   else if r_isPeer r then read_peer r k v else Ok r) = Ok r' -> attr_keeps r r'.
Proof.
  assert (forall r1, config_Peers (r_c r1) = config_Peers (r_c r) -> r_isPeer r1 = r_isPeer r ->
    pc_AllowedIPs (r_peerConfig r1) = pc_AllowedIPs (r_peerConfig r) ->
    isDefaultRoute (r_c r1) = isDefaultRoute (r_c r) -> attr_keeps r r1) as Hsame.
  { intros r1 H1 H2 H3 H4. unfold attr_keeps. rewrite H1, H2, H3, H4. auto. }
  destruct (r_isInterface r); [|destruct (r_isPeer r) eqn:Hp].
  - unfold read_interface. intros H.
    repeat (case_match; [bind_inv|]); simplify_eq; by apply Hsame.
  - unfold read_peer. intros H. destruct (String.eqb k "PublicKey"); [bind_inv; subst; by apply Hsame|].
    destruct (String.eqb k "AllowedIPs"); [by eapply read_allowed_keeps|].
    repeat (case_match; [bind_inv|]); simplify_eq; by apply Hsame.
  - intros [= <-]. by apply Hsame.
Qed.

(** No line changes the name of the file or its data. *)
Definition same_file (c c' : wireguardConfig) : Prop :=
  configFileName c' = configFileName c /\ configData c' = configData c.

Lemma read_allowed_file ips r r' : read_allowed r ips = Ok r' -> same_file (r_c r) (r_c r').
Proof.
  revert r. induction ips as [|ip ips IH]; intros r H; cbn [read_allowed] in H;
    [by simplify_eq|]. bind_inv. destruct (IH _ H) as [H1 H2]. split; rewrite ?H1, ?H2;
    cbn; by case_match.
Qed.

Lemma read_line_file r l r' : read_line r l = Ok r' -> same_file (r_c r) (r_c r').
Proof.
  unfold read_line. intros H. destruct (match_section l).
  { injection H as <-. unfold read_section, end_peer. by destruct (r_isPeer r). }
  destruct (default _ _) as [k v]. case_decide; [by simplify_eq|].
  destruct (r_isInterface r); [|destruct (r_isPeer r); [|by simplify_eq]].
  - unfold read_interface in H. repeat (case_match; [bind_inv|]); by simplify_eq.
  - unfold read_peer in H. case_match; [bind_inv; by subst|].
    case_match; [by eapply read_allowed_file|].
    repeat (case_match; [bind_inv|]); by simplify_eq.
Qed.

Lemma read_config_file n data c :
  newWireguardConfigFromTarget n data = Ok c ->
  configFileName c = n +:+ ".conf" /\ configData c = data.
Proof.
  unfold newWireguardConfigFromTarget. intros H. bind_inv. subst c.
  assert (forall ls r r', read_lines ls r = Ok r' -> same_file (r_c r) (r_c r')) as Hk.
  { clear. intros ls. induction ls as [|l ls IH]; intros r r' H; cbn [read_lines] in H;
      [by simplify_eq|]. bind_inv. destruct (IH _ _ H) as [H1 H2].
    destruct (read_line_file _ _ _ Ha). split; congruence. }
  destruct (Hk _ _ _ Ha). by destruct (r_isPeer a).
Qed.

Lemma attr_reader_peers r r' :
  attr_keeps r r' -> length (reader_peers r') = length (reader_peers r) /\
  (forall p n, p ∈ reader_peers r -> n ∈ pc_AllowedIPs p ->
     exists p', p' ∈ reader_peers r' /\ n ∈ pc_AllowedIPs p').
Proof.
  intros (H1 & H2 & H3 & _). unfold reader_peers. rewrite H1, H2. split.
  - rewrite !length_app. by destruct (r_isPeer r).
  - intros p n Hp Hn. apply elem_of_app in Hp as [Hp|Hp].
    + exists p. split; [by apply elem_of_app; left|done].
    + destruct (r_isPeer r); [|by apply elem_of_nil in Hp].
      apply list_elem_of_singleton in Hp as ->. exists (r_peerConfig r').
      split; [apply elem_of_app; right; by apply list_elem_of_singleton|by apply H3].
Qed.

Lemma peer_sections_snoc ls l :
  peer_sections (ls ++ [l])
    = (peer_sections ls + if decide (match_section l = Some "Peer") then 1 else 0)%nat.
Proof.
  unfold peer_sections. rewrite filter_app, length_app, filter_cons, filter_nil.
  by case_decide.
Qed.

Lemma read_line_inv ls r l r' :
  reader_inv ls r -> read_line r l = Ok r' -> reader_inv (ls ++ [l]) r'.
Proof.
  intros [Hc Hr] H. unfold reader_inv. rewrite peer_sections_snoc.
  unfold read_line in H. destruct (match_section l) as [n|].
  - injection H as <-. rewrite reader_peers_section, Hc. split.
    + destruct (String.eqb_spec n "Peer"); case_decide; congruence.
    + intros Hd. destruct Hr as (p & Hp & Hn);
        [by unfold read_section, end_peer in Hd; destruct (r_isPeer r)|].
      exists p. split; [by apply reader_peers_keep|done].
  - rewrite decide_False, Nat.add_0_r by done.
    destruct (default _ _) as [k v]. case_decide; [by injection H as <-|].
    apply read_attr_keeps in H. destruct (attr_reader_peers _ _ H) as [-> Hk].
    split; [done|]. intros Hd. destruct H as (H1 & H2 & H3 & H4).
    destruct (H4 Hd) as [Hd'|[Hp Hn]].
    + destruct (Hr Hd') as (p & Hp & Hn). by apply (Hk p).
    + exists (r_peerConfig r'). split; [|done]. unfold reader_peers. rewrite H2, Hp.
      apply elem_of_app; right; by apply list_elem_of_singleton.
Qed.

Lemma read_lines_inv ls0 ls r r' :
  reader_inv ls0 r -> read_lines ls r = Ok r' -> reader_inv (ls0 ++ ls) r'.
Proof.
  revert ls0 r. induction ls as [|l ls IH]; intros ls0 r Hi H; cbn [read_lines] in H.
  { rewrite app_nil_r. by injection H as <-. }
  bind_inv. change (l :: ls) with ([l] ++ ls). rewrite app_assoc.
  eapply IH; [|done]. by eapply read_line_inv.
Qed.

(** C35. Every configuration that is read has one peer for each line the scanner
    delivers that is a [Peer] section header (a line of 64 KiB or more ends the scan, and
    what follows it is not read), and makes the tunnel the default route only if one of
    these peers allows the network 0.0.0.0/0. *)
Theorem read_config_peers (n data : string) (c : wireguardConfig)
  (Hc : newWireguardConfigFromTarget n data = Ok c) :
  length (config_Peers c) = peer_sections (scan_lines data).1 /\
  (isDefaultRoute c = true -> exists p, p ∈ config_Peers c /\ net0 ∈ pc_AllowedIPs p).
Proof.
  unfold newWireguardConfigFromTarget in Hc. bind_inv.
  eapply (read_lines_inv []) in Ha as [H1 H2]; [|by split].
  assert (config_Peers c = reader_peers a /\ isDefaultRoute c = isDefaultRoute (r_c a)) as [-> ->].
  { subst c. unfold reader_peers. destruct (r_isPeer a); [done|by rewrite app_nil_r]. }
  done.
Qed.

Lemma bind_no_panic {A B} (m : result A) (f : A -> result B) :
  is_panic m = false -> (forall a, m = Ok a -> is_panic (f a) = false) ->
  is_panic (m ≫= f) = false.
Proof. destruct m; cbn; auto. Qed.

Section NoPanic.
Context {laws : WGKeysLaws keys}.
Hypothesis resolve_no_panic : forall v, is_panic (ResolveUDPAddr v) = false.

Lemma read_allowed_no_panic ips r : is_panic (read_allowed r ips) = false.
Proof.
  revert r. induction ips as [|ip ips IH]; intros r; [done|]. cbn [read_allowed].
  apply bind_no_panic; [apply ParseCIDR_no_panic|]. intros a _. apply IH.
Qed.

Lemma read_line_no_panic r l : is_panic (read_line r l) = false.
Proof.
  unfold read_line. destruct (match_section l); [done|].
  destruct (default _ _) as [k v]. case_decide; [done|].
  destruct (r_isInterface r); [|destruct (r_isPeer r); [|done]].
  - unfold read_interface. repeat case_match; try done.
    apply bind_no_panic; [apply ParseKey_no_panic|done].
  - unfold read_peer. repeat case_match; try done;
      try (apply bind_no_panic; [|done]).
    + apply ParseKey_no_panic.
    + apply read_allowed_no_panic.
    + apply resolve_no_panic.
    + apply parse_int_no_panic.
Qed.

(** Reading a configuration never panics: any file a bastion serves, whatever its
    sections and attributes, gives a configuration or an error. *)
Theorem read_config_total (n data : string) :
  is_panic (newWireguardConfigFromTarget n data) = false.
Proof.
  unfold newWireguardConfigFromTarget. apply bind_no_panic; [|done].
  generalize (mkReader (newConfig n data) false false zeroPeerConfig) as r.
  induction (scan_lines data).1 as [|l ls IH]; intros r; [done|]. cbn [read_lines].
  apply bind_no_panic; [apply read_line_no_panic|]. intros a _. apply IH.
Qed.

End NoPanic.
End Config.

(** ** A configuration with two subnets *)

Definition resolver (v : string) : result UDPAddr :=
  if String.eqb v "192.168.4.1:51820" then Ok (mkUDPAddr [192; 168; 4; 1]%Z 51820 EmptyString)
  else Err (Errorf "lookup" [v]).

Definition data1 (endpoint : string) : wireguardConfigData :=
  mkWireguardConfigData "space" (Key_String (key_of "a")) "10.12.16.2" "10.12.16.1" endpoint
    (Key_String (key_of "b")) ["10.12.16.0/24"; "0.0.0.0/0"] 25.

Definition nets1 : list (IP * Z) := [([10; 12; 16; 0], 24); ([0; 0; 0; 0], 0)]%Z.

Lemma data1_ok e : data_ok (data1 e) (key_of "a") (key_of "b") nets1.
Proof.
  split; try reflexivity.
  - cbn. unfold int64_range, two63. lia.
  - apply (bool_decide_unpack _). vm_compute. exact I.
Qed.

Lemma wireguard_config_roundtrip_witness :
  without_keepalive <$> newWireguardConfigFromTarget resolver "space" (Data (data1 "192.168.4.1:51820"))
    = Ok (read_config (data1 "192.168.4.1:51820") (key_of "a") ["192.168.4.1"] true
            (mkPeerConfig (key_of "b") (Some (mkUDPAddr [192; 168; 4; 1]%Z 51820 EmptyString))
               None (net_of <$> nets1))).
Proof.
  exact (wireguard_config_roundtrip resolver (data1 "192.168.4.1:51820") (key_of "a")
    (key_of "b") nets1 _ (data1_ok _) eq_refl eq_refl).
Defined.

Lemma keepalive_below_second_witness :
  exists c p ns, newWireguardConfigFromTarget resolver "space" (Data (data1 "192.168.4.1:51820"))
      = Ok c /\ config_Peers c = [p] /\ pc_PersistentKeepaliveInterval p = Some ns /\
    (0 < ns < Second)%Z /\ ns <> (25 * Second)%Z.
Proof.
  exact (keepalive_below_second resolver (data1 "192.168.4.1:51820") (key_of "a")
    (key_of "b") nets1 _ (data1_ok _) eq_refl eq_refl (conj eq_refl eq_refl)).
Defined.

Lemma bracketed_endpoint_ends_peer_witness :
  newWireguardConfigFromTarget resolver "space" (Data (data1 "[fd00::1]:51820"))
    = Ok (read_config (data1 "[fd00::1]:51820") (key_of "a") [] false
            (mkPeerConfig (key_of "b") None None [])).
Proof.
  refine (bracketed_endpoint_ends_peer resolver (data1 "[fd00::1]:51820") (key_of "a")
    (key_of "b") nets1 "fd00::1" ":51820" (data1_ok _) eq_refl _ eq_refl eq_refl).
  by split.
Defined.

Lemma read_config_peers_witness :
  1%nat = peer_sections (scan_lines (Data (data1 "192.168.4.1:51820"))).1 /\
  exists p, p ∈ [mkPeerConfig (key_of "b")
                   (Some (mkUDPAddr [192; 168; 4; 1]%Z 51820 EmptyString)) (Some 25%Z)
                   (net_of <$> nets1)] /\
    net0 ∈ pc_AllowedIPs p.
Proof.
  destruct (read_config_peers (keys := plain_keys) resolver "space" (Data (data1 "192.168.4.1:51820")) _
    (config_roundtrip (keys := plain_keys) resolver (data1 "192.168.4.1:51820") (key_of "a") (key_of "b") nets1
       (mkUDPAddr [192; 168; 4; 1]%Z 51820 EmptyString) (data1_ok _) eq_refl eq_refl))
    as [Hn Hr].
  exact (conj Hn (Hr eq_refl)).
Defined.

Lemma resolver_no_panic v : is_panic (resolver v) = false.
Proof. unfold resolver. by case_match. Qed.

Lemma read_config_total_witness :
  is_panic (newWireguardConfigFromTarget (keys := plain_keys) resolver "x" "[Peer]") = false.
Proof. exact (read_config_total resolver resolver_no_panic "x" "[Peer]"). Defined.
