(* ===== verification/ConfigFile.v ===== *)
(** * Any WireGuard configuration file

    What [newWireguardConfigFromTarget] of vpn/wireguard_config.go makes of a file that
    somebody wrote: sections in any order and number, attributes in any order, repeated
    or missing, with blanks around the equals sign, among comments and empty lines.
    The meaning of such a file is defined here from its sections alone, and reading its
    text is shown to give that meaning. *)

From S2P Require Import Prelude GoStrings GoEncoding GoNet GoNetText WGTypes WireguardConfig.

(** ** Files *)

(** Blanks around an equals sign: spaces and tabs. *)
Definition blank (s : string) : bool :=
  s_forall (fun c => bool_decide (nat_of_ascii c ∈ [9; 32]%nat)) s.

(** A line of a section: an attribute, with the blanks before and after the equals
    sign, or text that is no attribute. *)
Inductive line (A : Type) :=
| Attribute (before after : string) (a : A)
| Noise (text : string).
Arguments Attribute {A}.
Arguments Noise {A}.

Section Files.
Context `{keys : WGKeys}.
Variable ResolveUDPAddr : string -> result UDPAddr.

Inductive interface_attr :=
| PrivateKeyIs (k : Key)
| AddressIs (a : string)
| DNSIs (a : string).

Inductive peer_attr :=
| PublicKeyIs (k : Key)
| AllowedIPsAre (nets : list (IP * Z))
| EndpointIs (text : string) (a : UDPAddr)
| KeepaliveIs (n : Z).

Inductive section :=
| InterfaceSection (ls : list (line interface_attr))
| PeerSection (ls : list (line peer_attr))
| OtherSection (title : string) (ls : list string).

(** The lines before the first section, and the sections, each with the text before and
    after its header. *)
Record file := mkFile {
  preamble : list string;
  sections : list (string * string * section);
}.

(** ** Their text *)

Definition interface_text (a : interface_attr) : string * string :=
  match a with
  | PrivateKeyIs k => ("PrivateKey", Key_String k)
  | AddressIs a => ("Address", a)
  | DNSIs a => ("DNS", a)
  end.

Definition peer_text (a : peer_attr) : string * string :=
  match a with
  | PublicKeyIs k => ("PublicKey", Key_String k)
  | AllowedIPsAre nets => ("AllowedIPs", Join "," (cidr_text <$> nets))
  | EndpointIs text _ => ("Endpoint", text)
  | KeepaliveIs n => ("PersistentKeepalive", format_int n)
  end.

Definition attribute (kv : string * string) (before after : string) : string :=
  kv.1 +:+ before +:+ String "=" (after +:+ kv.2).

Definition line_text {A} (text : A -> string * string) (l : line A) : string :=
  match l with
  | Attribute before after a => attribute (text a) before after
  | Noise s => s
  end.

Definition title (s : section) : string :=
  match s with
  | InterfaceSection _ => "Interface"
  | PeerSection _ => "Peer"
  | OtherSection t _ => t
  end.

Definition body (s : section) : list string :=
  match s with
  | InterfaceSection ls => line_text interface_text <$> ls
  | PeerSection ls => line_text peer_text <$> ls
  | OtherSection _ ls => ls
  end.

Definition section_lines (x : string * string * section) : list string :=
  let '(before, after, s) := x in
  (before +:+ String "[" (title s +:+ String "]" after)) :: body s.

Definition file_lines (f : file) : list string := preamble f ++ (sections f ≫= section_lines).

Definition file_text (f : file) : string := unlines (file_lines f).

(** ** Their meaning *)

(** The last of what [g] finds in a list. *)
Definition last_of {A B} (g : A -> option B) (l : list A) : option B :=
  foldl (fun acc a => match g a with Some b => Some b | None => acc end) None l.

Definition attrs_of {A} (ls : list (line A)) : list A :=
  omap (fun l => match l with Attribute _ _ a => Some a | Noise _ => None end) ls.

Definition interface_attrs (f : file) : list interface_attr :=
  sections f ≫= fun x => match x.2 with InterfaceSection ls => attrs_of ls | _ => [] end.

(** The attributes of each peer. *)
Definition peer_sections_of (f : file) : list (list peer_attr) :=
  omap (fun x => match x.2 with PeerSection ls => Some (attrs_of ls) | _ => None end) (sections f).

Definition nets_of (a : peer_attr) : list (IP * Z) :=
  match a with AllowedIPsAre nets => nets | _ => [] end.

(** A peer, for the duration that a number of the file stands for. *)
Definition peer_in (duration : Z -> Z) (l : list peer_attr) : PeerConfig :=
  mkPeerConfig
    (default zeroKey (last_of (fun a => match a with PublicKeyIs k => Some k | _ => None end) l))
    (last_of (fun a => match a with EndpointIs _ a => Some a | _ => None end) l)
    (duration <$> last_of (fun a => match a with KeepaliveIs n => Some n | _ => None end) l)
    (net_of <$> (l ≫= nets_of)).

Definition addresses_of (l : list peer_attr) : list string :=
  omap (fun a => match a with EndpointIs _ a => Some (IP_String (udp_IP a)) | _ => None end) l.

Definition allows_all (l : list peer_attr) : bool :=
  existsb (fun a => existsb (fun c => String.eqb default_route (cidr_text c)) (nets_of a)) l.

Definition meaning_in (duration : Z -> Z) (n : string) (f : file) : wireguardConfig :=
  let ia := interface_attrs f in
  let ps := peer_sections_of f in
  mkWireguardConfig (n +:+ ".conf") (file_text f)
    (default EmptyString (last_of (fun a => match a with AddressIs a => Some a | _ => None end) ia))
    (default EmptyString (last_of (fun a => match a with DNSIs a => Some a | _ => None end) ia))
    (ps ≫= addresses_of)
    (existsb allows_all ps)
    (last_of (fun a => match a with PrivateKeyIs k => Some k | _ => None end) ia)
    (peer_in duration <$> ps).

(** What a file configures: of the interface the last of each attribute; a peer for each
    of its sections, with its own attributes and its keepalive interval in seconds; a
    route around the tunnel for each endpoint; and the default route when a peer allows
    every IPv4 address. *)
Definition peer_of : list peer_attr -> PeerConfig := peer_in (fun n => n * Second)%Z.
Definition meaning : string -> file -> wireguardConfig := meaning_in (fun n => n * Second)%Z.

(** ** Files whose text is unambiguous *)

Definition noise_ok (s : string) : bool :=
  line_ok s && bool_decide (match_section s = None) &&
  match match_attrib s with Some (k, _) => String.eqb k EmptyString | None => true end.

(** A line outside the known sections. *)
Definition ignored_ok (s : string) : bool := line_ok s && bool_decide (match_section s = None).

Definition attribute_ok (kv : string * string) (before after : string) : bool :=
  blank before && blank after && value_ok kv.2 && line_ok (attribute kv before after).

Definition line_is_ok {A} (text : A -> string * string) (ok : A -> Prop) (l : line A) : Prop :=
  match l with
  | Attribute before after a => attribute_ok (text a) before after = true /\ ok a
  | Noise s => noise_ok s = true
  end.

(** A list of networks is not empty, an endpoint resolves, a number fits. *)
Definition peer_attr_ok (a : peer_attr) : Prop :=
  match a with
  | PublicKeyIs _ => True
  | AllowedIPsAre nets => nets <> [] /\ Forall cidr_ok nets
  | EndpointIs text a => ResolveUDPAddr text = Ok a
  | KeepaliveIs n => int64_range n
  end.

Definition section_ok (x : string * string * section) : Prop :=
  let '(before, after, s) := x in
  s_free "[" before = true /\ s_free "]" after = true /\
  line_ok (before +:+ String "[" (title s +:+ String "]" after)) = true /\
  match s with
  | InterfaceSection ls => Forall (line_is_ok interface_text (fun _ => True)) ls
  | PeerSection ls => Forall (line_is_ok peer_text peer_attr_ok) ls
  | OtherSection t ls =>
      t <> "Interface" /\ t <> "Peer" /\ Forall (fun l => ignored_ok l = true) ls
  end.

Definition file_ok (f : file) : Prop :=
  Forall (fun l => ignored_ok l = true) (preamble f) /\ Forall section_ok (sections f).

(** ** Reading lines *)

Local Abbreviation read_line := (WireguardConfig.read_line ResolveUDPAddr).
Local Abbreviation read_lines := (WireguardConfig.read_lines ResolveUDPAddr).

Lemma read_header r before after t :
  s_free "[" before = true -> s_free "]" after = true ->
  read_line r (before +:+ String "[" (t +:+ String "]" after)) = Ok (read_section r t).
Proof.
  intros Hb Ha. unfold read_line, match_section. rewrite Index_app by done.
  cbn [mbind option_bind]. rewrite s_drop_app, LastIndex_app by done. cbn [mbind option_bind].
  by rewrite s_take_app.
Qed.

Lemma blank_space s : blank s = true -> s_forall is_space s = true.
Proof.
  apply s_forall_impl. intros c Hc. apply bool_decide_eq_true in Hc. apply bool_decide_eq_true.
  rewrite !elem_of_cons in *; tauto.
Qed.

Lemma span_blank s v :
  s_forall is_space s = true -> head_ok v = true -> (span is_space (s +:+ v)).2 = v.
Proof.
  intros Hs Hv. induction s as [|c s IH]; [by apply span_head|]. cbn in Hs |- *.
  apply andb_true_iff in Hs as [-> Hs]. specialize (IH Hs). by destruct (span is_space (s +:+ v)).
Qed.

Lemma blank_free c s : blank s = true -> is_space c = false -> s_free c s = true.
Proof.
  intros Hs Hc. eapply s_forall_impl; [|exact (blank_space s Hs)]. intros d Hd.
  apply bool_decide_eq_true. congruence.
Qed.

Lemma match_attribute k v before after :
  key_ok k = true -> attribute_ok (k, v) before after = true ->
  match_section (attribute (k, v) before after) = None /\
  match_attrib (attribute (k, v) before after) = Some (k, v).
Proof.
  unfold attribute_ok. rewrite !andb_true_iff. cbn [snd]. intros Hk [[[Hb Ha] Hv] _].
  unfold value_ok in Hv. rewrite !andb_true_iff in Hv. destruct Hv as [[[[Hbr _] _] Hh] _].
  unfold attribute. cbn [fst snd]. split.
  - unfold match_section. rewrite Index_free; [done|].
    rewrite !s_free_app, (key_ok_free _ _ Hk), (blank_free _ _ Hb) by done. cbn [andb].
    apply s_free_cons. split; [done|]. by rewrite s_free_app, (blank_free _ _ Ha), Hbr.
  - unfold key_ok in Hk. rewrite !andb_true_iff in Hk. destruct Hk as [[Hk _] _].
    unfold match_attrib.
    assert (span is_key_char (k +:+ before +:+ String "=" (after +:+ v))
            = (k, before +:+ String "=" (after +:+ v))) as ->.
    { destruct before as [|c before]; [by apply span_app|]. cbn [String.append].
      apply span_app; [done|]. cbn in Hb. apply andb_true_iff in Hb as [Hc _]. clear -Hc.
      by destruct c as [[] [] [] [] [] [] [] []]. }
    rewrite span_blank by (done || by apply blank_space). rewrite decide_True by done.
    by rewrite span_blank by (done || by apply blank_space).
Qed.

Lemma read_attribute r k v before after :
  key_ok k = true -> attribute_ok (k, v) before after = true ->
  read_line r (attribute (k, v) before after) =
    if r_isInterface r then read_interface r k v
    else if r_isPeer r then read_peer ResolveUDPAddr r k v else Ok r.
Proof.
  intros Hk Ho. destruct (match_attribute k v before after Hk Ho) as [H1 H2].
  unfold WireguardConfig.read_line. rewrite H1, H2. cbn [default from_option id].
  rewrite decide_False; [done|]. by intros ->.
Qed.

Lemma read_noise r s : noise_ok s = true -> read_line r s = Ok r.
Proof.
  unfold noise_ok. rewrite !andb_true_iff. intros [[_ Hs%bool_decide_eq_true] Hk].
  unfold WireguardConfig.read_line. rewrite Hs. destruct (match_attrib s) as [[k v]|]; [|done].
  apply String.eqb_eq in Hk as ->. done.
Qed.

Lemma read_ignored r ls :
  r_isInterface r = false -> r_isPeer r = false ->
  Forall (fun l => ignored_ok l = true) ls -> read_lines ls r = Ok r.
Proof.
  intros Hi Hp Hl. induction Hl as [|l ls Hl Hls IH]; [done|]. cbn [WireguardConfig.read_lines].
  unfold ignored_ok in Hl. apply andb_true_iff in Hl as [_ Hs%bool_decide_eq_true].
  unfold WireguardConfig.read_line. rewrite Hs, Hi, Hp.
  destruct (match_attrib l) as [[k v]|]; cbn; [|done]. by case_decide.
Qed.

(** ** Attributes *)

Definition set_interface (c : wireguardConfig) (a : interface_attr) : wireguardConfig :=
  match a with
  | PrivateKeyIs k => set_PrivateKey c k
  | AddressIs a => set_tunAddress c a
  | DNSIs a => set_tunDNS c a
  end.

(** What an attribute of a peer changes outside the peer, and in it. *)
Definition set_routes (c : wireguardConfig) (a : peer_attr) : wireguardConfig :=
  match a with
  | EndpointIs _ a => add_peerAddress c (IP_String (udp_IP a))
  | AllowedIPsAre nets =>
      if existsb (fun c => String.eqb default_route (cidr_text c)) nets
      then set_isDefaultRoute c else c
  | _ => c
  end.

Definition set_peer (p : PeerConfig) (a : peer_attr) : PeerConfig :=
  match a with
  | PublicKeyIs k => mkPeerConfig k (pc_Endpoint p) (pc_PersistentKeepaliveInterval p) (pc_AllowedIPs p)
  | AllowedIPsAre nets =>
      mkPeerConfig (pc_PublicKey p) (pc_Endpoint p) (pc_PersistentKeepaliveInterval p)
        (pc_AllowedIPs p ++ (net_of <$> nets))
  | EndpointIs _ a =>
      mkPeerConfig (pc_PublicKey p) (Some a) (pc_PersistentKeepaliveInterval p) (pc_AllowedIPs p)
  | KeepaliveIs n => mkPeerConfig (pc_PublicKey p) (pc_Endpoint p) (Some n) (pc_AllowedIPs p)
  end.

Context {laws : WGKeysLaws keys}.

Lemma read_interface_body ls c p :
  Forall (line_is_ok interface_text (fun _ => True)) ls ->
  read_lines (line_text interface_text <$> ls) (mkReader c true false p)
    = Ok (mkReader (foldl set_interface c (attrs_of ls)) true false p).
Proof.
  intros Hl. revert c. induction Hl as [|[before after a|s] ls Hl Hls IH]; intros c; [done| |].
  - destruct Hl as [Hl _]. rewrite fmap_cons. cbn [line_text WireguardConfig.read_lines].
    destruct a; cbn [interface_text] in *; rewrite read_attribute by done;
      cbn [r_isInterface]; unfold read_interface; cbn [String.eqb Ascii.eqb Bool.eqb];
      rewrite ?ParseKey_String; cbn [mbind result_bind]; apply IH.
  - rewrite fmap_cons. cbn [line_text WireguardConfig.read_lines]. rewrite read_noise by done. apply IH.
Qed.

Lemma Split_nets nets :
  nets <> [] -> Forall cidr_ok nets -> Split "," (Join "," (cidr_text <$> nets)) = cidr_text <$> nets.
Proof.
  intros Hne Hn. change (Join "," (cidr_text <$> nets))
    with (Join (String "," EmptyString) (cidr_text <$> nets)).
  apply Split_Join; [by destruct nets|]. apply Forall_fmap.
  eapply Forall_impl; [exact Hn|]. intros c Hc. by apply cidr_text_free.
Qed.

Lemma existsb_fmap {A B} (f : A -> B) (p : B -> bool) l :
  existsb p (f <$> l) = existsb (fun x => p (f x)) l.
Proof. induction l as [|x l IH]; [done|]. cbn. by rewrite <- IH. Qed.

Lemma read_peer_body ls c p :
  Forall (line_is_ok peer_text peer_attr_ok) ls ->
  read_lines (line_text peer_text <$> ls) (mkReader c false true p)
    = Ok (mkReader (foldl set_routes c (attrs_of ls)) false true (foldl set_peer p (attrs_of ls))).
Proof.
  intros Hl. revert c p. induction Hl as [|[before after a|s] ls Hl Hls IH]; intros c p; [done| |].
  - destruct Hl as [Hl Ha]. rewrite fmap_cons. cbn [line_text WireguardConfig.read_lines].
    destruct a as [k|nets|t ep|n]; cbn [peer_text peer_attr_ok] in *; rewrite read_attribute by done;
      cbn [r_isInterface r_isPeer]; unfold read_peer; cbn [String.eqb Ascii.eqb Bool.eqb].
    + rewrite ParseKey_String. cbn [mbind result_bind]. apply IH.
    + destruct Ha as [Hne Hn]. rewrite Split_nets, read_allowed_nets by done.
      cbn [mbind result_bind r_c r_isInterface r_isPeer r_peerConfig]. rewrite existsb_fmap. apply IH.
    + rewrite Ha. cbn [mbind result_bind]. apply IH.
    + unfold ParseInt. rewrite parse_format_int by done. cbn [mbind result_bind]. apply IH.
  - rewrite fmap_cons. cbn [line_text WireguardConfig.read_lines]. rewrite read_noise by done. apply IH.
Qed.

(** ** Sections *)

(** What a reader has so far, with the peer it is in. *)
Definition result_of (r : reader) : wireguardConfig :=
  if r_isPeer r then add_Peer (r_c r) (r_peerConfig r) else r_c r.

(** Outside a peer nothing is left of the last one. *)
Definition no_rest (r : reader) : Prop := r_isPeer r = false -> r_peerConfig r = zeroPeerConfig.

Definition set_section (c : wireguardConfig) (x : string * string * section) : wireguardConfig :=
  match x.2 with
  | InterfaceSection ls => foldl set_interface c (attrs_of ls)
  | PeerSection ls =>
      add_Peer (foldl set_routes c (attrs_of ls)) (foldl set_peer zeroPeerConfig (attrs_of ls))
  | OtherSection _ _ => c
  end.

Lemma read_section_start r t :
  no_rest r ->
  read_section r t
    = mkReader (result_of r) (String.eqb t "Interface") (String.eqb t "Peer") zeroPeerConfig.
Proof.
  intros Hr. unfold read_section, end_peer, result_of. destruct (r_isPeer r) eqn:E; cbn; [done|].
  by rewrite Hr.
Qed.

Lemma read_section_lines x r :
  section_ok x -> no_rest r ->
  exists r', read_lines (section_lines x) r = Ok r' /\ no_rest r' /\
    result_of r' = set_section (result_of r) x.
Proof.
  destruct x as [[before after] s]. cbn [section_ok]. intros (Hb & Ha & _ & Hs) Hr.
  unfold section_lines. cbn [WireguardConfig.read_lines]. rewrite read_header by done.
  cbn [mbind result_bind]. rewrite read_section_start by done. unfold set_section. cbn [snd].
  destruct s as [ls|ls|t ls]; cbn [title body String.eqb Ascii.eqb Bool.eqb].
  - rewrite read_interface_body by done. by eexists.
  - rewrite read_peer_body by done. eexists. split; [done|]. by split.
  - destruct Hs as (Hi & Hp & Hl). apply String.eqb_neq in Hi, Hp. rewrite Hi, Hp.
    rewrite read_ignored by done. by eexists.
Qed.

Lemma read_sections xs r :
  Forall section_ok xs -> no_rest r ->
  exists r', read_lines (xs ≫= section_lines) r = Ok r' /\
    result_of r' = foldl set_section (result_of r) xs.
Proof.
  intros Hx. revert r. induction Hx as [|x xs Hx Hxs IH]; intros r Hr; [by eexists|].
  rewrite bind_cons, read_lines_app.
  destruct (read_section_lines x r Hx Hr) as (r1 & -> & Hr1 & E). cbn [mbind result_bind foldl].
  rewrite <- E. by apply IH.
Qed.

(** ** The meaning, a section at a time *)

#[local] Arguments last_of : simpl never.

Lemma last_of_app {A B} (g : A -> option B) l1 l2 :
  last_of g (l1 ++ l2) = match last_of g l2 with Some b => Some b | None => last_of g l1 end.
Proof.
  unfold last_of. rewrite foldl_app.
  generalize (foldl (fun acc a => match g a with Some b => Some b | None => acc end) None l1) as o.
  induction l2 as [|x l2 IH] using rev_ind; intros o; [done|]. rewrite !foldl_snoc, IH.
  by destruct (g x).
Qed.

Lemma set_interface_all l c :
  foldl set_interface c l =
  mkWireguardConfig (configFileName c) (configData c)
    (default (tunAddress c) (last_of (fun a => match a with AddressIs a => Some a | _ => None end) l))
    (default (tunDNS c) (last_of (fun a => match a with DNSIs a => Some a | _ => None end) l))
    (peerAddresses c) (isDefaultRoute c)
    (match last_of (fun a => match a with PrivateKeyIs k => Some k | _ => None end) l with
     | Some k => Some k | None => config_PrivateKey c end)
    (config_Peers c).
Proof.
  induction l as [|a l IH] using rev_ind; [by destruct c|].
  rewrite foldl_snoc, IH, !last_of_app. by destruct a.
Qed.

Lemma set_routes_all l c :
  foldl set_routes c l =
  mkWireguardConfig (configFileName c) (configData c) (tunAddress c) (tunDNS c)
    (peerAddresses c ++ addresses_of l) (isDefaultRoute c || allows_all l) (config_PrivateKey c)
    (config_Peers c).
Proof.
  revert c. induction l as [|a l IH]; intros c.
  { cbn. rewrite app_nil_r, orb_false_r. by destruct c. }
  cbn [foldl]. rewrite IH. unfold allows_all. cbn [existsb].
  destruct a as [k|nets|t ep|n]; cbn [set_routes nets_of addresses_of omap list_omap existsb].
  - by cbn.
  - destruct (existsb _ nets); cbn; [by rewrite orb_true_r|done].
  - cbn. by rewrite <- app_assoc.
  - by cbn.
Qed.

(** The reader takes the number of a keepalive interval as it is. *)
Lemma set_peer_all l : foldl set_peer zeroPeerConfig l = peer_in (fun n => n) l.
Proof.
  induction l as [|a l IH] using rev_ind; [done|]. rewrite foldl_snoc, IH. unfold peer_in.
  rewrite !last_of_app, bind_app, fmap_app. destruct a; cbn; by rewrite ?app_nil_r.
Qed.

(** The meaning of some sections, on top of [data] as the text. *)
Definition meaning_of (n data : string) (xs : list (string * string * section)) : wireguardConfig :=
  let m := meaning_in (fun n => n) n (mkFile [] xs) in
  mkWireguardConfig (configFileName m) data (tunAddress m) (tunDNS m) (peerAddresses m)
    (isDefaultRoute m) (config_PrivateKey m) (config_Peers m).

Lemma set_sections_all n data xs : foldl set_section (newConfig n data) xs = meaning_of n data xs.
Proof.
  induction xs as [|x xs IH] using rev_ind; [done|]. rewrite foldl_snoc, IH.
  unfold meaning_of, meaning_in, interface_attrs, peer_sections_of. cbn [sections].
  rewrite bind_app, omap_app, last_of_app. destruct x as [[before after] [ls|ls|t ls]];
    unfold set_section; cbn [snd].
  - rewrite set_interface_all, !last_of_app. cbn. rewrite !app_nil_r.
    f_equal; by destruct (last_of _ (attrs_of ls)).
  - rewrite set_routes_all, set_peer_all. cbn. rewrite !app_nil_r.
    by rewrite bind_app, fmap_app, existsb_app; cbn; rewrite app_nil_r, orb_false_r.
  - cbn. by rewrite !app_nil_r.
Qed.

Lemma section_lines_ok x :
  section_ok x -> Forall (fun l => line_ok l = true) (section_lines x).
Proof.
  destruct x as [[before after] s]. cbn [section_ok section_lines]. intros (_ & _ & Hh & Hs).
  constructor; [done|]. destruct s as [ls|ls|t ls]; cbn [body].
  1,2: apply Forall_fmap; eapply Forall_impl; [exact Hs|]; intros [b a x|x]; cbn;
    unfold attribute_ok, noise_ok; rewrite !andb_true_iff; tauto.
  destruct Hs as (_ & _ & Hl). eapply Forall_impl; [exact Hl|]. intros l.
  unfold ignored_ok. rewrite andb_true_iff. tauto.
Qed.

Lemma read_file (n : string) (f : file) (Hf : file_ok f) :
  newWireguardConfigFromTarget ResolveUDPAddr n (file_text f) = Ok (meaning_in (fun n => n) n f).
Proof.
  destruct f as [pre xs], Hf as [Hp Hx]. cbn [preamble sections] in *.
  unfold newWireguardConfigFromTarget, file_text at 1. rewrite scan_unlines.
  2: { unfold file_lines. apply Forall_app. split.
       - eapply Forall_impl; [exact Hp|]. intros l. unfold ignored_ok. rewrite andb_true_iff. tauto.
       - apply Forall_bind. eapply Forall_impl; [exact Hx|]. apply section_lines_ok. }
  cbn [fst]. unfold file_lines. cbn [preamble sections]. rewrite read_lines_app, read_ignored by done.
  cbn [mbind result_bind].
  match goal with |- context [read_lines _ ?r] =>
    destruct (read_sections xs r Hx) as (r' & -> & E); [done|] end.
  cbn [mbind result_bind]. fold (result_of r'). rewrite E. unfold result_of. cbn [r_isPeer r_c].
  by rewrite set_sections_all.
Qed.

Lemma meaning_forget n f duration :
  without_keepalive (meaning_in duration n f) = without_keepalive (meaning n f).
Proof.
  unfold without_keepalive, meaning, meaning_in. cbn. f_equal. by rewrite <- !list_fmap_compose.
Qed.

(** Whether the peers have a keepalive interval. *)
Definition kept_alive (c : wireguardConfig) : list bool :=
  (fun p => bool_decide (is_Some (pc_PersistentKeepaliveInterval p))) <$> config_Peers c.

Lemma meaning_kept_alive n f duration : kept_alive (meaning_in duration n f) = kept_alive (meaning n f).
Proof.
  unfold kept_alive, meaning, meaning_in. cbn. rewrite <- !list_fmap_compose.
  apply list_fmap_ext. intros i l _. cbn. by destruct (last_of _ l).
Qed.


End Files.

(** ** A space after a comma *)

Lemma ParseCIDR_space s : exists e, ParseCIDR (String " " s) = Err e.
Proof.
  unfold ParseCIDR. cbn [Index]. rewrite decide_False by done.
  destruct (Index "/" s) as [i|]; cbn [fmap option_fmap option_map]; [|by eexists].
  cbn [s_take]. set (t := s_take i s).
  replace (parseIPv4 (String " " t)) with (@None IP) by done.
  replace (parseIPv6 net_digits (String " " t)) with (@None IP) by done. by eexists.
Qed.

(** Networks separated by a comma and a space, as WireGuard's own tools accept them, are
    refused: the space is left at the start of the second network. *)
Theorem spaced_networks_refused `{keys : WGKeys} (ResolveUDPAddr : string -> result UDPAddr)
  (r : reader) (c : IP * Z) (rest : string) (Hc : cidr_ok c) :
  exists e, read_peer ResolveUDPAddr r "AllowedIPs" (cidr_text c +:+ "," +:+ String " " rest) = Err e.
Proof.
  unfold read_peer. cbn [String.eqb Ascii.eqb Bool.eqb].
  change ("," +:+ ?t) with (String "," t). rewrite Split_app by (by apply cidr_text_free).
  cbn [read_allowed]. rewrite ParseCIDR_text by done. cbn [mbind result_bind].
  assert (exists t ts, Split "," (String " " rest) = String " " t :: ts) as (t & ts & ->).
  { cbn [Split]. rewrite decide_False by done. destruct (Split "," rest); by eexists _, _. }
  destruct (ParseCIDR_space t) as [e He]. exists e. cbn [read_allowed]. by rewrite He.
Qed.

(** ** A file with two peers *)

Definition tab : string := String (ascii_of_nat 9) EmptyString.

Definition file1 : file (keys := plain_keys) :=
  mkFile ["# space node"; "name = ignored"]
    [(EmptyString, " # phone",
      PeerSection [Attribute " " " " (PublicKeyIs (key_of "b"));
                   Attribute EmptyString tab (AllowedIPsAre [(253 :: replicate 15 0, 64)]%Z)]);
     (" ", EmptyString,
      InterfaceSection [Attribute " " " " (AddressIs "10.1.0.2/32"); Noise EmptyString;
                        Attribute " " " " (PrivateKeyIs (key_of "a"));
                        Noise "# Address = 10.1.0.9/32";
                        Attribute " " " " (AddressIs "10.1.0.3/32")]);
     (EmptyString, EmptyString, OtherSection "Notes" ["PrivateKey = none"]);
     (EmptyString, EmptyString,
      PeerSection [Attribute " " " " (AllowedIPsAre [([10; 12; 16; 0], 24)]%Z);
                   Attribute " " " " (EndpointIs "192.168.4.1:51820"
                                        (mkUDPAddr [192; 168; 4; 1]%Z 51820 EmptyString));
                   Attribute " " " " (AllowedIPsAre [([0; 0; 0; 0], 0)]%Z);
                   Attribute " " " " (PublicKeyIs (key_of "c"));
                   Attribute " " " " (KeepaliveIs 25)])].

Ltac computed :=
  match goal with
  | |- True => exact I
  | |- _ = _ => vm_compute; reflexivity
  | |- _ <> _ => discriminate
  end.

Lemma file1_ok : file_ok resolver file1.
Proof.
  split; cbn [preamble sections file1].
  { apply (bool_decide_unpack _). vm_compute. exact I. }
  repeat (apply Forall_cons_2 || apply Forall_nil_2); cbn [section_ok]; split_and!; try computed;
    repeat (apply Forall_cons_2 || apply Forall_nil_2); cbn [line_is_ok peer_attr_ok]; split_and?;
    computed || (apply (bool_decide_unpack _); vm_compute; exact I).
Qed.

