(* ===== verification/CtrlService.v ===== *)
(** * The control service: vpn/wireguard_ctrl.go, wireguard_ctrl_unix.go and
      wireguard_ctrl_windows.go

    [WGCtrlService] listens on the control socket of a WireGuard interface.  A
    goroutine accepts connections until the listener fails, and then hands the error
    over on an unbuffered channel, from which [Stop] receives it.  The two threads are
    interleaved explicitly; the sockets are an environment of outcomes. *)

From S2P Require Import Prelude.

Inductive platform := Unix | Windows.

(** [unix.EBADF], which the accept of a closed listener may return. *)
Definition EBADF : error := Errorf "bad file descriptor" [].

(** The goroutine: before it is started, in [Accept], blocked sending on the channel
    [err], and after that. *)
Inductive acceptor := NoAcceptor | Accepting | Sending (e : option error) | Ended.

(** [sv_uapi] is the listener, [None] for nil, and whether it is open; [sv_handled]
    counts the connections passed to [IpcHandle]. *)
Record service := mkService {
  sv_ifaceName : string;
  sv_uapi : option bool;
  sv_acceptor : acceptor;
  sv_handled : nat;
}.

Definition NewWireguardCtrlService (ifaceName : string) : service :=
  mkService ifaceName None NoAcceptor 0.

(** What the goroutine hands over for an error of [Accept]. *)
Definition accept_error (p : platform) (e : error) : option error :=
  match p with
  | Unix => if decide (e = EBADF) then None else Some e
  | Windows => None
  end.

(** A service that has not been started, on Unix with the outcomes of [UAPIOpen] and
    [UAPIListen], on Windows with that of [UAPIListen]. *)
Definition startUAPI_unix (UAPIOpen UAPIListen : option error) (s : service)
    : service * option error :=
  match UAPIOpen with
  | Some e => (s, Some e)
  | None =>
      match UAPIListen with
      | Some e => (mkService (sv_ifaceName s) None (sv_acceptor s) (sv_handled s), Some e)
      | None => (mkService (sv_ifaceName s) (Some true) Accepting (sv_handled s), None)
      end
  end.

Definition startUAPI_windows (UAPIListen : option error) (s : service)
    : service * option error :=
  match UAPIListen with
  | Some e => (mkService (sv_ifaceName s) None (sv_acceptor s) (sv_handled s), Some e)
  | None => (mkService (sv_ifaceName s) (Some true) Accepting (sv_handled s), None)
  end.

Definition Start (p : platform) (UAPIOpen UAPIListen : option error) (s : service)
    : service * option error :=
  match p with
  | Unix => startUAPI_unix UAPIOpen UAPIListen s
  | Windows => startUAPI_windows UAPIListen s
  end.

(** The first half of [Stop]: the listener is closed, and the error of that is only
    logged; nothing when there is no listener, and [Stop] returns nil. *)
Definition Stop_close (s : service) : option service :=
  match sv_uapi s with
  | Some _ => Some (mkService (sv_ifaceName s) (Some false) (sv_acceptor s) (sv_handled s))
  | None => None
  end.

(** The second half: the receive from the channel, which needs a sender. *)
Definition Stop_receive (s : service) : option (service * option error) :=
  match sv_acceptor s with
  | Sending e => Some (mkService (sv_ifaceName s) (sv_uapi s) Ended (sv_handled s), e)
  | _ => None
  end.

(** The next connection, on a listener that is open. *)
Definition accept_conn (s : service) : option service :=
  match sv_acceptor s, sv_uapi s with
  | Accepting, Some true =>
      Some (mkService (sv_ifaceName s) (sv_uapi s) Accepting (S (sv_handled s)))
  | _, _ => None
  end.

(** [Accept] fails: after the listener was closed, or before. *)
Definition accept_fails (p : platform) (e : error) (s : service) : option service :=
  match sv_acceptor s with
  | Accepting =>
      Some (mkService (sv_ifaceName s) (sv_uapi s) (Sending (accept_error p e)) (sv_handled s))
  | _ => None
  end.

(** ** Interleavings *)

Inductive event :=
| EvConn
| EvFail (e : error)
| EvClose
| EvReceive.

Definition svc_exec (p : platform) (ev : event) (s : service) : option service :=
  match ev with
  | EvConn => accept_conn s
  | EvFail e => accept_fails p e s
  | EvClose => Stop_close s
  | EvReceive => fst <$> Stop_receive s
  end.

Fixpoint svc_run (p : platform) (evs : list event) (s : service) : option service :=
  match evs with
  | [] => Some s
  | ev :: evs => s' ← svc_exec p ev s; svc_run p evs s'
  end.

(** A call of [Stop] that has returned is a receive. *)
Definition is_receive (ev : event) : bool := match ev with EvReceive => true | _ => false end.

Definition no_receive (evs : list event) : bool := forallb (fun ev => negb (is_receive ev)) evs.

(** Events of the goroutine. *)
Definition of_goroutine (ev : event) : bool :=
  match ev with EvConn | EvFail _ => true | _ => false end.

(** The errors of [Accept] in some events. *)
Definition failures (evs : list event) : list error :=
  omap (fun ev => match ev with EvFail e => Some e | _ => None end) evs.

(** Before a call of [Stop] has returned the goroutine is alive, and what it sends is
    what it makes of the one error of [Accept] that there was. *)
Definition alive (p : platform) (es : list error) (s : service) : Prop :=
  is_Some (sv_uapi s) /\
  (es = [] /\ sv_acceptor s = Accepting \/
   exists e, es = [e] /\ sv_acceptor s = Sending (accept_error p e)).

Lemma alive_exec p ev es s s' :
  is_receive ev = false -> alive p es s -> svc_exec p ev s = Some s' ->
  alive p (es ++ failures [ev]) s'.
Proof.
  intros Hr [Hu Ha] H. destruct s as [n u a k], ev as [|e| |]; try done; cbn in *;
    rewrite ?app_nil_r.
  - unfold accept_conn in H. cbn in H. destruct a; try done. destruct u as [[]|]; simplify_eq.
    split; naive_solver.
  - unfold accept_fails in H. cbn in H. destruct a; simplify_eq. split; [done|]. cbn.
    destruct Ha as [[-> _]|(e' & _ & [=])]. right. by exists e.
  - unfold Stop_close in H. cbn in H. destruct u; simplify_eq. split; [by eexists|done].
Qed.

Lemma alive_run p evs es s s' :
  no_receive evs = true -> alive p es s ->
  svc_run p evs s = Some s' -> alive p (es ++ failures evs) s'.
Proof.
  revert es s. induction evs as [|ev evs IH]; intros es s Hr Hs H.
  { simplify_eq/=. by rewrite app_nil_r. }
  cbn in Hr, H. apply andb_true_iff in Hr as [Hr Hrs]. apply negb_true_iff in Hr.
  destruct (svc_exec p ev s) as [s1|] eqn:E; [|done].
  change (ev :: evs) with ([ev] ++ evs). unfold failures. rewrite omap_app, (assoc (++)).
  eapply IH; [done| |exact H]. by eapply alive_exec.
Qed.

Lemma Start_alive p UAPIOpen UAPIListen name s :
  Start p UAPIOpen UAPIListen (NewWireguardCtrlService name) = (s, None) -> alive p [] s.
Proof.
  unfold Start, startUAPI_unix, startUAPI_windows. intros H.
  destruct p; repeat case_match; simplify_eq; (split; [by eexists|by left]).
Qed.

(** Once the goroutine has ended nothing receives any more. *)
Lemma ended_run p evs s s' :
  sv_acceptor s = Ended -> svc_run p evs s = Some s' ->
  sv_acceptor s' = Ended /\ no_receive evs = true.
Proof.
  revert s. induction evs as [|ev evs IH]; intros s Hs H; [by simplify_eq/=|]. cbn in H |- *.
  destruct s as [n u a k]. cbn in Hs. subst a. destruct ev; try done; cbn in H.
  unfold Stop_close in H. cbn in H. destruct u; [|done]. cbn in H. by eapply IH in H.
Qed.

(** A closed listener leaves the goroutine one step. *)
Lemma closed_goroutine p evs s s' :
  sv_uapi s = Some false -> forallb of_goroutine evs = true -> svc_run p evs s = Some s' ->
  length evs <= 1.
Proof.
  intros Hu Hg H. destruct evs as [|ev [|ev2 evs]]; cbn; [lia..|]. exfalso.
  destruct s as [n u a k]. cbn in Hu. subst u. cbn in Hg, H. rewrite !andb_true_iff in Hg.
  destruct Hg as (Hg1 & Hg2 & _).
  destruct ev; try done; destruct a; try done; cbn in H. by destruct ev2.
Qed.

Lemma svc_run_app p evs1 evs2 s :
  svc_run p (evs1 ++ evs2) s = (svc_run p evs1 s ≫= svc_run p evs2).
Proof.
  revert s. induction evs1 as [|ev evs1 IH]; intros s; [done|]. cbn.
  destruct (svc_exec p ev s); [apply IH|done].
Qed.

Lemma receive_last p evs1 evs2 s s' :
  svc_run p (evs1 ++ EvReceive :: evs2) s = Some s' -> no_receive evs2 = true.
Proof.
  rewrite svc_run_app. intros (s1 & _ & H)%bind_Some. cbn in H.
  unfold Stop_receive in H. destruct (sv_acceptor s1); try done. cbn in H.
  by eapply ended_run in H as [_ ?].
Qed.

(** What a call of [Stop] may return when [Accept] failed with [e]. *)
Definition stop_result (p : platform) (e : error) (ret : option error) : Prop :=
  match p with
  | Windows => ret = None
  | Unix => (e = EBADF -> ret = None) /\ (e <> EBADF -> ret = Some e)
  end.

Lemma accept_error_result p e : stop_result p e (accept_error p e).
Proof.
  destruct p; cbn; [|done]. split; intros He; [by rewrite decide_True|by rewrite decide_False].
Qed.

(** C27. [Stop] of a control service.  After a [Start] that succeeds, however connections,
    errors and calls of [Stop] are interleaved, the first call of [Stop] to wait for the
    goroutine returns: once the listener is closed the goroutine takes at most one more
    step, the accept that fails, and then the receive is enabled.  [Stop] returns nil on
    Windows; on Unix it returns nil when [Accept] failed with EBADF, and otherwise the
    error of [Accept], be it the one that came before the listener was closed or the one
    that comes after.  After one call has received, no other call of [Stop] ever does.
    After a [Start] that fails there is no listener, and [Stop] returns at once. *)
Theorem ctrl_stop_returns_once p name UAPIOpen UAPIListen s0 err evs s
  (Hstart : Start p UAPIOpen UAPIListen (NewWireguardCtrlService name) = (s0, err))
  (Hrun : svc_run p evs s0 = Some s) (Hfirst : no_receive evs = true) :
  match err with
  | Some _ => Stop_close s0 = None
  | None =>
      (exists closed, svc_exec p EvClose s = Some closed /\
         (forall evs' s', forallb of_goroutine evs' = true ->
            svc_run p evs' closed = Some s' -> length evs' <= 1) /\
         match failures evs with
         | e :: _ => exists s2 ret, Stop_receive closed = Some (s2, ret) /\ stop_result p e ret
         | [] => forall e, exists s1 s2 ret, svc_exec p (EvFail e) closed = Some s1 /\
                   Stop_receive s1 = Some (s2, ret) /\ stop_result p e ret
         end) /\
      (forall evs1 evs2 s', svc_run p (evs1 ++ EvReceive :: evs2) s = Some s' ->
         no_receive evs2 = true)
  end.
Proof.
  destruct err as [err|].
  { unfold Start, startUAPI_unix, startUAPI_windows in Hstart.
    destruct p; repeat case_match; by simplify_eq. }
  destruct (alive_run p evs _ _ _ Hfirst (Start_alive _ _ _ _ _ Hstart) Hrun) as [[b Hu] Ha].
  cbn [app] in Ha. clear Hrun Hstart. split; [|intros; by eapply receive_last].
  destruct s as [n u a k]. cbn in Hu, Ha. subst u. eexists. split; [reflexivity|]. split.
  - intros evs' s' Hg H. eapply closed_goroutine; [|exact Hg|exact H]. done.
  - destruct Ha as [[-> ->]|(e & -> & ->)]; cbn.
    + intros e. eexists _, _, _. split; [reflexivity|]. split; [reflexivity|]. apply accept_error_result.
    + eexists _, _. split; [reflexivity|]. apply accept_error_result.
Qed.

Definition served0 : service := (Start Unix None None (NewWireguardCtrlService "wg0")).1.

Lemma ctrl_stop_returns_once_witness :
  exists s, svc_run Unix [EvConn; EvConn; EvFail Canceled] served0 = Some s /\
    (exists closed s2 ret, svc_exec Unix EvClose s = Some closed /\
       Stop_receive closed = Some (s2, ret) /\ ret = Some Canceled) /\
    forall evs1 evs2 s', svc_run Unix (evs1 ++ EvReceive :: evs2) s = Some s' ->
      no_receive evs2 = true.
Proof.
  eexists. split; [reflexivity|].
  destruct (ctrl_stop_returns_once Unix "wg0" None None served0 None
    [EvConn; EvConn; EvFail Canceled] _ eq_refl eq_refl eq_refl)
    as [(closed & Hc & _ & s2 & ret & Hr & Hret) H2].
  split; [|exact H2]. exists closed, s2, ret. split; [exact Hc|]. split; [exact Hr|].
  apply Hret. discriminate.
Defined.
