(* ===== verification/WireguardClient.v ===== *)
(** * vpn/wireguard_ctrl.go, vpn/wireguard_client.go and vpn/wireguard_client_unix.go

    The WireGuard client of Linux and macOS: bringing up the tunnel and its routes,
    tearing them down, and recording the traffic of the device in two counters.  The
    operating system, wireguard-go and wgctrl are arguments: every call they may fail
    has its outcome in an environment. *)

From S2P Require Import Prelude GoStrings GoNet WGTypes Counter Events Monitor WireguardConfig.

(** ** The control client *)

Section Ctrl.
Context `{keys : WGKeys}.

(** The loop of [WGCtrlClient.BytesTransmitted] over the device's peers. *)
Fixpoint sum_peers (recd sent : Z) (peers : list Peer) : Z * Z :=
  match peers with
  | [] => (recd, sent)
  | p :: peers => sum_peers (recd +64 p_ReceiveBytes p) (sent +64 p_TransmitBytes p) peers
  end.

(** Bytes received, bytes sent, and the error of reading the device. *)
Definition ctrl_BytesTransmitted (device : error + Device) : Z * Z * option error :=
  match device with
  | inl e => ((-1)%Z, (-1)%Z, Some e)
  | inr d => (sum_peers 0 0 (d_Peers d), None)
  end.

Definition ctrl_PublicKey (device : error + Device) : result string :=
  match device with
  | inl e => Err e
  | inr d => Ok (Key_String (d_PublicKey d))
  end.

Section Status.
Variable DeviceType_String : Z -> string.
Variable Time_String : gotime -> string.

Definition peer_status (p : Peer) : string :=
  NL +:+ "peer: " +:+ Key_String (p_PublicKey p) +:+ NL +:+
  "  endpoint: " +:+ UDPAddr_String (p_Endpoint p) +:+ NL +:+
  "  allowed ips: " +:+ Join ", " (IPNet_String <$> p_AllowedIPs p) +:+ NL +:+
  "  latest handshake: " +:+ Time_String (p_LastHandshakeTime p) +:+ NL +:+
  "  transfer: " +:+ format_int (p_ReceiveBytes p) +:+ " B received, " +:+
    format_int (p_TransmitBytes p) +:+ " B sent" +:+ NL.

Definition StatusText (device : error + Device) : result string :=
  match device with
  | inl e => Err e
  | inr d =>
      Ok ("interface: " +:+ d_Name d +:+ " (" +:+ DeviceType_String (d_Type d) +:+ ")" +:+ NL +:+
          "  public key: " +:+ Key_String (d_PublicKey d) +:+ NL +:+
          "  private key: (hidden)" +:+ NL +:+
          foldr (fun p s => peer_status p +:+ s) EmptyString (d_Peers d))
  end.

End Status.

Lemma sum_peers_spec recd sent peers :
  int64_range recd -> int64_range sent ->
  sum_peers recd sent peers
    = (wrap64 (recd + sum_by p_ReceiveBytes peers), wrap64 (sent + sum_by p_TransmitBytes peers)).
Proof.
  revert recd sent. induction peers as [|p peers IH]; intros recd sent Hr Hs; cbn [sum_peers].
  { rewrite !sum_by_nil, !Z.add_0_r. by rewrite !wrap64_id. }
  rewrite IH by auto with go. rewrite !sum_by_cons. f_equal; eqm.
Qed.

End Ctrl.

(** ** Metrics *)

Record metrics := mkMetrics {
  m_sent : Counter;
  m_recd : Counter;
  m_metricsError : option error;
}.

Definition new_metrics : metrics :=
  mkMetrics (NewCounter "sent" true true) (NewCounter "recd" true true) None.

(** The monitor of the client, with both counters, when there is a monitor service. *)
Definition register_counters (sent recd : counter_ref) (ms : MonitorService) : MonitorService :=
  set_monitors ms (s_monitors ms ++
    [AddCounter recd (AddCounter sent (mkMonitor "space-vpn" []))]).

(** [newWireguardClient]: the client's counters, at the two addresses, and the monitor
    service; [nc] is the error of [NewNetworkContext]. *)
Definition newWireguardClient (nc : option error) (sent recd : counter_ref)
    (ms : option MonitorService) : result (metrics * option MonitorService) :=
  match nc with
  | Some e => Err e
  | None => Ok (new_metrics, register_counters sent recd <$> ms)
  end.

(** One run of the metrics timer, for what the control client returned. *)
Definition recordNetworkMetrics (r : Z * Z * option error) (m : metrics) : metrics :=
  let '(recd, sent, err) := r in
  match err with
  | Some e => mkMetrics (m_sent m) (m_recd m) (Some e)
  | None =>
      mkMetrics (if (0 <? sent)%Z then Set_ sent (m_sent m) else m_sent m)
                (if (0 <? recd)%Z then Set_ recd (m_recd m) else m_recd m) (m_metricsError m)
  end.

Definition BytesTransmitted (m : metrics) : Z * Z * option error :=
  (Get (m_recd m), Get (m_sent m), m_metricsError m).

(** What happens to the counters of a client: its own timer runs, and the monitor
    service collects. *)
Inductive metrics_op :=
| MRecord (r : Z * Z * option error)
| MCollect (now : Z).

Definition metrics_step (m : metrics) (o : metrics_op) : metrics * (Z * Z) :=
  match o with
  | MRecord r => (recordNetworkMetrics r m, (0, 0)%Z)
  | MCollect now =>
      let (rs, r) := collect_counter now (m_recd m) in
      let (ss, s) := collect_counter now (m_sent m) in
      (mkMetrics s r (m_metricsError m),
       (sum_by cs_Value (option_list rs), sum_by cs_Value (option_list ss)))
  end.

(** The bytes received and sent that the snapshots of a history report. *)
Fixpoint run_metrics (m : metrics) (os : list metrics_op) : metrics * (Z * Z) :=
  match os with
  | [] => (m, (0, 0)%Z)
  | o :: os =>
      let '(m, (r1, s1)) := metrics_step m o in
      let '(m, (r2, s2)) := run_metrics m os in
      (m, (r1 + r2, s1 + s2)%Z)
  end.

(** The last positive total that the device reported. *)
Definition last_total (pick : Z * Z -> Z) (old : Z) (o : metrics_op) : Z :=
  match o with
  | MRecord (totals, None) => if (0 <? pick totals)%Z then pick totals else old
  | _ => old
  end.

Definition record_ok (o : metrics_op) : Prop :=
  match o with
  | MRecord (recd, sent, _) => int64_range recd /\ int64_range sent
  | MCollect _ => True
  end.

(** The counter of one direction after a history, and what its snapshots add up to. *)
Definition dir_inv (c : Counter) (reported total : Z) : Prop :=
  counter_ok c /\ c_cumalative c = true /\ c_cumalativeValue c =64 reported /\ Get c = total.

Lemma dir_inv_set c r t v : int64_range v -> dir_inv c r t -> dir_inv (Set_ v c) r v.
Proof.
  intros Hv (Hok & Hc & Hr & _). unfold dir_inv.
  pose proof (counter_step_cumalative c (OpSet v)) as H1. cbn in H1.
  pose proof (counter_step_balance c (OpSet v) Hc) as H2. cbn in H2. rewrite Z.add_0_r in H2.
  split_and!; [by apply Set_ok|congruence|by rewrite H2|by apply Get_Set].
Qed.

Lemma dir_inv_collect now c r t :
  dir_inv c r t ->
  dir_inv (collect_counter now c).2
    (r + sum_by cs_Value (option_list (collect_counter now c).1)) t.
Proof.
  intros (Hok & Hc & Hr & Ht). unfold dir_inv.
  pose proof (counter_step_cumalative c (OpCollect now)) as H1. cbn [counter_step] in H1.
  pose proof (counter_step_balance c (OpCollect now) Hc) as H2. cbn [counter_step] in H2.
  split_and!; [by apply collect_counter_ok|congruence|by rewrite H2, Hr|by rewrite Get_collect].
Qed.

Definition metrics_inv (m : metrics) (reported totals : Z * Z) : Prop :=
  dir_inv (m_recd m) reported.1 totals.1 /\ dir_inv (m_sent m) reported.2 totals.2.

Lemma metrics_step_inv m o r t :
  record_ok o -> metrics_inv m r t ->
  metrics_inv (metrics_step m o).1
    (r.1 + (metrics_step m o).2.1, r.2 + (metrics_step m o).2.2)%Z
    (last_total fst t.1 o, last_total snd t.2 o).
Proof.
  intros Ho [Hr Hs]. destruct o as [[[recd sent] [e|]]|now]; cbn [metrics_step].
  - cbn. rewrite !Z.add_0_r. by split.
  - destruct Ho as [Hor Hos]. cbn. rewrite !Z.add_0_r. split; cbn; case_match; try done;
      by eapply dir_inv_set.
  - pose proof (dir_inv_collect now _ _ _ Hr) as Hr'. pose proof (dir_inv_collect now _ _ _ Hs) as Hs'.
    destruct (collect_counter now (m_recd m)), (collect_counter now (m_sent m)). by split.
Qed.

Lemma run_metrics_inv os m r t :
  Forall record_ok os -> metrics_inv m r t ->
  metrics_inv (run_metrics m os).1
    (r.1 + (run_metrics m os).2.1, r.2 + (run_metrics m os).2.2)%Z
    (foldl (last_total fst) t.1 os, foldl (last_total snd) t.2 os).
Proof.
  intros Hos. revert m r t. induction Hos as [|o os Ho Hos IH]; intros m r t Hm.
  { cbn. rewrite !Z.add_0_r. by destruct r, t. }
  cbn [run_metrics foldl]. pose proof (metrics_step_inv m o r t Ho Hm) as H1.
  destruct (metrics_step m o) as [m1 [r1 s1]]. cbn [fst snd] in H1.
  specialize (IH m1 _ _ H1). cbn [fst snd] in IH.
  destruct (run_metrics m1 os) as [m2 [r2 s2]]. cbn [fst snd] in *. by rewrite !Z.add_assoc.
Qed.

Lemma dir_inv_pending c r t : dir_inv c r t -> t = wrap64 (r + c_value c).
Proof.
  intros (Hok & _ & Hr & <-). unfold Get. apply eqm64_inj; [auto with go..|].
  rewrite !wrap64_eqm, Hr. by rewrite Z.add_comm.
Qed.


(** An error of reading the device is never taken back: once a run of the timer has
    failed, [BytesTransmitted] returns that error for as long as no other replaces
    it, however many runs succeed after it. *)
Theorem metrics_error_sticks (m : metrics) (recd sent : Z) (e : error)
  (rs : list (Z * Z)) :
  (BytesTransmitted (foldl (fun m r => recordNetworkMetrics (r, None) m)
     (recordNetworkMetrics (recd, sent, Some e) m) rs)).2 = Some e.
Proof.
  assert (forall m, m_metricsError m = Some e ->
    m_metricsError (foldl (fun m r => recordNetworkMetrics (r, None) m) m rs) = Some e) as H.
  { induction rs as [|[r s] rs IH]; intros m' Hm; [done|]. cbn [foldl]. by apply IH. }
  by apply H.
Qed.

(** ** Connecting and disconnecting *)

(** The goroutine that [Connect] starts: it waits for a request to close or for the end
    of the device, releases everything, of which the first [k] steps are done, and
    then waits for a reader of [disconnected]. *)
Inductive watcher := NotStarted | Waiting | Releasing (k : nat) | Reporting.

Inductive net_action :=
| DisableIPv6
| AddExternalRouteToIPs (ips : list string)
| NewRoutableInterface (ifaceName address : string)
| MakeDefaultRoute
| AddDNSServers (servers : list string)
| AddSearchDomains (domains : list string).

(** What the client holds: [w_net] are the changes to the network that have not been
    cleared, [w_metricsTimer] is [None] before the timer is made. *)
Record world := mkWorld {
  w_ifaceName : string;
  w_tunnel : bool;
  w_device : bool;
  w_uapi : bool;
  w_watcher : watcher;
  w_net : list net_action;
  w_metricsTimer : option bool;
}.

Definition idle : world := mkWorld EmptyString false false false NotStarted [] None.

(** The outcomes of the calls of [Connect], in order.  A call that fails changes
    nothing. *)
Record env := mkEnv {
  e_darwin : bool;
  e_GetNextAvailabeInterface : string -> string * option error;
  e_CreateTUN : option error;
  e_tunnel_Name : result string;
  e_device_Up : option error;
  e_uapi_Start : option error;
  e_NewWireguardCtrlClient : option error;
  e_Configure : option error;
  e_DisableIPv6 : option error;
  e_NewRouteManager : option error;
  e_AddExternalRouteToIPs : option error;
  e_NewRoutableInterface : option error;
  e_MakeDefaultRoute : option error;
  e_NewDNSManager : option error;
  e_AddDNSServers : option error;
  e_AddSearchDomains : option error;
  e_metricsTimer_Start : option error;
}.

Definition set_iface (w : world) (n : string) : world :=
  mkWorld n (w_tunnel w) (w_device w) (w_uapi w) (w_watcher w) (w_net w) (w_metricsTimer w).
Definition open_tunnel (w : world) : world :=
  mkWorld (w_ifaceName w) true (w_device w) (w_uapi w) (w_watcher w) (w_net w) (w_metricsTimer w).
Definition open_device (w : world) : world :=
  mkWorld (w_ifaceName w) (w_tunnel w) true (w_uapi w) (w_watcher w) (w_net w) (w_metricsTimer w).
Definition open_uapi (w : world) : world :=
  mkWorld (w_ifaceName w) (w_tunnel w) (w_device w) true (w_watcher w) (w_net w)
    (w_metricsTimer w).
Definition start_watcher (w : world) : world :=
  mkWorld (w_ifaceName w) (w_tunnel w) (w_device w) (w_uapi w) Waiting (w_net w)
    (w_metricsTimer w).
Definition change_net (a : net_action) (w : world) : world :=
  mkWorld (w_ifaceName w) (w_tunnel w) (w_device w) (w_uapi w) (w_watcher w) (w_net w ++ [a])
    (w_metricsTimer w).
Definition set_metricsTimer (w : world) (on : bool) : world :=
  mkWorld (w_ifaceName w) (w_tunnel w) (w_device w) (w_uapi w) (w_watcher w) (w_net w) (Some on).

(** The deferred function, when [err] is set. *)
Definition close_both (w : world) : world :=
  mkWorld (w_ifaceName w) false false (w_uapi w) (w_watcher w) (w_net w) (w_metricsTimer w).

(** Calls up to the first that fails. *)
Fixpoint run_steps (steps : list (option error * (world -> world))) (w : world)
    : world * option error :=
  match steps with
  | [] => (w, None)
  | (Some e, _) :: _ => (w, Some e)
  | (None, f) :: steps => run_steps steps (f w)
  end.

Section Connect.
Context `{keys : WGKeys}.
Variable cfg : wireguardConfig.

(** The calls before the watcher is started, and those after it. *)
Definition start_steps (v : env) : list (option error * (world -> world)) :=
  [(e_device_Up v, id); (e_uapi_Start v, open_uapi);
   (e_NewWireguardCtrlClient v, start_watcher)].

Definition network_steps (v : env) (ifaceName : string)
    : list (option error * (world -> world)) :=
  [(e_Configure v, id);
   (e_DisableIPv6 v, change_net DisableIPv6);
   (e_NewRouteManager v, id);
   (e_AddExternalRouteToIPs v, change_net (AddExternalRouteToIPs (peerAddresses cfg)));
   (e_NewRoutableInterface v, change_net (NewRoutableInterface ifaceName (tunAddress cfg)))]
  ++ (if isDefaultRoute cfg then [(e_MakeDefaultRoute v, change_net MakeDefaultRoute)] else [])
  ++ [(e_NewDNSManager v, id);
      (e_AddDNSServers v, change_net (AddDNSServers [tunDNS cfg]));
      (e_AddSearchDomains v, change_net (AddSearchDomains []))].

(** The world [Connect] leaves and the error it returns.  The deferred function looks at
    the variable [err], which the start of the timer also sets; what is returned
    after that is nil. *)
Definition Connect (v : env) (w : world) : world * option error :=
  let (name, err) := e_GetNextAvailabeInterface v (if e_darwin v then "utun" else "wg") in
  let w := set_iface w name in
  match err with
  | Some e => (w, Some e)
  | None =>
      match e_CreateTUN v with
      | Some e => (w, Some e)
      | None =>
          let w := open_tunnel w in
          let w := match e_tunnel_Name v with Ok n => set_iface w n | _ => w end in
          let w := open_device w in
          let (w, err) := run_steps (start_steps v ++ network_steps v (w_ifaceName w)) w in
          match err with
          | Some e => (close_both w, Some e)
          | None =>
              match e_metricsTimer_Start v with
              | Some _ => (close_both (set_metricsTimer w false), None)
              | None => (set_metricsTimer w true, None)
              end
          end
      end
  end.

(** The steps of the watcher once it has been woken: the listener is stopped, the tunnel
    closed, the network cleared, and the device closed. *)
Definition set_watcher (w : world) (x : watcher) : world :=
  mkWorld (w_ifaceName w) (w_tunnel w) (w_device w) (w_uapi w) x (w_net w) (w_metricsTimer w).
Definition close_uapi (w : world) : world :=
  mkWorld (w_ifaceName w) (w_tunnel w) (w_device w) false (w_watcher w) (w_net w)
    (w_metricsTimer w).
Definition close_tunnel (w : world) : world :=
  mkWorld (w_ifaceName w) false (w_device w) (w_uapi w) (w_watcher w) (w_net w)
    (w_metricsTimer w).
Definition clear_net (w : world) : world :=
  mkWorld (w_ifaceName w) (w_tunnel w) (w_device w) (w_uapi w) (w_watcher w) []
    (w_metricsTimer w).
Definition close_device (w : world) : world :=
  mkWorld (w_ifaceName w) (w_tunnel w) false (w_uapi w) (w_watcher w) (w_net w)
    (w_metricsTimer w).

Definition watcher_steps : list (world -> world) :=
  [close_uapi; close_tunnel; clear_net; close_device].

Definition run_watcher (from : nat) (w : world) : world :=
  set_watcher (foldl (fun w f => f w) w (drop from watcher_steps)) Reporting.

Definition watcher_release (w : world) : world := run_watcher 0 w.

(** The end of the device wakes a watcher that waits. *)
Definition settle (w : world) : world :=
  match w_watcher w with
  | Waiting => if w_device w then w else watcher_release w
  | _ => w
  end.

Definition stop_timer (w : world) : world :=
  mkWorld (w_ifaceName w) (w_tunnel w) (w_device w) (w_uapi w) (w_watcher w) (w_net w)
    (match w_metricsTimer w with Some _ => Some false | None => None end).

(** [None]: the send on [close] has no receiver, and [Disconnect] does not return.
    [timeout] is [Some k] when half a second is over after [k] steps of the watcher;
    then [Disconnect] clears the network itself. *)
Definition Disconnect (timeout : option nat) (w : world) : option world :=
  let w := stop_timer w in
  match w_watcher w with
  | Waiting =>
      Some (match timeout with
            | None => set_watcher (watcher_release w) NotStarted
            | Some k => clear_net (set_watcher (foldl (fun w f => f w) w (take k watcher_steps))
                          (Releasing k))
            end)
  | _ => None
  end.

(** ** What they guarantee *)

Lemma run_steps_ok steps w :
  Forall (fun s => s.1 = None) steps ->
  run_steps steps w = (foldl (fun w s => s.2 w) w steps, None).
Proof.
  intros H. revert w. induction H as [|[o f] steps Ho _ IH]; intros w; [done|].
  cbn in Ho. subst o. apply IH.
Qed.

Lemma run_steps_app s1 s2 w :
  run_steps (s1 ++ s2) w =
    match run_steps s1 w with (w, None) => run_steps s2 w | r => r end.
Proof.
  revert w. induction s1 as [|[[e|] f] s1 IH]; intros w; [done|done|]. apply IH.
Qed.

(** The network calls leave everything but the network alone. *)
Lemma network_steps_keep v n w w' err :
  run_steps (network_steps v n) w = (w', err) ->
  w_tunnel w' = w_tunnel w /\ w_device w' = w_device w /\ w_uapi w' = w_uapi w /\
  w_watcher w' = w_watcher w /\ w_metricsTimer w' = w_metricsTimer w.
Proof.
  assert (forall steps, Forall (fun s : option error * (world -> world) =>
    s.2 = id \/ exists a, s.2 = change_net a) steps -> forall w,
    run_steps steps w = (w', err) ->
    w_tunnel w' = w_tunnel w /\ w_device w' = w_device w /\ w_uapi w' = w_uapi w /\
    w_watcher w' = w_watcher w /\ w_metricsTimer w' = w_metricsTimer w) as H.
  { intros steps Hs. induction Hs as [|[[e|] f] steps Hf _ IH]; intros w0 H0; cbn in H0;
      [by simplify_eq|by simplify_eq|]. apply IH in H0. by destruct Hf as [Hf|[a Hf]]; cbn in Hf; subst f. }
  apply H. unfold network_steps. destruct (isDefaultRoute cfg); cbn [app];
    repeat (apply Forall_cons_2; [cbn; eauto|]); apply Forall_nil_2.
Qed.

(** All the calls of [Connect] succeed. *)
Definition all_ok (v : env) : Prop :=
  (forall p, (e_GetNextAvailabeInterface v p).2 = None) /\
  Forall (fun o => o = None)
    [e_CreateTUN v; e_device_Up v; e_uapi_Start v; e_NewWireguardCtrlClient v; e_Configure v;
     e_DisableIPv6 v; e_NewRouteManager v; e_AddExternalRouteToIPs v; e_NewRoutableInterface v;
     e_MakeDefaultRoute v; e_NewDNSManager v; e_AddDNSServers v; e_AddSearchDomains v;
     e_metricsTimer_Start v].

(** The changes a connection makes to the network. *)
Definition connected_net (ifaceName : string) : list net_action :=
  [DisableIPv6; AddExternalRouteToIPs (peerAddresses cfg);
   NewRoutableInterface ifaceName (tunAddress cfg)]
  ++ (if isDefaultRoute cfg then [MakeDefaultRoute] else [])
  ++ [AddDNSServers [tunDNS cfg]; AddSearchDomains []].

(** A connection in which every call succeeds. *)
Lemma connect_all_ok (v : env) (Hv : all_ok v) :
  exists n, Connect v idle = (mkWorld n true true true Waiting (connected_net n) (Some true), None).
Proof.
  destruct Hv as [Hi Hv]. rewrite !Forall_cons in Hv.
  destruct Hv as (Htun & Hup & Huapi & Hctrl & Hconf & H6 & Hrm & Hext & Hri & Hdef & Hdm & Hdns & Hsd & Hmt & _).
  unfold Connect. specialize (Hi (if e_darwin v then "utun" else "wg")).
  destruct (e_GetNextAvailabeInterface v _) as [n0 err]. cbn in Hi. subst err. rewrite Htun.
  exists (match e_tunnel_Name v with Ok n => n | _ => n0 end). rewrite run_steps_ok.
  - unfold start_steps, network_steps, connected_net. rewrite Hmt.
    destruct (e_tunnel_Name v); destruct (isDefaultRoute cfg); reflexivity.
  - unfold start_steps, network_steps. destruct (isDefaultRoute cfg); cbn [app];
      repeat (apply Forall_cons_2; [done|]); apply Forall_nil_2.
Qed.

(** C24. When every call succeeds, [Connect] returns no error and leaves the tunnel, the
    device, the listener, the watcher and the timer running, with the routes around
    and into the tunnel, the default route exactly when the configuration asks for
    it, and its name server, in this order.  [Disconnect] then returns with all of it
    released if the watcher reports in time; if it does not, however far the watcher
    got, the network is clear when [Disconnect] returns and everything is released
    when the watcher is through. *)
Theorem connect_disconnect (v : env) (Hv : all_ok v) :
  exists n, Connect v idle = (mkWorld n true true true Waiting (connected_net n) (Some true), None)
    /\ Disconnect None (Connect v idle).1
         = Some (mkWorld n false false false NotStarted [] (Some false)) /\
    forall k, exists w', Disconnect (Some k) (Connect v idle).1 = Some w' /\
      w_net w' = [] /\
      run_watcher k w' = mkWorld n false false false Reporting [] (Some false).
Proof.
  destruct (connect_all_ok v Hv) as [n Hc].
  rewrite Hc. exists n. split_and!; [done..|]. intros k. eexists. split; [reflexivity|].
  split; [done|]. by destruct k as [|[|[|[|[|k]]]]].
Qed.

Lemma start_steps_failed v w w' e :
  run_steps (start_steps v) w = (w', Some e) ->
  w_net w' = w_net w /\ w_watcher w' = w_watcher w /\
  (e_NewWireguardCtrlClient v = None -> w_uapi w' = w_uapi w).
Proof.
  unfold start_steps. intros H.
  destruct (e_device_Up v), (e_uapi_Start v), (e_NewWireguardCtrlClient v); cbn in H;
    simplify_eq; done.
Qed.

(** C25. A connection that fails, at whatever call, leaves no tunnel, no device and no
    change to the network once the watcher has seen the end of the device; the
    control listener is closed too, unless it was the control client that could not
    be made. *)
Theorem connect_failure_releases (v : env) (w : world) (e : error)
  (H : Connect v idle = (w, Some e)) :
  w_tunnel (settle w) = false /\ w_device (settle w) = false /\ w_net (settle w) = [] /\
  (e_NewWireguardCtrlClient v = None -> w_uapi (settle w) = false).
Proof.
  unfold Connect in H. destruct (e_GetNextAvailabeInterface v _) as [n [e0|]]; [by simplify_eq|].
  destruct (e_CreateTUN v); [by simplify_eq|]. rewrite run_steps_app in H.
  set (w0 := open_device _) in H.
  assert (w_net w0 = [] /\ w_watcher w0 = NotStarted /\ w_uapi w0 = false) as (Hn0 & Hw0 & Hu0).
  { subst w0. by destruct (e_tunnel_Name v). }
  destruct (run_steps (start_steps v) w0) as [w1 [e1|]] eqn:E1.
  - simplify_eq. apply start_steps_failed in E1 as (Hn & Hw & Hu).
    unfold settle. cbn. rewrite Hw, Hw0. cbn. rewrite Hn. split_and!; try done.
    intros Hc. by rewrite Hu.
  - destruct (run_steps (network_steps v _) w1) as [w2 [e2|]] eqn:E2;
      [|by destruct (e_metricsTimer_Start v)].
    simplify_eq. apply network_steps_keep in E2 as (_ & _ & _ & Hw & _).
    assert (w_watcher w1 = Waiting) as Hw1.
    { unfold start_steps in E1.
      destruct (e_device_Up v), (e_uapi_Start v), (e_NewWireguardCtrlClient v); cbn in E1;
        by simplify_eq. }
    unfold settle. cbn. rewrite Hw, Hw1. by cbn.
Qed.

(** A metrics timer that does not start closes the tunnel and the device behind a
    [Connect] that reports success; the watcher then releases the rest and stops
    waiting, and [Disconnect] does not return. *)
Theorem metrics_failure_closes_tunnel (v : env) (e : error)
  (Hv : all_ok (mkEnv (e_darwin v) (e_GetNextAvailabeInterface v) (e_CreateTUN v)
     (e_tunnel_Name v) (e_device_Up v) (e_uapi_Start v) (e_NewWireguardCtrlClient v)
     (e_Configure v) (e_DisableIPv6 v) (e_NewRouteManager v) (e_AddExternalRouteToIPs v)
     (e_NewRoutableInterface v) (e_MakeDefaultRoute v) (e_NewDNSManager v) (e_AddDNSServers v)
     (e_AddSearchDomains v) None))
  (He : e_metricsTimer_Start v = Some e) :
  (Connect v idle).2 = None /\ w_tunnel (Connect v idle).1 = false /\
  w_device (Connect v idle).1 = false /\ w_net (settle (Connect v idle).1) = [] /\
  forall timeout, Disconnect timeout (settle (Connect v idle).1) = None.
Proof.
  destruct Hv as [Hi Hv]. cbn in Hi, Hv. rewrite !Forall_cons in Hv.
  destruct Hv as (Htun & Hup & Huapi & Hctrl & Hconf & H6 & Hrm & Hext & Hri & Hdef & Hdm & Hdns & Hsd & _ & _).
  unfold Connect. specialize (Hi (if e_darwin v then "utun" else "wg")).
  destruct (e_GetNextAvailabeInterface v _) as [n0 err]. cbn in Hi. subst err.
  rewrite Htun, run_steps_ok.
  - rewrite He. unfold start_steps, network_steps.
    destruct (e_tunnel_Name v); destruct (isDefaultRoute cfg); by split_and!.
  - unfold start_steps, network_steps. destruct (isDefaultRoute cfg); cbn [app];
      repeat (apply Forall_cons_2; [done|]); apply Forall_nil_2.
Qed.

End Connect.

(** ** A client on a machine where everything works, and two where something does not *)

Definition good_env (ctrl metrics_start : option error) : env :=
  mkEnv false (fun p => (p +:+ "0", None)) None (Err Canceled) None None ctrl None None None None
    None None None None None metrics_start.

Definition cfg1 : wireguardConfig (keys := plain_keys) :=
  set_isDefaultRoute (set_tunDNS (set_tunAddress (newConfig "space" EmptyString) "10.12.16.2/32")
    "10.12.16.1").

Lemma good_env_ok : all_ok (good_env None None).
Proof.
  split; [done|]. repeat (apply Forall_cons_2; [done|]). apply Forall_nil_2.
Qed.

Lemma connect_disconnect_witness :
  exists n, Connect cfg1 (good_env None None) idle
      = (mkWorld n true true true Waiting (connected_net cfg1 n) (Some true), None)
    /\ Disconnect None (Connect cfg1 (good_env None None) idle).1
         = Some (mkWorld n false false false NotStarted [] (Some false)) /\
    forall k, exists w', Disconnect (Some k) (Connect cfg1 (good_env None None) idle).1 = Some w' /\
      w_net w' = [] /\
      run_watcher k w' = mkWorld n false false false Reporting [] (Some false).
Proof. exact (connect_disconnect cfg1 (good_env None None) good_env_ok). Defined.

Lemma connect_failure_releases_witness :
  let w := (Connect cfg1 (good_env (Some Canceled) None) idle).1 in
  w_tunnel (settle w) = false /\ w_device (settle w) = false /\ w_net (settle w) = [] /\
  (Some Canceled = None -> w_uapi (settle w) = false) /\ w_uapi (settle w) = true.
Proof.
  destruct (connect_failure_releases cfg1 (good_env (Some Canceled) None) _ Canceled eq_refl)
    as (H1 & H2 & H3 & H4).
  exact (conj H1 (conj H2 (conj H3 (conj H4 eq_refl)))).
Defined.

Lemma metrics_failure_closes_tunnel_witness :
  let w := (Connect cfg1 (good_env None (Some Canceled)) idle).1 in
  (Connect cfg1 (good_env None (Some Canceled)) idle).2 = None /\ w_tunnel w = false /\
  w_device w = false /\ w_net (settle w) = [] /\
  forall timeout, Disconnect timeout (settle w) = None.
Proof.
  exact (metrics_failure_closes_tunnel cfg1 (good_env None (Some Canceled)) Canceled good_env_ok
    eq_refl).
Defined.

Definition traffic1 : list metrics_op :=
  [MRecord (100, 40, None); MCollect 1000; MRecord (-1, -1, Some Canceled);
   MRecord (250, 40, None)]%Z.

