(* ===== verification/ClientSystem.v ===== *)
(** * The WireGuard client as a system of goroutines

    vpn/wireguard_client_unix.go with the control service of vpn/wireguard_ctrl.go, one
    step at a time.  [Connect] runs its calls one by one while the watcher of this
    connection, and the watchers of earlier ones, run beside it.  All of them reach
    the tunnel, the device and the service through the fields of one shared object,
    which the next [Connect] overwrites; the channels [close], [disconnected] and
    [err] are unbuffered, so a send and its receive are one joint step. *)

From S2P Require Import Prelude WGTypes WireguardConfig CtrlService WireguardClient.

(** ** State *)

(** The fields of the object: the tunnel, the device and the service are references to
    what is in [resources]. *)
Record object := mkObject {
  o_ifaceName : string;
  o_tunnel : option nat;
  o_device : option nat;
  o_service : option nat;
  o_timer : option bool;
}.

(** Everything that was ever opened, by reference, and whether it is open; and the
    changes to the network. *)
Record resources := mkResources {
  r_tunnels : list bool;
  r_devices : list bool;
  r_services : list service;
  r_net : list net_action;
}.

(** Where a watcher is: at its start, in the select on [close] and on the end of the
    device it read, before each of its steps, and blocked in its report. *)
Inductive watch :=
| WStart
| WSelect (d : nat)
| WStop
| WReceive (s : nat)
| WTunnel
| WClear
| WDevice
| WReport
| WDone.

(** The calls of [Connect].  [ACall] is a call that only may fail; the names of the
    interface are known when [ANet] runs. *)
Inductive act :=
| AIface
| ATun
| AName
| ADevice
| AUp
| AService
| AServe
| ACtrlClient
| AWatch
| ACall
| ANet (a : string -> net_action)
| ATimer.

(** What the calling goroutine is doing: inside [Connect], with the calls to come and
    whether the deferred function is set up; in the deferred function, with what
    will be returned; inside [Disconnect]. *)
Inductive caller :=
| CIdle
| CConnect (deferred : bool) (todo : list act)
| CFail (tunnel_closed : bool) (ret : option error)
| CStopTimer
| CSend
| CWait
| CClear.

(** The last return: of [Connect] with its error, of [Disconnect] after a report or after
    its timeout. *)
Inductive returned := RConnect (err : option error) | RDisconnect (reported : bool).

(** [k_crashed]: a goroutine called a method of a nil interface, which ends the
    process. *)
Record client := mkClient {
  k_obj : object;
  k_res : resources;
  k_watchers : list watch;
  k_caller : caller;
  k_last : option returned;
  k_crashed : bool;
}.

Definition new_client : client :=
  mkClient (mkObject EmptyString None None None None) (mkResources [] [] [] []) [] CIdle None false.

Definition set_obj (k : client) (o : object) : client :=
  mkClient o (k_res k) (k_watchers k) (k_caller k) (k_last k) (k_crashed k).
Definition set_res (k : client) (r : resources) : client :=
  mkClient (k_obj k) r (k_watchers k) (k_caller k) (k_last k) (k_crashed k).
Definition set_watchers (k : client) (ws : list watch) : client :=
  mkClient (k_obj k) (k_res k) ws (k_caller k) (k_last k) (k_crashed k).
Definition set_caller (k : client) (c : caller) : client :=
  mkClient (k_obj k) (k_res k) (k_watchers k) c (k_last k) (k_crashed k).
Definition returns (k : client) (r : returned) : client :=
  mkClient (k_obj k) (k_res k) (k_watchers k) CIdle (Some r) (k_crashed k).
Definition crash (k : client) : client :=
  mkClient (k_obj k) (k_res k) (k_watchers k) (k_caller k) (k_last k) true.

Definition obj_iface (o : object) (n : string) : object :=
  mkObject n (o_tunnel o) (o_device o) (o_service o) (o_timer o).
Definition obj_tunnel (o : object) (t : option nat) : object :=
  mkObject (o_ifaceName o) t (o_device o) (o_service o) (o_timer o).
Definition obj_device (o : object) (d : nat) : object :=
  mkObject (o_ifaceName o) (o_tunnel o) (Some d) (o_service o) (o_timer o).
Definition obj_service (o : object) (s : nat) : object :=
  mkObject (o_ifaceName o) (o_tunnel o) (o_device o) (Some s) (o_timer o).
Definition obj_timer (o : object) (t : option bool) : object :=
  mkObject (o_ifaceName o) (o_tunnel o) (o_device o) (o_service o) t.

Definition res_tunnels (r : resources) (l : list bool) : resources :=
  mkResources l (r_devices r) (r_services r) (r_net r).
Definition res_devices (r : resources) (l : list bool) : resources :=
  mkResources (r_tunnels r) l (r_services r) (r_net r).
Definition res_services (r : resources) (l : list service) : resources :=
  mkResources (r_tunnels r) (r_devices r) l (r_net r).
Definition res_net (r : resources) (l : list net_action) : resources :=
  mkResources (r_tunnels r) (r_devices r) (r_services r) l.

(** [w.tunnel.Close()], [w.device.Close()] and [w.nc.Clear()]. *)
Definition do_close_tunnel (k : client) : client :=
  match o_tunnel (k_obj k) with
  | Some t => set_res k (res_tunnels (k_res k) (<[t := false]> (r_tunnels (k_res k))))
  | None => crash k
  end.
Definition do_close_device (k : client) : client :=
  match o_device (k_obj k) with
  | Some d => set_res k (res_devices (k_res k) (<[d := false]> (r_devices (k_res k))))
  | None => crash k
  end.
Definition do_clear (k : client) : client := set_res k (res_net (k_res k) []).

(** ** Steps *)

(** What a call does, for the name it returns and its error.  A failed [CreateTUN]
    leaves nil in the field. *)
Definition act_effect (a : act) (name : string) (err : option error) (k : client) : client :=
  let o := k_obj k in
  let r := k_res k in
  match a, err with
  | AIface, _ => set_obj k (obj_iface o name)
  | ATun, None => set_res (set_obj k (obj_tunnel o (Some (length (r_tunnels r)))))
                    (res_tunnels r (r_tunnels r ++ [true]))
  | ATun, Some _ => set_obj k (obj_tunnel o None)
  | AName, None => set_obj k (obj_iface o name)
  | ADevice, _ => set_res (set_obj k (obj_device o (length (r_devices r))))
                    (res_devices r (r_devices r ++ [true]))
  | AService, _ => set_res (set_obj k (obj_service o (length (r_services r))))
                     (res_services r (r_services r ++ [NewWireguardCtrlService (o_ifaceName o)]))
  | AServe, _ =>
      match o_service o with
      | Some s => set_res k (res_services r (alter (fun sv => (Start Unix None err sv).1) s
                    (r_services r)))
      | None => crash k
      end
  | AWatch, _ => set_watchers k (k_watchers k ++ [WStart])
  | ANet f, None => set_res k (res_net r (r_net r ++ [f (o_ifaceName o)]))
  | ATimer, None => set_obj k (obj_timer o (Some true))
  | ATimer, Some _ => set_obj k (obj_timer o (Some false))
  | _, _ => k
  end.

(** How a call's error is taken: it ends [Connect]; it is overwritten by the next call; or
    it is kept in [err] while nil is returned. *)
Inductive on_error := Fails | Ignored | Hidden.

Definition act_error (a : act) : on_error :=
  match a with
  | AName | ADevice | AService | AWatch => Ignored
  | ATimer => Hidden
  | _ => Fails
  end.

Definition sets_deferred (a : act) : bool := match a with ADevice => true | _ => false end.

Definition connect_step (deferred : bool) (a : act) (todo : list act) (name : string)
    (err : option error) (k : client) : client :=
  let k := act_effect a name err k in
  let next := set_caller k (CConnect (deferred || sets_deferred a) todo) in
  match err, act_error a with
  | Some e, Fails =>
      if deferred then set_caller k (CFail false (Some e)) else returns k (RConnect (Some e))
  | Some _, Hidden => set_caller k (CFail false None)
  | _, _ => next
  end.

(** The next step of the caller that needs no partner. *)
Definition caller_step (name : string) (err : option error) (k : client) : option client :=
  match k_caller k with
  | CConnect deferred (a :: todo) => Some (connect_step deferred a todo name err k)
  | CConnect _ [] => Some (returns k (RConnect None))
  | CFail false ret => Some (set_caller (do_close_tunnel k) (CFail true ret))
  | CFail true ret => Some (returns (do_close_device k) (RConnect ret))
  | CStopTimer =>
      Some (set_caller (set_obj k (obj_timer (k_obj k)
              (match o_timer (k_obj k) with Some _ => Some false | None => None end))) CSend)
  | CClear => Some (returns (do_clear k) (RDisconnect false))
  | CIdle | CSend | CWait => None
  end.

(** The next step of watcher [i] that needs no partner. *)
Definition watcher_step (i : nat) (w : watch) (k : client) : option client :=
  let go k w' := Some (set_watchers k (<[i := w']> (k_watchers k))) in
  match w with
  | WStart =>
      match o_device (k_obj k) with Some d => go k (WSelect d) | None => Some (crash k) end
  | WSelect d => if decide (r_devices (k_res k) !! d = Some false) then go k WStop else None
  | WStop =>
      match o_service (k_obj k) with
      | Some s =>
          match r_services (k_res k) !! s with
          | Some sv =>
              match Stop_close sv with
              | Some sv' => go (set_res k (res_services (k_res k)
                              (<[s := sv']> (r_services (k_res k))))) (WReceive s)
              | None => go k WTunnel
              end
          | None => Some (crash k)
          end
      | None => Some (crash k)
      end
  | WTunnel => go (do_close_tunnel k) WClear
  | WClear => go (do_clear k) WDevice
  | WDevice => go (do_close_device k) WReport
  | WReceive _ | WReport | WDone => None
  end.

(** A schedule is a list of choices: the caller begins an operation, a goroutine takes
    its next step, two of them meet on a channel, time runs out, an accept fails, or
    a device ends by itself. *)
Inductive choice :=
| ChConnect
| ChDisconnect
| ChCaller (name : string) (err : option error)
| ChTimeout
| ChWatcher (i : nat)
| ChClose (i : nat)
| ChReport (i : nat)
| ChReceive (i : nat)
| ChAccept (s : nat) (e : error)
| ChDeviceEnd (d : nat).

Section System.
Context `{keys : WGKeys}.
Variable cfg : wireguardConfig.

(** [Connect], call by call, up to the watcher and after it. *)
Definition start_prog : list act :=
  [AIface; ATun; AName; ADevice; AUp; AService; AServe; ACtrlClient; AWatch].

Definition network_prog : list act :=
  [ACall; ANet (fun _ => DisableIPv6); ACall;
   ANet (fun _ => AddExternalRouteToIPs (peerAddresses cfg));
   ANet (fun n => NewRoutableInterface n (tunAddress cfg))]
  ++ (if isDefaultRoute cfg then [ANet (fun _ => MakeDefaultRoute)] else [])
  ++ [ACall; ANet (fun _ => AddDNSServers [tunDNS cfg]);
      ANet (fun _ => AddSearchDomains []); ATimer].

Definition connect_prog : list act := start_prog ++ network_prog.

Definition exec (c : choice) (k : client) : option client :=
  if k_crashed k then None else
  match c with
  | ChConnect =>
      match k_caller k with
      | CIdle => Some (set_caller k (CConnect false connect_prog))
      | _ => None
      end
  | ChDisconnect =>
      match k_caller k with CIdle => Some (set_caller k CStopTimer) | _ => None end
  | ChCaller name err => caller_step name err k
  | ChTimeout => match k_caller k with CWait => Some (set_caller k CClear) | _ => None end
  | ChWatcher i => w ← k_watchers k !! i; watcher_step i w k
  | ChClose i =>
      match k_caller k, k_watchers k !! i with
      | CSend, Some (WSelect _) =>
          Some (set_caller (set_watchers k (<[i := WStop]> (k_watchers k))) CWait)
      | _, _ => None
      end
  | ChReport i =>
      match k_caller k, k_watchers k !! i with
      | CWait, Some WReport =>
          Some (returns (set_watchers k (<[i := WDone]> (k_watchers k))) (RDisconnect true))
      | _, _ => None
      end
  | ChReceive i =>
      match k_watchers k !! i with
      | Some (WReceive s) =>
          sv ← r_services (k_res k) !! s;
          '(sv', _) ← Stop_receive sv;
          Some (set_watchers (set_res k (res_services (k_res k)
                  (<[s := sv']> (r_services (k_res k))))) (<[i := WTunnel]> (k_watchers k)))
      | _ => None
      end
  | ChAccept s e =>
      sv ← r_services (k_res k) !! s;
      sv' ← accept_fails Unix e sv;
      Some (set_res k (res_services (k_res k) (<[s := sv']> (r_services (k_res k)))))
  | ChDeviceEnd d =>
      if decide (r_devices (k_res k) !! d = Some true)
      then Some (set_res k (res_devices (k_res k) (<[d := false]> (r_devices (k_res k)))))
      else None
  end.

Fixpoint run (cs : list choice) (k : client) : option client :=
  match cs with
  | [] => Some k
  | c :: cs => k' ← exec c k; run cs k'
  end.

Lemma run_app cs1 cs2 k : run (cs1 ++ cs2) k = (run cs1 k ≫= run cs2).
Proof.
  revert k. induction cs1 as [|c cs1 IH]; intros k; [done|]. cbn.
  destruct (exec c k); [apply IH|done].
Qed.

(** What every step of the allowed kind keeps holds at the end of a run. *)
Lemma run_inv (P : client -> Prop) (good : choice -> bool) cs k k' :
  (forall c k k', good c = true -> P k -> exec c k = Some k' -> P k') ->
  forallb good cs = true -> P k -> run cs k = Some k' -> P k'.
Proof.
  intros Hexec. revert k. induction cs as [|c cs IH]; intros k Hg Hp H; [by simplify_eq/=|].
  cbn in Hg, H. apply andb_true_iff in Hg as [Hg Hgs].
  destruct (exec c k) as [k1|] eqn:E; [|done]. eapply IH; [done| |exact H]. by eapply Hexec.
Qed.

(** ** Every schedule ends *)

(** How many steps are left at most, when no new operation begins. *)
Definition watch_m (w : watch) : nat :=
  match w with
  | WStart => 8 | WSelect _ => 7 | WStop => 6 | WReceive _ => 5 | WTunnel => 4 | WClear => 3
  | WDevice => 2 | WReport => 1 | WDone => 0
  end.

Definition acceptor_m (s : service) : nat :=
  match sv_acceptor s with Accepting => 1 | _ => 0 end.

Definition open_m (b : bool) : nat := if b then 1 else 0.

Definition act_m (a : act) : nat :=
  match a with ADevice | AServe => 2 | AWatch => 9 | _ => 1 end.

Definition caller_m (c : caller) : nat :=
  match c with
  | CIdle => 0
  | CConnect _ todo => 3 + sum_list_with act_m todo
  | CFail false _ => 2
  | CFail true _ => 1
  | CStopTimer => 4 | CSend => 3 | CWait => 2 | CClear => 1
  end.

(** Without the caller, and with it. *)
Definition rest_m (k : client) : nat :=
  sum_list_with watch_m (k_watchers k) + sum_list_with acceptor_m (r_services (k_res k))
  + sum_list_with open_m (r_devices (k_res k)) + open_m (negb (k_crashed k)).

Definition measure (k : client) : nat := caller_m (k_caller k) + rest_m k.

Definition internal (c : choice) : bool :=
  match c with ChConnect | ChDisconnect => false | _ => true end.

Lemma sum_insert {A} (f : A -> nat) l i x y :
  l !! i = Some x ->
  sum_list_with f (<[i := y]> l) + f x = sum_list_with f l + f y.
Proof.
  revert i. induction l as [|z l IH]; intros [|i] H; simplify_eq/=; [lia|].
  apply IH in H. lia.
Qed.

Lemma sum_close l i : sum_list_with open_m (<[i := false]> l) <= sum_list_with open_m l.
Proof.
  revert i. induction l as [|z l IH]; intros [|i]; simpl; [lia..|]. specialize (IH i). lia.
Qed.

Lemma sum_alter {A} (f : A -> nat) (g : A -> A) n l i :
  (forall x, f (g x) <= f x + n) ->
  sum_list_with f (alter g i l) <= sum_list_with f l + n.
Proof.
  intros Hg. revert i. induction l as [|z l IH]; intros [|i]; simpl; [lia..|specialize (Hg z); lia|].
  specialize (IH i). unfold alter in IH. lia.
Qed.

Lemma sum_app1 {A} (f : A -> nat) l x :
  sum_list_with f (l ++ [x]) = sum_list_with f l + f x.
Proof. rewrite sum_list_with_app. cbn. lia. Qed.

Lemma act_effect_measure a name err k : S (rest_m (act_effect a name err k)) <= rest_m k + act_m a.
Proof.
  assert (forall g i, (forall sv, acceptor_m (g sv) <= acceptor_m sv + 1) ->
    S (rest_m (set_res k (res_services (k_res k) (alter g i (r_services (k_res k))))))
      <= rest_m k + 2) as Halter.
  { intros g i Hg. pose proof (sum_alter acceptor_m g 1 (r_services (k_res k)) i Hg).
    unfold rest_m. cbn. lia. }
  destruct a, err; cbn [act_effect act_m];
    try (unfold rest_m; cbn; rewrite ?sum_app1; cbn; lia).
  all: destruct (o_service (k_obj k)) as [i|];
    [apply Halter; intros sv; unfold acceptor_m; cbn; repeat case_match; lia|].
  all: unfold rest_m; cbn; destruct (k_crashed k); cbn; lia.
Qed.

Lemma connect_step_measure d a todo name err k :
  k_caller k = CConnect d (a :: todo) ->
  measure (connect_step d a todo name err k) < measure k.
Proof.
  intros Hc. pose proof (act_effect_measure a name err k) as Hm.
  unfold connect_step, measure. rewrite Hc.
  destruct err as [e|]; [destruct (act_error a); [destruct d| |]|];
    unfold rest_m in *; cbn in *; lia.
Qed.

Lemma do_close_tunnel_measure k : rest_m (do_close_tunnel k) <= rest_m k.
Proof.
  unfold do_close_tunnel. destruct (o_tunnel (k_obj k)); [done|].
  unfold rest_m. cbn. destruct (k_crashed k); cbn; lia.
Qed.

Lemma do_close_device_measure k : rest_m (do_close_device k) <= rest_m k.
Proof.
  unfold do_close_device. destruct (o_device (k_obj k)) as [d|]; unfold rest_m; cbn.
  - pose proof (sum_close (r_devices (k_res k)) d). lia.
  - destruct (k_crashed k); cbn; lia.
Qed.

Lemma caller_step_measure name err k k' :
  caller_step name err k = Some k' -> measure k' < measure k.
Proof.
  unfold caller_step. destruct (k_caller k) as [|d [|a todo]|[] ret| | | |] eqn:Hc; intros H;
    simplify_eq.
  - unfold measure. rewrite Hc. unfold rest_m. cbn. lia.
  - by apply connect_step_measure.
  - pose proof (do_close_device_measure k). unfold measure. rewrite Hc.
    unfold rest_m in *. cbn in *. lia.
  - pose proof (do_close_tunnel_measure k). unfold measure. rewrite Hc.
    unfold rest_m in *. cbn in *. lia.
  - unfold measure. rewrite Hc. unfold rest_m. cbn. lia.
  - unfold measure. rewrite Hc. unfold rest_m. cbn. lia.
Qed.

(** Moving a watcher down its list of steps. *)
Lemma watcher_goes k0 k i w w' :
  k_watchers k0 !! i = Some w -> k_watchers k = k_watchers k0 -> k_caller k = k_caller k0 ->
  rest_m k <= rest_m k0 -> watch_m w' < watch_m w ->
  measure (set_watchers k (<[i := w']> (k_watchers k))) < measure k0.
Proof.
  intros Hi Hw Hc Hr Hm. pose proof (sum_insert watch_m _ i w w' Hi).
  unfold measure, rest_m in *. cbn. rewrite Hw, Hc in *. lia.
Qed.

Lemma Stop_close_measure sv sv' : Stop_close sv = Some sv' -> acceptor_m sv' = acceptor_m sv.
Proof. unfold Stop_close. destruct (sv_uapi sv); naive_solver. Qed.

Lemma set_service_measure k s sv sv' :
  r_services (k_res k) !! s = Some sv -> acceptor_m sv' <= acceptor_m sv ->
  rest_m (set_res k (res_services (k_res k) (<[s := sv']> (r_services (k_res k))))) + acceptor_m sv
    = rest_m k + acceptor_m sv'.
Proof.
  intros Hs Hm. pose proof (sum_insert acceptor_m _ s sv sv' Hs). unfold rest_m. cbn. lia.
Qed.

Lemma crash_measure k : k_crashed k = false -> measure (crash k) < measure k.
Proof. intros H. unfold measure, rest_m. cbn. rewrite H. cbn. lia. Qed.

Lemma watcher_step_measure i w k k' :
  k_crashed k = false -> k_watchers k !! i = Some w -> watcher_step i w k = Some k' ->
  measure k' < measure k.
Proof.
  intros Hk Hi H. destruct w; cbn in H; try done.
  - destruct (o_device (k_obj k)); simplify_eq; [|by apply crash_measure].
    eapply watcher_goes; try done. cbn. lia.
  - case_decide; simplify_eq. eapply watcher_goes; try done. cbn. lia.
  - destruct (o_service (k_obj k)) as [s|]; simplify_eq; [|by apply crash_measure].
    destruct (r_services (k_res k) !! s) as [sv|] eqn:Es; simplify_eq; [|by apply crash_measure].
    destruct (Stop_close sv) as [sv'|] eqn:Ec; simplify_eq.
    + apply Stop_close_measure in Ec. eapply (watcher_goes k (set_res k _)); try done; [|cbn; lia].
      pose proof (set_service_measure k s sv sv' Es). lia.
    + eapply watcher_goes; try done. cbn. lia.
  - simplify_eq. eapply (watcher_goes k); try done; [by unfold do_close_tunnel; case_match..| |cbn; lia].
    apply do_close_tunnel_measure.
  - simplify_eq. eapply (watcher_goes k (do_clear k)); try done. cbn. lia.
  - simplify_eq. eapply (watcher_goes k); try done; [by unfold do_close_device; case_match..| |cbn; lia].
    apply do_close_device_measure.
Qed.

Lemma exec_measure c k k' : internal c = true -> exec c k = Some k' -> measure k' < measure k.
Proof.
  intros Hc H. unfold exec in H. destruct (k_crashed k) eqn:Hk; [done|].
  destruct c as [| |name err| |i|i|i|i|s e|d]; try done.
  - by eapply caller_step_measure.
  - destruct (k_caller k) eqn:E; simplify_eq. unfold measure. rewrite E.
    unfold rest_m. cbn. lia.
  - apply bind_Some in H as (w & Hi & H). by eapply watcher_step_measure.
  - destruct (k_caller k) eqn:E; try done. destruct (k_watchers k !! i) as [[]|] eqn:Ei; simplify_eq.
    pose proof (sum_insert watch_m _ i _ WStop Ei) as Hs. cbn in Hs.
    unfold measure. rewrite E. unfold rest_m. cbn. lia.
  - destruct (k_caller k) eqn:E; try done. destruct (k_watchers k !! i) as [[]|] eqn:Ei; simplify_eq.
    pose proof (sum_insert watch_m _ i _ WDone Ei) as Hs. cbn in Hs.
    unfold measure. rewrite E. unfold rest_m. cbn. lia.
  - destruct (k_watchers k !! i) as [[]|] eqn:Ei; try done.
    apply bind_Some in H as (sv & Hs & H). apply bind_Some in H as ([sv' e] & Hr & H). simplify_eq.
    assert (acceptor_m sv' <= acceptor_m sv) as Hm.
    { unfold Stop_receive in Hr. unfold acceptor_m. destruct (sv_acceptor sv); by simplify_eq/=. }
    pose proof (set_service_measure k _ sv sv' Hs Hm).
    eapply (watcher_goes k (set_res k _)); try done; [|cbn; lia]. lia.
  - apply bind_Some in H as (sv & Hs & H). apply bind_Some in H as (sv' & Hr & H). simplify_eq.
    assert (acceptor_m sv' < acceptor_m sv) as Hm.
    { unfold accept_fails in Hr. unfold acceptor_m. destruct (sv_acceptor sv); simplify_eq/=. lia. }
    pose proof (set_service_measure k _ sv sv' Hs). unfold measure. cbn in *. lia.
  - case_decide as Hd; simplify_eq. pose proof (sum_insert open_m _ d _ false Hd) as Hs. cbn in Hs.
    unfold measure, rest_m. cbn. lia.
Qed.

Lemma run_measure cs k k' :
  forallb internal cs = true -> run cs k = Some k' -> length cs + measure k' <= measure k.
Proof.
  revert k. induction cs as [|c cs IH]; intros k Hc H; [by simplify_eq/=|].
  cbn in Hc, H |- *. apply andb_true_iff in Hc as [Hc Hcs].
  destruct (exec c k) as [k1|] eqn:E; [|done]. cbn in H.
  apply exec_measure in E; [|done]. apply IH in H; [|done]. lia.
Qed.

(** ** One connection

    What a client does that connects once, while no device ends by itself and until
    the next [Connect].  [Disconnect] may be called at any time and any number of
    times. *)

Definition calm (c : choice) : bool :=
  match c with ChConnect | ChDeviceEnd _ => false | _ => true end.

(** The listener is still served. *)
Definition served (sv : service) (listening : bool) : Prop :=
  sv_uapi sv = Some listening /\
  (sv_acceptor sv = Accepting \/ exists e, sv_acceptor sv = Sending e).

Definition stopped (sv : service) : Prop := sv_uapi sv = Some false /\ sv_acceptor sv = Ended.

Definition waiting (w : watch) : bool :=
  match w with WStart | WSelect _ => true | _ => false end.

(** What a watcher has done so far. *)
Definition watcher_ok (w : watch) (tun dev : bool) (sv : service) (net : list net_action) : Prop :=
  match w with
  | WStart | WStop => served sv true
  | WSelect d => d = 0 /\ served sv true
  | WReceive s => s = 0 /\ served sv false
  | WTunnel => stopped sv
  | WClear => stopped sv /\ tun = false
  | WDevice => stopped sv /\ tun = false /\ net = []
  | WReport | WDone => stopped sv /\ tun = false /\ net = [] /\ dev = false
  end.

(** What the caller knows of the watcher and of what is open. *)
Definition idle_ok (last : option returned) (w : watch) (tun dev : bool)
    (net : list net_action) : Prop :=
  match last with
  | Some (RConnect None) => waiting w = true /\ tun = true /\ dev = true \/ tun = false /\ dev = false
  | Some (RConnect (Some _)) => tun = false /\ dev = false
  | Some (RDisconnect true) => w = WDone
  | Some (RDisconnect false) => waiting w = false /\ net = []
  | None => False
  end.

Definition caller_ok (c : caller) (last : option returned) (w : watch) (tun dev : bool)
    (net : list net_action) : Prop :=
  match c with
  | CConnect d todo =>
      d = true /\ waiting w = true /\ tun = true /\ dev = true /\
      exists n, todo = drop n network_prog
  | CFail b _ => waiting w = true /\ tun = negb b /\ dev = true
  | CIdle | CStopTimer | CSend => idle_ok last w tun dev net
  | CWait | CClear => waiting w = false
  end.

(** Before there is a watcher: the first [n] calls of [Connect] are done. *)
Definition stage (n : nat) (o : object) (r : resources) : Prop :=
  o_tunnel o = (if 2 <=? n then Some 0 else None)%nat /\
  r_tunnels r = (if 2 <=? n then [true] else [])%nat /\
  o_device o = (if 4 <=? n then Some 0 else None)%nat /\
  r_devices r = (if 4 <=? n then [true] else [])%nat /\
  o_service o = (if 6 <=? n then Some 0 else None)%nat /\
  (if 6 <=? n then exists sv, r_services r = [sv] /\ (7 <= n -> served sv true)
   else r_services r = [])%nat /\
  r_net r = [].

Definition closed (r : resources) : Prop :=
  Forall (fun b => b = false) (r_tunnels r) /\ Forall (fun b => b = false) (r_devices r) /\
  r_net r = [].

Definition before_watcher (c : caller) (last : option returned) (o : object) (r : resources)
    : Prop :=
  match c with
  | CConnect d todo => exists n, n < 9 /\ todo = drop n connect_prog /\ d = (4 <=? n)%nat /\ stage n o r
  | CFail b ret => is_Some ret /\ o_tunnel o = Some 0 /\ o_device o = Some 0 /\ r_tunnels r = [negb b] /\
      r_devices r = [true] /\ r_net r = []
  | CIdle | CStopTimer | CSend => (exists e, last = Some (RConnect (Some e))) /\ closed r
  | CWait | CClear => False
  end.

Definition session (k : client) : Prop :=
  let o := k_obj k in
  let r := k_res k in
  k_crashed k = false /\
  match k_watchers k with
  | [] => before_watcher (k_caller k) (k_last k) o r
  | [w] => o_tunnel o = Some 0 /\ o_device o = Some 0 /\ o_service o = Some 0 /\
      exists tun dev sv, r_tunnels r = [tun] /\ r_devices r = [dev] /\ r_services r = [sv] /\
        watcher_ok w tun dev sv (r_net r) /\
        caller_ok (k_caller k) (k_last k) w tun dev (r_net r)
  | _ => False
  end.

Lemma drop_cons {A} n (l : list A) a t :
  a :: t = drop n l -> t = drop (S n) l /\ l !! n = Some a.
Proof.
  intros H. split; [by rewrite <- Nat.add_1_r, <- drop_drop, <- H|].
  by rewrite <- (Nat.add_0_r n), <- lookup_drop, <- H.
Qed.

(** The calls after the watcher was started touch neither tunnel, device nor service. *)
Lemma network_act a : a ∈ network_prog -> a = ACall \/ a = ATimer \/ exists f, a = ANet f.
Proof.
  unfold network_prog. destruct (isDefaultRoute cfg); cbn [app];
    rewrite !elem_of_cons, elem_of_nil; intros H; destruct_or!; subst; eauto; done.
Qed.

Lemma session_init : session (set_caller new_client (CConnect false connect_prog)).
Proof. split; [done|]. exists 0. split_and!; [lia|done..]. Qed.

(** A call of [Connect] before the watcher. *)
Lemma stage_step n d a todo name err k :
  k_crashed k = false -> k_watchers k = [] -> k_caller k = CConnect d (a :: todo) ->
  n < 9 -> a :: todo = drop n connect_prog -> d = (4 <=? n)%nat ->
  stage n (k_obj k) (k_res k) -> session (connect_step d a todo name err k).
Proof.
  destruct k as [[ifn t dv sv tm] [ts ds svs net] ws c l cr]. cbn [k_crashed k_watchers k_caller k_obj k_res].
  intros -> -> -> Hn Ha -> (Ht & Hts & Hd & Hds & Hsv & Hsvs & Hnet).
  cbn [o_tunnel o_device o_service r_tunnels r_devices r_services r_net] in *.
  apply drop_cons in Ha as [Htodo Ha]. unfold connect_prog in Ha. rewrite lookup_app_l in Ha by done.
  assert (forall o r, S n < 9 -> stage (S n) o r -> (4 <=? S n)%nat = (4 <=? n)%nat || sets_deferred a ->
    session (mkClient o r [] (CConnect ((4 <=? n)%nat || sets_deferred a) todo) l false)) as Hnext.
  { intros o r Hlt Hst Hb. split; [done|]. exists (S n). by rewrite Hb. }
  destruct n as [|[|[|[|[|[|[|[|[|n]]]]]]]]]; [..|lia]; cbn in Ha; injection Ha as <-;
    cbn in Ht, Hts, Hd, Hds, Hsv, Hsvs; subst; try destruct Hsvs as (sv0 & -> & Hserved).
  all: destruct err as [e|]; cbn in Hnext |- *.
  all: try (apply Hnext; [lia| |done]; unfold stage; cbn; by split_and!).
  all: try (split; [done|]; cbn; by repeat constructor; eauto).
  all: try (split; [done|]; cbn; split; [by eexists|]; by repeat constructor).
  - apply Hnext; [lia| |done]. unfold stage. cbn. split_and!; try done. eexists. split; [done|lia].
  - apply Hnext; [lia| |done]. unfold stage. cbn. split_and!; try done. eexists. split; [done|lia].
  - apply Hnext; [lia| |done]. unfold stage. cbn. split_and!; try done. eexists. split; [done|].
    intros _. split; [done|]. by left.
  - apply Hnext; [lia| |done]. unfold stage. cbn. split_and!; try done. eexists. split; [done|].
    intros _. apply Hserved. lia.
  - split; [done|]. cbn. split_and!; try done. exists true, true, sv0. split_and!; try done.
    + apply Hserved. lia.
    + by exists 0.
  - split; [done|]. cbn. split_and!; try done. exists true, true, sv0. split_and!; try done.
    + apply Hserved. lia.
    + by exists 0.
Qed.

(** A call of [Connect] beside the watcher. *)
Lemma network_step d a todo name err k w :
  session k -> k_watchers k = [w] -> k_caller k = CConnect d (a :: todo) ->
  session (connect_step d a todo name err k).
Proof.
  destruct k as [[ifn t dv sv tm] [ts ds svs net] ws c l cr].
  intros [Hcr H] Hw Hc. cbn in Hcr, H, Hw, Hc. subst cr ws c.
  destruct H as (-> & -> & -> & tun & dev & sv0 & -> & -> & -> & Hw & -> & Hwait & -> & -> & n & Htodo).
  apply drop_cons in Htodo as [Htodo Ha%list_elem_of_lookup_2%network_act].
  assert (forall net', watcher_ok w true true sv0 net') as Hw'.
  { intros net'. by destruct w. }
  destruct Ha as [->|[->|[f ->]]]; destruct err as [e|]; (split; [done|]); cbn;
    (split_and!; [done..|]; exists true, true, sv0; split_and!; try done; by exists (S n)).
Qed.


(** Opening the session of a client in the two forms it has. *)
Ltac open_session k Hs :=
  let Hcr := fresh "Hcr" in
  destruct k as [[ifn t dv sv tm] [ts ds svs net] ws c l cr]; destruct Hs as [Hcr Hs];
  cbn in Hcr, Hs; subst cr;
  destruct ws as [|w [|]]; [| |done];
  [|destruct Hs as (-> & -> & -> & tun & dev & sv0 & -> & -> & -> & Hw & Hc)].

Ltac close_session := split; [done|]; cbn; split_and!; try done; eexists _, _, _; split_and!; try done.

Lemma session_caller name err k k' :
  session k -> caller_step name err k = Some k' -> session k'.
Proof.
  intros Hs H. unfold caller_step in H.
  destruct (k_caller k) as [|d [|a todo]|[] ret| | | |] eqn:Ec; simplify_eq.
  - open_session k Hs; cbn in Ec; subst c.
    + destruct Hs as (n & Hn & Ht & _). apply (f_equal length) in Ht.
      rewrite length_drop in Ht. unfold connect_prog in Ht. rewrite length_app in Ht. cbn in Ht. lia.
    + close_session. destruct Hc as (_ & ? & ? & ? & _). by left.
  - destruct (k_watchers k) as [|w [|]] eqn:Ew.
    + pose proof Hs as [Hcr H]. rewrite Ew, Ec in H. destruct H as (n & Hn & Ht & Hd & Hst).
      by eapply stage_step.
    + by eapply network_step.
    + destruct Hs as [_ Hs]. by rewrite Ew in Hs.
  - open_session k Hs; cbn in Ec; subst c.
    + cbn in Hs. destruct Hs as ([e ->] & -> & -> & -> & -> & ->). split; [done|]. cbn.
      split; [by eexists|]. by repeat constructor.
    + destruct Hc as (Hwait & -> & ->). close_session; [by destruct w|].
      destruct ret; cbn; [done|by right].
  - open_session k Hs; cbn in Ec; subst c.
    + cbn in Hs. destruct Hs as (Hret & -> & -> & -> & -> & ->). by split.
    + destruct Hc as (Hwait & -> & ->). close_session. by destruct w.
  - open_session k Hs; cbn in Ec; subst c; [by split|]. by close_session.
  - open_session k Hs; cbn in Ec; subst c; [done|]. close_session. destruct w; cbn in Hw |- *; intuition.
Qed.

(** What the caller knows stays true when a watcher that waits begins to select, when it
    wakes because the device was closed, and when it goes through its steps. *)
Lemma caller_ok_select c l d tun dev net :
  caller_ok c l WStart tun dev net -> caller_ok c l (WSelect d) tun dev net.
Proof. destruct c; try done. all: cbn; by destruct l as [[[]|[]]|]. Qed.

Lemma caller_ok_wake c l d tun net :
  caller_ok c l (WSelect d) tun false net -> caller_ok c l WStop tun false net.
Proof.
  destruct c; cbn; try (destruct l as [[[]|[]]|]; cbn); intuition; try done. all: right; done.
Qed.

Lemma caller_ok_past c l w w' tun tun' dev dev' net net' :
  caller_ok c l w tun dev net -> waiting w = false -> w <> WDone -> waiting w' = false ->
  tun' = tun \/ tun' = false -> dev' = dev \/ dev' = false -> net' = net \/ net' = [] ->
  caller_ok c l w' tun' dev' net'.
Proof.
  intros H Hp Hd Hp' Ht He Hn.
  destruct c; cbn in *; try (destruct l as [[[]|[]]|]; cbn in *);
    intuition; subst; try congruence; intuition.
Qed.

Lemma session_watcher i x k k' :
  session k -> k_watchers k !! i = Some x -> watcher_step i x k = Some k' -> session k'.
Proof.
  intros Hs Hi H. open_session k Hs; [done|]. destruct i as [|i]; [|done]. cbn in Hi. simplify_eq.
  destruct x as [|d| |s| | | | |]; cbn in H; simplify_eq; cbn in Hw.
  - close_session. by apply caller_ok_select.
  - destruct Hw as [-> Hw]. case_decide as Hd; simplify_eq/=. close_session. by eapply caller_ok_wake.
  - destruct Hw as [Hu Ha]. unfold Stop_close in H. rewrite Hu in H. simplify_eq/=.
    close_session. by eapply caller_ok_past; eauto.
  - close_session. by eapply caller_ok_past; eauto.
  - destruct Hw as [Hw ->]. close_session. by eapply caller_ok_past; eauto.
  - destruct Hw as (Hw & -> & ->). close_session. by eapply caller_ok_past; eauto.
Qed.

Lemma session_exec c k k' : calm c = true -> session k -> exec c k = Some k' -> session k'.
Proof.
  intros Hcalm Hs H. unfold exec in H. destruct (k_crashed k); [done|].
  destruct c as [| |name err| |i|i|i|i|s e|d]; try done.
  - destruct (k_caller k) eqn:Ec; simplify_eq. open_session k Hs; cbn in Ec; subst c; [by split|].
    by close_session.
  - by eapply session_caller.
  - destruct (k_caller k) eqn:Ec; simplify_eq. open_session k Hs; cbn in Ec; subst c; [done|].
    by close_session.
  - apply bind_Some in H as (w & Hi & H). by eapply session_watcher.
  - destruct (k_caller k) eqn:Ec; try done. destruct (k_watchers k !! i) as [[]|] eqn:Ei; simplify_eq.
    open_session k Hs; cbn in Ec, Ei; subst c; [done|]. destruct i; simplify_eq/=.
    destruct Hw as [-> Hw]. by close_session.
  - destruct (k_caller k) eqn:Ec; try done. destruct (k_watchers k !! i) as [[]|] eqn:Ei; simplify_eq.
    open_session k Hs; cbn in Ec, Ei; subst c; [done|]. destruct i; simplify_eq/=.
    destruct Hw as (? & ? & ? & ?). by close_session.
  - destruct (k_watchers k !! i) as [[]|] eqn:Ei; try done.
    apply bind_Some in H as (sv1 & Hsv & H). apply bind_Some in H as ([sv' e] & Hr & H). simplify_eq.
    open_session k Hs; cbn in Ei; [done|]. destruct i; simplify_eq/=.
    destruct Hw as [-> [Hu Ha]]. cbn in Hsv. simplify_eq. unfold Stop_receive in Hr.
    destruct Ha as [Ha|[e0 Ha]]; rewrite Ha in Hr; simplify_eq. close_session.
    by eapply caller_ok_past; eauto.
  - apply bind_Some in H as (sv1 & Hsv & H). apply bind_Some in H as (sv' & Hr & H). simplify_eq.
    unfold accept_fails in Hr. destruct (sv_acceptor sv1) eqn:Ea; simplify_eq.
    open_session k Hs; cbn in Hsv.
    + split; [done|]. cbn. destruct c; try done. destruct Hs as (n & Hn & Ht & Hd & Hst).
      exists n. split_and!; try done. destruct Hst as (? & ? & ? & ? & ? & Hsvs & ?).
      split_and!; try done. revert Hsvs. cbn [r_services set_res k_res res_services].
      destruct (6 <=? n)%nat; [|by intros ->]. intros (sv2 & -> & Hserved).
      destruct s; simplify_eq/=. eexists. split; [done|].
      intros H7. destruct (Hserved H7) as [Hu _]. split; [done|]. right. by eexists.
    + destruct s; simplify_eq/=. close_session.
      destruct w; cbn in Hw |- *; unfold served, stopped in *; cbn; rewrite ?Ea in Hw;
        intuition; (congruence || eauto).
Qed.

Lemma session_run cs k k' :
  forallb calm cs = true -> session k -> run cs k = Some k' -> session k'.
Proof.
  apply (run_inv session calm). intros c k0 k1 Hc Hs H. by eapply session_exec.
Qed.

Lemma session_start cs k :
  forallb calm cs = true -> run (ChConnect :: cs) new_client = Some k -> session k.
Proof. intros Hc H. by eapply session_run; [|apply session_init|]. Qed.

(** A choice that is bound to happen if it stays possible: anything a goroutine can do by
    itself, and the accept of a closed listener.  A state is quiet when there is
    none. *)
Definition prompt (c : choice) (k : client) : bool :=
  match c with
  | ChConnect | ChDisconnect | ChDeviceEnd _ => false
  | ChAccept s _ =>
      match r_services (k_res k) !! s with
      | Some sv => bool_decide (sv_uapi sv = Some false)
      | None => false
      end
  | _ => true
  end.

Definition quiet (k : client) : Prop := forall c, prompt c k = true -> exec c k = None.

(** Everything is up and the watcher waits; or everything is released. *)
Definition connected (k : client) : Prop :=
  k_last k = Some (RConnect None) /\ k_watchers k = [WSelect 0] /\
  r_tunnels (k_res k) = [true] /\ r_devices (k_res k) = [true] /\
  exists sv, r_services (k_res k) = [sv] /\ served sv true.

Definition released (k : client) : Prop :=
  closed (k_res k) /\
  (k_watchers k = [] \/
   (k_watchers k = [WReport] \/ k_watchers k = [WDone]) /\
   Forall (fun sv => sv_uapi sv = Some false) (r_services (k_res k))).

Lemma quiet_caller k :
  k_crashed k = false -> quiet k -> k_caller k = CIdle \/ k_caller k = CSend.
Proof.
  intros Hcr Hq. pose proof (Hq (ChCaller EmptyString None) eq_refl) as H1.
  pose proof (Hq ChTimeout eq_refl) as H2. unfold exec in H1, H2. rewrite Hcr in H1, H2.
  unfold caller_step in H1. destruct (k_caller k) as [|d []|[]| | | |]; eauto; done.
Qed.

Lemma done_released x k :
  session k -> k_watchers k = [x] -> x = WReport \/ x = WDone -> released k.
Proof.
  intros Hs Ew Hd. open_session k Hs; cbn in Ew; simplify_eq. split.
  - destruct Hd; subst; destruct Hw as (? & -> & -> & ->); by repeat constructor.
  - right. split; [destruct Hd; subst; by eauto|]. cbn. constructor; [|done].
    destruct Hd; subst; by destruct Hw as ([] & _).
Qed.

Lemma quiet_session k :
  session k -> quiet k ->
  connected k /\ k_caller k = CIdle \/ released k /\ (k_caller k = CIdle \/ k_caller k = CSend).
Proof.
  intros Hs Hq. pose proof Hs as Hs0. destruct (quiet_caller k (proj1 Hs) Hq) as [Hcall|Hcall].
  all: pose proof (Hq (ChWatcher 0) eq_refl) as Hq1; pose proof (Hq (ChReceive 0) eq_refl) as Hq2.
  all: pose proof (Hq (ChClose 0) eq_refl) as Hq3; pose proof (Hq (ChAccept 0 EBADF)) as Hq4.
  all: clear Hq; open_session k Hs; cbn in Hcall; subst c.
  all: try (right; split; [split; [apply Hs|by left]|by eauto]).
  all: destruct w as [|d| |s| | | | |]; cbn in Hq1, Hw; try done.
  all: try (right; split; [eapply done_released; [exact Hs0|done|by eauto]|by eauto]).
  all: try (destruct Hw as [-> Hw]).
  all: try (destruct Hw as [Hu Ha]; unfold Stop_close in Hq1; by rewrite Hu in Hq1).
  all: try (destruct Hw as [Hu [Ha|[e Ha]]]; cbn in Hq2, Hq4; rewrite ?Hu in Hq4;
    unfold Stop_receive, accept_fails in *; rewrite Ha in Hq2, Hq4; by (done || specialize (Hq4 eq_refl))).
  left. split; [|done]. destruct dev; [|by cbn in Hq1].
  destruct l as [[[]|[]]|]; cbn in Hc; try (by intuition).
  destruct Hc as [(_ & -> & _)|[]]; [|done]. split_and!; try done. by exists sv0.
Qed.

(** No listener is open. *)
Definition unlistened (k : client) : Prop :=
  Forall (fun sv => sv_uapi sv = Some false) (r_services (k_res k)).

Lemma released_unlistened w k : k_watchers k = [w] -> released k -> unlistened k.
Proof. intros Ew [_ [H|[_ H]]]; [congruence|done]. Qed.

(** *** Disconnecting *)

Lemma watcher_step_caller i w k k' :
  watcher_step i w k = Some k' -> k_caller k' = k_caller k /\ k_last k' = k_last k.
Proof.
  unfold watcher_step, do_close_tunnel, do_close_device. intros H.
  destruct w; repeat case_match; by simplify_eq.
Qed.

(** The caller is inside the [Disconnect] of a connection that is up, or that has been
    told to close, or has returned from it. *)
Definition disconnecting (k : client) : Prop :=
  match k_caller k with
  | CStopTimer | CSend => k_last k = Some (RConnect None) /\ r_tunnels (k_res k) = [true]
  | CWait | CClear => k_last k = Some (RConnect None)
  | CIdle => exists b, k_last k = Some (RDisconnect b)
  | _ => False
  end.

Lemma disconnecting_watcher i x k k' :
  session k -> disconnecting k -> k_watchers k !! i = Some x -> watcher_step i x k = Some k' ->
  disconnecting k'.
Proof.
  intros Hs Hd Hi H. destruct (watcher_step_caller _ _ _ _ H) as [Hc' Hl'].
  unfold disconnecting in *. rewrite Hc', Hl'.
  assert (forall c, c = CStopTimer \/ c = CSend -> k_caller k = c ->
    r_tunnels (k_res k) = [true] -> k_last k = Some (RConnect None) ->
    r_tunnels (k_res k') = [true]) as Hkeep.
  { intros c0 Hc0 Ek Et El. clear Hc' Hl' Hd. open_session k Hs; [done|]. cbn in *. subst. simplify_eq.
    assert (waiting w = true /\ dev = true) as [Hwait ->].
    { destruct Hc0; subst; cbn in Hc; destruct Hc as [(? & ? & ?)|[? ?]]; by simplify_eq. }
    destruct i; simplify_eq/=. destruct x; try done; cbn in H; simplify_eq; [done|].
    case_decide as E; [|done]. destruct Hw as [-> _]. by cbn in E. }
  destruct (k_caller k) eqn:Ec; try exact Hd; destruct Hd as [Hl Ht]; (split; [done|]);
    first [by apply (Hkeep CStopTimer); eauto|by apply (Hkeep CSend); eauto].
Qed.

Lemma disconnecting_exec c k k' :
  internal c = true -> calm c = true -> session k -> disconnecting k -> exec c k = Some k' ->
  disconnecting k'.
Proof.
  intros Hi Hcalm Hs Hd H. unfold exec in H. destruct (k_crashed k); [done|].
  destruct c as [| |name err| |i|i|i|i|s e|d]; try done.
  - unfold disconnecting, caller_step in *.
    destruct (k_caller k); try done; simplify_eq/=; by eauto.
  - unfold disconnecting in *. by destruct (k_caller k); simplify_eq.
  - apply bind_Some in H as (w & Hw & H). by eapply disconnecting_watcher.
  - unfold disconnecting in *. destruct (k_caller k); try done.
    destruct (k_watchers k !! i) as [[]|]; simplify_eq. apply Hd.
  - unfold disconnecting in *. destruct (k_caller k); try done.
    destruct (k_watchers k !! i) as [[]|]; simplify_eq. cbn. eauto.
  - destruct (k_watchers k !! i) as [[]|]; try done.
    apply bind_Some in H as (sv1 & _ & H). apply bind_Some in H as ([sv' e] & _ & H). by simplify_eq.
  - apply bind_Some in H as (sv1 & _ & H). apply bind_Some in H as (sv' & _ & H). by simplify_eq.
Qed.

Lemma forallb_and {A} (f g : A -> bool) l :
  forallb f l = true -> forallb g l = true -> forallb (fun x => f x && g x) l = true.
Proof.
  rewrite !List.forallb_forall. intros Hf Hg x Hx. apply andb_true_iff. eauto.
Qed.

Lemma disconnecting_run cs k k' :
  forallb internal cs = true -> forallb calm cs = true -> session k -> disconnecting k ->
  run cs k = Some k' -> session k' /\ disconnecting k'.
Proof.
  intros Hi Hc Hs Hd. apply (run_inv (fun k => session k /\ disconnecting k)
    (fun c => internal c && calm c)); [|by apply forallb_and|done].
  intros c k0 k1 [Hic Hcc]%andb_true_iff [Hs0 Hd0] H. split; [by eapply session_exec|].
  by eapply disconnecting_exec.
Qed.

Lemma connected_measure k w :
  session k -> k_watchers k = [w] -> measure (set_caller k CStopTimer) <= 15.
Proof.
  intros [Hcr H] Ew. rewrite Ew in H. destruct H as (_ & _ & _ & tun & dev & sv & _ & Hd & Hsv & _).
  unfold measure, rest_m. cbn. rewrite Ew, Hd, Hsv, Hcr. cbn. unfold acceptor_m, open_m.
  destruct w, dev, (sv_acceptor sv); cbn; lia.
Qed.

Lemma disconnected_idle k b :
  session k -> disconnecting k -> k_last k = Some (RDisconnect b) ->
  exists w, k_watchers k = [w] /\
    if b then w = WDone else waiting w = false /\ r_net (k_res k) = [].
Proof.
  intros [_ Hs] Hd Hb. unfold disconnecting in Hd. rewrite Hb in Hd, Hs.
  destruct (k_caller k); try done; try (by destruct Hd).
  destruct (k_watchers k) as [|w [|]]; [by destruct Hs as [(e & [=]) _]| |done].
  exists w. destruct Hs as (_ & _ & _ & tun & dev & sv & _ & _ & _ & _ & Hok). by destruct b.
Qed.

(** C5. [Disconnect] of the first connection of a new client completes.  Let the first
    [Connect] of the client have returned without an error, let its tunnel be up, and
    let the device never end by itself.  Then, in every interleaving of the caller, the
    watcher and the accept loop, [Disconnect] returns: no schedule has more than 15
    steps, and when nothing more can happen it has returned and the tunnel, the device,
    the listener and the changes to the network are all gone.  Whenever it returns after
    the watcher's report they are gone already; when it returns after its timeout the
    network is clear. *)
Theorem disconnect_completes cs1 cs2 k1 k
  (H1 : run (ChConnect :: cs1) new_client = Some k1) (Hc1 : forallb calm cs1 = true)
  (Hup : k_caller k1 = CIdle /\ k_last k1 = Some (RConnect None) /\ r_tunnels (k_res k1) = [true])
  (H2 : run (ChDisconnect :: cs2) k1 = Some k) (Hi2 : forallb internal cs2 = true)
  (Hc2 : forallb calm cs2 = true) :
  length cs2 <= 15 /\ k_crashed k = false /\
  (quiet k -> k_caller k = CIdle /\ (exists b, k_last k = Some (RDisconnect b)) /\
     released k /\ unlistened k) /\
  (k_last k = Some (RDisconnect true) -> released k /\ unlistened k) /\
  (k_last k = Some (RDisconnect false) -> r_net (k_res k) = []).
Proof.
  destruct Hup as (Hcall & Hl & Ht). pose proof (session_start _ _ Hc1 H1) as Hs1.
  cbn [run] in H2. destruct (exec ChDisconnect k1) as [k2|] eqn:E; [|done]. cbn in H2.
  assert (k2 = set_caller k1 CStopTimer) as Ek.
  { unfold exec in E. rewrite (proj1 Hs1), Hcall in E. by simplify_eq. }
  pose proof (session_exec ChDisconnect k1 k2 eq_refl Hs1 E) as Hs2.
  destruct (disconnecting_run cs2 k2 k Hi2 Hc2 Hs2) as [Hs Hd]; [by subst k2|done|].
  assert (exists w, k_watchers k1 = [w]) as [w Ew].
  { destruct Hs1 as [_ Hs1]. rewrite Hcall, Hl in Hs1. destruct (k_watchers k1) as [|w [|]];
      [|by exists w|done]. destruct Hs1 as [(e & [=]) _]. }
  split_and!.
  - apply run_measure in H2; [|done]. pose proof (connected_measure k1 w Hs1 Ew) as Hm.
    rewrite <- Ek in Hm. lia.
  - apply Hs.
  - intros Hq. unfold disconnecting in Hd. destruct (quiet_session k Hs Hq) as [[Hup Hcal]|[Hrel [Hcal|Hcal]]].
    + rewrite Hcal in Hd. destruct Hd as [b Hb]. destruct Hup as [Hup _]. congruence.
    + pose proof Hd as Hd0. rewrite Hcal in Hd. destruct Hd as [b Hb]. split_and!; [done|by exists b|done|].
      destruct (disconnected_idle k b Hs Hd0 Hb) as (w' & Ew' & _). by eapply released_unlistened.
    + rewrite Hcal in Hd. destruct Hd as [_ Hd]. destruct Hrel as [[Hf _] _]. rewrite Hd in Hf.
      by apply Forall_cons in Hf as [].
  - intros Hb. destruct (disconnected_idle k true Hs Hd Hb) as (w' & Ew' & Hok).
    assert (released k) as Hrel by (eapply done_released; [done..|]; by right).
    split; [done|by eapply released_unlistened].
  - intros Hb. by destruct (disconnected_idle k false Hs Hd Hb) as (w' & Ew' & _ & Hok).
Qed.

(** C15. The first [Connect] of a client never blocks and cleans up behind itself, as long
    as the device does not end by itself.  Whatever call fails, whenever [Disconnect] is
    called, and however the goroutines are interleaved, the schedules of a client that
    connects once are bounded and no goroutine runs into a nil field; when nothing more
    can happen [Connect] has returned, and either it returned nil and the tunnel, the
    device and the listener are up with a watcher that waits, or the tunnel and the
    device are closed, no change to the network is left, and the listener is closed if
    there was a watcher to close it.  The caller is then idle, or in a [Disconnect] that
    has nothing to wait for. *)
Theorem connect_settles cs k
  (H : run (ChConnect :: cs) new_client = Some k) (Hc : forallb calm cs = true) :
  k_crashed k = false /\
  (forall cs' k', forallb internal cs' = true -> run cs' k = Some k' -> length cs' <= measure k) /\
  (quiet k ->
   connected k /\ k_caller k = CIdle \/ released k /\ (k_caller k = CIdle \/ k_caller k = CSend)).
Proof.
  pose proof (session_start _ _ Hc H) as Hs. split_and!.
  - apply Hs.
  - intros cs' k' Hi Hr. apply run_measure in Hr; [lia|done].
  - by apply quiet_session.
Qed.

(** *** A client that is not connected *)

Definition nobody_waits (k : client) : Prop := Forall (fun w => waiting w = false) (k_watchers k).

Lemma nobody_watcher i w k k' :
  nobody_waits k -> k_watchers k !! i = Some w -> watcher_step i w k = Some k' -> nobody_waits k'.
Proof.
  unfold nobody_waits. intros Hn Hi H.
  assert (waiting w = false) as Hw by (by eapply (Forall_lookup_1 _ _ _ _ Hn Hi)).
  destruct w; try done; cbn in H; unfold do_close_tunnel, do_close_device in H;
    repeat case_match; simplify_eq; cbn; try done; by apply Forall_insert.
Qed.

Definition blocked (k : client) : Prop :=
  (k_caller k = CStopTimer \/ k_caller k = CSend) /\ nobody_waits k.

Lemma blocked_exec c k k' :
  internal c = true -> blocked k -> exec c k = Some k' -> blocked k'.
Proof.
  intros Hi [Hc Hn] H. unfold exec in H. destruct (k_crashed k); [done|].
  destruct c as [| |name err| |i|i|i|i|s e|d]; try done.
  - unfold caller_step in H. destruct Hc as [Hc|Hc]; rewrite Hc in H; simplify_eq.
    split; [by right|done].
  - by destruct Hc as [Hc|Hc]; rewrite Hc in H.
  - apply bind_Some in H as (w & Hw & H). split; [|by eapply nobody_watcher].
    by apply watcher_step_caller in H as [-> _].
  - destruct Hc as [Hc|Hc]; rewrite Hc in H; [done|].
    destruct (k_watchers k !! i) as [[]|] eqn:Ei; try done.
    by apply (Forall_lookup_1 _ _ _ _ Hn) in Ei.
  - by destruct Hc as [Hc|Hc]; rewrite Hc in H.
  - destruct (k_watchers k !! i) as [[]|] eqn:Ei; try done.
    apply bind_Some in H as (sv1 & _ & H). apply bind_Some in H as ([sv' e] & _ & H). simplify_eq.
    split; [done|]. by apply Forall_insert.
  - apply bind_Some in H as (sv1 & _ & H). apply bind_Some in H as (sv' & _ & H). by simplify_eq.
  - case_decide; by simplify_eq.
Qed.

Lemma blocked_run cs k k' :
  forallb internal cs = true -> blocked k -> run cs k = Some k' -> blocked k'.
Proof.
  apply (run_inv blocked internal). intros c k0 k1 Hi Hb H. by eapply blocked_exec.
Qed.

(** [Disconnect] needs a watcher that still waits.  On a client that was never
    connected, whose [Connect] failed, whose device has ended, or that was already
    disconnected, it blocks for ever in its send, whatever else happens. *)
Theorem disconnect_blocks cs k k'
  (Hidle : k_caller k = CIdle) (Hn : nobody_waits k) (Hi : forallb internal cs = true)
  (H : run (ChDisconnect :: cs) k = Some k') :
  k_caller k' = CStopTimer \/ k_caller k' = CSend.
Proof.
  cbn [run] in H. apply bind_Some in H as (k1 & E & H). unfold exec in E.
  destruct (k_crashed k); [done|]. rewrite Hidle in E. simplify_eq.
  apply blocked_run in H as [Hb _]; [done|done|]. split; [by left|done].
Qed.
End System.
