(* ===== verification/ClientRuns.v ===== *)
(** * Runs of the WireGuard client

    The atomic [Connect] of [WireguardClient] is the run of [ClientSystem] in which the
    caller is alone; and runs in which goroutines of one connection meet the next
    one, through the fields and channels that all connections of a client share. *)

From S2P Require Import Prelude WGTypes WireguardConfig CtrlService WireguardClient ClientSystem.

Section Runs.
Context `{keys : WGKeys}.
Variable cfg : wireguardConfig.

(** ** The caller alone *)

(** A schedule in which the choices that are not possible are left out. *)
Fixpoint play (cs : list choice) (k : client) : client :=
  match cs with
  | [] => k
  | c :: cs => play cs (default k (exec cfg c k))
  end.

(** The outcomes of the calls of [Connect], and what is left of the deferred function. *)
Definition outcomes (v : env) : list choice :=
  let call := ChCaller EmptyString in
  let iface := e_GetNextAvailabeInterface v (if e_darwin v then "utun" else "wg") in
  [ChCaller iface.1 iface.2; call (e_CreateTUN v);
   match e_tunnel_Name v with Ok n => ChCaller n None | _ => call (Some Canceled) end;
   call None; call (e_device_Up v); call None; call (e_uapi_Start v);
   call (e_NewWireguardCtrlClient v); call None; call (e_Configure v); call (e_DisableIPv6 v);
   call (e_NewRouteManager v); call (e_AddExternalRouteToIPs v); call (e_NewRoutableInterface v)]
  ++ (if isDefaultRoute cfg then [call (e_MakeDefaultRoute v)] else [])
  ++ [call (e_NewDNSManager v); call (e_AddDNSServers v); call (e_AddSearchDomains v);
      call (e_metricsTimer_Start v); call None; call None; call None].

(** What the client holds, read through the fields of its object. *)
Definition abs (k : client) : world :=
  let o := k_obj k in
  let r := k_res k in
  mkWorld (o_ifaceName o)
    (default false (o_tunnel o ≫= fun t => r_tunnels r !! t))
    (default false (o_device o ≫= fun d => r_devices r !! d))
    (bool_decide ((o_service o ≫= fun s => r_services r !! s ≫= sv_uapi) = Some true))
    (match k_watchers k with
     | [] => NotStarted
     | (WStart | WSelect _) :: _ => Waiting
     | (WReport | WDone) :: _ => Reporting
     | _ => Releasing 0
     end)
    (r_net r) (o_timer o).

(** [outcome o] decides the next call; a failure ends [Connect] and both sides can be
    computed. *)
Ltac computed := vm_compute; split_and!; reflexivity.
Ltac outcome o := destruct o; [computed|].

(** The two models agree: for every outcome of every call, [Connect] as one step is
    [Connect] call by call with nothing in between.  It returns the same error and
    leaves the same tunnel, device, listener, watcher, timer and changes to the
    network. *)
Lemma Connect_refined (v : env) :
  let k := play (ChConnect :: outcomes v) new_client in
  k_caller k = CIdle /\ abs k = (Connect cfg v idle).1 /\
  k_last k = Some (RConnect (Connect cfg v idle).2).
Proof.
  assert (exec cfg ChConnect new_client
    = Some (set_caller new_client (CConnect false (start_prog ++ network_prog cfg)))) as E by done.
  cbn [play]. rewrite E. clear E. cbn [default].
  unfold Connect, outcomes, network_prog, start_steps, network_steps.
  destruct (isDefaultRoute cfg), (e_tunnel_Name v),
    (e_GetNextAvailabeInterface v _) as [? [?|]]; [computed| |computed| |computed| |computed|
    |computed| |computed|].
  all: outcome (e_CreateTUN v); outcome (e_device_Up v); outcome (e_uapi_Start v);
    outcome (e_NewWireguardCtrlClient v); outcome (e_Configure v); outcome (e_DisableIPv6 v);
    outcome (e_NewRouteManager v); outcome (e_AddExternalRouteToIPs v);
    outcome (e_NewRoutableInterface v).
  1-3: outcome (e_MakeDefaultRoute v).
  all: outcome (e_NewDNSManager v); outcome (e_AddDNSServers v); outcome (e_AddSearchDomains v);
    outcome (e_metricsTimer_Start v); computed.
Qed.

(** ** A connection and the next one *)

Definition ok : choice := ChCaller "wg0" None.

(** A [Connect] in which every call succeeds, without and with the return. *)
Definition connect_calls (n : nat) : list choice := ChConnect :: replicate n ok.
Definition connect_all : list choice := connect_calls (S (length (connect_prog cfg))).

(** The steps of watcher [i] once it has been woken, when the field holds service [s]. *)
Definition watcher_ends (i s : nat) : list choice :=
  [ChWatcher i; ChAccept s EBADF; ChReceive i; ChWatcher i; ChWatcher i; ChWatcher i].

(** [Disconnect] up to the wait for the watcher. *)
Definition tell_watcher (i : nat) : list choice := [ChDisconnect; ok; ChWatcher i; ChClose i].

(** The first [Connect] fails when the device is configured, and its watcher cleans up;
    the second one succeeds and is disconnected. *)
Definition retry_run : list choice :=
  connect_calls 9 ++ [ChCaller EmptyString (Some Canceled); ok; ok]
  ++ [ChWatcher 0; ChWatcher 0] ++ watcher_ends 0 0
  ++ connect_all ++ tell_watcher 1 ++ [ChReport 0].

(** The first [Disconnect] times out before its watcher has begun; the watcher goes on
    after the second [Connect]. *)
Definition late_watcher_run (second : list choice) (s : nat) : list choice :=
  connect_all ++ tell_watcher 0 ++ [ChTimeout; ok] ++ second ++ watcher_ends 0 s.

End Runs.

Section Races.
Context `{keys : WGKeys}.
Variable cfg : wireguardConfig.

(** Only the default route matters for how a run goes. *)
Ltac run_it :=
  destruct cfg; match goal with b : bool |- _ => destruct b end;
  eexists; (split; [vm_compute; reflexivity|]); cbn; split_and?;
  (done || by repeat constructor).

(** A watcher that cleaned up after a failed [Connect] stays blocked in its report, and
    the [Disconnect] of the next connection takes that report for the one of its own
    watcher: it returns as if all were done while the tunnel, the device and the
    routes of the connection are still there. *)
Theorem stale_report :
  exists k, run cfg (retry_run cfg) new_client = Some k /\ k_last k = Some (RDisconnect true) /\
    o_tunnel (k_obj k) = Some 1 /\ r_tunnels (k_res k) = [false; true] /\
    r_devices (k_res k) = [false; true] /\ r_net (k_res k) <> [].
Proof. run_it. Qed.

(** A [Disconnect] that gives up after half a second leaves its watcher running, and
    the watcher looks at the fields of the client only when it gets to them.  If the
    client has connected again by then, the watcher closes the listener, the tunnel
    and the device of the new connection behind a [Connect] that has reported
    success, clears its routes, and leaves the old tunnel and device open;
    if the new [Connect] could not create its tunnel, the field is nil and the
    process panics. *)
Theorem late_watcher_closes_next_connection :
  (exists k, run cfg (late_watcher_run cfg (connect_all cfg) 1) new_client = Some k /\
     k_caller k = CIdle /\ k_last k = Some (RConnect None) /\
     o_tunnel (k_obj k) = Some 1 /\ r_tunnels (k_res k) = [true; false] /\
     r_devices (k_res k) = [true; false] /\ r_net (k_res k) = []) /\
  (exists k, run cfg (connect_all cfg ++ tell_watcher 0 ++ [ChTimeout; ok] ++
       connect_calls 1 ++ [ChCaller EmptyString (Some Canceled)] ++ take 4 (watcher_ends 0 0))
       new_client = Some k /\ k_crashed k = true).
Proof. split; run_it. Qed.

(** When the device ends while [Connect] is still setting up the network, the watcher
    clears the network too early: [Connect] adds the rest of its routes and name
    servers to a network without a tunnel, and returns no error. *)
Theorem device_end_during_connect :
  exists k, run cfg (connect_calls 10 ++ [ChWatcher 0; ChDeviceEnd 0; ChWatcher 0]
      ++ watcher_ends 0 0 ++ replicate (length (connect_prog cfg) - 9) ok) new_client = Some k /\
    k_caller k = CIdle /\ k_last k = Some (RConnect None) /\
    r_tunnels (k_res k) = [false] /\ r_devices (k_res k) = [false] /\ r_net (k_res k) <> [] /\
    nobody_waits k.
Proof. run_it. Qed.
End Races.

(** ** Witnesses *)

(** A connection that comes up, and the schedule of its [Disconnect]. *)
Definition up : list choice := replicate (S (length (connect_prog cfg1))) ok ++ [ChWatcher 0].

Lemma connect_settles_witness :
  exists k, run cfg1 (ChConnect :: up) new_client = Some k /\ k_crashed k = false /\
    (forall cs' k', forallb internal cs' = true -> run cfg1 cs' k = Some k' ->
       length cs' <= measure k) /\
    (quiet cfg1 k -> connected k /\ k_caller k = CIdle \/
       released k /\ (k_caller k = CIdle \/ k_caller k = CSend)).
Proof.
  eexists. split; [vm_compute; reflexivity|]. apply (connect_settles cfg1 up); vm_compute; reflexivity.
Defined.

Lemma disconnect_completes_witness :
  exists k1 k, run cfg1 (ChConnect :: up) new_client = Some k1 /\
    run cfg1 (ChDisconnect :: [ok; ChClose 0] ++ watcher_ends 0 0 ++ [ChReport 0]) k1 = Some k /\
    released k /\ unlistened k.
Proof.
  eexists _, _. split; [vm_compute; reflexivity|]. split; [vm_compute; reflexivity|].
  eapply (disconnect_completes cfg1 up ([ok; ChClose 0] ++ watcher_ends 0 0 ++ [ChReport 0]));
    try (vm_compute; reflexivity). by split_and!.
Defined.

Lemma disconnect_blocks_witness :
  exists k, run cfg1 [ChDisconnect; ok] new_client = Some k /\
    (k_caller k = CStopTimer \/ k_caller k = CSend).
Proof.
  eexists. split; [reflexivity|].
  apply (disconnect_blocks cfg1 [ok] new_client); [done|constructor|done|done].
Defined.
