(* ===== verification/StatusTexts.v ===== *)
(** * The two status texts

    The control client of vpn/wireguard_ctrl.go and the daemon of
    tailscale/wireguard_device.go each print the state of a WireGuard device, from
    formats of their own.  Both texts are compared here, with each other and for what
    they depend on. *)

From S2P Require Import Prelude GoStrings GoNet WGTypes DeviceParser WireguardClient.

Section Texts.
Context `{keys : WGKeys}.
Variable DeviceType_String : Z -> string.
Variable Time_String : gotime -> string.

(** What both print before the peers. *)
Definition header (d : Device) : string :=
  "interface: " +:+ d_Name d +:+ " (" +:+ DeviceType_String (d_Type d) +:+ ")" +:+ NL +:+
  "  public key: " +:+ Key_String (d_PublicKey d) +:+ NL +:+
  "  private key: (hidden)" +:+ NL.

Definition peers_text (d : Device) : string :=
  foldr (fun p s => peer_status Time_String p +:+ s) EmptyString (d_Peers d).

Lemma StatusText_parts (d : Device) :
  StatusText DeviceType_String Time_String (inr d) = Ok (header d +:+ peers_text d).
Proof. unfold StatusText, header. by rewrite !s_app_assoc. Qed.

(** Separating the peers by a line before each, or by one after each. *)
Lemma peers_shifted (peers : list Peer) :
  NL +:+ foldr (fun p s => printPeer Time_String p +:+ s) EmptyString peers
    = foldr (fun p s => peer_status Time_String p +:+ s) EmptyString peers +:+ NL.
Proof.
  induction peers as [|p peers IH]; [done|]. cbn [foldr]. rewrite s_app_assoc, <- IH.
  unfold printPeer, peer_status, ipsString. by rewrite !s_app_assoc.
Qed.

(** C28. The daemon and the control client print the same: for the device that the daemon
    reads, its text is that of the control client with the line of the listening
    port put in before the peers and an empty line at the end. *)
Theorem status_texts_agree (wgDevice : option (string * option error)) (d : Device)
  (H : WireguardDevice wgDevice = Ok d) :
  StatusText DeviceType_String Time_String (inr d)
    = Ok (header d +:+ peers_text d) /\
  WireguardStatusText DeviceType_String Time_String wgDevice
    = Ok (header d +:+
          ("  listening port: " +:+ format_int (d_ListenPort d) +:+ NL) +:+
          peers_text d +:+ NL).
Proof.
  split; [apply StatusText_parts|]. unfold WireguardStatusText. rewrite H. cbn [mbind result_bind].
  unfold printDevice, header, peers_text. rewrite <- peers_shifted. by rewrite !s_app_assoc.
Qed.

(** The same device with another private key and other preshared keys. *)
Definition with_secrets (private : Key) (preshared : Peer -> Key) (d : Device) : Device :=
  mkDevice (d_Name d) (d_Type d) private (d_PublicKey d) (d_ListenPort d) (d_FirewallMark d)
    ((fun p => mkPeer (p_PublicKey p) (preshared p) (p_Endpoint p)
       (p_PersistentKeepaliveInterval p) (p_LastHandshakeTime p) (p_ReceiveBytes p)
       (p_TransmitBytes p) (p_AllowedIPs p) (p_ProtocolVersion p)) <$> d_Peers d).

(** No secret gets into a status text: both are the same for any private key and any
    preshared keys. *)
Theorem status_texts_hide_keys (private : Key) (preshared : Peer -> Key) (d : Device) :
  StatusText DeviceType_String Time_String (inr (with_secrets private preshared d))
    = StatusText DeviceType_String Time_String (inr d) /\
  printDevice DeviceType_String (with_secrets private preshared d)
    = printDevice DeviceType_String d /\
  printPeer Time_String <$> d_Peers (with_secrets private preshared d)
    = printPeer Time_String <$> d_Peers d.
Proof.
  split_and!; [|done|].
  - rewrite !StatusText_parts.
    replace (peers_text (with_secrets private preshared d)) with (peers_text d); [done|].
    unfold peers_text. cbn [d_Peers with_secrets].
    induction (d_Peers d) as [|p l IH]; [done|]. rewrite fmap_cons. cbn [foldr]. by rewrite <- IH.
  - cbn. rewrite <- list_fmap_compose. by apply list_fmap_ext.
Qed.
End Texts.

Lemma status_texts_agree_witness :
  exists d : Device (keys := plain_keys),
    WireguardDevice (Some ("listen_port=51820" +:+ NL, None)) = Ok d /\
    WireguardStatusText (fun _ => "userspace") (fun _ => "never")
        (Some ("listen_port=51820" +:+ NL, None))
      = Ok (header (fun _ => "userspace") d +:+
            ("  listening port: " +:+ format_int (d_ListenPort d) +:+ NL) +:+
            peers_text (fun _ => "never") d +:+ NL).
Proof.
  eexists. split; [reflexivity|].
  apply (status_texts_agree (fun _ => "userspace") (fun _ => "never")
           (Some ("listen_port=51820" +:+ NL, None))).
  reflexivity.
Defined.
