(* ===== verification/CtrlClient.v ===== *)
(** * The control client: vpn/wireguard_ctrl.go

    [WGCtrlClient] is a thin object over the wgctrl package: it reads and configures the
    device of one interface.  The package and the devices of the machine are an
    interface with documented laws, against which the way of a configuration is
    followed: from the text of a file through [Connect] into the device, and from there
    into the public key and the status text that the client shows. *)

From S2P Require Import Prelude GoStrings GoNet GoNetText WGTypes WireguardConfig ConfigFile WireguardClient StatusTexts.

(** ** The wgctrl package *)

(** [wgtypes.Config], with the fields that the code sets. *)
Record wgConfig `{keys : WGKeys} := mkWgConfig {
  cfg_PrivateKey : option Key;
  cfg_Peers : list PeerConfig;
}.

Class WGCtrl `{keys : WGKeys} := {
  Client : Type;
  machine : Type;
  wgctrl_New : machine -> error + Client;
  Client_Device : Client -> string -> machine -> error + Device;
  Client_ConfigureDevice : Client -> string -> wgConfig -> machine -> machine * option error;
}.

Section Package.
Context `{keys : WGKeys}.

Definition endpoint_ok (a : UDPAddr) : Prop :=
  ip_typed (udp_IP a) /\ (0 <= udp_Port a < 65536)%Z /\ udp_Zone a = EmptyString.

(** Peers that a device with private key [k] takes as they are: none is the device
    itself, none is named twice, and no network is allowed twice. *)
Definition peers_distinct (k : Key) (peers : list PeerConfig) : Prop :=
  NoDup (Key_PublicKey k :: zeroKey :: (pc_PublicKey <$> peers)) /\
  NoDup (peers ≫= pc_AllowedIPs).

Definition peers_ok (k : Key) (peers : list PeerConfig) : Prop :=
  peers_distinct k peers /\
  Forall (fun pc => Forall net_typed (pc_AllowedIPs pc) /\
    match pc_Endpoint pc with Some a => endpoint_ok a | None => True end) peers.

(** A peer of a device that is as configured.  The package may return an address in its
    4 or its 16 bytes and the networks in any order. *)
Definition shows (pc : PeerConfig) (p : Peer) : Prop :=
  p_PublicKey p = pc_PublicKey pc /\
  UDPAddr_String (p_Endpoint p) = UDPAddr_String (pc_Endpoint pc) /\
  (IPNet_String <$> p_AllowedIPs p) ≡ₚ (IPNet_String <$> pc_AllowedIPs pc).
End Package.

(** What the package documents: a device is read by its name; peers are added to the
    list of the device, whose public key is that of the private key that was set. *)
Class WGCtrlLaws `{keys : WGKeys} (ctrl : WGCtrl) : Prop := {
  device_name c n m d : Client_Device c n m = inr d -> d_Name d = n;
  device_configured c n k peers m m' d :
    Client_Device c n m = inr d -> d_Peers d = [] -> peers_ok k peers ->
    Client_ConfigureDevice c n (mkWgConfig keys (Some k) peers) m = (m', None) ->
    exists d' ps, Client_Device c n m' = inr d' /\ d_Type d' = d_Type d /\
      d_PublicKey d' = Key_PublicKey k /\ d_Peers d' ≡ₚ ps /\ Forall2 shows peers ps;
}.

(** ** The client *)

Section CtrlClient.
Context `{ctrl : WGCtrl}.

Record WGCtrlClient := mkWGCtrlClient {
  ifaceName : string;
  wgClient : Client;
}.

Definition NewWireguardCtrlClient (ifaceName : string) (m : machine) : error + WGCtrlClient :=
  match wgctrl_New m with
  | inl e => inl e
  | inr c => inr (mkWGCtrlClient ifaceName c)
  end.

Definition ctrl_Device (wgcc : WGCtrlClient) (m : machine) : error + Device :=
  Client_Device (wgClient wgcc) (ifaceName wgcc) m.

Definition Configure (wgcc : WGCtrlClient) (cfg : wgConfig) (m : machine)
    : machine * option error :=
  Client_ConfigureDevice (wgClient wgcc) (ifaceName wgcc) cfg m.

(** The methods that read the device, on what it reads. *)
Definition client_PublicKey (wgcc : WGCtrlClient) (m : machine) : result string :=
  ctrl_PublicKey (ctrl_Device wgcc m).

Definition client_BytesTransmitted (wgcc : WGCtrlClient) (m : machine) : Z * Z * option error :=
  ctrl_BytesTransmitted (ctrl_Device wgcc m).

Variable DeviceType_String : Z -> string.
Variable Time_String : gotime -> string.

Definition client_StatusText (wgcc : WGCtrlClient) (m : machine) : result string :=
  StatusText DeviceType_String Time_String (ctrl_Device wgcc m).

(** ** Connecting *)

(** The name of the interface that [Connect] ends up with. *)
Definition tunnel_name (v : env) : string :=
  match e_tunnel_Name v with
  | Ok n => n
  | _ => (e_GetNextAvailabeInterface v (if e_darwin v then "utun" else "wg")).1
  end.

(** The two calls [Connect] makes of the control client, on a machine [m]. *)
Definition configure_tunnel (c : wireguardConfig) (n : string) (m : machine)
    : option error * (machine * option error) :=
  match NewWireguardCtrlClient n m with
  | inr wgcc => (None, Configure wgcc (mkWgConfig keys (config_PrivateKey c) (config_Peers c)) m)
  | inl e => (Some e, (m, None))
  end.

(** The outcomes of [Connect] on the machine, which has the new device when they are
    reached. *)
Definition on_machine (c : wireguardConfig) (m : machine) (v : env) : env :=
  let calls := configure_tunnel c (tunnel_name v) m in
  mkEnv (e_darwin v) (e_GetNextAvailabeInterface v) (e_CreateTUN v) (e_tunnel_Name v)
    (e_device_Up v) (e_uapi_Start v) calls.1 calls.2.2
    (e_DisableIPv6 v) (e_NewRouteManager v) (e_AddExternalRouteToIPs v) (e_NewRoutableInterface v)
    (e_MakeDefaultRoute v) (e_NewDNSManager v) (e_AddDNSServers v) (e_AddSearchDomains v)
    (e_metricsTimer_Start v).

Lemma steps_succeeded steps w w' :
  run_steps steps w = (w', None) -> Forall (fun s => s.1 = None) steps.
Proof.
  revert w. induction steps as [|[[e|] f] steps IH]; intros w H; [done|done|].
  constructor; [done|by eapply IH].
Qed.

(** The network calls do not rename the interface. *)
Lemma steps_iface steps w w' err :
  Forall (fun s : option error * (world -> world) => forall w, w_ifaceName (s.2 w) = w_ifaceName w) steps ->
  run_steps steps w = (w', err) -> w_ifaceName w' = w_ifaceName w.
Proof.
  intros Hs. revert w. induction Hs as [|[[e|] f] steps Hf _ IH]; intros w H; cbn in H;
    [by simplify_eq..|]. rewrite (IH _ H). apply Hf.
Qed.

Lemma connect_succeeded c v w :
  Connect c v idle = (w, None) ->
  e_NewWireguardCtrlClient v = None /\ e_Configure v = None /\ w_ifaceName w = tunnel_name v.
Proof.
  unfold Connect, tunnel_name. set (pre := if e_darwin v then "utun" else "wg").
  destruct (e_GetNextAvailabeInterface v pre) as [n [e|]]; [done|].
  destruct (e_CreateTUN v) as [e|]; [done|]. set (w0 := open_device _). intros H.
  assert (w_ifaceName w0 = match e_tunnel_Name v with Ok n => n | _ => n end) as Hn
    by (unfold w0; by destruct (e_tunnel_Name v)).
  destruct (run_steps _ w0) as [w1 [e|]] eqn:E; [done|].
  pose proof (steps_succeeded _ _ _ E) as Hs.
  assert (w_ifaceName w1 = w_ifaceName w0) as Hi.
  { eapply steps_iface; [|exact E]. unfold start_steps, network_steps.
    destruct (isDefaultRoute c); cbn [app];
      repeat (apply Forall_cons_2; [by intros []|]); apply Forall_nil_2. }
  unfold start_steps, network_steps in Hs. cbn [app] in Hs. rewrite !Forall_cons in Hs.
  destruct Hs as (_ & _ & H1 & H2 & _). cbn [fst snd] in *. split_and!; [done..|].
  rewrite <- Hn, <- Hi. destruct (e_metricsTimer_Start v); by simplify_eq.
Qed.

(** ** From a file to the device *)

Variable ResolveUDPAddr : string -> result UDPAddr.

(** An address that was resolved is one. *)
Hypothesis resolved_ok : forall text a, ResolveUDPAddr text = Ok a -> endpoint_ok a.

Lemma net_of_typed c : cidr_ok c -> net_typed (net_of c).
Proof. intros Hc. by eapply ParseCIDR_typed, ParseCIDR_text. Qed.

(** The attributes of the peers of a good file are good. *)
Lemma peer_sections_ok f :
  file_ok ResolveUDPAddr f -> Forall (Forall (peer_attr_ok ResolveUDPAddr)) (peer_sections_of f).
Proof.
  intros [_ Hs]. unfold peer_sections_of. induction Hs as [|[[b a] s] xs Hx _ IH]; [done|].
  destruct s as [ls|ls|t ls]; cbn; [done| |done]. constructor; [|done].
  destruct Hx as (_ & _ & _ & Hl). unfold attrs_of.
  induction Hl as [|[b' a' x|x] ls Hx _ IHl]; cbn; [done| |done]. constructor; [apply Hx|done].
Qed.

Lemma last_of_ok {A B} (g : A -> option B) (P : A -> Prop) (Q : B -> Prop) l b :
  Forall P l -> (forall a b, P a -> g a = Some b -> Q b) -> last_of g l = Some b -> Q b.
Proof.
  intros Hl HP. revert b. induction l as [|a l IH] using rev_ind; intros b; [done|].
  apply Forall_app in Hl as [Hl [Ha _]%Forall_cons].
  unfold last_of. rewrite foldl_snoc. destruct (g a) as [b'|] eqn:E; [|by apply IH].
  intros [= <-]. by eapply HP.
Qed.

(** The lengths of keepalive intervals do not matter. *)
Lemma distinct_keepalive k n f duration :
  peers_distinct k (config_Peers (meaning n f)) ->
  peers_distinct k (config_Peers (meaning_in duration n f)).
Proof.
  unfold peers_distinct. cbn [config_Peers meaning meaning_in]. rewrite <- !list_fmap_compose.
  by rewrite !list_fmap_bind.
Qed.

Lemma file_peers_ok k n f duration :
  file_ok ResolveUDPAddr f -> peers_distinct k (config_Peers (meaning n f)) ->
  peers_ok k (config_Peers (meaning_in duration n f)).
Proof.
  intros Hf Hd. split; [by apply distinct_keepalive|]. cbn. apply Forall_fmap.
  eapply Forall_impl; [by apply peer_sections_ok|]. intros l Hl. cbn. split.
  - apply Forall_fmap, Forall_bind. eapply Forall_impl; [exact Hl|].
    intros [k'|nets|text a|z] Ha; cbn; try constructor.
    eapply Forall_impl; [apply Ha|]. intros c. apply net_of_typed.
  - destruct (last_of _ l) as [a|] eqn:E; [|done]. eapply last_of_ok; [exact Hl| |exact E].
    intros [k'|nets|text a'|z] a0 Ha; cbn; intros [=<-]. by eapply resolved_ok.
Qed.

(** What the status text says of a configured peer. *)
Definition peer_block (pc : PeerConfig) (block : string) : Prop :=
  exists nets rest, nets ≡ₚ (IPNet_String <$> pc_AllowedIPs pc) /\
    block = NL +:+ "peer: " +:+ Key_String (pc_PublicKey pc) +:+ NL +:+
            "  endpoint: " +:+ UDPAddr_String (pc_Endpoint pc) +:+ NL +:+
            "  allowed ips: " +:+ Join ", " nets +:+ NL +:+ rest.

Lemma shows_block pc p : shows pc p -> peer_block pc (peer_status Time_String p).
Proof.
  intros (Hk & He & Hn). unfold peer_status. rewrite Hk, He. eexists _, _. split; [exact Hn|].
  reflexivity.
Qed.

Lemma peers_text_blocks d :
  peers_text Time_String d
    = foldr String.append EmptyString (peer_status Time_String <$> d_Peers d).
Proof.
  unfold peers_text. induction (d_Peers d) as [|p l IH]; [done|]. rewrite fmap_cons. cbn [foldr].
  by rewrite IH.
Qed.

Context {key_laws : WGKeysLaws keys} {laws : WGCtrlLaws ctrl}.

End CtrlClient.

(** ** A machine with its devices in memory *)

Definition new_peer (pc : PeerConfig (keys := plain_keys)) : Peer :=
  mkPeer (pc_PublicKey pc) zeroKey (pc_Endpoint pc)
    (default 0%Z (pc_PersistentKeepaliveInterval pc)) TimeZero 0 0 (pc_AllowedIPs pc) 1.

(** The networks of a configured peer are taken from the others. *)
Definition take_networks (nets : list IPNet) (p : Peer (keys := plain_keys)) : Peer :=
  mkPeer (p_PublicKey p) (p_PresharedKey p) (p_Endpoint p) (p_PersistentKeepaliveInterval p)
    (p_LastHandshakeTime p) (p_ReceiveBytes p) (p_TransmitBytes p)
    (filter (fun n => n ∉ nets) (p_AllowedIPs p)) (p_ProtocolVersion p).

Definition update_peer (pc : PeerConfig) (p : Peer (keys := plain_keys)) : Peer :=
  mkPeer (p_PublicKey p) (p_PresharedKey p)
    (match pc_Endpoint pc with Some a => Some a | None => p_Endpoint p end)
    (default (p_PersistentKeepaliveInterval p) (pc_PersistentKeepaliveInterval pc))
    (p_LastHandshakeTime p) (p_ReceiveBytes p) (p_TransmitBytes p)
    (p_AllowedIPs p ++ pc_AllowedIPs pc) (p_ProtocolVersion p).

Definition configure_peer (own : key_array) (ps : list (Peer (keys := plain_keys))) (pc : PeerConfig) : list Peer :=
  if decide (pc_PublicKey pc = own) then ps
  else
    let ps := take_networks (pc_AllowedIPs pc) <$> ps in
    if decide (pc_PublicKey pc ∈ p_PublicKey <$> ps)
    then (fun p => if decide (p_PublicKey p = pc_PublicKey pc) then update_peer pc p else p) <$> ps
    else ps ++ [new_peer pc].

Definition configure_device (cfg : wgConfig (keys := plain_keys)) (d : Device) : Device :=
  let private := default (d_PrivateKey d) (cfg_PrivateKey cfg) in
  mkDevice (d_Name d) (d_Type d) private private (d_ListenPort d) (d_FirewallMark d)
    (foldl (configure_peer private) (d_Peers d) (cfg_Peers cfg)).

Definition not_exist : error := Errorf "file does not exist" [].

(** Devices under their names. *)
Definition devices_read (n : string) (m : gmap string (Device (keys := plain_keys))) : error + Device :=
  match m !! n with
  | Some d => inr (mkDevice n (d_Type d) (d_PrivateKey d) (d_PublicKey d) (d_ListenPort d)
                     (d_FirewallMark d) (d_Peers d))
  | None => inl not_exist
  end.

#[global] Instance memory_ctrl : WGCtrl (keys := plain_keys) := {|
  Client := unit;
  machine := gmap string Device;
  wgctrl_New := fun _ => inr tt;
  Client_Device := fun _ => devices_read;
  Client_ConfigureDevice := fun _ n cfg m =>
    match m !! n with
    | Some d => (<[n := configure_device cfg d]> m, None)
    | None => (m, Some not_exist)
    end;
|}.

Lemma take_networks_disjoint nets (p : Peer (keys := plain_keys)) :
  (forall n, n ∈ p_AllowedIPs p -> n ∉ nets) -> take_networks nets p = p.
Proof.
  intros H. destruct p as [pk psk ep ka hs rx tx ips v]. unfold take_networks. cbn in *. f_equal.
  induction ips as [|n ips IH]; [done|]. rewrite filter_cons_True by (apply H; by left).
  f_equal. apply IH. intros n' Hn. apply H. by right.
Qed.

(** New peers are appended. *)
Lemma configure_peers (own : key_array) (done peers : list (PeerConfig (keys := plain_keys))) :
  NoDup (pc_PublicKey <$> (done ++ peers)) -> own ∉ pc_PublicKey <$> peers ->
  NoDup ((done ++ peers) ≫= pc_AllowedIPs) ->
  foldl (configure_peer own) (new_peer <$> done) peers = new_peer <$> (done ++ peers).
Proof.
  revert done. induction peers as [|pc peers IH]; intros dn Hk Ho Hn; [by rewrite app_nil_r|].
  cbn [foldl]. assert (configure_peer own (new_peer <$> dn) pc = new_peer <$> (dn ++ [pc])) as ->.
  { unfold configure_peer. rewrite decide_False by set_solver.
    assert (take_networks (pc_AllowedIPs pc) <$> (new_peer <$> dn) = new_peer <$> dn) as ->.
    { rewrite <- list_fmap_compose. apply list_fmap_ext. intros i x Hx. cbn.
      apply take_networks_disjoint. intros nt Hnt Hin. rewrite bind_app in Hn.
      apply NoDup_app in Hn as (_ & Hn & _). apply (Hn nt).
      - apply list_elem_of_bind. exists x. split; [done|]. by eapply list_elem_of_lookup_2.
      - cbn. set_solver. }
    rewrite decide_False; [by rewrite fmap_app|]. rewrite <- list_fmap_compose. cbn.
    rewrite fmap_app in Hk. apply NoDup_app in Hk as (_ & Hk & _). intros Hin.
    apply (Hk _ Hin). by left. }
  rewrite (cons_middle pc dn peers), (assoc (++)) in *. apply IH; [done| |done]. set_solver.
Qed.

#[global] Instance memory_ctrl_laws : WGCtrlLaws memory_ctrl.
Proof.
  split; cbn.
  - intros _ n m d H. unfold devices_read in H. by destruct (m !! n); simplify_eq.
  - intros _ n k peers m m' d Hd Hp [[Hk Hn] Hok] H. unfold devices_read in Hd.
    destruct (m !! n) as [d0|] eqn:E; simplify_eq. cbn in Hp.
    unfold devices_read. rewrite lookup_insert_eq. cbn. eexists _, (new_peer <$> peers).
    split; [done|]. cbn. apply NoDup_cons in Hk as [Ho [_ Hk]%NoDup_cons]. rewrite Hp.
    split_and!; [done|done| |].
    + change [] with (new_peer <$> []). by rewrite (configure_peers k []) by set_solver.
    + apply Forall2_fmap_r, Forall_Forall2_diag, Forall_true. intros pc. by split_and!.
Qed.

(** ** The file with two peers, connected *)

Definition tun_env : env :=
  mkEnv false (fun p => (p +:+ "0", None)) None (Ok "wg0") None None None None None None None None
    None None None None None.

Definition empty_tunnel : Device := mkDevice "wg0" 1 zeroKey zeroKey 0 0 [].

Definition tun_machine : machine (WGCtrl := memory_ctrl) := {[ "wg0" := empty_tunnel ]}.

Lemma resolver_ok text a : resolver text = Ok a -> endpoint_ok a.
Proof.
  unfold resolver. destruct (String.eqb _ _); intros; simplify_eq.
  split_and!; [|done..]. apply (bool_decide_unpack _). vm_compute. exact I.
Qed.

Lemma file1_distinct : peers_distinct (key_of "a") (config_Peers (meaning "space" file1)).
Proof. split; apply (bool_decide_unpack _); vm_compute; exact I. Qed.

(** What the reader makes of the file. *)
Definition read1 : wireguardConfig := meaning_in (fun n => n) "space" file1.

Lemma file1_connects :
  exists w, Connect read1 (on_machine read1 tun_machine tun_env) idle
    = (w, None) /\ w_ifaceName w = "wg0".
Proof. eexists. split; [vm_compute; reflexivity|reflexivity]. Qed.

