(* ===== verification/VpnClient.v ===== *)
(** * Configurations and clients behind their interfaces

    The interfaces [Config] and [Client] of vpn/service.go with two implementations:
    WireGuard (vpn/wireguard_config.go, wireguard_client_unix.go) and the placeholder
    for OpenVPN (vpn/openvpn_config.go, openvpn_client.go), and what a client owes to
    its caller.  The file system and the QR code
    library are arguments. *)

From S2P Require Import Prelude GoStrings GoNet GoNetText WGTypes Counter Events Monitor WireguardConfig WireguardClient.

(** The outcome of [os.WriteFile] for a path, [qrcode.New] with the text it would show,
    and [filepath.Join]. *)
Record save_env := mkSaveEnv {
  FilePath_Join : string -> string -> string;
  WriteFile : string -> option error;
  qrcode_New : string -> result string;
}.

(** The files a call has written, and what it returns. *)
Definition saved : Type := list (string * string) * result string.

Section Interfaces.
Context `{keys : WGKeys}.

(** A configuration of type [C]; its clients are of type [cfg_Client].  [nc] is the error
    of the network context, and the two references are where the counters go. *)
Class Config_ (C : Type) := {
  cfg_Client : Type;
  NewClient : option error -> counter_ref -> counter_ref -> C -> option MonitorService ->
    result (cfg_Client * option MonitorService);
  Config_text : C -> string;
  Save : save_env -> C -> string -> string -> saved;
}.

(** A client of type [C].  [client_calls] is what the calls of one method come to;
    [None] for a [Disconnect] that does not return. *)
Class Client_ (C : Type) := {
  client_calls : Type;
  Client_Connect : client_calls -> C -> C * option error;
  Client_Disconnect : client_calls -> C -> option (C * option error);
  Client_BytesTransmitted : C -> Z * Z * option error;
}.

(** What a client owes to its caller: when the calls it makes succeed, a new client
    connects, and a connected one disconnects and holds nothing any more.  Its traffic
    is what was counted before. *)
Class ClientLaws (C : Type) `{client : Client_ C} := {
  succeed : client_calls -> Prop;
  fresh : C -> Prop;
  connected : C -> Prop;
  released : C -> Prop;
  connect_connects v c :
    succeed v -> fresh c -> (Client_Connect v c).2 = None /\ connected (Client_Connect v c).1;
  disconnect_releases v c :
    succeed v -> connected c ->
    exists c', Client_Disconnect v c = Some (c', None) /\ released c' /\
      Client_BytesTransmitted c' = Client_BytesTransmitted c;
}.

(** ** WireGuard *)

(** The fields of the client, those of its connection and those of its counters apart. *)
Record wireguard := mkWireguard {
  wg_cfg : wireguardConfig;
  wg_world : world;
  wg_metrics : metrics;
}.

Definition wireguard_Connect (v : env) (w : wireguard) : wireguard * option error :=
  let (x, err) := Connect (wg_cfg w) v (wg_world w) in
  (mkWireguard (wg_cfg w) x (wg_metrics w), err).

Definition wireguard_Disconnect (timeout : option nat) (w : wireguard)
    : option (wireguard * option error) :=
  x ← Disconnect timeout (wg_world w); Some (mkWireguard (wg_cfg w) x (wg_metrics w), None).

#[global] Instance wireguard_client : Client_ wireguard := {|
  client_calls := env * option nat;
  Client_Connect := fun v => wireguard_Connect v.1;
  Client_Disconnect := fun v => wireguard_Disconnect v.2;
  Client_BytesTransmitted := fun w => BytesTransmitted (wg_metrics w);
|}.

(** In [Disconnect] the watcher reports in time. *)
#[global] Program Instance wireguard_client_laws : ClientLaws wireguard := {|
  succeed := fun v => all_ok v.1 /\ v.2 = None;
  fresh := fun w => wg_world w = idle;
  connected := fun w => exists n,
    wg_world w = mkWorld n true true true Waiting (connected_net (wg_cfg w) n) (Some true);
  released := fun w => exists n, wg_world w = mkWorld n false false false NotStarted [] (Some false);
|}.
Next Obligation.
  intros [v t] [c w m] [Hv _] Hw. cbn in *. subst w. unfold wireguard_Connect. cbn.
  destruct (connect_all_ok c v Hv) as [n ->]. cbn. split; [done|]. by exists n.
Qed.
Next Obligation.
  intros [v t] [c w m] [_ Ht] [n Hw]. cbn in *. subst t w. eexists. split; [reflexivity|].
  split; [by exists n|done].
Qed.

(** The text of the description before the path, and between the path and the code. *)
Definition description_head : string :=
  "The VPN configuration has been downloaded to the file shown below." +:+ NL +:+
  "You need import it to the wireguard vpn client via the option " +:+ dquote +:+ "Import" +:+ NL +:+
  "Tunnels from file..." +:+ dquote +:+ "." +:+ NL +:+ NL.
Definition description_middle : string :=
  NL +:+ NL +:+ "Scan the following QR code with the mobile client to configure the" +:+ NL +:+
  "VPN on you mobile device." +:+ NL +:+ NL.

Definition description (path qr : string) : string :=
  description_head +:+ path +:+ description_middle +:+ qr.

Definition wireguard_Save (env : save_env) (c : wireguardConfig) (path prefix : string) : saved :=
  let downloadFilePath := FilePath_Join env path (prefix +:+ configFileName c) in
  match WriteFile env downloadFilePath with
  | Some e => ([], Err e)
  | None =>
      ([(downloadFilePath, configData c)],
       match qrcode_New env (configData c) with
       | Ok qr => Ok (description downloadFilePath qr)
       | Err e => Err e
       | Panic w => Panic w
       end)
  end.

Definition wireguard_NewClient (nc : option error) (sent recd : counter_ref) (c : wireguardConfig)
    (ms : option MonitorService) : result (wireguard * option MonitorService) :=
  r ← newWireguardClient nc sent recd ms;
  let (m, ms) := r : metrics * option MonitorService in
  Ok (mkWireguard c idle m, ms).

#[global] Instance wireguard_config : Config_ wireguardConfig := {|
  cfg_Client := wireguard;
  NewClient := wireguard_NewClient;
  Config_text := Config;
  Save := wireguard_Save;
|}.

(** ** OpenVPN *)

Inductive openvpnConfig := mkOpenvpnConfig.
Inductive openvpn := mkOpenvpn.

Definition newOpenVPNClient (c : openvpnConfig) : result openvpn := Ok mkOpenvpn.
Definition openvpn_Connect (o : openvpn) : option error := None.
Definition openvpn_Disconnect (o : openvpn) : option error := None.
Definition openvpn_StatusText (o : openvpn) : result string := Ok EmptyString.
Definition openvpn_BytesTransmitted (o : openvpn) : Z * Z * option error := (0, 0, None)%Z.
Definition openvpn_NewClient (c : openvpnConfig) (ms : option MonitorService)
    : result (openvpn * option MonitorService) :=
  o ← newOpenVPNClient c; Ok (o, ms).
Definition openvpn_Save (c : openvpnConfig) : saved := ([], Ok EmptyString).

#[global] Instance openvpn_client : Client_ openvpn := {|
  client_calls := unit;
  Client_Connect := fun _ o => (o, openvpn_Connect o);
  Client_Disconnect := fun _ o => Some (o, openvpn_Disconnect o);
  Client_BytesTransmitted := openvpn_BytesTransmitted;
|}.

#[global] Program Instance openvpn_client_laws : ClientLaws openvpn := {|
  succeed := fun _ => True;
  fresh := fun _ => True;
  connected := fun _ => True;
  released := fun _ => True;
|}.
Next Obligation. done. Qed.
Next Obligation. intros v c _ _. by exists c. Qed.

#[global] Instance openvpn_config : Config_ openvpnConfig := {|
  cfg_Client := openvpn;
  NewClient := fun _ _ _ c ms => openvpn_NewClient c ms;
  Config_text := fun _ => EmptyString;
  Save := fun _ c _ _ => openvpn_Save c;
|}.

(** ** Saving *)

(** What is saved is the configuration: when the file can be written it holds exactly
    the text of the configuration under its own name and the prefix, reading that
    text again gives the same configuration, and the returned description names the
    file and shows the QR code of the same text.  When the QR code cannot be made the
    error is returned with the file already written; when the file cannot be
    written nothing is. *)
Theorem save_keeps_config (ResolveUDPAddr : string -> result UDPAddr) (n data path prefix : string)
  (c : wireguardConfig) (env : save_env)
  (Hc : newWireguardConfigFromTarget ResolveUDPAddr n data = Ok c) :
  let file := FilePath_Join env path (prefix +:+ n +:+ ".conf") in
  (WriteFile env file = None ->
     (exists text, (Save env c path prefix).1 = [(file, text)] /\ text = Config_text c /\
        newWireguardConfigFromTarget ResolveUDPAddr n text = Ok c) /\
     (forall qr, qrcode_New env data = Ok qr ->
        (Save env c path prefix).2 = Ok (description file qr)) /\
     (forall e, qrcode_New env data = Err e -> (Save env c path prefix).2 = Err e)) /\
  (forall e, WriteFile env file = Some e -> Save env c path prefix = ([], Err e)).
Proof.
  destruct (read_config_file _ _ _ _ Hc) as [Hn Hd].
  cbn [Save Config_text wireguard_config]. unfold wireguard_Save, Config. rewrite Hn, Hd. cbv zeta.
  split; [intros ->; split_and!|by intros e ->].
  - by exists data.
  - by intros qr ->.
  - by intros e ->.
Qed.
End Interfaces.

(** A configuration that is saved where everything works. *)
Definition save_env0 : save_env :=
  mkSaveEnv (fun d f => d +:+ "/" +:+ f) (fun _ => None) (fun _ => Ok "##").

Definition saved_config : wireguardConfig (keys := plain_keys) :=
  read_config (data1 "192.168.4.1:51820") (key_of "a") ["192.168.4.1"] true
    (mkPeerConfig (key_of "b") (Some (mkUDPAddr [192; 168; 4; 1]%Z 51820 EmptyString))
       (Some 25%Z) (net_of <$> nets1)).

Lemma saved_config_read :
  newWireguardConfigFromTarget resolver "space" (Data (data1 "192.168.4.1:51820")) = Ok saved_config.
Proof.
  exact (config_roundtrip (keys := plain_keys) resolver (data1 "192.168.4.1:51820") (key_of "a")
    (key_of "b") nets1 _ (data1_ok _) eq_refl eq_refl).
Qed.

Lemma save_keeps_config_witness :
  exists text, (Save save_env0 saved_config "/tmp" "my-").1 = [("/tmp/my-space.conf", text)] /\
     text = Config_text saved_config /\
     newWireguardConfigFromTarget resolver "space" text = Ok saved_config.
Proof.
  exact (proj1 (proj1 (save_keeps_config resolver "space" (Data (data1 "192.168.4.1:51820")) "/tmp"
    "my-" saved_config save_env0 saved_config_read) eq_refl)).
Defined.
