(* ===== verification/WireguardWindows.v ===== *)
(** * vpn/wireguard_client_windows.go

    The WireGuard client of Windows: the configuration is written to a file, from which
    wireguard.exe installs a tunnel service.  The file system, the executable and the
    timer are an environment of outcomes. *)

From S2P Require Import Prelude GoStrings GoEncoding GoNet WGTypes Counter Events Monitor WireguardConfig WireguardClient VpnClient.

Section Windows.
Context `{keys : WGKeys}.

(** The file at [configFilePath], whether the tunnel service is installed, the metrics
    timer, [None] before it is made, and the number of timers that run although the
    client no longer refers to them. *)
Record machine := mkMachine {
  w_file : option string;
  w_service : bool;
  w_metricsTimer : option bool;
  w_abandoned : nat;
}.

Definition idle : machine := mkMachine None false None 0.

(** [ioutil.WriteFile]: it can fail to open the file, or, having emptied it, after some
    bytes. *)
Inductive write_outcome :=
| Written
| NotOpened (e : error)
| WrittenPartly (e : error) (bytes : nat).

(** What the calls of the file system, the executable and the timer come to. *)
Record outcomes := mkOutcomes {
  o_WriteFile : write_outcome;
  o_installtunnelservice : option error;
  o_NewWireguardCtrlClient : option error;
  o_metricsTimer_Start : option error;
  o_metricsTimer_Stop : option error;
  o_uninstalltunnelservice : option error;
  o_Remove : option error;
}.

(** [cfg.configFileName[:strings.LastIndex(cfg.configFileName, ".")]] *)
Definition tunnelName (cfg : wireguardConfig) : result string :=
  match LastIndex "." (configFileName cfg) with
  | Some i => Ok (s_take i (configFileName cfg))
  | None => Panic "slice bounds out of range [:-1]"
  end.

(** ** Finding wireguard.exe and making a client *)

(** The calls of [init]: opening the null device, the directory of the executable, the
    drives, and whether the command is found on the paths searched. *)
Record init_env := mkInitEnv {
  os_Open_null : option error;
  executable_dir : result string;
  GetLogicalDrives : result (list string);
  CreateCLI : list string -> option error;
  path_Join : list string -> string;
}.

(** The paths added to the search. *)
Definition search_paths (v : init_env) (dir : string) : list string :=
  dir :: match GetLogicalDrives v with
         | Ok drives => drives ≫= fun d =>
             [path_Join v [d; "Program Files"; "WireGuard"]; path_Join v [d; "WireGuard"]]
         | _ => []
         end.

(** Whether [wireguardEXE] is set afterwards. *)
Definition init (v : init_env) : result bool :=
  match os_Open_null v with
  | Some _ => Panic "init"
  | None =>
      match executable_dir v with
      | Ok dir => Ok (match CreateCLI v (search_paths v dir) with None => true | Some _ => false end)
      | Err _ => Ok false
      | Panic w => Panic w
      end
  end.

(** The client: its counters, the name of its tunnel and the path of its file. *)
Definition newWireguardClient (exe : bool) (TempDir_Join : string -> string) (cfg : wireguardConfig)
    (sent recd : counter_ref) (ms : option MonitorService)
    : result (metrics * string * string * option MonitorService) :=
  if exe then
    tunnel ← tunnelName cfg;
    Ok (new_metrics, tunnel, TempDir_Join (configFileName cfg), register_counters sent recd <$> ms)
  else Err (Errorf "wireguard exe not found" []).

(** ** Connecting and disconnecting *)

Definition set_file (w : machine) (x : option string) : machine :=
  mkMachine x (w_service w) (w_metricsTimer w) (w_abandoned w).
Definition set_service (w : machine) (b : bool) : machine :=
  mkMachine (w_file w) b (w_metricsTimer w) (w_abandoned w).

(** The error of [metricsTimer.Stop] is dropped. *)
Definition stop_timer (o : outcomes) (w : machine) : machine :=
  mkMachine (w_file w) (w_service w)
    ((fun running => running && bool_decide (o_metricsTimer_Stop o <> None)) <$> w_metricsTimer w)
    (w_abandoned w).

(** [NewExecTimer] and [Start], which tells whether the new timer runs; one that was
    running before is no longer referred to. *)
Definition new_timer (runs : bool) (w : machine) : machine :=
  mkMachine (w_file w) (w_service w) (Some runs)
    (match w_metricsTimer w with Some true => S (w_abandoned w) | _ => w_abandoned w end).

(** The error of [os.Remove] is dropped. *)
Definition Disconnect (o : outcomes) (w : machine) : machine * option error :=
  let w := stop_timer o w in
  match o_uninstalltunnelservice o with
  | Some e => (w, Some e)
  | None =>
      let w := set_service w false in
      (match o_Remove o with None => set_file w None | Some _ => w end, None)
  end.

(** [Connect].  The deferred function sees the error of [metricsTimer.Start] although
    nil is returned. *)
Definition Connect (cfg : wireguardConfig) (o : outcomes) (w : machine)
    : machine * option error :=
  match o_WriteFile o with
  | NotOpened e => (w, Some e)
  | WrittenPartly e n => (set_file w (Some (s_take n (configData cfg))), Some e)
  | Written =>
      let w := set_file w (Some (configData cfg)) in
      match o_installtunnelservice o with
      | Some e => (w, Some e)
      | None =>
          let w := set_service w true in
          match o_NewWireguardCtrlClient o with
          | Some e => ((Disconnect o w).1, Some e)
          | None =>
              match o_metricsTimer_Start o with
              | Some _ => ((Disconnect o (new_timer false w)).1, None)
              | None => (new_timer true w, None)
              end
          end
      end
  end.

(** The calls a client gets, each with its outcomes. *)
Inductive client_call :=
| CallConnect (o : outcomes)
| CallDisconnect (o : outcomes).

Definition perform (cfg : wireguardConfig) (c : client_call) (w : machine) : machine * option error :=
  match c with
  | CallConnect o => Connect cfg o w
  | CallDisconnect o => Disconnect o w
  end.

Definition performs (cfg : wireguardConfig) (cs : list client_call) (w : machine) : machine :=
  fold_left (fun w c => (perform cfg c w).1) cs w.

Lemma tunnelName_config ResolveUDPAddr n data cfg :
  newWireguardConfigFromTarget ResolveUDPAddr n data = Ok cfg -> tunnelName cfg = Ok n.
Proof.
  intros [Hn _]%read_config_file. unfold tunnelName. rewrite Hn.
  change (n +:+ ".conf") with (n +:+ String "." "conf").
  rewrite LastIndex_app by done. by rewrite s_take_app.
Qed.

(** On Windows a client can be made exactly where wireguard.exe was found, and for a
    configuration that was read making it never panics.  Its tunnel has the name of the
    configuration, and its counters are registered with the monitor service as the
    client of the other systems registers them. *)
Theorem windows_client_created (ResolveUDPAddr : string -> result UDPAddr) (n data : string)
  (cfg : wireguardConfig) (v : init_env) (TempDir_Join : string -> string)
  (sent recd : counter_ref) (ms : option MonitorService) (exe : bool)
  (Hc : newWireguardConfigFromTarget ResolveUDPAddr n data = Ok cfg) (Hi : init v = Ok exe) :
  (exe = true <-> exists dir, executable_dir v = Ok dir /\ CreateCLI v (search_paths v dir) = None) /\
  match newWireguardClient exe TempDir_Join cfg sent recd ms with
  | Ok (m, tunnel, path, ms') =>
      exe = true /\ tunnel = n /\ path = TempDir_Join (n +:+ ".conf") /\
      WireguardClient.newWireguardClient None sent recd ms = Ok (m, ms')
  | Err e => exe = false /\ e = Errorf "wireguard exe not found" []
  | Panic _ => False
  end.
Proof.
  unfold init in Hi. destruct (os_Open_null v); [done|]. split.
  - destruct (executable_dir v) as [dir|e|w]; [|split; [by simplify_eq|by intros (? & ? & _)]|done].
    simplify_eq. destruct (CreateCLI v _) eqn:E; [|by split; eauto].
    split; [done|]. intros (d & ? & H). simplify_eq.
  - unfold newWireguardClient. destruct exe; [|done].
    rewrite (tunnelName_config _ _ _ _ Hc). cbn.
    by destruct (read_config_file _ _ _ _ Hc) as [-> _].
Qed.

(** Nothing fails. *)
Definition works : outcomes := mkOutcomes Written None None None None None None.

(** The client behind the interface of all clients. *)
Record windows_wireguard := mkWindowsWireguard {
  ww_cfg : wireguardConfig;
  ww_machine : machine;
  ww_metrics : metrics;
}.

#[global] Instance windows_client : Client_ windows_wireguard := {|
  client_calls := outcomes;
  Client_Connect := fun o w =>
    let (x, err) := Connect (ww_cfg w) o (ww_machine w) in
    (mkWindowsWireguard (ww_cfg w) x (ww_metrics w), err);
  Client_Disconnect := fun o w =>
    let (x, err) := Disconnect o (ww_machine w) in
    Some (mkWindowsWireguard (ww_cfg w) x (ww_metrics w), err);
  Client_BytesTransmitted := fun w => BytesTransmitted (ww_metrics w);
|}.

#[global] Program Instance windows_client_laws : ClientLaws windows_wireguard := {|
  succeed := fun o => o = works;
  fresh := fun w => ww_machine w = idle;
  connected := fun w => ww_machine w = mkMachine (Some (configData (ww_cfg w))) true (Some true) 0;
  released := fun w => w_file (ww_machine w) = None /\ w_service (ww_machine w) = false;
|}.
Next Obligation. intros o [c w m] -> Hw. cbn in *. by subst w. Qed.
Next Obligation. intros o [c w m] -> Hw. cbn in *. subst w. by eexists. Qed.

(** No write of the call stops half way. *)
Definition whole_write (c : client_call) : Prop :=
  match c with
  | CallConnect o => forall e n, o_WriteFile o <> WrittenPartly e n
  | CallDisconnect _ => True
  end.

(** The file has the configuration or is not there, and a service has its file. *)
Definition machine_ok (data : string) (w : machine) : Prop :=
  (w_file w = None \/ w_file w = Some data) /\ (w_service w = true -> w_file w = Some data).

Lemma Disconnect_ok data o w : machine_ok data w -> machine_ok data (Disconnect o w).1.
Proof.
  intros [Hf Hs]. unfold Disconnect. destruct (o_uninstalltunnelservice o); [done|].
  destruct (o_Remove o); (split; [|done]); [done|by left].
Qed.

Lemma perform_ok cfg c w :
  whole_write c -> machine_ok (configData cfg) w -> machine_ok (configData cfg) (perform cfg c w).1.
Proof.
  intros Hc Hw. destruct c as [o|o]; [|by apply Disconnect_ok]. cbn in *. unfold Connect.
  destruct (o_WriteFile o) as [|e|e n]; [|done|by destruct (Hc e n)].
  assert (machine_ok (configData cfg) (set_file w (Some (configData cfg)))) as H1 by (split; auto).
  destruct (o_installtunnelservice o); [done|].
  destruct (o_NewWireguardCtrlClient o); [apply Disconnect_ok; split; auto|].
  destruct (o_metricsTimer_Start o); [apply Disconnect_ok|]; split; auto.
Qed.

Lemma performs_ok cfg cs w :
  Forall whole_write cs -> machine_ok (configData cfg) w ->
  machine_ok (configData cfg) (performs cfg cs w).
Proof.
  intros Hcs. revert w. induction Hcs as [|c cs Hc _ IH]; intros w Hw; [done|].
  by apply IH, perform_ok.
Qed.

(** What an uninstallation leaves. *)
Lemma Disconnect_leaves o w :
  o_uninstalltunnelservice o = None ->
  w_service (Disconnect o w).1 = false /\ (o_Remove o = None -> w_file (Disconnect o w).1 = None).
Proof. intros H. unfold Disconnect. rewrite H. by destruct (o_Remove o). Qed.

(** C33. On Windows the tunnel of a configuration is named after it.  After any calls of
    [Connect] and [Disconnect] in which no write of the file stops half way, whatever
    else fails in them, the file is not there or has the configuration, and an installed
    service has its file.  A [Disconnect] that reports success leaves no service, no file
    if that could be removed, and no running timer of the client if that could be
    stopped; one that fails leaves service and file as they were.  A [Connect] that
    reports success leaves the service, the file and a running timer if the timer
    started, and otherwise what a [Disconnect] leaves.  One that fails leaves everything
    as it was if the file could not be opened, the file without a new service if the
    service could not be installed, and otherwise what a [Disconnect] leaves. *)
Theorem windows_tunnel_lifecycle (ResolveUDPAddr : string -> result UDPAddr) (n data : string)
  (cfg : wireguardConfig) (cs : list client_call) (c : client_call)
  (Hc : newWireguardConfigFromTarget ResolveUDPAddr n data = Ok cfg)
  (Hcs : Forall whole_write cs) (Hw : whole_write c) :
  let w := performs cfg cs idle in
  let w' := (perform cfg c w).1 in
  let leaves o := w_service w' = false /\ (o_Remove o = None -> w_file w' = None) in
  tunnelName cfg = Ok n /\ machine_ok data w' /\
  match c, (perform cfg c w).2 with
  | CallDisconnect o, None => leaves o /\ (o_metricsTimer_Stop o = None -> w_metricsTimer w' <> Some true)
  | CallDisconnect o, Some _ => w_service w' = w_service w /\ w_file w' = w_file w
  | CallConnect o, None =>
      match o_metricsTimer_Start o with
      | Some _ => o_uninstalltunnelservice o = None -> leaves o
      | None => w_service w' = true /\ w_file w' = Some data /\ w_metricsTimer w' = Some true
      end
  | CallConnect o, Some e =>
      (o_WriteFile o = NotOpened e /\ w' = w) \/
      (o_installtunnelservice o = Some e /\ w_service w' = w_service w /\ w_file w' = Some data) \/
      (o_NewWireguardCtrlClient o = Some e /\ (o_uninstalltunnelservice o = None -> leaves o))
  end.
Proof.
  cbn zeta. pose proof (read_config_file _ _ _ _ Hc) as [_ Hd].
  split; [by eapply tunnelName_config|]. rewrite <- Hd. split.
  { apply perform_ok; [done|]. apply performs_ok; [done|]. split; [by left|done]. }
  destruct c as [o|o]; cbn [perform].
  - cbn in Hw. unfold Connect. destruct (o_WriteFile o) as [|e|e k]; [|by left|by destruct (Hw e k)].
    destruct (o_installtunnelservice o); [by right; left|].
    destruct (o_NewWireguardCtrlClient o); [right; right; split; [done|exact (Disconnect_leaves o _)]|].
    destruct (o_metricsTimer_Start o); [exact (Disconnect_leaves o _)|done].
  - set (w := performs cfg cs idle). destruct (o_uninstalltunnelservice o) eqn:Eu.
    { unfold Disconnect. by rewrite Eu. }
    pose proof (Disconnect_leaves o w Eu) as Hl. unfold Disconnect in *. rewrite Eu in *. split; [exact Hl|].
    intros Ht. destruct (o_Remove o); cbn; rewrite Ht, bool_decide_eq_false_2 by naive_solver;
      destruct (w_metricsTimer w) as [[]|]; done.
Qed.

(** When the service cannot be installed, the file stays in the directory for
    temporary files, and the private key with it. *)
Theorem failed_install_leaves_key (ResolveUDPAddr : string -> result UDPAddr)
  (d : wireguardConfigData) (cfg : wireguardConfig) (o : outcomes) (e : error)
  (Hc : newWireguardConfigFromTarget ResolveUDPAddr (name d) (Data d) = Ok cfg)
  (Hw : o_WriteFile o = Written) (Hi : o_installtunnelservice o = Some e) :
  (Connect cfg o idle).2 = Some e /\
  exists pre post, w_file (Connect cfg o idle).1 = Some (pre +:+ privateKey d +:+ post).
Proof.
  pose proof (read_config_file _ _ _ _ Hc) as [_ Hd]. unfold Connect. rewrite Hw, Hi.
  split; [done|]. cbn. rewrite Hd.
  exists ("[Interface]" +:+ NL +:+ "PrivateKey = "). eexists. reflexivity.
Qed.

End Windows.

(** ** A machine on which the service cannot be installed *)

(** A connection, one that cannot open the file, and one whose control client fails and
    whose file cannot be removed. *)
Definition calls3 : list client_call :=
  [CallConnect works; CallConnect (mkOutcomes (NotOpened Canceled) None None None None None None);
   CallConnect (mkOutcomes Written None (Some Canceled) None None None (Some Canceled))].

Lemma windows_tunnel_lifecycle_witness :
  performs saved_config calls3 idle
    = mkMachine (Some (Data (data1 "192.168.4.1:51820"))) false (Some false) 0 /\
  tunnelName saved_config = Ok "space" /\
  machine_ok (Data (data1 "192.168.4.1:51820"))
    (perform saved_config (CallDisconnect works) (performs saved_config calls3 idle)).1 /\
  w_file (perform saved_config (CallDisconnect works) (performs saved_config calls3 idle)).1 = None.
Proof.
  split; [vm_compute; reflexivity|].
  destruct (windows_tunnel_lifecycle resolver "space" (Data (data1 "192.168.4.1:51820")) saved_config
    calls3 (CallDisconnect works) saved_config_read) as (H1 & H2 & H3).
  - repeat constructor; done.
  - exact I.
  - split; [exact H1|]. split; [exact H2|]. apply H3. reflexivity.
Defined.

Lemma failed_install_leaves_key_witness :
  (Connect saved_config (mkOutcomes Written (Some Canceled) None None None None None) idle).2 = Some Canceled /\
  exists pre post, w_file (Connect saved_config (mkOutcomes Written (Some Canceled) None None None None None) idle).1
    = Some (pre +:+ Key_String (key_of "a") +:+ post).
Proof.
  exact (failed_install_leaves_key resolver (data1 "192.168.4.1:51820") saved_config
    (mkOutcomes Written (Some Canceled) None None None None None) Canceled saved_config_read eq_refl eq_refl).
Defined.

Definition init_env0 : init_env :=
  mkInitEnv None (Ok "C:\mycs") (Ok ["C:\"; "D:\"])
    (fun paths => if bool_decide ("C:\/WireGuard" ∈ paths) then None else Some Canceled)
    (fun l => Join "/" l).

Lemma windows_client_created_witness :
  init init_env0 = Ok true /\
  match newWireguardClient true (fun f => "C:\Temp\" +:+ f) saved_config 1%positive 2%positive None with
  | Ok (m, tunnel, path, ms') =>
      true = true /\ tunnel = "space" /\ path = "C:\Temp\space.conf" /\
      WireguardClient.newWireguardClient None 1%positive 2%positive None = Ok (m, ms')
  | Err e => true = false /\ e = Errorf "wireguard exe not found" []
  | Panic _ => False
  end.
Proof.
  split; [vm_compute; reflexivity|].
  exact (proj2 (windows_client_created resolver "space" (Data (data1 "192.168.4.1:51820"))
    saved_config init_env0 (fun f => "C:\Temp\" +:+ f) 1%positive 2%positive None true
    saved_config_read eq_refl)).
Defined.
