(* ===== verification/VpnService.v ===== *)
(** * vpn/service.go, vpn/static_config_data.go and vpn/openvpn_config.go

    Where a client's configuration comes from: the space service returns it as JSON, or
    else it is downloaded from the bastion of an owned target; then it is read by the
    reader of its kind.  The service, the targets of cloud-builder and HTTP are
    arguments. *)

From S2P Require Import Prelude GoStrings GoEncoding GoNet GoNetText GoJson JsonStruct WGTypes WireguardConfig.

(** ** The libraries *)

(** An instance: its users, whether it runs, and the address of its HTTPS server. *)
Record ManagedInstance := mkManagedInstance {
  RootUser : string;
  RootPassword : string;
  NonRootUser : string;
  NonRootPassword : string;
  Instance_State : result bool;
  HttpsClient : result string;
}.

(** A target: [Output] holds the build's outputs, [None] for one that is not a string. *)
Record Target := mkTarget {
  IsBastion : bool;
  Target_Key : string;
  Target_Running : bool;
  bastion : option ManagedInstance;
  Output : gmap string (option string);
}.

Record ServiceConfig := mkServiceConfig {
  PrivateKey : string;
  PublicKey : string;
  IsAdminUser : bool;
  Name : string;
  VPNType : string;
  RawConfig : option string;
}.

(** [GetSpaceNode] is [None] when the node is not an owned target. *)
Record Service := mkService {
  Service_Connect : result ServiceConfig;
  Service_Disconnect : option error;
  GetSpaceNode : option Target;
}.

(** The answer to a GET request: status code, status line and body. *)
Record http_response := mkHttpResponse {
  StatusCode : Z;
  Status : string;
  Body : result string;
}.

Record staticConfigData := mkStaticConfigData {
  s_name : string;
  s_vpnType : string;
  s_data : string;
}.

Inductive ConfigData :=
| CDWireguard (c : wireguardConfigData) (service : Service)
| CDStatic (c : staticConfigData).

(** The methods of [wireguardConfigData]: its other fields, and the service that forgets
    the connection. *)
Definition wireguard_Name (c : wireguardConfigData) : string := name c.
Definition wireguard_VPNType (c : wireguardConfigData) : string := "wireguard".
Definition wireguard_Delete (service : Service) : option error := Service_Disconnect service.

Definition ConfigData_Name (c : ConfigData) : string :=
  match c with CDWireguard c _ => wireguard_Name c | CDStatic c => s_name c end.
Definition ConfigData_VPNType (c : ConfigData) : string :=
  match c with CDWireguard c _ => wireguard_VPNType c | CDStatic c => s_vpnType c end.
Definition ConfigData_Data (c : ConfigData) : string :=
  match c with CDWireguard c _ => Data c | CDStatic c => s_data c end.
Definition ConfigData_Delete (c : ConfigData) : option error :=
  match c with CDWireguard _ service => wireguard_Delete service | CDStatic _ => None end.

(** ** The JSON of a WireGuard configuration *)

Definition dec_texts : json -> option (list string) := dec_slice (dec_text EmptyString).

Definition set_config_field (c : wireguardConfigData) (k : string) (v : json)
    : option wireguardConfigData :=
  let '(mkWireguardConfigData n pk a d e ppk s p) := c in
  if is_field "client_addr" k then
    x ← dec_text a v; Some (mkWireguardConfigData n pk x d e ppk s p)
  else if is_field "dns" k then
    x ← dec_text d v; Some (mkWireguardConfigData n pk a x e ppk s p)
  else if is_field "peer_endpoint" k then
    x ← dec_text e v; Some (mkWireguardConfigData n pk a d x ppk s p)
  else if is_field "peer_public_key" k then
    x ← dec_text ppk v; Some (mkWireguardConfigData n pk a d e x s p)
  else if is_field "allowed_subnets" k then
    x ← dec_texts v; Some (mkWireguardConfigData n pk a d e ppk x p)
  else if is_field "keep_alive_ping" k then
    x ← dec_int p v; Some (mkWireguardConfigData n pk a d e ppk s x)
  else Some c.

Definition dec_config (c : wireguardConfigData) (v : json) : option wireguardConfigData :=
  match v with
  | JNull => Some c
  | JObj l => dec_members set_config_field l c
  | _ => None
  end.

Definition unmarshal_config (raw : string) (c : wireguardConfigData) : result wireguardConfigData :=
  match v ← parse_json raw; dec_config c v with
  | Some c => Ok c
  | None => Err (Errorf "json: cannot unmarshal" [])
  end.

(** ** Downloading from a bastion *)

(** An output that has to be a string; how [%#v] prints one that is not is left out. *)
Definition output_string (tgt : Target) (key missing kind : string) : result string :=
  match Output tgt !! key with
  | None => Err (Errorf missing [])
  | Some None => Err (Errorf ("target's " +:+ quoted key +:+ kind) [])
  | Some (Some v) => Ok v
  end.

Section Static.
(** [http.NewRequest] may refuse a URL; [client.Do] answers or fails. *)
Variable NewRequest : string -> option error.
Variable Do : string -> string -> string -> result http_response.

Definition guard (b : bool) (e : error) : result unit := if b then Ok tt else Err e.

Definition newStaticConfigData (tgt : Target) (user passwd : string) : result staticConfigData :=
  _ ← guard (IsBastion tgt) (Errorf ("target " +:+ quoted (Target_Key tgt) +:+ " is not a bastion node") []);
  _ ← guard (Target_Running tgt) (Errorf "target is not running" []);
  instance ←
    match bastion tgt with
    | Some i => Ok i
    | None => Err (Errorf "unable to find a bastion instance to connect to" [])
    end;
  running ← Instance_State instance;
  _ ← guard running (Errorf "bastion instance is not running" []);
  url ← HttpsClient instance;
  vpcName ← output_string tgt "cb_vpc_name"
    "the vpc name was not present in the sandbox build output"
    " output was not a string %#v";
  let url := url +:+ "/static/~" +:+ user +:+ "/" +:+ vpcName +:+ ".conf" in
  vpnType ← output_string tgt "cb_vpn_type"
    "the vpn type was not present in the sandbox build output"
    " output was not a string: %#v";
  _ ← match NewRequest url with None => Ok tt | Some e => Err e end;
  resp ← Do url user passwd;
  _ ← guard (StatusCode resp =? 200)%Z
        (Errorf "error retrieving vpn config from bastion instance: %s" [Status resp]);
  resBody ← Body resp;
  Ok (mkStaticConfigData vpcName vpnType resBody).

(** ** The configuration of a service *)

Definition NewVPNConfigData (service : Service) : result ConfigData :=
  cfg ← Service_Connect service;
  match RawConfig cfg with
  | Some raw =>
      if String.eqb (VPNType cfg) "wireguard" then
        c ← unmarshal_config raw
          (mkWireguardConfigData (Name cfg) (PrivateKey cfg) EmptyString EmptyString EmptyString
             EmptyString [] 0);
        Ok (CDWireguard c service)
      else Err (Errorf ("unknown VPN type " +:+ quoted "%s") [VPNType cfg])
  | None =>
      match GetSpaceNode service with
      | None => Err (Errorf "cannot connect to a space node that is not an owned target" [])
      | Some tgt =>
          match bastion tgt with
          | None => Err (Errorf ("space target " +:+ quoted "%s" +:+
                           " does not have a deployed bastion instance.") [Target_Key tgt])
          | Some instance =>
              c ← (if IsAdminUser cfg
                   then newStaticConfigData tgt (RootUser instance) (RootPassword instance)
                   else newStaticConfigData tgt (NonRootUser instance) (NonRootPassword instance));
              Ok (CDStatic c)
          end
      end
  end.

End Static.

(** ** Reading the configuration *)

Section Reading.
Context `{keys : WGKeys}.
Variable ResolveUDPAddr : string -> result UDPAddr.

Definition newOpenVPNConfigFromTarget (c : ConfigData) : result wireguardConfig :=
  Err (Errorf "openvpn client connect is not supported" []).

(** [NewConfigFromTarget]: the only configuration it ever returns without an error is
    a WireGuard one. *)
Definition NewConfigFromTarget (c : ConfigData) : result wireguardConfig :=
  if String.eqb (ConfigData_VPNType c) "wireguard" then
    newWireguardConfigFromTarget ResolveUDPAddr (ConfigData_Name c) (ConfigData_Data c)
  else if String.eqb (ConfigData_VPNType c) "openvpn" then newOpenVPNConfigFromTarget c
  else Err (Errorf ("target vpn type " +:+ quoted (ConfigData_VPNType c) +:+ " is not supported") []).

(** ** What is guaranteed *)

(** The JSON a service sends for a configuration. *)
Definition enc_config (d : wireguardConfigData) : json :=
  JObj [("client_addr", JStr (Address d)); ("dns", JStr (DNS d));
        ("peer_endpoint", JStr (PeerEndpoint d)); ("peer_public_key", JStr (PeerPublicKey d));
        ("allowed_subnets", JArr (JStr <$> AllowedSubnets d));
        ("keep_alive_ping", JNum (format_int (KeepAlivePing d)))].

Definition config_ascii (d : wireguardConfigData) : Prop :=
  Forall (fun s => ascii_only s = true)
    ([Address d; DNS d; PeerEndpoint d; PeerPublicKey d] ++ AllowedSubnets d).

Lemma enc_config_ok d : config_ascii d -> json_ok (enc_config d).
Proof.
  unfold config_ascii. rewrite Forall_app, !Forall_cons. intros [(? & ? & ? & ? & _) Hs].
  constructor. repeat apply Forall_cons_2; try apply Forall_nil_2; (split; [done|]); cbn;
    try (by constructor).
  constructor. apply Forall_fmap. eapply Forall_impl; [exact Hs|]. intros s Hs'. by constructor.
Qed.

Lemma unmarshal_enc_config d n pk :
  config_ascii d -> int64_range (KeepAlivePing d) -> name d = n -> privateKey d = pk ->
  unmarshal_config (print_json (enc_config d))
    (mkWireguardConfigData n pk EmptyString EmptyString EmptyString EmptyString [] 0) = Ok d.
Proof.
  intros Ha Hk <- <-. unfold unmarshal_config. rewrite parse_print by (by apply enc_config_ok).
  cbn [mbind option_bind].
  transitivity (match
    acc ← (x ← dec_texts (JArr (JStr <$> AllowedSubnets d));
      Some (mkWireguardConfigData (name d) (privateKey d) (Address d) (DNS d) (PeerEndpoint d)
              (PeerPublicKey d) x 0));
    acc ← set_config_field acc "keep_alive_ping" (JNum (format_int (KeepAlivePing d)));
    Some acc with Some c => Ok c | None => Err (Errorf "json: cannot unmarshal" []) end); [done|].
  unfold dec_texts. rewrite dec_texts_enc. cbn [mbind option_bind].
  transitivity (match acc ← (x ← dec_int 0 (JNum (format_int (KeepAlivePing d)));
      Some (mkWireguardConfigData (name d) (privateKey d) (Address d) (DNS d) (PeerEndpoint d)
              (PeerPublicKey d) (AllowedSubnets d) x));
    Some acc with Some c => Ok c | None => Err (Errorf "json: cannot unmarshal" []) end); [done|].
  rewrite dec_format_int by done. by destruct d.
Qed.

Section Laws.
Context {laws : WGKeysLaws keys}.
Variable NewRequest : string -> option error.
Variable Do : string -> string -> string -> result http_response.


End Laws.
End Reading.

(** C37. A configuration that is downloaded comes from the running bastion of an owned target,
    in a successful answer, and was asked for with the credentials of the user's own
    role: those of the root user only for an administrator. *)
Theorem static_config_credentials (NewRequest : string -> option error)
  (Do : string -> string -> string -> result http_response)
  (service : Service) (c : staticConfigData)
  (H : NewVPNConfigData NewRequest Do service = Ok (CDStatic c)) :
  exists cfg tgt instance base resp,
    Service_Connect service = Ok cfg /\ RawConfig cfg = None /\
    GetSpaceNode service = Some tgt /\ bastion tgt = Some instance /\
    IsBastion tgt = true /\ Target_Running tgt = true /\
    Instance_State instance = Ok true /\ HttpsClient instance = Ok base /\
    let user := if IsAdminUser cfg then RootUser instance else NonRootUser instance in
    let passwd := if IsAdminUser cfg then RootPassword instance else NonRootPassword instance in
    Do (base +:+ "/static/~" +:+ user +:+ "/" +:+ s_name c +:+ ".conf") user passwd = Ok resp /\
    StatusCode resp = 200%Z /\ Body resp = Ok (s_data c) /\
    Output tgt !! "cb_vpc_name" = Some (Some (s_name c)) /\
    Output tgt !! "cb_vpn_type" = Some (Some (s_vpnType c)).
Proof.
  unfold NewVPNConfigData in H. bind_inv. rename a into cfg.
  destruct (RawConfig cfg) as [raw|] eqn:Hraw.
  { destruct (String.eqb _ _); [|done]. bind_inv. done. }
  destruct (GetSpaceNode service) as [tgt|] eqn:Htgt; [|done].
  destruct (bastion tgt) as [instance|] eqn:Hb; [|done]. bind_inv. simplify_eq.
  assert (newStaticConfigData NewRequest Do tgt
    (if IsAdminUser cfg then RootUser instance else NonRootUser instance)
    (if IsAdminUser cfg then RootPassword instance else NonRootPassword instance) = Ok c) as Hc
    by (by destruct (IsAdminUser cfg)).
  unfold newStaticConfigData in Hc. bind_inv. rewrite Hb in *. unfold guard, output_string in *.
  repeat (case_match; simplify_eq). subst.
  all: eexists cfg, tgt, _, _, _; split_and!; try done; try (by apply Z.eqb_eq).
  all: match goal with E : IsAdminUser _ = _ |- _ => by rewrite E end.
Qed.

(** ** A service and a bastion *)

Definition config1 : ServiceConfig :=
  mkServiceConfig (Key_String (key_of "a")) EmptyString false "space" "wireguard"
    (Some (print_json (enc_config (data1 "192.168.4.1:51820")))).

Lemma data1_ascii : config_ascii (data1 "192.168.4.1:51820").
Proof. repeat (apply Forall_cons_2; [reflexivity|]). apply Forall_nil_2. Qed.


Definition instance1 : ManagedInstance :=
  mkManagedInstance "root" "r00t" "user" "p4ss" (Ok true) (Ok "https://bastion").
Definition target1 : Target :=
  mkTarget true "t1" true (Some instance1)
    {[ "cb_vpc_name" := Some "vpc"; "cb_vpn_type" := Some "wireguard" ]}.
Definition service1 : Service :=
  mkService (Ok (mkServiceConfig EmptyString EmptyString false "s" EmptyString None)) None
    (Some target1).

(** A server that only knows the user who is not root. *)
Definition server1 (url user passwd : string) : result http_response :=
  if String.eqb user "user" && String.eqb passwd "p4ss"
  then Ok (mkHttpResponse 200 "OK" (Ok "[Interface]"))
  else Ok (mkHttpResponse 401 "Unauthorized" (Ok EmptyString)).

Lemma static_config_credentials_witness :
  exists cfg tgt instance base resp,
    Service_Connect service1 = Ok cfg /\ RawConfig cfg = None /\
    GetSpaceNode service1 = Some tgt /\ bastion tgt = Some instance /\
    IsBastion tgt = true /\ Target_Running tgt = true /\
    Instance_State instance = Ok true /\ HttpsClient instance = Ok base /\
    let user := if IsAdminUser cfg then RootUser instance else NonRootUser instance in
    let passwd := if IsAdminUser cfg then RootPassword instance else NonRootPassword instance in
    server1 (base +:+ "/static/~" +:+ user +:+ "/" +:+ "vpc" +:+ ".conf") user passwd = Ok resp /\
    StatusCode resp = 200%Z /\ Body resp = Ok "[Interface]" /\
    Output tgt !! "cb_vpc_name" = Some (Some "vpc") /\
    Output tgt !! "cb_vpn_type" = Some (Some "wireguard").
Proof.
  refine (static_config_credentials (fun _ => None) server1 service1
    (mkStaticConfigData "vpc" "wireguard" "[Interface]") _).
  vm_compute. reflexivity.
Defined.
