(* ===== verification/PortMapper.v ===== *)
(** * network/port_mapper.go

    Forwarding ports of the router to hosts of its network: [Connect] looks for the
    router, [AddPortMapping] asks it for a mapping with a lease, and persistent
    mappings are asked for again by a timer.  The UPnP clients, the discovery and the
    timer are libraries: what they answer is an argument. *)

From S2P Require Import Prelude GoStrings GoNet.
Local Open Scope Z_scope.

Definition Protocol := string.
Definition ProtocolTCP : Protocol := "TCP".
Definition ProtocolUDP : Protocol := "UDP".

Record pPortMapping := mkPPortMapping {
  description : string;
  protocol : Protocol;
  externalPort : Z;
  forwardToPort : Z;
  forwardToAddr : Addr;
}.

(** The arguments of [AddPortMappingCtx]. *)
Record request := mkRequest {
  NewRemoteHost : string;
  NewExternalPort : Z;
  NewProtocol : string;
  NewInternalPort : Z;
  NewInternalClient : string;
  NewEnabled : bool;
  NewPortMappingDescription : string;
  NewLeaseDuration : Z;
}.

(** A client that the discovery returned: what its router answers about its address,
    within the time the caller gives, and the address it is reached from. *)
Record upnpClient := mkUpnpClient {
  GetExternalIPAddressCtx : result string;
  LocalAddr : IP;
}.

(** [pRefreshTimer] is whether the timer runs, [requests] what was sent to the
    router, oldest first. *)
Record portMapper := mkPortMapper {
  upnp : option upnpClient;
  externalAddr : Addr;
  selfAddr : Addr;
  pRefreshTimer : bool;
  pRefreshInterval : Z;
  pPortMappings : list pPortMapping;
  pPortMappingTimeout : Z;
  requests : list request;
}.

Definition ErrMultipleRoutesFound : error := Errorf "found multiple routes in the network" [].
Definition ErrNoRoutersFound : error := Errorf "no routers offering upnp services found" [].

(** ** Setting up *)

Definition NewPortMapper (pRefresh : Z) : portMapper :=
  mkPortMapper None AddrZero AddrZero false pRefresh []
    ((pRefresh *64 Millisecond) +64 Minute) [].

(** What the three discoveries return, the error of the group if one of them
    fails, and the error of starting the timer. *)
Record network := mkNetwork {
  ip1Clients : list upnpClient;
  ip2Clients : list upnpClient;
  ppp1Clients : list upnpClient;
  tasks_Wait : option error;
  timer_Start : option error;
}.

(** The other clients of the same kind: one with another address is an error, one
    that does not answer is passed over. *)
Fixpoint same_router (routerEIP : string) (cs : list upnpClient) : result unit :=
  match cs with
  | [] => Ok tt
  | c :: cs =>
      match GetExternalIPAddressCtx c with
      | Ok routerEIPn =>
          if decide (routerEIPn = routerEIP) then same_router routerEIP cs
          else Err ErrMultipleRoutesFound
      | Err _ => same_router routerEIP cs
      | Panic w => Panic w
      end
  end.

(** A case of the switch: the first client is taken. *)
Definition choose (cs : list upnpClient) : result (upnpClient * string) :=
  match cs with
  | [] => Panic "index out of range [0] with length 0"
  | c0 :: cs =>
      routerEIP ← GetExternalIPAddressCtx c0;
      _ ← same_router routerEIP cs;
      Ok (c0, routerEIP)
  end.

Definition find_router (net : network) : result (upnpClient * string) :=
  if (1 <? length (ip1Clients net))%nat then choose (ip1Clients net)
  else if (1 <? length (ip2Clients net))%nat then choose (ip2Clients net)
  else if (1 <? length (ppp1Clients net))%nat then choose (ppp1Clients net)
  else Err ErrNoRoutersFound.

(** The mapper after [Connect], or the error or panic with which it leaves. *)
Definition Connect (net : network) (p : portMapper) : result portMapper :=
  match tasks_Wait net with
  | Some e => Err e
  | None =>
      r ← find_router net;
      let (c, routerEIP) := r : upnpClient * string in
      ext ← MustParseAddr routerEIP;
      self ← MustParseAddr (IP_String (LocalAddr c));
      let started := match timer_Start net with None => true | Some _ => false end in
      Ok (mkPortMapper (Some c) ext self started (pRefreshInterval p) (pPortMappings p)
            (pPortMappingTimeout p) (requests p))
  end.

Definition Close (p : portMapper) : portMapper :=
  mkPortMapper (upnp p) (externalAddr p) (selfAddr p) false (pRefreshInterval p)
    (pPortMappings p) (pPortMappingTimeout p) (requests p).

Definition ExternalIP (p : portMapper) : string := Addr_String (externalAddr p).
Definition LocalIP (p : portMapper) : string := Addr_String (selfAddr p).

(** ** Mappings *)

Section Mappings.

(** The router's answer to a request, after those it has already had. *)
Variable answer : upnpClient -> list request -> request -> option error.

Definition lease (timeout : Z) : Z := uint32_of (Z.quot timeout Second).

Definition mapping_request (pm : pPortMapping) (timeout : Z) : request :=
  mkRequest EmptyString (externalPort pm) (protocol pm) (forwardToPort pm)
    (Addr_String (forwardToAddr pm)) true (description pm) (lease timeout).

Definition send (p : portMapper) (r : request) : portMapper :=
  mkPortMapper (upnp p) (externalAddr p) (selfAddr p) (pRefreshTimer p) (pRefreshInterval p)
    (pPortMappings p) (pPortMappingTimeout p) (requests p ++ [r]).

(** The state and the error it returns; before [Connect] there is no client to
    call. *)
Definition AddPortMapping (p : portMapper) (pm : pPortMapping) (timeout : Z)
    : result (portMapper * option error) :=
  match upnp p with
  | None => Panic "invalid memory address or nil pointer dereference"
  | Some c =>
      let r := mapping_request pm timeout in
      Ok (send p r, answer c (requests p) r)
  end.

Definition to_self (p : portMapper) (d : string) (proto : Protocol) (ext fwd : Z)
    : pPortMapping := mkPPortMapping d proto ext fwd (selfAddr p).

Definition AddPortMappingToSelf (p : portMapper) (d : string) (proto : Protocol) (ext fwd : Z)
    (timeout : Z) : result (portMapper * option error) :=
  AddPortMapping p (to_self p d proto ext fwd) timeout.

(** The end of [AddPersistantPortMapping], under the lock. *)
Definition append_mapping (p : portMapper) (pm : pPortMapping) : portMapper :=
  mkPortMapper (upnp p) (externalAddr p) (selfAddr p) (pRefreshTimer p) (pRefreshInterval p)
    (pPortMappings p ++ [pm]) (pPortMappingTimeout p) (requests p).

Definition AddPersistantPortMapping (p : portMapper) (pm : pPortMapping)
    : result (portMapper * option error) :=
  r ← AddPortMapping p pm (pPortMappingTimeout p);
  let (p, err) := r : portMapper * option error in
  match err with
  | Some e => Ok (p, Some e)
  | None => Ok (append_mapping p pm, None)
  end.

Definition AddPersistantPortMappingToSelf (p : portMapper) (d : string) (proto : Protocol)
    (ext fwd : Z) : result (portMapper * option error) :=
  AddPersistantPortMapping p (to_self p d proto ext fwd).

(** The loop of [refreshPortMappings]; errors are logged. *)
Fixpoint refresh_loop (p : portMapper) (pms : list pPortMapping) : result portMapper :=
  match pms with
  | [] => Ok p
  | pm :: pms =>
      r ← AddPortMapping p pm (pPortMappingTimeout p);
      refresh_loop (fst (r : portMapper * option error)) pms
  end.

(** The state and the time to the next run. *)
Definition refreshPortMappings (p : portMapper) : result (portMapper * Z) :=
  p ← refresh_loop p (pPortMappings p); Ok (p, pRefreshInterval p).

(** ** The interface *)

(** A port mapper of type [P]; [net] is the network that [Connect] finds. *)
Class PortMapper_ (P : Type) := {
  pm_Connect : network -> P -> result P;
  pm_Close : P -> P;
  pm_ExternalIP : P -> string;
  pm_LocalIP : P -> string;
  pm_AddPersistantPortMappingToSelf : P -> string -> Protocol -> Z -> Z -> result (P * option error);
  pm_AddPersistantPortMapping : P -> pPortMapping -> result (P * option error);
  pm_AddPortMappingToSelf : P -> string -> Protocol -> Z -> Z -> Z -> result (P * option error);
  pm_AddPortMapping : P -> pPortMapping -> Z -> result (P * option error);
}.

#[global] Instance portMapper_mapper : PortMapper_ portMapper := {|
  pm_Connect := Connect;
  pm_Close := Close;
  pm_ExternalIP := ExternalIP;
  pm_LocalIP := LocalIP;
  pm_AddPersistantPortMappingToSelf := AddPersistantPortMappingToSelf;
  pm_AddPersistantPortMapping := AddPersistantPortMapping;
  pm_AddPortMappingToSelf := AddPortMappingToSelf;
  pm_AddPortMapping := AddPortMapping;
|}.

(** What a mapper promises of its local address: a mapping to itself is the mapping to an
    address that prints as [LocalIP]. *)
Class PortMapperLaws (P : Type) `{mapper : PortMapper_ P} : Prop := {
  to_self_is_local p d proto ext fwd : exists a,
    Addr_String a = pm_LocalIP p /\
    (forall timeout, pm_AddPortMappingToSelf p d proto ext fwd timeout
       = pm_AddPortMapping p (mkPPortMapping d proto ext fwd a) timeout) /\
    pm_AddPersistantPortMappingToSelf p d proto ext fwd
      = pm_AddPersistantPortMapping p (mkPPortMapping d proto ext fwd a);
}.

#[global] Instance portMapper_laws : PortMapperLaws portMapper.
Proof. split. intros p d proto ext fwd. by exists (selfAddr p). Qed.

(** ** Refreshing *)

(** The mapper after it has sent [rs]. *)
Definition sent (p : portMapper) (rs : list request) : portMapper :=
  mkPortMapper (upnp p) (externalAddr p) (selfAddr p) (pRefreshTimer p) (pRefreshInterval p)
    (pPortMappings p) (pPortMappingTimeout p) (requests p ++ rs).

Lemma refresh_loop_sends p c pms :
  upnp p = Some c ->
  refresh_loop p pms
    = Ok (sent p ((fun pm => mapping_request pm (pPortMappingTimeout p)) <$> pms)).
Proof.
  revert p. induction pms as [|pm pms IH]; intros p Hc; cbn [refresh_loop].
  { unfold sent. cbn. rewrite app_nil_r. by destruct p. }
  unfold AddPortMapping. rewrite Hc. cbn [mbind result_bind fst].
  rewrite IH by done. unfold sent, send. cbn. by rewrite <- app_assoc.
Qed.

(** A refresh interval whose lease fits the protocol's 32 bits: below 49 days. *)
Definition refresh_ok (pRefresh : Z) : Prop := 0 <= pRefresh < (two32 - 60) * 1000.

Lemma lease_bounds pRefresh :
  refresh_ok pRefresh ->
  pRefresh + 59000 < lease (pPortMappingTimeout (NewPortMapper pRefresh)) * 1000
    <= pRefresh + 60000.
Proof.
  unfold refresh_ok, two32. intros Hr. cbn [NewPortMapper pPortMappingTimeout].
  rewrite (wrap64_id (pRefresh * Millisecond)) by (unfold int64_range, two63, Millisecond; lia).
  rewrite wrap64_id by (unfold int64_range, two63, Millisecond, Minute, Second; lia).
  unfold lease, Millisecond, Minute, Second. rewrite Z.quot_div_nonneg by lia.
  rewrite uint32_of_id by (unfold two32; dlia). dlia.
Qed.

(** Each run of the timer asks the router again for every persistent mapping, in
    order and whether or not earlier ones were refused, and for nothing else; the
    mappings stay registered.  Each lease outlives the time to the next run by more
    than 59 and at most 60 seconds. *)
Theorem refresh_renews_all (p : portMapper) (c : upnpClient) (pRefresh : Z)
  (Hc : upnp p = Some c)
  (Hi : pRefreshInterval p = pRefresh)
  (Ht : pPortMappingTimeout p = pPortMappingTimeout (NewPortMapper pRefresh))
  (Hr : refresh_ok pRefresh) :
  exists rs, refreshPortMappings p = Ok (sent p rs, pRefresh) /\
    Forall2 (fun pm r => r = mapping_request pm (pPortMappingTimeout p) /\
               pRefresh + 59000 < NewLeaseDuration r * 1000 <= pRefresh + 60000)
            (pPortMappings p) rs.
Proof.
  exists ((fun pm => mapping_request pm (pPortMappingTimeout p)) <$> pPortMappings p). split.
  - unfold refreshPortMappings. rewrite (refresh_loop_sends p c) by done. cbn. by rewrite Hi.
  - apply Forall2_fmap_r, Forall_Forall2_diag, Forall_true. intros pm. split; [done|].
    cbn [NewLeaseDuration mapping_request]. rewrite Ht. by apply lease_bounds.
Qed.

(** ** Histories *)

Inductive op :=
| OpAdd (pm : pPortMapping) (timeout : Z)
| OpPersist (pm : pPortMapping)
| OpRefresh.

(** The mapper after a call, and the error that the call returns. *)
Definition step (p : portMapper) (o : op) : result (portMapper * option error) :=
  match o with
  | OpAdd pm timeout => AddPortMapping p pm timeout
  | OpPersist pm => AddPersistantPortMapping p pm
  | OpRefresh => (fun r => (fst r, None)) <$> refreshPortMappings p
  end.

Fixpoint run (p : portMapper) (os : list op) : result (portMapper * list (option error)) :=
  match os with
  | [] => Ok (p, [])
  | o :: os =>
      r ← step p o;
      let (p, err) := r : portMapper * option error in
      r ← run p os;
      let (p, errs) := r : portMapper * list (option error) in
      Ok (p, err :: errs)
  end.

(** *** What callers and the router see

    Calls in the order the router gets their requests: a call asks for one mapping, with
    the lease of its caller or of the mapper, and the timer asks for all that are kept
    up. *)

(** What an operation asks of the router when [pms] are kept up. *)
Definition asks (timeout : Z) (pms : list pPortMapping) (o : op) : list request :=
  match o with
  | OpAdd pm t => [mapping_request pm t]
  | OpPersist pm => [mapping_request pm timeout]
  | OpRefresh => (fun pm => mapping_request pm timeout) <$> pms
  end.

(** The router's answer to the call, after the requests [h]; the timer reports none. *)
Definition verdict (c : upnpClient) (timeout : Z) (h : list request) (o : op) : option error :=
  match o with
  | OpAdd pm t => answer c h (mapping_request pm t)
  | OpPersist pm => answer c h (mapping_request pm timeout)
  | OpRefresh => None
  end.

(** What is kept up after an operation that was answered. *)
Definition keeps (o : op) (err : option error) : list pPortMapping :=
  match o, err with OpPersist pm, None => [pm] | _, _ => [] end.

(** The mappings kept up, the requests the router has had, and the errors returned. *)
Fixpoint expected (c : upnpClient) (timeout : Z) (pms : list pPortMapping) (h : list request)
    (os : list op) : list pPortMapping * list request * list (option error) :=
  match os with
  | [] => (pms, h, [])
  | o :: os =>
      let err := verdict c timeout h o in
      let '(pms', h', errs) := expected c timeout (pms ++ keeps o err) (h ++ asks timeout pms o) os in
      (pms', h', err :: errs)
  end.

Lemma step_expected p c o :
  upnp p = Some c ->
  let err := verdict c (pPortMappingTimeout p) (requests p) o in
  exists p', step p o = Ok (p', err) /\ upnp p' = Some c /\
    pPortMappingTimeout p' = pPortMappingTimeout p /\
    pPortMappings p' = pPortMappings p ++ keeps o err /\
    requests p' = requests p ++ asks (pPortMappingTimeout p) (pPortMappings p) o.
Proof.
  intros Hc. destruct o as [pm t|pm|]; cbn [step verdict keeps asks].
  - unfold AddPortMapping. rewrite Hc. eexists. split_and!; [done..| |done]. by rewrite app_nil_r.
  - unfold AddPersistantPortMapping, AddPortMapping. rewrite Hc. cbn [mbind result_bind].
    destruct (answer c (requests p) _); eexists; split_and!; try done; by rewrite app_nil_r.
  - unfold refreshPortMappings. rewrite (refresh_loop_sends p c) by done.
    eexists. split_and!; [done..| |done]. by rewrite app_nil_r.
Qed.

(** C22. Over any history of a connected mapper, each call returns the router's answer to
    its request: nil when the router granted the mapping and its error when it was
    refused.  The router is asked, in the order of the history, once for each call and by
    each run of the timer once for each mapping that is kept up then.  The mappings kept
    up are those there were before and then exactly the persistent ones that the router
    granted when they were added, in that order: a refused one is reported and not
    retried, and refreshing neither loses nor duplicates any. *)
Theorem registered_iff_accepted (p : portMapper) (c : upnpClient) (os : list op)
  (Hc : upnp p = Some c) :
  exists p' errs, run p os = Ok (p', errs) /\ upnp p' = Some c /\
    (pPortMappings p', requests p', errs)
      = expected c (pPortMappingTimeout p) (pPortMappings p) (requests p) os.
Proof.
  revert p Hc. induction os as [|o os IH]; intros p Hc; [by exists p, []|]. cbn [run expected].
  destruct (step_expected p c o Hc) as (p1 & -> & Hc1 & Ht & Hm & Hq). cbn [mbind result_bind].
  destruct (IH p1 Hc1) as (p' & errs & -> & Hu & He). rewrite Ht, Hm, Hq in He.
  cbn [mbind result_bind]. rewrite <- He. by eexists _, _.
Qed.

End Mappings.

(** ** Connecting *)

Lemma same_router_spec e cs :
  same_router e cs = Ok tt ->
  Forall (fun c => forall e', GetExternalIPAddressCtx c = Ok e' -> e' = e) cs.
Proof.
  induction cs as [|c cs IH]; cbn [same_router]; intros H; [constructor|].
  destruct (GetExternalIPAddressCtx c) eqn:E; try done.
  - case_decide; [|done]. constructor; [congruence|by apply IH].
  - constructor; [congruence|by apply IH].
Qed.

Lemma choose_spec cs c e :
  choose cs = Ok (c, e) -> head cs = Some c /\ GetExternalIPAddressCtx c = Ok e /\
  Forall (fun c' => forall e', GetExternalIPAddressCtx c' = Ok e' -> e' = e) cs.
Proof.
  destruct cs as [|c0 cs]; [done|]. cbn [choose]. intros H. bind_inv. simplify_eq.
  split_and!; [done|done|]. constructor; [congruence|]. destruct a0. by apply same_router_spec.
Qed.

(** C23. A mapper that connects has one router: it takes the first client of a kind
    that the discovery found, that client's router reported an external address, which
    is the one of the mapper, and every other client of that kind that answered reported
    the same address.  Its own address is the one that client is reached from. *)
Theorem Connect_one_router (net : network) (p p' : portMapper)
  (H : Connect net p = Ok p') :
  exists cs c e, (cs = ip1Clients net \/ cs = ip2Clients net \/ cs = ppp1Clients net) /\
    head cs = Some c /\ upnp p' = Some c /\ GetExternalIPAddressCtx c = Ok e /\
    Forall (fun c' => forall e', GetExternalIPAddressCtx c' = Ok e' -> e' = e) cs /\
    ParseAddr e = Some (externalAddr p') /\
    ParseAddr (IP_String (LocalAddr c)) = Some (selfAddr p').
Proof.
  unfold Connect in H. destruct (tasks_Wait net); [done|]. bind_inv.
  destruct a as [c e]. bind_inv. subst p'. unfold find_router in Ha.
  assert (exists cs, (cs = ip1Clients net \/ cs = ip2Clients net \/ cs = ppp1Clients net) /\
    choose cs = Ok (c, e)) as (cs & Hcs & Hch).
  { repeat (case_match; [eexists; split; [|exact Ha]; tauto|]). done. }
  apply choose_spec in Hch as (Hh & He & Hf).
  exists cs, c, e. unfold MustParseAddr in *.
  repeat (case_match; simplify_eq); split_and!; done.
Qed.

(** A network with a single router is not found: the cases ask for more than one
    client of a kind, so with one client, of any or of every kind, the mapper reports
    that there is no router. *)
Theorem single_router_not_found (net : network) (p : portMapper)
  (Hw : tasks_Wait net = None)
  (H1 : (length (ip1Clients net) <= 1)%nat)
  (H2 : (length (ip2Clients net) <= 1)%nat)
  (H3 : (length (ppp1Clients net) <= 1)%nat) :
  Connect net p = Err ErrNoRoutersFound.
Proof.
  unfold Connect, find_router. rewrite Hw.
  by rewrite !(proj2 (Nat.ltb_ge _ _)).
Qed.

(** A timer that does not start is not reported: [Connect] returns without an error
    although persistent mappings will not be renewed. *)
Theorem Connect_hides_timer_error (net : network) (p p' : portMapper) (e : error)
  (He : timer_Start net = Some e)
  (H : Connect (mkNetwork (ip1Clients net) (ip2Clients net) (ppp1Clients net)
                  (tasks_Wait net) None) p = Ok p') :
  Connect net p = Ok (Close p').
Proof.
  unfold Connect, find_router in *. cbn [tasks_Wait ip1Clients ip2Clients ppp1Clients timer_Start] in H.
  rewrite He. destruct (tasks_Wait net); [done|]. bind_inv. rewrite Ha. destruct a as [c eip].
  bind_inv. cbn [mbind result_bind]. rewrite Ha0, Ha1. by subst p'.
Qed.

(** The address a router reports is parsed with [MustParseAddr]: routers that agree
    on a text which is not an address, such as the empty one of a router that is not
    online, make [Connect] panic. *)
Theorem Connect_panics_offline (net : network) (p : portMapper) (c : upnpClient)
  (cs : list upnpClient) (e : string)
  (Hw : tasks_Wait net = None)
  (Hc : ip1Clients net = c :: cs) (Hl : cs <> [])
  (Ha : Forall (fun c => GetExternalIPAddressCtx c = Ok e) (c :: cs))
  (He : ParseAddr e = None) :
  is_panic (Connect net p) = true.
Proof.
  unfold Connect, find_router. rewrite Hw, Hc. inversion Ha as [|?? H0 Hr]; subst.
  assert (same_router e cs = Ok tt) as Hs.
  { clear -Hr. induction Hr as [|c' cs Hc' _ IH]; [done|]. cbn [same_router].
    by rewrite Hc', decide_True. }
  destruct cs; [done|]. cbn [length Nat.ltb Nat.leb choose].
  rewrite H0. cbn [mbind result_bind]. rewrite Hs. cbn [mbind result_bind].
  unfold MustParseAddr. by rewrite He.
Qed.

(** ** A home network with two clients of one router *)

Definition router : upnpClient := mkUpnpClient (Ok "203.0.113.7") [192; 168; 1; 10].
Definition offline : upnpClient := mkUpnpClient (Ok EmptyString) [192; 168; 1; 10].
Definition silent : upnpClient := mkUpnpClient (Err DeadlineExceeded) [192; 168; 1; 10].
Definition home : network := mkNetwork [router; silent] [router] [] None None.

(** The router accepts everything but privileged ports. *)
Definition home_answer (c : upnpClient) (h : list request) (r : request) : option error :=
  if NewExternalPort r <? 1024 then Some (Errorf "ConflictInMappingEntry" []) else None.

Definition home_mapper : portMapper :=
  mkPortMapper (Some router) (Addr4 [203; 0; 113; 7]) (Addr4 [192; 168; 1; 10]) true 300000 []
    (pPortMappingTimeout (NewPortMapper 300000)) [].

Lemma home_connects : Connect home (NewPortMapper 300000) = Ok home_mapper.
Proof. vm_compute. reflexivity. Qed.

Definition web : pPortMapping := mkPPortMapping "web" ProtocolTCP 8443 443 (Addr4 [192; 168; 1; 10]).
Definition http : pPortMapping := mkPPortMapping "http" ProtocolTCP 80 80 (Addr4 [192; 168; 1; 10]).

Lemma refresh_renews_all_witness :
  exists rs, refreshPortMappings home_answer home_mapper = Ok (sent home_mapper rs, 300000) /\
    Forall2 (fun pm r => r = mapping_request pm (pPortMappingTimeout home_mapper) /\
               300000 + 59000 < NewLeaseDuration r * 1000 <= 300000 + 60000)
            (pPortMappings home_mapper) rs.
Proof.
  apply (refresh_renews_all home_answer home_mapper router 300000);
    [reflexivity|reflexivity|reflexivity|unfold refresh_ok, two32; lia].
Defined.

Lemma registered_iff_accepted_witness :
  exists p' errs, run home_answer home_mapper [OpPersist http; OpPersist web; OpRefresh] = Ok (p', errs) /\
    pPortMappings p' = [web] /\ errs = [Some (Errorf "ConflictInMappingEntry" []); None; None] /\
    NewExternalPort <$> requests p' = [80; 8443; 8443].
Proof.
  destruct (registered_iff_accepted home_answer home_mapper router
    [OpPersist http; OpPersist web; OpRefresh] eq_refl) as (p' & errs & Hr & _ & He).
  exists p', errs. split; [exact Hr|].
  assert (expected home_answer router (pPortMappingTimeout home_mapper) (pPortMappings home_mapper)
    (requests home_mapper) [OpPersist http; OpPersist web; OpRefresh]
    = ([web], [mapping_request http 360000000000; mapping_request web 360000000000;
               mapping_request web 360000000000],
       [Some (Errorf "ConflictInMappingEntry" []); None; None])) as Hx by (vm_compute; reflexivity).
  rewrite Hx in He. injection He as -> -> ->. split; [reflexivity|]. split; reflexivity.
Defined.

Lemma Connect_one_router_witness :
  exists cs c e, (cs = [router; silent] \/ cs = [router] \/ cs = []) /\
    head cs = Some c /\ upnp home_mapper = Some c /\ GetExternalIPAddressCtx c = Ok e /\
    Forall (fun c' => forall e', GetExternalIPAddressCtx c' = Ok e' -> e' = e) cs /\
    ParseAddr e = Some (externalAddr home_mapper) /\
    ParseAddr (IP_String (LocalAddr c)) = Some (selfAddr home_mapper).
Proof. exact (Connect_one_router home (NewPortMapper 300000) home_mapper home_connects). Defined.

Lemma single_router_not_found_witness :
  Connect (mkNetwork [router] [router] [] None None) (NewPortMapper 300000)
    = Err ErrNoRoutersFound.
Proof.
  apply (single_router_not_found (mkNetwork [router] [router] [] None None)); cbn; lia || done.
Defined.

Lemma Connect_hides_timer_error_witness :
  Connect (mkNetwork [router; silent] [router] [] None (Some Canceled)) (NewPortMapper 300000)
    = Ok (Close home_mapper).
Proof.
  exact (Connect_hides_timer_error (mkNetwork [router; silent] [router] [] None (Some Canceled))
    (NewPortMapper 300000) home_mapper Canceled eq_refl home_connects).
Defined.

Lemma Connect_panics_offline_witness :
  is_panic (Connect (mkNetwork [offline; offline] [] [] None None) (NewPortMapper 300000)) = true.
Proof.
  apply (Connect_panics_offline (mkNetwork [offline; offline] [] [] None None) _ offline [offline]
    EmptyString); [reflexivity|reflexivity|discriminate|repeat constructor|reflexivity].
Defined.
