(* ===== verification/PortLeases.v ===== *)
(** * The port mapper and the router, in time

    network/port_mapper.go beside a router whose mappings expire.  The timer, the rounds
    of [refreshPortMappings] and the two halves of [AddPersistantPortMapping] are steps
    that other calls and the passing of time interleave with; the lock keeps only a
    round and an append apart.  Times are in milliseconds. *)

From S2P Require Import Prelude GoStrings GoNet PortMapper.
Local Open Scope Z_scope.

(** ** The router *)

(** What a router forwards: the protocol and the external port, and the client and its
    port. *)
Definition forward_key (r : request) : string * Z := (NewProtocol r, NewExternalPort r).
Definition forward_to (r : request) : string * Z := (NewInternalClient r, NewInternalPort r).

(** [add] handles a request at a time; [forwards] is what the router would forward at a
    time to come if nothing more were asked of it. *)
Class Router := {
  table : Type;
  add : Z -> request -> table -> option error * table;
  forwards : table -> Z -> string * Z -> option (string * Z);
}.

(** The longest lease the protocol lets a client ask for, a week in seconds. *)
Definition max_lease : Z := 604800.

(** What the protocol says of AddPortMapping: a mapping that is granted is there for its
    lease and no longer; a request does not touch other ports, and a refused one
    touches none; the client that has a mapping gets it again. *)
Class RouterLaws (router : Router) : Prop := {
  add_granted now r T T' t :
    add now r T = (None, T') -> NewEnabled r = true -> 0 < NewLeaseDuration r <= max_lease ->
    now <= t ->
    forwards T' t (forward_key r)
      = if t <? now + NewLeaseDuration r * 1000 then Some (forward_to r) else None;
  add_others now r T t k :
    k <> forward_key r -> forwards (add now r T).2 t k = forwards T t k;
  add_refused now r T T' e t k :
    add now r T = (Some e, T') -> forwards T' t k = forwards T t k;
  add_renews now r T :
    forwards T now (forward_key r) = Some (forward_to r) -> (add now r T).1 = None;
}.

Section Leases.
Context `{router : Router}.

(** ** The system *)

(** The timer is set for [due]; a round runs, begun at a time, with the mappings still
    to be asked for, and whether [Close] was called meanwhile; or the mapper is
    closed. *)
Inductive phase :=
| Sleeping (due : Z)
| Refreshing (begun : Z) (todo : list pPortMapping) (closed : option Z)
| Off (closed : Z).

(** [s_adding]: calls of [AddPersistantPortMapping] between the router's grant, with its
    time, and the append. *)
Record sys := mkSys {
  s_now : Z;
  s_table : table;
  s_mapper : portMapper;
  s_phase : phase;
  s_adding : list (pPortMapping * Z);
}.

Definition set_phase (s : sys) (ph : phase) : sys :=
  mkSys (s_now s) (s_table s) (s_mapper s) ph (s_adding s).
Definition set_adding (s : sys) (l : list (pPortMapping * Z)) : sys :=
  mkSys (s_now s) (s_table s) (s_mapper s) (s_phase s) l.

Definition close_mapper (s : sys) : sys :=
  mkSys (s_now s) (s_table s) (Close (s_mapper s)) (s_phase s) (s_adding s).

(** [AddPortMapping] with the router's answer at this moment. *)
Definition call (pm : pPortMapping) (timeout : Z) (s : sys) : option (sys * option error) :=
  match AddPortMapping (fun _ _ r => (add (s_now s) r (s_table s)).1) (s_mapper s) pm timeout with
  | Ok (p, err) =>
      Some (mkSys (s_now s) (add (s_now s) (mapping_request pm timeout) (s_table s)).2 p
              (s_phase s) (s_adding s), err)
  | _ => None
  end.

(** ** Steps *)

(** How late the timer may be, how long a round may take, and how long an append may
    come after its grant. *)
Variables late round append : Z.

Inductive choice :=
| Pass (d : Z)
| Fire
| Next
| EndRound
| Persist (pm : pPortMapping)
| Append (i : nat)
| Plain (pm : pPortMapping) (timeout : Z)
| CloseMapper.

(** Time passes as long as nothing is overdue. *)
Definition may_pass (t : Z) (s : sys) : bool :=
  match s_phase s with
  | Sleeping due => t <=? due + late
  | Refreshing begun _ _ => t <=? begun + round
  | Off _ => true
  end && forallb (fun x => t <=? x.2 + append) (s_adding s).

Definition timeout_of (s : sys) : Z := pPortMappingTimeout (s_mapper s).

Definition exec (c : choice) (s : sys) : option sys :=
  match c with
  | Pass d =>
      if (0 <=? d) && may_pass (s_now s + d) s
      then Some (mkSys (s_now s + d) (s_table s) (s_mapper s) (s_phase s) (s_adding s))
      else None
  | Fire =>
      match s_phase s with
      | Sleeping due =>
          if due <=? s_now s
          then Some (set_phase s (Refreshing (s_now s) (pPortMappings (s_mapper s)) None))
          else None
      | _ => None
      end
  | Next =>
      match s_phase s with
      | Refreshing begun (pm :: todo) closed =>
          '(s, _) ← call pm (timeout_of s) s; Some (set_phase s (Refreshing begun todo closed))
      | _ => None
      end
  | EndRound =>
      match s_phase s with
      | Refreshing _ [] None => Some (set_phase s (Sleeping (s_now s + pRefreshInterval (s_mapper s))))
      | Refreshing _ [] (Some t) => Some (set_phase s (Off t))
      | _ => None
      end
  | Persist pm =>
      '(s, err) ← call pm (timeout_of s) s;
      Some (match err with
            | None => set_adding s (s_adding s ++ [(pm, s_now s)])
            | Some _ => s
            end)
  | Append i =>
      match s_phase s, s_adding s !! i with
      | Refreshing _ _ _, _ | _, None => None
      | _, Some (pm, _) =>
          Some (mkSys (s_now s) (s_table s) (append_mapping (s_mapper s) pm) (s_phase s)
                  (delete i (s_adding s)))
      end
  | Plain pm timeout => fst <$> call pm timeout s
  | CloseMapper =>
      match s_phase s with
      | Sleeping _ => Some (set_phase (close_mapper s) (Off (s_now s)))
      | Refreshing begun todo None =>
          Some (set_phase (close_mapper s) (Refreshing begun todo (Some (s_now s))))
      | _ => None
      end
  end.

Fixpoint run (cs : list choice) (s : sys) : option sys :=
  match cs with
  | [] => Some s
  | c :: cs => s ← exec c s; run cs s
  end.

(** *** The operations of the mapper, undisturbed *)

(** A round without anything in between is [refreshPortMappings]. *)
Lemma round_refines s due :
  s_phase s = Sleeping due -> due <= s_now s -> is_Some (upnp (s_mapper s)) ->
  exists s', run (Fire :: replicate (length (pPortMappings (s_mapper s))) Next ++ [EndRound]) s = Some s' /\
    s_now s' = s_now s /\ s_adding s' = s_adding s /\
    s_phase s' = Sleeping (s_now s + pRefreshInterval (s_mapper s)) /\
    forall answer, refreshPortMappings answer (s_mapper s)
                     = Ok (s_mapper s', pRefreshInterval (s_mapper s)).
Proof.
  intros Hs Hd Hu. cbn [app run exec]. rewrite Hs, (proj2 (Z.leb_le _ _) Hd). cbn [mbind option_bind].
  unfold refreshPortMappings.
  assert (forall todo s1, s_phase s1 = Refreshing (s_now s) todo None -> is_Some (upnp (s_mapper s1)) ->
    pRefreshInterval (s_mapper s1) = pRefreshInterval (s_mapper s) ->
    exists s', run (replicate (length todo) Next ++ [EndRound]) s1 = Some s' /\
      s_now s' = s_now s1 /\ s_adding s' = s_adding s1 /\
      s_phase s' = Sleeping (s_now s1 + pRefreshInterval (s_mapper s)) /\
      forall answer, refresh_loop answer (s_mapper s1) todo = Ok (s_mapper s') /\
        pRefreshInterval (s_mapper s') = pRefreshInterval (s_mapper s)) as Hgo.
  { induction todo as [|pm todo IH]; intros s1 Hp [c Hc] Hi; cbn [length replicate app run exec].
    - rewrite Hp. eexists. split; [done|]. cbn. by rewrite Hi.
    - rewrite Hp. unfold call, AddPortMapping at 1. rewrite Hc. cbn [mbind option_bind].
      match goal with |- context [run _ ?s2] =>
        destruct (IH s2) as (s' & Hr & Hn & Ha & Hph & Hl); [done|by exists c|done|] end.
      exists s'. split; [exact Hr|]. cbn in *. split_and!; [done..|]. intros answer.
      cbn [refresh_loop]. unfold AddPortMapping. rewrite Hc. cbn [mbind result_bind fst]. apply Hl. }
  destruct (Hgo (pPortMappings (s_mapper s))
              (set_phase s (Refreshing (s_now s) (pPortMappings (s_mapper s)) None)))
    as (s' & Hr & Hn & Ha & Hph & Hl); [done..|].
  exists s'. split; [exact Hr|]. split_and!; [done..|]. intros answer. destruct (Hl answer) as [Hq Hi].
  cbn [set_phase s_mapper] in Hq. rewrite Hq.
  cbn. by rewrite Hi.
Qed.

(** A grant and its append without anything in between are [AddPersistantPortMapping]. *)
Lemma persist_refines s due pm :
  s_phase s = Sleeping due -> s_adding s = [] -> is_Some (upnp (s_mapper s)) ->
  let answer := fun (_ : upnpClient) (_ : list request) r => (add (s_now s) r (s_table s)).1 in
  exists s1 s2 err,
    exec (Persist pm) s = Some s1 /\
    run (match err with None => [Append 0] | Some _ => [] end) s1 = Some s2 /\
    AddPersistantPortMapping answer (s_mapper s) pm = Ok (s_mapper s2, err) /\ s_adding s2 = [].
Proof.
  intros Hs Ha [c Hc]. cbv zeta. cbn [exec]. unfold AddPersistantPortMapping, call, AddPortMapping, timeout_of.
  rewrite Hc. cbn [mbind option_bind result_bind fst snd s_now s_table s_mapper s_phase s_adding].
  set (r := mapping_request _ _). destruct (add (s_now s) r (s_table s)).1 as [e|] eqn:E.
  - eexists _, _, (Some e). rewrite Ha. by cbn.
  - eexists _, _, None. split; [done|]. rewrite Ha. cbn [run exec set_adding s_phase s_adding app lookup].
    rewrite Hs. by cbn.
Qed.

(** A mapper that has just connected: the timer is started for at once. *)
Definition connected (now : Z) (T : table) (p : portMapper) : sys := mkSys now T p (Sleeping now) [].

(** ** What always holds *)

Variable pRefresh : Z.
Variable client : upnpClient.

Definition mapper_ok (p : portMapper) : Prop :=
  upnp p = Some client /\ pRefreshInterval p = pRefresh /\
  pPortMappingTimeout p = pPortMappingTimeout (NewPortMapper pRefresh).

Definition on_time (s : sys) : Prop :=
  match s_phase s with
  | Sleeping due => s_now s <= due + late /\ due <= s_now s + pRefresh
  | Refreshing begun _ closed =>
      begun <= s_now s <= begun + round /\
      match closed with Some t => begun <= t <= s_now s | None => True end
  | Off t => t <= s_now s
  end /\
  Forall (fun x => s_now s <= x.2 + append) (s_adding s).

Definition sys_ok (s : sys) : Prop := mapper_ok (s_mapper s) /\ on_time s.

Hypothesis late_nonneg : 0 <= late.
Hypothesis round_nonneg : 0 <= round.
Hypothesis append_nonneg : 0 <= append.
Hypothesis refresh_nonneg : 0 <= pRefresh.

Lemma call_spec pm timeout s :
  mapper_ok (s_mapper s) ->
  let r := mapping_request pm timeout in
  call pm timeout s
    = Some (mkSys (s_now s) (add (s_now s) r (s_table s)).2 (send (s_mapper s) r) (s_phase s)
              (s_adding s), (add (s_now s) r (s_table s)).1).
Proof. intros (Hu & _). unfold call, AddPortMapping. by rewrite Hu. Qed.

Lemma exec_ok c s s' : sys_ok s -> exec c s = Some s' -> sys_ok s'.
Proof.
  intros [Hm [Hp Ha]] H. destruct c as [d| | | |pm|i|pm timeout|]; cbn [exec] in H.
  - case_match eqn:E; simplify_eq. apply andb_true_iff in E as [Hd E].
    unfold may_pass in E. apply andb_true_iff in E as [E1 E2]. split; [done|]. split; cbn.
    + destruct (s_phase s) as [due|b todo cl|t]; [lia| |lia]. destruct Hp as [? Hc]. split; [lia|]. destruct cl; [lia|done].
    + apply Forall_forall. intros x Hx. apply forallb_forall with (x := x) in E2; [lia|].
      by apply list_elem_of_In.
  - unfold on_time. repeat case_match; simplify_eq. split; [done|]. split; cbn; [lia|done].
  - destruct (s_phase s) as [|b [|pm todo] cl|] eqn:E; try done. rewrite call_spec in H by done.
    cbn in H. simplify_eq. split; [done|]. split; cbn; [|done]. done.
  - destruct (s_phase s) as [|b [|pm todo] [t|]|] eqn:E; simplify_eq; (split; [done|]); (split; [|done]);
      cbn; destruct Hm as (_ & Hi & _); lia.
  - rewrite call_spec in H by done. cbn in H. destruct (add _ _ _).1; simplify_eq; (split; [done|]);
      (split; [done|]); [done|]. cbn. apply Forall_app. split; [done|]. constructor; [cbn; lia|done].
  - destruct (s_phase s) as [due|b todo cl|t] eqn:E; try done;
      destruct (s_adding s !! i) as [[pm t0]|] eqn:Ei; simplify_eq; (split; [done|]);
      unfold on_time; cbn; (split; [done|]); by apply Forall_delete.
  - rewrite call_spec in H by done. cbn in H. by simplify_eq.
  - destruct (s_phase s) as [due|b todo [t|]|t] eqn:E; simplify_eq; (split; [done|]); (split; [|done]);
      cbn; lia.
Qed.

(** ** One persistent mapping *)

Context {laws : RouterLaws router}.
Variable x : pPortMapping.

Definition key_of_mapping (pm : pPortMapping) : string * Z := (protocol pm, externalPort pm).
Definition target (pm : pPortMapping) : string * Z :=
  (Addr_String (forwardToAddr pm), forwardToPort pm).

(** Nothing else is asked of the router for the port of [x]. *)
Definition other (c : choice) : bool :=
  match c with
  | Persist pm | Plain pm _ => negb (bool_decide (key_of_mapping pm = key_of_mapping x))
  | _ => true
  end.

(** A list of mappings in which only [x] has its port. *)
Definition alone (l : list pPortMapping) : Prop :=
  Forall (fun pm => key_of_mapping pm = key_of_mapping x -> pm = x) l.

Definition todo_of (ph : phase) : list pPortMapping :=
  match ph with Refreshing _ todo _ => todo | _ => [] end.

Definition all_mappings (s : sys) : list pPortMapping :=
  pPortMappings (s_mapper s) ++ todo_of (s_phase s) ++ (fst <$> s_adding s).

(** The lease in milliseconds. *)
Definition lease_ms : Z := lease (pPortMappingTimeout (NewPortMapper pRefresh)) * 1000.

(** The router granted [x] at [tl], and not later. *)
Definition granted (tl : Z) (T : table) : Prop :=
  forall t, tl <= t ->
    forwards T t (key_of_mapping x) = if t <? tl + lease_ms then Some (target x) else None.

(** How long after a grant the next round that asks for [x] is due, at most. *)
Definition slack : Z := Z.max append round.

Definition tracked (tl : Z) (s : sys) : Prop :=
  tl <= s_now s /\ granted tl (s_table s) /\
  Forall (fun y => y.1 = x -> y.2 <= tl) (s_adding s) /\
  (x ∈ pPortMappings (s_mapper s) \/ x ∈ (s_adding s).*1) /\
  match s_phase s with
  | Sleeping due => x ∈ pPortMappings (s_mapper s) -> due <= tl + slack + pRefresh
  | Refreshing begun todo _ =>
      x ∈ pPortMappings (s_mapper s) ->
      begun <= tl \/ x ∈ todo /\ begun <= tl + slack + pRefresh + late
  | Off t => tl <= t + round
  end.

Hypothesis refresh_week : pRefresh <= (max_lease - 60) * 1000.
Hypothesis in_time : slack + late + round <= 59000.

Lemma lease_ms_bounds : pRefresh + 59000 < lease_ms <= pRefresh + 60000.
Proof.
  apply lease_bounds. unfold refresh_ok, two32, max_lease in *. lia.
Qed.

Lemma request_lease pm :
  0 < NewLeaseDuration (mapping_request pm (pPortMappingTimeout (NewPortMapper pRefresh))) <= max_lease.
Proof.
  pose proof lease_ms_bounds as H. unfold lease_ms in H. cbn [NewLeaseDuration mapping_request].
  unfold max_lease in *. lia.
Qed.

(** While the mapper is not closed, the lease has not run out. *)
Lemma tracked_alive tl s :
  sys_ok s -> tracked tl s -> (forall t, s_phase s <> Off t) -> s_now s < tl + lease_ms.
Proof.
  intros [_ [Hp Ha]] (_ & _ & Hadd & Hin & Hph) Hoff. pose proof lease_ms_bounds as Hl.
  unfold slack in *. destruct Hin as [Hin|Hin].
  - destruct (s_phase s) as [due|b todo cl|t]; [specialize (Hph Hin); lia| |by destruct (Hoff t)].
    specialize (Hph Hin). destruct Hp as [Hp _]. destruct Hph as [?|[_ ?]]; lia.
  - apply list_elem_of_fmap in Hin as ([pm t0] & Hx & Hin). cbn in Hx. subst pm.
    eapply Forall_forall in Ha, Hadd; [|exact Hin..]. cbn in Ha, Hadd. specialize (Hadd eq_refl). lia.
Qed.

(** A request for another port leaves the mapping alone. *)
Lemma granted_other tl pm timeout now T :
  key_of_mapping pm <> key_of_mapping x ->
  granted tl T -> granted tl (add now (mapping_request pm timeout) T).2.
Proof. intros Hk Hg t Ht. rewrite add_others; [by apply Hg|]. cbn. by intros ?. Qed.

(** A request for [x] while the lease runs renews it. *)
Lemma granted_renew tl now T :
  tl <= now < tl + lease_ms -> granted tl T ->
  granted now (add now (mapping_request x (pPortMappingTimeout (NewPortMapper pRefresh))) T).2.
Proof.
  intros [Ht Hl] Hg t Hnow. set (r := mapping_request _ _).
  assert ((add now r T).1 = None) as Ha.
  { apply add_renews. change (forward_key r) with (key_of_mapping x). rewrite Hg by done.
    by rewrite (proj2 (Z.ltb_lt _ _)). }
  change (key_of_mapping x) with (forward_key r).
  rewrite (add_granted now r T (add now r T).2); [done| |done|apply request_lease|done].
  destruct (add now r T). by cbn in Ha; subst.
Qed.

Lemma alone_key pm l : alone l -> pm ∈ l -> key_of_mapping pm = key_of_mapping x -> pm = x.
Proof. intros Hl Hi. by eapply Forall_forall in Hl. Qed.

Lemma delete_rest {A B} (l : list (A * B)) i a b y :
  l !! i = Some (a, b) -> y ∈ l.*1 -> y = a \/ y ∈ (delete i l).*1.
Proof.
  intros Hi Hy. rewrite (delete_take_drop l i), fmap_app, elem_of_app.
  rewrite <- (take_drop_middle l i (a, b)) in Hy by done.
  rewrite fmap_app, fmap_cons, elem_of_app, elem_of_cons in Hy. tauto.
Qed.

(** *** The steps, one by one *)

Lemma tracked_next tl s b pm todo cl :
  sys_ok s -> alone (pm :: todo) -> tracked tl s -> s_phase s = Refreshing b (pm :: todo) cl ->
  let r := mapping_request pm (timeout_of s) in
  exists tl', tracked tl' (mkSys (s_now s) (add (s_now s) r (s_table s)).2 (send (s_mapper s) r)
                             (Refreshing b todo cl) (s_adding s)).
Proof.
  intros Hok Hal Ht Hp. pose proof (tracked_alive tl s Hok Ht) as Hl.
  specialize (Hl ltac:(rewrite Hp; congruence)). destruct Hok as [(Hu & Hi & Hto) [Hb _]].
  destruct Ht as (Hle & Hg & Hadd & Hin & Hph). rewrite Hp in Hb, Hph.
  unfold timeout_of. rewrite Hto. destruct (decide (key_of_mapping pm = key_of_mapping x)) as [Hk|Hk].
  - assert (pm = x) as -> by (by eapply alone_key; [exact Hal|left|]). exists (s_now s). split_and!; cbn.
    + lia.
    + by eapply granted_renew.
    + eapply Forall_impl; [exact Hadd|]. intros y Hy Hyx. specialize (Hy Hyx). lia.
    + done.
    + intros _. left. lia.
  - exists tl. split_and!; cbn; [done|by apply granted_other|done|done|].
    intros Hx. destruct (Hph Hx) as [?|[Hx2 ?]]; [by left|right]. split; [|done].
    apply elem_of_cons in Hx2 as [->|]; [done|done].
Qed.

Lemma tracked_append tl s i pm t0 :
  sys_ok s -> tracked tl s -> (forall b todo cl, s_phase s <> Refreshing b todo cl) ->
  s_adding s !! i = Some (pm, t0) ->
  tracked tl (mkSys (s_now s) (s_table s) (append_mapping (s_mapper s) pm) (s_phase s)
                (delete i (s_adding s))).
Proof.
  intros [_ [Hp Ha]] (Hle & Hg & Hadd & Hin & Hph) Hr Hi. split_and!; cbn; [done|done| | |].
  - by apply Forall_delete.
  - destruct Hin as [Hin|Hin]; [left; apply elem_of_app; by left|].
    destruct (delete_rest _ _ _ _ _ Hi Hin) as [->|]; [left; apply elem_of_app; right; by left|by right].
  - destruct (s_phase s) as [due|b todo cl|t]; [|by destruct (Hr b todo cl)|done].
    intros [Hx|Hx%list_elem_of_singleton]%elem_of_app; [by apply Hph|]. subst pm.
    eapply Forall_lookup_1 in Ha, Hadd; [|exact Hi..]. cbn in Ha, Hadd. specialize (Hadd eq_refl).
    unfold slack. lia.
Qed.

Lemma tracked_exec tl c s s' :
  other c = true -> sys_ok s -> alone (all_mappings s) -> tracked tl s -> exec c s = Some s' ->
  exists tl', tracked tl' s'.
Proof.
  intros Hc Hok Hal Ht H. pose proof Ht as (Hle & Hg & Hadd & Hin & Hph).
  pose proof Hok as [Hm [Hp Ha]]. unfold all_mappings in Hal.
  destruct c as [d| | | |pm|i|pm timeout|]; cbn [exec other] in H, Hc.
  - destruct (_ && _) eqn:E in H; simplify_eq. apply andb_true_iff in E as [Hd _]. exists tl.
    split_and!; cbn; done || lia.
  - destruct (s_phase s) as [due| |] eqn:E; try done.
    destruct (due <=? s_now s) eqn:Ed; simplify_eq. exists tl.
    split_and!; cbn; try done. intros Hx. right. split; [done|]. specialize (Hph Hx). lia.
  - destruct (s_phase s) as [|b [|pm todo] cl|] eqn:E; try done. rewrite call_spec in H by done.
    cbn in H. simplify_eq. eapply (tracked_next tl s); try done.
    unfold alone in Hal. rewrite !Forall_app in Hal. apply Hal.
  - destruct Hm as (_ & Hi & _). destruct (s_phase s) as [|b [|pm todo] [t|]|] eqn:E; simplify_eq;
      exists tl; split_and!; cbn; try done; [lia|].
    intros Hx. destruct (Hph Hx) as [?|[[]%elem_of_nil _]]. unfold slack. lia.
  - rewrite call_spec in H by done. cbn in H. apply negb_true_iff, bool_decide_eq_false in Hc.
    destruct (add _ _ _).1; simplify_eq; exists tl; split_and!; cbn; try done;
      try (by apply granted_other).
    + apply Forall_app. split; [done|]. constructor; [|done]. cbn. by intros ->.
    + rewrite fmap_app, elem_of_app. tauto.
  - exists tl. destruct (s_phase s) as [due|b todo cl|t] eqn:E; try done;
      destruct (s_adding s !! i) as [[pm t0]|] eqn:Ei; simplify_eq; rewrite <- E;
      eapply tracked_append; try done; rewrite E; congruence.
  - rewrite call_spec in H by done. cbn in H. apply negb_true_iff, bool_decide_eq_false in Hc.
    simplify_eq. exists tl. split_and!; cbn; try done. by apply granted_other.
  - exists tl. destruct (s_phase s) as [due|b todo [t|]|t] eqn:E; simplify_eq; split_and!; cbn; try done.
    lia.
Qed.

(** What the mappings of a system all satisfy, when other requests do. *)
Lemma mappings_exec (P : pPortMapping -> Prop) c s s' :
  (forall pm, key_of_mapping pm <> key_of_mapping x -> P pm) ->
  other c = true -> mapper_ok (s_mapper s) -> Forall P (all_mappings s) -> exec c s = Some s' ->
  Forall P (all_mappings s').
Proof.
  unfold all_mappings. intros HP Hc Hm Hal H. rewrite !Forall_app in *.
  destruct Hal as (H1 & H2 & H3). destruct c as [d| | | |pm|i|pm timeout|]; cbn [exec other] in H, Hc;
    try rewrite call_spec in H by done; cbn in H.
  - case_match; by simplify_eq.
  - destruct (s_phase s); try done. case_match; by simplify_eq.
  - destruct (s_phase s) as [|b [|pm todo] cl|]; try done. rewrite call_spec in H by done. cbn in H.
    simplify_eq. cbn in *. split_and!; [done| |done]. by inversion H2.
  - destruct (s_phase s) as [|b [|pm todo] [t|]|]; by simplify_eq.
  - apply negb_true_iff, bool_decide_eq_false in Hc.
    destruct (add _ _ _).1; simplify_eq; cbn; [done|]. split_and!; [done..|].
    rewrite fmap_app, Forall_app. split; [done|]. constructor; [by apply HP|done].
  - assert (forall pm t0, s_adding s !! i = Some (pm, t0) -> P pm) as Hi.
    { intros pm t0 Ei. eapply Forall_lookup_1; [exact H3|by rewrite list_lookup_fmap, Ei]. }
    destruct (s_phase s) as [due|b todo cl|t]; try done;
      destruct (s_adding s !! i) as [[pm t0]|]; simplify_eq; cbn;
      rewrite Forall_app, list_fmap_delete; split_and!; try done; try (by apply Forall_delete);
      (constructor; [by eapply Hi|done]).
  - by simplify_eq.
  - destruct (s_phase s) as [due|b todo [t|]|t]; by simplify_eq.
Qed.

Lemma run_ok (P : pPortMapping -> Prop) cs s s' :
  (forall pm, key_of_mapping pm <> key_of_mapping x -> P pm) ->
  forallb other cs = true -> sys_ok s -> Forall P (all_mappings s) -> run cs s = Some s' ->
  sys_ok s' /\ Forall P (all_mappings s').
Proof.
  intros HP. revert s. induction cs as [|c cs IH]; intros s Hc Hok Hal H; [by simplify_eq/=|].
  cbn in Hc, H. apply andb_true_iff in Hc as [Hc Hcs]. apply bind_Some in H as (s1 & E & H).
  eapply IH; [done| | |exact H]; [by eapply exec_ok|].
  eapply mappings_exec; [exact HP|exact Hc|by destruct Hok|exact Hal|exact E].
Qed.

Lemma tracked_run tl cs s s' :
  forallb other cs = true -> sys_ok s -> alone (all_mappings s) -> tracked tl s ->
  run cs s = Some s' -> sys_ok s' /\ exists tl', tracked tl' s'.
Proof.
  revert tl s. induction cs as [|c cs IH]; intros tl s Hc Hok Hal Ht H; [by simplify_eq/=; eauto|].
  cbn in Hc, H. apply andb_true_iff in Hc as [Hc Hcs]. apply bind_Some in H as (s1 & E & H).
  destruct (tracked_exec tl c s s1) as [tl1 Ht1]; [done..|].
  eapply (IH tl1); [done| | |exact Ht1|exact H]; [by eapply exec_ok|].
  eapply mappings_exec; [|done| |exact Hal|exact E]; [done|by destruct Hok].
Qed.

Lemma tracked_start s s' :
  sys_ok s -> Forall (fun pm => key_of_mapping pm <> key_of_mapping x) (all_mappings s) ->
  (forall t, s_phase s <> Off t) ->
  exec (Persist x) s = Some s' -> s_adding s' = s_adding s ++ [(x, s_now s)] ->
  tracked (s_now s) s' /\ alone (all_mappings s').
Proof.
  intros [Hm [Hp Ha]] Habs Hoff H Hadd. cbn in H. rewrite call_spec in H by done. cbn in H.
  destruct Hm as (Hu & Hi & Hto). unfold timeout_of in H. rewrite Hto in H.
  set (r := mapping_request _ _) in *.
  destruct (add (s_now s) r (s_table s)) as [[e|] T'] eqn:E; cbn in H; simplify_eq; cbn in Hadd.
  { apply (f_equal length) in Hadd. rewrite length_app in Hadd. cbn in Hadd. lia. }
  unfold all_mappings in Habs. rewrite !Forall_app in Habs. destruct Habs as (H1 & H2 & H3).
  assert (x ∉ pPortMappings (s_mapper s)) as Hx
    by (intros Hx; by eapply Forall_forall in H1; [|exact Hx]).
  split; [split_and!|]; cbn.
  - lia.
  - intros t Ht. change (key_of_mapping x) with (forward_key r).
    by rewrite (add_granted _ _ _ _ t E) by (done || apply request_lease).
  - apply Forall_app. split; [|constructor; [cbn; lia|done]].
    apply Forall_forall. intros [pm t0] Hin Hpm. cbn in Hpm. subst pm.
    exfalso. rewrite Forall_fmap in H3. eapply Forall_forall in H3; [|exact Hin]. by apply H3.
  - right. rewrite fmap_app, elem_of_app. right. by left.
  - destruct (s_phase s) as [due|b todo cl|t]; [done|done|by destruct (Hoff t)].
  - unfold alone, all_mappings. cbn. rewrite fmap_app, !Forall_app.
    split_and!; try (eapply Forall_impl; [eassumption|]; by intros pm ??). by constructor.
Qed.

(** C7. A persistent mapping never lapses.  Once the router has granted a mapping to a
    mapper, it forwards that port to that host at every moment until the mapper is
    closed: whatever else the mapper is asked for about other ports, however refused
    requests, rounds of the timer and the appends of other calls are interleaved, and
    however late the timer fires and however long the rounds take, as long as the
    delays add up to less than 59 seconds and the refresh interval is at most a week less
    a minute, for which the protocol has a lease.  After [Close] the port is free again once
    the last round and the lease are over. *)
Theorem persistent_mapping_held now0 T0 p cs1 s1 s2 cs2 s
  (Hp : mapper_ok p) (Hnew : pPortMappings p = [])
  (H1 : run cs1 (connected now0 T0 p) = Some s1) (Hc1 : forallb other cs1 = true)
  (Hopen : forall t, s_phase s1 <> Off t)
  (Hx : exec (Persist x) s1 = Some s2) (Hgrant : s_adding s2 = s_adding s1 ++ [(x, s_now s1)])
  (H2 : run cs2 s2 = Some s) (Hc2 : forallb other cs2 = true) :
  (x ∈ pPortMappings (s_mapper s) \/ x ∈ (s_adding s).*1) /\
  ((forall t, s_phase s <> Off t) ->
   forwards (s_table s) (s_now s) (key_of_mapping x) = Some (target x)) /\
  (forall t, s_phase s = Off t -> t + round + pRefresh + 60000 <= s_now s ->
   forwards (s_table s) (s_now s) (key_of_mapping x) = None).
Proof.
  destruct (run_ok (fun pm => key_of_mapping pm <> key_of_mapping x) cs1 (connected now0 T0 p) s1)
    as [Hok1 Habs]; [done|done| | |done|].
  { split; [done|]. unfold on_time. cbn. split; [lia|constructor]. }
  { unfold all_mappings. cbn. rewrite Hnew. constructor. }
  destruct (tracked_start s1 s2 Hok1 Habs Hopen Hx Hgrant) as [Ht Hal].
  destruct (tracked_run _ cs2 s2 s Hc2 (exec_ok _ _ _ Hok1 Hx) Hal Ht H2) as [Hok (tl & Hts)].
  pose proof Hts as (Hle & Hg & _ & Hin & Hph). split; [done|]. split.
  - intros Hoff. rewrite Hg by done.
    by rewrite (proj2 (Z.ltb_lt _ _)) by (by eapply tracked_alive).
  - intros t Hoff Hlate. rewrite Hoff in Hph. pose proof lease_ms_bounds.
    rewrite Hg by done. by rewrite (proj2 (Z.ltb_ge _ _)) by lia.
Qed.
End Leases.

(** ** A router with a table *)

(** The entries, the last one first: the port, where it goes, and until when. *)
Definition entries : Type := list ((string * Z) * (string * Z) * Z).

Fixpoint entry_at (T : entries) (t : Z) (k : string * Z) : option (string * Z) :=
  match T with
  | [] => None
  | (k', to, until) :: T =>
      if decide (k = k') then (if t <? until then Some to else None) else entry_at T t k
  end.

Definition entry_add (now : Z) (r : request) (T : entries) : option error * entries :=
  let grant := (None, (forward_key r, forward_to r, now + NewLeaseDuration r * 1000) :: T) in
  match entry_at T now (forward_key r) with
  | Some to =>
      if decide (to = forward_to r) then grant else (Some (Errorf "ConflictInMappingEntry" []), T)
  | None => grant
  end.

#[global] Instance table_router : Router := {| add := entry_add; forwards := entry_at |}.

#[global] Instance table_router_laws : RouterLaws table_router.
Proof.
  split; cbn; unfold entry_add.
  - intros now r T T' t H _ _ _.
    destruct (entry_at T now _); [destruct (decide _)|]; simplify_eq; cbn [entry_at]; by rewrite decide_True.
  - intros now r T t k Hk.
    destruct (entry_at T now _); [destruct (decide _)|]; cbn [snd entry_at]; by rewrite ?decide_False.
  - intros now r T T' e t k H. repeat case_match; by simplify_eq.
  - intros now r T H. by rewrite H, decide_True.
Qed.

(** ** The web server of a home network, over two rounds *)

Definition ssh : pPortMapping := mkPPortMapping "ssh" ProtocolTCP 2222 22 (Addr4 [192; 168; 1; 11]).

Definition second_half : list choice :=
  [Pass 7000; Append 0; Pass 293000; Fire; Next; Persist ssh; Pass 3000; EndRound;
   Append 0; Pass 305000; Fire; Next; Pass 9000].

Lemma persistent_mapping_held_witness :
  exists s1 s2 s,
    run 10000 10000 20000 [Fire; EndRound; Pass 1000] (connected 0 [] home_mapper) = Some s1 /\
    exec 10000 10000 20000 (Persist web) s1 = Some s2 /\
    run 10000 10000 20000 second_half s2 = Some s /\
    s_now s = 618000 /\
    forwards (s_table s) (s_now s) ("TCP", 8443) = Some ("192.168.1.10", 443).
Proof.
  eexists _, _, _. split; [vm_compute; reflexivity|]. split; [vm_compute; reflexivity|].
  split; [vm_compute; reflexivity|]. split; [reflexivity|].
  eapply (persistent_mapping_held 10000 10000 20000 300000 router ltac:(lia) ltac:(lia) ltac:(lia)
    ltac:(lia) web ltac:(vm_compute; discriminate) ltac:(vm_compute; discriminate) 0 [] home_mapper
    [Fire; EndRound; Pass 1000] _ _ second_half).
  all: first [discriminate | by split_and! | vm_compute; reflexivity].
Defined.
