(* ===== verification/ApiClient.v ===== *)
(** * mycsnode/api_client.go and mycsnode/auth.go

    The client that keeps an encrypted session with a space node: an RSA-encrypted
    exchange with a nonce agrees on an ECDH secret, a timer repeats it before the key
    expires, and requests wait for it.  Cryptography, HTTP and clocks are arguments;
    [SendAuthResponse] is the node of test/mocks/node.go. *)

From S2P Require Import Prelude GoStrings GoEncoding GoJson JsonStruct.

(** ** The libraries *)

(** Key generation and encryption draw on randomness: their [nat] is the draw. *)
Class Crypto := {
  RSAKey : Type;
  RSAPublicKey : Type;
  ECDHKey : Type;
  Crypt : Type;
  NewRSAKeyFromPEM : string -> result RSAKey;
  NewPublicKeyFromPEM : string -> result RSAPublicKey;
  EncryptBase64 : nat -> RSAPublicKey -> string -> result string;
  DecryptBase64 : RSAKey -> string -> result string;
  NewECDHKey : nat -> result ECDHKey;
  ECDH_PublicKey : ECDHKey -> result string;
  SharedSecret : ECDHKey -> string -> result string;
  NewCrypt : string -> option Crypt * option error;
  (** The public key belongs to the private key. *)
  key_pair : RSAKey -> RSAPublicKey -> Prop;
}.

Class CryptoLaws (crypto : Crypto) : Prop := {
  decrypt_encrypt n sk pk m c :
    key_pair sk pk -> EncryptBase64 n pk m = Ok c -> DecryptBase64 sk c = Ok m;
  shared_secret k1 k2 p1 p2 :
    ECDH_PublicKey k1 = Ok p1 -> ECDH_PublicKey k2 = Ok p2 ->
    SharedSecret k1 p2 = SharedSecret k2 p1;
}.

(** A node of the space and the HTTP clients it hands out. *)
Class Nodes := {
  Rest : Type;
  WithAuthCrypt : Rest -> Rest;
  SpaceNode : Type;
  GetPublicKey : SpaceNode -> string;
  GetStatus : SpaceNode -> string;
  (** The n-th client asked for. *)
  Node_RestApiClient : SpaceNode -> nat -> result Rest;
}.

(** ** auth.go *)

Record AuthRequest := mkAuthRequest { AuthReqIDKey : string; AuthReqKey_ : string }.
Record AuthReqKey := mkAuthReqKey { RefID : string; ECDHKey_ : string; req_Nonce : Z }.
Record AuthResponse := mkAuthResponse { AuthRespIDKey : string; AuthRespKey_ : string }.
Record AuthRespKey := mkAuthRespKey {
  NodeECDHKey : string;
  resp_Nonce : Z;
  TimeoutAt : Z;
  RefName : string;
}.
Record ErrorResponse := mkErrorResponse { ErrorCode : Z; ErrorMessage : string }.

Definition enc_AuthReqKey (k : AuthReqKey) : json :=
  JObj [("refID", JStr (RefID k)); ("ecdhKey", JStr (ECDHKey_ k));
        ("nonce", JNum (format_int (req_Nonce k)))].

Definition set_AuthReqKey (k : AuthReqKey) (key : string) (v : json) : option AuthReqKey :=
  if is_field "refid" key then
    s ← dec_text (RefID k) v; Some (mkAuthReqKey s (ECDHKey_ k) (req_Nonce k))
  else if is_field "ecdhkey" key then
    s ← dec_text (ECDHKey_ k) v; Some (mkAuthReqKey (RefID k) s (req_Nonce k))
  else if is_field "nonce" key then
    n ← dec_int (req_Nonce k) v; Some (mkAuthReqKey (RefID k) (ECDHKey_ k) n)
  else Some k.

Definition dec_AuthReqKey (v : json) : option AuthReqKey :=
  match v with
  | JNull => Some (mkAuthReqKey EmptyString EmptyString 0)
  | JObj l => dec_members set_AuthReqKey l (mkAuthReqKey EmptyString EmptyString 0)
  | _ => None
  end.

Definition enc_AuthRespKey (k : AuthRespKey) : json :=
  JObj [("nodeECDHKey", JStr (NodeECDHKey k)); ("nonce", JNum (format_int (resp_Nonce k)));
        ("timeoutAt", JNum (format_int (TimeoutAt k))); ("refName", JStr (RefName k))].

Definition set_AuthRespKey (k : AuthRespKey) (key : string) (v : json) : option AuthRespKey :=
  if is_field "nodeecdhkey" key then
    s ← dec_text (NodeECDHKey k) v;
    Some (mkAuthRespKey s (resp_Nonce k) (TimeoutAt k) (RefName k))
  else if is_field "nonce" key then
    n ← dec_int (resp_Nonce k) v;
    Some (mkAuthRespKey (NodeECDHKey k) n (TimeoutAt k) (RefName k))
  else if is_field "timeoutat" key then
    n ← dec_int (TimeoutAt k) v;
    Some (mkAuthRespKey (NodeECDHKey k) (resp_Nonce k) n (RefName k))
  else if is_field "refname" key then
    s ← dec_text (RefName k) v;
    Some (mkAuthRespKey (NodeECDHKey k) (resp_Nonce k) (TimeoutAt k) s)
  else Some k.

Definition dec_AuthRespKey (v : json) : option AuthRespKey :=
  match v with
  | JNull => Some (mkAuthRespKey EmptyString 0 0 EmptyString)
  | JObj l => dec_members set_AuthRespKey l (mkAuthRespKey EmptyString 0 0 EmptyString)
  | _ => None
  end.

(** [json.Unmarshal]; the text of its error is not represented. *)
Definition Unmarshal {A} (dec : json -> option A) (t : string) : result A :=
  match parse_json t with
  | None => Err (Errorf "json: syntax error" [])
  | Some v => match dec v with None => Err (Errorf "json: cannot unmarshal" []) | Some a => Ok a end
  end.

(** ** Time limits *)

(** The two variables of the package, in milliseconds, unless [init] finds numbers in
    the environment. *)
Definition env_override (default : Z) (env : option string) : Z :=
  match env with
  | Some s => if decide (s = EmptyString) then default
              else match Atoi s with Ok t => t | _ => default end
  | None => default
  end.

Definition init_authTimeout (env : option string) : Z :=
  env_override (Z.quot (10 * Second) Millisecond) env.
Definition init_authRetryTime (env : option string) : Z :=
  env_override (Z.quot (2 * Second) Millisecond) env.

(** ** The client *)

Section Client.
Context `{crypto : Crypto} `{nodes : Nodes}.

(** [authExecTimer] is [None] for a nil pointer, and else whether the timer runs. *)
Record ApiClient := mkApiClient {
  refName : string;
  refID : string;
  clientIDKey : string;
  clientRSAKey : option RSAKey;
  Node : option SpaceNode;
  nodePublicKey : option RSAPublicKey;
  authPath : string;
  keyTimeoutAt : Z;
  crypt : option Crypt;
  restAuthClient : option Rest;
  AuthIDKey : string;
  RestApiClient : option Rest;
  isAuthenticated : bool;
  authTimeout : Z;
  authExecTimer : option bool;
}.

Definition NewUninitializedApiClient (refName refID authPath : string) (authTimeout : Z)
    : ApiClient :=
  mkApiClient refName refID EmptyString None None None authPath 0 None None EmptyString None
    false authTimeout None.

Definition NewApiClient (refName refID clientIDKey clientRSAKeyPEM : string) (node : SpaceNode)
    (authPath : string) (authTimeout : Z) : result ApiClient :=
  nodePublicKey ← NewPublicKeyFromPEM (GetPublicKey node);
  clientRSAKey ← NewRSAKeyFromPEM clientRSAKeyPEM;
  restAuth ← Node_RestApiClient node 0;
  restApi ← Node_RestApiClient node 1;
  Ok (mkApiClient refName refID clientIDKey (Some clientRSAKey) (Some node) (Some nodePublicKey)
        authPath 0 None (Some restAuth) EmptyString (Some (WithAuthCrypt restApi)) false
        authTimeout None).

(** [Initialize] overwrites field by field, so an error leaves what was set before
    it; the libraries return nil with an error. *)
Definition Initialize (a : ApiClient) (idKey : string) (rsaKey : RSAKey) (node : SpaceNode)
    : result (ApiClient * option error) :=
  let upd pk auth api :=
    mkApiClient (refName a) (refID a) idKey (Some rsaKey) (Some node) pk (authPath a)
      (keyTimeoutAt a) (crypt a) auth (AuthIDKey a) api (isAuthenticated a) (authTimeout a)
      (authExecTimer a) in
  match NewPublicKeyFromPEM (GetPublicKey node) with
  | Panic w => Panic w
  | Err e => Ok (upd None (restAuthClient a) (RestApiClient a), Some e)
  | Ok pk =>
      match Node_RestApiClient node 0 with
      | Panic w => Panic w
      | Err e => Ok (upd (Some pk) None (RestApiClient a), Some e)
      | Ok auth =>
          match Node_RestApiClient node 1 with
          | Panic w => Panic w
          | Err e => Ok (upd (Some pk) (Some auth) None, Some e)
          | Ok api => Ok (upd (Some pk) (Some auth) (Some (WithAuthCrypt api)), None)
          end
      end
  end.

Definition GetNode (a : ApiClient) : option SpaceNode := Node a.

Definition IsRunning (a : ApiClient) : result bool :=
  match Node a with
  | Some n => Ok (String.eqb (GetStatus n) "running")
  | None => Panic "invalid memory address or nil pointer dereference"
  end.

Definition set_authExecTimer (a : ApiClient) (t : option bool) : ApiClient :=
  mkApiClient (refName a) (refID a) (clientIDKey a) (clientRSAKey a) (Node a) (nodePublicKey a)
    (authPath a) (keyTimeoutAt a) (crypt a) (restAuthClient a) (AuthIDKey a) (RestApiClient a)
    (isAuthenticated a) (authTimeout a) t.

(** For the error of starting the timer, which is returned. *)
Definition Start (timer_Start : option error) (a : ApiClient) : ApiClient * option error :=
  match timer_Start with
  | None => (set_authExecTimer a (Some true), None)
  | Some e => (set_authExecTimer a (Some false), Some e)
  end.

(** The error of stopping the timer is logged. *)
Definition Stop (a : ApiClient) : ApiClient :=
  match authExecTimer a with
  | Some _ => set_authExecTimer a (Some false)
  | None => a
  end.

(** ** Authentication *)

(** The outcome of [DoPost]: the decoded body, or an error with the decoded error
    body. *)
Inductive http :=
| HttpOk (r : AuthResponse)
| HttpError (e : error) (r : ErrorResponse).

Definition nil_pointer {A} : result A := Panic "invalid memory address or nil pointer dereference".

Definition deref {A} (o : option A) : result A :=
  match o with Some a => Ok a | None => nil_pointer end.

Section Authenticate.
(** The draws of the key and of the encryption, the clock in milliseconds, and the
    node's answer. *)
Variable draw : nat * nat.
Variable now : Z.
Variable DoPost : Rest -> string -> AuthRequest -> http.

(** The request, its key and the private half of the exchange. *)
Definition auth_request (a : ApiClient) : result (ECDHKey * AuthRequest) :=
  ecdhKey ← NewECDHKey draw.1;
  ecdhKeyPublicKey ← ECDH_PublicKey ecdhKey;
  let authReqKey := mkAuthReqKey (refID a) ecdhKeyPublicKey now in
  pk ← deref (nodePublicKey a);
  authReqKeyEncrypted ← EncryptBase64 draw.2 pk (print_json (enc_AuthReqKey authReqKey));
  Ok (ecdhKey, mkAuthRequest (clientIDKey a) authReqKeyEncrypted).

Definition post_auth (a : ApiClient) (r : AuthRequest) : result AuthResponse :=
  rest ← deref (restAuthClient a);
  match DoPost rest (authPath a) r with
  | HttpOk resp => Ok resp
  | HttpError err resp =>
      if decide (ErrorMessage resp = EmptyString) then Err err
      else Err (Errorf (ErrorMessage resp) [])
  end.

(** The key the node answered with, when it is an answer to this request. *)
Definition auth_response (a : ApiClient) (resp : AuthResponse) : result AuthRespKey :=
  sk ← deref (clientRSAKey a);
  authRespKeyJSON ← DecryptBase64 sk (AuthRespKey_ resp);
  authRespKey ← Unmarshal dec_AuthRespKey authRespKeyJSON;
  if decide (RefName authRespKey <> refName a \/ resp_Nonce authRespKey <> now)
  then Err (Errorf "invalid auth response" [])
  else Ok authRespKey.

(** Everything up to the shared secret. *)
Definition exchange (a : ApiClient) : result (string * AuthRespKey * AuthResponse) :=
  q ← auth_request a;
  let (ecdhKey, request) := q : ECDHKey * AuthRequest in
  resp ← post_auth a request;
  authRespKey ← auth_response a resp;
  encryptionKey ← SharedSecret ecdhKey (NodeECDHKey authRespKey);
  Ok (encryptionKey, authRespKey, resp).

Definition set_session (a : ApiClient) (timeoutAt : Z) (c : option Crypt) (idKey : string)
    (auth : bool) : ApiClient :=
  mkApiClient (refName a) (refID a) (clientIDKey a) (clientRSAKey a) (Node a) (nodePublicKey a)
    (authPath a) timeoutAt c (restAuthClient a) idKey (RestApiClient a) auth (authTimeout a)
    (authExecTimer a).

Definition set_isAuthenticated (a : ApiClient) (auth : bool) : ApiClient :=
  set_session a (keyTimeoutAt a) (crypt a) (AuthIDKey a) auth.

Definition Authenticate (a : ApiClient) : result (ApiClient * (bool * option error)) :=
  let a := set_isAuthenticated a false in
  match exchange a with
  | Panic w => Panic w
  | Err e => Ok (a, (false, Some e))
  | Ok (encryptionKey, authRespKey, authResponse) =>
      match NewCrypt encryptionKey with
      | (c, Some e) => Ok (set_session a (keyTimeoutAt a) c (AuthIDKey a) false, (false, Some e))
      | (c, None) =>
          Ok (set_session a (TimeoutAt authRespKey) c (AuthRespIDKey authResponse) true,
              (true, None))
      end
  end.

(** The timer's callback: the time to its next run in milliseconds; [later] is the
    clock after the exchange. *)
Definition AuthCallback (authRetryTime later : Z) (a : ApiClient) : result (ApiClient * Z) :=
  r ← Authenticate a;
  let '(a, (ok, _)) := r : ApiClient * (bool * option error) in
  Ok (a, if ok then (keyTimeoutAt a -64 later) -64 50 else authRetryTime).

End Authenticate.

Definition Reset (a : ApiClient) : ApiClient := set_isAuthenticated a false.

(** [now] is in nanoseconds. *)
Definition IsAuthenticated (now : Z) (a : ApiClient) : bool :=
  isAuthenticated a && (Z.quot now Millisecond <? keyTimeoutAt a)%Z.

(** ** Waiting *)

(** What the loop of [WaitForAuth] sees next: a signal, or a tick together with the
    state of the client and the clock, at the check and after it. *)
Inductive wake :=
| Interrupt
| Tick (a : ApiClient) (at_ after : Z).

(** [None]: still waiting when the schedule ends. *)
Fixpoint wait_loop (timeoutAt : Z) (ws : list wake) : option bool :=
  match ws with
  | [] => None
  | Interrupt :: _ => Some false
  | Tick a at_ after :: ws =>
      if IsAuthenticated at_ a then Some true
      else if (timeoutAt <? after)%Z then Some false
      else wait_loop timeoutAt ws
  end.

Definition WaitForAuth (a : ApiClient) (now start : Z) (ws : list wake) : option bool :=
  if IsAuthenticated now a then Some true
  else wait_loop (start +64 authTimeout a) ws.

Definition AuthTokenKey (a : ApiClient) : string := refName a.

(** The cipher of the session; the mutex that goes with it is left out. *)
Definition client_Crypt (a : ApiClient) : option Crypt := crypt a.

(** ** The node of test/mocks/node.go *)

Definition expect (b : bool) : result unit := if b then Ok tt else Err (Errorf "expectation" []).

Record node := mkNode {
  n_key : RSAKey;
  n_publicKey : RSAPublicKey;
  n_devicePublicKey : RSAPublicKey;
  n_deviceIDKey : string;
  n_loggedInUserID : string;
  n_deviceID : string;
  n_deviceName : string;
}.

(** The first half of [SendAuthResponse]: the request it can read. *)
Definition read_request (h : node) (r : AuthRequest) : result AuthReqKey :=
  _ ← expect (String.eqb (AuthReqIDKey r) (n_deviceIDKey h));
  authReqKeyJSON ← DecryptBase64 (n_key h) (AuthReqKey_ r);
  authReqKey ← Unmarshal dec_AuthReqKey authReqKeyJSON;
  _ ← expect (String.eqb (RefID authReqKey) (n_loggedInUserID h) && (0 <? req_Nonce authReqKey)%Z);
  Ok authReqKey.

(** Two seconds after the request, in milliseconds. *)
Definition node_timeout (nonce : Z) : Z :=
  Z.quot ((nonce *64 Millisecond) +64 (2 * Second)) Millisecond.

(** The second half: the secret it keeps and the response it sends, with draws for its
    key and its two encryptions. *)
Definition answer_request (h : node) (draw : nat * nat * nat) (authReqKey : AuthReqKey)
    : result (string * AuthResponse) :=
  ecdhKey ← NewECDHKey draw.1.1;
  encryptionKey ← SharedSecret ecdhKey (ECDHKey_ authReqKey);
  ecdhPublicKey ← ECDH_PublicKey ecdhKey;
  encryptedAuthRespKey ←
    EncryptBase64 draw.1.2 (n_devicePublicKey h) (print_json (enc_AuthRespKey
      (mkAuthRespKey ecdhPublicKey (req_Nonce authReqKey)
         (node_timeout (req_Nonce authReqKey)) (n_deviceName h))));
  authIDKey ←
    EncryptBase64 draw.2 (n_publicKey h) (RefID authReqKey +:+ "|" +:+ n_deviceID h);
  Ok (encryptionKey, mkAuthResponse authIDKey encryptedAuthRespKey).

Definition SendAuthResponse (h : node) (draw : nat * nat * nat) (r : AuthRequest)
    : result (string * AuthResponse) :=
  authReqKey ← read_request h r; answer_request h draw authReqKey.

(** A network that delivers to this node. *)
Definition post_to (h : node) (draw : nat * nat * nat) (_ : Rest) (_ : string) (r : AuthRequest)
    : http :=
  match SendAuthResponse h draw r with
  | Ok (_, resp) => HttpOk resp
  | _ => HttpError (Errorf "expectation" []) (mkErrorResponse 0 EmptyString)
  end.

(** ** JSON round trips *)

Lemma Unmarshal_print {A} (dec : json -> option A) j a :
  json_ok j -> dec j = Some a -> Unmarshal dec (print_json j) = Ok a.
Proof. intros Hj Hd. unfold Unmarshal. by rewrite parse_print, Hd. Qed.

Lemma AuthReqKey_roundtrip k :
  ascii_only (RefID k) = true -> ascii_only (ECDHKey_ k) = true -> int64_range (req_Nonce k) ->
  Unmarshal dec_AuthReqKey (print_json (enc_AuthReqKey k)) = Ok k.
Proof.
  intros Hr He Hn. apply Unmarshal_print.
  - constructor. repeat (apply Forall_cons_2; [by repeat constructor|]). constructor.
  - transitivity (acc ← (n ← dec_int 0 (JNum (format_int (req_Nonce k)));
      Some (mkAuthReqKey (RefID k) (ECDHKey_ k) n)); Some acc); [done|].
    rewrite dec_format_int by done. by destruct k.
Qed.

Lemma AuthRespKey_roundtrip k :
  ascii_only (NodeECDHKey k) = true -> ascii_only (RefName k) = true ->
  int64_range (resp_Nonce k) -> int64_range (TimeoutAt k) ->
  Unmarshal dec_AuthRespKey (print_json (enc_AuthRespKey k)) = Ok k.
Proof.
  intros He Hr Hn Ht. apply Unmarshal_print.
  - constructor. repeat (apply Forall_cons_2; [by repeat constructor|]). constructor.
  - transitivity (acc ← (n ← dec_int 0 (JNum (format_int (resp_Nonce k)));
      Some (mkAuthRespKey (NodeECDHKey k) n 0 EmptyString));
      dec_members set_AuthRespKey [("timeoutAt", JNum (format_int (TimeoutAt k)));
        ("refName", JStr (RefName k))] acc); [done|].
    rewrite dec_format_int by done. cbn [mbind option_bind].
    transitivity (acc ← (n ← dec_int 0 (JNum (format_int (TimeoutAt k)));
      Some (mkAuthRespKey (NodeECDHKey k) (resp_Nonce k) n EmptyString));
      dec_members set_AuthRespKey [("refName", JStr (RefName k))] acc); [done|].
    rewrite dec_format_int by done. by destruct k.
Qed.

(** ** What authentication guarantees *)

(** C10. An authentication that succeeds is bound to its request: the node answered this
    very request, the answer decrypts with the client's key to one that names the
    client and repeats the request's nonce, and the session is the one agreed with
    the key in it.  An answer to an earlier request, whose nonce differs, is never
    accepted. *)
Theorem Authenticate_sound (draw : nat * nat) (now : Z)
  (DoPost : Rest -> string -> AuthRequest -> http) (a a' : ApiClient) (err : option error)
  (H : Authenticate draw now DoPost a = Ok (a', (true, err))) :
  exists rest key sk request resp json k secret,
    restAuthClient a = Some rest /\ clientRSAKey a = Some sk /\
    auth_request draw now a = Ok (key, request) /\
    DoPost rest (authPath a) request = HttpOk resp /\
    DecryptBase64 sk (AuthRespKey_ resp) = Ok json /\
    Unmarshal dec_AuthRespKey json = Ok k /\
    RefName k = refName a /\ resp_Nonce k = now /\
    SharedSecret key (NodeECDHKey k) = Ok secret /\
    a' = set_session a (TimeoutAt k) (NewCrypt secret).1 (AuthRespIDKey resp) true /\
    err = None.
Proof.
  unfold Authenticate in H.
  destruct (exchange draw now DoPost (set_isAuthenticated a false)) as [[[secret k] resp]| |] eqn:E;
    try done.
  destruct (NewCrypt secret) as [c [e|]] eqn:Ec; [done|]. simplify_eq.
  unfold exchange in E. bind_inv. destruct a0 as [key request]. bind_inv. simplify_eq.
  unfold post_auth in *. bind_inv.
  unfold auth_response in *. bind_inv.
  repeat match goal with
  | H : deref ?o = Ok _ |- _ => destruct o eqn:?; cbn in H; simplify_eq
  end.
  destruct (DoPost _ _ _) as [r|e r] eqn:Ep;
    [|by destruct (decide (ErrorMessage r = EmptyString))]. simplify_eq.
  case_decide as Hd; [done|]. simplify_eq.
  destruct (decide (RefName k = refName a)) as [Hr|Hr]; [|by destruct Hd; left].
  destruct (decide (resp_Nonce k = now)) as [Hn|Hn]; [|by destruct Hd; right].
  eexists _, key, _, request, resp, _, k, secret. rewrite Ec. by split_and!.
Qed.

Lemma Authenticate_failed draw now DoPost a a' err :
  Authenticate draw now DoPost a = Ok (a', (false, err)) ->
  exists e c, err = Some e /\ a' = set_session a (keyTimeoutAt a) c (AuthIDKey a) false.
Proof.
  unfold Authenticate. intros H.
  destruct (exchange _ _ _ _) as [[[secret k] resp]|e|]; [|by simplify_eq; eauto|done].
  destruct (NewCrypt secret) as [c [e|]]; [|done]. simplify_eq. eauto.
Qed.

Lemma Authenticate_succeeded draw now DoPost a a' err :
  Authenticate draw now DoPost a = Ok (a', (true, err)) -> isAuthenticated a' = true.
Proof.
  unfold Authenticate. intros H.
  destruct (exchange _ _ _ _) as [[[secret k] resp]|e|]; [|done..].
  destruct (NewCrypt secret) as [c [e|]]; [done|]. by simplify_eq.
Qed.

(** ** Histories of a client *)

Inductive event :=
| EvAuthenticate (draw : nat * nat) (now : Z) (DoPost : Rest -> string -> AuthRequest -> http)
| EvReset.

(** The client and the time at which its session ends, as the last event left it:
    [None] when the last one was a reset or a failed authentication. *)
Definition event_step (a : ApiClient) (ev : event) : result (ApiClient * option Z) :=
  match ev with
  | EvReset => Ok (Reset a, None)
  | EvAuthenticate draw now DoPost =>
      r ← Authenticate draw now DoPost a;
      let '(a, (ok, _)) := r : ApiClient * (bool * option error) in
      Ok (a, if ok then Some (keyTimeoutAt a) else None)
  end.

Fixpoint run_events (a : ApiClient) (session : option Z) (evs : list event)
    : result (ApiClient * option Z) :=
  match evs with
  | [] => Ok (a, session)
  | ev :: evs => r ← event_step a ev; run_events (fst r) (snd (r : ApiClient * option Z)) evs
  end.

(** The session the client reports is the given one. *)
Definition in_session (a : ApiClient) (session : option Z) : Prop :=
  forall now, IsAuthenticated now a =
    match session with Some t => (Z.quot now Millisecond <? t)%Z | None => false end.

Lemma event_step_session a ev a' session :
  event_step a ev = Ok (a', session) -> in_session a' session.
Proof.
  destruct ev as [draw now DoPost|]; cbn [event_step]; intros H; [|by simplify_eq].
  bind_inv. destruct a0 as [a1 [[] err]]; simplify_eq; intros t; unfold IsAuthenticated.
  - by rewrite (Authenticate_succeeded _ _ _ _ _ _ Ha).
  - by apply Authenticate_failed in Ha as (e & c & -> & ->).
Qed.

(** C21. Over any history of authentications and resets, with any answers from the node,
    the client takes itself for authenticated exactly while the session of a
    successful authentication that nothing has followed is not over: a failed
    attempt or a reset ends the session before it. *)
Theorem IsAuthenticated_last_event (a a' : ApiClient) (session : option Z) (evs : list event)
  (H0 : isAuthenticated a = false)
  (H : run_events a None evs = Ok (a', session)) :
  forall now, IsAuthenticated now a' =
    match session with Some t => (Z.quot now Millisecond <? t)%Z | None => false end.
Proof.
  assert (in_session a None) as Hs by (intros t; unfold IsAuthenticated; by rewrite H0).
  clear H0. revert a Hs H. generalize (None : option Z) as s0. fold (in_session a' session).
  induction evs as [|ev evs IH]; intros s0 a Hs H; cbn [run_events] in H; [by simplify_eq|].
  bind_inv. destruct a0 as [a1 s1]. eapply IH; [by eapply event_step_session|done].
Qed.

(** C36. The timer's callback returns either the retry time, with the client not
    authenticated, or the time that ends 50 milliseconds before the new session
    does, so that a timer that keeps it authenticates again while the session is
    still valid. *)
Theorem AuthCallback_schedule (draw : nat * nat) (now retry later : Z)
  (DoPost : Rest -> string -> AuthRequest -> http) (a a' : ApiClient) (d : Z)
  (Hl : (0 <= later < two63 - 50)%Z)
  (H : AuthCallback draw now DoPost retry later a = Ok (a', d))
  (Ht : (0 <= keyTimeoutAt a' < two63)%Z) :
  (isAuthenticated a' = false /\ d = retry) \/
  (isAuthenticated a' = true /\ (later + d = keyTimeoutAt a' - 50)%Z /\
   forall t, Z.quot t Millisecond = (later + d)%Z -> IsAuthenticated t a' = true).
Proof.
  unfold AuthCallback in H. bind_inv. destruct a0 as [a1 [[] err]]; simplify_eq.
  - right. apply Authenticate_succeeded in Ha.
    rewrite (wrap64_id (keyTimeoutAt a' - later)) by (unfold int64_range; lia).
    rewrite wrap64_id by (unfold int64_range; lia).
    split; [done|]. split; [lia|]. intros t Hq. unfold IsAuthenticated.
    rewrite Ha, Hq. apply Z.ltb_lt. lia.
  - left. split; [|done]. by apply Authenticate_failed in Ha as (e & c & -> & ->).
Qed.

(** The limit of [WaitForAuth] is given in milliseconds and added to a clock that
    counts nanoseconds: with the default of ten seconds, the wait is over at the
    first tick, ten milliseconds after it began, whether or not the client is
    authenticated by then. *)
Theorem WaitForAuth_one_tick (a a1 : ApiClient) (now start at_ after : Z) (ws : list wake)
  (Hd : authTimeout a = init_authTimeout None)
  (Hn : IsAuthenticated now a = false)
  (Hs : (0 <= start < two63 - Second)%Z)
  (Ht : (start + 10 * Millisecond <= after)%Z) :
  WaitForAuth a now start (Tick a1 at_ after :: ws) = Some (IsAuthenticated at_ a1).
Proof.
  unfold WaitForAuth. rewrite Hn, Hd. change (init_authTimeout None) with 10000%Z.
  rewrite wrap64_id by (unfold int64_range, two63, Second in *; lia).
  cbn [wait_loop]. destruct (IsAuthenticated at_ a1); [done|].
  by rewrite (proj2 (Z.ltb_lt _ _)) by (unfold Millisecond in Ht; lia).
Qed.

Section Honest.
Context {laws : CryptoLaws crypto}.

(** A client and a node that know each other's keys and names, all of whose texts are
    ASCII. *)
Record paired (a : ApiClient) (h : node) : Prop := {
  pair_node : forall pk, nodePublicKey a = Some pk -> key_pair (n_key h) pk;
  pair_client : forall sk, clientRSAKey a = Some sk -> key_pair sk (n_devicePublicKey h);
  pair_has_key : is_Some (clientRSAKey a);
  pair_has_rest : is_Some (restAuthClient a);
  pair_name : refName a = n_deviceName h;
  pair_ascii : ascii_only (refID a) = true /\ ascii_only (n_deviceName h) = true;
  pair_ecdh : forall k p, ECDH_PublicKey k = Ok p -> ascii_only p = true;
}.

(** The node reads the request as the client wrote it. *)
Lemma node_reads_request draw now a h key request k :
  paired a h -> int64_range now ->
  auth_request draw now a = Ok (key, request) -> read_request h request = Ok k ->
  exists p, ECDH_PublicKey key = Ok p /\ k = mkAuthReqKey (refID a) p now /\ (0 < now)%Z.
Proof.
  intros Hp Hr Hq Hs. unfold auth_request in Hq. cbv zeta in Hq. bind_inv.
  rename a1 into p, a3 into j. subst.
  assert (Unmarshal dec_AuthReqKey (print_json (enc_AuthReqKey (mkAuthReqKey (refID a) p now)))
    = Ok (mkAuthReqKey (refID a) p now)) as Hu.
  { apply AuthReqKey_roundtrip; [apply (pair_ascii _ _ Hp)|by eapply (pair_ecdh _ _ Hp)|done]. }
  revert Hu Ha2. generalize (print_json (enc_AuthReqKey (mkAuthReqKey (refID a) p now))).
  intros t Hu Henc. destruct (nodePublicKey a) as [pk|] eqn:Hpk; [|done].
  injection Ha1 as ->.
  pose proof (decrypt_encrypt _ _ _ _ _ (pair_node _ _ Hp _ Hpk) Henc) as Hdec.
  unfold read_request in Hs. bind_inv. cbn [AuthReqKey_] in *. subst k.
  rewrite Hdec in Ha2. injection Ha2 as <-. rewrite Hu in Ha3. injection Ha3 as <-.
  exists p. split; [done|]. split; [done|]. unfold expect in Ha4.
  destruct (_ && _) eqn:E; [|done]. apply andb_true_iff in E as [_ E]. by apply Z.ltb_lt.
Qed.

(** A time at which the node's arithmetic does not overflow: before the year 2262. *)
Definition nonce_ok (now : Z) : Prop := (0 <= now * Millisecond + 2 * Second < two63)%Z.

Lemma node_timeout_ok now : nonce_ok now -> (0 < now)%Z -> node_timeout now = (now + 2000)%Z.
Proof.
  unfold nonce_ok, node_timeout, Millisecond, Second, two63. intros Hn Hp.
  rewrite (wrap64_id (now * 1000000)) by (unfold int64_range, two63; lia).
  rewrite wrap64_id by (unfold int64_range, two63; lia).
  rewrite Z.quot_div_nonneg by lia. dlia.
Qed.

(** The client reads the response as the node wrote it. *)
Lemma client_reads_response ndraw now a h p secret resp :
  paired a h -> nonce_ok now -> (0 < now)%Z ->
  answer_request h ndraw (mkAuthReqKey (refID a) p now) = Ok (secret, resp) ->
  exists nkey np, ECDH_PublicKey nkey = Ok np /\ SharedSecret nkey p = Ok secret /\
    auth_response now a resp = Ok (mkAuthRespKey np now (now + 2000) (n_deviceName h)).
Proof.
  intros Hp Hn Hpos Hs. unfold answer_request in Hs. cbn [req_Nonce ECDHKey_ RefID] in Hs.
  rewrite node_timeout_ok in Hs by done. bind_inv. subst.
  rename a0 into nkey, a2 into np. exists nkey, np. split; [done|]. split; [done|].
  assert (Unmarshal dec_AuthRespKey (print_json (enc_AuthRespKey
    (mkAuthRespKey np now (now + 2000) (n_deviceName h))))
    = Ok (mkAuthRespKey np now (now + 2000) (n_deviceName h))) as Hu.
  { apply AuthRespKey_roundtrip; [by eapply (pair_ecdh _ _ Hp)|apply (pair_ascii _ _ Hp)|..];
      unfold nonce_ok, Millisecond, Second, int64_range, two63 in *; cbn; lia. }
  revert Hu Ha2. generalize (print_json (enc_AuthRespKey
    (mkAuthRespKey np now (now + 2000) (n_deviceName h)))). intros t Hu Henc.
  destruct (pair_has_key _ _ Hp) as [sk Hsk].
  pose proof (decrypt_encrypt _ _ _ _ _ (pair_client _ _ Hp _ Hsk) Henc) as Hdec.
  unfold auth_response. rewrite Hsk. cbn [deref mbind result_bind AuthRespKey_].
  rewrite Hdec. cbn [mbind result_bind]. rewrite Hu. cbn [mbind result_bind RefName resp_Nonce].
  rewrite (pair_name _ _ Hp). rewrite decide_False; [done|]. by intros [?|?].
Qed.

Lemma honest_exchange (a : ApiClient) (h : node) (draw : nat * nat) (ndraw : nat * nat * nat)
  (now : Z) (key : ECDHKey) (request : AuthRequest) (secret : string) (resp : AuthResponse)
  (c : option Crypt) :
  paired a h -> nonce_ok now -> auth_request draw now a = Ok (key, request) ->
  SendAuthResponse h ndraw request = Ok (secret, resp) -> NewCrypt secret = (c, None) ->
  Authenticate draw now (post_to h ndraw) a
    = Ok (set_session a (now + 2000) c (AuthRespIDKey resp) true, (true, None)).
Proof.
  intros Hp Hn Hq Hs Hc.
  assert (int64_range now) as Hr.
  { unfold nonce_ok, Millisecond, Second, int64_range, two63 in *. lia. }
  pose proof Hs as Hs'. unfold SendAuthResponse in Hs'.
  apply result_bind_ok in Hs' as (k & Hk & Hans).
  destruct (node_reads_request _ _ _ _ _ _ _ Hp Hr Hq Hk) as (p & Hpub & -> & Hpos).
  destruct (client_reads_response _ _ _ _ _ _ _ Hp Hn Hpos Hans) as (nkey & np & Hnp & Hsec & Hresp).
  destruct (pair_has_rest _ _ Hp) as [rest Hrest].
  unfold Authenticate.
  assert (exchange draw now (post_to h ndraw) (set_isAuthenticated a false)
    = Ok (secret, mkAuthRespKey np now (now + 2000) (n_deviceName h), resp)) as ->.
  { unfold exchange. change (auth_request draw now (set_isAuthenticated a false))
      with (auth_request draw now a). rewrite Hq. cbn [mbind result_bind].
    unfold post_auth. cbn [restAuthClient set_isAuthenticated set_session].
    rewrite Hrest. cbn [deref mbind result_bind]. unfold post_to. rewrite Hs.
    cbn [mbind result_bind].
    change (auth_response now (set_isAuthenticated a false) resp) with (auth_response now a resp).
    rewrite Hresp. cbn [mbind result_bind NodeECDHKey].
    by rewrite (shared_secret _ _ _ _ Hpub Hnp), Hsec. }
  by rewrite Hc.
Qed.

(** C38. A client and the node it was made for agree.  The node is that of the test
    services, and the clock of the client is in the range of the nonce.  When the request
    can be made, the node answers it, and a cipher can be made of the node's secret, the
    client is authenticated, holds the cipher of the very secret the node derived and the
    key by which the node identifies it, and counts as authenticated until the two
    seconds the node grants are over. *)
Theorem honest_exchange_agrees (a : ApiClient) (h : node) (draw : nat * nat)
  (ndraw : nat * nat * nat) (now : Z) (key : ECDHKey) (request : AuthRequest)
  (secret : string) (resp : AuthResponse) (c : option Crypt)
  (Hp : paired a h) (Hn : nonce_ok now)
  (Hq : auth_request draw now a = Ok (key, request))
  (Hs : SendAuthResponse h ndraw request = Ok (secret, resp))
  (Hc : NewCrypt secret = (c, None)) :
  exists a', Authenticate draw now (post_to h ndraw) a = Ok (a', (true, None)) /\
    crypt a' = c /\ AuthIDKey a' = AuthRespIDKey resp /\
    forall t, IsAuthenticated t a' = (Z.quot t Millisecond <? now + 2000)%Z.
Proof.
  eexists. split; [by eapply honest_exchange|]. by split_and!.
Qed.

End Honest.

End Client.

(** ** A client and a node over toy ciphers

    Encryption tags a text with its key; a Diffie-Hellman secret is a product. *)

#[global] Instance toy_crypto : Crypto := {
  RSAKey := ascii;
  RSAPublicKey := ascii;
  ECDHKey := ascii;
  Crypt := string;
  NewRSAKeyFromPEM := fun s => match s with String c _ => Ok c | _ => Err ErrLength end;
  NewPublicKeyFromPEM := fun s => match s with String c _ => Ok c | _ => Err ErrLength end;
  EncryptBase64 := fun _ pk m => Ok (String pk m);
  DecryptBase64 := fun sk c =>
    match c with
    | String d m => if decide (d = sk) then Ok m else Err (Errorf "decryption error" [])
    | EmptyString => Err ErrLength
    end;
  NewECDHKey := fun n => Ok (byte_of (2 + Z.of_nat n mod 100));
  ECDH_PublicKey := fun k =>
    if (byte_val k <? 128)%Z then Ok (String k EmptyString) else Err ErrLength;
  SharedSecret := fun k p =>
    match p with
    | String c EmptyString => Ok (String (byte_of (byte_val k * byte_val c mod 128)) EmptyString)
    | _ => Err ErrLength
    end;
  NewCrypt := fun s => (Some s, None);
  key_pair := fun sk pk => sk = pk;
}.

#[global] Instance toy_crypto_laws : CryptoLaws toy_crypto.
Proof.
  split.
  - intros n sk pk m c H Hc. cbn in *. subst pk. injection Hc as <-. by rewrite decide_True.
  - intros k1 k2 p1 p2 H1 H2. cbn in *. repeat case_match; simplify_eq.
    cbn. by rewrite Z.mul_comm.
Qed.

#[global] Instance toy_nodes : Nodes := {
  Rest := unit;
  WithAuthCrypt := id;
  SpaceNode := unit;
  GetPublicKey := fun _ => "N";
  GetStatus := fun _ => "running";
  Node_RestApiClient := fun _ _ => Ok tt;
}.

Definition client1 : ApiClient :=
  match NewApiClient "laptop" "user-1" "id-key" "C" tt "/auth" (init_authTimeout None) with
  | Ok a => a
  | _ => NewUninitializedApiClient EmptyString EmptyString EmptyString 0
  end.

Definition node1 : node := mkNode "N"%char "N"%char "C"%char "id-key" "user-1" "device-1" "laptop".

Definition t1 : Z := 1700000000000.

Lemma pair1 : paired client1 node1.
Proof.
  split; cbn; try done.
  - intros pk. by injection 1 as <-.
  - intros sk. by injection 1 as <-.
  - intros k p. destruct (byte_val k <? 128)%Z eqn:E; [|done].
    intros H. injection H as <-. unfold ascii_only. cbn [s_forall]. by rewrite E.
Qed.

Lemma client1_request :
  auth_request (0, 0)%nat t1 client1
    = Ok (byte_of 2, mkAuthRequest "id-key" (String "N" (print_json (enc_AuthReqKey
        (mkAuthReqKey "user-1" (String (byte_of 2) EmptyString) t1))))).
Proof. reflexivity. Qed.

Definition secret1 : string := String (byte_of 6) EmptyString.
Definition response1 : AuthResponse :=
  mkAuthResponse "Nuser-1|device-1" (String "C" (print_json (enc_AuthRespKey
    (mkAuthRespKey (String (byte_of 3) EmptyString) t1 (t1 + 2000) "laptop")))).

Lemma node1_answers :
  SendAuthResponse node1 (1, 0, 0)%nat (mkAuthRequest "id-key" (String "N" (print_json
    (enc_AuthReqKey (mkAuthReqKey "user-1" (String (byte_of 2) EmptyString) t1)))))
    = Ok (secret1, response1).
Proof. vm_compute. reflexivity. Qed.

Lemma nonce1_ok : nonce_ok t1.
Proof. unfold nonce_ok, t1, Millisecond, Second, two63. lia. Qed.

Lemma honest_exchange_agrees_witness :
  exists a', Authenticate (0, 0)%nat t1 (post_to node1 (1, 0, 0)%nat) client1
      = Ok (a', (true, None)) /\
    crypt a' = Some secret1 /\ AuthIDKey a' = "Nuser-1|device-1" /\
    forall t, IsAuthenticated t a' = (Z.quot t Millisecond <? t1 + 2000)%Z.
Proof.
  exact (honest_exchange_agrees client1 node1 (0, 0)%nat (1, 0, 0)%nat t1 _ _ secret1 response1 _
    pair1 nonce1_ok client1_request node1_answers eq_refl).
Defined.

Definition client2 : ApiClient :=
  set_session client1 (t1 + 2000) (Some secret1) "Nuser-1|device-1" true.

Lemma client1_authenticates :
  Authenticate (0, 0)%nat t1 (post_to node1 (1, 0, 0)%nat) client1 = Ok (client2, (true, None)).
Proof. vm_compute. reflexivity. Qed.

Lemma Authenticate_sound_witness :
  exists rest key sk request resp json k secret,
    restAuthClient client1 = Some rest /\ clientRSAKey client1 = Some sk /\
    auth_request (0, 0)%nat t1 client1 = Ok (key, request) /\
    post_to node1 (1, 0, 0)%nat rest (authPath client1) request = HttpOk resp /\
    DecryptBase64 sk (AuthRespKey_ resp) = Ok json /\
    Unmarshal dec_AuthRespKey json = Ok k /\
    RefName k = refName client1 /\ resp_Nonce k = t1 /\
    SharedSecret key (NodeECDHKey k) = Ok secret /\
    client2 = set_session client1 (TimeoutAt k) (NewCrypt secret).1 (AuthRespIDKey resp) true /\
    None = (None : option error).
Proof.
  exact (Authenticate_sound (0, 0)%nat t1 (post_to node1 (1, 0, 0)%nat) client1 client2 None
    client1_authenticates).
Defined.

Definition history_auth : list event :=
  [EvReset; EvAuthenticate (0, 0)%nat t1 (post_to node1 (1, 0, 0)%nat)].

Lemma history_auth_runs : run_events client1 None history_auth = Ok (client2, Some (t1 + 2000)%Z).
Proof. vm_compute. reflexivity. Qed.

Lemma IsAuthenticated_last_event_witness :
  IsAuthenticated ((t1 + 1999) * Millisecond) client2 = true /\
  IsAuthenticated ((t1 + 2000) * Millisecond) client2 = false.
Proof.
  split.
  - exact (IsAuthenticated_last_event client1 client2 (Some (t1 + 2000)%Z) history_auth eq_refl
      history_auth_runs ((t1 + 1999) * Millisecond)%Z).
  - exact (IsAuthenticated_last_event client1 client2 (Some (t1 + 2000)%Z) history_auth eq_refl
      history_auth_runs ((t1 + 2000) * Millisecond)%Z).
Defined.

Lemma AuthCallback_schedule_witness :
  (isAuthenticated client2 = false /\ 1850%Z = 2000%Z) \/
  (isAuthenticated client2 = true /\ (t1 + 100 + 1850 = t1 + 2000 - 50)%Z /\
   forall t, Z.quot t Millisecond = (t1 + 100 + 1850)%Z -> IsAuthenticated t client2 = true).
Proof.
  refine (AuthCallback_schedule (0, 0)%nat t1 2000 (t1 + 100) (post_to node1 (1, 0, 0)%nat)
    client1 client2 1850 _ _ _).
  - unfold t1, two63. lia.
  - vm_compute. reflexivity.
  - unfold client2, t1, two63. cbn. lia.
Defined.

Lemma WaitForAuth_one_tick_witness :
  WaitForAuth client1 (t1 * Millisecond) (t1 * Millisecond)
    [Tick client1 (t1 * Millisecond + 10 * Millisecond) (t1 * Millisecond + 10 * Millisecond);
     Tick client2 (t1 * Millisecond + 20 * Millisecond) (t1 * Millisecond + 20 * Millisecond)]
    = Some false.
Proof.
  refine (WaitForAuth_one_tick client1 client1 (t1 * Millisecond) (t1 * Millisecond) _ _ _
    eq_refl eq_refl _ _).
  - unfold t1, Millisecond, Second, two63. lia.
  - lia.
Defined.
