(* ===== verification/AuthSession.v ===== *)
(** * The session of a client and a node, in time

    mycsnode/api_client.go beside the node of test/mocks/node.go.  The timer of [Start]
    runs [AuthCallback], each exchange takes its time and holds the lock of the client
    meanwhile, and between the exchanges the client is asked whether it is authenticated
    and for its cipher.  Times are in milliseconds. *)

From S2P Require Import Prelude GoStrings GoEncoding GoJson JsonStruct ApiClient.
Local Open Scope Z_scope.

(** Encryption with the cipher of a session. *)
Class Ciphers `{crypto : Crypto} := {
  EncryptB64 : nat -> Crypt -> string -> result string;
  DecryptB64 : Crypt -> string -> result string;
}.

Class CiphersLaws `{crypto : Crypto} (ciphers : Ciphers) : Prop := {
  cipher_decrypts n c m text : EncryptB64 n c m = Ok text -> DecryptB64 c text = Ok m;
}.

Section Session.
Context `{ciphers : Ciphers} `{nodes : Nodes}.

(** The check of the test node: the client's cipher opens what the node's has closed. *)
Definition ValidateEncryption (draw : nat) (encryptionKey : string) (a : ApiClient) : result unit :=
  match NewCrypt encryptionKey with
  | (_, Some e) => Err e
  | (handlerCrypt, None) =>
      c ← deref handlerCrypt;
      cipher ← EncryptB64 draw c "plain text test";
      apiClientCrypt ← deref (client_Crypt a);
      plainText ← DecryptB64 apiClientCrypt cipher;
      expect (String.eqb plainText "plain text test")
  end.

(** ** The system *)

(** The timer is set for [due]; an exchange runs, and whether [Stop] was called
    meanwhile; or the client is stopped. *)
Inductive phase :=
| Waiting (due : Z)
| Exchanging (begun : Z) (stopped : bool)
| Stopped.

(** [s_secret] is the key that the node keeps. *)
Record sys := mkSys {
  s_now : Z;
  s_client : ApiClient;
  s_secret : option string;
  s_phase : phase;
}.

Variable h : node.
(** How late the timer may be, how long an exchange may take, and the time to a new
    attempt. *)
Variables late latency authRetryTime : Z.

(** An exchange reads the clock for its nonce at [stamp]; it is answered by the node, or
    anything else happens to it, also to the node. *)
Inductive choice :=
| Pass (d : Z)
| Begin
| Answered (stamp : Z) (draw : nat * nat) (ndraw : nat * nat * nat)
| Disturbed (stamp : Z) (draw : nat * nat) (DoPost : Rest -> string -> AuthRequest -> http)
    (secret : option string)
| ResetClient
| StopClient.

Definition may_pass (t : Z) (s : sys) : bool :=
  match s_phase s with
  | Waiting due => t <=? due + late
  | Exchanging begun _ => t <=? begun + latency
  | Stopped => true
  end.

(** What the timer does after [AuthCallback] has returned. *)
Definition after_callback (s : sys) (stopped : bool) (secret : option string)
    (r : result (ApiClient * Z)) : option sys :=
  match r with
  | Ok (a, d) => Some (mkSys (s_now s) a secret (if stopped then Stopped else Waiting (s_now s + d)))
  | _ => None
  end.

Definition exec (c : choice) (s : sys) : option sys :=
  let a := s_client s in
  match c, s_phase s with
  | Pass d, ph =>
      if (0 <=? d) && may_pass (s_now s + d) s
      then Some (mkSys (s_now s + d) a (s_secret s) ph) else None
  | Begin, Waiting due =>
      if due <=? s_now s then Some (mkSys (s_now s) a (s_secret s) (Exchanging (s_now s) false))
      else None
  | Answered stamp draw ndraw, Exchanging begun stopped =>
      if (begun <=? stamp) && (stamp <=? s_now s) then
        match auth_request draw stamp a with
        | Ok (_, request) =>
            match SendAuthResponse h ndraw request with
            | Ok (secret, _) =>
                match NewCrypt secret with
                | (_, None) =>
                    after_callback s stopped (Some secret)
                      (AuthCallback draw stamp (post_to h ndraw) authRetryTime (s_now s) a)
                | _ => None
                end
            | _ => None
            end
        | _ => None
        end
      else None
  | Disturbed stamp draw DoPost secret, Exchanging begun stopped =>
      if (begun <=? stamp) && (stamp <=? s_now s) then
        after_callback s stopped secret (AuthCallback draw stamp DoPost authRetryTime (s_now s) a)
      else None
  | ResetClient, Waiting _ | ResetClient, Stopped =>
      Some (mkSys (s_now s) (Reset a) (s_secret s) (s_phase s))
  | StopClient, Waiting _ => Some (mkSys (s_now s) (Stop a) (s_secret s) Stopped)
  | StopClient, Exchanging begun false =>
      Some (mkSys (s_now s) (Stop a) (s_secret s) (Exchanging begun true))
  | _, _ => None
  end.

Fixpoint run (cs : list choice) (s : sys) : option sys :=
  match cs with
  | [] => Some s
  | c :: cs => s ← exec c s; run cs s
  end.

(** A client whose timer has just been started. *)
Definition started (now : Z) (a : ApiClient) : sys :=
  mkSys now (ApiClient.Start None a).1 None (Waiting now).

(** Whether the last exchange was answered by the node and nothing was reset since. *)
Definition agreed_step (b : bool) (c : choice) : bool :=
  match c with
  | Answered _ _ _ => true
  | Disturbed _ _ _ _ | ResetClient => false
  | _ => b
  end.
Definition agreed (cs : list choice) : bool := foldl agreed_step false cs.

(** ** The session is kept *)

Context {laws : CryptoLaws crypto} {claws : CiphersLaws ciphers}.
Hypothesis late_bound : 0 <= late < 50.
Hypothesis latency_bound : 0 <= latency <= 1950.

Lemma paired_session a t c k b : paired a h -> paired (set_session a t c k b) h.
Proof. intros []. by split. Qed.

Lemma paired_timer a t : paired a h -> paired (set_authExecTimer a t) h.
Proof. intros []. by split. Qed.

Lemma paired_stop a : paired a h -> paired (Stop a) h.
Proof. unfold Stop. destruct (authExecTimer a); [apply paired_timer|done]. Qed.

(** The client has a session that ends at [t], with the node's key. *)
Definition session (s : sys) (t : Z) : Prop :=
  isAuthenticated (s_client s) = true /\ keyTimeoutAt (s_client s) = t /\
  exists secret, s_secret s = Some secret /\ NewCrypt secret = (crypt (s_client s), None).

(** While the timer waits, the session of an exchange that was answered outlasts it. *)
Definition kept (b : bool) (s : sys) : Prop :=
  paired (s_client s) h /\ 0 < s_now s /\
  match s_phase s with
  | Waiting due => b = true -> s_now s <= due + late /\ session s (due + 50)
  | Exchanging begun _ => 0 < begun <= s_now s /\ s_now s <= begun + latency
  | Stopped => True
  end.

Lemma after_callback_some s stopped secret r s' :
  after_callback s stopped secret r = Some s' ->
  exists a d, r = Ok (a, d) /\
    s' = mkSys (s_now s) a secret (if stopped then Stopped else Waiting (s_now s + d)).
Proof. destruct r as [[a d]| |]; cbn; [|done..]. intros [= <-]. eauto. Qed.

Lemma Authenticate_session draw now DoPost a a' r :
  Authenticate draw now DoPost a = Ok (a', r) -> exists t c k b, a' = set_session a t c k b.
Proof.
  unfold Authenticate. intros H. destruct (exchange _ _ _ _) as [[[secret k] resp]|e|]; [| |done].
  - destruct (NewCrypt secret) as [c [e|]]; simplify_eq; by eexists _, _, _, _.
  - simplify_eq. by eexists _, _, _, _.
Qed.

Lemma callback_paired draw now DoPost later a a' d :
  paired a h -> AuthCallback draw now DoPost authRetryTime later a = Ok (a', d) -> paired a' h.
Proof.
  unfold AuthCallback. intros Hp H. bind_inv. destruct a0 as [a1 [ok e]]. simplify_eq.
  destruct (Authenticate_session _ _ _ _ _ _ Ha) as (t & c & k & b & ->). by apply paired_session.
Qed.

(** An exchange that the node answers renews the session. *)
Lemma callback_answered draw ndraw stamp later a key request secret resp c :
  paired a h -> 0 < stamp <= later -> nonce_ok later ->
  auth_request draw stamp a = Ok (key, request) ->
  SendAuthResponse h ndraw request = Ok (secret, resp) -> NewCrypt secret = (c, None) ->
  AuthCallback draw stamp (post_to h ndraw) authRetryTime later a
    = Ok (set_session a (stamp + 2000) c (AuthRespIDKey resp) true, stamp + 1950 - later).
Proof.
  intros Hp Hs Hn Hq Hr Hc. unfold AuthCallback.
  unfold nonce_ok, Millisecond, Second, two63 in Hn.
  rewrite (honest_exchange a h draw ndraw stamp key request secret resp c)
    by (done || unfold nonce_ok, Millisecond, Second, two63; lia).
  cbn [mbind result_bind keyTimeoutAt set_session].
  rewrite (wrap64_id (_ - later)) by (unfold int64_range, two63; lia).
  rewrite wrap64_id by (unfold int64_range, two63; lia). do 2 f_equal. lia.
Qed.

Lemma exec_time c s s' : exec c s = Some s' -> s_now s <= s_now s'.
Proof.
  destruct c; cbn; intros H; destruct (s_phase s) as [due|begun stopped|]; try done;
    repeat case_match; simplify_eq; cbn; try lia;
    apply after_callback_some in H as (a & d & _ & ->); cbn; lia.
Qed.

Lemma run_time cs s s' : run cs s = Some s' -> s_now s <= s_now s'.
Proof.
  revert s. induction cs as [|c cs IH]; intros s H; [simplify_eq/=; lia|]. cbn in H.
  apply bind_Some in H as (s1 & E & H). apply exec_time in E. apply IH in H. lia.
Qed.

Lemma kept_exec b c s s' :
  kept b s -> nonce_ok (s_now s') -> exec c s = Some s' -> kept (agreed_step b c) s'.
Proof.
  intros (Hp & Hpos & Hk) Hn H.
  destruct c as [d| |stamp draw ndraw|stamp draw DoPost secret| |]; cbn in H |- *.
  - destruct (_ && _) eqn:E; simplify_eq. apply andb_true_iff in E as [Hd E]. unfold may_pass in E.
    split; [done|]. split; [cbn; lia|]. cbn. destruct (s_phase s) as [due|begun stopped|]; [|lia|done].
    intros Hb. split; [lia|]. by apply Hk.
  - destruct (s_phase s) as [due|begun stopped|]; [|done..]. destruct (due <=? s_now s); simplify_eq.
    split_and!; cbn; done || lia.
  - destruct (s_phase s) as [due|begun stopped|]; [done| |done]. destruct (_ && _) eqn:E; [|done].
    destruct (auth_request draw stamp (s_client s)) as [[key request]| |] eqn:Hq; [|done..].
    destruct (SendAuthResponse h ndraw request) as [[secret resp]| |] eqn:Hr; [|done..].
    destruct (NewCrypt secret) as [c [e|]] eqn:Hc; [done|].
    pose proof H as (a & d & _ & ->)%after_callback_some.
    erewrite (callback_answered draw ndraw stamp) in H by (done || lia). destruct stopped; cbn in H;
      simplify_eq; (split_and!; cbn; [by apply paired_session|done|]); [done|]. intros _.
    split; [lia|]. split_and!; cbn; [done|lia|]. by exists secret.
  - destruct (s_phase s) as [due|begun stopped|]; [done| |done]. destruct (_ && _) eqn:E; [|done].
    apply after_callback_some in H as (a & d & Ha & ->).
    split_and!; cbn; [by eapply callback_paired|done|]. by destruct stopped.
  - destruct (s_phase s) as [due|begun stopped|]; simplify_eq; (split_and!; cbn; [by apply paired_session|done|done]).
  - destruct (s_phase s) as [due|begun []|]; simplify_eq; (split_and!; cbn; [by apply paired_stop|done|]); lia || done.
Qed.

Lemma kept_run b cs s s' :
  kept b s -> nonce_ok (s_now s') -> run cs s = Some s' -> kept (foldl agreed_step b cs) s'.
Proof.
  revert b s. induction cs as [|c cs IH]; intros b s Hk Hn H; [by simplify_eq/=|]. cbn in H |- *.
  apply bind_Some in H as (s1 & E & H). eapply IH; [|done|exact H].
  eapply kept_exec; [done| |exact E]. pose proof (run_time _ _ _ H).
  assert (0 < s_now s1) by (destruct Hk as (_ & ? & _); apply exec_time in E; lia).
  unfold nonce_ok, Millisecond, Second, two63 in *. lia.
Qed.

(** C6. The session never lapses.  Whatever happened to earlier exchanges, and however
    often the client was reset, once the node has answered an exchange the client is
    authenticated at every moment between that exchange and the next, at any
    nanosecond it is asked, and what the node encrypts with the key it keeps the client
    decrypts: the timer starts the next exchange before the session ends, as long as
    it is less than 50 milliseconds late and an exchange takes at most 1950. *)
Theorem session_never_lapses now0 a cs s due ns text n
  (Hp : paired a h) (Hpos : 0 < now0) (Hrun : run cs (started now0 a) = Some s)
  (Hyear : nonce_ok (s_now s)) (Hph : s_phase s = Waiting due) (Hag : agreed cs = true)
  (Hns : 0 <= ns < Millisecond) :
  IsAuthenticated (s_now s * Millisecond + ns) (s_client s) = true /\
  exists secret, s_secret s = Some secret /\
    forall c, (NewCrypt secret).1 = Some c -> EncryptB64 n c "plain text test" = Ok text ->
      ValidateEncryption n secret (s_client s) = Ok tt.
Proof.
  destruct (kept_run false cs (started now0 a) s) as (_ & Hs & Hk); [|done..|].
  { split_and!; cbn; [by apply paired_timer|done|done]. }
  rewrite Hph in Hk. destruct (Hk Hag) as [Hd (Hauth & Ht & secret & Hsec & Hc)]. split.
  - unfold IsAuthenticated. rewrite Hauth, Ht. apply Z.ltb_lt.
    unfold Millisecond in *. rewrite Z.quot_div_nonneg by lia.
    apply Z.le_lt_trans with (s_now s); [|lia]. dlia.
  - exists secret. split; [done|]. intros c Hc' He. unfold ValidateEncryption, client_Crypt.
    rewrite Hc in Hc' |- *. cbn in Hc'. rewrite Hc'. cbn [deref mbind result_bind].
    rewrite He. cbn [mbind result_bind]. by rewrite (cipher_decrypts _ _ _ _ He).
Qed.
End Session.

(** ** The laptop of [client1] over two exchanges *)

#[global] Instance toy_ciphers : Ciphers (crypto := toy_crypto) := {
  EncryptB64 := fun _ c m => Ok (c +:+ m);
  DecryptB64 := fun c text => Ok (s_drop (String.length c) text);
}.

#[global] Instance toy_ciphers_laws : CiphersLaws toy_ciphers.
Proof. split. cbn. intros _ c m text [= <-]. f_equal. by induction c. Qed.

(** The node cannot be reached at first; its answer comes 120 milliseconds after the
    second request, and the timer is 40 milliseconds late. *)
Definition laptop_run : list (choice (nodes := toy_nodes)) :=
  [Begin; Pass 300;
   Disturbed (t1 + 5) (0, 0)%nat (fun _ _ _ => HttpError Canceled (mkErrorResponse 0 EmptyString)) None;
   Pass 2000; Begin; Pass 120; Answered (t1 + 2300) (0, 0)%nat (1, 0, 0)%nat; Pass 1870].

Lemma laptop_runs :
  exists s, run node1 40 300 2000 laptop_run (started t1 client1) = Some s /\
    s_now s = t1 + 4290 /\ s_phase s = Waiting (t1 + 4250) /\ s_secret s = Some secret1.
Proof.
  assert ((fun s => (s_now s, s_phase s, s_secret s)) <$> run node1 40 300 2000 laptop_run (started t1 client1)
    = Some (t1 + 4290, Waiting (t1 + 4250), Some secret1)) as H by (vm_compute; reflexivity).
  destruct (run _ _ _ _ _ _) as [s|]; [|done]. cbn in H. simplify_eq. by exists s.
Qed.

Lemma session_never_lapses_witness :
  exists s, run node1 40 300 2000 laptop_run (started t1 client1) = Some s /\
    IsAuthenticated ((t1 + 4290) * Millisecond + 999) (s_client s) = true /\
    exists secret, s_secret s = Some secret /\
      forall c, (NewCrypt secret).1 = Some c ->
        EncryptB64 0 c "plain text test" = Ok (secret1 +:+ "plain text test") ->
        ValidateEncryption 0 secret (s_client s) = Ok tt.
Proof.
  destruct laptop_runs as (s & Hr & Hn & Hp & _). exists s. split; [exact Hr|]. rewrite <- Hn.
  apply (session_never_lapses node1 40 300 2000 ltac:(lia) ltac:(lia) t1 client1 laptop_run s
           (t1 + 4250) 999 (secret1 +:+ "plain text test") 0).
  - exact pair1.
  - reflexivity.
  - exact Hr.
  - rewrite Hn. unfold nonce_ok, t1, Millisecond, Second, two63. lia.
  - exact Hp.
  - reflexivity.
  - unfold Millisecond. lia.
Defined.
