(* ===== verification/TestNode.v ===== *)
(** * The test node: test/mocks/node.go

    The services a test starts: a server, a target, a device with its owner, the API
    client of that device and the handler that plays the node for it.  The HTTPS server,
    the mock target and the device context come from other packages: whether they can be
    had and the key pairs they make are parameters.  An expectation that fails ends the
    test, with its error here. *)

From S2P Require Import Prelude GoStrings GoEncoding GoJson JsonStruct ApiClient AuthSession.

Definition loggedInUserID : string := "7a4ae0c0-a25f-4376-9816-b45df8da5e88".
Definition deviceIDKey : string :=
  "b1f187f2-1019-4848-ae7c-4db0cec1f256|F+IVHNUM85lwwLSfGdlZCR2gcDpzDs1wF6CcEjWOr2z" +:+
  "L/Kr5Fw1Utu1BX2i+2p+b5v8sSfy9g1AdYZhHKLKI7qeXWg9n/E1r8YzCyunVeByiWpWpn51Afca+pg5" +:+
  "wQMlnLD4Sy8SHRICZj9XDF/9MYna/iX8FKNtVEymOSceYVkgAuH/YypNLp48D6Wk9oOJGLb5OBiAnnpN" +:+
  "qrLadQ3kbShoLvl41ynfkNX3pqOMj5Y2qWGOoFkiru+zch6xlit5XrKVIOpV/iWwjNJTOjCaNJ2bcuMN" +:+
  "FcF6EA8DgnfQPjgR2CfJhoENoCSo7ieO9EAfQmZJS3fWPiIgo8tCGW7cneNWbWz5agKn5tjrmeGXkwkP" +:+
  "DKnbRpTBLeZ6akNP2C6GncEHICXvbetP46DcoZjLBt5sPx8vQeQ3EYFehi4PDz6LuWvppAkMa2pmI4VT" +:+
  "QIdRxUH4Rp23MgcKQ40vHRA7FDP4JSmyseRozfSksBXWjZIul0/QDV3yYvkKaeOqYWwQv+sZiV8ZFHVF" +:+
  "QDYr8yBzvxR3WCyyJSP+jmWIfC32WHIwV1KTtxZXlYwGHs/JmScTcR4Gs9qTdemsdLIvro6wPmO6vsdM" +:+
  "Jqgp3NggzN3pkaIkvps+8tmGsqB7N7KxRmln9TFnKP3urp56CwnNzRKV8Z9tVBNxYJOnL1jxbVsMjniY" +:+
  "=".
Definition deviceID : string := "676741a9-0608-4633-b293-05e49bea6504".
Definition deviceName : string := "Test Device".

(** The first port is one above this. *)
Definition init_testServerPort : Z := 9000.

Section TestNode.
Context `{ciphers : Ciphers} `{nodes : Nodes}.

(** A private key and its public key, as PEM texts. *)
Record key_pems := mkKeyPems { RSAPrivateKey : string; RSAPublicKeyPEM : string }.

(** What [config.DeviceContext] keeps for the test. *)
Record device_context := mkDeviceContext {
  dc_Device : key_pems;
  dc_DeviceIDKey : string;
  dc_DeviceID : string;
  dc_DeviceName : string;
  dc_LoggedInUserID : string;
  dc_LoggedInUserName : string;
}.

(** [TestServer] says whether the server runs. *)
Record MockNodeService := mkMockNodeService {
  TestServer : bool;
  TestServerPort : Z;
  TestTarget : SpaceNode;
  TestTargetKeys : key_pems;
  TestConfig : device_context;
  LoggedInUser : string;
}.

(** [NewMockHttpsServer] for a port, with the certificate of its authority;
    [NewMockTarget] for both, with the keys of the target; [NewDevice]; and
    [NewOwnerUser]. *)
Variable NewMockHttpsServer : Z -> result string.
Variable NewMockTarget : Z -> string -> SpaceNode * key_pems.
Variable NewDevice : result key_pems.
Variable NewOwnerUser : string -> string -> result string.
(** [RSAKey.PublicKey]. *)
Variable PublicKey : RSAKey -> RSAPublicKey.

(** The value of [testServerPort], a 32-bit number, after it was increased. *)
Definition next_port (testServerPort : Z) : Z :=
  ((testServerPort + 1 + 2 ^ 31) mod 2 ^ 32 - 2 ^ 31)%Z.

(** The service and the new value of [testServerPort], which a failure leaves increased
    too. *)
Definition StartMockNodeServices (testServerPort : Z) : result MockNodeService * Z :=
  let port := next_port testServerPort in
  (caRootPem ← NewMockHttpsServer port;
   let (tgt, keys) := NewMockTarget port caRootPem in
   device ← NewDevice;
   user ← NewOwnerUser loggedInUserID "testuser";
   Ok (mkMockNodeService true port tgt keys
         (mkDeviceContext device deviceIDKey deviceID deviceName loggedInUserID "testuser") user),
   port).

Definition mock_Stop (s : MockNodeService) : MockNodeService :=
  mkMockNodeService false (TestServerPort s) (TestTarget s) (TestTargetKeys s) (TestConfig s)
    (LoggedInUser s).

Definition mock_NewApiClient (s : MockNodeService) (authTimeout : Z) : result ApiClient :=
  let dc := TestConfig s in
  NewApiClient (dc_DeviceName dc) (dc_LoggedInUserID dc) (dc_DeviceIDKey dc)
    (RSAPrivateKey (dc_Device dc)) (TestTarget s) "/auth" authTimeout.

(** The handler, with the key of the target that it reads for every request; the draw is
    that of the ECDH key it is made with, which a request replaces. *)
Definition NewServiceHandler (s : MockNodeService) (draw : nat) : result node :=
  _ ← NewECDHKey draw;
  devicePublicKey ← NewPublicKeyFromPEM (RSAPublicKeyPEM (dc_Device (TestConfig s)));
  key ← NewRSAKeyFromPEM (RSAPrivateKey (TestTargetKeys s));
  Ok (mkNode key (PublicKey key) devicePublicKey deviceIDKey loggedInUserID deviceID deviceName).

(** The two halves of a pair of PEM texts belong together. *)
Definition pems_match (private public : string) : Prop :=
  forall sk pk, NewRSAKeyFromPEM private = Ok sk -> NewPublicKeyFromPEM public = Ok pk ->
    key_pair sk pk.

Hypothesis device_keys : forall device,
  NewDevice = Ok device -> pems_match (RSAPrivateKey device) (RSAPublicKeyPEM device).
Hypothesis target_keys : forall port ca,
  pems_match (RSAPrivateKey (NewMockTarget port ca).2) (GetPublicKey (NewMockTarget port ca).1).
(** The public half of an exchange is text. *)
Hypothesis ecdh_ascii : forall k p, ECDH_PublicKey k = Ok p -> ascii_only p = true.

(** The client and the handler of one service know each other. *)
Lemma mock_paired testServerPort s authTimeout draw a h :
  (StartMockNodeServices testServerPort).1 = Ok s ->
  mock_NewApiClient s authTimeout = Ok a -> NewServiceHandler s draw = Ok h -> paired a h.
Proof.
  unfold StartMockNodeServices. cbn [fst]. intros Hs. bind_inv.
  pose proof (target_keys (next_port testServerPort) a0) as Ht.
  destruct (NewMockTarget _ a0) as [tgt keys]. bind_inv. subst s. cbn [fst snd] in Ht.
  pose proof (device_keys _ Ha0) as Hd.
  unfold mock_NewApiClient, NewApiClient, NewServiceHandler.
  cbn [TestConfig TestTarget TestTargetKeys dc_Device dc_DeviceName dc_LoggedInUserID
       dc_DeviceIDKey].
  intros Hc Hh. bind_inv. simplify_eq.
  split; cbn [nodePublicKey clientRSAKey restAuthClient refName refID n_key n_devicePublicKey n_deviceName].
  - intros pk [= <-]. by eapply Ht.
  - intros sk [= <-]. by eapply Hd.
  - done.
  - done.
  - done.
  - split; vm_compute; reflexivity.
  - exact ecdh_ascii.
Qed.

Context {laws : CryptoLaws crypto} {claws : CiphersLaws ciphers}.

(** C11. The test of the exchange passes.  For the client and the handler that a mock service
    makes, whatever its port: when the handler can answer the client's request, the
    client is authenticated by it, for two seconds, and [ValidateEncryption] succeeds
    for the key the handler has kept. *)
Theorem mock_exchange_validates testServerPort s authTimeout hdraw a h draw ndraw now key request
    secret resp c n text
  (Hstart : (StartMockNodeServices testServerPort).1 = Ok s)
  (Ha : mock_NewApiClient s authTimeout = Ok a)
  (Hh : NewServiceHandler s hdraw = Ok h)
  (Hn : nonce_ok now)
  (Hq : auth_request draw now a = Ok (key, request))
  (Hs : SendAuthResponse h ndraw request = Ok (secret, resp))
  (Hc : NewCrypt secret = (Some c, None))
  (He : EncryptB64 n c "plain text test" = Ok text) :
  exists a', Authenticate draw now (post_to h ndraw) a = Ok (a', (true, None)) /\
    keyTimeoutAt a' = (now + 2000)%Z /\ ValidateEncryption n secret a' = Ok tt.
Proof.
  eexists. split; [by eapply honest_exchange; [eapply mock_paired|..]|]. split; [done|].
  unfold ValidateEncryption. rewrite Hc. cbn [deref mbind result_bind]. rewrite He.
  cbn [mbind result_bind client_Crypt crypt set_session deref]. by rewrite (cipher_decrypts _ _ _ _ He).
Qed.
End TestNode.

(** ** A mock service over toy ciphers *)

Definition mock_target (_ : Z) (_ : string) : SpaceNode (Nodes := toy_nodes) * key_pems :=
  (tt, mkKeyPems "N" "N").
Definition mock_device : key_pems := mkKeyPems "C" "C".

Definition mock_public (k : RSAKey (Crypto := toy_crypto)) : RSAPublicKey := k.

Definition mock_server (port : Z) : result string :=
  if (port <? 65536)%Z then Ok "CA" else Err (Errorf "listen" []).

Definition mock_service : MockNodeService :=
  mkMockNodeService true 9001 tt (mkKeyPems "N" "N")
    (mkDeviceContext mock_device deviceIDKey deviceID deviceName loggedInUserID "testuser") "owner".

Definition mock_client : ApiClient :=
  mkApiClient deviceName loggedInUserID deviceIDKey (Some "C"%char) (Some tt) (Some "N"%char) "/auth"
    0 None (Some tt) EmptyString (Some tt) false 10000 None.
Definition mock_handler : node :=
  mkNode "N"%char "N"%char "C"%char deviceIDKey loggedInUserID deviceID deviceName.

Definition mock_request : AuthRequest :=
  match auth_request (0, 0)%nat t1 mock_client with
  | Ok (_, r) => r
  | _ => mkAuthRequest EmptyString EmptyString
  end.
Definition mock_response : AuthResponse :=
  match SendAuthResponse mock_handler (1, 0, 0)%nat mock_request with
  | Ok (_, r) => r
  | _ => mkAuthResponse EmptyString EmptyString
  end.

Lemma toy_pems c : pems_match (crypto := toy_crypto) (String c EmptyString) (String c EmptyString).
Proof. intros sk pk. cbn. by intros [= <-] [= <-]. Qed.

Lemma device_pems device : Ok mock_device = Ok device ->
  pems_match (crypto := toy_crypto) (RSAPrivateKey device) (RSAPublicKeyPEM device).
Proof. intros [= <-]. apply toy_pems. Qed.

Lemma mock_exchange_validates_witness :
  TestServer mock_service = true /\ TestServer (mock_Stop mock_service) = false /\
  exists a', Authenticate (0, 0)%nat t1 (post_to mock_handler (1, 0, 0)%nat) mock_client
      = Ok (a', (true, None)) /\
    keyTimeoutAt a' = (t1 + 2000)%Z /\ ValidateEncryption 0 secret1 a' = Ok tt.
Proof.
  split; [reflexivity|]. split; [reflexivity|].
  apply (mock_exchange_validates mock_server mock_target (Ok mock_device) (fun _ _ => Ok "owner")
    mock_public device_pems (fun _ _ => toy_pems "N")
    (pair_ecdh _ _ pair1) init_testServerPort mock_service 10000 0 mock_client mock_handler
    (0, 0)%nat (1, 0, 0)%nat
    t1 (byte_of 2) mock_request secret1 mock_response secret1 0 (secret1 +:+ "plain text test"));
    [reflexivity|reflexivity|reflexivity|exact nonce1_ok|vm_compute; reflexivity..].
Defined.
