(* ===== verification/MeshMessages.v ===== *)
(** * mycsnode/headscale.go

    The messages by which a node hands out keys to its mesh network: their types, and
    the JSON that [encoding/json] makes of them and reads them from, by their tags.
    Texts are ASCII.  A nil slice and an empty one are not told apart, as
    [omitempty] does not. *)

From S2P Require Import Prelude GoStrings GoEncoding GoJson JsonStruct.

Record CreateMeshAuthKeyReq := mkCreateMeshAuthKeyReq { ExpiresIn : Z }.

Record TSNode := mkTSNode {
  ts_Name : string;
  ts_IP : string;
  ts_Endpoints : list string;
  ts_Routes : list string;
}.

Record CreateMeshAuthKeyResp := mkCreateMeshAuthKeyResp {
  AuthKey : string;
  DNS : list string;
  SpaceNode : TSNode;
  DeviceNodes : list TSNode;
}.

Definition zeroNode : TSNode := mkTSNode EmptyString EmptyString [] [].
Definition zeroResp : CreateMeshAuthKeyResp := mkCreateMeshAuthKeyResp EmptyString [] zeroNode [].

(** ** Encoding: members with [omitempty] *)

Definition opt_int (k : string) (z : Z) : list (string * json) :=
  if (z =? 0)%Z then [] else [(k, JNum (format_int z))].
Definition opt_text (k s : string) : list (string * json) :=
  if decide (s = EmptyString) then [] else [(k, JStr s)].
Definition opt_list {A} (enc : A -> json) (k : string) (l : list A) : list (string * json) :=
  match l with [] => [] | _ => [(k, JArr (enc <$> l))] end.

Definition enc_req (r : CreateMeshAuthKeyReq) : json := JObj (opt_int "expiresIn" (ExpiresIn r)).

Definition enc_node (n : TSNode) : json :=
  JObj (opt_text "name" (ts_Name n) ++ opt_text "ip" (ts_IP n)
        ++ opt_list JStr "endpoints" (ts_Endpoints n) ++ opt_list JStr "routes" (ts_Routes n)).

(** A struct is never empty, so [omitempty] does not leave out the node. *)
Definition enc_resp (r : CreateMeshAuthKeyResp) : json :=
  JObj (opt_text "authKey" (AuthKey r) ++ opt_list JStr "dns" (DNS r)
        ++ [("space_node", enc_node (SpaceNode r))]
        ++ opt_list enc_node "device_nodes" (DeviceNodes r)).

(** ** Decoding *)

Definition set_req_field (r : CreateMeshAuthKeyReq) (k : string) (v : json)
    : option CreateMeshAuthKeyReq :=
  if is_field "expiresin" k then x ← dec_int (ExpiresIn r) v; Some (mkCreateMeshAuthKeyReq x)
  else Some r.

Definition set_node_field (n : TSNode) (k : string) (v : json) : option TSNode :=
  let '(mkTSNode name ip endpoints routes) := n in
  if is_field "name" k then x ← dec_text name v; Some (mkTSNode x ip endpoints routes)
  else if is_field "ip" k then x ← dec_text ip v; Some (mkTSNode name x endpoints routes)
  else if is_field "endpoints" k then
    x ← dec_slice (dec_text EmptyString) v; Some (mkTSNode name ip x routes)
  else if is_field "routes" k then
    x ← dec_slice (dec_text EmptyString) v; Some (mkTSNode name ip endpoints x)
  else Some n.

(** Into a struct that is there; null leaves it as it is. *)
Definition dec_struct {A} (set : A -> string -> json -> option A) (old : A) (v : json) : option A :=
  match v with JNull => Some old | JObj l => dec_members set l old | _ => None end.

Definition set_resp_field (r : CreateMeshAuthKeyResp) (k : string) (v : json)
    : option CreateMeshAuthKeyResp :=
  let '(mkCreateMeshAuthKeyResp key dns node devices) := r in
  if is_field "authkey" k then x ← dec_text key v; Some (mkCreateMeshAuthKeyResp x dns node devices)
  else if is_field "dns" k then
    x ← dec_slice (dec_text EmptyString) v; Some (mkCreateMeshAuthKeyResp key x node devices)
  else if is_field "space_node" k then
    x ← dec_struct set_node_field node v; Some (mkCreateMeshAuthKeyResp key dns x devices)
  else if is_field "device_nodes" k then
    x ← dec_slice (dec_struct set_node_field zeroNode) v;
    Some (mkCreateMeshAuthKeyResp key dns node x)
  else Some r.

Definition read_req (t : string) : option CreateMeshAuthKeyReq :=
  v ← parse_json t; dec_struct set_req_field (mkCreateMeshAuthKeyReq 0) v.
Definition read_resp (t : string) : option CreateMeshAuthKeyResp :=
  v ← parse_json t; dec_struct set_resp_field zeroResp v.

(** ** Round trips *)

Definition texts_ok (l : list string) : Prop := Forall (fun s => ascii_only s = true) l.

Definition node_ok (n : TSNode) : Prop :=
  ascii_only (ts_Name n) = true /\ ascii_only (ts_IP n) = true /\
  texts_ok (ts_Endpoints n) /\ texts_ok (ts_Routes n).

Definition resp_ok (r : CreateMeshAuthKeyResp) : Prop :=
  ascii_only (AuthKey r) = true /\ texts_ok (DNS r) /\ node_ok (SpaceNode r) /\
  Forall node_ok (DeviceNodes r).

(** A member that may be left out: either way the field gets its value. *)
Lemma dec_opt_text {A} (set : A -> string -> json -> option A) (upd : string -> A) k s l :
  set (upd EmptyString) k (JStr s) = Some (upd s) ->
  dec_members set (opt_text k s ++ l) (upd EmptyString) = dec_members set l (upd s).
Proof.
  intros H. unfold opt_text. case_decide as E; [by rewrite E|]. cbn [app dec_members]. by rewrite H.
Qed.

Lemma dec_opt_list {A B} (set : A -> string -> json -> option A) (upd : list B -> A)
    (enc : B -> json) k xs l :
  set (upd []) k (JArr (enc <$> xs)) = Some (upd xs) ->
  dec_members set (opt_list enc k xs ++ l) (upd []) = dec_members set l (upd xs).
Proof. intros H. destruct xs as [|x xs]; [done|]. cbn [opt_list app dec_members]. by rewrite H. Qed.

(** How a setter treats a slice of texts and a slice of nodes. *)
Lemma set_texts {A} (upd : list string -> A) xs :
  (x ← dec_slice (dec_text EmptyString) (JArr (JStr <$> xs)); Some (upd x)) = Some (upd xs).
Proof. by rewrite dec_texts_enc. Qed.

Lemma dec_node n : dec_struct set_node_field zeroNode (enc_node n) = Some n.
Proof.
  destruct n as [name ip eps routes]. unfold enc_node, dec_struct, zeroNode.
  cbn [ts_Name ts_IP ts_Endpoints ts_Routes].
  rewrite (dec_opt_text set_node_field (fun x => mkTSNode x EmptyString [] [])) by done.
  rewrite (dec_opt_text set_node_field (fun x => mkTSNode name x [] [])) by done.
  rewrite (dec_opt_list set_node_field (fun x => mkTSNode name ip x []))
    by exact (set_texts (fun x => mkTSNode name ip x []) eps).
  rewrite <- (app_nil_r (opt_list JStr "routes" routes)).
  by rewrite (dec_opt_list set_node_field (fun x => mkTSNode name ip eps x))
    by exact (set_texts (fun x => mkTSNode name ip eps x) routes).
Qed.

Lemma dec_resp r : dec_struct set_resp_field zeroResp (enc_resp r) = Some r.
Proof.
  destruct r as [key dns node devices]. unfold enc_resp, dec_struct, zeroResp.
  cbn [AuthKey DNS SpaceNode DeviceNodes].
  rewrite (dec_opt_text set_resp_field (fun x => mkCreateMeshAuthKeyResp x [] zeroNode [])) by done.
  rewrite (dec_opt_list set_resp_field (fun x => mkCreateMeshAuthKeyResp key x zeroNode []))
    by exact (set_texts (fun x => mkCreateMeshAuthKeyResp key x zeroNode []) dns).
  cbn [app dec_members].
  assert (set_resp_field (mkCreateMeshAuthKeyResp key dns zeroNode []) "space_node" (enc_node node)
    = Some (mkCreateMeshAuthKeyResp key dns node [])) as ->.
  { transitivity (x ← dec_struct set_node_field zeroNode (enc_node node);
      Some (mkCreateMeshAuthKeyResp key dns x [])); [done|]. by rewrite dec_node. }
  cbn [mbind option_bind]. rewrite <- (app_nil_r (opt_list enc_node "device_nodes" devices)).
  rewrite (dec_opt_list set_resp_field (fun x => mkCreateMeshAuthKeyResp key dns node x)); [done|].
  transitivity (x ← dec_slice (dec_struct set_node_field zeroNode) (JArr (enc_node <$> devices));
    Some (mkCreateMeshAuthKeyResp key dns node x)); [done|].
  rewrite dec_slice_enc; [done|]. apply Forall_true, dec_node.
Qed.

(** What is encoded can be printed. *)
Definition members_ok (l : list (string * json)) : Prop :=
  Forall (fun kv => ascii_only kv.1 = true /\ json_ok kv.2) l.

Lemma opt_text_ok k s : ascii_only k = true -> ascii_only s = true -> members_ok (opt_text k s).
Proof.
  intros Hk Hs. unfold opt_text. case_decide; [constructor|]. constructor; [|constructor].
  split; [done|by constructor].
Qed.

Lemma opt_list_ok {A} (enc : A -> json) k xs :
  ascii_only k = true -> Forall (fun x => json_ok (enc x)) xs -> members_ok (opt_list enc k xs).
Proof.
  intros Hk Hx. destruct xs as [|x xs]; [constructor|]. constructor; [|constructor].
  split; [done|]. constructor. by apply Forall_fmap.
Qed.

Lemma texts_json_ok xs : texts_ok xs -> Forall (fun x => json_ok (JStr x)) xs.
Proof. intros H. eapply Forall_impl; [exact H|]. intros x Hx. by constructor. Qed.

#[local] Hint Resolve opt_text_ok opt_list_ok texts_json_ok : go.

Lemma enc_node_ok n : node_ok n -> json_ok (enc_node n).
Proof.
  intros (Hn & Hi & He & Hr). constructor. fold (members_ok).
  repeat (apply Forall_app; split); fold members_ok;
    [apply opt_text_ok|apply opt_text_ok|apply opt_list_ok|apply opt_list_ok]; auto with go.
Qed.

Lemma enc_resp_ok r : resp_ok r -> json_ok (enc_resp r).
Proof.
  intros (Hk & Hd & Hs & Hn). constructor.
  repeat (apply Forall_app; split);
    [by apply opt_text_ok|apply opt_list_ok; auto with go| |apply opt_list_ok; [done|]].
  - constructor; [|constructor]. split; [done|by apply enc_node_ok].
  - eapply Forall_impl; [exact Hn|]. apply enc_node_ok.
Qed.

(** A request with any 64-bit lifetime and a response whose texts are ASCII are read back
    from their JSON as they were written, with the members that [omitempty] leaves out. *)
Theorem mesh_messages_roundtrip (req : CreateMeshAuthKeyReq) (resp : CreateMeshAuthKeyResp)
  (Hq : int64_range (ExpiresIn req)) (Hr : resp_ok resp) :
  read_req (print_json (enc_req req)) = Some req /\
  read_resp (print_json (enc_resp resp)) = Some resp.
Proof.
  split.
  - unfold read_req. rewrite parse_print.
    + destruct req as [z]. unfold enc_req, opt_int. cbn [ExpiresIn] in *.
      destruct (Z.eqb_spec z 0) as [->|Hz]; [done|].
      transitivity (acc ← (x ← dec_int 0 (JNum (format_int z)); Some (mkCreateMeshAuthKeyReq x));
        Some acc); [done|]. by rewrite dec_format_int.
    + constructor. unfold opt_int. case_match; repeat constructor.
  - unfold read_resp. rewrite parse_print by (by apply enc_resp_ok). apply dec_resp.
Qed.

(** A response with a node and a device that leaves fields out. *)
Definition resp1 : CreateMeshAuthKeyResp :=
  mkCreateMeshAuthKeyResp "key1" ["10.0.0.1"]
    (mkTSNode "node" "100.64.0.1" ["1.2.3.4:41641"] []) [mkTSNode "dev" EmptyString [] ["10.1.0.0/16"]].

Lemma mesh_messages_roundtrip_witness :
  read_req (print_json (enc_req (mkCreateMeshAuthKeyReq 3600))) = Some (mkCreateMeshAuthKeyReq 3600) /\
  read_resp (print_json (enc_resp resp1)) = Some resp1.
Proof.
  apply (mesh_messages_roundtrip (mkCreateMeshAuthKeyReq 3600) resp1); [done|].
  repeat constructor.
Defined.
