(* ===== verification/Daemon.v ===== *)
(** * tailscale/tailscale_daemon.go

    The daemon around the tailscale libraries: which tunnel it asks for, how it falls
    back from one engine to the next, how it starts its services, and how it checks
    the nodes of the mesh.  The libraries and the operating system are arguments: the
    outcome of every call that may fail is in an environment. *)

From S2P Require Import Prelude GoStrings GoNet.

(** ** Choices by platform *)

Definition defaultTunName (goos : string) (synology : bool) : string :=
  if String.eqb goos "openbsd" then "tun"
  else if String.eqb goos "windows" then "Tailscale"
  else if String.eqb goos "darwin" then "utun"
  else if String.eqb goos "linux" && synology then "tailscale0,userspace-networking"
  else "tailscale0".

(** [knob] is the setting of TS_DEBUG_NETSTACK_SUBNETS, if there is one. *)
Definition handleSubnetsInNetstack (goos : string) (knob : option bool) : bool :=
  match knob with
  | Some v => v
  | None => bool_decide (goos ∈ ["windows"; "darwin"; "freebsd"; "openbsd"])
  end.

(** The directory of the state and whether logins are ephemeral; [home_dir] is
    [.tailscale] under the home directory. *)
Definition ipnServerOpts (goos statePath home_dir : string) : string * bool :=
  (if decide (statePath = EmptyString) then home_dir else statePath, String.eqb goos "js").

(** The levels of logrus, and how verbose the daemon's own log is at each. *)
Inductive log_level :=
| PanicLevel | FatalLevel | ErrorLevel | WarnLevel | InfoLevel | DebugLevel | TraceLevel.

Definition verboseLevel (l : log_level) : Z :=
  match l with TraceLevel | DebugLevel => 2 | _ => 0 end.

(** ** Engines *)

Definition userspace : string := "userspace-networking".

(** What the engine is made from: the tunnel device, whether it is a TAP, the router
    and whether it is wrapped for subnets, and the name configurator. *)
Record engine_config := mkEngineConfig {
  ec_ListenPort : Z;
  ec_Tun : option string;
  ec_IsTAP : bool;
  ec_Router : option bool;
  ec_DNS : bool;
}.

(** The platform, and the outcomes of the calls by the name of the tunnel; [tstun.New]
    returns the name of the device also with an error. *)
Record engine_env := mkEngineEnv {
  goos : string;
  netstack_knob : option bool;
  tstun_New : string -> string * option error;
  router_New : string -> option error;
  dns_NewOSConfigurator : string -> option error;
  NewUserspaceEngine : engine_config -> option error;
}.

(** [netns_enabled] is the setting of the process.  [tun_open] and [router_open] count
    the devices and routers that were opened and neither closed nor passed on to
    [NewUserspaceEngine].  [wg_pending] are the engines whose goroutine has yet to
    publish the device in [wgDevice]. *)
Record engine_state := mkEngineState {
  devName : string;
  netns_enabled : bool;
  tun_open : nat;
  router_open : nat;
  wg_pending : list engine_config;
  wgDevice : option engine_config;
}.

Definition set_netns (e : engine_state) (b : bool) : engine_state :=
  mkEngineState (devName e) b (tun_open e) (router_open e) (wg_pending e) (wgDevice e).
Definition set_devName (e : engine_state) (n : string) : engine_state :=
  mkEngineState n (netns_enabled e) (tun_open e) (router_open e) (wg_pending e) (wgDevice e).
Definition set_open (e : engine_state) (tuns routers : nat) : engine_state :=
  mkEngineState (devName e) (netns_enabled e) tuns routers (wg_pending e) (wgDevice e).
Definition spawn_publish (e : engine_state) (c : engine_config) : engine_state :=
  mkEngineState (devName e) (netns_enabled e) (tun_open e) (router_open e)
    (wg_pending e ++ [c]) (wgDevice e).

(** The goroutine of [tryEngine], when it gets the lock. *)
Definition publish_device (e : engine_state) : engine_state :=
  match wg_pending e with
  | [] => e
  | c :: rest =>
      mkEngineState (devName e) (netns_enabled e) (tun_open e) (router_open e) rest (Some c)
  end.

Section Engine.
Variable env : engine_env.
Variable port : Z.

(** The tunnel, the router and the names for an engine that uses a device. *)
Definition open_tunnel (name : string) (e : engine_state)
    : engine_state * (error + engine_config) :=
  let (dev, err) := tstun_New env name in
  let e := set_devName e dev in
  match err with
  | Some x => (e, inl (Wrapf "tstun.New(%q): %w" [name] x))
  | None =>
      let e := set_open e (S (tun_open e)) (router_open e) in
      if HasPrefix name "tap:" then (e, inr (mkEngineConfig port (Some dev) true None false))
      else
        match router_New env dev with
        | Some x => (set_open e (pred (tun_open e)) (router_open e),
                     inl (Wrapf "router.New: %w" [] x))
        | None =>
            let e := set_open e (tun_open e) (S (router_open e)) in
            match dns_NewOSConfigurator env (devName e) with
            | Some x => (set_open e (pred (tun_open e)) (pred (router_open e)),
                         inl (Wrapf "dns.NewOSConfigurator: %w" [] x))
            | None =>
                (e, inr (mkEngineConfig port (Some dev) false
                           (Some (handleSubnetsInNetstack (goos env) (netstack_knob env))) true))
            end
        end
  end.

(** [NewUserspaceEngine] takes over what the configuration holds. *)
Definition hand_over (e : engine_state) (c : engine_config) : engine_state :=
  set_open e (match ec_Tun c with Some _ => pred (tun_open e) | None => tun_open e end)
             (match ec_Router c with Some _ => pred (router_open e) | None => router_open e end).

Definition tryEngine (name : string) (e : engine_state)
    : engine_state * (error + engine_config * bool) :=
  let useNetstack := String.eqb name userspace in
  let e := set_netns e (negb useNetstack) in
  let (e, conf) :=
    if useNetstack then (e, inr (mkEngineConfig port None false None false))
    else open_tunnel name e in
  match conf with
  | inl x => (e, inl x)
  | inr c =>
      match NewUserspaceEngine env c with
      | Some x => (hand_over e c, inl x)
      | None => (spawn_publish (hand_over e c) c, inr (c, useNetstack))
      end
  end.

(** The engine, given by its configuration, with its mode; or the error of every name
    in the order of the names. *)
Inductive engines :=
| Engine (c : engine_config) (useNetstack : bool)
| NoTunnel
| AllFailed (errs : list error).

Fixpoint try_names (names : list string) (errs : list error) (e : engine_state)
    : engine_state * engines :=
  match names with
  | [] => (e, AllFailed errs)
  | name :: names =>
      match tryEngine name e with
      | (e, inr (c, useNetstack)) => (e, Engine c useNetstack)
      | (e, inl x) => try_names names (errs ++ [x]) e
      end
  end.

Definition createEngine (tunname : string) (e : engine_state) : engine_state * engines :=
  if decide (tunname = EmptyString) then (e, NoTunnel)
  else try_names (Split "," tunname) [] e.

(** *** Which names work *)

(** The configuration a name stands for, and whether everything it needs can be had. *)
Definition config_for (name : string) : engine_config :=
  if decide (name = userspace) then mkEngineConfig port None false None false
  else if HasPrefix name "tap:" then mkEngineConfig port (Some (tstun_New env name).1) true None false
  else mkEngineConfig port (Some (tstun_New env name).1) false
         (Some (handleSubnetsInNetstack (goos env) (netstack_knob env))) true.

Definition works (name : string) : Prop :=
  (name ≠ userspace ->
     (tstun_New env name).2 = None /\
     (HasPrefix name "tap:" = false ->
        router_New env (tstun_New env name).1 = None /\
        dns_NewOSConfigurator env (tstun_New env name).1 = None)) /\
  NewUserspaceEngine env (config_for name) = None.

Definition same_open (e e' : engine_state) : Prop :=
  tun_open e' = tun_open e /\ router_open e' = router_open e.

Lemma open_tunnel_spec name e :
  name ≠ userspace ->
  match open_tunnel name e with
  | (e', inl _) => same_open e e' /\ ~ works name /\ wg_pending e' = wg_pending e
  | (e', inr c) =>
      c = config_for name /\ same_open e (hand_over e' c) /\
      (NewUserspaceEngine env c = None -> works name) /\
      wg_pending e' = wg_pending e /\ netns_enabled e' = netns_enabled e
  end.
Proof.
  intros Hn. unfold open_tunnel, works, config_for, same_open.
  destruct (tstun_New env name) as [dev [x|]] eqn:Et; cbn;
    [split_and!; try done; intros [H _]; by destruct (H Hn)|].
  rewrite decide_False by done. destruct (HasPrefix name "tap:") eqn:Ep; cbn; [done|].
  destruct (router_New env dev) eqn:Er; cbn;
    [split_and!; try done; intros [H _]; destruct (H Hn) as [_ [? _]]; done|].
  destruct (dns_NewOSConfigurator env dev) eqn:Ed; cbn; [|done].
  split_and!; try done; intros [H _]; destruct (H Hn) as [_ [_ ?]]; done.
Qed.

Lemma tryEngine_spec name e :
  match tryEngine name e with
  | (e', inl _) => same_open e e' /\ ~ works name /\ wg_pending e' = wg_pending e
  | (e', inr (c, u)) =>
      same_open e e' /\ works name /\ c = config_for name /\ u = bool_decide (name = userspace) /\
      netns_enabled e' = negb u /\ wg_pending e' = wg_pending e ++ [c]
  end.
Proof.
  unfold tryEngine. destruct (String.eqb_spec name userspace) as [->|Hn].
  - rewrite bool_decide_eq_true_2 by done.
    unfold works, config_for. rewrite decide_True by done.
    destruct (NewUserspaceEngine env _) eqn:E; [|done].
    split_and!; try done. intros [_ H]. congruence.
  - rewrite bool_decide_eq_false_2 by done.
    pose proof (open_tunnel_spec name (set_netns e (negb false)) Hn) as H.
    destruct (open_tunnel name _) as [e' [x|c]]; [done|].
    destruct H as (-> & Ho & Hw & Hp & Hs).
    destruct (NewUserspaceEngine env _) eqn:E.
    + split; [exact Ho|]. split; [|done]. intros [_ ?]. congruence.
    + split; [exact Ho|]. split_and!; try done; [by apply Hw|]. cbn. by rewrite Hp.
Qed.

Lemma try_names_spec names errs e :
  let r := try_names names errs e in
  same_open e r.1 /\
  match r.2 with
  | Engine c u => exists before name after,
      names = before ++ name :: after /\ Forall (fun n => ~ works n) before /\ works name /\
      c = config_for name /\ u = bool_decide (name = userspace) /\
      netns_enabled r.1 = negb u /\ wg_pending r.1 = wg_pending e ++ [c]
  | NoTunnel => False
  | AllFailed all => Forall (fun n => ~ works n) names /\ length all = length errs + length names /\
      wg_pending r.1 = wg_pending e
  end.
Proof.
  revert errs e. induction names as [|name names IH]; intros errs e; cbn [try_names].
  { cbn. split_and!; done || constructor || lia. }
  pose proof (tryEngine_spec name e) as H.
  destruct (tryEngine name e) as [e' [x|[c u]]]; cbn zeta.
  - destruct H as ([Ht Hr] & Hw & Hp). destruct (IH (errs ++ [x]) e') as [[Ht' Hr'] H].
    split; [split; congruence|]. destruct (try_names names _ e').2 as [c u| |all]; [|done|].
    + destruct H as (b & n & a & -> & Hb & Hn & ? & ? & ? & Hq).
      exists (name :: b), n, a. split_and!; try done; [by constructor|congruence].
    + destruct H as (Hf & Hl & Hq). rewrite length_app in Hl. cbn in *.
      split_and!; [by constructor|lia|congruence].
  - destruct H as (Ho & Hw & ? & ? & ? & ?). split; [done|]. by exists [], name, names.
Qed.

Lemma createEngine_opens tunname e : same_open e (createEngine tunname e).1.
Proof.
  unfold createEngine. case_decide; [done|]. apply try_names_spec.
Qed.

Definition made (r : engines) : bool := match r with Engine _ _ => true | _ => false end.

Lemma createEngine_fails tunname e :
  Forall (fun n => ~ works n) (Split "," tunname) -> made (createEngine tunname e).2 = false.
Proof.
  intros Hw. unfold createEngine. case_decide; [done|].
  pose proof (try_names_spec (Split "," tunname) [] e) as [_ Ht].
  destruct (try_names _ [] e).2 as [c u| |]; [|done..].
  destruct Ht as (b & n & a & Hs & _ & Hn & _). rewrite Hs, Forall_app, Forall_cons in Hw. by destruct Hw as (_ & ? & _).
Qed.

(** C30. The daemon gets the engine of the first name of its comma-separated list for
    which the device, the router, the name configurator and the engine can all be had,
    with exactly the configuration that name stands for, in netstack mode just when the
    name is userspace-networking, and with the process's network namespace handling set
    to match.  Its device, and no other, will be published.  It fails only when no name
    works, with one error for each name.  Whatever happens, no tunnel or router that an
    attempt opened stays open unless it was passed on to NewUserspaceEngine. *)
Theorem createEngine_first_working tunname e :
  let r := createEngine tunname e in
  same_open e r.1 /\
  match r.2 with
  | Engine c u => exists before name after,
      Split "," tunname = before ++ name :: after /\
      Forall (fun n => ~ works n) before /\ works name /\
      c = config_for name /\ u = bool_decide (name = userspace) /\
      netns_enabled r.1 = negb u /\ wg_pending r.1 = wg_pending e ++ [c]
  | NoTunnel => tunname = EmptyString
  | AllFailed errs => Forall (fun n => ~ works n) (Split "," tunname) /\
      length errs = length (Split "," tunname) /\ wg_pending r.1 = wg_pending e
  end.
Proof.
  unfold createEngine. case_decide as Hd; [done|].
  pose proof (try_names_spec (Split "," tunname) [] e) as [Ho H]. cbn zeta.
  split; [done|]. by destruct (try_names _ [] e).2.
Qed.

End Engine.

(** ** Starting and stopping *)

(** [LocalBackend] says whether the backend is there, [node_timer] whether the node
    check timer runs, [cancelled] whether the context is.  [exit_count] is the counter of
    the wait group [exit], and [servers] the number of goroutines that run a server and
    have not returned. *)
Record daemon := mkDaemon {
  tunname : string;
  port_ : Z;
  statePath : string;
  socketPath : string;
  verbose : Z;
  engine : engine_state;
  LocalBackend : bool;
  node_timer : bool;
  cancelled : bool;
  exit_count : nat;
  servers : nat;
}.

(** What making a daemon removes: a file, or a directory with everything in it. *)
Inductive removal := RemoveFile (path : string) | RemoveTree (dir : string).

(** The paths of the tailscale package and [filepath.Dir] of the default state file. *)
Record default_paths := mkDefaultPaths {
  DefaultTailscaledSocket : string;
  DefaultTailscaledStateFile : string;
  default_state_dir : string;
}.

Definition stale_files (d : default_paths) (path : string) : list removal :=
  (if decide (DefaultTailscaledSocket d = EmptyString) then []
   else [RemoveFile (DefaultTailscaledSocket d)])
  ++ (if decide (path = DefaultTailscaledStateFile d) then []
      else [RemoveTree (default_state_dir d)]).

Definition NewTailscaleDaemon (os : string) (synology : bool) (d : default_paths) (l : log_level)
    (path : string) : daemon :=
  mkDaemon (defaultTunName os synology) 0 path (DefaultTailscaledSocket d) (verboseLevel l)
    (mkEngineState EmptyString true 0 0 [] None) false false false 0 0.

Definition TunnelDeviceName (t : daemon) : string := devName (engine t).

(** The names whose settings [Cleanup] removes: those of the name configurator and of the
    router. *)
Definition Cleanup (t : daemon) : string * string := (tunname t, tunname t).

Definition set_engine (t : daemon) (e : engine_state) : daemon :=
  mkDaemon (tunname t) (port_ t) (statePath t) (socketPath t) (verbose t) e (LocalBackend t) (node_timer t) (cancelled t)
    (exit_count t) (servers t).
Definition set_backend (t : daemon) (b : bool) : daemon :=
  mkDaemon (tunname t) (port_ t) (statePath t) (socketPath t) (verbose t) (engine t) b (node_timer t) (cancelled t)
    (exit_count t) (servers t).
Definition set_timer (t : daemon) (b : bool) : daemon :=
  mkDaemon (tunname t) (port_ t) (statePath t) (socketPath t) (verbose t) (engine t) (LocalBackend t) b (cancelled t)
    (exit_count t) (servers t).
Definition set_cancelled (t : daemon) : daemon :=
  mkDaemon (tunname t) (port_ t) (statePath t) (socketPath t) (verbose t) (engine t) (LocalBackend t) (node_timer t) true
    (exit_count t) (servers t).
Definition set_exit (t : daemon) (n : nat) : daemon :=
  mkDaemon (tunname t) (port_ t) (statePath t) (socketPath t) (verbose t) (engine t) (LocalBackend t) (node_timer t)
    (cancelled t) n (servers t).
Definition set_servers (t : daemon) (n : nat) : daemon :=
  mkDaemon (tunname t) (port_ t) (statePath t) (socketPath t) (verbose t) (engine t) (LocalBackend t) (node_timer t)
    (cancelled t) (exit_count t) n.

(** The goroutine of the server assigns its result to the variable [err] that [run]
    itself uses.  These are the places where [run] has assigned [err] and not yet
    tested it. *)
Inductive point := AtEngine | AtNetstack | AtStore | AtBackend.

#[global] Instance point_eq_dec : EqDecision point.
Proof. solve_decision. Defined.

(** The functions that [run] sets in the dialer, [None] where it leaves them nil; a
    connection is given by its outcome. *)
Record dialer := mkDialer {
  UseNetstackForIP : option (Addr -> bool);
  NetstackDialTCP : option (Addr -> Z -> option error);
}.

(** [srv_ends] is the point at which the server's result, if it comes then, replaces
    what [run] assigned.  [PeerForIP] is asked of the engine behind its watchdog,
    because the dialer's function refers to the variable, and [DialContextTCP] of the
    netstack.  [NewLocalBackend] is given whether there is a store, the dialer, and
    whether logins are ephemeral, and gives whether there is a backend.  [SetVarRoot] is given
    whether there is a backend and may panic.  [netStack_Start] is given whether the
    stack handles the local addresses and the subnets, and whether there is a backend.
    [error_text] is the method [Error] of the errors of the libraries. *)
Record run_env := mkRunEnv {
  engine_calls : engine_env;
  error_text : error -> string;
  home_dir : string;
  Join_state : string -> string;
  multierror_New : list error -> error;
  timer_Start : option error;
  monitor_New : option error;
  safesocket_Listen : string -> option error;
  srv_ends : option (point * option error);
  GetResolver : bool;
  GetInternals : bool;
  netstack_Create : option error;
  store_New : string -> option error;
  PeerForIP : Addr -> bool;
  DialContextTCP : Addr -> Z -> option error;
  NewLocalBackend : bool -> dialer -> bool -> bool * option error;
  SetVarRoot : bool -> option string;
  netStack_Start : bool -> bool -> bool -> option error;
}.

Section Run.
Variable env : run_env.

(** The value of [err] that [run] tests at a point. *)
Definition tested (p : point) (err : option error) : option error :=
  match srv_ends env with
  | Some (q, e) => if decide (p = q) then e else err
  | None => err
  end.

Definition engine_error (r : engines) : option error :=
  match r with
  | Engine _ _ => None
  | NoTunnel => Some (Errorf "no --tun value specified" [])
  | AllFailed errs => Some (multierror_New env errs)
  end.

Definition newNetstack : option error :=
  if GetInternals env then netstack_Create env
  else Some (Errorf "%T is not a wgengine.InternalsGetter" []).

(** What the backend dials with. *)
Definition set_dialer (onlyNetstack : bool) : dialer :=
  if onlyNetstack then mkDialer (Some (PeerForIP env)) (Some (DialContextTCP env))
  else mkDialer None None.

(** From the store on, with an engine and a netstack. *)
Definition run_backend (onlyNetstack : bool) (t : daemon) : daemon * result unit :=
  let eenv := engine_calls env in
  let processSubnets :=
    onlyNetstack || handleSubnetsInNetstack (goos eenv) (netstack_knob eenv) in
  let (varRoot, ephemeral) := ipnServerOpts (goos eenv) (statePath t) (home_dir env) in
  let store := store_New env (Join_state env varRoot) in
  match tested AtStore store with
  | Some x => (t, Err (Wrapf "store.New: %w" [] x))
  | None =>
      let (b, err) := NewLocalBackend env (bool_decide (store = None)) (set_dialer onlyNetstack) ephemeral in
      let t := set_backend t b in
      match tested AtBackend err with
      | Some x => (t, Err (Wrapf "ipnlocal.NewLocalBackend: %w" [] x))
      | None =>
          match SetVarRoot env b with
          | Some w => (t, Panic w)
          | None =>
              match netStack_Start env onlyNetstack processSubnets b with
              | Some x => (t, Err x)
              | None => (t, Ok tt)
              end
          end
      end
  end.

(** From the engine on, with the server running. *)
Definition run_engine (t : daemon) : daemon * result unit :=
  let (e, r) := createEngine (engine_calls env) (port_ t) (tunname t) (engine t) in
  let t := set_engine t e in
  match tested AtEngine (engine_error r) with
  | Some x => (t, Err (Wrapf "createEngine: %w" [] x))
  | None =>
      match r with
      | NoTunnel | AllFailed _ => (t, Panic "interface conversion: interface is nil")
      | Engine _ onlyNetstack =>
          if GetResolver env then
            match tested AtNetstack newNetstack with
            | Some x => (t, Err (Wrapf "newNetstack: %w" [] x))
            | None =>
                match newNetstack with
                | Some _ => (t, Panic "nil pointer dereference")
                | None => run_backend onlyNetstack t
                end
            end
          else (t, Panic "internal error: exit node resolver not wired up")
      end
  end.

Definition run (t : daemon) : daemon * result unit :=
  if decide (statePath t = EmptyString) then (t, Err (Errorf "state path is required" []))
  else
    match monitor_New env with
    | Some x => (t, Err (Wrapf "monitor.New: %w" [] x))
    | None =>
        match safesocket_Listen env (socketPath t) with
        | Some x => (t, Err (Errorf "safesocket.Listen: %v" [error_text env x]))
        | None =>
            let t := set_exit t (S (exit_count t)) in
            run_engine (set_servers t (S (servers t)))
        end
    end.

Definition Start (t : daemon) : daemon * result unit :=
  match timer_Start env with
  | Some x => (t, Err x)
  | None => run (set_timer t true)
  end.

(** The state of a daemon is kept in a directory, but it is compared with the default
    state file: a daemon whose state directory is the default one has that directory
    among what it removes when it is made. *)
Theorem own_state_removed (d : default_paths) (path : string) :
  path = default_state_dir d -> path <> DefaultTailscaledStateFile d ->
  RemoveTree (ipnServerOpts (goos (engine_calls env)) path (home_dir env)).1
    ∈ stale_files d path \/ path = EmptyString.
Proof.
  intros -> Hne. destruct (decide (default_state_dir d = EmptyString)) as [He|He]; [by right|]. left.
  unfold stale_files, ipnServerOpts. rewrite !(decide_False (P := default_state_dir d = _)) by done.
  cbn. set_solver.
Qed.

(** *** What a start leaves *)

Lemma run_backend_keeps u t :
  let t' := (run_backend u t).1 in
  exit_count t' = exit_count t /\ servers t' = servers t /\ node_timer t' = node_timer t /\
  engine t' = engine t.
Proof.
  unfold run_backend. destruct (ipnServerOpts _ _ _) as [root eph].
  destruct (tested AtStore _); [done|]. destruct (NewLocalBackend env _ _ eph) as [b err].
  destruct (tested AtBackend err); [done|]. destruct (SetVarRoot env b); [done|].
  by destruct (netStack_Start _ _ _ _).
Qed.

Lemma run_engine_keeps t :
  let t' := (run_engine t).1 in
  exit_count t' = exit_count t /\ servers t' = servers t /\ node_timer t' = node_timer t /\
  same_open (engine t) (engine t').
Proof.
  unfold run_engine.
  pose proof (createEngine_opens (engine_calls env) (port_ t) (tunname t) (engine t)) as Ho.
  destruct (createEngine _ _ _ _) as [e r]. cbn in Ho. cbn zeta.
  destruct (tested AtEngine _); [done|]. destruct r as [c u| |errs]; [|done|done].
  destruct (GetResolver env); [|done]. destruct (tested AtNetstack _); [done|].
  destruct newNetstack; [done|].
  pose proof (run_backend_keeps u (set_engine t e)) as (-> & -> & -> & ->). done.
Qed.

(** Whether [run] gets as far as its server. *)
Definition serves (t : daemon) : bool :=
  bool_decide (statePath t <> EmptyString) && bool_decide (monitor_New env = None)
  && bool_decide (safesocket_Listen env (socketPath t) = None).

Lemma run_keeps t :
  let t' := (run t).1 in
  exit_count t' = exit_count t + (if serves t then 1 else 0) /\
  servers t' = servers t + (if serves t then 1 else 0) /\
  node_timer t' = node_timer t /\ same_open (engine t) (engine t').
Proof.
  unfold run, serves. destruct (decide (statePath t = EmptyString)).
  { rewrite bool_decide_eq_false_2 by naive_solver. cbn. rewrite !Nat.add_0_r. done. }
  rewrite bool_decide_eq_true_2 by done. cbn [andb].
  destruct (monitor_New env); [cbn; by rewrite !Nat.add_0_r|].
  destruct (safesocket_Listen env _); [cbn; by rewrite !Nat.add_0_r|].
  match goal with |- context [run_engine ?t1] =>
    destruct (run_engine_keeps t1) as (-> & -> & -> & Ho) end.
  cbn. split_and!; [lia|lia|done|exact Ho].
Qed.

(** A start, whether it succeeds, fails or panics, leaves no tunnel or router open that
    was not passed on to an engine.  One that fails after the node check timer was
    started leaves the timer running. *)
Theorem Start_leaves os synology d l path :
  let t := (Start (NewTailscaleDaemon os synology d l path)).1 in
  tun_open (engine t) = 0 /\ router_open (engine t) = 0 /\
  node_timer t = bool_decide (timer_Start env = None).
Proof.
  unfold Start. destruct (timer_Start env) eqn:E; [done|].
  pose proof (run_keeps (set_timer (NewTailscaleDaemon os synology d l path) true))
    as (_ & _ & Ht & [Ho Hr]).
  cbn in Ht, Ho, Hr. cbn zeta. by rewrite bool_decide_eq_true_2.
Qed.

(** The servers that a start leaves, and the wait group. *)
Lemma Start_servers os synology d l path :
  let t0 := NewTailscaleDaemon os synology d l path in
  let t := (Start t0).1 in
  servers t = (if bool_decide (timer_Start env = None) && serves t0 then 1 else 0) /\
  exit_count t = servers t.
Proof.
  cbn zeta. unfold Start. destruct (timer_Start env) eqn:E; [done|].
  pose proof (run_keeps (set_timer (NewTailscaleDaemon os synology d l path) true))
    as (Hx & Hs & _).
  rewrite Hx, Hs. cbn. done.
Qed.

(** The server's result is assigned to the very variable in which [run] keeps the
    error of its own calls.  When no name of the tunnel list works and the server
    ends without an error just then, [run] goes on with an engine that is nil and
    panics, where it was to report that no engine could be made. *)
Theorem server_result_hides_failure t :
  statePath t ≠ EmptyString -> monitor_New env = None -> safesocket_Listen env (socketPath t) = None ->
  Forall (fun n => ~ works (engine_calls env) (port_ t) n) (Split "," (tunname t)) ->
  (srv_ends env = Some (AtEngine, None) -> exists why, (run t).2 = Panic why) /\
  (srv_ends env = None -> exists x, (run t).2 = Err (Wrapf "createEngine: %w" [] x)).
Proof.
  intros Hp Hm Hl Hw. unfold run. rewrite decide_False, Hm, Hl by done.
  unfold run_engine, tested. cbn [port_ tunname engine set_exit].
  pose proof (createEngine_fails _ _ _ (engine t) Hw) as Hx.
  destruct (createEngine _ _ _ _) as [e r]. cbn in Hx.
  split; intros ->.
  - rewrite decide_True by done. destruct r; [done|by eexists..].
  - destruct r; [done|by eexists..].
Qed.
End Run.

(** ** Checking the nodes *)

(** [errors.Is(err, context.DeadlineExceeded)]: the error itself or one it wraps. *)
Fixpoint is_deadline (e : error) : bool :=
  match e with
  | DeadlineExceeded => true
  | Wrapf _ _ e | SyscallError _ e => is_deadline e
  | _ => false
  end.

(** The loop of pings, with the outcome of every ping; no result when the fuel is used
    up. *)
Fixpoint ping_loop (fuel : nat) (Ping : nat -> option error) (i : nat) : option (option error) :=
  match fuel with
  | O => None
  | S fuel =>
      match Ping i with
      | Some e => if is_deadline e then Some (Some e) else ping_loop fuel Ping (S i)
      | None => Some None
      end
  end.

(** An address of the standard library is its bytes. *)
Definition AddrFromSlice_ok (ip : list Z) : bool :=
  Nat.eqb (length ip) 4 || Nat.eqb (length ip) 16.

Inductive checked := CannotResolve | TimedOut | Pong.

(** The goroutine for one node.  An address that is no address is reported with the
    text of an error that is nil at that point. *)
Definition check_node (fuel : nat) (LookupIP : error + list (list Z)) (Ping : nat -> option error)
    : option (result checked) :=
  match LookupIP with
  | inl _ | inr [] => Some (Ok CannotResolve)
  | inr (ip :: _) =>
      if AddrFromSlice_ok ip then
        r ← ping_loop fuel Ping 0;
        Some (Ok (match r with Some _ => TimedOut | None => Pong end))
      else Some (Panic "nil pointer dereference")
  end.

Record peer_status := mkPeerStatus { ps_DNSName : string; ps_Online : bool }.

Definition nodeCheckTimeout : Z := 5000.

(** [Status] is the peers of the backend, or nothing when it panics, which the deferred
    function recovers from.  The result is the next interval and the error, and the
    names of the nodes for which a goroutine is started. *)
Definition nodeCheck (t : daemon) (Status : option (list peer_status))
    : Z * option error * list string :=
  if cancelled t then (nodeCheckTimeout, Some Canceled, [])
  else (nodeCheckTimeout, None,
        match Status with
        | Some ps => ps_DNSName <$> filter (fun p => ps_Online p = true) ps
        | None => []
        end).

(** What ends the loop. *)
Definition answers (o : option error) : bool :=
  match o with Some e => is_deadline e | None => true end.

Lemma ping_loop_waits n Ping i :
  (forall j, i <= j < i + n -> answers (Ping j) = false) ->
  forall fuel, ping_loop (n + fuel) Ping i = ping_loop fuel Ping (i + n).
Proof.
  revert i. induction n as [|n IH]; intros i H fuel; [by rewrite Nat.add_0_r|].
  cbn [Nat.add ping_loop]. pose proof (H i ltac:(lia)) as Hi. unfold answers in Hi.
  destruct (Ping i) as [e|]; [|done]. rewrite Hi, IH by (intros; apply H; lia).
  by rewrite Nat.add_succ_comm.
Qed.

Lemma ping_loop_ends fuel Ping i r :
  ping_loop fuel Ping i = Some r ->
  exists n, answers (Ping n) = true /\ Ping n = r.
Proof.
  revert i. induction fuel as [|fuel IH]; intros i H; [done|]. cbn in H.
  destruct (Ping i) as [e|] eqn:Ei; [|exists i; rewrite Ei; naive_solver].
  destruct (is_deadline e) eqn:Ed; [|by apply IH in H].
  exists i. rewrite Ei. cbn. naive_solver.
Qed.

Lemma first_true (f : nat -> bool) n :
  f n = true -> exists m, f m = true /\ forall j, j < m -> f j = false.
Proof.
  induction n as [n IH] using lt_wf_ind. intros Hn.
  destruct (decide (Exists (fun j => f j = true) (seq 0 n))) as [H|H].
  - apply Exists_exists in H as (j & Hj & Hf). apply elem_of_seq in Hj. apply (IH j); [lia|done].
  - exists n. split; [done|]. intros j Hj. apply not_true_is_false. intros Hf.
    apply H, Exists_exists. exists j. split; [apply elem_of_seq; lia|done].
Qed.

(** C32. The check of a node that resolves to an address ends if and only if some ping is
    answered or runs into the deadline: the first such ping [n] is its outcome, after
    exactly [n] failed ones.  Any other error is retried at once, so when the daemon is
    stopped and every ping fails with the cancellation of the context from some ping
    on, with none answered before, the goroutine never ends. *)
Theorem check_node_ends ip rest Ping :
  AddrFromSlice_ok ip = true ->
  ((exists fuel r, check_node fuel (inr (ip :: rest)) Ping = Some r) <->
     exists n, answers (Ping n) = true) /\
  (forall n fuel, answers (Ping n) = true -> (forall j, j < n -> answers (Ping j) = false) ->
     n < fuel ->
     check_node fuel (inr (ip :: rest)) Ping
       = Some (Ok (match Ping n with Some _ => TimedOut | None => Pong end))) /\
  (forall k fuel, (forall j, j < k -> answers (Ping j) = false) ->
     (forall j, k <= j -> Ping j = Some Canceled) ->
     check_node fuel (inr (ip :: rest)) Ping = None).
Proof.
  intros Hip. unfold check_node. rewrite Hip.
  assert (forall n fuel, answers (Ping n) = true ->
            (forall j, j < n -> answers (Ping j) = false) -> n < fuel ->
            ping_loop fuel Ping 0 = Some (Ping n)) as Hgo.
  { intros n fuel Hn Hb Hf. replace fuel with (n + S (fuel - S n)) by lia.
    rewrite ping_loop_waits by (intros; apply Hb; lia). cbn. unfold answers in Hn.
    destruct (Ping n); [by rewrite Hn|done]. }
  split_and!.
  - split.
    + intros (fuel & r & H). apply bind_Some in H as (o & H & _).
      apply ping_loop_ends in H as (n & ? & _). by exists n.
    + intros [n Hn]. destruct (first_true (fun j => answers (Ping j)) n Hn) as (m & Hm & Hb).
      exists (S m). eexists. by rewrite (Hgo m) by (done || lia).
  - intros n fuel Hn Hb Hf. by rewrite (Hgo n fuel).
  - intros k fuel Hb Hc. destruct (ping_loop fuel Ping 0) as [o|] eqn:E; [|done].
    apply ping_loop_ends in E as (n & Hn & _). destruct (decide (n < k)) as [Hk|Hk].
    + by rewrite Hb in Hn.
    + rewrite Hc in Hn by lia. done.
Qed.

Lemma check_node_ends_witness :
  AddrFromSlice_ok [100; 64; 0; 1]%Z = true /\
  (forall fuel, check_node fuel (inr [[100; 64; 0; 1]%Z]) (fun _ => Some Canceled) = None) /\
  check_node 3 (inr [[100; 64; 0; 1]%Z])
    (fun i => if Nat.eqb i 2 then None else Some ErrLength) = Some (Ok Pong).
Proof.
  split_and!; [done| |].
  - intros fuel.
    destruct (check_node_ends [100; 64; 0; 1]%Z [] (fun _ => Some Canceled) eq_refl) as (_ & _ & H).
    apply (H 0); [lia|done].
  - destruct (check_node_ends [100; 64; 0; 1]%Z []
                (fun i => if Nat.eqb i 2 then None else Some ErrLength) eq_refl) as (_ & H & _).
    apply (H 2); [done| |lia].
    intros j Hj. destruct j as [|[|j]]; [done|done|lia].
Defined.

(** A machine without the tunnel driver. *)
Definition no_driver : engine_env :=
  mkEngineEnv "linux" None (fun _ => (EmptyString, Some (Errorf "no device" []))) (fun _ => None)
    (fun _ => None) (fun _ => None).

Definition no_driver_run (ends : option (point * option error)) : run_env :=
  mkRunEnv no_driver (fun _ => EmptyString) "/root/.tailscale" (fun d => d +:+ "/tailscaled.state")
    (fun _ => Errorf "multierror" []) None None (fun _ => None) ends true true None (fun _ => None)
    (fun _ => true) (fun _ _ => None) (fun _ _ _ => (true, None)) (fun _ => None) (fun _ _ _ => None).

Definition linux_paths : default_paths :=
  mkDefaultPaths "/var/run/tailscale/tailscaled.sock" "/var/lib/tailscale/tailscaled.state"
    "/var/lib/tailscale".

Definition new_daemon (synology : bool) : daemon :=
  NewTailscaleDaemon "linux" synology linux_paths InfoLevel "/var/lib/mycs".

Lemma server_result_hides_failure_witness :
  (exists why, (run (no_driver_run (Some (AtEngine, None)))
                  (new_daemon false)).2 = Panic why) /\
  (exists x, (run (no_driver_run None)
                (new_daemon false)).2
             = Err (Wrapf "createEngine: %w" [] x)).
Proof.
  assert (forall ends, Forall (fun n => ~ works (engine_calls (no_driver_run ends)) 0 n)
                         (Split "," "tailscale0")) as Hw.
  { intros ends. repeat constructor. intros [H _]. by destruct H. }
  split.
  - by apply (server_result_hides_failure (no_driver_run (Some (AtEngine, None)))
                (new_daemon false)).
  - by apply (server_result_hides_failure (no_driver_run None)
                (new_daemon false)).
Defined.

(** On a Synology machine without the driver the daemon falls back to netstack. *)
Example synology_falls_back :
  let r := Start (no_driver_run None) (new_daemon true) in
  r.2 = Ok tt /\ netns_enabled (engine r.1) = false /\
  wg_pending (engine r.1) = [mkEngineConfig 0 None false None false].
Proof. done. Qed.
