(* ===== verification/DaemonStop.v ===== *)
(** * Stopping the daemon

    [Stop] of tailscale/tailscale_daemon.go beside the goroutine of the server, which it
    waits for, and the others that take the daemon's lock: node checks, the goroutine
    that publishes the device, and calls of [WireguardDevice]. *)

From S2P Require Import Prelude GoStrings Daemon.

(** Where the call of [Stop] is: before the lock, with it, at the wait, and returned. *)
Inductive stopper := Outside | Locked | Waiting | Returned.

(** [sd_other]: somebody else holds the lock [mx]. *)
Record shutdown := mkShutdown {
  sd_daemon : daemon;
  sd_stop : stopper;
  sd_other : bool;
}.

(** [nodeCheckTimer.Stop] and [cancel].  The error of the former is only logged; it is an
    outcome whether the timer still runs.  The timer is taken not to wait for a node
    check that waits for the lock. *)
Definition stop_cancel (timer_runs : bool) (t : daemon) : daemon :=
  set_cancelled (set_timer t (node_timer t && timer_runs)).

(** [exit.Wait] returns when the counter is zero. *)
Definition exit_done (t : daemon) : bool := Nat.eqb (exit_count t) 0.

(** [srv.Run] returns and the goroutine releases the wait group. *)
Definition server_returns (t : daemon) : option daemon :=
  match servers t, exit_count t with
  | S n, S m => Some (set_exit (set_servers t n) m)
  | _, _ => None
  end.

Inductive stop_choice :=
| ChLock
| ChCancel (timer_runs : bool)
| ChWaited
| ChServer
| ChOtherLocks
| ChOtherUnlocks.

Definition stop_exec (c : stop_choice) (s : shutdown) : option shutdown :=
  let t := sd_daemon s in
  match c, sd_stop s, sd_other s with
  | ChLock, Outside, false => Some (mkShutdown t Locked false)
  | ChCancel b, Locked, o => Some (mkShutdown (stop_cancel b t) Waiting o)
  | ChWaited, Waiting, o => if exit_done t then Some (mkShutdown t Returned o) else None
  | ChServer, p, o => t' ← server_returns t; Some (mkShutdown t' p o)
  | ChOtherLocks, (Outside | Returned) as p, false => Some (mkShutdown t p true)
  | ChOtherUnlocks, p, true => Some (mkShutdown t p false)
  | _, _, _ => None
  end.

Fixpoint stop_run (cs : list stop_choice) (s : shutdown) : option shutdown :=
  match cs with
  | [] => Some s
  | c :: cs => s ← stop_exec c s; stop_run cs s
  end.

(** How often somebody else takes the lock. *)
Definition others (cs : list stop_choice) : nat :=
  length (List.filter (fun c => match c with ChOtherLocks => true | _ => false end) cs).

(** ** Invariant and measure *)

Record shutdown_ok (s : shutdown) : Prop := {
  so_exit : exit_count (sd_daemon s) = servers (sd_daemon s);
  so_lock : sd_stop s = Locked \/ sd_stop s = Waiting -> sd_other s = false;
  so_cancelled : sd_stop s = Waiting \/ sd_stop s = Returned -> cancelled (sd_daemon s) = true;
  so_returned : sd_stop s = Returned -> servers (sd_daemon s) = 0;
}.

Definition stop_m (p : stopper) : nat :=
  match p with Outside => 3 | Locked => 2 | Waiting => 1 | Returned => 0 end.

Definition shutdown_m (s : shutdown) : nat :=
  stop_m (sd_stop s) + servers (sd_daemon s) + (if sd_other s then 1 else 0).

Lemma stop_exec_ok c s s' : shutdown_ok s -> stop_exec c s = Some s' -> shutdown_ok s'.
Proof.
  intros [He Hl Hc Hr] H. destruct s as [t p o]. cbn in *.
  destruct c; cbn in H.
  - destruct p, o; simplify_eq. split; cbn; naive_solver.
  - destruct p; simplify_eq. split; cbn; naive_solver.
  - destruct p; try done. unfold exit_done in H. destruct (Nat.eqb_spec (exit_count t) 0); [|done].
    simplify_eq. split; cbn; naive_solver lia.
  - apply bind_Some in H as (t' & Ht & H). unfold server_returns in Ht.
    destruct (servers t) eqn:Es, (exit_count t) eqn:Ex; simplify_eq.
    split; cbn; naive_solver lia.
  - destruct p, o; simplify_eq; split; cbn; naive_solver.
  - destruct p, o; simplify_eq; split; cbn; naive_solver.
Qed.

Lemma stop_exec_measure c s s' :
  stop_exec c s = Some s' ->
  shutdown_m s' + 1 <= shutdown_m s + 2 * others [c].
Proof.
  intros H. destruct s as [t p o]. unfold shutdown_m, others. destruct c; cbn in H |- *.
  - destruct p, o; simplify_eq. cbn. lia.
  - destruct p; simplify_eq. cbn. lia.
  - destruct p; try done. destruct (exit_done t); simplify_eq. cbn. lia.
  - apply bind_Some in H as (t' & Ht & H). unfold server_returns in Ht.
    destruct (servers t) eqn:Es, (exit_count t) eqn:Ex; simplify_eq. cbn. lia.
  - destruct p, o; simplify_eq; cbn; lia.
  - destruct p, o; simplify_eq; cbn; lia.
Qed.

Lemma stop_run_ok cs s s' :
  shutdown_ok s -> stop_run cs s = Some s' ->
  shutdown_ok s' /\ shutdown_m s' + length cs <= shutdown_m s + 2 * others cs.
Proof.
  revert s. induction cs as [|c cs IH]; intros s Hs H; [simplify_eq/=; split; [done|lia]|].
  cbn in H. apply bind_Some in H as (s1 & H1 & H).
  pose proof (stop_exec_measure c s s1 H1) as Hm.
  destruct (IH s1 (stop_exec_ok c s s1 Hs H1) H) as [Hok Hlen]. split; [done|].
  assert (others (c :: cs) = others [c] + others cs) as ->.
  { unfold others. change (c :: cs) with ([c] ++ cs). by rewrite List.filter_app, length_app. }
  cbn [length]. lia.
Qed.

(** Until [Stop] has returned something other than a new lock can happen. *)
Lemma stop_progress s :
  shutdown_ok s -> (forall c, c <> ChOtherLocks -> stop_exec c s = None) -> sd_stop s = Returned.
Proof.
  intros [He _ _ _] Hn. destruct s as [t p o]. cbn in *. destruct p; [..|done].
  - destruct o; [by specialize (Hn ChOtherUnlocks ltac:(done))|by specialize (Hn ChLock ltac:(done))].
  - by specialize (Hn (ChCancel false) ltac:(done)).
  - pose proof (Hn ChWaited ltac:(done)) as H1. pose proof (Hn ChServer ltac:(done)) as H2. cbn in H1, H2.
    unfold exit_done, server_returns in *. rewrite He in *. by destruct (servers t).
Qed.


(** ** A daemon without a tunnel is stopped *)

Definition failed_start : daemon :=
  (Start (no_driver_run None)
     (NewTailscaleDaemon "linux" false linux_paths InfoLevel "/var/lib/mycs/tailscaled.state")).1.

