(* ===== verification/MonitorJson.v ===== *)
(** * The JSON form of monitor payloads

    The [json] tags of [eventPayload], [monitorSnapshot] and [counterSnapshot],
    as an instance of the [PayloadCodec] interface the monitor service is proved
    against.  Texts are ASCII.  The decoder matches member names without regard
    to case and skips unknown ones, as [encoding/json] does; a null element of an
    array and a member given twice, neither of which [Marshal] writes for these
    types, are not represented. *)

From stdpp Require Import sorting.
From S2P Require Import Prelude GoStrings GoEncoding GoJson JsonStruct Counter Events Monitor.

(** ** Encoding *)

(** A slice that nothing was appended to is nil, and nil is written as null. *)
Definition enc_slice {A} (enc : A -> json) (l : list A) : json :=
  match l with [] => JNull | _ => JArr (enc <$> l) end.

(** Maps are written in the order of their keys. *)
Definition key_le (x y : string * string) : Prop := String.le x.1 y.1.
#[global] Instance key_le_dec : RelDecision key_le.
Proof. intros x y. apply String.le_dec. Defined.

Definition enc_map (m : gmap string string) : json :=
  JObj ((fun kv => (kv.1, JStr kv.2)) <$> merge_sort key_le (map_to_list m)).

Definition enc_snapshot (f : flatSnapshot) : json :=
  JObj ([("name", from_option JStr JNull (f_Name f));
         ("timestamp", JNum (format_int (f_Timestamp f)));
         ("value", JNum (format_int (f_Value f)))] ++
        match f_Attribs f with
        | None => []
        | Some a => [("attribs", from_option enc_map JNull a)]
        end).

Definition enc_monitor (m : flatMonitor) : json :=
  JObj [("name", JStr (fm_Name m)); ("counters", enc_slice enc_snapshot (fm_Counters m))].

Definition enc_payload (p : flatPayload) : json :=
  JObj [("monitors", enc_slice enc_monitor (fp_Monitors p))].

(** ** Decoding *)

Definition dec_map_entry (m : gmap string string) (k : string) (v : json)
    : option (gmap string string) :=
  s ← dec_text EmptyString v; Some (<[k := s]> m).

Definition dec_attribs (old : option (option (gmap string string))) (v : json)
    : option (option (option (gmap string string))) :=
  match v with
  | JNull => Some None
  | JObj l =>
      let m := match old with Some (Some m) => m | _ => ∅ end in
      m ← dec_members dec_map_entry l m; Some (Some (Some m))
  | _ => None
  end.

Definition set_snapshot_field (f : flatSnapshot) (k : string) (v : json) : option flatSnapshot :=
  if is_field "name" k then
    match v with
    | JNull => Some (mkFlatSnapshot None (f_Timestamp f) (f_Value f) (f_Attribs f))
    | JStr s => Some (mkFlatSnapshot (Some s) (f_Timestamp f) (f_Value f) (f_Attribs f))
    | _ => None
    end
  else if is_field "timestamp" k then
    t ← dec_int (f_Timestamp f) v; Some (mkFlatSnapshot (f_Name f) t (f_Value f) (f_Attribs f))
  else if is_field "value" k then
    x ← dec_int (f_Value f) v; Some (mkFlatSnapshot (f_Name f) (f_Timestamp f) x (f_Attribs f))
  else if is_field "attribs" k then
    a ← dec_attribs (f_Attribs f) v;
    Some (mkFlatSnapshot (f_Name f) (f_Timestamp f) (f_Value f) a)
  else Some f.

Definition dec_snapshot (v : json) : option flatSnapshot :=
  match v with
  | JObj l => dec_members set_snapshot_field l (mkFlatSnapshot None 0 0 None)
  | _ => None
  end.

Definition set_monitor_field (m : flatMonitor) (k : string) (v : json) : option flatMonitor :=
  if is_field "name" k then n ← dec_text (fm_Name m) v; Some (mkFlatMonitor n (fm_Counters m))
  else if is_field "counters" k then
    cs ← dec_slice dec_snapshot v; Some (mkFlatMonitor (fm_Name m) cs)
  else Some m.

Definition dec_monitor (v : json) : option flatMonitor :=
  match v with
  | JObj l => dec_members set_monitor_field l (mkFlatMonitor EmptyString [])
  | _ => None
  end.

Definition set_payload_field (p : flatPayload) (k : string) (v : json) : option flatPayload :=
  if is_field "monitors" k then ms ← dec_slice dec_monitor v; Some (mkFlatPayload ms)
  else Some p.

Definition dec_payload (v : json) : option flatPayload :=
  match v with
  | JNull => Some (mkFlatPayload [])
  | JObj l => dec_members set_payload_field l (mkFlatPayload [])
  | _ => None
  end.

#[global] Instance json_codec : PayloadCodec := {|
  payload_Marshal p := Some (print_json (enc_payload p));
  payload_Unmarshal t := v ← parse_json t; dec_payload v;
  text_ok := ascii_only;
|}.

(** ** The laws *)

Lemma mapM_roundtrip {A B} (enc : A -> json) (dec : json -> option B) (norm : A -> B) l :
  Forall (fun x => dec (enc x) = Some (norm x)) l ->
  dec_slice dec (enc_slice enc l) = Some (norm <$> l).
Proof.
  destruct l as [|y l]; [done|]. cbn [enc_slice dec_slice]. generalize (y :: l). clear y l.
  intros l Hl. apply mapM_Some_2, Forall2_fmap. by apply Forall_Forall2_diag.
Qed.

Lemma enc_slice_ok {A} (enc : A -> json) l :
  Forall (fun x => json_ok (enc x)) l -> json_ok (enc_slice enc l).
Proof. destruct l; [constructor|]. intros H. constructor. by apply Forall_fmap. Qed.

Lemma dec_map_entries l m :
  dec_members dec_map_entry ((fun kv : string * string => (kv.1, JStr kv.2)) <$> l) m
    = Some (foldl (fun m kv => <[kv.1 := kv.2]> m) m l).
Proof. revert m. induction l as [|[k v] l IH]; intros m; [done|]. csimpl. apply IH. Qed.

Lemma foldl_insert_union (l : list (string * string)) (m : gmap string string) :
  NoDup l.*1 -> foldl (fun m kv => <[kv.1 := kv.2]> m) m l = list_to_map l ∪ m.
Proof.
  revert m. induction l as [|[k v] l IH]; intros m Hnd; csimpl; [by rewrite map_empty_union|].
  apply NoDup_cons in Hnd as [Hk Hnd]. rewrite IH by done. simpl.
  rewrite <- insert_union_l, insert_union_r by (by apply not_elem_of_list_to_map). done.
Qed.

Lemma dec_enc_map m : dec_attribs None (enc_map m) = Some (Some (Some m)).
Proof.
  unfold enc_map, dec_attribs. rewrite dec_map_entries. simpl.
  assert (merge_sort key_le (map_to_list m) ≡ₚ map_to_list m) as Hp by apply merge_sort_Permutation.
  assert (NoDup (merge_sort key_le (map_to_list m)).*1) as Hnd.
  { rewrite Hp. apply NoDup_fst_map_to_list. }
  rewrite foldl_insert_union, map_union_empty by done. do 3 f_equal.
  rewrite (list_to_map_proper _ (map_to_list m)) by done. apply list_to_map_to_list.
Qed.

Lemma enc_map_ok m :
  map_Forall (fun k v => ascii_only k = true /\ ascii_only v = true) m -> json_ok (enc_map m).
Proof.
  intros Hm. constructor. apply Forall_fmap. rewrite merge_sort_Permutation.
  apply Forall_forall. intros [k v] Hkv%elem_of_map_to_list. simpl.
  destruct (Hm k v Hkv). by repeat constructor.
Qed.

Lemma set_timestamp f z :
  int64_range z ->
  set_snapshot_field f "timestamp" (JNum (format_int z))
    = Some (mkFlatSnapshot (f_Name f) z (f_Value f) (f_Attribs f)).
Proof.
  intros Hz. transitivity (t ← dec_int (f_Timestamp f) (JNum (format_int z));
    Some (mkFlatSnapshot (f_Name f) t (f_Value f) (f_Attribs f))); [done|].
  by rewrite dec_format_int.
Qed.

Lemma set_snapshot_value f z :
  int64_range z ->
  set_snapshot_field f "value" (JNum (format_int z))
    = Some (mkFlatSnapshot (f_Name f) (f_Timestamp f) z (f_Attribs f)).
Proof.
  intros Hz. transitivity (x ← dec_int (f_Value f) (JNum (format_int z));
    Some (mkFlatSnapshot (f_Name f) (f_Timestamp f) x (f_Attribs f))); [done|].
  by rewrite dec_format_int.
Qed.

Lemma dec_enc_snapshot f : snapshot_ok f -> dec_snapshot (enc_snapshot f) = Some (normal_snapshot f).
Proof.
  intros (Ht & Hv & _). unfold dec_snapshot, enc_snapshot.
  assert (forall f', dec_members set_snapshot_field
    ([("name", from_option JStr JNull (f_Name f)); ("timestamp", JNum (format_int (f_Timestamp f)));
      ("value", JNum (format_int (f_Value f)))] ++ f') (mkFlatSnapshot None 0 0 None)
    = dec_members set_snapshot_field f' (mkFlatSnapshot (f_Name f) (f_Timestamp f) (f_Value f) None))
    as H.
  { intros f'. cbn [dec_members app].
    assert (set_snapshot_field (mkFlatSnapshot None 0 0 None) "name"
      (from_option JStr JNull (f_Name f)) = Some (mkFlatSnapshot (f_Name f) 0 0 None)) as ->
      by (by destruct (f_Name f)).
    simpl. rewrite set_timestamp by done. simpl. by rewrite set_snapshot_value. }
  rewrite H. destruct f as [n t v [[m|]|]]; [|done..].
  transitivity (a ← dec_attribs None (enc_map m); Some (mkFlatSnapshot n t v a)).
  - cbn [f_Attribs f_Name f_Timestamp f_Value dec_members from_option].
    transitivity (acc ← (a ← dec_attribs None (enc_map m); Some (mkFlatSnapshot n t v a));
                  Some acc); [done|]. by destruct (dec_attribs None (enc_map m)).
  - by rewrite dec_enc_map.
Qed.

Lemma enc_snapshot_ok f : snapshot_ok f -> json_ok (enc_snapshot f).
Proof.
  intros (Ht & Hv & Hn & Ha). constructor. apply Forall_app. split.
  - repeat constructor; simpl. by destruct (f_Name f); constructor.
  - destruct (f_Attribs f) as [[m|]|]; [|by repeat constructor..].
    apply Forall_singleton. split; [done | by apply enc_map_ok].
Qed.

Lemma dec_enc_monitor m :
  Forall snapshot_ok (fm_Counters m) ->
  dec_monitor (enc_monitor m)
    = Some (mkFlatMonitor (fm_Name m) (normal_snapshot <$> fm_Counters m)).
Proof.
  intros Hcs.
  transitivity (acc ← (cs ← dec_slice dec_snapshot (enc_slice enc_snapshot (fm_Counters m));
                       Some (mkFlatMonitor (fm_Name m) cs)); Some acc); [done|].
  rewrite (mapM_roundtrip enc_snapshot dec_snapshot normal_snapshot); [done|].
  eapply Forall_impl; [exact Hcs|]. apply dec_enc_snapshot.
Qed.

#[global] Instance json_codec_laws : PayloadCodecLaws json_codec.
Proof.
  split. intros p Hp. exists (print_json (enc_payload p)). split; [done|].
  unfold payload_Unmarshal, json_codec. rewrite parse_print.
  - transitivity (acc ← (ms ← dec_slice dec_monitor (enc_slice enc_monitor (fp_Monitors p));
                         Some (mkFlatPayload ms)); Some acc); [done|].
    rewrite (mapM_roundtrip enc_monitor dec_monitor
      (fun m => mkFlatMonitor (fm_Name m) (normal_snapshot <$> fm_Counters m))); [done|].
    eapply Forall_impl; [exact Hp|]. intros m [_ Hcs]. by apply dec_enc_monitor.
  - constructor. apply Forall_singleton. split; [done|]. simpl.
    apply enc_slice_ok. eapply Forall_impl; [exact Hp|]. intros m [Hn Hcs].
    constructor. apply Forall_cons. split; [split; [done | by constructor]|].
    apply Forall_singleton. split; [done|]. simpl. apply enc_slice_ok.
    eapply Forall_impl; [exact Hcs|]. apply enc_snapshot_ok.
Qed.
