(* ===== verification/MonitorSystem.v ===== *)
(** * The running monitor service

    The methods of [Monitor] composed into a transition system: callers update
    counters and register them, the timer collects, goroutines post batches and
    handle the sender's answers, in any interleaving the locks allow.  The invariant
    accounts for every measurement of a cumulative counter, whatever the interleaving
    and however often posting fails; [MonitorHistory] states what it means for the
    callers. *)

From S2P Require Import Prelude Counter Events Monitor.

(** ** What a payload reports for the counters of a given name *)

Section Amounts.
Variable n : string.
Local Open Scope Z_scope.

Definition snap_amount (cs : counterSnapshot) : Z :=
  if decide (cs_Name cs = Some n) then cs_Value cs else 0.
Definition payload_amount (p : eventPayload) : Z :=
  sum_by (fun m => sum_by snap_amount (ms_Counters m)) (ep_Monitors p).
Definition queue_amount (q : list eventPayload) : Z := sum_by payload_amount q.

Definition flat_snap_amount (f : flatSnapshot) : Z :=
  if decide (f_Name f = Some n) then f_Value f else 0.
Definition flat_amount (p : flatPayload) : Z :=
  sum_by (fun m => sum_by flat_snap_amount (fm_Counters m)) (fp_Monitors p).

Lemma queue_amount_app q1 q2 :
  queue_amount (q1 ++ q2) = queue_amount q1 + queue_amount q2.
Proof. apply sum_by_app. Qed.

Lemma flat_payload_amount h p : flat_amount (flat_payload h p) = payload_amount p.
Proof.
  unfold flat_amount, flat_payload, payload_amount. simpl. rewrite sum_by_fmap.
  apply sum_by_ext. intros m _. simpl. by rewrite sum_by_fmap.
Qed.

Lemma normal_payload_amount p : flat_amount (normal_payload p) = flat_amount p.
Proof.
  unfold flat_amount, normal_payload. simpl. rewrite sum_by_fmap.
  apply sum_by_ext. intros m _. simpl. by rewrite sum_by_fmap.
Qed.

Lemma load_list_amount {A B} (load : A -> attrib_store -> B * attrib_store)
    (f : A -> Z) (g : B -> Z) l h :
  (forall x h, g (load x h).1 = f x) -> sum_by g (load_list load l h).1 = sum_by f l.
Proof.
  intros Hfg. revert h. induction l as [|x l IH]; intros h; [done|]. simpl.
  specialize (Hfg x h). destruct (load x h) as [y h1].
  specialize (IH h1). destruct (load_list load l h1) as [ys h2]. simpl in *. congruence.
Qed.

Lemma load_payload_amount f h : payload_amount (load_payload f h).1 = flat_amount f.
Proof.
  assert (payload_amount (load_payload f h).1 =
          sum_by (fun m => sum_by snap_amount (ms_Counters m))
                 (load_list load_monitor (fp_Monitors f) h).1) as ->.
  { unfold load_payload. by destruct (load_list _ _ _). }
  apply load_list_amount. clear. intros m h.
  transitivity (sum_by snap_amount (load_list load_snapshot (fm_Counters m) h).1).
  { unfold load_monitor. by destruct (load_list _ _ _). }
  apply load_list_amount. clear. intros f h.
  unfold load_snapshot. by destruct (f_Attribs f) as [[]|].
Qed.

(** *** Sums over the counters of the memory *)

Definition mem_sum (w : Counter -> Z) (cs : gmap counter_ref Counter) : Z :=
  sum_by (fun rc => if decide (c_name rc.2 = n) then w rc.2 else 0) (map_to_list cs).

Lemma mem_sum_delete w cs r c :
  cs !! r = Some c ->
  mem_sum w cs = (if decide (c_name c = n) then w c else 0) + mem_sum w (delete r cs).
Proof.
  intros Hr. unfold mem_sum. by rewrite <- (sum_by_perm _ _ _ (map_to_list_delete cs r c Hr)).
Qed.

Lemma mem_sum_fresh w cs r c :
  cs !! r = None ->
  mem_sum w (<[r := c]> cs) = (if decide (c_name c = n) then w c else 0) + mem_sum w cs.
Proof.
  intros Hr. unfold mem_sum. by rewrite (sum_by_perm _ _ _ (map_to_list_insert cs r c Hr)).
Qed.

Lemma mem_sum_update w cs r c c' :
  cs !! r = Some c -> c_name c' = c_name c ->
  mem_sum w (<[r := c']> cs)
    = mem_sum w cs + (if decide (c_name c = n) then w c' - w c else 0).
Proof.
  intros Hr Hn. rewrite (mem_sum_delete w cs r c Hr).
  rewrite <- (insert_delete_eq cs r), mem_sum_fresh by apply lookup_delete_eq.
  rewrite Hn. case_decide; lia.
Qed.

(** What the snapshots taken so far have reported, and what [Get] returns, for
    all the counters named [n] together. *)
Definition reported (cs : gmap counter_ref Counter) : Z := mem_sum c_cumalativeValue cs.
Definition total (cs : gmap counter_ref Counter) : Z := mem_sum Get cs.

(** Every counter with that name is cumulative. *)
Definition cumulative_name (cs : gmap counter_ref Counter) : Prop :=
  map_Forall (fun _ c => c_name c = n -> c_cumalative c = true) cs.

End Amounts.

(** ** The system *)

Section System.
Context `{sdk : CloudEvents} `{codec : PayloadCodec}.
Variable time_now : nat -> Z.
Variable uuid : nat -> string.

(** [sys_waiting] holds the batches of goroutines that have not called the sender
    yet, [sys_posting] those whose call has not returned, with the events they
    posted; together they are what [sendWG] counts.  [sys_accepted] records the
    events the sender has accepted. *)
Record system := mkSystem {
  sys_svc : MonitorService;
  sys_mem : memory;
  sys_timer : bool;
  sys_waiting : list (list eventPayload);
  sys_posting : list (list eventPayload * list Event);
  sys_accepted : list Event;
}.

Definition set_svc (s : system) (ms : MonitorService) (mem : memory) : system :=
  {| sys_svc := ms; sys_mem := mem; sys_timer := sys_timer s;
     sys_waiting := sys_waiting s; sys_posting := sys_posting s;
     sys_accepted := sys_accepted s |}.

Definition set_timer (s : system) (on : bool) : system :=
  {| sys_svc := sys_svc s; sys_mem := sys_mem s; sys_timer := on;
     sys_waiting := sys_waiting s; sys_posting := sys_posting s;
     sys_accepted := sys_accepted s |}.

Definition set_counters (s : system) (cs : gmap counter_ref Counter) : system :=
  set_svc s (sys_svc s) (mkMemory cs (mem_attribs (sys_mem s)) (mem_clock (sys_mem s))).

Definition spawn (s : system) (batch : list eventPayload) : system :=
  {| sys_svc := sys_svc s; sys_mem := sys_mem s; sys_timer := sys_timer s;
     sys_waiting := sys_waiting s ++ [batch]; sys_posting := sys_posting s;
     sys_accepted := sys_accepted s |}.

(** The timer fires. *)
Definition tick (s : system) : system :=
  let '(batch, ms, mem) := collect time_now (sys_svc s) (sys_mem s) in
  let s := set_svc s ms mem in
  match batch with Some b => spawn s b | None => s end.

(** The second half of [Stop], once the timer is off and no post is pending. *)
Definition flush (s : system) : system :=
  let (ms, mem) := collectEvents time_now (sys_svc s) (sys_mem s) in
  let (batch, ms) := postEvents ms in
  spawn (set_svc s ms mem) batch.

(** A goroutine marshals its batch and, unless it is empty, calls the sender. *)
Definition send (s : system) (w1 w2 : list (list eventPayload)) (batch : list eventPayload)
    : system :=
  let evs := new_events time_now uuid (mem_clock (sys_mem s)) (mem_attribs (sys_mem s)) batch in
  {| sys_svc := sys_svc s;
     sys_mem := mkMemory (mem_counters (sys_mem s)) (mem_attribs (sys_mem s))
                         (mem_clock (sys_mem s) + length batch);
     sys_timer := sys_timer s;
     sys_waiting := w1 ++ w2;
     sys_posting := match evs with [] => sys_posting s | _ => sys_posting s ++ [(batch, evs)] end;
     sys_accepted := sys_accepted s |}.

(** The sender answers; [acc] are the events it accepted. *)
Definition respond (s : system) (p1 p2 : list (list eventPayload * list Event))
    (batch : list eventPayload) (answer : list CloudEventError * option error)
    (acc : list Event) : system :=
  let (ms, mem) := post_response batch answer (sys_svc s) (sys_mem s) in
  {| sys_svc := ms; sys_mem := mem; sys_timer := sys_timer s;
     sys_waiting := sys_waiting s; sys_posting := p1 ++ p2;
     sys_accepted := sys_accepted s ++ acc |}.

(** A sender: its answer to some events, and which of them it has accepted. *)
Definition Sender : Type := list Event -> (list CloudEventError * option error) * list Event.

(** [Stop], once the timer is off and the goroutines already started have ended:
    what is left is collected and posted, and its answer is waited for. *)
Definition Stop (sender : Sender) (s : system) : system :=
  let s := flush (set_timer s false) in
  match sys_waiting s with
  | [batch] =>
      let s := send s [] [] batch in
      match sys_posting s with
      | [(b, evs)] => let (answer, acc) := sender evs in respond s [] [] b answer acc
      | _ => s
      end
  | _ => s
  end.

(** What a sender may answer to [evs]: either nothing was accepted and the call
    failed, or the errors name some of the events, each at most once, and the
    others were accepted.  A sender is given pointers and may change the events, but
    not the data they carry. *)
Definition answer_ok (evs acc : list Event) (answer : list CloudEventError * option error)
    : Prop :=
  match answer with
  | (_, Some _) => acc = []
  | (errs, None) => (Data <$> evs) ≡ₚ (Data <$> ((ce_Event <$> errs) ++ acc))
  end.

(** Callers may also create maps, and write to the maps they passed to
    [NewCounterWithAttribs] without going through the counter. *)
Inductive step : system -> system -> Prop :=
| step_counter s r c o :
    mem_counters (sys_mem s) !! r = Some c -> op_ok o ->
    match o with OpCollect _ => False | _ => True end ->
    step s (set_counters s (<[r := (counter_step c o).2]> (mem_counters (sys_mem s))))
| step_new_counter s r name cu iz at_ :
    mem_counters (sys_mem s) !! r = None -> text_ok name = true ->
    step s (set_counters s
      (<[r := NewCounterWithAttribs name cu iz at_]> (mem_counters (sys_mem s))))
| step_add_attribute s r c k v h :
    mem_counters (sys_mem s) !! r = Some c -> text_ok k = true -> text_ok v = true ->
    AddAttribute c k v (mem_attribs (sys_mem s)) = Ok h ->
    step s (set_svc s (sys_svc s)
      (mkMemory (mem_counters (sys_mem s)) h (mem_clock (sys_mem s))))
| step_write_map s r m :
    map_Forall (fun k v => text_ok k = true /\ text_ok v = true) m ->
    step s (set_svc s (sys_svc s)
      (mkMemory (mem_counters (sys_mem s)) (<[r := m]> (mem_attribs (sys_mem s)))
                (mem_clock (sys_mem s))))
| step_new_monitor s name :
    text_ok name = true -> step s (set_svc s (NewMonitor name (sys_svc s)) (sys_mem s))
| step_add_counter s i m r :
    s_monitors (sys_svc s) !! i = Some m -> is_Some (mem_counters (sys_mem s) !! r) ->
    step s (set_svc s (set_monitors (sys_svc s)
      (<[i := AddCounter r m]> (s_monitors (sys_svc s)))) (sys_mem s))
| step_delete_counter s i m m' r :
    s_monitors (sys_svc s) !! i = Some m -> DeleteCounter r m = Ok m' ->
    step s (set_svc s (set_monitors (sys_svc s)
      (<[i := m']> (s_monitors (sys_svc s)))) (sys_mem s))
| step_start s : step s (set_timer s true)
| step_tick s : sys_timer s = true -> step s (tick s)
| step_stop_timer s : step s (set_timer s false)
| step_flush s :
    sys_timer s = false -> sys_waiting s = [] -> sys_posting s = [] -> step s (flush s)
| step_send s w1 w2 batch :
    sys_waiting s = w1 ++ batch :: w2 -> step s (send s w1 w2 batch)
| step_respond s p1 p2 batch evs answer acc :
    sys_posting s = p1 ++ (batch, evs) :: p2 -> answer_ok evs acc answer ->
    step s (respond s p1 p2 batch answer acc).

Definition initial (ms : MonitorService) : system :=
  {| sys_svc := ms; sys_mem := mkMemory ∅ ∅ 0; sys_timer := false;
     sys_waiting := []; sys_posting := []; sys_accepted := [] |}.

(** The states a new service can reach. *)
Inductive reachable : system -> Prop :=
| reach_initial collectCount collectInterval ms :
    NewMonitorService collectCount collectInterval = Ok ms -> reachable (initial ms)
| reach_step s s' : reachable s -> step s s' -> reachable s'.

(** *** What is on its way for the counters named [n] *)

Definition event_amount (n : string) (e : Event) : Z :=
  match payload_Unmarshal (Data e) with Some f => flat_amount n f | None => 0 end.

Definition queued (n : string) (s : system) : Z := queue_amount n (s_eventPayloads (sys_svc s)).
Definition in_flight (n : string) (s : system) : Z :=
  (sum_by (queue_amount n) (sys_waiting s)
   + sum_by (fun p => queue_amount n p.1) (sys_posting s))%Z.
Definition accepted (n : string) (s : system) : Z := sum_by (event_amount n) (sys_accepted s).

End System.

(** ** The invariant *)

Section Invariant.
Context `{sdk : CloudEvents} `{codec : PayloadCodec}.
Context `{!CloudEventsLaws sdk} `{!PayloadCodecLaws codec}.
Variable time_now : nat -> Z.
Variable uuid : nat -> string.
Hypothesis clock_range : forall i, int64_range (time_now i).

Implicit Types (mem : memory) (s : @system sdk) (n : string).

Definition store_ok (h : attrib_store) : Prop :=
  map_Forall (fun _ m => map_Forall (fun k v => text_ok k = true /\ text_ok v = true) m) h.

Definition cs_ok (cs : counterSnapshot) : Prop :=
  int64_range (cs_Timestamp cs) /\ int64_range (cs_Value cs) /\
  match cs_Name cs with Some n => text_ok n = true | None => True end.

Definition ep_ok (p : eventPayload) : Prop :=
  Forall (fun m => text_ok (ms_Name m) = true /\ Forall cs_ok (ms_Counters m)) (ep_Monitors p).

Definition counters_ok (cs : gmap counter_ref Counter) : Prop :=
  map_Forall (fun _ c => counter_ok c /\ text_ok (c_name c) = true) cs.

Lemma store_ok_lookup h r : store_ok h ->
  map_Forall (fun k v => text_ok k = true /\ text_ok v = true) (default ∅ (h !! r)).
Proof.
  intros Hh. destruct (h !! r) as [m|] eqn:E; simpl; [by apply (Hh r) | apply map_Forall_empty].
Qed.

Lemma ep_ok_flat h p : store_ok h -> ep_ok p -> payload_ok (flat_payload h p).
Proof.
  intros Hh Hp. unfold payload_ok, flat_payload. simpl. apply Forall_fmap.
  eapply Forall_impl; [exact Hp|]. intros m [Hm Hcs]. split; [done|]. simpl.
  apply Forall_fmap. eapply Forall_impl; [exact Hcs|]. intros cs (Ht & Hv & Hn).
  split_and!; [done..|]. simpl. destruct (cs_Attribs cs) as [[r|]|]; simpl; [|done..].
  by apply store_ok_lookup.
Qed.

Lemma normal_payload_ok p : payload_ok p -> payload_ok (normal_payload p).
Proof.
  intros Hp. unfold payload_ok, normal_payload. simpl. apply Forall_fmap.
  eapply Forall_impl; [exact Hp|]. intros m [Hm Hcs]. split; [done|]. simpl.
  apply Forall_fmap. eapply Forall_impl; [exact Hcs|]. intros f (Ht & Hv & Hn & Ha).
  split_and!; [done..|]. simpl. by destruct (f_Attribs f) as [[]|].
Qed.

Lemma load_list_ok {A B} (load : A -> attrib_store -> B * attrib_store)
    (P : A -> Prop) (Q : B -> Prop) l h :
  (forall x h, P x -> store_ok h -> Q (load x h).1 /\ store_ok (load x h).2) ->
  Forall P l -> store_ok h ->
  Forall Q (load_list load l h).1 /\ store_ok (load_list load l h).2.
Proof.
  intros HPQ Hl. revert h. induction Hl as [|x l Hx Hl IH]; intros h Hh; [done|]. simpl.
  destruct (HPQ x h Hx Hh) as [Hy Hh1]. destruct (load x h) as [y h1].
  destruct (IH h1 Hh1) as [Hys Hh2]. destruct (load_list load l h1) as [ys h2].
  simpl in *. auto.
Qed.

Lemma load_snapshot_ok f h :
  snapshot_ok f -> store_ok h ->
  cs_ok (load_snapshot f h).1 /\ store_ok (load_snapshot f h).2.
Proof.
  intros (Ht & Hv & Hn & Ha) Hh. unfold load_snapshot.
  destruct (f_Attribs f) as [[m|]|]; simpl; try done.
  split; [done|]. by apply map_Forall_insert_2.
Qed.

Lemma load_payload_ok f h :
  payload_ok f -> store_ok h -> ep_ok (load_payload f h).1 /\ store_ok (load_payload f h).2.
Proof.
  intros Hf Hh. unfold load_payload, ep_ok.
  pose proof (load_list_ok load_monitor
    (fun m => text_ok (fm_Name m) = true /\ Forall snapshot_ok (fm_Counters m))
    (fun m => text_ok (ms_Name m) = true /\ Forall cs_ok (ms_Counters m))
    (fp_Monitors f) h) as H.
  destruct (load_list load_monitor (fp_Monitors f) h). simpl in *. apply H; [|done..].
  clear. intros m h [Hn Hcs] Hh. unfold load_monitor.
  pose proof (load_list_ok load_snapshot _ cs_ok _ h load_snapshot_ok Hcs Hh) as H.
  destruct (load_list load_snapshot (fm_Counters m) h). simpl in *. destruct H as [Hq Hs]. done.
Qed.

(** *** Collecting *)

(** What a round of collection may do to the memory, for the snapshots it takes. *)
Record collected mem (css : list counterSnapshot) mem' : Prop := {
  cl_attribs : mem_attribs mem' = mem_attribs mem;
  cl_dom : dom (mem_counters mem') = dom (mem_counters mem);
  cl_ok : counters_ok (mem_counters mem) -> counters_ok (mem_counters mem');
  cl_snaps : counters_ok (mem_counters mem) -> Forall cs_ok css;
  cl_cumulative n :
    cumulative_name n (mem_counters mem') <-> cumulative_name n (mem_counters mem);
  cl_total n : total n (mem_counters mem') = total n (mem_counters mem);
  cl_balance n :
    cumulative_name n (mem_counters mem) ->
    reported n (mem_counters mem')
      =64 (reported n (mem_counters mem) + sum_by (snap_amount n) css)%Z;
}.

Lemma collected_refl mem : collected mem [] mem.
Proof. split; try done. intros n _. simpl. by rewrite Z.add_0_r. Qed.

Lemma collected_trans mem1 css1 mem2 css2 mem3 :
  collected mem1 css1 mem2 -> collected mem2 css2 mem3 -> collected mem1 (css1 ++ css2) mem3.
Proof.
  intros [A1 D1 O1 S1 C1 T1 B1] [A2 D2 O2 S2 C2 T2 B2]. split.
  - congruence.
  - congruence.
  - auto.
  - intros Hok. apply Forall_app. auto.
  - intros n. by rewrite C2.
  - intros n. by rewrite T2.
  - intros n Hn. rewrite B2 by (by apply C1). rewrite B1 by done.
    by rewrite sum_by_app, Z.add_assoc.
Qed.

Lemma cumulative_name_update n cs r c c' :
  cs !! r = Some c -> c_name c' = c_name c -> c_cumalative c' = c_cumalative c ->
  cumulative_name n (<[r := c']> cs) <-> cumulative_name n cs.
Proof.
  intros Hr Hn Hc. unfold cumulative_name. rewrite <- (insert_id cs r c Hr) at 2.
  rewrite <- !(insert_delete_eq cs r), !map_Forall_insert by apply lookup_delete_eq.
  by rewrite Hn, Hc.
Qed.

Lemma counters_ok_update cs r c' :
  counters_ok cs -> counter_ok c' -> text_ok (c_name c') = true ->
  counters_ok (<[r := c']> cs).
Proof. intros H1 H2 H3. by apply map_Forall_insert_2. Qed.

Lemma counter_step_name c o : c_name (counter_step c o).2 = c_name c.
Proof.
  destruct o; simpl; try done.
  - unfold Set_. by case_match.
  - unfold collect_counter. destruct (_ || _); [|done]. by destruct (c_cumalative c).
Qed.

Lemma to_millis_range i : int64_range i -> int64_range (to_millis i).
Proof.
  unfold int64_range, to_millis, two63. intros Hi.
  pose proof (Z.quot_rem' i 1000000). pose proof (Z.rem_bound_abs i 1000000 ltac:(lia)). lia.
Qed.

Lemma collect_counter_name now c :
  match (collect_counter now c).1 with Some cs => cs_Name cs = Some (c_name c) | None => True end.
Proof. unfold collect_counter. destruct (_ || _); [|done]. by destruct (c_cumalative c). Qed.

Lemma collect_counter_cs_ok i c :
  counter_ok c -> text_ok (c_name c) = true ->
  Forall cs_ok (option_list (collect_counter (time_now i) c).1).
Proof.
  intros [_ Hv _ _] Hn. unfold collect_counter. destruct (_ || _); [|done].
  assert (cs_ok {| cs_Name := Some (c_name c); cs_Timestamp := to_millis (time_now i);
                   cs_Value := c_value c; cs_Attribs := Some (c_attribs c) |}).
  { split_and!; simpl; auto using to_millis_range. }
  destruct (c_cumalative c); simpl; by constructor.
Qed.

Lemma collect_ref_collected r mem :
  is_Some (mem_counters mem !! r) ->
  collected mem (option_list (collect_ref time_now r mem).1) (collect_ref time_now r mem).2.
Proof.
  intros [c Hr]. unfold collect_ref. rewrite (lookup_total_correct _ _ _ Hr).
  set (now := time_now (mem_clock mem)).
  pose proof (counter_step_name c (OpCollect now)) as Hname.
  pose proof (counter_step_cumalative c (OpCollect now)) as Hcu.
  pose proof (counter_step_balance c (OpCollect now)) as Hbal.
  pose proof (collect_counter_ok now c) as Hok.
  pose proof (collect_counter_name now c) as Hsn.
  pose proof (Get_collect now c) as Hget.
  pose proof (collect_counter_cs_ok (mem_clock mem) c) as Hcs. fold now in Hcs.
  simpl in Hname, Hcu, Hbal. destruct (collect_counter now c) as [cs c']. simpl in *.
  split; simpl.
  - done.
  - rewrite dom_insert_L. apply elem_of_dom_2 in Hr.
    apply subseteq_union_1_L. by apply singleton_subseteq_l.
  - intros H. destruct (H r c Hr). apply counters_ok_update; [done | by apply Hok | congruence].
  - intros H. destruct (H r c Hr). by apply Hcs.
  - intros n. by eapply cumulative_name_update.
  - intros n. unfold total. rewrite (mem_sum_update n _ _ r c c') by done.
    case_decide; lia.
  - intros n Hn. unfold reported. rewrite (mem_sum_update n _ _ r c c') by done.
    case_decide as E.
    + specialize (Hn r c Hr E). rewrite (Hbal Hn).
      assert (sum_by (snap_amount n) (option_list cs) = sum_by cs_Value (option_list cs)) as ->.
      { destruct cs; [|done]. simpl. unfold snap_amount. by rewrite Hsn, decide_True by congruence. }
      eqm_ring.
    + assert (sum_by (snap_amount n) (option_list cs) = 0%Z) as ->; [|done].
      destruct cs; [|done]. simpl. unfold snap_amount. rewrite decide_False; [done|]. congruence.
Qed.

Lemma collect_counters_collected rs mem :
  Forall (fun r => is_Some (mem_counters mem !! r)) rs ->
  collected mem (collect_counters time_now rs mem).1 (collect_counters time_now rs mem).2.
Proof.
  revert mem. induction rs as [|r rs IH]; intros mem Hrs; [apply collected_refl|]. simpl.
  apply Forall_cons in Hrs as [Hr Hrs].
  pose proof (collect_ref_collected r mem Hr) as H1.
  destruct (collect_ref time_now r mem) as [cs mem1]. simpl in H1.
  assert (Forall (fun r => is_Some (mem_counters mem1 !! r)) rs) as Hrs1.
  { eapply Forall_impl; [exact Hrs|]. intros r'. by rewrite <- !elem_of_dom, (cl_dom _ _ _ H1). }
  specialize (IH mem1 Hrs1). destruct (collect_counters time_now rs mem1) as [css mem2].
  by eapply collected_trans.
Qed.

Definition monitors_ok (cs : gmap counter_ref Counter) (mons : list Monitor) : Prop :=
  Forall (fun m => text_ok (m_name m) = true /\
                   Forall (fun r => is_Some (cs !! r)) (m_counters m)) mons.

Lemma monitors_ok_dom cs cs' mons :
  dom cs ⊆ dom cs' -> monitors_ok cs mons -> monitors_ok cs' mons.
Proof.
  intros Hd Hm. eapply Forall_impl; [exact Hm|]. intros m [Hn Hrs]. split; [done|].
  eapply Forall_impl; [exact Hrs|]. intros r. rewrite <- !elem_of_dom. set_solver.
Qed.

(** The snapshots of a list of monitors, in order. *)
Definition all_snaps (mss : list monitorSnapshot) : list counterSnapshot := mss ≫= ms_Counters.

Lemma payload_amount_snaps n mss :
  payload_amount n (mkEventPayload mss) = sum_by (snap_amount n) (all_snaps mss).
Proof.
  unfold payload_amount, all_snaps. simpl.
  induction mss as [|m mss IH]; [done|]. simpl. by rewrite sum_by_app, IH.
Qed.

Lemma collect_monitors_collected mons mem :
  monitors_ok (mem_counters mem) mons ->
  let '(mss, added, mem') := collect_monitors time_now mons mem in
  collected mem (all_snaps mss) mem' /\
  (added = false -> all_snaps mss = []) /\
  (counters_ok (mem_counters mem) -> ep_ok (mkEventPayload mss)).
Proof.
  revert mem. induction mons as [|m mons IH]; intros mem Hm;
    cbn [collect_monitors].
  { split_and!; [apply collected_refl | done | constructor]. }
  apply Forall_cons in Hm as [[Hn Hrs] Hm].
  destruct (m_counters m) as [|r rs] eqn:Ers; [by apply IH|].
  pose proof (collect_counters_collected (r :: rs) mem Hrs) as H1.
  destruct (collect_counters time_now (r :: rs) mem) as [css mem1]. simpl in H1.
  assert (monitors_ok (mem_counters mem1) mons) as Hm1.
  { eapply monitors_ok_dom; [|exact Hm]. by rewrite (cl_dom _ _ _ H1). }
  specialize (IH mem1 Hm1).
  destruct (collect_monitors time_now mons mem1) as [[mss added] mem2].
  destruct IH as (H2 & Hadd & Hep). cbn beta iota zeta. split_and!.
  - by eapply collected_trans.
  - intros [Hc Ha]%orb_false_iff. apply negb_false_iff, bool_decide_eq_true in Hc as ->.
    simpl. by apply Hadd.
  - intros Hok. constructor; [split; [done | by apply H1] | apply Hep, H1, Hok].
Qed.

(** *** Posting *)

(** The event [e] carries the payload [p]: a reader of its data finds the same
    amounts. *)
Definition sent_as (p : eventPayload) (e : Event) : Prop :=
  exists f, payload_Unmarshal (Data e) = Some f /\ payload_ok f /\
            forall n, flat_amount n f = payload_amount n p.

Lemma sent_as_amount n p e : sent_as p e -> event_amount n e = payload_amount n p.
Proof. intros (f & Hf & _ & Hn). unfold event_amount. by rewrite Hf. Qed.

Lemma new_events_sent i h batch :
  store_ok h -> Forall ep_ok batch -> Forall2 sent_as batch (new_events time_now uuid i h batch).
Proof.
  intros Hh Hb. revert i. induction Hb as [|p batch Hp Hb IH]; intros i; [constructor|].
  constructor; [|done].
  pose proof (ep_ok_flat h p Hh Hp) as Hf.
  destruct (payload_roundtrip _ Hf) as (t & Ht & Hu). rewrite Ht.
  exists (normal_payload (flat_payload h p)). split_and!.
  - unfold new_event. by rewrite Data_SetJSON.
  - by apply normal_payload_ok.
  - intros n. by rewrite normal_payload_amount, flat_payload_amount.
Qed.

(** The amount of an event is that of its data. *)
Lemma event_amount_data n evs :
  sum_by (event_amount n) evs
    = sum_by (fun t => match payload_Unmarshal t with Some f => flat_amount n f | None => 0%Z end)
             (Data <$> evs).
Proof. induction evs as [|e evs IH]; [done|]. simpl. by rewrite IH. Qed.

Lemma sent_amounts n batch evs :
  Forall2 sent_as batch evs -> sum_by (event_amount n) evs = queue_amount n batch.
Proof.
  induction 1 as [|p e batch evs Hpe _ IH]; [done|]. simpl.
  rewrite (sent_as_amount n p e Hpe), IH. done.
Qed.

Lemma repost_list_spec errs h :
  Forall (fun e => exists p, sent_as p (ce_Event e)) errs -> store_ok h ->
  let (eps, h') := repost_list errs h in
  Forall ep_ok eps /\ store_ok h' /\
  forall n, queue_amount n eps = sum_by (event_amount n) (ce_Event <$> errs).
Proof.
  intros Herrs. revert h. induction Herrs as [|e errs (p & f & Hf & Hok & Hn) _ IH];
    intros h Hh; [done|]. simpl. rewrite Hf.
  pose proof (load_payload_ok f h Hok Hh) as [Hep Hh1].
  assert (forall n, payload_amount n (load_payload f h).1 = flat_amount n f) as Ha
    by (intros; apply load_payload_amount).
  destruct (load_payload f h) as [ep h1]. simpl in *.
  specialize (IH h1 Hh1). destruct (repost_list errs h1) as [eps h2].
  destruct IH as (Heps & Hh2 & Hq). split_and!; [by constructor | done |].
  intros n. csimpl. rewrite Ha, Hq. unfold event_amount at 2. by rewrite Hf.
Qed.

(** *** The invariant of the system *)

Record inv s : Prop := {
  inv_counters : counters_ok (mem_counters (sys_mem s));
  inv_store : store_ok (mem_attribs (sys_mem s));
  inv_monitors : monitors_ok (mem_counters (sys_mem s)) (s_monitors (sys_svc s));
  inv_queue : Forall ep_ok (s_eventPayloads (sys_svc s));
  inv_waiting : Forall (Forall ep_ok) (sys_waiting s);
  inv_posting : Forall (fun p => Forall ep_ok p.1 /\ Forall2 sent_as p.1 p.2) (sys_posting s);
  inv_balance n :
    cumulative_name n (mem_counters (sys_mem s)) ->
    reported n (mem_counters (sys_mem s)) =64 (queued n s + in_flight n s + accepted n s)%Z;
}.

Lemma inv_initial ms c i : NewMonitorService c i = Ok ms -> inv (initial ms).
Proof.
  unfold NewMonitorService. case_match; [done|]. intros [= <-].
  split; simpl; try done; try apply map_Forall_empty; constructor.
Qed.

Lemma inv_collectEvents s ms mem :
  inv s -> collectEvents time_now (sys_svc s) (sys_mem s) = (ms, mem) -> inv (set_svc s ms mem).
Proof.
  intros [Hc Hs Hm Hq Hw Hp Hb] E. unfold collectEvents in E.
  pose proof (collect_monitors_collected (s_monitors (sys_svc s)) (sys_mem s) Hm) as H.
  destruct (collect_monitors time_now _ _) as [[mss added] mem'].
  destruct H as (Hcl & Hadd & Hep).
  assert (monitors_ok (mem_counters mem') (s_monitors (sys_svc s))) as Hm'.
  { eapply monitors_ok_dom; [|exact Hm]. by rewrite (cl_dom _ _ _ Hcl). }
  assert (forall n, cumulative_name n (mem_counters mem') ->
    reported n (mem_counters mem') =64
      (queue_amount n (s_eventPayloads (sys_svc s)) + payload_amount n (mkEventPayload mss)
       + in_flight n s + accepted n s)%Z) as Hb'.
  { intros n Hn. apply Hcl in Hn as Hn'. rewrite (cl_balance _ _ _ Hcl n Hn'), (Hb n Hn').
    rewrite payload_amount_snaps. unfold queued.
    eqm_ring. }
  destruct added; simplify_eq; split; simpl;
    rewrite ?(cl_attribs _ _ _ Hcl); try done; try by apply Hcl.
  - apply Forall_app. split; [done|]. constructor; [by apply Hep | constructor].
  - intros n Hn. rewrite (Hb' n Hn). unfold queued. simpl.
    rewrite queue_amount_app. simpl. by rewrite Z.add_0_r.
  - intros n Hn. rewrite (Hb' n Hn), payload_amount_snaps, Hadd by done.
    unfold queued. simpl. by rewrite Z.add_0_r.
Qed.

Lemma inv_postEvents s batch ms :
  inv s -> postEvents (sys_svc s) = (batch, ms) ->
  inv (spawn (set_svc s ms (sys_mem s)) batch).
Proof.
  intros [Hc Hs Hm Hq Hw Hp Hb] [= <- <-]. split; simpl; try done.
  - apply Forall_app. by split; [|constructor].
  - intros n Hn. rewrite (Hb n Hn). unfold queued, in_flight, accepted. simpl.
    rewrite sum_by_app. simpl.
    eqm_ring.
Qed.

Lemma inv_countdown s k :
  inv s -> inv (set_svc s (set_sendCountdown (sys_svc s) k) (sys_mem s)).
Proof. intros [Hc Hs Hm Hq Hw Hp Hb]. by split. Qed.

Lemma inv_tick s : inv s -> inv (tick time_now s).
Proof.
  intros Hi. unfold tick, collect.
  destruct (collectEvents time_now (sys_svc s) (sys_mem s)) as [ms mem] eqn:E.
  pose proof (inv_collectEvents s ms mem Hi E) as H1.
  destruct (s_sendCountdown ms =? 0)%Z; simpl.
  - pose proof (inv_postEvents (set_svc s ms mem) _ _ H1 eq_refl) as H2.
    apply (inv_countdown _ (s_collectCount ms)) in H2. exact H2.
  - exact (inv_countdown _ (s_sendCountdown ms -64 1) H1).
Qed.

Lemma inv_flush s : inv s -> inv (flush time_now s).
Proof.
  intros Hi. unfold flush.
  destruct (collectEvents time_now (sys_svc s) (sys_mem s)) as [ms mem] eqn:E.
  pose proof (inv_collectEvents s ms mem Hi E) as H1.
  exact (inv_postEvents (set_svc s ms mem) _ _ H1 eq_refl).
Qed.

Lemma inv_send s w1 w2 batch :
  sys_waiting s = w1 ++ batch :: w2 -> inv s -> inv (send time_now uuid s w1 w2 batch).
Proof.
  intros Ew [Hc Hs Hm Hq Hw Hp Hb]. rewrite Ew in Hw.
  apply Forall_app in Hw as [Hw1 Hw2]. apply Forall_cons in Hw2 as [Hbatch Hw2].
  pose proof (new_events_sent (mem_clock (sys_mem s)) _ batch Hs Hbatch) as Hsent.
  unfold send. set (evs := new_events _ _ _ _ _) in *.
  assert (forall n, sum_by (fun p => queue_amount n p.1)
    (match evs with [] => sys_posting s | _ => sys_posting s ++ [(batch, evs)] end)
    = sum_by (fun p => queue_amount n p.1) (sys_posting s) + queue_amount n batch)%Z as Ha.
  { intros n. destruct evs; [inversion Hsent; subst; simpl; lia|].
    rewrite sum_by_app. simpl. lia. }
  split; simpl; try done.
  - by apply Forall_app.
  - destruct evs; [done|]. apply Forall_app. by split; [|constructor].
  - intros n Hn. rewrite (Hb n Hn). unfold queued, in_flight, accepted. simpl.
    rewrite Ha, Ew, !sum_by_app. simpl.
    eqm_ring.
Qed.

Lemma inv_respond s p1 p2 batch evs answer acc :
  sys_posting s = p1 ++ (batch, evs) :: p2 -> answer_ok evs acc answer ->
  inv s -> inv (respond s p1 p2 batch answer acc).
Proof.
  intros Ep Hans [Hc Hs Hm Hq Hw Hp Hb]. rewrite Ep in Hp.
  apply Forall_app in Hp as [Hp1 Hp2]. apply Forall_cons in Hp2 as [[Hbatch Hsent] Hp2].
  simpl in *. unfold respond, post_response.
  assert (forall n, cumulative_name n (mem_counters (sys_mem s)) ->
    reported n (mem_counters (sys_mem s)) =64
      (queue_amount n batch + queued n s + sum_by (queue_amount n) (sys_waiting s)
       + sum_by (fun p => queue_amount n p.1) (p1 ++ p2) + accepted n s)%Z) as Hb'.
  { intros n Hn. rewrite (Hb n Hn). unfold in_flight. rewrite Ep, !sum_by_app. simpl. eqm_ring. }
  destruct answer as [errs [err|]]; simpl in Hans.
  - subst acc. rewrite app_nil_r. split; simpl; try done; [by apply Forall_app| by apply Forall_app|].
    intros n Hn. rewrite (Hb' n Hn). unfold queued, in_flight, accepted. simpl.
    rewrite queue_amount_app. eqm_ring.
  - assert (forall n, queue_amount n batch
        = sum_by (event_amount n) (ce_Event <$> errs) + sum_by (event_amount n) acc)%Z as Hsplit.
    { intros n. rewrite <- (sent_amounts n batch evs Hsent), !event_amount_data, <- sum_by_app, <- fmap_app.
      by apply sum_by_perm. }
    assert (Forall (fun e => exists p, sent_as p (ce_Event e)) errs) as Herrs.
    { apply Forall_forall. intros e He.
      assert (Data (ce_Event e) ∈ Data <$> evs) as (e' & He' & Hin)%list_elem_of_fmap.
      { rewrite Hans, fmap_app. apply elem_of_app. left. by do 2 apply list_elem_of_fmap_2. }
      apply list_elem_of_lookup in Hin as (k & Hk).
      destruct (Forall2_lookup_r _ _ _ _ _ Hsent Hk) as (p & _ & Hpe). exists p.
      unfold sent_as in *. by rewrite He'. }
    pose proof (repost_list_spec errs (mem_attribs (sys_mem s)) Herrs Hs) as Hrep.
    destruct errs as [|e errs].
    + split; simpl; try done; [by apply Forall_app|]. intros n Hn.
      rewrite (Hb' n Hn), Hsplit. unfold queued, in_flight, accepted. simpl.
      rewrite !sum_by_app. eqm_ring.
    + destruct (repost_list (e :: errs) (mem_attribs (sys_mem s))) as [eps h].
      destruct Hrep as (Heps & Hh & Hq').
      split; simpl; try done; [by apply Forall_app| by apply Forall_app|].
      intros n Hn. rewrite (Hb' n Hn), Hsplit, <- Hq'.
      unfold queued, in_flight, accepted. simpl. rewrite queue_amount_app, !sum_by_app. eqm_ring.
Qed.

Lemma inv_set_counter s r c c' :
  mem_counters (sys_mem s) !! r = Some c ->
  c_name c' = c_name c -> c_cumalative c' = c_cumalative c ->
  c_cumalativeValue c' = c_cumalativeValue c -> counter_ok c' ->
  inv s -> inv (set_counters s (<[r := c']> (mem_counters (sys_mem s)))).
Proof.
  intros Hr Hn Hcu Hv Hc' [Hc Hs Hm Hq Hw Hp Hb]. split; simpl; try done.
  - apply counters_ok_update; [done..|]. rewrite Hn. by destruct (Hc r c Hr).
  - eapply monitors_ok_dom; [|exact Hm]. rewrite dom_insert_L. apply union_subseteq_r.
  - intros n Hcn. rewrite (cumulative_name_update n _ r c) in Hcn by done.
    unfold reported. rewrite (mem_sum_update n _ _ r c) by done.
    rewrite Hv, Z.sub_diag. replace (if decide _ then 0%Z else 0%Z) with 0%Z by (by case_decide).
    rewrite Z.add_0_r. by apply Hb.
Qed.

Lemma inv_counter_op s r c o :
  mem_counters (sys_mem s) !! r = Some c -> op_ok o ->
  match o with OpCollect _ => False | _ => True end ->
  inv s -> inv (set_counters s (<[r := (counter_step c o).2]> (mem_counters (sys_mem s)))).
Proof.
  intros Hr Ho Hnc Hi. eapply inv_set_counter; [done | | | | | done].
  - apply counter_step_name.
  - apply counter_step_cumalative.
  - destruct o; try done. simpl. unfold Set_. by case_match.
  - apply counter_step_ok; [done|]. by destruct (inv_counters s Hi r c Hr).
Qed.

Lemma inv_new_counter s r name cu iz at_ :
  mem_counters (sys_mem s) !! r = None -> text_ok name = true -> inv s ->
  inv (set_counters s (<[r := NewCounterWithAttribs name cu iz at_]> (mem_counters (sys_mem s)))).
Proof.
  intros Hr Hn [Hc Hs Hm Hq Hw Hp Hb]. split; simpl; try done.
  - apply counters_ok_update; [done | apply NewCounterWithAttribs_ok | done].
  - eapply monitors_ok_dom; [|exact Hm]. rewrite dom_insert_L. apply union_subseteq_r.
  - intros n Hcn. unfold cumulative_name in Hcn.
    apply map_Forall_insert_1_2 in Hcn; [|done].
    unfold reported. rewrite mem_sum_fresh by done. simpl.
    replace (if decide _ then 0%Z else 0%Z) with 0%Z by (by case_decide). by apply Hb.
Qed.

Lemma inv_set_store s h :
  store_ok h -> inv s ->
  inv (set_svc s (sys_svc s) (mkMemory (mem_counters (sys_mem s)) h (mem_clock (sys_mem s)))).
Proof. intros Hh [Hc Hs Hm Hq Hw Hp Hb]. by split. Qed.

Lemma inv_set_monitors s mons :
  monitors_ok (mem_counters (sys_mem s)) mons -> inv s ->
  inv (set_svc s (set_monitors (sys_svc s) mons) (sys_mem s)).
Proof. intros Hh [Hc Hs Hm Hq Hw Hp Hb]. by split. Qed.

Lemma AddAttribute_store_ok c k v h h' :
  AddAttribute c k v h = Ok h' -> text_ok k = true -> text_ok v = true ->
  store_ok h -> store_ok h'.
Proof.
  unfold AddAttribute. destruct (c_attribs c) as [r|]; [|done]. intros [= <-] Hk Hv Hh.
  apply map_Forall_insert_2; [|done]. apply map_Forall_insert_2; [done|].
  by apply store_ok_lookup.
Qed.

Lemma DeleteCounter_incl r m m' :
  DeleteCounter r m = Ok m' -> m_name m' = m_name m /\ m_counters m' ⊆ m_counters m.
Proof.
  unfold DeleteCounter.
  set (l' := match find_down _ _ _ with Some i => _ | None => _ end).
  assert (l' ⊆ m_counters m) as Hl.
  { subst l'. case_match; [|done]. unfold copy_down. intros x.
    rewrite !elem_of_app.
    intros [Hx|[Hx|Hx]]; [by apply subseteq_take in Hx | by apply subseteq_drop in Hx..]. }
  destruct (length (m_counters m)) as [|j]; [done|]. intros [= <-]. simpl.
  split; [done|]. etrans; [apply subseteq_take | done].
Qed.

Lemma inv_step s s' : inv s -> step time_now uuid s s' -> inv s'.
Proof.
  intros Hi Hst. destruct Hst.
  - by apply inv_counter_op.
  - by apply inv_new_counter.
  - apply inv_set_store; [|done]. eapply AddAttribute_store_ok; [done..|]. apply Hi.
  - apply inv_set_store; [|done]. apply map_Forall_insert_2; [done | apply Hi].
  - apply inv_set_monitors; [|done]. apply Forall_app.
    split; [apply Hi|]. by repeat constructor.
  - apply inv_set_monitors; [|done]. apply Forall_insert; [apply Hi|].
    pose proof (Forall_lookup_1 _ _ _ _ (inv_monitors s Hi) H) as [Hn Hrs].
    split; [done|]. simpl. apply Forall_app. by repeat constructor.
  - apply inv_set_monitors; [|done]. apply Forall_insert; [apply Hi|].
    pose proof (Forall_lookup_1 _ _ _ _ (inv_monitors s Hi) H) as [Hn Hrs].
    apply DeleteCounter_incl in H0 as [Hname Hincl]. split; [congruence|].
    rewrite Forall_forall in Hrs |- *. auto.
  - destruct Hi; by split.
  - by apply inv_tick.
  - destruct Hi; by split.
  - by apply inv_flush.
  - by apply inv_send.
  - by eapply inv_respond.
Qed.

Lemma inv_reachable s : reachable time_now uuid s -> inv s.
Proof. induction 1; [by eapply inv_initial | by eapply inv_step]. Qed.

(** *** Totals *)

Lemma mem_sum_ext n w1 w2 cs :
  (forall r c, cs !! r = Some c -> c_name c = n -> w1 c = w2 c) ->
  mem_sum n w1 cs = mem_sum n w2 cs.
Proof.
  intros H. apply sum_by_ext. intros [r c] Hrc%elem_of_map_to_list. simpl.
  case_decide; [eauto | done].
Qed.

Lemma total_split n cs : total n cs =64 (mem_sum n c_value cs + reported n cs)%Z.
Proof.
  unfold total, reported, mem_sum. induction (map_to_list cs) as [|[r c] l IH]; [done|]. simpl.
  rewrite IH. case_decide; [|done]. unfold Get. rewrite wrap64_eqm. eqm_ring.
Qed.

(** *** A collection empties the cumulative counters it visits *)

Definition drained mem (r : counter_ref) : Prop :=
  forall c, mem_counters mem !! r = Some c -> c_cumalative c = true -> c_value c = 0%Z.

Lemma collect_ref_drains r mem : drained (collect_ref time_now r mem).2 r.
Proof.
  intros c Hc Hcu. unfold collect_ref in Hc.
  set (now := time_now (mem_clock mem)) in Hc. set (c0 := mem_counters mem !!! r) in Hc.
  pose proof (counter_step_cumalative c0 (OpCollect now)) as Hcu'. simpl in Hcu'.
  pose proof (collect_counter_zero now c0) as Hz.
  destruct (collect_counter now c0) as [cs c']. simpl in *.
  rewrite lookup_insert_eq in Hc. simplify_eq. rewrite Hcu in Hcu'. by apply Hz.
Qed.

Lemma collect_ref_keeps r r' mem :
  drained mem r -> drained (collect_ref time_now r' mem).2 r.
Proof.
  intros Hd. destruct (decide (r' = r)) as [->|Hne]; [apply collect_ref_drains|].
  intros c Hc. unfold collect_ref in Hc. destruct (collect_counter _ _). simpl in Hc.
  rewrite lookup_insert_ne in Hc by done. by apply Hd.
Qed.

Lemma collect_counters_drains rs r mem :
  (r ∈ rs \/ drained mem r) -> drained (collect_counters time_now rs mem).2 r.
Proof.
  revert mem. induction rs as [|r' rs IH]; intros mem Hr; simpl.
  { destruct Hr as [Hr|]; [by apply not_elem_of_nil in Hr | done]. }
  pose proof (collect_ref_keeps r r' mem) as Hk.
  pose proof (collect_ref_drains r' mem) as Hd.
  destruct (collect_ref time_now r' mem) as [cs mem1]. simpl in *.
  specialize (IH mem1). destruct (collect_counters time_now rs mem1) as [css mem2]. simpl in *.
  apply IH. destruct Hr as [Hr|Hr]; [|by right; apply Hk].
  apply elem_of_cons in Hr as [->|Hr]; [by right | by left].
Qed.

Lemma collect_monitors_drains mons r mem :
  (Exists (fun m => r ∈ m_counters m) mons \/ drained mem r) ->
  drained (collect_monitors time_now mons mem).2 r.
Proof.
  revert mem. induction mons as [|m mons IH]; intros mem Hr; cbn [collect_monitors].
  { destruct Hr as [Hr|]; [by apply Exists_nil in Hr | done]. }
  rewrite Exists_cons in Hr.
  destruct (m_counters m) as [|r' rs] eqn:E.
  { apply IH. destruct Hr as [[Hr|Hr]|Hr]; [by apply not_elem_of_nil in Hr | by left | by right]. }
  pose proof (collect_counters_drains (r' :: rs) r mem) as Hd.
  destruct (collect_counters time_now (r' :: rs) mem) as [css mem1].
  specialize (IH mem1). destruct (collect_monitors time_now mons mem1) as [[mss added] mem2].
  simpl in *. apply IH. destruct Hr as [[Hr|Hr]|Hr]; [right; apply Hd | left | right; apply Hd]; auto.
Qed.

(** Collecting keeps every counter at its address, under its name, with the value that
    [Get] returns and its increment. *)
Definition kept mem mem' : Prop :=
  forall r c, mem_counters mem !! r = Some c ->
  exists c', mem_counters mem' !! r = Some c' /\
    c_name c' = c_name c /\ Get c' = Get c /\ c_incBy c' = c_incBy c.

Lemma kept_refl mem : kept mem mem.
Proof. intros r c Hr. by exists c. Qed.

Lemma kept_trans mem1 mem2 mem3 : kept mem1 mem2 -> kept mem2 mem3 -> kept mem1 mem3.
Proof.
  intros H1 H2 r c Hr. destruct (H1 r c Hr) as (c1 & Hc1 & <- & <- & <-). by apply H2.
Qed.

Lemma collect_counter_incBy now c : c_incBy (collect_counter now c).2 = c_incBy c.
Proof. unfold collect_counter. destruct (_ || _); [|done]. by destruct (c_cumalative c). Qed.

Lemma collect_ref_kept r mem : kept mem (collect_ref time_now r mem).2.
Proof.
  intros r' c Hr. unfold collect_ref. set (c0 := mem_counters mem !!! r).
  set (now := time_now (mem_clock mem)).
  pose proof (counter_step_name c0 (OpCollect now)) as Hn. cbn [counter_step] in Hn.
  pose proof (Get_collect now c0) as Hg. pose proof (collect_counter_incBy now c0) as Hi.
  destruct (collect_counter now c0) as [cs c1]. cbn [fst snd] in *.
  destruct (decide (r = r')) as [->|Hne]; cbn [mem_counters].
  - exists c1. rewrite lookup_insert_eq. split; [done|]. subst c0.
    by rewrite (lookup_total_correct _ _ _ Hr) in Hn, Hg, Hi.
  - exists c. by rewrite lookup_insert_ne.
Qed.

Lemma collect_counters_kept rs mem : kept mem (collect_counters time_now rs mem).2.
Proof.
  revert mem. induction rs as [|r rs IH]; intros mem; [apply kept_refl|]. simpl.
  pose proof (collect_ref_kept r mem) as H1. destruct (collect_ref time_now r mem) as [cs mem1].
  specialize (IH mem1). destruct (collect_counters time_now rs mem1). by eapply kept_trans.
Qed.

Lemma collect_monitors_kept mons mem : kept mem (collect_monitors time_now mons mem).2.
Proof.
  revert mem. induction mons as [|m mons IH]; intros mem; [apply kept_refl|].
  cbn [collect_monitors]. destruct (m_counters m) as [|r rs]; [apply IH|].
  pose proof (collect_counters_kept (r :: rs) mem) as H1.
  destruct (collect_counters time_now (r :: rs) mem) as [css mem1].
  specialize (IH mem1). destruct (collect_monitors time_now mons mem1) as [[mss added] mem2].
  by eapply kept_trans.
Qed.

Lemma tick_collects s :
  sys_mem (tick time_now s) = (collect_monitors time_now (s_monitors (sys_svc s)) (sys_mem s)).2 /\
  s_monitors (sys_svc (tick time_now s)) = s_monitors (sys_svc s).
Proof.
  unfold tick, collect, collectEvents.
  destruct (collect_monitors _ _ _) as [[mss added] mem]. destruct added; cbn;
    by destruct (s_sendCountdown (sys_svc s) =? 0)%Z.
Qed.

Lemma flush_collects s :
  sys_mem (flush time_now s) = (collect_monitors time_now (s_monitors (sys_svc s)) (sys_mem s)).2 /\
  s_monitors (sys_svc (flush time_now s)) = s_monitors (sys_svc s).
Proof.
  unfold flush, collectEvents. destruct (collect_monitors _ _ _) as [[mss added] mem].
  by destruct added.
Qed.

(** *** What is loaded from JSON stands for what was read *)

Lemma load_list_flat {A B} (load : A -> attrib_store -> B * attrib_store)
    (flat : attrib_store -> B -> A) l h :
  (forall x h, h ⊆ (load x h).2 /\
               forall h', (load x h).2 ⊆ h' -> flat h' (load x h).1 = x) ->
  h ⊆ (load_list load l h).2 /\
  forall h', (load_list load l h).2 ⊆ h' -> flat h' <$> (load_list load l h).1 = l.
Proof.
  intros Hload. revert h. induction l as [|x l IH]; intros h; [done|]. simpl.
  destruct (Hload x h) as [Hsub Hx]. destruct (load x h) as [y h1].
  destruct (IH h1) as [Hsub1 Hl]. destruct (load_list load l h1) as [ys h2]. simpl in *.
  split; [by etrans|]. intros h' Hh'. rewrite Hl by done. by rewrite Hx by (by etrans).
Qed.

Lemma load_snapshot_flat f h :
  h ⊆ (load_snapshot f h).2 /\
  forall h', (load_snapshot f h).2 ⊆ h' -> flat_snapshot h' (load_snapshot f h).1 = f.
Proof.
  unfold load_snapshot. destruct f as [nm ts v [[m|]|]]; simpl; [|done..].
  pose proof (is_fresh (dom h)) as Hf. split.
  - apply insert_subseteq. by apply not_elem_of_dom.
  - intros h' Hh'. unfold flat_snapshot. simpl.
    assert (h' !! fresh (dom h) = Some m) as ->; [|done].
    eapply lookup_weaken; [apply lookup_insert_eq | done].
Qed.

Definition flat_monitor (h : attrib_store) (m : monitorSnapshot) : flatMonitor :=
  mkFlatMonitor (ms_Name m) (flat_snapshot h <$> ms_Counters m).

Lemma load_monitor_flat m h :
  h ⊆ (load_monitor m h).2 /\
  forall h', (load_monitor m h).2 ⊆ h' -> flat_monitor h' (load_monitor m h).1 = m.
Proof.
  unfold load_monitor, flat_monitor.
  destruct (load_list_flat load_snapshot flat_snapshot (fm_Counters m) h load_snapshot_flat)
    as [Hs Hf].
  destruct (load_list load_snapshot (fm_Counters m) h) as [css h1]. simpl in *.
  split; [done|]. intros h' Hh'. rewrite Hf by done. by destruct m.
Qed.

Lemma load_payload_flat p h :
  h ⊆ (load_payload p h).2 /\
  forall h', (load_payload p h).2 ⊆ h' -> flat_payload h' (load_payload p h).1 = p.
Proof.
  unfold load_payload.
  destruct (load_list_flat load_monitor flat_monitor (fp_Monitors p) h load_monitor_flat)
    as [Hs Hf].
  destruct (load_list load_monitor (fp_Monitors p) h) as [mss h1]. simpl in *.
  split; [done|]. intros h' Hh'. unfold flat_payload. simpl.
  destruct p as [mons]. f_equal. by apply Hf.
Qed.

Lemma repost_list_flat errs fs h :
  Forall2 (fun e f => payload_Unmarshal (Data (ce_Event e)) = Some f) errs fs ->
  h ⊆ (repost_list errs h).2 /\
  forall h', (repost_list errs h).2 ⊆ h' -> flat_payload h' <$> (repost_list errs h).1 = fs.
Proof.
  intros Hef. revert h. induction Hef as [|e f errs fs Hf _ IH]; intros h; [done|].
  simpl. rewrite Hf. destruct (load_payload_flat f h) as [Hsub Hx].
  destruct (load_payload f h) as [y h1].
  destruct (IH h1) as [Hsub1 Hl]. destruct (repost_list errs h1) as [ys h2]. simpl in *.
  split; [by etrans|]. intros h' Hh'. rewrite Hl by done. by rewrite Hx by (by etrans).
Qed.

(** ** Properties *)

Lemma conservation s n :
  reachable time_now uuid s ->
  cumulative_name n (mem_counters (sys_mem s)) ->
  total n (mem_counters (sys_mem s))
    =64 (accepted n s + in_flight n s + queued n s
         + mem_sum n c_value (mem_counters (sys_mem s)))%Z.
Proof.
  intros Hr Hn. rewrite total_split, (inv_balance s (inv_reachable s Hr) n Hn). eqm_ring.
Qed.

Definition registered n s : Prop :=
  forall r c, mem_counters (sys_mem s) !! r = Some c -> c_name c = n ->
              Exists (fun m => r ∈ m_counters m) (s_monitors (sys_svc s)).

(** The state [Stop] leaves when the sender accepts what it is given. *)
Lemma flush_state s :
  exists batch ms mem mss added,
    collect_monitors time_now (s_monitors (sys_svc s)) (sys_mem s) = (mss, added, mem) /\
    flush time_now s = spawn (set_svc s ms mem) batch /\
    s_eventPayloads ms = [].
Proof.
  unfold flush, collectEvents.
  destruct (collect_monitors time_now _ _) as [[mss added] mem].
  destruct added; eexists _, _, _, _, _; split_and!; reflexivity.
Qed.

Lemma drained_total n mem :
  counters_ok (mem_counters mem) -> cumulative_name n (mem_counters mem) ->
  (forall r c, mem_counters mem !! r = Some c -> c_name c = n -> drained mem r) ->
  reported n (mem_counters mem) = total n (mem_counters mem).
Proof.
  intros Hok Hcu Hd. apply mem_sum_ext. intros r c Hr Hn.
  unfold Get. rewrite (Hd r c Hr Hn c Hr (Hcu r c Hr Hn)), Z.add_0_l.
  symmetry. apply wrap64_id. by destruct (Hok r c Hr) as [[] _].
Qed.

Lemma Stop_reachable s sender :
  reachable time_now uuid s -> sys_waiting s = [] -> sys_posting s = [] ->
  (forall evs, sender evs = (([], None), evs)) ->
  reachable time_now uuid (Stop time_now uuid sender s).
Proof.
  intros Hr Hw Hp Hs. unfold Stop.
  assert (reachable time_now uuid (flush time_now (set_timer s false))) as H1.
  { eapply reach_step; [eapply reach_step; [exact Hr | apply step_stop_timer]|].
    by apply step_flush. }
  destruct (sys_waiting (flush time_now (set_timer s false))) as [|batch [|]] eqn:E; [done| |done].
  assert (reachable time_now uuid (send time_now uuid (flush time_now (set_timer s false)) [] [] batch))
    as H2 by (eapply reach_step; [exact H1 | by apply step_send]).
  destruct (sys_posting (send _ _ _ _ _ _)) as [|[b evs] [|]] eqn:E2; [done| |done].
  rewrite Hs. eapply reach_step; [exact H2|].
  apply (step_respond _ _ _ [] [] b evs); [exact E2 | unfold answer_ok; reflexivity].
Qed.

Lemma Stop_delivers s n sender :
  reachable time_now uuid s -> sys_waiting s = [] -> sys_posting s = [] ->
  cumulative_name n (mem_counters (sys_mem s)) -> registered n s ->
  (forall evs, sender evs = (([], None), evs)) ->
  let s' := Stop time_now uuid sender s in
  s_eventPayloads (sys_svc s') = [] /\ sys_waiting s' = [] /\ sys_posting s' = [] /\
  accepted n s' =64 total n (mem_counters (sys_mem s)).
Proof.
  intros Hr Hw Hp Hcu Hreg Hs s'.
  pose proof (inv_reachable _ (Stop_reachable s sender Hr Hw Hp Hs)) as Hi. fold s' in Hi.
  pose proof (inv_reachable s Hr) as Hi0.
  destruct (flush_state (set_timer s false)) as (batch & ms & mem & mss & added & Hc & Hf & Hq).
  simpl in Hc.
  pose proof (collect_monitors_collected _ _ (inv_monitors s Hi0)) as Hcl.
  pose proof (fun r => collect_monitors_drains (s_monitors (sys_svc s)) r (sys_mem s)) as Hd.
  rewrite Hc in Hcl, Hd. simpl in Hd. destruct Hcl as (Hcl & _ & _).
  assert (s_eventPayloads (sys_svc s') = [] /\ sys_waiting s' = [] /\ sys_posting s' = [] /\
          mem_counters (sys_mem s') = mem_counters mem) as (Hq' & Hw' & Hp' & Hm').
  { subst s'. unfold Stop. rewrite Hf. simpl. rewrite Hw. simpl. rewrite Hp.
    destruct (new_events _ _ _ _ batch) as [|e evs] eqn:Ee; simpl; [by rewrite Ee | by rewrite Hs]. }
  split_and!; [done..|].
  assert (cumulative_name n (mem_counters mem)) as Hcu' by (by apply Hcl).
  rewrite <- (cl_total _ _ _ Hcl n), <- (drained_total n mem).
  - rewrite <- Hm'. rewrite (inv_balance s' Hi n) by (by rewrite Hm').
    unfold queued, in_flight. rewrite Hq', Hw', Hp'. simpl. eqm_ring.
  - apply Hcl, Hi0.
  - done.
  - intros r c Hrc Hn. apply Hd. left.
    assert (is_Some (mem_counters (sys_mem s) !! r)) as [c0 Hc0].
    { rewrite <- elem_of_dom, <- (cl_dom _ _ _ Hcl). by eapply elem_of_dom_2. }
    apply (Hreg r c0 Hc0).
    pose proof (collect_monitors_kept (s_monitors (sys_svc s)) (sys_mem s) r c0 Hc0) as Hname.
    rewrite Hc in Hname. simpl in Hname. destruct Hname as (c' & Hc' & Hnm & _). congruence.
Qed.

Lemma new_events_lookup i h batch k e p :
  store_ok h -> Forall ep_ok batch ->
  new_events time_now uuid i h batch !! k = Some e -> batch !! k = Some p ->
  payload_Unmarshal (Data e) = Some (normal_payload (flat_payload h p)).
Proof.
  intros Hh Hb. revert i k. induction Hb as [|q batch Hq Hb IH]; intros i [|k] He Hp; try done.
  - simpl in *. simplify_eq.
    destruct (payload_roundtrip _ (ep_ok_flat h p Hh Hq)) as (t & Ht & Hu).
    unfold new_event. by rewrite Ht, Data_SetJSON.
  - exact (IH (S i) k He Hp).
Qed.

(** C18. What the sender refuses is queued again in front of newer payloads.
    When the whole call fails the batch goes back as it was; when single events
    are refused, their payloads are rebuilt from the events' data and stand for
    the same monitors, counters, values and attributes as when they were
    posted. *)
Theorem refused_payloads_requeued i h batch errs ps ms mem :
  store_ok h -> Forall ep_ok batch ->
  Forall2 (fun e p => exists k e', new_events time_now uuid i h batch !! k = Some e' /\
             Data (ce_Event e) = Data e' /\ batch !! k = Some p) errs ps ->
  (forall err, s_eventPayloads (post_response batch (errs, Some err) ms mem).1
               = batch ++ s_eventPayloads ms) /\
  let (ms', mem') := post_response batch (errs, None) ms mem in
  exists eps,
    s_eventPayloads ms' = eps ++ s_eventPayloads ms /\
    mem_attribs mem ⊆ mem_attribs mem' /\
    flat_payload (mem_attribs mem') <$> eps = (fun p => normal_payload (flat_payload h p)) <$> ps.
Proof.
  intros Hh Hb Hep. split; [done|].
  assert (Forall2 (fun e f => payload_Unmarshal (Data (ce_Event e)) = Some f) errs
            ((fun p => normal_payload (flat_payload h p)) <$> ps)) as Hef.
  { apply Forall2_fmap_r. eapply Forall2_impl; [exact Hep|].
    intros e p (k & e' & He & -> & Hp). by eapply new_events_lookup. }
  destruct (repost_list_flat errs _ (mem_attribs mem) Hef) as [Hsub Hflat].
  unfold post_response. destruct errs as [|e errs].
  - inversion Hep; subst. by exists [].
  - destruct (repost_list (e :: errs) (mem_attribs mem)) as [eps h']. simpl in *.
    exists eps. split_and!; [done..|]. by apply Hflat.
Qed.

End Invariant.

(** ** The rhythm of posting *)

Section Rhythm.
Variable time_now : nat -> Z.

(** Whether each of the next [k] collections starts a post. *)
Fixpoint collect_rounds (k : nat) (ms : MonitorService) (mem : memory) : list bool :=
  match k with
  | O => []
  | S k =>
      let '(batch, ms, mem) := collect time_now ms mem in
      bool_decide (is_Some batch) :: collect_rounds k ms mem
  end.

Lemma collectEvents_counts ms mem :
  let (ms', mem') := collectEvents time_now ms mem in
  s_collectCount ms' = s_collectCount ms /\ s_sendCountdown ms' = s_sendCountdown ms.
Proof.
  unfold collectEvents. destruct (collect_monitors _ _ _) as [[mss added] mem'].
  by destruct added.
Qed.

Lemma collect_counts ms mem :
  let '(batch, ms', mem') := collect time_now ms mem in
  s_collectCount ms' = s_collectCount ms /\
  if (s_sendCountdown ms =? 0)%Z
  then is_Some batch /\ s_sendCountdown ms' = s_collectCount ms
  else batch = None /\ s_sendCountdown ms' = s_sendCountdown ms -64 1.
Proof.
  unfold collect. pose proof (collectEvents_counts ms mem) as H.
  destruct (collectEvents time_now ms mem) as [ms1 mem1]. destruct H as [Hc Hs].
  rewrite Hs. destruct (s_sendCountdown ms =? 0)%Z; simpl; rewrite ?Hs; eauto.
Qed.

Lemma collect_rounds_lookup c k j ms mem :
  (1 <= c < two63)%Z -> s_collectCount ms = (c - 1)%Z ->
  (0 <= s_sendCountdown ms < c)%Z -> (j < k)%nat ->
  collect_rounds k ms mem !! j
    = Some (bool_decide ((Z.of_nat j - s_sendCountdown ms) mod c = 0)%Z).
Proof.
  intros Hc. revert j ms mem. induction k as [|k IH]; intros j ms mem Hcc Hs Hj; [lia|]. simpl.
  pose proof (collect_counts ms mem) as H.
  destruct (collect time_now ms mem) as [[batch ms'] mem']. destruct H as [Hcc' H].
  destruct (Z.eqb_spec (s_sendCountdown ms) 0) as [E|E]; destruct H as [Hb Hs'].
  - destruct j as [|j]; simpl.
    + rewrite E, (bool_decide_eq_true_2 _ Hb), bool_decide_eq_true_2; [done|]. done.
    + rewrite IH by (lia || congruence). do 2 f_equal. apply bool_decide_ext.
      rewrite Hs', Hcc, E. rewrite <- (Z_mod_plus_full (Z.of_nat j - (c - 1)) 1 c).
      replace (Z.of_nat j - (c - 1) + 1 * c)%Z with (Z.of_nat (S j) - 0)%Z by lia. done.
  - subst batch. rewrite wrap64_id in Hs' by (unfold int64_range, two63 in *; lia).
    destruct j as [|j]; simpl.
    + f_equal. symmetry. apply bool_decide_eq_false_2. intros H0.
      rewrite <- (Z_mod_plus_full _ 1 c), Z.mod_small in H0; lia.
    + rewrite IH by (lia || congruence). do 2 f_equal. apply bool_decide_ext. rewrite Hs'.
      replace (Z.of_nat j - (s_sendCountdown ms - 1))%Z
        with (Z.of_nat (S j) - s_sendCountdown ms)%Z by lia. done.
Qed.

(** A service created with a collect count of [c >= 1] posts on its c-th,
    2c-th, 3c-th, ... collection and on no other. *)
Theorem posts_every_collectCount c i ms mem k j :
  (1 <= c < two63)%Z -> NewMonitorService c i = Ok ms -> (j < k)%nat ->
  collect_rounds k ms mem !! j = Some (bool_decide ((Z.of_nat j + 1) mod c = 0)%Z).
Proof.
  intros Hc Hms Hj. unfold NewMonitorService in Hms. case_match; [done|].
  assert (wrap64 (c - 1) = c - 1)%Z as E
    by (apply wrap64_id; unfold int64_range, two63 in *; lia).
  injection Hms as <-.
  rewrite (collect_rounds_lookup c) by (simpl; rewrite ?E; lia || done). simpl. rewrite E.
  do 2 f_equal. apply bool_decide_ext.
  rewrite <- (Z_mod_plus_full (Z.of_nat j - (c - 1)) 1 c).
  replace (Z.of_nat j - (c - 1) + 1 * c)%Z with (Z.of_nat j + 1)%Z by lia. done.
Qed.

End Rhythm.

Lemma posts_every_collectCount_witness :
  exists ms, NewMonitorService 3 1000 = Ok ms /\
    collect_rounds (fun _ => 0%Z) 7 ms (mkMemory ∅ ∅ 0) !! 5%nat = Some true.
Proof.
  eexists. split; [vm_compute; reflexivity|].
  rewrite (posts_every_collectCount (fun _ => 0%Z) 3 1000 _ (mkMemory ∅ ∅ 0) 7 5);
    [reflexivity | split; vm_compute; congruence | vm_compute; reflexivity | lia].
Defined.
