(* ===== verification/MonitorHistory.v ===== *)
(** * What callers count and what the sender accepts

    The monitor service of [MonitorSystem] with a record of the calls that were made on
    its counters.  The amounts that travel through the service are compared with what
    those calls add up to, not with the fields of the counters. *)

From S2P Require Import Prelude Counter Events Monitor MonitorSystem.

(** A call on a counter, in the order the locks let the callers in. *)
Definition history : Type := list (counter_ref * counter_op).

Definition calls (r : counter_ref) (h : history) : list counter_op :=
  omap (fun ro => if decide (ro.1 = r) then Some ro.2 else None) h.

Lemma calls_app r h h' : calls r (h ++ h') = calls r h ++ calls r h'.
Proof. apply omap_app. Qed.

Lemma calls_other r h : r ∉ h.*1 -> calls r h = [].
Proof.
  induction h as [|[r' o] h IH]; [done|]. csimpl. intros [H1 H2]%not_elem_of_cons.
  unfold calls in *. csimpl. by rewrite decide_False, IH.
Qed.

Section History.
Context `{sdk : CloudEvents} `{codec : PayloadCodec}.
Variable time_now : nat -> Z.
Variable uuid : nat -> string.

Implicit Types (s : @system sdk) (h : history) (n : string).

Definition counters s : gmap counter_ref Counter := mem_counters (sys_mem s).

(** A step of the service and the calls that it is. *)
Inductive logged_step : history -> system -> system -> Prop :=
| log_call s r c o :
    counters s !! r = Some c -> op_ok o ->
    match o with OpCollect _ => False | _ => True end ->
    logged_step [(r, o)] s (set_counters s (<[r := (counter_step c o).2]> (counters s)))
| log_new_counter s r name cu iz at_ :
    counters s !! r = None -> text_ok name = true ->
    logged_step [] s (set_counters s (<[r := NewCounterWithAttribs name cu iz at_]> (counters s)))
| log_tick s : sys_timer s = true -> logged_step [] s (tick time_now s)
| log_flush s :
    sys_timer s = false -> sys_waiting s = [] -> sys_posting s = [] ->
    logged_step [] s (flush time_now s)
| log_other s s' : step time_now uuid s s' -> counters s' = counters s -> logged_step [] s s'.

(** The states of a new service, with all calls that led there. *)
Inductive logged : history -> system -> Prop :=
| logged_initial collectCount collectInterval ms :
    NewMonitorService collectCount collectInterval = Ok ms -> logged [] (initial ms)
| logged_next h l s s' : logged h s -> logged_step l s s' -> logged (h ++ l) s'.

(** What the calls on the counters named [n] add up to. *)
Definition counted n h s : Z :=
  sum_by (fun rc => if decide (c_name rc.2 = n) then tally (calls rc.1 h) else 0%Z)
    (map_to_list (counters s)).

Lemma logged_step_step l s s' : logged_step l s s' -> step time_now uuid s s'.
Proof.
  destruct 1; [by eapply step_counter|by apply step_new_counter|by apply step_tick
    |by apply step_flush|done].
Qed.

Lemma logged_reachable h s : logged h s -> reachable time_now uuid s.
Proof.
  induction 1 as [k i ms H|h l s s' _ IH Hst]; [by eapply reach_initial|].
  eapply reach_step; [exact IH|]. by eapply logged_step_step.
Qed.

Lemma respond_counters s p1 p2 batch answer acc :
  counters (respond s p1 p2 batch answer acc) = counters s.
Proof.
  unfold respond, post_response, counters. destruct answer as [errs [err|]]; [done|].
  destruct errs; [done|]. by destruct (repost_list _ _).
Qed.

(** Every reachable state has such a record. *)
Lemma reachable_logged s : reachable time_now uuid s -> exists h, logged h s.
Proof.
  induction 1 as [k i ms H|s s' _ [h Hh] Hst]; [exists []; by eapply logged_initial|].
  assert (exists l, logged_step l s s') as [l Hl]; [|exists (h ++ l); by eapply logged_next].
  pose proof Hst as Hst'.
  destruct Hst as [s r c o Hr Ho Hc|s r name cu iz at_ Hr Hn| | | | | | |s Ht| |s Ht Hw Hp| |
    s p1 p2 batch evs answer acc Hp Ha].
  1: by eexists; eapply log_call.
  1: by eexists; apply log_new_counter.
  7: by eexists; apply log_tick.
  8: by eexists; apply log_flush.
  all: exists []; apply log_other; [exact Hst'|]; try done.
  apply respond_counters.
Qed.

Context `{!CloudEventsLaws sdk} `{!PayloadCodecLaws codec}.
Hypothesis clock_range : forall i, int64_range (time_now i).

(** Every counter holds what its calls add up to, and only counters that exist were
    called. *)
Record history_inv h s : Prop := {
  hi_reachable : reachable time_now uuid s;
  hi_tally r c : counters s !! r = Some c ->
    (Get c, c_incBy c) = foldl tally_step (0, 1)%Z (calls r h);
  hi_known r : r ∈ h.*1 -> is_Some (counters s !! r);
}.

Lemma history_collect h s s' :
  history_inv h s -> reachable time_now uuid s' ->
  sys_mem s' = (collect_monitors time_now (s_monitors (sys_svc s)) (sys_mem s)).2 ->
  history_inv h s'.
Proof.
  intros [Hr Ht Hk] Hr' Hm. pose proof (inv_reachable time_now uuid clock_range s Hr) as Hi.
  pose proof (collect_monitors_collected time_now clock_range _ _ (inv_monitors s Hi)) as Hcl.
  pose proof (collect_monitors_kept time_now (s_monitors (sys_svc s)) (sys_mem s)) as Hkept.
  destruct (collect_monitors time_now _ _) as [[mss added] mem']. cbn [snd] in Hm, Hkept.
  destruct Hcl as (Hcl & _). unfold counters in *.
  split; unfold counters; rewrite ?Hm; [done|..].
  - intros r c Hc. assert (is_Some (mem_counters (sys_mem s) !! r)) as [c0 Hc0].
    { rewrite <- elem_of_dom, <- (cl_dom _ _ _ Hcl). by eapply elem_of_dom_2. }
    destruct (Hkept r c0 Hc0) as (c' & Hc' & _ & Hg & Hinc). simplify_eq.
    rewrite Hg, Hinc. by apply Ht.
  - intros r H. apply elem_of_dom. rewrite (cl_dom _ _ _ Hcl). by apply elem_of_dom, Hk.
Qed.

Lemma history_call h s r c o :
  history_inv h s -> counters s !! r = Some c -> op_ok o ->
  let s' := set_counters s (<[r := (counter_step c o).2]> (counters s)) in
  reachable time_now uuid s' -> history_inv (h ++ [(r, o)]) s'.
Proof.
  intros [Hr Ht Hk] Hc Ho s' Hr'.
  assert (counter_ok c) as Hok.
  { pose proof (inv_counters _ (inv_reachable time_now uuid clock_range s Hr)) as H.
    by destruct (H r c Hc). }
  split; [done|..]; subst s'; cbn [counters set_counters set_svc sys_mem mem_counters].
  - intros r' c'. rewrite calls_app. unfold calls at 2. csimpl.
    intros [[<- <-]|[Hne H]]%lookup_insert_Some.
    + rewrite decide_True by done. csimpl. rewrite foldl_app. by apply counter_step_tally, Ht.
    + rewrite decide_False by done. csimpl. rewrite app_nil_r. by apply Ht.
  - intros r'. rewrite fmap_app, elem_of_app. csimpl. rewrite list_elem_of_singleton.
    rewrite lookup_insert_is_Some'. intros [H| ->]; [right; by apply Hk|by left].
Qed.

Lemma logged_inv h s : logged h s -> history_inv h s.
Proof.
  intros Hl. induction Hl as [k i ms H|h l s s' _ IH Hst].
  { split; [by eapply reach_initial|done|]. intros r Hr. by apply not_elem_of_nil in Hr. }
  pose proof (reach_step _ _ _ _ (hi_reachable _ _ IH) (logged_step_step _ _ _ Hst)) as Hr'.
  destruct Hst as [s r c o Hr Ho _|s r name cu iz at_ Hr Hn|s Ht|s Ht Hw Hp|s s' Hst Hc];
    rewrite ?app_nil_r.
  - by apply history_call.
  - destruct IH as [Hr0 Ht Hk]. split; [done|..];
      cbn [counters set_counters set_svc sys_mem mem_counters].
    + intros r' c' [[<- <-]|[Hne H]]%lookup_insert_Some; [|by apply Ht].
      rewrite calls_other; [done|]. intros H%Hk. rewrite Hr in H. by destruct H.
    + intros r' H%Hk. rewrite lookup_insert_is_Some'. by right.
  - by eapply history_collect, (tick_collects time_now).
  - by eapply history_collect, (flush_collects time_now).
  - destruct IH as [Hr0 Ht Hk]. split; rewrite ?Hc; done.
Qed.

(** What was counted is what [Get] returns. *)
Lemma counted_total n h s : history_inv h s -> counted n h s = total n (counters s).
Proof.
  intros [_ Ht _]. unfold counted, total, mem_sum. apply sum_by_ext.
  intros [r c] Hrc%elem_of_map_to_list. cbn. case_decide; [|done].
  unfold tally. by rewrite <- (Ht r c Hrc).
Qed.

(** C2. Conservation for cumulative counters.  Let the counters of a name all be
    cumulative ones.  In every state of the service, whatever the interleaving of calls,
    collections, posts and failures: [Get] returns for each counter what the calls of
    [Inc], [Add], [Set] and [SetInc] made on it so far add up to; and, modulo 2^64, what
    the calls on the counters of the name add up to is what the sender has accepted,
    plus what is being posted, plus what is queued, plus what is not collected yet.
    Nothing is lost and nothing is reported twice. *)
Theorem measurements_conserved h s n
  (Hh : logged h s) (Hn : cumulative_name n (counters s)) :
  (forall r c, counters s !! r = Some c -> Get c = tally (calls r h)) /\
  counted n h s
    =64 (accepted n s + in_flight n s + queued n s + mem_sum n c_value (counters s))%Z.
Proof.
  pose proof (logged_inv h s Hh) as Hi. split.
  - intros r c Hc. unfold tally. by rewrite <- (hi_tally _ _ Hi r c Hc).
  - rewrite (counted_total n h s Hi). apply (conservation time_now uuid); [done| |done].
    apply (hi_reachable _ _ Hi).
Qed.

(** C4. [Stop] loses nothing that cumulative counters have counted.  When no post is
    pending any more, the counters of a name are all cumulative and registered, and the
    sender accepts the last post, then the queue is empty and no goroutine is left, and
    what was accepted for the name is, modulo 2^64, what the calls on its counters add
    up to. *)
Theorem Stop_delivers_everything h s n sender
  (Hh : logged h s) (Hw : sys_waiting s = []) (Hp : sys_posting s = [])
  (Hn : cumulative_name n (counters s)) (Hreg : registered n s)
  (Hs : forall evs, sender evs = (([], None), evs)) :
  let s' := Stop time_now uuid sender s in
  s_eventPayloads (sys_svc s') = [] /\ sys_waiting s' = [] /\ sys_posting s' = [] /\
  accepted n s' =64 counted n h s.
Proof.
  pose proof (logged_inv h s Hh) as Hi. rewrite (counted_total n h s Hi).
  apply (Stop_delivers time_now uuid clock_range); try done. apply (hi_reachable _ _ Hi).
Qed.
End History.
