(* ===== verification/MonitorExamples.v ===== *)
(** * A run of the monitor service

    The service on the JSON codec and on a plain implementation of the event SDK:
    a counter is registered, counts, and is collected; the first post fails, and
    the service is stopped.  The run shows that the hypotheses of the theorems of
    [MonitorHistory] are met by real executions. *)

From S2P Require Import Prelude Counter GoJson Events Monitor MonitorJson MonitorSystem MonitorHistory.

Definition clock0 (n : nat) : Z := 1640648486858000000.
Definition uuid0 (n : nat) : string := "441d7a42".

Lemma clock0_range i : int64_range (clock0 i).
Proof. done. Qed.

Definition run0 : @system plain_sdk :=
  initial {| s_collectInterval := 1000; s_collectCount := 0; s_sendCountdown := 0;
             s_monitors := []; s_eventPayloads := [] |}.
Definition run1 : @system plain_sdk :=
  set_counters run0 (<[1%positive := NewCounterWithAttribs "sent" true true None]>
                       (mem_counters (sys_mem run0))).
Definition run2 : @system plain_sdk := set_svc run1 (NewMonitor "space-vpn" (sys_svc run1)) (sys_mem run1).
Definition run3 : @system plain_sdk :=
  set_svc run2 (set_monitors (sys_svc run2)
    (<[0%nat := AddCounter 1%positive (mkMonitor "space-vpn" [])]> (s_monitors (sys_svc run2))))
    (sys_mem run2).
Definition run4 : @system plain_sdk :=
  set_counters run3 (<[1%positive := (counter_step (NewCounterWithAttribs "sent" true true None)
                                        (OpSet 32)).2]> (mem_counters (sys_mem run3))).
Definition run5 : @system plain_sdk := tick clock0 (set_timer run4 true).
Definition batch5 : list eventPayload :=
  [mkEventPayload [mkMonitorSnapshot "space-vpn"
     [mkCounterSnapshot (Some "sent") 1640648486858 32 (Some None)]]].
Definition run6 : @system plain_sdk := send clock0 uuid0 run5 [] [] batch5.
Definition evs6 : list (@Event plain_sdk) := new_events clock0 uuid0 1 ∅ batch5.
Definition run7 : @system plain_sdk := respond run6 [] [] batch5 ([], Some (Errorf "failing post" [])) [].

Definition history6 : history := [(1%positive, OpSet 32)].

Lemma run6_logged : logged clock0 uuid0 history6 run6.
Proof.
  apply (logged_next _ _ history6 [] run5).
  2: { apply log_other; [|reflexivity]. apply (step_send _ _ run5 [] [] batch5). vm_compute. reflexivity. }
  apply (logged_next _ _ history6 [] (set_timer run4 true)); [|by apply log_tick].
  apply (logged_next _ _ history6 [] run4); [|by apply log_other; [apply step_start|]].
  apply (logged_next _ _ [] history6 run3).
  2: { by apply (log_call _ _ run3 1%positive (NewCounterWithAttribs "sent" true true None)). }
  apply (logged_next _ _ [] [] run2).
  2: { apply log_other; [|reflexivity].
       apply (step_add_counter _ _ run2 0 (mkMonitor "space-vpn" []) 1%positive);
         [reflexivity | by eexists]. }
  apply (logged_next _ _ [] [] run1); [|by apply log_other; [apply step_new_monitor|]].
  apply (logged_next _ _ [] [] run0); [|by apply log_new_counter].
  by apply (logged_initial _ _ 1 1000).
Qed.

Lemma run7_logged : logged clock0 uuid0 history6 run7.
Proof.
  apply (logged_next _ _ history6 [] run6); [apply run6_logged|].
  apply log_other; [|reflexivity].
  apply (step_respond _ _ run6 [] [] batch5 evs6); [vm_compute; reflexivity | done].
Qed.

Lemma run7_cumulative : cumulative_name "sent" (counters run7).
Proof. apply (bool_decide_unpack _). vm_compute. reflexivity. Qed.

Lemma run7_registered : registered "sent" run7.
Proof.
  intros r c Hr Hn. assert (r = 1%positive) as ->.
  { destruct (decide (r = 1%positive)); [done|].
    assert (mem_counters (sys_mem run7) = {[1%positive := mkCounter "sent" None true true 1 0 32]})
      as E by (vm_compute; reflexivity).
    rewrite E, lookup_singleton_ne in Hr by done. done. }
  constructor. by apply list_elem_of_singleton.
Qed.

Lemma measurements_conserved_witness :
  (32 =64 (accepted "sent" run7 + in_flight "sent" run7 + queued "sent" run7
           + mem_sum "sent" c_value (counters run7)))%Z
  /\ queued "sent" run7 = 32%Z.
Proof.
  split; [|vm_compute; reflexivity].
  destruct (measurements_conserved clock0 uuid0 clock0_range history6 run7 "sent"
    run7_logged run7_cumulative) as [_ H].
  exact H.
Defined.

Definition accept_all (evs : list (@Event plain_sdk))
    : (list (@CloudEventError plain_sdk) * option error) * list (@Event plain_sdk) :=
  (([], None), evs).

Lemma Stop_delivers_everything_witness :
  accepted "sent" (Stop clock0 uuid0 accept_all run7) =64 32%Z.
Proof.
  destruct (Stop_delivers_everything clock0 uuid0 clock0_range history6 run7 "sent" accept_all
    run7_logged eq_refl eq_refl run7_cumulative run7_registered (fun evs => eq_refl))
    as (_ & _ & _ & H).
  exact H.
Defined.

Lemma refused_payloads_requeued_witness :
  let mem := sys_mem run6 in
  let errs := (fun e => mkCloudEventError plain_sdk e "refused") <$> evs6 in
  exists eps,
    s_eventPayloads (post_response batch5 (errs, None) (sys_svc run6) mem).1
      = eps ++ s_eventPayloads (sys_svc run6) /\
    flat_payload (mem_attribs (post_response batch5 (errs, None) (sys_svc run6) mem).2) <$> eps
      = (fun p => normal_payload (flat_payload ∅ p)) <$> batch5.
Proof.
  cbv zeta.
  destruct (refused_payloads_requeued clock0 uuid0 1 ∅ batch5
    ((fun e => mkCloudEventError plain_sdk e "refused") <$> evs6) batch5
    (sys_svc run6) (sys_mem run6)) as [_ H].
  - apply map_Forall_empty.
  - repeat constructor; vm_compute; congruence.
  - repeat constructor. eexists 0%nat, _. split_and!; reflexivity.
  - destruct (post_response _ _ _ _) as [ms' mem']. destruct H as (eps & Hq & _ & Hf).
    exists eps. split; [exact Hq | exact Hf].
Defined.
