(* ===== verification/DaemonStatus.v ===== *)
(** * The status of a started daemon

    tailscale/tailscale_daemon.go and tailscale/wireguard_device.go together: which
    device [WireguardDevice] of a daemon asks for its state, before and after the
    goroutine that [createEngine] starts has published it. *)

From S2P Require Import Prelude GoStrings WGTypes DeviceParser Daemon.

(** ** What the attempts leave of the published device *)

Section Engine.
Variable env : engine_env.
Variable port : Z.

Lemma open_tunnel_device name e : wgDevice (open_tunnel env port name e).1 = wgDevice e.
Proof.
  unfold open_tunnel. destruct (tstun_New env name) as [dev [x|]]; [done|].
  destruct (HasPrefix name "tap:"); [done|].
  destruct (router_New env dev); [done|]. by destruct (dns_NewOSConfigurator env _).
Qed.

Lemma tryEngine_device name e : wgDevice (tryEngine env port name e).1 = wgDevice e.
Proof.
  unfold tryEngine. destruct (String.eqb name userspace).
  { by destruct (NewUserspaceEngine env _). }
  pose proof (open_tunnel_device name (set_netns e (negb false))) as H.
  destruct (open_tunnel env port name _) as [e' [x|c]]; [exact H|].
  by destruct (NewUserspaceEngine env c).
Qed.

Lemma try_names_device names errs e :
  wgDevice (try_names env port names errs e).1 = wgDevice e.
Proof.
  revert errs e. induction names as [|name names IH]; intros errs e; [done|]. cbn [try_names].
  pose proof (tryEngine_device name e) as H.
  destruct (tryEngine env port name e) as [e' [x|[c u]]]; cbn zeta; [|exact H].
  by rewrite IH.
Qed.
End Engine.

Section Status.
Context `{keys : WGKeys}.
Variable env : run_env.

(** What the device of an engine writes for [IpcGetOperation]. *)
Variable IpcGet : engine_config -> string * option error.

(** [WireguardDevice] of a daemon, whose [wgDevice] is that of its last engine. *)
Definition daemon_device (t : daemon) : result Device :=
  WireguardDevice (IpcGet <$> wgDevice (engine t)).

(** The goroutine of [createEngine] has run. *)
Definition device_published (t : daemon) : daemon := set_engine t (publish_device (engine t)).

Lemma run_engine_made t t' :
  run_engine env t = (t', Ok tt) ->
  exists c u, createEngine (engine_calls env) (port_ t) (tunname t) (engine t) = (engine t', Engine c u).
Proof.
  unfold run_engine. destruct (createEngine _ _ _ _) as [e r].
  destruct (tested env AtEngine _); [done|]. destruct r as [c u| |]; [|done..].
  destruct (GetResolver env); [|done]. destruct (tested env AtNetstack _); [done|].
  destruct (newNetstack env); [done|].
  pose proof (run_backend_keeps env u (set_engine t e)) as (_ & _ & _ & Hk).
  intros Hr. rewrite Hr in Hk. cbn in Hk. exists c, u. by rewrite Hk.
Qed.

Lemma Start_made t t' :
  Start env t = (t', Ok tt) ->
  exists c u, createEngine (engine_calls env) (port_ t) (tunname t) (engine t) = (engine t', Engine c u).
Proof.
  unfold Start, run. destruct (timer_Start env); [done|]. case_decide; [done|].
  destruct (monitor_New env); [done|]. destruct (safesocket_Listen env _); [done|].
  intros Hr. by apply run_engine_made in Hr.
Qed.

Context {laws : WGKeysLaws keys}.
Variable state : engine_config -> uapi_device.
Hypothesis state_ok : forall c, uapi_ok (state c) /\ Forall handshake_ok (u_peers (state c)).

(** C29. The status of a daemon is that of the tunnel it has chosen.  After a start that
    succeeds, [WireguardDevice] reports that WireGuard is not initialised until the
    publishing goroutine has run.  From then on it asks the device of the first name in
    the tunnel list that works: when that device writes its state in the text of the
    configuration protocol, and no peer had its last handshake on a whole second, the
    result has the keys, port and mark of that device and, peer by peer, its keys,
    networks, counters, keepalive, protocol version and time of the last handshake.
    Endpoints are not part of the result. *)
Theorem started_daemon_status os synology d l path t
  (Hs : Start env (NewTailscaleDaemon os synology d l path) = (t, Ok tt))
  (Hw : forall c, (IpcGet c).1 = uapi_text false (state c)) :
  exists before name after,
    Split "," (defaultTunName os synology) = before ++ name :: after /\
    Forall (fun n => ~ works (engine_calls env) 0 n) before /\ works (engine_calls env) 0 name /\
    daemon_device t = Err (Errorf ErrNoDevice []) /\
    daemon_device (device_published t) = Ok (device_of (state (config_for (engine_calls env) 0 name))).
Proof.
  apply Start_made in Hs as (c & u & Hc). unfold createEngine in Hc.
  cbn [tunname port_ engine NewTailscaleDaemon] in Hc.
  case_decide as He; [done|].
  pose proof (try_names_spec (engine_calls env) 0 (Split "," (defaultTunName os synology)) []
                (mkEngineState EmptyString true 0 0 [] None)) as [_ H].
  pose proof (try_names_device (engine_calls env) 0 (Split "," (defaultTunName os synology)) []
                (mkEngineState EmptyString true 0 0 [] None)) as Hd.
  rewrite Hc in H, Hd. cbn [fst snd] in H, Hd. destruct H as (b & n & a & ? & ? & ? & -> & _ & _ & Hp).
  exists b, n, a. split_and!; [done..| |].
  - unfold daemon_device. by rewrite Hd.
  - unfold daemon_device, device_published, publish_device. rewrite Hp. cbn.
    specialize (Hw (config_for (engine_calls env) 0 n)). destruct (IpcGet _) as [w e]. cbn in Hw. subst w.
    destruct (state_ok (config_for (engine_calls env) 0 n)) as [Hok Hh]. exact (uapi_parse false _ Hok Hh).
Qed.
End Status.

(** ** A daemon that falls back to the network stack of its own *)

Definition new_synology : daemon :=
  NewTailscaleDaemon "linux" true linux_paths InfoLevel "/var/lib/mycs/tailscaled.state".
Definition run_synology : run_env := no_driver_run None.
Definition started_synology : daemon := (Start run_synology new_synology).1.

Lemma started_daemon_status_witness :
  exists before name after,
    Split "," "tailscale0,userspace-networking" = before ++ name :: after /\
    Forall (fun n => ~ works no_driver 0 n) before /\ works no_driver 0 name /\
    daemon_device (fun _ => (uapi_text false device2, None)) started_synology = Err (Errorf ErrNoDevice []) /\
    daemon_device (fun _ => (uapi_text false device2, None)) (device_published started_synology)
      = Ok (device_of device2).
Proof.
  apply (started_daemon_status run_synology (fun _ => (uapi_text false device2, None)) (fun _ => device2)
           (fun _ => conj device2_ok device2_handshakes) "linux" true linux_paths InfoLevel "/var/lib/mycs/tailscaled.state"
           started_synology); reflexivity.
Defined.
