(* ===== verification/Publishing.v ===== *)
(** * From the monitors to the consumer

    monitors/monitor.go and events/events.go together.  The sender of a monitor service
    prepares its events with [CreatePublishEventList], gives the payloads to a publishing
    service and pairs the service's results with the events by
    [CreateCloudEventErrorList].  Such a sender does what [MonitorSystem] asks of one, so
    what a consumer decodes from the payloads that were taken adds up with what is still
    on its way. *)

From S2P Require Import Prelude GoStrings GoEncoding Counter Events Monitor MonitorJson MonitorSystem MonitorHistory MonitorExamples.

(** What the results say was taken, of a list that they are about. *)
Definition taken {A} (results : list PublishEventResult) (l : list A) : list A :=
  omap (fun '(r, x) => if pr_Success r then Some x else None) (zip results l).

Lemma taken_fmap {A B} (f : A -> B) results l : taken results (f <$> l) = f <$> taken results l.
Proof.
  unfold taken. revert l. induction results as [|r results IH]; intros [|x l]; try done. csimpl.
  rewrite IH. by destruct (pr_Success r).
Qed.

Section Publishing.
Context `{sdk : CloudEvents} `{codec : PayloadCodec}.
Variable time_now : nat -> Z.
Variable uuid : nat -> string.
Variable zlib_write : string -> result string.
Variable eventSource : string.

(** ** The system *)

(** The monitor service, and the payloads that the publishing service has taken. *)
Record published := mkPublished {
  pub_sys : system;
  pub_bus : list PublishDataInput;
}.

(** A step of the monitor service in which the sender accepts nothing, with the calls
    on counters that it is; or the sender answers after the publishing service has given
    one result for each payload. *)
Inductive pub_step : history -> published -> published -> Prop :=
| pub_internal l s s' bus :
    logged_step time_now uuid l s s' -> sys_accepted s' = sys_accepted s ->
    pub_step l (mkPublished s bus) (mkPublished s' bus)
| pub_publish s bus p1 p2 batch evs payloads evs' results errs :
    sys_posting s = p1 ++ (batch, evs) :: p2 ->
    CreatePublishEventList zlib_write eventSource evs = (Ok payloads, evs') ->
    length results = length payloads ->
    CreateCloudEventErrorList results evs' = Ok errs ->
    pub_step [] (mkPublished s bus)
      (mkPublished (respond s p1 p2 batch (errs, None) (taken results evs'))
                   (bus ++ taken results payloads)).

Inductive pub_logged : history -> published -> Prop :=
| pub_initial h s : logged time_now uuid h s -> sys_accepted s = [] -> pub_logged h (mkPublished s [])
| pub_next h l p p' : pub_logged h p -> pub_step l p p' -> pub_logged (h ++ l) p'.

(** ** The consumer *)

(** Decompression, and the data of an event from its JSON text. *)
Variable zlib_read : string -> option string.
Variable read_event : string -> option string.

Definition consumed (d : PublishDataInput) : option flatPayload :=
  z ← b64_DecodeString (pd_Payload d); t ← zlib_read z; data ← read_event t; payload_Unmarshal data.

Definition consumed_amount (n : string) (d : PublishDataInput) : Z :=
  match consumed d with Some f => flat_amount n f | None => 0 end.

Context `{!CloudEventsLaws sdk} `{!PayloadCodecLaws codec}.
Hypothesis clock_range : forall i, int64_range (time_now i).
Hypothesis zlib_inverse : forall p z, zlib_write p = Ok z -> zlib_read z = Some p.
Hypothesis zlib_total : no_panic zlib_write.

(** The events of a monitor service, as they are published. *)
Definition is_published (e : Event) : Prop :=
  exists i data, e = SetSource eventSource (new_event time_now uuid i data).

(** The SDK marshals an event that has an identifier, a source and a type, and its data
    can be read from the text; the compressor writes to memory. *)
Hypothesis events_prepared : forall e, is_published e -> is_Some (prepared zlib_write e).
Hypothesis event_inverse : forall e t,
  is_published e -> MarshalJSON e = Ok t -> read_event t = Some (Data e).

(** The consumer finds in a payload what the event carries. *)
Lemma consumed_prepared n e d :
  is_published e -> prepared zlib_write e = Some d -> consumed_amount n d = event_amount n e.
Proof.
  intros Hp. unfold prepared. destruct (NewPublishDataInput zlib_write e) as [d'| |] eqn:E; [|done..].
  intros [= ->]. unfold NewPublishDataInput in E. bind_inv. subst d.
  unfold consumed_amount, consumed, event_amount. cbn [pd_Payload]. rewrite b64_decode_encode.
  cbn [mbind option_bind]. rewrite (zlib_inverse _ _ Ha0). cbn [mbind option_bind].
  by rewrite (event_inverse _ _ Hp Ha).
Qed.

Lemma consumed_taken n results evs :
  Forall is_published evs ->
  sum_by (consumed_amount n) (taken results (omap (prepared zlib_write) evs))
    = sum_by (event_amount n) (taken results evs).
Proof.
  intros He. revert results. induction He as [|e evs He _ IH]; intros [|r results]; try done.
  destruct (events_prepared e He) as [d Hd]. csimpl. rewrite Hd. unfold taken in *. csimpl. specialize (IH results).
  destruct (pr_Success r); csimpl; [|exact IH]. by rewrite (consumed_prepared n e d He Hd), IH.
Qed.

(** ** The sender of [MonitorSystem] *)

(** Every event is taken or reported. *)
Lemma taken_failed results (evs : list Event) :
  length results = length evs -> evs ≡ₚ (ce_Event <$> failed results evs) ++ taken results evs.
Proof.
  revert evs. induction results as [|r results IH]; intros [|e evs] H; try done.
  injection H as H. unfold failed, taken in *. csimpl.
  destruct (pr_Success r); csimpl; rewrite (IH evs H) at 1; [by rewrite Permutation_middle|done].
Qed.

Definition is_monitor_event (e : Event) : Prop := exists i data, e = new_event time_now uuid i data.

Lemma published_all evs :
  Forall is_monitor_event evs -> Forall is_published (SetSource eventSource <$> evs).
Proof.
  intros H. apply Forall_fmap. eapply Forall_impl; [exact H|]. intros e (i & data & ->).
  by eexists _, _.
Qed.

Lemma prepared_length evs :
  Forall is_published evs -> length (omap (prepared zlib_write) evs) = length evs.
Proof.
  induction 1 as [|e evs He _ IH]; [done|]. destruct (events_prepared e He) as [d Hd]. csimpl. rewrite Hd.
  csimpl. by rewrite IH.
Qed.

(** The answer of a sender that publishes is one that [MonitorSystem] allows. *)
Lemma publish_answer evs payloads evs' results errs :
  Forall is_monitor_event evs ->
  CreatePublishEventList zlib_write eventSource evs = (Ok payloads, evs') ->
  length results = length payloads ->
  CreateCloudEventErrorList results evs' = Ok errs ->
  answer_ok evs (taken results evs') (errs, None) /\
  evs' = SetSource eventSource <$> evs /\ payloads = omap (prepared zlib_write) evs'.
Proof.
  intros Hm Hc Hl He. rewrite create_list_prepared in Hc by done. simplify_eq.
  rewrite prepared_length in Hl by (by apply published_all).
  unfold CreateCloudEventErrorList in He. rewrite error_list_from_spec in He by lia.
  rewrite drop_0 in He. injection He as <-. split_and!; [|done..]. cbn.
  assert (Data <$> evs = Data <$> (SetSource eventSource <$> evs)) as ->.
  { rewrite <- list_fmap_compose. apply list_fmap_ext. intros i e _. cbn. by rewrite Data_SetSource. }
  by rewrite <- (taken_failed results _ Hl).
Qed.

Lemma new_events_monitor i h batch : Forall is_monitor_event (new_events time_now uuid i h batch).
Proof. revert i. induction batch as [|p batch IH]; intros i; constructor; [by eexists _, _|done]. Qed.

Definition posts_monitor_events (s : system) : Prop :=
  Forall (fun p => Forall is_monitor_event p.2) (sys_posting s).

Lemma posts_step s s' : step time_now uuid s s' -> posts_monitor_events s -> posts_monitor_events s'.
Proof.
  unfold posts_monitor_events. destruct 1; intros Hp; try done.
  - unfold tick. destruct (collect time_now _ _) as [[[b|] ms] mem]; done.
  - unfold flush. destruct (collectEvents time_now _ _) as [ms mem]. by destruct (postEvents ms).
  - unfold send. cbn. pose proof (new_events_monitor (mem_clock (sys_mem s)) (mem_attribs (sys_mem s)) batch) as Hn.
    destruct (new_events _ _ _ _ batch); [done|]. apply Forall_app. split; [done|]. by constructor.
  - unfold respond. destruct (post_response _ _ _ _) as [ms mem]. cbn.
    match goal with H : sys_posting s = _ |- _ => rewrite H in Hp end.
    apply Forall_app in Hp as [H1 [_ H2]%Forall_cons]. by apply Forall_app.
Qed.

Lemma posts_reachable s : reachable time_now uuid s -> posts_monitor_events s.
Proof. induction 1; [constructor|by eapply posts_step]. Qed.

Lemma pub_invariant h p n :
  pub_logged h p ->
  logged time_now uuid h (pub_sys p) /\
  sum_by (consumed_amount n) (pub_bus p) = accepted n (pub_sys p).
Proof.
  induction 1 as [h s Hr Ha|h l p p' _ [Hr Hs] Hst].
  { split; [done|]. unfold accepted. cbn. by rewrite Ha. }
  destruct Hst as [l s s' bus Hst Hacc|s bus p1 p2 batch evs payloads evs' results errs Hp Hc Hl He];
    cbn [pub_sys pub_bus] in *.
  { split; [by eapply logged_next|]. unfold accepted in *. by rewrite Hacc. }
  assert (Forall is_monitor_event evs) as Hm.
  { pose proof (posts_reachable s (logged_reachable _ _ _ _ Hr)) as H. unfold posts_monitor_events in H.
    rewrite Hp in H. by apply Forall_app in H as [_ [H _]%Forall_cons]. }
  destruct (publish_answer _ _ _ _ _ Hm Hc Hl He) as (Hok & -> & ->). split.
  - eapply logged_next; [exact Hr|]. apply log_other; [by eapply step_respond|apply respond_counters].
  - rewrite sum_by_app, Hs, consumed_taken by (by apply published_all).
    unfold accepted, respond. destruct (post_response _ _ _ _). cbn [sys_accepted]. by rewrite sum_by_app.
Qed.

(** C1. Nothing that cumulative counters measure gets lost between their callers and the
    consumer of the events.  Let the counters of a name all be cumulative, let the
    sender of the monitor service publish with the functions of the events package, and
    let the events of the service be ones that can be prepared.  Then in every state,
    whatever payloads are refused and whenever calls fail, what the calls of [Inc],
    [Add], [Set] and [SetInc] on the counters of the name add up to is, modulo 2^64, what
    a consumer decodes from the payloads that were taken (base64, decompression, the
    JSON of the event and of its data), plus what is being posted, queued or not
    collected yet. *)
Theorem published_measurements_conserved h p n
  (Hp : pub_logged h p) (Hn : cumulative_name n (counters (pub_sys p))) :
  counted n h (pub_sys p)
    =64 (sum_by (consumed_amount n) (pub_bus p) + in_flight n (pub_sys p) + queued n (pub_sys p)
         + mem_sum n c_value (counters (pub_sys p)))%Z.
Proof.
  destruct (pub_invariant h p n Hp) as [Hl ->].
  pose proof (logged_inv time_now uuid clock_range h _ Hl) as Hi.
  rewrite (counted_total time_now uuid n h _ Hi).
  apply (conservation time_now uuid); [done| |done]. apply (hi_reachable _ _ _ _ Hi).
Qed.

(** What the hypothesis on preparing events is for: an event that cannot be prepared is
    neither published nor reported, so the service takes it for accepted and its
    payload is gone. *)
Theorem unprepared_event_lost e batch ms mem :
  prepared zlib_write (SetSource eventSource e) = None ->
  exists evs', CreatePublishEventList zlib_write eventSource [e] = (Ok [], evs') /\
    CreateCloudEventErrorList [] evs' = Ok [] /\
    post_response batch ([], None) ms mem = (ms, mem).
Proof.
  intros He. eexists. rewrite create_list_prepared by done. csimpl. by rewrite He.
Qed.
End Publishing.

(** ** A publication of the run of [MonitorExamples] *)

Definition node_source : string := "urn:mycs:node".

(** The data of a plain event, after its identifier and its source. *)
Definition read_plain (t : string) : option string :=
  i ← Index "|" t;
  let t := s_drop (S i) t in
  j ← Index "|" t;
  Some (s_drop (S j) t).

Lemma plain_published e :
  is_published (sdk := plain_sdk) clock0 uuid0 node_source e ->
  MarshalJSON e = Ok ("441d7a42|urn:mycs:node|" +:+ Data e).
Proof. by intros (i & [t|] & ->). Qed.

Lemma plain_prepared e :
  is_published (sdk := plain_sdk) clock0 uuid0 node_source e -> is_Some (prepared Ok e).
Proof.
  intros He. unfold prepared, NewPublishDataInput. rewrite (plain_published e He).
  cbn [mbind result_bind]. by eexists.
Qed.

Lemma plain_read e t :
  is_published (sdk := plain_sdk) clock0 uuid0 node_source e -> MarshalJSON e = Ok t ->
  read_plain t = Some (Data e).
Proof. intros He. rewrite (plain_published e He). by intros [= <-]. Qed.

Lemma plain_no_panic : no_panic (sdk := plain_sdk) Ok.
Proof. intros e. unfold NewPublishDataInput. simpl. by case_decide. Qed.

Definition taken6 : list PublishEventResult := [mkPublishEventResult true EmptyString].

Definition bus6 : list PublishDataInput :=
  match (CreatePublishEventList (sdk := plain_sdk) Ok node_source evs6).1 with
  | Ok payloads => payloads
  | _ => []
  end.

Definition pub7 : published (sdk := plain_sdk) :=
  mkPublished (respond run6 [] [] batch5 ([], None)
                 (taken taken6 (SetSource (CloudEvents := plain_sdk) node_source <$> evs6)))
    ([] ++ taken taken6 bus6).

Lemma pub7_logged : pub_logged clock0 uuid0 Ok node_source history6 pub7.
Proof.
  apply (pub_next _ _ _ _ history6 [] (mkPublished run6 [])).
  { apply pub_initial; [apply run6_logged|reflexivity]. }
  apply (pub_publish clock0 uuid0 Ok node_source run6 [] [] [] batch5 evs6 bus6
           (SetSource (CloudEvents := plain_sdk) node_source <$> evs6) taken6 []); vm_compute; reflexivity.
Qed.

Lemma published_measurements_conserved_witness :
  (32 =64 (sum_by (consumed_amount Some read_plain "sent") (pub_bus pub7)
           + in_flight "sent" (pub_sys pub7) + queued "sent" (pub_sys pub7)
           + mem_sum "sent" c_value (counters (pub_sys pub7))))%Z
  /\ sum_by (consumed_amount Some read_plain "sent") (pub_bus pub7) = 32%Z.
Proof.
  split; [|vm_compute; reflexivity].
  exact (published_measurements_conserved (sdk := plain_sdk) clock0 uuid0 Ok node_source Some read_plain clock0_range
           ltac:(intros p z [= ->]; reflexivity) plain_no_panic plain_prepared plain_read history6 pub7 "sent"
           pub7_logged run7_cumulative).
Defined.
