(* ===== verification/VpnTraffic.v ===== *)
(** * The traffic of the VPN, from the device to the cloud

    [WireguardClient] beside [MonitorSystem]: the client registers its two counters
    with a monitor service and sets them from the totals of its device, while the
    service collects, posts, fails and retries, and other clients of the service move
    their own counters.  The theorem follows the bytes from the device to the events
    that the sender accepted. *)

From S2P Require Import Prelude Counter GoJson Events Monitor MonitorJson MonitorSystem MonitorHistory MonitorExamples WGTypes WireguardClient.

Section Traffic.
Context `{sdk : CloudEvents} `{codec : PayloadCodec}.
Context `{!CloudEventsLaws sdk} `{!PayloadCodecLaws codec}.
Variable time_now : nat -> Z.
Variable uuid : nat -> string.
Hypothesis clock_range : forall i, int64_range (time_now i).

(** Where the counters of the client are. *)
Variables sent recd : counter_ref.
Hypothesis sent_recd : sent <> recd.

(** The codec takes the names the client uses. *)
Hypothesis names_ok : Forall (fun n => text_ok n = true) ["sent"; "recd"; "space-vpn"].

Implicit Types (s : @system sdk).

(** [newWireguardClient] on the monitor service of the system. *)
Definition install s : system :=
  match newWireguardClient None sent recd (Some (sys_svc s)) with
  | Ok (m, Some ms) =>
      set_svc s ms (mkMemory (<[recd := m_recd m]> (<[sent := m_sent m]> (counters s)))
                      (mem_attribs (sys_mem s)) (mem_clock (sys_mem s)))
  | _ => s
  end.

(** The client's view of its counters. *)
Definition client_at s (m : metrics) : Prop :=
  counters s !! sent = Some (m_sent m) /\ counters s !! recd = Some (m_recd m).

(** Steps that are not the client's: other counters are made and moved, the service
    collects, and everything that leaves the counters alone and unregisters none. *)
Inductive foreign : system -> system -> Prop :=
| foreign_counter s r c o :
    r <> sent -> r <> recd -> counters s !! r = Some c -> op_ok o ->
    match o with OpCollect _ => False | _ => True end ->
    foreign s (set_counters s (<[r := (counter_step c o).2]> (counters s)))
| foreign_new_counter s r name cu iz at_ :
    name <> "sent" -> name <> "recd" -> counters s !! r = None -> text_ok name = true ->
    foreign s (set_counters s (<[r := NewCounterWithAttribs name cu iz at_]> (counters s)))
| foreign_tick s : sys_timer s = true -> foreign s (tick time_now s)
| foreign_flush s :
    sys_timer s = false -> sys_waiting s = [] -> sys_posting s = [] ->
    foreign s (flush time_now s)
| foreign_other s s' :
    step time_now uuid s s' -> counters s' = counters s ->
    (forall r, Exists (fun m => r ∈ m_counters m) (s_monitors (sys_svc s)) ->
               Exists (fun m => r ∈ m_counters m) (s_monitors (sys_svc s'))) ->
    foreign s s'.

(** The states of the service while the client is there, with the last totals of the
    device, received and sent.  [recordNetworkMetrics] sets one counter and then
    the other; anything may happen in between. *)
Inductive traffic : system -> Z * Z -> Prop :=
| traffic_new s :
    reachable time_now uuid s -> counters s !! sent = None -> counters s !! recd = None ->
    (forall r c, counters s !! r = Some c -> c_name c <> "sent" /\ c_name c <> "recd") ->
    traffic (install s) (0, 0)%Z
| traffic_recd s t m r :
    traffic s t -> client_at s m -> record_ok (MRecord r) ->
    traffic (set_counters s (<[recd := m_recd (recordNetworkMetrics r m)]> (counters s)))
            (last_total fst t.1 (MRecord r), t.2)
| traffic_sent s t m r :
    traffic s t -> client_at s m -> record_ok (MRecord r) ->
    traffic (set_counters s (<[sent := m_sent (recordNetworkMetrics r m)]> (counters s)))
            (t.1, last_total snd t.2 (MRecord r))
| traffic_foreign s s' t : traffic s t -> foreign s s' -> traffic s' t.

(** ** The counters of one direction *)

Record direction s (n : string) (r : counter_ref) (v : Z) : Prop := {
  dir_here : exists c, counters s !! r = Some c /\ c_name c = n;
  dir_only : forall r' c, counters s !! r' = Some c -> c_name c = n -> r' = r;
  dir_cumulative : cumulative_name n (counters s);
  dir_total : total n (counters s) = v;
  dir_registered : Exists (fun m => r ∈ m_counters m) (s_monitors (sys_svc s));
}.

Lemma mem_sum_only n w r c (cs : gmap counter_ref Counter) :
  cs !! r = Some c -> c_name c = n ->
  (forall r' c', cs !! r' = Some c' -> c_name c' = n -> r' = r) -> mem_sum n w cs = w c.
Proof.
  intros Hr Hn Ho. rewrite (mem_sum_delete n w cs r c Hr), decide_True by done.
  replace (mem_sum n w (delete r cs)) with 0%Z; [lia|]. symmetry.
  apply sum_by_zero. intros [r' c'] [Hne H]%elem_of_map_to_list%lookup_delete_Some. cbn.
  rewrite decide_False; [done|]. intros Hn'. by specialize (Ho r' c' H Hn').
Qed.

Lemma direction_get s n r v c :
  direction s n r v -> counters s !! r = Some c -> c_name c = n /\ Get c = v.
Proof.
  intros [(c' & Hc & Hn) Ho _ Ht _] Hr. simplify_eq. split; [done|].
  symmetry. by apply (mem_sum_only _ Get r).
Qed.

(** Setting the counter of the direction. *)
Lemma direction_set s n r v c w :
  direction s n r v -> counters s !! r = Some c -> int64_range w -> counter_ok c ->
  direction (set_counters s (<[r := Set_ w c]> (counters s))) n r w.
Proof.
  intros Hd Hr Hw Hok. destruct (direction_get _ _ _ _ _ Hd Hr) as [Hn _].
  pose proof (counter_step_name c (OpSet w)) as Hn'. cbn in Hn'.
  pose proof (counter_step_cumalative c (OpSet w)) as Hcu. cbn in Hcu.
  destruct Hd as [_ Ho Hc Ht Hreg].
  assert (forall r' c', <[r := Set_ w c]> (counters s) !! r' = Some c' -> c_name c' = n -> r' = r)
    as Ho'.
  { intros r' c' [[? _]|[_ H]]%lookup_insert_Some Hc'; [done|by eapply Ho]. }
  split; cbn [counters set_counters set_svc sys_mem mem_counters sys_svc]; try done.
  - exists (Set_ w c). rewrite lookup_insert_eq. split; [done|congruence].
  - by eapply cumulative_name_update; [exact Hr|..].
  - unfold total. rewrite (mem_sum_only n Get r (Set_ w c)); [by apply Get_Set| |congruence|done].
    by rewrite lookup_insert_eq.
Qed.

(** Moving another counter. *)
Lemma direction_other s n r v r' c c' :
  direction s n r v -> r' <> r -> counters s !! r' = Some c -> c_name c' = c_name c ->
  c_cumalative c' = c_cumalative c ->
  direction (set_counters s (<[r' := c']> (counters s))) n r v.
Proof.
  intros [(c0 & Hc0 & Hn0) Ho Hc Ht Hreg] Hne Hr Hn Hcu.
  assert (c_name c <> n) as Hcn by (intros E; apply Hne; by eapply Ho).
  split; cbn [counters set_counters set_svc sys_mem mem_counters sys_svc]; try done.
  - exists c0. by rewrite lookup_insert_ne.
  - intros r1 c1 [[-> <-]|[_ H]]%lookup_insert_Some Hn1; [congruence|by eapply Ho].
  - by eapply cumulative_name_update; [exact Hr|..].
  - unfold total. rewrite (mem_sum_update n Get _ r' c c' Hr Hn), decide_False by done.
    by rewrite Z.add_0_r.
Qed.

(** A new counter under another name. *)
Lemma direction_new s n r v r' c' :
  direction s n r v -> counters s !! r' = None -> c_name c' <> n ->
  direction (set_counters s (<[r' := c']> (counters s))) n r v.
Proof.
  intros [(c0 & Hc0 & Hn0) Ho Hc Ht Hreg] Hr Hn.
  split; cbn [counters set_counters set_svc sys_mem mem_counters sys_svc]; try done.
  - exists c0. rewrite lookup_insert_ne; [done|]. intros ->. congruence.
  - intros r1 c1 [[-> <-]|[_ H]]%lookup_insert_Some Hn1; [done|by eapply Ho].
  - by apply map_Forall_insert_2.
  - unfold total. rewrite (mem_sum_fresh n Get _ r' c' Hr), decide_False by done. done.
Qed.

(** A collection. *)
Lemma direction_collect s s' n r v :
  inv s -> direction s n r v ->
  sys_mem s' = (collect_monitors time_now (s_monitors (sys_svc s)) (sys_mem s)).2 ->
  s_monitors (sys_svc s') = s_monitors (sys_svc s) -> direction s' n r v.
Proof.
  intros Hi [(c0 & Hc0 & Hn0) Ho Hc Ht Hreg] Hm Hmon.
  pose proof (collect_monitors_collected time_now clock_range _ _ (inv_monitors _ Hi)) as Hcl.
  pose proof (collect_monitors_kept time_now (s_monitors (sys_svc s)) (sys_mem s)) as Hnm.
  destruct (collect_monitors time_now _ _) as [[mss added] mem']. cbn in Hm, Hnm.
  destruct Hcl as (Hcl & _ & _). unfold counters in *.
  split; unfold counters; rewrite ?Hm, ?Hmon; try done.
  - destruct (Hnm r c0 Hc0) as (c' & Hc' & Hn' & _). exists c'. split; [done|congruence].
  - intros r1 c1 Hr1 Hn1. assert (is_Some (mem_counters (sys_mem s) !! r1)) as [c2 Hc2].
    { apply elem_of_dom. rewrite <- (cl_dom _ _ _ Hcl). by eapply elem_of_dom_2. }
    destruct (Hnm r1 c2 Hc2) as (c3 & Hc3 & Hn3 & _). apply (Ho r1 c2 Hc2). congruence.
  - by apply (cl_cumulative _ _ _ Hcl).
  - by rewrite (cl_total _ _ _ Hcl).
Qed.

Lemma foreign_direction s s' n r v :
  inv s -> r = sent \/ r = recd -> n = "sent" \/ n = "recd" -> foreign s s' ->
  direction s n r v -> direction s' n r v.
Proof.
  intros Hi Hr Hn Hf Hd. destruct Hf as [s r' c o Hs Hrc Hl Ho Hnc|s r' name cu iz at_ Hs Hrc Hl Htx
    |s Ht|s Ht Hw Hp|s s' Hst Hcs Hreg].
  - eapply direction_other; [done| |done|apply counter_step_name|apply counter_step_cumalative].
    by destruct Hr; subst.
  - apply direction_new; [done..|]. cbn. by destruct Hn; subst.
  - destruct (tick_collects time_now s) as [Hm Hmon]. by eapply direction_collect.
  - destruct (flush_collects time_now s) as [Hm Hmon]. by eapply direction_collect.
  - destruct Hd as [Hh Hu Hc Htot Hx]. split; rewrite ?Hcs; try done. by apply Hreg.
Qed.

Lemma foreign_step s s' : foreign s s' -> step time_now uuid s s'.
Proof.
  intros H. destruct H; [by eapply step_counter|by apply step_new_counter|by apply step_tick
    |by apply step_flush|done].
Qed.

(** ** Installing the client *)

Lemma insert_last {A} (l : list A) x y : <[length l := y]> (l ++ [x]) = l ++ [y].
Proof. by rewrite insert_app_r_alt, Nat.sub_diag by lia. Qed.

Lemma install_reachable s :
  reachable time_now uuid s -> counters s !! sent = None -> counters s !! recd = None ->
  reachable time_now uuid (install s).
Proof.
  intros Hr Hs Hd. pose proof names_ok as Hn. rewrite !Forall_cons in Hn.
  destruct Hn as (Hn1 & Hn2 & Hn3 & _).
  set (s1 := set_counters s (<[sent := NewCounterWithAttribs "sent" true true None]> (counters s))).
  set (s2 := set_counters s1 (<[recd := NewCounterWithAttribs "recd" true true None]> (counters s1))).
  set (s3 := set_svc s2 (NewMonitor "space-vpn" (sys_svc s2)) (sys_mem s2)).
  set (add := fun (s : @system sdk) m => set_svc s (set_monitors (sys_svc s)
    (<[length (s_monitors (sys_svc s2)) := m]> (s_monitors (sys_svc s)))) (sys_mem s)).
  assert (forall (s : @system sdk) m r, reachable time_now uuid s ->
    s_monitors (sys_svc s) !! length (s_monitors (sys_svc s2)) = Some m ->
    is_Some (counters s !! r) -> reachable time_now uuid (add s (AddCounter r m))) as Hadd.
  { intros s0 m r H0 Hm Hc. eapply reach_step; [exact H0|]. by apply step_add_counter. }
  assert (reachable time_now uuid s3) as H3.
  { apply reach_step with s2; [apply reach_step with s1; [apply reach_step with s; [exact Hr|]|]|].
    - by apply step_new_counter.
    - apply step_new_counter; [|done].
      change (<[sent := NewCounterWithAttribs "sent" true true None]> (counters s) !! recd = None).
      by rewrite lookup_insert_ne.
    - by apply step_new_monitor. }
  assert (is_Some (counters s3 !! sent) /\ is_Some (counters s3 !! recd)) as [Hi1 Hi2].
  { cbn. rewrite lookup_insert_ne, !lookup_insert_eq by done. split; by eexists. }
  pose proof (Hadd s3 (mkMonitor "space-vpn" []) sent H3 (list_lookup_middle _ [] _ _ eq_refl) Hi1) as H4.
  unfold add in H4 at 1. cbn [s3 set_svc sys_svc NewMonitor set_monitors s_monitors] in H4.
  rewrite insert_last in H4. eapply (Hadd _ _ recd) in H4;
    [|cbn; by apply list_lookup_middle|exact Hi2].
  unfold add in H4. cbn [set_svc sys_svc set_monitors s_monitors] in H4.
  rewrite insert_last in H4. exact H4.
Qed.

Lemma direction_fresh s ms n r :
  cumulative_name n (counters s) -> counters s !! r = None ->
  (forall r' c, counters s !! r' = Some c -> c_name c <> n) ->
  Exists (fun m => r ∈ m_counters m) (s_monitors ms) ->
  direction (set_svc s ms (mkMemory (<[r := NewCounter n true true]> (counters s))
     (mem_attribs (sys_mem s)) (mem_clock (sys_mem s)))) n r 0%Z.
Proof.
  intros Hc Hr Hn Hx.
  assert (forall r' c, <[r := NewCounter n true true]> (counters s) !! r' = Some c ->
    c_name c = n -> r' = r) as Ho.
  { intros r' c [[<- _]|[_ H]]%lookup_insert_Some Hcn; [done|]. by apply Hn in H. }
  split; cbn [counters set_svc sys_mem mem_counters sys_svc]; try done.
  - exists (NewCounter n true true). by rewrite lookup_insert_eq.
  - by apply map_Forall_insert_2.
  - unfold total. by rewrite (mem_sum_only n Get r (NewCounter n true true)); [..|exact Ho]; rewrite ?lookup_insert_eq.
Qed.

Lemma install_directions s :
  (forall r c, counters s !! r = Some c -> c_name c <> "sent" /\ c_name c <> "recd") ->
  counters s !! sent = None -> counters s !! recd = None ->
  direction (install s) "recd" recd 0%Z /\ direction (install s) "sent" sent 0%Z.
Proof.
  intros Hn Hs Hd.
  set (ms := register_counters sent recd (sys_svc s)).
  set (s1 := set_svc s ms (mkMemory (<[sent := NewCounter "sent" true true]> (counters s))
     (mem_attribs (sys_mem s)) (mem_clock (sys_mem s)))).
  assert (forall r, r = sent \/ r = recd -> Exists (fun m => r ∈ m_counters m) (s_monitors ms)) as Hx.
  { intros r Hr. apply Exists_app. right. constructor. destruct Hr; subst r; cbn; set_solver. }
  assert (counters s1 !! recd = None) as Hd1 by (cbn; by rewrite lookup_insert_ne).
  split.
  - apply (direction_fresh s1 ms "recd" recd); [|done| |by apply Hx; right].
    + apply map_Forall_insert_2; [done|]. intros r c Hr E. by destruct (Hn r c Hr).
    + intros r c Hr. change (<[sent := NewCounter "sent" true true]> (counters s) !! r = Some c) in Hr.
      apply lookup_insert_Some in Hr as [[_ <-]|[_ H]]; [done|]. by apply Hn in H as [].
  - apply (direction_new s1 "sent" sent); [|done..].
    apply direction_fresh; [|done| |by apply Hx; left].
    + intros r c Hr E. by destruct (Hn r c Hr).
    + intros r c Hr. by apply Hn in Hr as [].
Qed.

(** ** The invariant *)

Lemma set_counters_same s r c :
  counters s !! r = Some c -> set_counters s (<[r := c]> (counters s)) = s.
Proof.
  intros Hr. rewrite insert_id by done. by destruct s as [? [] ? ? ? ?].
Qed.

(** A counter of the client is set when the total is positive. *)
Definition recorded (w : Z) (c : Counter) : Counter := if (0 <? w)%Z then Set_ w c else c.

Lemma record_direction s n r v c w n' r' v' :
  reachable time_now uuid s -> direction s n r v -> direction s n' r' v' -> r <> r' ->
  counters s !! r = Some c -> int64_range w ->
  let s' := set_counters s (<[r := recorded w c]> (counters s)) in
  reachable time_now uuid s' /\ direction s' n r (if (0 <? w)%Z then w else v) /\
  direction s' n' r' v'.
Proof.
  intros Hr Hd Hd' Hne Hc Hw. unfold recorded. destruct (0 <? w)%Z.
  2: { cbn zeta. rewrite set_counters_same by done. done. }
  assert (counter_ok c) as Hok.
  { pose proof (inv_counters _ (inv_reachable time_now uuid clock_range s Hr)) as H.
    by destruct (H r c Hc). }
  split_and!.
  - eapply reach_step; [exact Hr|]. by apply (step_counter _ _ s r c (OpSet w)).
  - by eapply direction_set.
  - eapply direction_other; [done..| |]; [exact (counter_step_name c (OpSet w))|].
    exact (counter_step_cumalative c (OpSet w)).
Qed.

Lemma traffic_inv s t :
  traffic s t ->
  reachable time_now uuid s /\ direction s "recd" recd t.1 /\ direction s "sent" sent t.2.
Proof.
  intros H. induction H as [s Hr Hs Hd Hn|s t m [[rv sv] err] _ (Hr & H1 & H2) [Hs Hd] [Hrv Hsv]
    |s t m [[rv sv] err] _ (Hr & H1 & H2) [Hs Hd] [Hrv Hsv]|s s' t _ (Hr & H1 & H2) Hf].
  - split; [by apply install_reachable|]. by apply install_directions.
  - destruct err as [e|]; cbn [recordNetworkMetrics m_recd last_total].
    + by rewrite set_counters_same.
    + apply (record_direction s "recd" recd t.1 (m_recd m) rv); done || congruence.
  - destruct err as [e|]; cbn [recordNetworkMetrics m_sent last_total].
    + by rewrite set_counters_same.
    + destruct (record_direction s "sent" sent t.2 (m_sent m) sv "recd" recd t.1) as (? & ? & ?); done.
  - pose proof (inv_reachable time_now uuid clock_range s Hr) as Hi.
    split; [by eapply reach_step, foreign_step|]. split; eapply foreign_direction; eauto.
Qed.

(** What the service holds of a direction adds up to the device's total. *)
Lemma direction_conserved s n r v c :
  reachable time_now uuid s -> direction s n r v -> counters s !! r = Some c ->
  Get c = v /\ v =64 (accepted n s + in_flight n s + queued n s + c_value c)%Z.
Proof.
  intros Hr Hd Hc. destruct (direction_get _ _ _ _ _ Hd Hc) as [Hn Hg]. split; [done|].
  pose proof (conservation time_now uuid clock_range s n Hr (dir_cumulative _ _ _ _ Hd)) as H.
  fold (counters s) in H. rewrite (dir_total _ _ _ _ Hd) in H. rewrite H.
  by rewrite (mem_sum_only n c_value r c) by (done || exact (dir_only _ _ _ _ Hd)).
Qed.

Lemma direction_stop s n r v sender :
  reachable time_now uuid s -> direction s n r v -> sys_waiting s = [] -> sys_posting s = [] ->
  (forall evs, sender evs = (([], None), evs)) ->
  accepted n (Stop time_now uuid sender s) =64 v.
Proof.
  intros Hr Hd Hw Hp Hs.
  assert (registered n s) as Hreg.
  { intros r' c Hc Hn. rewrite (dir_only _ _ _ _ Hd r' c Hc Hn). apply (dir_registered _ _ _ _ Hd). }
  destruct (Stop_delivers time_now uuid clock_range s n sender Hr Hw Hp
    (dir_cumulative _ _ _ _ Hd) Hreg Hs) as (_ & _ & _ & H).
  by rewrite H, <- (dir_total _ _ _ _ Hd).
Qed.

(** C3. The bytes of the device arrive.  While the client of a VPN reports to a monitor
    service, whatever the interleaving of its timer, of collections, posts, failures
    and retries, and of other users of the service: the client shows the last
    positive totals of the device in both directions, and each of them is what the
    sender has accepted, plus what is being posted, queued and not yet collected.  When the
    service is stopped with no post pending and the sender accepts the last one, what
    was accepted is the device's total. *)
Theorem vpn_traffic_delivered s t m
  (Ht : traffic s t) (Hm : client_at s m) :
  (BytesTransmitted m).1 = t /\
  t.1 =64 (accepted "recd" s + in_flight "recd" s + queued "recd" s + c_value (m_recd m))%Z /\
  t.2 =64 (accepted "sent" s + in_flight "sent" s + queued "sent" s + c_value (m_sent m))%Z /\
  forall sender, sys_waiting s = [] -> sys_posting s = [] ->
    (forall evs, sender evs = (([], None), evs)) ->
    accepted "recd" (Stop time_now uuid sender s) =64 t.1 /\
    accepted "sent" (Stop time_now uuid sender s) =64 t.2.
Proof.
  destruct (traffic_inv s t Ht) as (Hr & H1 & H2). destruct Hm as [Hs Hd].
  destruct (direction_conserved s "recd" recd t.1 (m_recd m) Hr H1 Hd) as [Hg1 Hb1].
  destruct (direction_conserved s "sent" sent t.2 (m_sent m) Hr H2 Hs) as [Hg2 Hb2].
  split_and!; [|done..|].
  - unfold BytesTransmitted. cbn. rewrite Hg1, Hg2. by destruct t.
  - intros sender Hw Hp Hsend. split; by eapply direction_stop.
Qed.
End Traffic.

(** ** A client that received 250 bytes and sent 40 *)

Definition vpn0 : @system plain_sdk := install 1%positive 2%positive run0.
Definition vpn_metrics0 : metrics := new_metrics.
Definition read1 : Z * Z * option error := (250, 40, None)%Z.
Definition vpn1 : @system plain_sdk :=
  set_counters vpn0 (<[2%positive := m_recd (recordNetworkMetrics read1 vpn_metrics0)]> (counters vpn0)).
Definition vpn_metrics1 : metrics :=
  mkMetrics (m_sent vpn_metrics0) (m_recd (recordNetworkMetrics read1 vpn_metrics0)) None.
Definition vpn2 : @system plain_sdk :=
  set_counters vpn1 (<[1%positive := m_sent (recordNetworkMetrics read1 vpn_metrics1)]> (counters vpn1)).
Definition vpn_metrics2 : metrics := recordNetworkMetrics read1 vpn_metrics1.

Lemma refs_differ : 1%positive <> 2%positive.
Proof. done. Qed.

Lemma names_fit : Forall (fun n => text_ok n = true) ["sent"; "recd"; "space-vpn"].
Proof. repeat (apply Forall_cons_2; [vm_compute; reflexivity|]). apply Forall_nil_2. Qed.

Lemma vpn2_traffic : traffic clock0 uuid0 1%positive 2%positive vpn2 (250, 40)%Z.
Proof.
  apply (traffic_sent _ _ _ _ vpn1 (250, 0)%Z vpn_metrics1 read1);
    [|by vm_compute|by split; vm_compute].
  apply (traffic_recd _ _ _ _ vpn0 (0, 0)%Z vpn_metrics0 read1);
    [|by vm_compute|by split; vm_compute].
  apply (traffic_new _ _ _ _ run0); [|done|done|].
  - by apply (reach_initial _ _ 1 1000).
  - intros r c Hr. assert (counters run0 = ∅) as E by done. by rewrite E, lookup_empty in Hr.
Qed.

Lemma vpn_traffic_delivered_witness :
  (BytesTransmitted vpn_metrics2).1 = (250, 40)%Z /\
  accepted "recd" (Stop clock0 uuid0 accept_all vpn2) =64 250%Z /\
  accepted "sent" (Stop clock0 uuid0 accept_all vpn2) =64 40%Z.
Proof.
  destruct (vpn_traffic_delivered clock0 uuid0 clock0_range 1%positive 2%positive refs_differ
    names_fit vpn2 (250, 40)%Z vpn_metrics2 vpn2_traffic) as (H1 & _ & _ & H2).
  - by vm_compute.
  - split; [exact H1|]. by apply (H2 accept_all).
Defined.
